(* ===== verification/_CoqProject ===== *)
-Q . S2P
Prelude.v
GoStrings.v
Regex.v
Azure.v
Api.v
Cosmos.v
CosmosLaws.v
CosmosSpec.v
Database.v
Frame.v
DatabaseSpec.v
External.v
Immutable.v
Net.v
Services.v
Subnets.v
Static.v
Domains.v
Permissions.v
Cidr.v
Wait.v
Azureclient.v
Dynamic.v
Frontend.v
Backend.v
Workers.v
Kube.v
Manager.v
Graph.v
Arm.v
InstallTemplates.v
Install.v
Create.v
Deploy.v
TemplatesSpec.v
Marshal.v
MarshalSpec.v
OrderedMap.v
SwaggerTypes.v
Client.v
Util.v
Swagger.v
SwaggerData.v
SwaggerSpec.v
SwaggerServed.v
Mirror.v
Errors.v
FrontendSpec.v
BackendSpec.v
Mux.v
Middleware.v
Authorizer.v
Environment.v
Metrics.v
Shutdown.v
Routes.v
RoutesSpec.v
SwaggerRequests.v
Rely.v
Lifecycle.v
InstallSpec.v
System.v
RefCollection.v
Preview.v
Reference.v
RefShared.v
RefInstall.v
DatabaseTheorems.v
FrontendTheorems.v
BackendTheorems.v
PureTheorems.v
ServerTheorems.v
InstallTheorems.v
TemplateTheorems.v
MarshalTheorems.v
MirrorTheorems.v
SwaggerTheorems.v
ClientTheorems.v
EnvironmentTheorems.v
SystemTheorems.v
