(* ===== verification/Prelude.v ===== *)
(** * ARO-RP: a verification library

    This library models the resource provider of Azure Red Hat OpenShift, the Go
    program under src/, and proves what it promises. The provider keeps clusters,
    subscriptions and operations as documents of a Cosmos DB account. A front end
    answers the requests of Azure Resource Manager: it validates them, writes what
    has to be done into the documents and answers at once. Back ends, on several
    machines, take the documents with work in them under a lease that they renew
    by a heart beat, do the work and report the outcome.

    ** The parts of the program and the files that model them

    - Prelude.v: results and panics of Go ([res]), programs in a state ([M]),
      what a program may do to the state ([steps]), the errors of the API.
      GoStrings.v, Regex.v, Net.v: what the source uses of Go's [strings], [strconv],
      [path/filepath], [regexp] and [net]; Azure.v: the vendored parsers of resource
      identifiers and UUIDs, from their sources.
    - Api.v: the documents and their enumerations (src/pkg/api).
    - Cosmos.v: the generated clients (src/pkg/database/cosmosdb), of documents and of
      databases, collections and triggers, over one function that answers a request,
      and what a retry comes to; CosmosLaws.v: the documented behaviour of the account
      as a class; CosmosSpec.v: what each call of the client does to the collection.
    - Database.v: the three collections (src/pkg/database), their queries, triggers
      and leases; Frame.v: a call on one collection leaves the others alone;
      DatabaseSpec.v: what each operation does to its collection.
    - External.v: the version 2019-12-31-preview and its conversions; Static.v: its
      static validation; Immutable.v: the walk by reflection over two clusters;
      Domains.v: the pattern of domain names; Permissions.v, Cidr.v, Dynamic.v: the
      dynamic validation, with the permissions of a role and the vendored check for
      overlapping networks; Preview.v: the version as it is registered
      (src/pkg/api/v20191231preview, src/pkg/util/immutable, permissions).
    - Services.v, Subnets.v: subnets, DNS zones and private endpoints over the Azure
      clients (src/pkg/util/subnet, dns, privateendpoint). Azureclient.v: the clients of
      Azure that the program makes of those of the SDK (src/pkg/util/azureclient).
    - Frontend.v: the handlers (src/pkg/frontend); FrontendSpec.v: what they do.
    - Mux.v: the vendored router; Middleware.v: the middleware; Authorizer.v: the
      authorizers of client certificates (src/pkg/util/clientauthorizer); Routes.v:
      the routes, the chain and the server; RoutesSpec.v: what reaches a handler.
    - Backend.v: the two kinds of worker (src/pkg/backend); BackendSpec.v: what they
      do; Workers.v: the main loop and its goroutines as a step relation.
    - Wait.v: the vendored polling and retrying; Kube.v: the API of a cluster and the
      configuration to reach it (src/pkg/util/restconfig).
    - Manager.v: the cluster manager's Delete and Update, Create.v its Create
      (src/pkg/backend/openshiftcluster).
    - Graph.v: the graph of the installer's assets; Arm.v: templates of Azure Resource
      Manager as data, and what makes one deployable (src/pkg/util/arm);
      InstallTemplates.v: the templates of an installation; Install.v: its phases
      (src/pkg/install); InstallSpec.v: what an installation writes.
    - Deploy.v: the templates of the service itself (src/pkg/deploy); TemplatesSpec.v:
      the order of their resources and the parts they refer to.
    - Marshal.v: the JSON of a template's resources, by reflection
      (src/pkg/util/arm/marshal.go); MarshalSpec.v: what it is.
    - Mirror.v: the mirror of the images of a release, a pool of goroutines
      (src/pkg/mirror), with its invariant, its progress and its end.
    - OrderedMap.v: objects of JSON that keep the order of their keys
      (src/pkg/util/orderedmap).
    - SwaggerTypes.v: the types of an API specification and their JSON; Swagger.v: the
      program that writes it, by a walk over the types of a Go package (src/pkg/swagger);
      SwaggerData.v: those packages as they are loaded, and the files under src/swagger
      that the program writes; SwaggerSpec.v: what the walk defines; SwaggerServed.v: what
      the specification refers to; SwaggerRequests.v: what the router makes of it.
    - Client.v: the generated client of the service (src/pkg/client), and its paths as
      they are read.
    - Environment.v: the three environments and what they are made of, the metadata of
      the machine and the front end's listener (src/pkg/env, src/pkg/util/instancemetadata,
      NewFrontend); then what an environment holds, and secrets as blocks.
    - Shutdown.v: the goroutines of the process until its end, as a step relation over
      that of Workers.v (src/cmd/aro/rp.go, Run of the front end).
    - Metrics.v: the lines of the statsd daemon and what emits them (src/pkg/metrics);
      Util.v: certificates and the places of log lines (src/pkg/util/tls, log).
    - Errors.v: which errors a program may return.
    - Rely.v: programs among others that write to the same account; Lifecycle.v: the
      invariant of clusters and operations, and that every operation of the program
      keeps it; System.v: the front ends and the back ends together, as a step
      relation.
    - RefCollection.v, Reference.v, RefShared.v, RefInstall.v: a collection, an account, a
      version and the surroundings of the manager that keep every law, on which the
      theorems' hypotheses hold and their witnesses are evaluated.
    - DatabaseTheorems.v, FrontendTheorems.v, BackendTheorems.v, PureTheorems.v,
      ServerTheorems.v, InstallTheorems.v, TemplateTheorems.v, MarshalTheorems.v,
      MirrorTheorems.v, SwaggerTheorems.v, ClientTheorems.v, EnvironmentTheorems.v,
      SystemTheorems.v: the properties.

    A handler or a worker is a program [M W A]: from a world of any type [W] to a
    result and a world. The result is a value, an error, a panic or the end of the
    fuel. The world is seen through classes: [Runtime] (clock, random identifiers,
    sleep), [Account] (one function per collection that answers the client's HTTP
    requests), [Env], [Url], [Codec]. [Collection] gives the documents that the world
    holds by key, and [ServiceLaws] what the service does to them; nothing else is
    assumed about the account. Pointers that can be nil are options, and following a
    nil one is a panic.

    ** What the theorems show

    - FrontendTheorems.v: what each handler has done when it accepts a request, that
      one it refuses changes nothing, what is shown and what is hidden.
    - ServerTheorems.v: only an authorized and validated request reaches a handler
      that writes, the router is a table, no handler ends the server, and the trusted
      certificates were current when they came.
    - BackendTheorems.v: a worker reports and lets go of what it took, a document is
      given up after five tries, and how many workers there are.
    - SystemTheorems.v: in every run of front ends, back ends and others, interleaved
      request by request, every cluster is being worked on or finished and free, and
      the operation it names exists. The back ends run the manager of Create.v, every
      phase of an installation included.
    - InstallTheorems.v: what an installation that succeeds has done, from whichever
      phase it was taken up, and that its loop ends; the order in which assets are
      generated, and the graph that comes back from its stored form.
    - TemplateTheorems.v: every template, of an installation and of the service, can be
      deployed, and names only resources, parts and parameters it has; the address of
      the internal load balancer.
    - MarshalTheorems.v: the JSON of a resource is that of one struct of all its fields,
      with the program's own tests of it evaluated.
    - MirrorTheorems.v: a mirror ends, has made every copy once, as one caller would have,
      and reports whether one failed; the comparison of versions is not an order.
    - SwaggerTheorems.v: the walk over the types ends and is complete, the files kept under
      src/swagger are those the program writes, and the server serves what they say;
      objects keep the order of their keys.
    - ClientTheorems.v: the requests of the client are those of the specification and pass
      every check of the server, and the client takes the answers that it declares.
    - EnvironmentTheorems.v: an environment without authentication listens on the machine
      only; what is read out of a secret; connections that fail are closed; the process
      gets to its end, but does not wait for its workers.
    - DatabaseTheorems.v: leases, queries over pages, retries, conditional writes.
    - PureTheorems.v: static and dynamic validation, the changes that are allowed,
      conversion, scaling and parsing.

    ** Bounds and fuel

    The retry has five tries and the client ten attempts, as in the source. The loop
    over the pages of a query has no bound in the source: its fuel is [page_bound],
    and [query_all_ends] shows that two calls more than the pages of the account are
    enough. Nor has the loop over the phases of an installation: [Install_] has three
    rounds, and [install_rounds] shows that more change nothing. The installer's assets
    are resolved to the depth [resolve_depth], a depth above their height being enough
    ([resolve_in_order]). The walk over the types of a package is as deep at most as there
    are types ([definitions_complete]), and the loop over the blocks of a secret takes no
    more turns than the secret has bytes ([secret_read]). A poll has as many ticks as its interval goes into its time,
    and a retry on conflict five tries. Strings are lists of bytes; anchored regular expressions are matched by
    derivatives, by recursion on the text, and need no fuel. Integers wrap at the
    width the source declares ([int64], [int32]).

    ** Not modelled

    - The HTTP and TLS servers of Go, which serve connections: Shutdown.v has the calls
      that start and stop them. The key vault, the metadata service of the machine, x509
      and PEM are the class [Platform] of Environment.v; sending a request and polling an
      operation the class [Sender] of Client.v. The loading of Go packages is data.
    - The vendored OpenShift installer: which assets there are, what they depend on and
      how they are generated are the class [Assets]; the validation of its configuration,
      the image it installs and the keys are the class [Creation].
    - The text of a template and the writing of files: the class [Files] of Deploy.v. The
      templates are data, as the code builds them; Marshal.v has a model of its own of the
      values that reflection sees, down to the tree of the JSON, not its text.
    - The library of container images and the service of the upgrade graph: the classes
      [Images] and [Upgrades] of Mirror.v.
    - Tokens of Azure Active Directory and the claims in them, and the Azure clients:
      classes of operations, in Services.v and Dynamic.v.
    - JSON: [Codec] holds an encoder and a decoder per type, without laws; a decoder
      that fails leaves its target as it was.
    - Case folding of letters that are not ASCII: (?i) of a pattern and [EqualFold]
      fold the 26 letters.
    - The SDK of Azure: the class [SDK] of Azureclient.v. The socket of the statsd daemon,
      and how floating-point numbers and times are formatted there: the class [Daemon] and
      parameters of Metrics.v. Cryptography: the class [Crypto] of Util.v.
    - The generated clients of the other two types of documents have the text of the one
      that is mapped. The command lines and the developers' tools: I/O. *)
From stdpp Require Export prelude strings pretty gmap list relations.
From Stdlib Require Export ZArith Lia.
From coqutil Require Export Datatypes.RecordSetters.
Export TriangleBracketNotations.

Declare Scope go_scope.
Delimit Scope go_scope with go.
Open Scope go_scope.

(** ** Error values

    The dynamic types of the Go [error] values that some caller tells apart by a
    type assertion or a type switch; every other error is [ErrOther].
    [api.CloudError] is [ErrCloud], [cosmosdb.Error] is [ErrCosmos], the front
    end's [statusCodeError] is [ErrStatusCode], and go-autorest's
    [autorest.DetailedError] is [ErrDetailed], with the code of the service's error
    when its [Original] is an [azure.RequestError], and no code otherwise. *)
Inductive CloudErrorBody := mkCloudErrorBody {
  ceb_Code : string;
  ceb_Message : string;
  ceb_Target : string;
  ceb_Details : list CloudErrorBody;
}.

Inductive error :=
| ErrCloud (StatusCode : Z) (body : CloudErrorBody)
| ErrCosmos (StatusCode : Z) (code message : string)
| ErrStatusCode (n : Z)
| ErrDetailed (StatusCode : Z) (serviceCode : string)
| ErrOther (message : string).

#[global] Instance CloudErrorBody_eq_dec : EqDecision CloudErrorBody.
Proof.
  refine (fix go x y :=
    let '(mkCloudErrorBody c m t d) := x in
    let '(mkCloudErrorBody c' m' t' d') := y in
    cast_if_and4 (decide (c = c')) (decide (m = m')) (decide (t = t')) (@list_eq_dec _ go d d'));
    congruence.
Defined.
#[global] Instance error_eq_dec : EqDecision error.
Proof. solve_decision. Defined.

(** ** Results and the state monad of the handlers

    [Ok a] is a return with a nil error, [Err e] a return with a non-nil error,
    [Panic] a Go run-time panic, [OutOfFuel] the cut-off of a loop whose number
    of iterations an external service decides. *)
Inductive res (A : Type) :=
| Ok (a : A)
| Err (e : error)
| Panic (why : string)
| OutOfFuel.
Arguments Ok {A} a.
Arguments Err {A} e.
Arguments Panic {A} why.
Arguments OutOfFuel {A}.

#[global] Instance res_eq_dec `{EqDecision A} : EqDecision (res A).
Proof. solve_decision. Defined.

Definition res_bind {A B} (r : res A) (f : A -> res B) : res B :=
  match r with
  | Ok a => f a
  | Err e => Err e
  | Panic s => Panic s
  | OutOfFuel => OutOfFuel
  end.

(** A computation over the world [W]: the stores, the clock, the services. *)
Definition M (W A : Type) : Type := W -> res A * W.

Definition ret {W A} (a : A) : M W A := fun w => (Ok a, w).
Definition throw {W A} (e : error) : M W A := fun w => (Err e, w).
Definition panic {W A} (s : string) : M W A := fun w => (Panic s, w).
Definition lift {W A} (r : res A) : M W A := fun w => (r, w).
Definition bind {W A B} (m : M W A) (f : A -> M W B) : M W B := fun w =>
  match m w with
  | (Ok a, w') => f a w'
  | (Err e, w') => (Err e, w')
  | (Panic s, w') => (Panic s, w')
  | (OutOfFuel, w') => (OutOfFuel, w')
  end.

(** The caller that looks at the error itself: [r, err := m()]. A panic still
    unwinds. *)
Definition try {W A} (m : M W A) : M W (A + error) := fun w =>
  match m w with
  | (Ok a, w') => (Ok (inl a), w')
  | (Err e, w') => (Ok (inr e), w')
  | (Panic s, w') => (Panic s, w')
  | (OutOfFuel, w') => (OutOfFuel, w')
  end.

Notation "'do!' x '<-' m ; k" := (bind m (fun x => k))
  (at level 10, x binder, m at level 100, k at level 200) : go_scope.
Notation "'do?' x '<-' m ; k" := (res_bind m (fun x => k))
  (at level 10, x binder, m at level 100, k at level 200) : go_scope.

(** A pointer dereference and a slice index of Go: out of range is a panic. *)
Definition deref {A} (p : option A) : res A :=
  match p with
  | Some a => Ok a
  | None => Panic "invalid memory address or nil pointer dereference"
  end.
Definition index {A} (l : list A) (i : nat) : res A :=
  match l !! i with
  | Some a => Ok a
  | None => Panic "index out of range"
  end.

(** A nil slice and an empty slice have the same elements and length. *)
Definition elems {A} (s : option (list A)) : list A := default [] s.

Definition is_ok {A} (r : res A) : bool :=
  match r with Ok _ => true | _ => false end.

(** A variable of the caller that a closure or an inner function writes: it keeps
    its value when the inner function returns an error. *)
Class Cell (W A : Type) := {
  cell_get : W -> A;
  cell_set : A -> W -> W;
}.
Definition get_cell {W A} `{Cell W A} : M W A := fun w => (Ok (cell_get w), w).
Definition set_cell {W A} `{Cell W A} (a : A) : M W unit := fun w => (Ok tt, cell_set a w).

(** [defer recover.Panic(log)] around the body of a goroutine
    (src/pkg/util/recover/recover.go): a panic ends it quietly. *)
Definition recover {W A} (m : M W A) : M W (option (A + error)) := fun w =>
  match m w with
  | (Ok a, w') => (Ok (Some (inl a)), w')
  | (Err e, w') => (Ok (Some (inr e)), w')
  | (Panic _, w') => (Ok None, w')
  | (OutOfFuel, w') => (OutOfFuel, w')
  end.

Lemma res_bind_ok {A B} (r : res A) (f : A -> res B) b :
  res_bind r f = Ok b -> exists a, r = Ok a /\ f a = Ok b.
Proof. destruct r; [eauto|done..]. Qed.

Lemma bind_unit_ok (r k : res unit) : (do? _ <- r; k) = Ok tt <-> r = Ok tt /\ k = Ok tt.
Proof. destruct r as [[]| | |]; simpl; naive_solver. Qed.

(** ** Automation *)

Create HintDb go discriminated.
Create HintDb steps discriminated.

(** Case analysis on every match and [decide] of the goal or a hypothesis. *)
Ltac go_cases :=
  repeat (simplify_eq/=; first [case_match | progress case_decide]).
Ltac go_solve := go_cases; try done; eauto with go.

(** Symbolic execution of a monadic program on a known world. *)
Ltac go_run :=
  repeat (cbn [bind ret throw panic lift try fst snd]; simplify_eq/=).

(** ** The monad's laws and inversion principles *)
Section monad.
Context {W A B C : Type}.
Implicit Types (w : W).

Lemma bind_ret_l (a : A) (f : A -> M W B) w : bind (ret a) f w = f a w.
Proof. done. Qed.

Lemma bind_ret_r (m : M W A) w : bind m ret w = m w.
Proof. unfold bind, ret. by destruct (m w) as [[] ?]. Qed.

Lemma bind_assoc (m : M W A) (f : A -> M W B) (g : B -> M W C) w :
    bind (bind m f) g w = bind m (fun a => bind (f a) g) w.
Proof. unfold bind. by destruct (m w) as [[] ?]. Qed.

Lemma bind_ok (m : M W A) (f : A -> M W B) w a w1 :
    m w = (Ok a, w1) -> bind m f w = f a w1.
Proof. unfold bind. by intros ->. Qed.

Lemma bind_err (m : M W A) (f : A -> M W B) w e w1 :
    m w = (Err e, w1) -> bind m f w = (Err e, w1).
Proof. unfold bind. by intros ->. Qed.

Lemma bind_inv_ok (m : M W A) (f : A -> M W B) w b w2 :
    bind m f w = (Ok b, w2) -> exists a w1, m w = (Ok a, w1) /\ f a w1 = (Ok b, w2).
Proof.
    unfold bind. destruct (m w) as [[a | | |] w1] eqn:E; intros; simplify_eq.
    by exists a, w1.
  Qed.

Lemma bind_inv_err (m : M W A) (f : A -> M W B) w e w2 :
    bind m f w = (Err e, w2) ->
    m w = (Err e, w2) \/ exists a w1, m w = (Ok a, w1) /\ f a w1 = (Err e, w2).
Proof.
  unfold bind. destruct (m w) as [[a|e'| |] w1] eqn:E; intros; simplify_eq; [right; by exists a, w1|by left].
Qed.

Lemma lift_inv (r : res A) w a w' : lift r w = (Ok a, w') -> r = Ok a /\ w' = w.
Proof. unfold lift. intros. by simplify_eq. Qed.

Lemma try_ok (m : M W A) w a w1 : m w = (Ok a, w1) -> try m w = (Ok (inl a), w1).
Proof. unfold try. by intros ->. Qed.

Lemma try_err (m : M W A) w e w1 : m w = (Err e, w1) -> try m w = (Ok (inr e), w1).
Proof. unfold try. by intros ->. Qed.

Lemma try_inv (m : M W A) w x w' :
  try m w = (Ok x, w') ->
  match x with inl a => m w = (Ok a, w') | inr e => m w = (Err e, w') end.
Proof. unfold try. destruct (m w) as [[a|e| |] w1]; intros; by simplify_eq. Qed.
End monad.

(** ** What a computation may do to the world

    [steps R m]: every run of [m], whatever its outcome, ends in a world that
    [R] relates to the one it started in. With [R] a preorder this composes
    along [bind] and [try], so that a handler is covered by the lemmas of the
    operations it calls. *)
Definition steps {W A} (R : W -> W -> Prop) (m : M W A) : Prop :=
  forall w, R w (snd (m w)).

Section steps.
Context {W A B : Type} (R : W -> W -> Prop) `{!PreOrder R}.

Lemma steps_ret (a : A) : steps R (ret a).
Proof. intros w. reflexivity. Qed.

Lemma steps_throw e : steps R (throw (A := A) e).
Proof. intros w. reflexivity. Qed.

Lemma steps_panic s : steps R (panic (A := A) s).
Proof. intros w. reflexivity. Qed.

Lemma steps_lift (r : res A) : steps R (lift r).
Proof. intros w. reflexivity. Qed.

Lemma steps_bind (m : M W A) (f : A -> M W B) :
    steps R m -> (forall a, steps R (f a)) -> steps R (bind m f).
Proof.
    intros Hm Hf w. unfold bind. specialize (Hm w).
    destruct (m w) as [[a | | |] w1]; simpl in *; [|done..].
    etransitivity; [done|]. apply Hf.
  Qed.

Lemma steps_try (m : M W A) : steps R m -> steps R (try m).
Proof. intros Hm w. specialize (Hm w). unfold try. by destruct (m w) as [[] ?]. Qed.

Lemma steps_recover (m : M W A) : steps R m -> steps R (recover m).
Proof. intros Hm w. specialize (Hm w). unfold recover. by destruct (m w) as [[] ?]. Qed.
End steps.

#[export] Hint Resolve steps_ret steps_throw steps_panic steps_lift steps_try steps_recover : steps.

(** ** Runs that end

    [settles r]: the run came back with a value or an error. [total m]: every
    run of [m] does. *)
Definition settles {A} (r : res A) : Prop :=
  match r with Ok _ | Err _ => True | _ => False end.
Definition total {W A} (m : M W A) : Prop := forall w, settles (fst (m w)).

Section total.
Context {W A B : Type}.

Lemma total_ret (a : A) : total (W := W) (ret a).
Proof. by intros w. Qed.

Lemma total_throw e : total (W := W) (throw (A := A) e).
Proof. by intros w. Qed.

Lemma total_bind (m : M W A) (f : A -> M W B) :
  total m -> (forall a, total (f a)) -> total (bind m f).
Proof.
  intros Hm Hf w. unfold bind. specialize (Hm w).
  destruct (m w) as [[a | | |] w1]; simpl in *; [apply Hf|done..].
Qed.

(** Only the values [m] can return matter. *)
Lemma total_bind_ok (m : M W A) (f : A -> M W B) :
  total m -> (forall w a w', m w = (Ok a, w') -> settles (fst (f a w'))) -> total (bind m f).
Proof.
  intros Hm Hf w. unfold bind. specialize (Hm w).
  destruct (m w) as [[a | | |] w1] eqn:E; simpl in *; [by eapply Hf|done..].
Qed.

Lemma total_try (m : M W A) : total m -> total (try m).
Proof. intros Hm w. specialize (Hm w). unfold try. by destruct (m w) as [[] ?]. Qed.
End total.

#[export] Hint Resolve total_ret total_throw total_try : steps.

(** Decompose a [steps] goal along the program text. *)
Ltac steps_auto :=
  repeat first
    [ solve [eauto with steps typeclass_instances]
    | apply steps_bind; [try apply _ | | intros ?]
    | apply steps_try
    | apply steps_recover
    | case_match
    | progress case_decide ].

(** ** Option lemmas the components share *)
Lemma deref_ok {A} (p : option A) a : deref p = Ok a -> p = Some a.
Proof. destruct p; simpl; congruence. Qed.


Lemma fmap_Some_inv {A B} (f : A -> B) (o : option A) b :
  f <$> o = Some b -> exists a, o = Some a /\ b = f a.
Proof. intros H. by apply fmap_Some in H. Qed.

(** The value of a run that is known to return one *)
Definition outcome {A} (d : A) (r : res A) : A := match r with Ok a => a | _ => d end.

Lemma ran {W A} (d : A) (m : M W A) (w : W) :
  is_ok (fst (m w)) = true -> m w = (Ok (outcome d (fst (m w))), snd (m w)).
Proof. by destruct (m w) as [[] ?]. Qed.

Lemma ran_as {W A} (m : M W A) (w : W) a : fst (m w) = Ok a -> m w = (Ok a, snd (m w)).
Proof. destruct (m w) as [r w']. by intros [= ->]. Qed.
