(* ===== verification/GoStrings.v ===== *)
(** * The string functions of Go's standard library that the program calls

    [strings.ToLower], [EqualFold], [Split], [SplitN], [Join], [HasPrefix],
    [TrimSuffix], [ContainsRune], [IndexByte], [LastIndexByte], and the [%d] and
    [%q] verbs of [fmt]. A Go string is a byte string; case mapping is that of
    the ASCII letters, which is all the identifiers the program compares use. *)
From S2P Require Import Prelude.
From Stdlib Require Import Ascii.

(** ** Case folding *)
Definition lower_ascii (c : ascii) : ascii :=
  let n := nat_of_ascii c in
  if (65 <=? n) && (n <=? 90) then ascii_of_nat (n + 32) else c.

Fixpoint ToLower (s : string) : string :=
  match s with
  | EmptyString => EmptyString
  | String c s => String (lower_ascii c) (ToLower s)
  end.

Definition EqualFold (s t : string) : bool := bool_decide (ToLower s = ToLower t).

(** ** Splitting and joining at one-character separators *)
Fixpoint SplitChar (sep : ascii) (s : string) : list string :=
  match s with
  | EmptyString => [EmptyString]
  | String c s =>
      if decide (c = sep) then EmptyString :: SplitChar sep s
      else match SplitChar sep s with
           | p :: ps => String c p :: ps
           | [] => [String c EmptyString]
           end
  end.

Fixpoint JoinChar (sep : ascii) (l : list string) : string :=
  match l with
  | [] => EmptyString
  | [s] => s
  | s :: l => s +:+ String sep (JoinChar sep l)
  end.

Definition slash : ascii := "/"%char.
Definition Split (s : string) : list string := SplitChar slash s.
Definition Join (l : list string) : string := JoinChar slash l.

(** [strings.SplitN(s, sep, 2)[0]]: what stands before the first separator. *)
Fixpoint BeforeFirst (sep : ascii) (s : string) : string :=
  match s with
  | EmptyString => EmptyString
  | String c s => if decide (c = sep) then EmptyString else String c (BeforeFirst sep s)
  end.

(** ** Prefixes, suffixes and searches *)
Definition HasPrefix (s p : string) : bool := String.prefix p s.

Definition HasSuffix (s p : string) : bool :=
  (String.length p <=? String.length s) &&
  bool_decide (String.substring (String.length s - String.length p) (String.length p) s = p).

Definition TrimSuffix (s p : string) : string :=
  if HasSuffix s p then String.substring 0 (String.length s - String.length p) s else s.

Fixpoint ContainsRune (s : string) (c : ascii) : bool :=
  match s with
  | EmptyString => false
  | String d s => bool_decide (c = d) || ContainsRune s c
  end.

(** -1 when the byte does not occur *)
Fixpoint IndexByte (s : string) (c : ascii) : Z :=
  match s with
  | EmptyString => -1
  | String d s =>
      if decide (c = d) then 0
      else let i := IndexByte s c in (if i <? 0 then -1 else i + 1)%Z
  end.

Fixpoint LastIndexByte (s : string) (c : ascii) : Z :=
  match s with
  | EmptyString => -1
  | String d s =>
      let i := LastIndexByte s c in
      (if i <? 0 then (if decide (c = d) then 0 else -1) else i + 1)%Z
  end.

(** [s[i:]] and [s[:i]]; a bound outside the string panics. *)
Definition slice_from (s : string) (i : Z) : res string :=
  if decide (0 <= i <= Z.of_nat (String.length s))%Z
  then Ok (String.substring (Z.to_nat i) (String.length s - Z.to_nat i) s)
  else Panic "slice bounds out of range".
Definition slice_to (s : string) (i : Z) : res string :=
  if decide (0 <= i <= Z.of_nat (String.length s))%Z
  then Ok (String.substring 0 (Z.to_nat i) s)
  else Panic "slice bounds out of range".

(** ** path/filepath, on a system whose separator is a slash *)

(** The elements of a path once [.] and empty ones are dropped and [..] has
    taken the one before it: [acc] is the reversed output. *)
Fixpoint clean_elems (rooted : bool) (acc : list string) (l : list string) : list string :=
  match l with
  | [] => reverse acc
  | x :: l =>
      if decide (x = EmptyString \/ x = ".") then clean_elems rooted acc l
      else if decide (x = "..") then
        match acc with
        | y :: acc' => if decide (y = "..") then clean_elems rooted (x :: acc) l else clean_elems rooted acc' l
        | [] => clean_elems rooted (if rooted then [] else [x]) l
        end
      else clean_elems rooted (x :: acc) l
  end.
Definition filepath_Clean (p : string) : string :=
  let rooted := HasPrefix p "/" in
  let out := Join (clean_elems rooted [] (Split p)) in
  if rooted then "/" +:+ out else if decide (out = EmptyString) then "." else out.
Definition filepath_Dir (p : string) : string :=
  filepath_Clean (String.substring 0 (Z.to_nat (LastIndexByte p slash + 1)) p).

(** ** Formatting *)
Definition dquote : string := String (ascii_of_nat 34) EmptyString.

(** [%d] *)
Definition Itoa (z : Z) : string := pretty z.

Definition hex_digit (n : nat) : ascii :=
  ascii_of_nat (if n <? 10 then 48 + n else 87 + n).

(** One byte of [%q]: the escapes of [strconv.Quote]. *)
Definition quote_ascii (c : ascii) : string :=
  match nat_of_ascii c with
  | 7 => "\a" | 8 => "\b" | 12 => "\f" | 10 => "\n" | 13 => "\r" | 9 => "\t" | 11 => "\v"
  | 34 => String (ascii_of_nat 92) dquote
  | 92 => "\\"
  | n => if (32 <=? n) && (n <? 127) then String c EmptyString
         else "\x" +:+ String (hex_digit (n / 16)) (String (hex_digit (n mod 16)) EmptyString)
  end.
Fixpoint quote_bytes (s : string) : string :=
  match s with
  | EmptyString => EmptyString
  | String c s => quote_ascii c +:+ quote_bytes s
  end.
(** [%q] *)
Definition Quote (s : string) : string := dquote +:+ quote_bytes s +:+ dquote.

(** ** Lemmas *)
Lemma lower_ascii_idemp c : lower_ascii (lower_ascii c) = lower_ascii c.
Proof. destruct c as [[] [] [] [] [] [] [] []]; reflexivity. Qed.

Lemma ToLower_idemp s : ToLower (ToLower s) = ToLower s.
Proof. induction s as [|c s IH]; simpl; [done|]. by rewrite lower_ascii_idemp, IH. Qed.

Lemma ToLower_app s t : ToLower (s +:+ t) = ToLower s +:+ ToLower t.
Proof. induction s as [|c s IH]; simpl; [done|]. by rewrite IH. Qed.

Lemma ToLower_length s : String.length (ToLower s) = String.length s.
Proof. induction s as [|c s IH]; simpl; [done|]. by rewrite IH. Qed.

Lemma EqualFold_spec s t : EqualFold s t = true <-> ToLower s = ToLower t.
Proof. unfold EqualFold. by rewrite bool_decide_eq_true. Qed.

Lemma EqualFold_refl s : EqualFold s s = true.
Proof. by apply EqualFold_spec. Qed.

Lemma EqualFold_sym s t : EqualFold s t = EqualFold t s.
Proof. unfold EqualFold. apply bool_decide_ext. by split. Qed.

Lemma EqualFold_trans s t u :
  EqualFold s t = true -> EqualFold t u = true -> EqualFold s u = true.
Proof. rewrite !EqualFold_spec. congruence. Qed.

(** Case-insensitive equality as a relation, for setoid rewriting. *)
Definition fold_eq (s t : string) : Prop := Is_true (EqualFold s t).

Lemma fold_eq_spec s t : fold_eq s t <-> ToLower s = ToLower t.
Proof. unfold fold_eq. rewrite Is_true_true. apply EqualFold_spec. Qed.

#[export] Instance fold_eq_equiv : Equivalence fold_eq.
Proof.
  split; [intros s | intros s t | intros s t u]; rewrite !fold_eq_spec; intros; congruence.
Qed.
#[export] Instance ToLower_proper : Proper (fold_eq ==> eq) ToLower.
Proof. intros s t H. by apply fold_eq_spec. Qed.
#[export] Instance EqualFold_proper : Proper (fold_eq ==> fold_eq ==> eq) EqualFold.
Proof.
  intros s s' H t t' H'. apply fold_eq_spec in H, H'. unfold EqualFold. by rewrite H, H'.
Qed.

Lemma ToLower_fold_eq s : fold_eq (ToLower s) s.
Proof. apply fold_eq_spec, ToLower_idemp. Qed.

Lemma string_app_cons c s t : String c s +:+ t = String c (s +:+ t).
Proof. done. Qed.

Lemma string_app_nil_r s : s +:+ EmptyString = s.
Proof. induction s as [|c s IH]; [done|]. by rewrite !string_app_cons, IH. Qed.

Lemma string_app_assoc s t u : (s +:+ t) +:+ u = s +:+ t +:+ u.
Proof. induction s as [|c s IH]; [done|]. by rewrite !string_app_cons, IH. Qed.

Lemma string_length_app s t :
  String.length (s +:+ t) = String.length s + String.length t.
Proof. induction s as [|c s IH]; [done|]. rewrite string_app_cons. simpl. by rewrite IH. Qed.

Lemma string_app_inj_r s t u : s +:+ u = t +:+ u -> s = t.
Proof.
  revert t. induction s as [|c s IH]; intros [|d t] H; rewrite ?string_app_cons in H.
  - done.
  - apply (f_equal String.length) in H. simpl in H. rewrite !string_length_app in H. simpl in H. lia.
  - apply (f_equal String.length) in H. simpl in H. rewrite !string_length_app in H. simpl in H. lia.
  - simplify_eq. f_equal. by apply IH.
Qed.

Lemma string_app_inj_l s t u : s +:+ t = s +:+ u -> t = u.
Proof. induction s as [|c s IH]; [done|]. rewrite !string_app_cons. intros H. simplify_eq. auto. Qed.

Lemma SplitChar_not_nil c s : SplitChar c s <> [].
Proof. destruct s; simpl; go_cases; done. Qed.

Lemma SplitChar_app_sep c s t :
  ContainsRune s c = false ->
  SplitChar c (s +:+ String c t) = s :: SplitChar c t.
Proof.
  induction s as [|d s IH]; simpl; intros H.
  - by rewrite decide_True.
  - apply orb_false_iff in H as [Hd Hs]. apply bool_decide_eq_false in Hd.
    rewrite decide_False by congruence. by rewrite IH.
Qed.

Lemma SplitChar_no_sep c s : ContainsRune s c = false -> SplitChar c s = [s].
Proof.
  induction s as [|d s IH]; simpl; intros H; [done|].
  apply orb_false_iff in H as [Hd Hs]. apply bool_decide_eq_false in Hd.
  rewrite decide_False by congruence. by rewrite IH.
Qed.

(** Splitting then joining at the same separator gives the string back. *)
Lemma JoinChar_SplitChar c s : JoinChar c (SplitChar c s) = s.
Proof.
  induction s as [|d s IH]; simpl; [done|].
  pose proof (SplitChar_not_nil c s) as Hn.
  destruct (SplitChar c s) as [|p ps] eqn:E; [done|].
  case_decide as Hd; subst; simpl; [by f_equal|].
  destruct ps as [|q qs]; rewrite ?string_app_cons; simpl in *; by f_equal.
Qed.

(** Joining parts that hold no separator then splitting gives the parts back. *)
Lemma SplitChar_JoinChar c l :
  l <> [] -> Forall (fun s => ContainsRune s c = false) l ->
  SplitChar c (JoinChar c l) = l.
Proof.
  intros Hl H. induction H as [|s l Hs H IH]; [done|].
  destruct l as [|t l]; simpl; [by apply SplitChar_no_sep|].
  rewrite SplitChar_app_sep by done. f_equal. by apply IH.
Qed.

Lemma SplitChar_parts c s : Forall (fun p => ContainsRune p c = false) (SplitChar c s).
Proof.
  induction s as [|d s IH]; simpl; [by repeat constructor|].
  case_decide as Hd; [by constructor|].
  destruct (SplitChar c s) as [|p ps].
  - constructor; [|done]. simpl. rewrite bool_decide_eq_false_2 by congruence. done.
  - inversion IH; subst. constructor; [|done].
    simpl. rewrite bool_decide_eq_false_2 by congruence. done.
Qed.

Lemma HasPrefix_app p s : HasPrefix (p +:+ s) p = true.
Proof.
  unfold HasPrefix. induction p as [|c p IH]; [by destruct s|].
  rewrite string_app_cons. simpl. by destruct (ascii_dec c c).
Qed.

Lemma HasPrefix_spec s p : HasPrefix s p = true <-> exists t, s = p +:+ t.
Proof.
  split; [|intros [t ->]; apply HasPrefix_app].
  unfold HasPrefix. revert s. induction p as [|c p IH]; intros s H; [by exists s|].
  destruct s as [|d s]; [done|]. simpl in H.
  destruct (ascii_dec c d); [|discriminate H]. destruct (IH s H) as [t ->]. exists t. by subst.
Qed.

Create Rewrite HintDb go_strings.
#[export] Hint Resolve EqualFold_refl HasPrefix_app : go.
#[export] Hint Rewrite ToLower_idemp ToLower_app ToLower_length string_app_assoc : go_strings.

(** ** [strconv.ParseInt(s, 10, 0)]: an optional sign, then decimal digits, in
    the range of a 64-bit integer *)
Definition digit_of (c : ascii) : option Z :=
  let n := Z.of_nat (nat_of_ascii c) in
  if ((48 <=? n) && (n <=? 57))%Z then Some (n - 48)%Z else None.
Fixpoint parse_digits (acc : Z) (s : string) : option Z :=
  match s with
  | EmptyString => Some acc
  | String c s => match digit_of c with
                  | Some d => parse_digits (10 * acc + d)%Z s
                  | None => None
                  end
  end.
Definition ParseInt (s : string) : option Z :=
  let '(neg, body) :=
    match s with
    | String "-" t => (true, t)
    | String "+" t => (false, t)
    | _ => (false, s)
    end in
  if decide (body = EmptyString) then None
  else match parse_digits 0 body with
       | Some z => let z := (if neg then - z else z)%Z in
                   if ((- 2 ^ 63 <=? z) && (z <? 2 ^ 63))%Z then Some z else None
       | None => None
       end.

Example ParseInt_ex : ParseInt "-120" = Some (-120)%Z /\ ParseInt "12a" = None /\ ParseInt "" = None.
Proof. by vm_compute. Qed.

(** The elements of a plain path: neither empty, nor a dot, nor two *)
Definition plain_elem (x : string) : Prop :=
  x <> EmptyString /\ x <> "." /\ x <> ".." /\ ContainsRune x slash = false.

Lemma clean_elems_plain rooted acc l :
  Forall plain_elem l -> clean_elems rooted acc l = reverse acc ++ l.
Proof.
  intros Hl. revert acc. induction Hl as [|x l (H1 & H2 & H3 & _) _ IH]; intros acc; cbn [clean_elems app].
  - by rewrite app_nil_r.
  - rewrite decide_False by naive_solver. rewrite decide_False by done.
    rewrite IH, reverse_cons, <-app_assoc. done.
Qed.

Lemma clean_elems_nil rooted acc l : clean_elems rooted acc (EmptyString :: l) = clean_elems rooted acc l.
Proof. cbn [clean_elems]. by rewrite decide_True by auto. Qed.

Lemma clean_elems_app rooted acc l k :
  Forall plain_elem l -> clean_elems rooted acc (l ++ k) = clean_elems rooted (reverse l ++ acc) k.
Proof.
  intros Hl. revert acc. induction Hl as [|x l (H1 & H2 & H3 & _) _ IH]; intros acc; cbn [clean_elems app]; [done|].
  rewrite decide_False by naive_solver. rewrite decide_False by done.
  by rewrite IH, reverse_cons, <-app_assoc.
Qed.

Lemma LastIndexByte_none s c : ContainsRune s c = false -> LastIndexByte s c = (-1)%Z.
Proof.
  induction s as [|d s IH]; simpl; [done|]. intros [H1%bool_decide_eq_false H2]%orb_false_iff.
  rewrite IH by done. simpl. by rewrite decide_False.
Qed.

Lemma LastIndexByte_app s t c :
  ContainsRune t c = false -> LastIndexByte (s +:+ String c t) c = Z.of_nat (String.length s).
Proof.
  intros Ht. induction s as [|d s IH]; simpl.
  - rewrite LastIndexByte_none by done. simpl. by rewrite decide_True.
  - rewrite IH. destruct (Z.ltb_spec (Z.of_nat (String.length s)) 0); lia.
Qed.

Lemma substring_prefix s t : String.substring 0 (String.length s) (s +:+ t) = s.
Proof. induction s as [|d s IH]; simpl; [by destruct t|]. by rewrite IH. Qed.

Lemma JoinChar_snoc c l x : l <> [] -> JoinChar c (l ++ [x]) = JoinChar c l +:+ String c x.
Proof.
  induction l as [|y l IH]; [done|]. intros _. destruct l as [|z l]; [done|].
  cbn [app JoinChar] in *. rewrite IH by done. by rewrite string_app_assoc.
Qed.

(** [filepath.Dir] of an absolute plain path drops its last element. *)
Lemma filepath_Dir_plain l x :
  l <> [] -> Forall plain_elem l -> ContainsRune x slash = false ->
  filepath_Dir ("/" +:+ Join l +:+ "/" +:+ x) = "/" +:+ Join l.
Proof.
  intros Hne Hl Hx. unfold filepath_Dir.
  change ("/" +:+ Join l +:+ "/" +:+ x) with (("/" +:+ Join l) +:+ String slash x).
  rewrite LastIndexByte_app by done.
  replace (Z.to_nat (Z.of_nat (String.length ("/" +:+ Join l)) + 1))
    with (String.length (("/" +:+ Join l) +:+ "/")) by (rewrite string_length_app; simpl; lia).
  change (String slash x) with ("/" +:+ x). rewrite <-string_app_assoc, substring_prefix.
  unfold filepath_Clean.
  assert (Split (("/" +:+ Join l) +:+ "/") = EmptyString :: l ++ [EmptyString]) as ->.
  { unfold Split, Join.
    change (("/" +:+ JoinChar slash l) +:+ "/") with (EmptyString +:+ String slash (JoinChar slash l +:+ String slash EmptyString)).
    rewrite <-(JoinChar_snoc slash l EmptyString) by done.
    rewrite SplitChar_app_sep, SplitChar_JoinChar.
    - done.
    - by destruct l.
    - apply Forall_app; split; [eapply Forall_impl; [done|]; by intros ? (?&?&?&?)|by repeat constructor].
    - done. }
  rewrite clean_elems_nil, clean_elems_app by done. 
  rewrite (clean_elems_nil _ _ []). cbn [clean_elems]. rewrite app_nil_r, reverse_involutive.
  rewrite string_app_assoc, HasPrefix_app. done.
Qed.
