(* ===== verification/Regex.v ===== *)
(** * Regular expressions as Go's [regexp] package matches them

    The program's patterns are anchored at both ends or are sequences of
    literals and capture groups. An anchored pattern is a [regex], matched by
    derivatives, and [MatchString_spec] relates the matcher to the pattern's
    language. A pattern with capture groups is a list of [piece]s, matched
    leftmost first with the greedy and the lazy preferences of the package. *)
From S2P Require Import Prelude GoStrings.
From Stdlib Require Import Ascii.

(** ** Patterns without captures *)
Inductive regex :=
| Void
| Eps
| Chr (p : ascii -> bool)
| Alt (r s : regex)
| Seq (r s : regex)
| Star (r : regex).

Fixpoint nullable (r : regex) : bool :=
  match r with
  | Void | Chr _ => false
  | Eps | Star _ => true
  | Alt r s => nullable r || nullable s
  | Seq r s => nullable r && nullable s
  end.

(** Smart constructors keep the derivatives small. *)
Definition alt (r s : regex) : regex :=
  match r, s with Void, s => s | r, Void => r | r, s => Alt r s end.
Definition seq (r s : regex) : regex :=
  match r, s with Void, _ => Void | _, Void => Void | Eps, s => s | r, s => Seq r s end.

Fixpoint deriv (c : ascii) (r : regex) : regex :=
  match r with
  | Void | Eps => Void
  | Chr p => if p c then Eps else Void
  | Alt r s => alt (deriv c r) (deriv c s)
  | Seq r s =>
      if nullable r then alt (seq (deriv c r) s) (deriv c s) else seq (deriv c r) s
  | Star r => seq (deriv c r) (Star r)
  end.

(** [regexp.MatchString] of a pattern [^r$] *)
Fixpoint MatchString (r : regex) (s : string) : bool :=
  match s with
  | EmptyString => nullable r
  | String c s => MatchString (deriv c r) s
  end.

(** The language of a pattern *)
Inductive lang : regex -> string -> Prop :=
| lang_eps : lang Eps EmptyString
| lang_chr p c : p c = true -> lang (Chr p) (String c EmptyString)
| lang_alt_l r s w : lang r w -> lang (Alt r s) w
| lang_alt_r r s w : lang s w -> lang (Alt r s) w
| lang_seq r s v w : lang r v -> lang s w -> lang (Seq r s) (v +:+ w)
| lang_star_nil r : lang (Star r) EmptyString
| lang_star_cons r c v w :
    lang r (String c v) -> lang (Star r) w -> lang (Star r) (String c v +:+ w).

(** ** Pattern syntax *)
Definition chr (c : ascii) : regex := Chr (fun d => bool_decide (c = d)).
(** [(?i)c] *)
Definition chr_i (c : ascii) : regex :=
  Chr (fun d => bool_decide (lower_ascii c = lower_ascii d)).
Fixpoint lit (s : string) : regex :=
  match s with EmptyString => Eps | String c s => Seq (chr c) (lit s) end.
Fixpoint lit_i (s : string) : regex :=
  match s with EmptyString => Eps | String c s => Seq (chr_i c) (lit_i s) end.

(** [r{n}] and [r{lo,lo+n}] *)
Fixpoint times (n : nat) (r : regex) : regex :=
  match n with 0 => Eps | S n => Seq r (times n r) end.
Fixpoint upto (n : nat) (r : regex) : regex :=
  match n with 0 => Eps | S n => Alt Eps (Seq r (upto n r)) end.
Definition between (lo hi : nat) (r : regex) : regex := Seq (times lo r) (upto (hi - lo) r).

(** Character classes *)
Definition in_range (lo hi : ascii) (c : ascii) : bool :=
  (nat_of_ascii lo <=? nat_of_ascii c) && (nat_of_ascii c <=? nat_of_ascii hi).
Definition is_lower (c : ascii) : bool := in_range "a" "z" c.
Definition is_digit (c : ascii) : bool := in_range "0" "9" c.
Definition one_of (s : string) (c : ascii) : bool := ContainsRune s c.
(** [(?i)[p]] *)
Definition fold_class (p : ascii -> bool) (c : ascii) : bool := p (lower_ascii c).

(** ** The matcher decides the language *)
Lemma nullable_spec r : nullable r = true <-> lang r EmptyString.
Proof.
  split.
  - induction r; simpl; intros H; try discriminate.
    + constructor.
    + apply orb_true_iff in H as [H|H]; [apply lang_alt_l|apply lang_alt_r]; auto.
    + apply andb_true_iff in H as [H1 H2].
      apply (lang_seq _ _ EmptyString EmptyString); auto.
    + constructor.
  - remember EmptyString as w eqn:Hw. induction 1; simpl; try done.
    + by rewrite IHlang.
    + rewrite IHlang by done. apply orb_true_r.
    + destruct v; [|done]. simpl in Hw. subst. by rewrite IHlang1, IHlang2.
Qed.

Lemma lang_void w : ~ lang Void w.
Proof. by inversion 1. Qed.

Lemma alt_spec r s w : lang (alt r s) w <-> lang r w \/ lang s w.
Proof.
  pose proof (lang_void w).
  assert (forall r s, lang (Alt r s) w <-> lang r w \/ lang s w) as HA.
  { intros r' s'. split; [inversion 1; auto|intros []; by constructor]. }
  destruct r, s; simpl; rewrite ?HA; tauto.
Qed.

Lemma seq_inv r s w : lang (Seq r s) w <-> exists u v, w = u +:+ v /\ lang r u /\ lang s v.
Proof. split; [inversion 1; eauto | intros (u & v & -> & ? & ?); by constructor]. Qed.

Lemma eps_inv w : lang Eps w <-> w = EmptyString.
Proof. split; [by inversion 1 | intros ->; constructor]. Qed.

Lemma seq_spec r s w : lang (seq r s) w <-> exists u v, w = u +:+ v /\ lang r u /\ lang s v.
Proof.
  assert (forall r, (exists u v, w = u +:+ v /\ lang Void u /\ lang r v) <-> False) as H1.
  { intros r'. split; [|done]. intros (?&?&?&?%lang_void&?). done. }
  assert (forall r, (exists u v, w = u +:+ v /\ lang r u /\ lang Void v) <-> False) as H2.
  { intros r'. split; [|done]. intros (?&?&?&?&?%lang_void). done. }
  assert (lang Void w <-> False) as H3 by (split; [apply lang_void|done]).
  assert (forall s, lang s w <-> exists u v, w = u +:+ v /\ lang Eps u /\ lang s v) as H4.
  { intros s'. split.
    - intros ?. exists EmptyString, w. by split_and!; [|constructor|].
    - intros (u & v & -> & ->%eps_inv & ?). done. }
  destruct r, s; simpl; first [by rewrite H1, ?H3 | by rewrite H2, ?H3 | apply H4 | apply seq_inv].
Qed.

Lemma deriv_spec c r w : lang (deriv c r) w <-> lang r (String c w).
Proof.
  revert w. induction r as [| |p|r IHr s IHs|r IHr s IHs|r IHr]; intros w; simpl.
  - split; by inversion 1.
  - split; by inversion 1.
  - destruct (p c) eqn:E.
    + rewrite eps_inv. split; [intros ->; by constructor | by inversion 1].
    + split; inversion 1; congruence.
  - rewrite alt_spec, IHr, IHs. split; [intros []; by constructor | inversion 1; auto].
  - rewrite seq_inv.
    assert (lang (seq (deriv c r) s) w <->
      exists u v, String c w = String c u +:+ v /\ lang r (String c u) /\ lang s v) as HS.
    { rewrite seq_spec. split; intros (u & v & Hw & Hu & Hv); exists u, v.
      - rewrite IHr in Hu. subst w. by rewrite string_app_cons.
      - rewrite string_app_cons in Hw. simplify_eq. by rewrite IHr. }
    destruct (nullable r) eqn:En.
    + rewrite alt_spec, HS, IHs. split.
      * intros [(u & v & ? & ? & ?)|H]; [by exists (String c u), v|].
        exists EmptyString, (String c w). split_and!; [done|by apply nullable_spec|done].
      * intros ([|d u] & v & Hw & Hu & Hv); [right; by change (_ +:+ v) with v in Hw; subst|].
        rewrite string_app_cons in Hw. simplify_eq. left. by exists u, v.
    + rewrite HS. split.
      * intros (u & v & ? & ? & ?). by exists (String c u), v.
      * intros ([|d u] & v & Hw & Hu & Hv).
        { apply nullable_spec in Hu. congruence. }
        rewrite string_app_cons in Hw. simplify_eq. by exists u, v.
  - rewrite seq_spec. split.
    + intros (u & v & -> & Hu%IHr & Hv). rewrite <-string_app_cons. by constructor.
    + inversion 1; simplify_eq. do 2 eexists. rewrite IHr. eauto.
Qed.

(** The matcher accepts exactly the strings of the pattern's language. *)
Lemma MatchString_spec r s : MatchString r s = true <-> lang r s.
Proof.
  revert r. induction s as [|c s IH]; intros r; simpl; [apply nullable_spec|].
  by rewrite IH, deriv_spec.
Qed.

(** ** Patterns with capture groups *)
Inductive piece :=
| PLit (s : string)          (* [(?i)s] *)
| PPlus (greedy : bool).     (* [(.+)] and [(.+?)] *)

Definition newline : ascii := ascii_of_nat 10.

(** The captures of [ps] at the head of [s], in the package's order of
    preference: a greedy group tries the longest match first, a lazy one the
    shortest. [plus_from greedy k acc s] has consumed [acc] (at least one
    character) and may stop here or go on. *)
Fixpoint plus_from (greedy : bool) (k : string -> option (list string)) (s : string)
    : option (list string) :=
  match s with
  | EmptyString => None
  | String c s' =>
      if decide (c = newline) then None
      else
        let stop := (fun caps => String c EmptyString :: caps) <$> k s' in
        let more := match plus_from greedy k s' with
                    | Some (g :: caps) => Some (String c g :: caps)
                    | _ => None
                    end in
        if greedy then match more with Some r => Some r | None => stop end
        else match stop with Some r => Some r | None => more end
  end.

Fixpoint match_here (ps : list piece) (s : string) : option (list string) :=
  match ps with
  | [] => Some []
  | PLit l :: ps =>
      if EqualFold (String.substring 0 (String.length l) s) l
      then match_here ps (String.substring (String.length l) (String.length s - String.length l) s)
      else None
  | PPlus greedy :: ps => plus_from greedy (match_here ps) s
  end.

(** [FindStringSubmatch] without the whole match: the leftmost match. *)
Fixpoint FindStringSubmatch (ps : list piece) (s : string) : option (list string) :=
  match match_here ps s with
  | Some caps => Some caps
  | None => match s with EmptyString => None | String _ s => FindStringSubmatch ps s end
  end.

(** The declarative matches of a sequence of pieces at the head of a string *)
Inductive pieces : list piece -> string -> list string -> Prop :=
| pieces_nil s : pieces [] s []
| pieces_lit l l' ps s caps :
    EqualFold l' l = true -> pieces ps s caps -> pieces (PLit l :: ps) (l' +:+ s) caps
| pieces_plus gr c g ps s caps :
    ContainsRune (String c g) newline = false -> pieces ps s caps ->
    pieces (PPlus gr :: ps) (String c g +:+ s) (String c g :: caps).

(** ** The capture matcher finds a match when there is one, and only then *)
Lemma ContainsRune_app s t c : ContainsRune (s +:+ t) c = ContainsRune s c || ContainsRune t c.
Proof.
  induction s as [|d s IH]; [done|]. rewrite string_app_cons. simpl.
  by rewrite IH, orb_assoc.
Qed.

Lemma substring_0_all s : String.substring 0 (String.length s) s = s.
Proof. induction s as [|c s IH]; [done|]. simpl. by rewrite IH. Qed.

Lemma substring_app_l s t : String.substring 0 (String.length s) (s +:+ t) = s.
Proof.
  induction s as [|c s IH]; [by destruct t|]. rewrite string_app_cons. simpl. by rewrite IH.
Qed.

Lemma substring_app_r s t : String.substring (String.length s) (String.length t) (s +:+ t) = t.
Proof.
  induction s as [|c s IH]; [apply substring_0_all|]. rewrite string_app_cons. simpl. apply IH.
Qed.

Lemma substring_split n s :
  n <= String.length s ->
  s = String.substring 0 n s +:+ String.substring n (String.length s - n) s.
Proof.
  revert n. induction s as [|c s IH]; intros [|n] Hn; simpl in *; try done; try lia.
  - rewrite substring_0_all. done.
  - rewrite string_app_cons. f_equal. apply IH. lia.
Qed.

Lemma substring_length_le n m s : String.length (String.substring n m s) <= m.
Proof.
  revert n m. induction s as [|c s IH]; intros [|n] [|m]; simpl; try lia.
  - specialize (IH 0 m). lia.
  - specialize (IH n 0). lia.
  - specialize (IH n (S m)). lia.
Qed.

Lemma plus_from_sound gr k s caps :
  plus_from gr k s = Some caps ->
  exists c g s' caps', s = String c g +:+ s' /\ caps = String c g :: caps' /\
    ContainsRune (String c g) newline = false /\ k s' = Some caps'.
Proof.
  revert caps. induction s as [|c s IH]; intros caps H; [done|]. cbn [plus_from] in H.
  case_decide as Hc; [done|].
  assert (bool_decide (newline = c) = false) as Hnl by (apply bool_decide_eq_false; congruence).
  assert (forall o, o = Some caps -> o = (fun caps => String c EmptyString :: caps) <$> k s ->
    exists c0 g s' caps', String c s = String c0 g +:+ s' /\ caps = String c0 g :: caps' /\
    ContainsRune (String c0 g) newline = false /\ k s' = Some caps') as Hstop.
  { intros o -> Ho. symmetry in Ho. apply fmap_Some_inv in Ho as (cs & Hk & ->).
    exists c, EmptyString, s, cs. cbn [ContainsRune]. by rewrite Hnl. }
  assert (forall g cs, plus_from gr k s = Some (g :: cs) -> caps = String c g :: cs ->
    exists c0 g s' caps', String c s = String c0 g +:+ s' /\ caps = String c0 g :: caps' /\
    ContainsRune (String c0 g) newline = false /\ k s' = Some caps') as Hmore.
  { intros g cs E Hcs. destruct (IH _ E) as (d & g' & s' & cs' & -> & Heq & Hno & Hk).
    simplify_eq. exists c, (String d g'), s', cs'. by cbn [ContainsRune] in *; rewrite Hnl. }
  destruct gr.
  - destruct (plus_from true k s) as [[|g cs]|]; simplify_eq/=; eauto.
  - destruct ((fun caps => String c EmptyString :: caps) <$> k s) eqn:E1; simplify_eq/=; eauto.
    destruct (plus_from false k s) as [[|g cs]|]; simplify_eq/=; eauto.
Qed.

Lemma plus_from_complete gr k c g s' :
  ContainsRune (String c g) newline = false -> is_Some (k s') ->
  is_Some (plus_from gr k (String c g +:+ s')).
Proof.
  revert c. induction g as [|d g IH]; intros c Hno Hk; rewrite string_app_cons; cbn [plus_from];
    cbn [ContainsRune] in Hno; apply orb_false_iff in Hno as [Hc Hg];
    apply bool_decide_eq_false in Hc; rewrite decide_False by congruence.
  - destruct Hk as [caps Hk]. change (EmptyString +:+ s') with s'. rewrite Hk. simpl.
    destruct gr; [destruct (plus_from true k s') as [[|]|]|]; eauto.
  - destruct (IH d Hg Hk) as [r Hr].
    destruct (plus_from_sound _ _ _ _ Hr) as (e & g' & ? & ? & _ & -> & _).
    rewrite Hr. destruct gr; [eauto|]. destruct (k (String d g +:+ s')); simpl; eauto.
Qed.

Lemma match_here_sound ps s caps : match_here ps s = Some caps -> pieces ps s caps.
Proof.
  revert s caps. induction ps as [|[l|gr] ps IH]; intros s caps H; simpl in H.
  - simplify_eq. constructor.
  - destruct (EqualFold _ l) eqn:E; [|done].
    assert (String.length l <= String.length s) as Hl.
    { apply EqualFold_spec, (f_equal String.length) in E. rewrite !ToLower_length in E.
      pose proof (substring_length_le 0 (String.length l) s).
      destruct (decide (String.length l <= String.length s)) as [|Hn]; [done|exfalso].
      assert (forall n s, String.length (String.substring 0 n s) <= String.length s) as Hs.
      { clear. intros n s; revert n. induction s as [|c s IH]; intros [|n]; simpl; try lia.
        specialize (IH n). lia. }
      specialize (Hs (String.length l) s). lia. }
    rewrite (substring_split (String.length l) s) by done. constructor; auto.
  - apply plus_from_sound in H as (c & g & s' & cs & -> & -> & ? & ?). constructor; auto.
Qed.

Lemma match_here_complete ps s caps : pieces ps s caps -> is_Some (match_here ps s).
Proof.
  induction 1 as [s|l l' ps s caps E H IH|gr c g ps s caps Hno H IH]; simpl.
  - eauto.
  - apply EqualFold_spec in E as E'. apply (f_equal String.length) in E'.
    rewrite !ToLower_length in E'. rewrite <-E', substring_app_l, E.
    rewrite string_length_app. replace (_ + _ - _) with (String.length s) by lia.
    by rewrite substring_app_r.
  - by apply plus_from_complete.
Qed.

(** ** A group is what stands between two separators

    When the rest of the pattern needs as many slashes as the rest of the
    string has, a greedy group cannot run over a slash; a lazy group followed
    by a slash stops at the first one. *)
Fixpoint slashes (s : string) : nat :=
  match s with
  | EmptyString => 0
  | String c s => (if decide (c = slash) then 1 else 0) + slashes s
  end.

Definition need (ps : list piece) : nat :=
  sum_list_with (fun p => match p with PLit l => slashes l | PPlus _ => 0 end) ps.

Lemma slashes_app s t : slashes (s +:+ t) = slashes s + slashes t.
Proof. induction s as [|c s IH]; [done|]. rewrite string_app_cons. simpl. lia. Qed.

Lemma lower_ascii_slash c : lower_ascii c = slash <-> c = slash.
Proof. destruct c as [[] [] [] [] [] [] [] []]; vm_compute; split; congruence. Qed.

Lemma slashes_ToLower s : slashes (ToLower s) = slashes s.
Proof.
  induction s as [|c s IH]; simpl; [done|]. rewrite IH. f_equal.
  apply decide_ext. apply lower_ascii_slash.
Qed.

Lemma pieces_slashes ps s caps : pieces ps s caps -> need ps <= slashes s.
Proof.
  induction 1 as [s|l l' ps s caps E H IH|gr c g ps s caps Hno H IH]; unfold need in *; simpl.
  - lia.
  - apply EqualFold_spec in E. rewrite slashes_app, <-(slashes_ToLower l'), E, slashes_ToLower.
    lia.
  - rewrite slashes_app. lia.
Qed.

Lemma match_here_slashes ps s : slashes s < need ps -> match_here ps s = None.
Proof.
  intros H. destruct (match_here ps s) eqn:E; [|done].
  apply match_here_sound, pieces_slashes in E. lia.
Qed.

Lemma plus_from_slashes gr ps s :
  slashes s <= need ps -> HasPrefix s "/" = true -> plus_from gr (match_here ps) s = None.
Proof.
  intros Hs [t ->]%HasPrefix_spec. destruct (plus_from _ _ _) as [r|] eqn:E; [|done].
  apply plus_from_sound in E as (c & g & s' & caps & Heq & _ & _ & Hk).
  apply match_here_sound, pieces_slashes in Hk.
  change ("/" +:+ t) with (String slash t) in *. rewrite string_app_cons in Heq. simplify_eq.
  cbn [slashes] in Hs. rewrite decide_True in Hs by done.
  rewrite slashes_app in Hs. lia.
Qed.

(** A path segment: no separator and no newline, and not empty *)
Definition segment (s : string) : bool :=
  negb (bool_decide (s = EmptyString)) && negb (ContainsRune s slash) && negb (ContainsRune s newline).

Lemma segment_spec s :
  segment s = true <->
  s <> EmptyString /\ ContainsRune s slash = false /\ ContainsRune s newline = false.
Proof.
  unfold segment. rewrite !andb_true_iff, !negb_true_iff, bool_decide_eq_false. tauto.
Qed.

Lemma slashes_none s : ContainsRune s slash = false -> slashes s = 0.
Proof.
  induction s as [|c s IH]; simpl; [done|]. intros [Hc ?]%orb_false_iff.
  apply bool_decide_eq_false in Hc. rewrite decide_False by congruence. auto.
Qed.

Lemma lit_head_slash l ps c s :
  HasPrefix l "/" = true -> c <> slash -> match_here (PLit l :: ps) (String c s) = None.
Proof.
  intros [t ->]%HasPrefix_spec Hc. simpl.
  destruct (EqualFold _ _) eqn:E; [|done]. apply EqualFold_spec in E. exfalso.
  injection E as E _. apply Hc. by apply lower_ascii_slash.
Qed.

Lemma match_here_group gr l ps g s caps :
  segment g = true -> HasPrefix l "/" = true -> HasPrefix s "/" = true ->
  (gr = true -> slashes s <= need (PLit l :: ps)) ->
  match_here (PLit l :: ps) s = Some caps ->
  match_here (PPlus gr :: PLit l :: ps) (g +:+ s) = Some (g :: caps).
Proof.
  intros (Hne & Hsl & Hnl)%segment_spec Hl Hs Hneed Hk.
  change (plus_from gr (match_here (PLit l :: ps)) (g +:+ s) = Some (g :: caps)).
  induction g as [|c g IH]; [done|]. clear Hne. rewrite string_app_cons. cbn [plus_from].
  cbn [ContainsRune] in Hsl, Hnl.
  apply orb_false_iff in Hsl as [Hc Hsl], Hnl as [Hn Hnl].
  apply bool_decide_eq_false in Hc, Hn. rewrite decide_False by congruence.
  destruct g as [|d g].
  - change (EmptyString +:+ s) with s. rewrite Hk. destruct gr; [|done].
    by rewrite plus_from_slashes by auto.
  - rewrite IH by done. destruct gr; [done|].
    rewrite string_app_cons, lit_head_slash; [done|done|].
    cbn [ContainsRune] in Hsl. apply orb_false_iff in Hsl as [Hd _].
    apply bool_decide_eq_false in Hd. congruence.
Qed.

Lemma match_here_last g :
  g <> EmptyString -> ContainsRune g newline = false -> match_here [PPlus true] g = Some [g].
Proof.
  intros Hne Hnl. cbn [match_here]. induction g as [|c g IH]; [done|].
  cbn [plus_from]. cbn [ContainsRune] in Hnl. apply orb_false_iff in Hnl as [Hn Hnl].
  apply bool_decide_eq_false in Hn. rewrite decide_False by congruence.
  destruct g as [|d g]; [done|]. by rewrite IH.
Qed.

Lemma match_here_lit l l' ps s :
  EqualFold l' l = true -> match_here (PLit l :: ps) (l' +:+ s) = match_here ps s.
Proof.
  intros E. simpl. apply EqualFold_spec in E as E'. apply (f_equal String.length) in E'.
  rewrite !ToLower_length in E'. rewrite <-E', substring_app_l, E, string_length_app.
  replace (_ + _ - _) with (String.length s) by lia. by rewrite substring_app_r.
Qed.
