(* ===== verification/Azure.v ===== *)
(** * Resource identifiers and UUIDs

    The parsers of the vendored packages that the whole program routes its
    identifiers through: [azure.ParseResourceID]
    (src/vendor/github.com/Azure/go-autorest/autorest/azure/azure.go) and
    [uuid.FromString] (src/vendor/github.com/satori/go.uuid/codec.go). *)
From S2P Require Import Prelude GoStrings.
From S2P Require Import Regex.
From Stdlib Require Import Ascii.

(** ** Azure resource identifiers *)
Record Resource := mkResource {
  r_SubscriptionID : string;
  r_ResourceGroup : string;
  r_Provider : string;
  r_ResourceType : string;
  r_ResourceName : string;
}.

(** [(?i)subscriptions/(.+)/resourceGroups/(.+)/providers/(.+?)/(.+?)/(.+)] *)
Definition resourceIDPatternText : list piece :=
  [PLit "subscriptions/"; PPlus true; PLit "/resourceGroups/"; PPlus true;
   PLit "/providers/"; PPlus false; PLit "/"; PPlus false; PLit "/"; PPlus true].

Definition ParseResourceID (resourceID : string) : res Resource :=
  match FindStringSubmatch resourceIDPatternText resourceID with
  | Some [m1; m2; m3; m4; m5] =>
      let v := Split m5 in
      do? resourceName <- index v (length v - 1);
      Ok (mkResource m1 m2 m3 m4 resourceName)
  | _ => Err (ErrOther ("parsing failed for " +:+ resourceID +:+ ". Invalid resource Id format"))
  end.

(** What stands after the last slash of an identifier *)
Definition resource_group_of (id : string) : res string := slice_from id (LastIndexByte id slash + 1).

(** The path the program's documents and routes use *)
Definition resource_path (sub rg ns rest : string) : string :=
  "/subscriptions/" +:+ sub +:+ "/resourcegroups/" +:+ rg +:+ "/providers/" +:+ ns +:+ "/" +:+ rest.

(** ** UUIDs *)
Definition fromHexChar (c : ascii) : option Z :=
  let n := Z.of_nat (nat_of_ascii c) in
  (if (48 <=? n) && (n <=? 57) then Some (n - 48)
   else if (97 <=? n) && (n <=? 102) then Some (n - 97 + 10)
   else if (65 <=? n) && (n <=? 70) then Some (n - 65 + 10)
   else None)%Z.

(** [hex.Decode]; the caller's slices have an even length *)
Fixpoint hexDecode (s : string) : option (list Z) :=
  match s with
  | EmptyString => Some []
  | String a (String b s) =>
      match fromHexChar a, fromHexChar b, hexDecode s with
      | Some x, Some y, Some bs => Some ((16 * x + y)%Z :: bs)
      | _, _, _ => None
      end
  | String _ EmptyString => None
  end.

Definition uuid_err {A} : res A := Err (ErrOther "uuid: incorrect UUID format").
Definition of_hex (s : string) : res (list Z) :=
  match hexDecode s with
  | Some bs => Ok bs
  | None => Err (ErrOther "encoding/hex: invalid byte")
  end.

Definition at_is (t : string) (i : nat) (c : ascii) : bool := bool_decide (String.get i t = Some c).

Definition decodeHashLike (t : string) : res (list Z) := of_hex t.

Definition decodeCanonical (t : string) : res (list Z) :=
  if at_is t 8 "-" && at_is t 13 "-" && at_is t 18 "-" && at_is t 23 "-" then
    do? b0 <- of_hex (String.substring 0 8 t);
    do? b1 <- of_hex (String.substring 9 4 t);
    do? b2 <- of_hex (String.substring 14 4 t);
    do? b3 <- of_hex (String.substring 19 4 t);
    do? b4 <- of_hex (String.substring 24 12 t);
    Ok (b0 ++ b1 ++ b2 ++ b3 ++ b4)
  else uuid_err.

Definition decodePlain (t : string) : res (list Z) :=
  match String.length t with
  | 32 => decodeHashLike t
  | 36 => decodeCanonical t
  | _ => uuid_err
  end.

Definition decodeBraced (t : string) : res (list Z) :=
  let l := String.length t in
  if at_is t 0 "{" && at_is t (l - 1) "}" then decodePlain (String.substring 1 (l - 2) t)
  else uuid_err.

Definition decodeURN (t : string) : res (list Z) :=
  if bool_decide (String.substring 0 9 t = "urn:uuid:")
  then decodePlain (String.substring 9 (String.length t - 9) t)
  else uuid_err.

Definition FromString (text : string) : res (list Z) :=
  match String.length text with
  | 32 => decodeHashLike text
  | 36 => decodeCanonical text
  | 38 => decodeBraced text
  | 41 | 45 => decodeURN text
  | _ => uuid_err
  end.

Example FromString_canonical :
  FromString "6ba7b810-9dad-11d1-80b4-00c04fd430c8"
  = FromString "6BA7B8109DAD11D180B400C04FD430C8".
Proof. reflexivity. Qed.
Example FromString_urn :
  FromString "urn:uuid:6ba7b810-9dad-11d1-80b4-00c04fd430c8"
  = FromString "{6ba7b810-9dad-11d1-80b4-00c04fd430c8}".
Proof. reflexivity. Qed.
Example FromString_bad : is_ok (FromString "6ba7b810-9dad-11d1-80b4-00c04fd430c") = false.
Proof. reflexivity. Qed.

(** ** Lemmas *)
Lemma hexDecode_length s bs : hexDecode s = Some bs -> String.length s = 2 * length bs.
Proof.
  revert bs. induction s as [s IH] using (induction_ltof1 _ String.length); unfold ltof in IH.
  destruct s as [|a [|b s]]; intros bs H; cbn [hexDecode] in H; [by simplify_eq|done|].
  destruct (fromHexChar a), (fromHexChar b), (hexDecode s) eqn:E; simplify_eq.
  apply IH in E; simpl in *; lia.
Qed.

(** [of_hex] of a piece of known length *)
Lemma of_hex_length s bs : of_hex s = Ok bs -> String.length s = 2 * length bs.
Proof.
  unfold of_hex. intros H. destruct (hexDecode s) eqn:E; simplify_eq. by apply hexDecode_length.
Qed.

Lemma pieces_head_lit l ps c s :
  lower_ascii c <> lower_ascii (default " "%char (String.get 0 l)) -> l <> EmptyString ->
  match_here (PLit l :: ps) (String c s) = None.
Proof.
  intros Hc Hl. destruct l as [|d l]; [done|]. simpl in *.
  destruct (EqualFold _ _) eqn:E; [|done]. apply EqualFold_spec in E. simpl in E. congruence.
Qed.

(** On a canonical path the parser gives back the five parts it was built
    from: the groups may not run over a separator, whatever the names hold. *)
Lemma ParseResourceID_path sub rg ns ty name :
  segment sub = true -> segment rg = true -> segment ns = true ->
  segment ty = true -> segment name = true ->
  ParseResourceID (resource_path sub rg ns (ty +:+ "/" +:+ name))
  = Ok (mkResource sub rg ns ty name).
Proof.
  intros Hs Hr Hn Ht Hm. unfold ParseResourceID.
  assert (FindStringSubmatch resourceIDPatternText
    (resource_path sub rg ns (ty +:+ "/" +:+ name)) = Some [sub; rg; ns; ty; name]) as ->.
  { unfold resource_path. rewrite (string_app_cons "/" "subscriptions/").
    cbn [FindStringSubmatch]. unfold resourceIDPatternText at 1.
    rewrite pieces_head_lit by done.
    set (rest := "subscriptions/" +:+ _).
    assert (match_here resourceIDPatternText rest = Some [sub; rg; ns; ty; name]) as Hm'.
    { unfold rest, resourceIDPatternText. rewrite (match_here_lit "subscriptions/") by done.
      pose proof Hs as Hs'. pose proof Hr as Hr'. pose proof Hn as Hn'.
      pose proof Ht as Ht'. pose proof Hm as Hm'.
      apply segment_spec in Hs' as (?&?&?), Hr' as (?&?&?), Hn' as (?&?&?),
        Ht' as (?&?&?), Hm' as (?&?&?).
      apply match_here_group; [done|done|done|..].
      { intros _. rewrite !slashes_app, (slashes_none rg), (slashes_none ns), (slashes_none ty), (slashes_none name) by done. cbv; lia. }
      rewrite (match_here_lit "/resourceGroups/" "/resourcegroups/") by done.
      apply match_here_group; [done|done|done|..].
      { intros _. rewrite !slashes_app, (slashes_none ns), (slashes_none ty), (slashes_none name) by done. cbv; lia. }
      rewrite (match_here_lit "/providers/") by done.
      apply match_here_group; [done|done|apply HasPrefix_app|intros [=]|].
      rewrite (match_here_lit "/") by done.
      apply match_here_group; [done|done|apply HasPrefix_app|intros [=]|].
      rewrite (match_here_lit "/") by done. by apply match_here_last. }
    destruct rest as [|c rest]; cbn [FindStringSubmatch]; by rewrite Hm'. }
  simpl. apply segment_spec in Hm as (_ & Hm & _). unfold Split.
  by rewrite SplitChar_no_sep.
Qed.

(** The parser's only error is its own. *)
Lemma ParseResourceID_err s e : ParseResourceID s = Err e -> exists m, e = ErrOther m.
Proof.
  unfold ParseResourceID. destruct (FindStringSubmatch _ _) as [l|]; [|by intros; simplify_eq; eauto].
  do 6 (destruct l as [|? l]; try by intros; simplify_eq; eauto).
  simpl. unfold index. by destruct (Split _ !! _).
Qed.
