(* ===== verification/Api.v ===== *)
(** * The internal API types (src/pkg/api)

    The documents the program keeps in its three collections and the values
    inside them: one record per struct, a nil-able pointer, slice or map as an
    [option], a named string type as a string with its constants. Time stamps
    are integers and an [rsa.PrivateKey] is its PKCS #1 encoding. *)
From S2P Require Import Prelude GoStrings.

(** ** Machine integers *)
Definition wrap (w z : Z) : Z := ((z + 2 ^ (w - 1)) mod 2 ^ w - 2 ^ (w - 1))%Z.
Definition int64 (z : Z) : Z := wrap 64 z.
Definition int32 (z : Z) : Z := wrap 32 z.

Lemma wrap_id w z : (0 < w)%Z -> (- 2 ^ (w - 1) <= z < 2 ^ (w - 1))%Z -> wrap w z = z.
Proof.
  intros Hw H. unfold wrap.
  assert (2 ^ w = 2 * 2 ^ (w - 1))%Z as E.
  { rewrite <-Z.pow_succ_r by lia. f_equal. lia. }
  rewrite Z.mod_small; lia.
Qed.

Lemma wrap_range w z : (0 < w)%Z -> (- 2 ^ (w - 1) <= wrap w z < 2 ^ (w - 1))%Z.
Proof.
  intros Hw. unfold wrap.
  assert (2 ^ w = 2 * 2 ^ (w - 1))%Z as E.
  { rewrite <-Z.pow_succ_r by lia. f_equal. lia. }
  pose proof (Z.mod_pos_bound (z + 2 ^ (w - 1)) (2 ^ w)). lia.
Qed.

(** The fields a newer version stored and this one does not know
    (src/pkg/api/missingfields.go): the raw value of each. *)
Record MissingFields := mkMissingFields { mf_m : option (gmap string string) }.

(** Keeps a field the decoder has no place for *)
Definition CodecMissingField (mf : MissingFields) (field value : string) : MissingFields * bool :=
  (mkMissingFields (Some (<[field := value]> (default ∅ (mf_m mf)))), true).
Definition CodecMissingFields (mf : MissingFields) : option (gmap string string) := mf_m mf.

(** ** Enumerated strings *)
Definition ProvisioningState := string.
Definition ProvisioningStateCreating : ProvisioningState := "Creating".
Definition ProvisioningStateUpdating : ProvisioningState := "Updating".
Definition ProvisioningStateDeleting : ProvisioningState := "Deleting".
Definition ProvisioningStateSucceeded : ProvisioningState := "Succeeded".
Definition ProvisioningStateFailed : ProvisioningState := "Failed".

Definition VMSize := string.
Definition VMSizeStandardD2sV3 : VMSize := "Standard_D2s_v3".
Definition VMSizeStandardD4sV3 : VMSize := "Standard_D4s_v3".
Definition VMSizeStandardD8sV3 : VMSize := "Standard_D8s_v3".

Definition Visibility := string.
Definition VisibilityPublic : Visibility := "Public".
Definition VisibilityPrivate : Visibility := "Private".

Definition SubscriptionState := string.
Definition SubscriptionStateRegistered : SubscriptionState := "Registered".
Definition SubscriptionStateUnregistered : SubscriptionState := "Unregistered".
Definition SubscriptionStateWarned : SubscriptionState := "Warned".
Definition SubscriptionStateSuspended : SubscriptionState := "Suspended".
Definition SubscriptionStateDeleted : SubscriptionState := "Deleted".

(** [InstallPhase], an int; the constants are its first three values. *)
Definition InstallPhase := Z.
Definition InstallPhaseDeployStorage : InstallPhase := 0%Z.
Definition InstallPhaseDeployResources : InstallPhase := 1%Z.
Definition InstallPhaseRemoveBootstrap : InstallPhase := 2%Z.

(** ** The cluster resource (openshiftcluster.go) *)
Record ClusterProfile := mkClusterProfile {
  cp_MissingFields : MissingFields;
  cp_Domain : string;
  cp_Version : string;
  cp_ResourceGroupID : string;
}.
Record ConsoleProfile := mkConsoleProfile {
  cons_MissingFields : MissingFields;
  cons_URL : string;
}.
Record ServicePrincipalProfile := mkServicePrincipalProfile {
  spp_MissingFields : MissingFields;
  spp_TenantID : string;
  spp_ClientID : string;
  spp_ClientSecret : string;
}.
Record NetworkProfile := mkNetworkProfile {
  np_MissingFields : MissingFields;
  np_PodCIDR : string;
  np_ServiceCIDR : string;
  np_PrivateEndpointIP : string;
}.
Record MasterProfile := mkMasterProfile {
  mp_MissingFields : MissingFields;
  mp_VMSize : VMSize;
  mp_SubnetID : string;
}.
Record WorkerProfile := mkWorkerProfile {
  wp_MissingFields : MissingFields;
  wp_Name : string;
  wp_VMSize : VMSize;
  wp_DiskSizeGB : Z;
  wp_SubnetID : string;
  wp_Count : Z;
}.
Record APIServerProfile := mkAPIServerProfile {
  asp_MissingFields : MissingFields;
  asp_Visibility : Visibility;
  asp_URL : string;
  asp_IP : string;
}.
Record IngressProfile := mkIngressProfile {
  ip_MissingFields : MissingFields;
  ip_Name : string;
  ip_Visibility : Visibility;
  ip_IP : string;
}.
Record Install := mkInstall {
  i_MissingFields : MissingFields;
  i_Now : Z;
  i_Phase : InstallPhase;
}.

Record Properties := mkProperties {
  p_MissingFields : MissingFields;
  p_ProvisioningState : ProvisioningState;
  p_FailedProvisioningState : ProvisioningState;
  p_ClusterProfile : ClusterProfile;
  p_ConsoleProfile : ConsoleProfile;
  p_ServicePrincipalProfile : ServicePrincipalProfile;
  p_NetworkProfile : NetworkProfile;
  p_MasterProfile : MasterProfile;
  p_WorkerProfiles : option (list WorkerProfile);
  p_APIServerProfile : APIServerProfile;
  p_IngressProfiles : option (list IngressProfile);
  p_Install : option Install;
  p_StorageSuffix : string;
  p_SSHKey : option string;
  p_AdminKubeconfig : option string;
  p_KubeadminPassword : string;
}.

Record OpenShiftCluster := mkOpenShiftCluster {
  oc_MissingFields : MissingFields;
  oc_ID : string;
  oc_Name : string;
  oc_Type : string;
  oc_Location : string;
  oc_Tags : option (gmap string string);
  oc_Properties : Properties;
}.

(** ** The documents *)

(** The fields every Cosmos DB document has *)
Record DocMeta := mkDocMeta {
  m_ResourceID : string;
  m_Timestamp : Z;
  m_Self : string;
  m_ETag : string;
  m_Attachments : string;
}.

(** openshiftclusterdocument.go *)
Record OpenShiftClusterDocument := mkOpenShiftClusterDocument {
  ocd_MissingFields : MissingFields;
  ocd_ID : string;
  ocd_Meta : DocMeta;
  ocd_Key : string;
  ocd_PartitionKey : string;
  ocd_ClusterResourceGroupIDKey : string;
  ocd_LeaseOwner : string;
  ocd_LeaseExpires : Z;
  ocd_Dequeues : Z;
  ocd_AsyncOperationID : string;
  ocd_OpenShiftCluster : option OpenShiftCluster;
}.

(** subscription.go, subscriptiondocument.go *)
Record SubscriptionProperties := mkSubscriptionProperties {
  sp_MissingFields : MissingFields;
  sp_TenantID : string;
}.
Record Subscription := mkSubscription {
  s_MissingFields : MissingFields;
  s_State : SubscriptionState;
  s_Properties : option SubscriptionProperties;
}.
Record SubscriptionDocument := mkSubscriptionDocument {
  sd_MissingFields : MissingFields;
  sd_ID : string;
  sd_Meta : DocMeta;
  sd_LeaseOwner : string;
  sd_LeaseExpires : Z;
  sd_Dequeues : Z;
  sd_Deleting : bool;
  sd_Subscription : option Subscription;
}.

(** asyncoperation.go, asyncoperationdocument.go *)
Record AsyncOperation := mkAsyncOperation {
  ao_MissingFields : MissingFields;
  ao_ID : string;
  ao_Name : string;
  ao_InitialProvisioningState : ProvisioningState;
  ao_ProvisioningState : ProvisioningState;
  ao_StartTime : Z;
  ao_EndTime : option Z;
  ao_Error : option CloudErrorBody;
}.
Record AsyncOperationDocument := mkAsyncOperationDocument {
  ad_MissingFields : MissingFields;
  ad_ID : string;
  ad_Meta : DocMeta;
  ad_AsyncOperation : option AsyncOperation;
  ad_OpenShiftClusterKey : string;
  ad_OpenShiftCluster : option OpenShiftCluster;
}.

(** ** Setters through the pointer to the cluster *)
Definition set_oc (f : OpenShiftCluster -> OpenShiftCluster) (d : OpenShiftClusterDocument)
    : OpenShiftClusterDocument :=
  d <| ocd_OpenShiftCluster := f <$> ocd_OpenShiftCluster d |>.
Definition set_state (s : ProvisioningState) (oc : OpenShiftCluster) : OpenShiftCluster :=
  oc <| oc_Properties -> p_ProvisioningState := s |>.
Definition set_failed_state (s : ProvisioningState) (oc : OpenShiftCluster) : OpenShiftCluster :=
  oc <| oc_Properties -> p_FailedProvisioningState := s |>.
Definition state_of (oc : OpenShiftCluster) : ProvisioningState := p_ProvisioningState (oc_Properties oc).
Definition failed_state_of (oc : OpenShiftCluster) : ProvisioningState :=
  p_FailedProvisioningState (oc_Properties oc).

(** ** Errors of the API (error.go) *)
Definition CloudErrorCodeInternalServerError : string := "InternalServerError".
Definition CloudErrorCodeInvalidParameter : string := "InvalidParameter".
Definition CloudErrorCodeInvalidRequestContent : string := "InvalidRequestContent".
Definition CloudErrorCodeInvalidResource : string := "InvalidResource".
Definition CloudErrorCodeInvalidResourceGroup : string := "InvalidResourceGroup".
Definition CloudErrorCodeInvalidResourceNamespace : string := "InvalidResourceNamespace".
Definition CloudErrorCodeInvalidResourceType : string := "InvalidResourceType".
Definition CloudErrorCodeInvalidSubscriptionID : string := "InvalidSubscriptionID".
Definition CloudErrorCodeMismatchingResourceID : string := "MismatchingResourceID".
Definition CloudErrorCodeMismatchingResourceName : string := "MismatchingResourceName".
Definition CloudErrorCodeMismatchingResourceType : string := "MismatchingResourceType".
Definition CloudErrorCodePropertyChangeNotAllowed : string := "PropertyChangeNotAllowed".
Definition CloudErrorCodeRequestNotAllowed : string := "RequestNotAllowed".
Definition CloudErrorCodeResourceGroupNotFound : string := "ResourceGroupNotFound".
Definition CloudErrorCodeResourceNotFound : string := "ResourceNotFound".
Definition CloudErrorCodeUnsupportedMediaType : string := "UnsupportedMediaType".
Definition CloudErrorCodeInvalidLinkedVNet : string := "InvalidLinkedVNet".
Definition CloudErrorCodeNotFound : string := "NotFound".
Definition CloudErrorCodeForbidden : string := "Forbidden".
Definition CloudErrorCodeInvalidSubscriptionState : string := "InvalidSubscriptionState".
Definition CloudErrorCodeInvalidServicePrincipalCredentials : string := "InvalidServicePrincipalCredentials".
Definition CloudErrorCodeInvalidResourceProviderPermissions : string := "InvalidResourceProviderPermissions".
Definition CloudErrorCodeInvalidServicePrincipalPermissions : string := "InvalidServicePrincipalPermissions".
Definition CloudErrorCodeInvalidLocation : string := "InvalidLocation".
Definition CloudErrorCodeInvalidOperationID : string := "InvalidOperationID".

(** HTTP status codes (net/http) *)
Definition StatusOK : Z := 200.
Definition StatusCreated : Z := 201.
Definition StatusAccepted : Z := 202.
Definition StatusNoContent : Z := 204.
Definition StatusNotModified : Z := 304.
Definition StatusBadRequest : Z := 400.
Definition StatusForbidden : Z := 403.
Definition StatusNotFound : Z := 404.
Definition StatusConflict : Z := 409.
Definition StatusPreconditionFailed : Z := 412.
Definition StatusUnsupportedMediaType : Z := 415.
Definition StatusTooManyRequests : Z := 429.
Definition StatusInternalServerError : Z := 500.

(** The message is formatted by the caller. *)
Definition NewCloudErrorBody (code target message : string) : CloudErrorBody :=
  mkCloudErrorBody code message target [].
Definition NewCloudError (statusCode : Z) (code target message : string) : error :=
  ErrCloud statusCode (NewCloudErrorBody code target message).

(** [Error()] of an error, where the program prints it *)
Definition Error_string (e : error) : string :=
  match e with
  | ErrCloud n b => Itoa n +:+ ": " +:+ ceb_Code b +:+ ": " +:+ ceb_Target b +:+ ": " +:+ ceb_Message b
  | ErrCosmos n c m => Itoa n +:+ " " +:+ c +:+ ": " +:+ m
  | ErrStatusCode n => Itoa n
  | ErrDetailed n c => c
  | ErrOther m => m
  end.

(** ** The install phases' names (zz_generated_installphase_enumer.go, marshal.go) *)
Module InstallPhases.
Definition _InstallPhaseName : string :=
    "InstallPhaseDeployStorageInstallPhaseDeployResourcesInstallPhaseRemoveBootstrap".
Definition _InstallPhaseIndex : list Z := [0; 25; 52; 79]%Z.
Definition _InstallPhaseValues : list InstallPhase := [0; 1; 2]%Z.

Definition slice (s : string) (i j : Z) : string :=
    String.substring (Z.to_nat i) (Z.to_nat (j - i)) s.

Definition String (i : InstallPhase) : string :=
  if bool_decide (i < 0)%Z || bool_decide (Z.of_nat (length _InstallPhaseIndex - 1) <= i)%Z
  then "InstallPhase(" +:+ Itoa i +:+ ")"
  else slice _InstallPhaseName
         (default 0%Z (_InstallPhaseIndex !! Z.to_nat i))
         (default 0%Z (_InstallPhaseIndex !! Z.to_nat (i + 1))).

Definition _InstallPhaseNameToValueMap : gmap string InstallPhase :=
  {[ slice _InstallPhaseName 0 25 := 0%Z; slice _InstallPhaseName 25 52 := 1%Z;
     slice _InstallPhaseName 52 79 := 2%Z ]}.

Definition InstallPhaseString (s : string) : res InstallPhase :=
  match _InstallPhaseNameToValueMap !! s with
  | Some val => Ok val
  | None => Err (ErrOther (s +:+ " does not belong to InstallPhase values"))
  end.

Definition IsAInstallPhase (i : InstallPhase) : bool := existsb (Z.eqb i) _InstallPhaseValues.

(** The codec is the enumeration's: [MarshalJSON] writes the name,
    [UnmarshalJSON] reads it back. *)
Definition MarshalJSON (p : InstallPhase) : string := String p.
Definition UnmarshalJSON (s : string) : res InstallPhase := InstallPhaseString s.

Lemma IsAInstallPhase_spec i : IsAInstallPhase i = true <-> (0 <= i <= 2)%Z.
Proof.
  unfold IsAInstallPhase, _InstallPhaseValues. simpl. rewrite !orb_true_iff, !Z.eqb_eq. 
  split; [intros [|[|[|[=]]]]; lia|]. intros. lia.
Qed.

Lemma Unmarshal_Marshal i : IsAInstallPhase i = true -> UnmarshalJSON (MarshalJSON i) = Ok i.
Proof.
  intros Hi%IsAInstallPhase_spec.
  assert (i = 0 \/ i = 1 \/ i = 2)%Z as [-> | [-> | ->]] by lia; reflexivity.
Qed.
End InstallPhases.
