(* ===== verification/Cosmos.v ===== *)
(** * The Cosmos DB client (src/pkg/database/cosmosdb)

    One generated client per document type, all three with the same text; the
    section below is that text over a document type [D]. The account is reached
    through [Service], the transport of the HTTP client: a request goes out, a
    response or a transport error comes back. The codec is transparent: a
    response carries what decoding its body into the caller's variable gives. *)
From S2P Require Import Prelude GoStrings.
From S2P Require Import Api.
From Stdlib Require Import Ascii.

(** ** http.Header *)
Abbreviation Header := (gmap string (list string)).

Definition canonical_char (upper : bool) (c : ascii) : ascii :=
  let n := nat_of_ascii c in
  if upper then (if (97 <=? n) && (n <=? 122) then ascii_of_nat (n - 32) else c)
  else lower_ascii c.
Fixpoint canonical_from (upper : bool) (s : string) : string :=
  match s with
  | EmptyString => EmptyString
  | String c s => String (canonical_char upper c) (canonical_from (bool_decide (c = "-"%char)) s)
  end.
Definition CanonicalMIMEHeaderKey (s : string) : string := canonical_from true s.

Definition h_Get (h : Header) (k : string) : string :=
  default EmptyString (head (default [] (h !! CanonicalMIMEHeaderKey k))).
Definition h_Set (k v : string) (h : Header) : Header := <[CanonicalMIMEHeaderKey k := [v]]> h.

(** [for k, v := range headers { req.Header[CanonicalMIMEHeaderKey(k)] = v }] *)
Definition h_merge (headers h : Header) : Header :=
  map_fold (fun k v acc => <[CanonicalMIMEHeaderKey k := v]> acc) h headers.

(** ** The run-time the program relies on: the clock, sleeping, random UUIDs,
    and the cryptography of the request signature *)
Class Runtime (W : Type) := {
  time_Now : M W Z;
  time_Sleep : Z -> M W unit;
  uuid_NewV4 : M W string;
  format_date : Z -> string;
  base64_DecodeString : string -> option string;
  sign_request : string -> string -> string;  (* base64 of the HMAC, query-escaped *)
}.

(** ** Requests and responses *)
Record QueryParameter := mkParameter { qp_Name : string; qp_Value : string }.
Record Query := mkQuery { q_Query : string; q_Parameters : list QueryParameter }.

Record Options := mkOptions {
  o_NoETag : bool;
  o_PreTriggers : list string;
  o_PostTriggers : list string;
  o_PartitionKeyRangeID : string;
}.

Record Documents (D : Type) := mkDocuments {
  ds_Count : Z;
  ds_ResourceID : string;
  ds_Documents : list D;
}.
Arguments mkDocuments {D}.
Arguments ds_Count {D}.
Arguments ds_ResourceID {D}.
Arguments ds_Documents {D}.

Inductive Payload (D : Type) :=
| NoBody
| BodyDoc (d : D)
| BodyQuery (q : Query).
Arguments NoBody {D}.
Arguments BodyDoc {D} d.
Arguments BodyQuery {D} q.

Record Request (D : Type) := mkRequest {
  rq_Method : string;
  rq_URL : string;
  rq_Header : Header;
  rq_Body : Payload D;
}.
Arguments mkRequest {D}.
Arguments rq_Method {D}.
Arguments rq_URL {D}.
Arguments rq_Header {D}.
Arguments rq_Body {D}.

(** [rs_doc], [rs_docs] and [rs_error] are what decoding the body into a
    document, a page of documents and an error gives; [inr] is an error of the
    codec. *)
Record Response (D : Type) := mkResponse {
  rs_StatusCode : Z;
  rs_Header : Header;
  rs_doc : option D + string;
  rs_docs : option (Documents D) + string;
  rs_error : string * string;
}.
Arguments mkResponse {D}.
Arguments rs_StatusCode {D}.
Arguments rs_Header {D}.
Arguments rs_doc {D}.
Arguments rs_docs {D}.
Arguments rs_error {D}.

(** The transport. An [Err] is an error of the HTTP client, the failure to
    build the request included. *)
Class Service (W D : Type) := hc_Do : Request D -> M W (Response D).

(** The two fields of a document the client looks at *)
Class Document (D : Type) := {
  d_ID : D -> string;
  d_ETag : D -> string;
}.

Definition IsErrorStatusCode (err : error) (statusCode : Z) : bool :=
  match err with
  | ErrCosmos n _ _ => bool_decide (n = statusCode)
  | _ => false
  end.

(** [IsErrorStatusCode] on the error of a finished call, nil included *)
Definition is_status {A} (r : A + error) (statusCode : Z) : bool :=
  match r with
  | inl _ => false
  | inr e => IsErrorStatusCode e statusCode
  end.

Definition ErrETagRequired : error := ErrOther "ETag is required".

(** Retries a function if it fails due to PreconditionFailed: five tries, the
    last error when all fail. *)
Fixpoint retry_from {W A} `{Runtime W} (left : nat) (i : Z) (f : M W A) : M W A :=
  match left with
  | 0 => panic "retry without a try"
  | S left' =>
      do! r <- try f;
      match r with
      | inl a => ret a
      | inr e =>
          if IsErrorStatusCode e StatusPreconditionFailed then
            do! _ <- time_Sleep (100 * i);
            match left' with
            | 0 => throw e
            | S _ => retry_from left' (i + 1) f
            end
          else throw e
      end
  end.
Definition RetryOnPreconditionFailed {W A} `{Runtime W} (f : M W A) : M W A := retry_from 5 0 f.

(** ** The client *)
Record databaseClient := mkDatabaseClient {
  dc_databaseAccount : string;
  dc_masterKey : string;
  dc_maxRetries : nat;
}.
(** Ten attempts on 429; the key must be base64. *)
Definition NewDatabaseClient {W} {R : Runtime W} (databaseAccount masterKey : string) : res databaseClient :=
  match base64_DecodeString masterKey with
  | Some key => Ok (mkDatabaseClient databaseAccount key 10)
  | None => Err (ErrOther "illegal base64 data")
  end.

(** A client of one collection: the account and the collection's path *)
Record documentClient := mkDocumentClient {
  c_databaseClient : databaseClient;
  c_path : string;
}.
Definition NewDocumentClient (dbc : databaseClient) (dbid collid : string) : documentClient :=
  mkDocumentClient dbc ("dbs/" +:+ dbid +:+ "/colls/" +:+ collid).

Definition newline_s : string := String (ascii_of_nat 10) EmptyString.

Section client.
Context {W D : Type} `{!Runtime W, !Service W D, !Document D}.

(** Signs the request and stamps it with the date. *)
Definition authorizeRequest (c : databaseClient) (method resourceType resourceLink : string)
    (h : Header) : M W Header :=
  do! now <- time_Now;
  let date := format_date now in
  let msg := ToLower method +:+ newline_s +:+ resourceType +:+ newline_s +:+
             resourceLink +:+ newline_s +:+ ToLower date +:+ newline_s +:+ newline_s in
  ret (h_Set "x-ms-date" date (h_Set "Authorization" (sign_request (dc_masterKey c) msg) h)).

(** One attempt: the response, the decoded value, the error. *)
Definition _do {O} (c : databaseClient) (method path resourceType resourceLink : string)
    (expectedStatusCode : Z) (inb : Payload D) (nil : O) (decode : option (Response D -> O + string))
    (headers : Header) : M W (option (Response D) * O * option error) :=
  let h0 := match inb with
            | NoBody => ∅
            | _ => h_Set "Content-Type" "application/json" ∅
            end in
  let h1 := h_Set "x-ms-version" "2018-12-31" (h_merge headers h0) in
  do! h2 <- authorizeRequest c method resourceType resourceLink h1;
  do! resp <- try (hc_Do (mkRequest method
        ("https://" +:+ dc_databaseAccount c +:+ ".documents.azure.com/" +:+ path) h2 inb));
  match resp with
  | inr e => ret (None, nil, Some e)
  | inl resp =>
      if decide (rs_StatusCode resp = expectedStatusCode) then
        match decode with
        | Some decode =>
            if decide (h_Get (rs_Header resp) "Content-Type" = "application/json") then
              match decode resp with
              | inl a => ret (Some resp, a, None)
              | inr m => ret (Some resp, nil, Some (ErrOther m))
              end
            else ret (Some resp, nil, None)
        | None => ret (Some resp, nil, None)
        end
      else
        let '(code, message) :=
          if decide (h_Get (rs_Header resp) "Content-Type" = "application/json")
          then rs_error resp else (EmptyString, EmptyString) in
        ret (Some resp, nil, Some (ErrCosmos (rs_StatusCode resp) code message))
  end.

(** At most [n] attempts while the service throttles. [inr]: the delay header
    could not be parsed. *)
Fixpoint do_loop {O} (n : nat) (attempt : M W (option (Response D) * O * option error))
    (last : option (Response D) * O * option error)
    : M W ((option (Response D) * O * option error) + error) :=
  match n with
  | 0 => ret (inl last)
  | S n =>
      do! r <- attempt;
      let '(resp, out, err) := r in
      match err with
      | Some e =>
          if IsErrorStatusCode e StatusTooManyRequests then
            match resp with
            | None => panic "invalid memory address or nil pointer dereference"
            | Some rs =>
                match ParseInt (h_Get (rs_Header rs) "x-ms-retry-after-ms") with
                | None => ret (inr (ErrOther "strconv.ParseInt: parsing: invalid syntax"))
                | Some ms => do! _ <- time_Sleep ms; do_loop n attempt r
                end
            end
          else ret (inl r)
      | None => ret (inl r)
      end
  end.

(** The decoded value, the headers, which the response's replace, and the
    error. *)
Definition do {O} (c : databaseClient) (method path resourceType resourceLink : string)
    (expectedStatusCode : Z) (inb : Payload D) (nil : O) (decode : option (Response D -> O + string))
    (headers : Header) : M W (O * Header * option error) :=
  do! r <- do_loop (dc_maxRetries c)
             (_do c method path resourceType resourceLink expectedStatusCode inb nil decode headers)
             (None, nil, None);
  match r with
  | inr e => ret (nil, headers, Some e)
  | inl (resp, out, err) =>
      ret (out, match resp with Some rs => rs_Header rs | None => headers end, err)
  end.

(** [if err != nil { return }] *)
Definition check {O} (r : O * Header * option error) : res (O * Header) :=
  let '(out, headers, err) := r in
  match err with Some e => Err e | None => Ok (out, headers) end.

(** The second half of [setOptions]: the triggers and the partition key range *)
Definition setTriggers (o : Options) (h1 : Header) : Header :=
  let h2 := match o_PreTriggers o with
            | [] => h1
            | l => h_Set "X-Ms-Documentdb-Pre-Trigger-Include" (JoinChar "," l) h1
            end in
  let h3 := match o_PostTriggers o with
            | [] => h2
            | l => h_Set "X-Ms-Documentdb-Post-Trigger-Include" (JoinChar "," l) h2
            end in
  if decide (o_PartitionKeyRangeID o = EmptyString) then h3
  else h_Set "X-Ms-Documentdb-PartitionKeyRangeID" (o_PartitionKeyRangeID o) h3.

(** The [If-Match] header of a document that is given and not exempted, then
    the rest. Nil options set nothing. *)
Definition setOptions (options : option Options) (doc : option D) (headers : Header) : res Header :=
  match options with
  | None => Ok headers
  | Some o =>
      do? h1 <- match doc with
                | Some d =>
                    if negb (o_NoETag o) then
                      if decide (d_ETag d = EmptyString) then Err ErrETagRequired
                      else Ok (h_Set "If-Match" (d_ETag d) headers)
                    else Ok headers
                | None => Ok headers
                end;
      Ok (setTriggers o h1)
  end.

Definition pk_headers (partitionkey : string) : Header :=
  h_Set "X-Ms-Documentdb-Partitionkey" ("[" +:+ dquote +:+ partitionkey +:+ dquote +:+ "]") ∅.

Definition Create (c : documentClient) (partitionkey : string) (newdoc : D)
    (options : option Options) : M W (option D) :=
  let o := default (mkOptions false [] [] EmptyString) options in
  let o := mkOptions true (o_PreTriggers o) (o_PostTriggers o) (o_PartitionKeyRangeID o) in
  do! headers <- lift (setOptions (Some o) (Some newdoc) (pk_headers partitionkey));
  do! r <- do (c_databaseClient c) "POST" (c_path c +:+ "/docs") "docs" (c_path c)
             StatusCreated (BodyDoc newdoc) None (Some rs_doc) headers;
  do! r <- lift (check r);
  ret (fst r).

Definition Get (c : documentClient) (partitionkey docid : string)
    (options : option Options) : M W (option D) :=
  do! headers <- lift (setOptions options None (pk_headers partitionkey));
  do! r <- do (c_databaseClient c) "GET" (c_path c +:+ "/docs/" +:+ docid) "docs"
             (c_path c +:+ "/docs/" +:+ docid) StatusOK NoBody None (Some rs_doc) headers;
  do! r <- lift (check r);
  ret (fst r).

Definition Replace (c : documentClient) (partitionkey : string) (newdoc : D)
    (options : option Options) : M W (option D) :=
  do! headers <- lift (setOptions options (Some newdoc) (pk_headers partitionkey));
  do! r <- do (c_databaseClient c) "PUT" (c_path c +:+ "/docs/" +:+ d_ID newdoc) "docs"
             (c_path c +:+ "/docs/" +:+ d_ID newdoc) StatusOK (BodyDoc newdoc) None
             (Some rs_doc) headers;
  do! r <- lift (check r);
  ret (fst r).

Definition Delete (c : documentClient) (partitionkey : string) (d : D)
    (options : option Options) : M W unit :=
  do! headers <- lift (setOptions options (Some d) (pk_headers partitionkey));
  do! r <- do (c_databaseClient c) "DELETE" (c_path c +:+ "/docs/" +:+ d_ID d) "docs"
             (c_path c +:+ "/docs/" +:+ d_ID d) StatusNoContent NoBody tt None headers;
  do! r <- lift (check r);
  ret (fst r).

(** *** Iterators: the state of a listing, of a query, of a change feed *)
Record listIterator := mkListIterator {
  li_continuation : string;
  li_done : bool;
  li_options : option Options;
}.
Definition List (options : option Options) : listIterator := mkListIterator EmptyString false options.

Record queryIterator := mkQueryIterator {
  qi_partitionkey : string;
  qi_query : Query;
  qi_continuation : string;
  qi_done : bool;
  qi_options : option Options;
}.
Definition Query_ (partitionkey : string) (query : Query) (options : option Options) : queryIterator :=
  mkQueryIterator partitionkey query EmptyString false options.

(** [ChangeFeed] drops the options it is given. *)
Record changeFeedIterator := mkChangeFeedIterator {
  cf_continuation : string;
  cf_options : option Options;
}.
Definition ChangeFeed (options : option Options) : changeFeedIterator :=
  mkChangeFeedIterator EmptyString None.

Definition list_NextRaw (c : documentClient) (i : listIterator)
    : M W (option (Documents D) * listIterator) :=
  if li_done i then ret (None, i)
  else
    let h := h_Set "X-Ms-Max-Item-Count" "-1" ∅ in
    let h := if decide (li_continuation i = EmptyString) then h
             else h_Set "X-Ms-Continuation" (li_continuation i) h in
    do! headers <- lift (setOptions (li_options i) None h);
    do! r <- do (c_databaseClient c) "GET" (c_path c +:+ "/docs") "docs" (c_path c)
               StatusOK NoBody None (Some rs_docs) headers;
    do! '(out, headers) <- lift (check r);
    let cont := h_Get headers "X-Ms-Continuation" in
    ret (out, mkListIterator cont (bool_decide (cont = EmptyString)) (li_options i)).

Definition query_headers (i : queryIterator) : Header :=
  let h := h_Set "Content-Type" "application/query+json"
             (h_Set "X-Ms-Documentdb-Isquery" "True" (h_Set "X-Ms-Max-Item-Count" "-1" ∅)) in
  let h := if decide (qi_partitionkey i = EmptyString)
           then h_Set "X-Ms-Documentdb-Query-Enablecrosspartition" "True" h
           else h_Set "X-Ms-Documentdb-Partitionkey"
                  ("[" +:+ dquote +:+ qi_partitionkey i +:+ dquote +:+ "]") h in
  if decide (qi_continuation i = EmptyString) then h
  else h_Set "X-Ms-Continuation" (qi_continuation i) h.

Definition query_NextRaw (c : documentClient) (i : queryIterator)
    : M W (option (Documents D) * queryIterator) :=
  if qi_done i then ret (None, i)
  else
    do! headers <- lift (setOptions (qi_options i) None (query_headers i));
    do! r <- do (c_databaseClient c) "POST" (c_path c +:+ "/docs") "docs" (c_path c)
               StatusOK (BodyQuery (qi_query i)) None (Some rs_docs) headers;
    do! '(out, headers) <- lift (check r);
    let cont := h_Get headers "X-Ms-Continuation" in
    ret (out, mkQueryIterator (qi_partitionkey i) (qi_query i) cont
                (bool_decide (cont = EmptyString)) (qi_options i)).

(** [NextRaw] into a typed variable *)
Definition Next (c : documentClient) (i : queryIterator)
    : M W (option (Documents D) * queryIterator) := query_NextRaw c i.

Definition changeFeed_Next (c : documentClient) (i : changeFeedIterator)
    : M W (option (Documents D) * changeFeedIterator) :=
  let h := h_Set "X-Ms-Max-Item-Count" "-1" (h_Set "A-IM" "Incremental feed" ∅) in
  let h := if decide (cf_continuation i = EmptyString) then h
           else h_Set "If-None-Match" (cf_continuation i) h in
  do! headers <- lift (setOptions (cf_options i) None h);
  do! r <- do (c_databaseClient c) "GET" (c_path c +:+ "/docs") "docs" (c_path c)
             StatusOK NoBody None (Some rs_docs) headers;
  let '(out, headers, err) := r in
  match err with
  | Some e =>
      if IsErrorStatusCode e StatusNotModified
      then ret (out, mkChangeFeedIterator (h_Get headers "Etag") (cf_options i))
      else throw e
  | None => ret (out, mkChangeFeedIterator (h_Get headers "Etag") (cf_options i))
  end.

(** All the pages of an iterator, as one page: the number of pages is the
    service's, [fuel] bounds it. *)
Fixpoint all_from {I} (next : I -> M W (option (Documents D) * I)) (fuel : nat) (i : I)
    (acc : Documents D) : M W (Documents D) :=
  match fuel with
  | 0 => lift OutOfFuel
  | S fuel =>
      do! '(docs, i) <- next i;
      match docs with
      | None => ret acc
      | Some ds =>
          all_from next fuel i
            (mkDocuments (int64 (ds_Count acc + ds_Count ds)) (ds_ResourceID ds)
               (ds_Documents acc ++ ds_Documents ds))
      end
  end.
Definition all {I} (next : I -> M W (option (Documents D) * I)) (fuel : nat) (i : I)
    : M W (Documents D) := all_from next fuel i (mkDocuments 0 EmptyString []).

Definition ListAll (c : documentClient) (fuel : nat) (options : option Options) : M W (Documents D) :=
  all (list_NextRaw c) fuel (List options).
Definition QueryAll (c : documentClient) (fuel : nat) (partitionkey : string) (query : Query)
    (options : option Options) : M W (Documents D) :=
  all (Next c) fuel (Query_ partitionkey query options).
End client.

(** ** Databases, collections and triggers (zz_generated_database.go, _collection.go,
    _trigger.go)

    The three clients have the same text over what they keep: [url] is where all of it
    is, [kind] its type in the signature and [link] its parent there. *)
Record resourceClient := mkResourceClient {
  rc_databaseClient : databaseClient;
  rc_url : string;
  rc_kind : string;
  rc_link : string;
}.
Record resourceIterator := mkResourceIterator { ri_continuation : string; ri_done : bool }.

Section resources.
Context {W D : Type} `{!Runtime W, !Service W D, !Document D}.
Implicit Types (c : resourceClient).

Definition rc_one c (id : string) : string := rc_url c +:+ "/" +:+ id.

Definition resource_Create c (new : D) : M W (option D) :=
  do! r <- do (rc_databaseClient c) "POST" (rc_url c) (rc_kind c) (rc_link c) StatusCreated
             (BodyDoc new) None (Some rs_doc) ∅;
  do! r <- lift (check r);
  ret (fst r).
Definition resource_Get c (id : string) : M W (option D) :=
  do! r <- do (rc_databaseClient c) "GET" (rc_one c id) (rc_kind c) (rc_one c id) StatusOK
             NoBody None (Some rs_doc) ∅;
  do! r <- lift (check r);
  ret (fst r).
(** Always under the entity tag *)
Definition resource_Delete c (d : D) : M W unit :=
  if decide (d_ETag d = EmptyString) then throw ErrETagRequired
  else
    do! r <- do (rc_databaseClient c) "DELETE" (rc_one c (d_ID d)) (rc_kind c) (rc_one c (d_ID d)) StatusNoContent
               NoBody tt None (h_Set "If-Match" (d_ETag d) ∅);
    do! r <- lift (check r);
    ret (fst r).
(** A POST, that must be answered with 201, and without the entity tag *)
Definition resource_Replace c (new : D) : M W (option D) :=
  do! r <- do (rc_databaseClient c) "POST" (rc_one c (d_ID new)) (rc_kind c) (rc_one c (d_ID new)) StatusCreated
             (BodyDoc new) None (Some rs_doc) ∅;
  do! r <- lift (check r);
  ret (fst r).

Definition resource_List : resourceIterator := mkResourceIterator EmptyString false.
Definition resource_Next c (i : resourceIterator) : M W (option (Documents D) * resourceIterator) :=
  if ri_done i then ret (None, i)
  else
    let headers := if decide (ri_continuation i = EmptyString) then ∅ else h_Set "X-Ms-Continuation" (ri_continuation i) ∅ in
    do! r <- do (rc_databaseClient c) "GET" (rc_url c) (rc_kind c) (rc_link c) StatusOK NoBody None (Some rs_docs) headers;
    do! '(out, headers) <- lift (check r);
    let cont := h_Get headers "X-Ms-Continuation" in
    ret (out, mkResourceIterator cont (bool_decide (cont = EmptyString))).
Definition resource_ListAll c (fuel : nat) : M W (Documents D) := all (resource_Next c) fuel resource_List.
End resources.

(** *** Databases *)
Module Databases.
Record Database := mkDatabase {
  db_ID : string;
  db_ResourceID : string;
  db_Timestamp : Z;
  db_Self : string;
  db_ETag : string;
  db_Collections : string;
  db_Users : string;
}.
#[export] Instance Database_document : Document Database := {| d_ID := db_ID; d_ETag := db_ETag |}.

Section databases.
Context {W : Type} `{!Runtime W, !Service W Database} (c : databaseClient).
Definition client : resourceClient := mkResourceClient c "dbs" "dbs" EmptyString.
Definition Create : Database -> M W (option Database) := resource_Create client.
Definition Get : string -> M W (option Database) := resource_Get client.
Definition Delete : Database -> M W unit := resource_Delete client.
Definition List : resourceIterator := resource_List.
Definition Next : resourceIterator -> M W (option (Documents Database) * resourceIterator) := resource_Next client.
Definition ListAll : nat -> M W (Documents Database) := resource_ListAll client.
End databases.
End Databases.

(** *** Collections *)
Module Collections.
Record Index := mkIndex { ix_DataType : string; ix_Kind : string; ix_Precision : Z }.
Record IncludedPath := mkIncludedPath { inp_Path : string; inp_Indexes : list Index }.
Record IndexingPolicy := mkIndexingPolicy {
  ip_Automatic : bool;
  ip_IndexingMode : string;
  ip_IncludedPaths : list IncludedPath;
  ip_ExcludedPaths : list IncludedPath;
}.
Record PartitionKey := mkPartitionKey { pk_Paths : list string; pk_Kind : string; pk_Version : Z }.
Record ConflictResolutionPolicy := mkConflictResolutionPolicy {
  crp_Mode : string;
  crp_ConflictResolutionPath : string;
  crp_ConflictResolutionProcedure : string;
}.
Record GeospatialConfig := mkGeospatialConfig { gc_Type : string }.
Record Collection := mkCollection {
  co_ID : string;
  co_ResourceID : string;
  co_Timestamp : Z;
  co_Self : string;
  co_ETag : string;
  co_Documents : string;
  co_StoredProcedures : string;
  co_Triggers : string;
  co_UserDefinedFunctions : string;
  co_Conflicts : string;
  co_IndexingPolicy : option IndexingPolicy;
  co_PartitionKey : option PartitionKey;
  co_ConflictResolutionPolicy : option ConflictResolutionPolicy;
  co_GeospatialConfig : option GeospatialConfig;
}.
Record PartitionKeyRange := mkPartitionKeyRange {
  pkr_ID : string;
  pkr_ResourceID : string;
  pkr_Timestamp : Z;
  pkr_Self : string;
  pkr_ETag : string;
  pkr_MaxExclusive : string;
  pkr_MinInclusive : string;
  pkr_ResourceIDPrefix : Z;
  pkr_ThroughputFraction : Z;
  pkr_Status : string;
  pkr_Parents : list string;
}.
#[export] Instance Collection_document : Document Collection := {| d_ID := co_ID; d_ETag := co_ETag |}.

Section collections.
Context {W : Type} `{!Runtime W, !Service W Collection, !Service W PartitionKeyRange} (c : databaseClient) (dbid : string).
Definition path : string := "dbs/" +:+ dbid.
Definition client : resourceClient := mkResourceClient c (path +:+ "/colls") "colls" path.
Definition Create : Collection -> M W (option Collection) := resource_Create client.
Definition Get : string -> M W (option Collection) := resource_Get client.
Definition Delete : Collection -> M W unit := resource_Delete client.
Definition Replace : Collection -> M W (option Collection) := resource_Replace client.
Definition List : resourceIterator := resource_List.
Definition Next : resourceIterator -> M W (option (Documents Collection) * resourceIterator) := resource_Next client.
Definition ListAll : nat -> M W (Documents Collection) := resource_ListAll client.
Definition PartitionKeyRanges (collid : string) : M W (option (Documents PartitionKeyRange)) :=
  do! r <- do c "GET" (path +:+ "/colls/" +:+ collid +:+ "/pkranges") "pkranges" (path +:+ "/colls/" +:+ collid) StatusOK
             NoBody None (Some rs_docs) ∅;
  do! r <- lift (check r);
  ret (fst r).
End collections.
End Collections.

(** *** Triggers *)
Record Trigger := mkTrigger {
  tr_ID : string;
  tr_ResourceID : string;
  tr_Timestamp : Z;
  tr_Self : string;
  tr_ETag : string;
  tr_Body : string;
  tr_TriggerOperation : string;
  tr_TriggerType : string;
}.
#[export] Instance Trigger_document : Document Trigger := {| d_ID := tr_ID; d_ETag := tr_ETag |}.

Definition TriggerOperationAll : string := "All".
Definition TriggerTypePre : string := "Pre".

Module Triggers.
Section triggers.
Context {W : Type} `{!Runtime W, !Service W Trigger} (c : documentClient).
Definition client : resourceClient :=
  mkResourceClient (c_databaseClient c) (c_path c +:+ "/triggers") "triggers" (c_path c).
Definition Create : Trigger -> M W (option Trigger) := resource_Create client.
Definition Get : string -> M W (option Trigger) := resource_Get client.
Definition Delete : Trigger -> M W unit := resource_Delete client.
Definition Replace : Trigger -> M W (option Trigger) := resource_Replace client.
Definition List : resourceIterator := resource_List.
Definition Next : resourceIterator -> M W (option (Documents Trigger) * resourceIterator) := resource_Next client.
Definition ListAll : nat -> M W (Documents Trigger) := resource_ListAll client.
End triggers.
End Triggers.

(** ** What a retry comes to *)
Definition is_412 {A} (r : res A) : bool :=
  match r with Err e => IsErrorStatusCode e StatusPreconditionFailed | _ => false end.

Section retry.
Context {W A : Type} `{!Runtime W}.
Implicit Types (f : M W A) (w : W).

(** [failed f i n w w']: [n] tries of [f], the first of number [i], all refused
    with 412 and each followed by its sleep of [100 i] ms. *)
Inductive failed f : Z -> nat -> W -> W -> Prop :=
| failed_0 i w : failed f i 0 w w
| failed_S i n w e w1 w2 w3 :
    f w = (Err e, w1) -> IsErrorStatusCode e StatusPreconditionFailed = true ->
    time_Sleep (100 * i)%Z w1 = (Ok tt, w2) -> failed f (i + 1)%Z n w2 w3 ->
    failed f i (S n) w w3.

(** [time.Sleep] returns. *)
Context (Hsleep : forall n w, exists w', time_Sleep n w = (Ok tt, w')).

Lemma retry_from_spec left i f w r w' :
  left <> 0 -> retry_from left i f w = (r, w') -> settles r ->
  exists n wi w1, n < left /\ failed f i n w wi /\ f wi = (r, w1) /\
    if is_412 r then S n = left /\ time_Sleep (100 * (i + Z.of_nat n))%Z w1 = (Ok tt, w')
    else w' = w1.
Proof.
  revert i w. induction left as [|left IH]; intros i w Hl H Hs; [done|]. clear Hl.
  simpl in H. unfold bind at 1, try in H.
  destruct (f w) as [[a|e|s|] w1] eqn:Ef; [| |by simplify_eq..].
  { unfold ret in H. simplify_eq. exists 0, w, w'. split_and!; [lia|constructor|done..]. }
  destruct (IsErrorStatusCode e StatusPreconditionFailed) eqn:Ee.
  2: { unfold throw in H. simplify_eq. exists 0, w, w'. simpl. rewrite Ee.
       split_and!; [lia|constructor|done..]. }
  unfold bind in H. destruct (Hsleep (100 * i) w1) as [w2 Es]. rewrite Es in H.
  destruct left as [|left].
  - unfold throw in H. simplify_eq. exists 0, w, w1. simpl. rewrite Ee, Z.add_0_r.
    split_and!; [lia|constructor|done..].
  - apply IH in H as (n & wi & w3 & Hn & Hf & Hfi & Hr); [|done..].
    exists (S n), wi, w3. split_and!; [lia|by econstructor|done|].
    replace (i + Z.of_nat (S n))%Z with (i + 1 + Z.of_nat n)%Z by lia.
    destruct (is_412 r); [split; [lia|apply Hr]|done].
Qed.

Lemma retry_from_total left i f : left <> 0 -> total f -> total (retry_from left i f).
Proof.
  intros Hl Hf. revert i Hl. induction left as [|left IH]; intros i Hl; [done|]. simpl.
  apply total_bind; [by apply total_try|]. intros [a|e]; [apply total_ret|].
  destruct (IsErrorStatusCode _ _); [|apply total_throw].
  apply total_bind; [intros w; by destruct (Hsleep (100 * i) w) as [? ->]|]. intros _.
  destruct left; [apply total_throw|by apply IH].
Qed.

(** *** With a relation that the failed tries and the sleeps respect *)
Context (R : W -> W -> Prop) `{!PreOrder R} (Rsleep : forall n, steps R (time_Sleep n)).

Lemma failed_steps f i n w w' :
  (forall w e w1, f w = (Err e, w1) -> is_412 (A := A) (Err e) = true -> R w w1) ->
  failed f i n w w' -> R w w'.
Proof.
  intros Hf. induction 1 as [|i n w e w1 w2 w3 H1 H2 H3 _ IH]; [done|].
  transitivity w1; [by eapply Hf|]. transitivity w2; [|done].
  pose proof (Rsleep (100 * i) w1) as HR. by rewrite H3 in HR.
Qed.

Lemma Retry_steps f : steps R f -> steps R (RetryOnPreconditionFailed f).
Proof.
  intros Hf. unfold RetryOnPreconditionFailed. generalize 0%Z.
  generalize 5 as n. induction n as [|n IH]; intros i; [by apply steps_panic|]. simpl.
  apply steps_bind; [done|by apply steps_try|]. intros [a|e]; [by apply steps_ret|].
  destruct (IsErrorStatusCode _ _); [|by apply steps_throw].
  apply steps_bind; [done|done|]. intros _. destruct n; [by apply steps_throw|apply IH].
Qed.

(** A success is that of the last try. *)
Lemma Retry_ok f w a w' :
  (forall w e w1, f w = (Err e, w1) -> is_412 (A := A) (Err e) = true -> R w w1) ->
  RetryOnPreconditionFailed f w = (Ok a, w') ->
  exists wi, R w wi /\ f wi = (Ok a, w').
Proof.
  intros Hf H. apply retry_from_spec in H as (n & wi & w1 & _ & Hfa & Hfi & Hr); [|done..].
  simpl in Hr. subst. exists wi. split; [by eapply failed_steps|done].
Qed.

Lemma Retry_err f w e w' :
  (forall w e w1, f w = (Err e, w1) -> is_412 (A := A) (Err e) = true -> R w w1) ->
  RetryOnPreconditionFailed f w = (Err e, w') ->
  exists wi w1, R w wi /\ f wi = (Err e, w1) /\ R w1 w'.
Proof.
  intros Hf H. apply retry_from_spec in H as (n & wi & w1 & _ & Hfa & Hfi & Hr); [|done..].
  exists wi, w1. split_and!; [by eapply failed_steps|done|].
  destruct (is_412 _); [|by subst]. destruct Hr as [_ Hr].
  pose proof (Rsleep (100 * (0 + Z.of_nat n)) w1) as HR. by rewrite Hr in HR.
Qed.

(** When every try is refused and leaves the world alone, so does the loop. *)
Lemma Retry_refused f w :
  (forall w1, R w w1 -> R w1 (snd (f w1)) /\ is_ok (fst (f w1)) = false) ->
  R w (snd (RetryOnPreconditionFailed f w)) /\ is_ok (fst (RetryOnPreconditionFailed f w)) = false.
Proof.
  intros Hf. unfold RetryOnPreconditionFailed. generalize 0%Z, 5. intros i left.
  assert (forall w1, R w w1 -> R w (snd (retry_from left i f w1)) /\ is_ok (fst (retry_from left i f w1)) = false)
    as H; [|by apply H].
  revert i. induction left as [|left IH]; intros i w1 H1; [done|]. simpl.
  destruct (Hf w1 H1) as [H2 Hn]. unfold bind, try. destruct (f w1) as [[a|e|s|] w2]; simpl in *; try done.
  2,3: split; [by transitivity w1|done].
  destruct (IsErrorStatusCode e StatusPreconditionFailed); [|split; [by transitivity w1|done]].
  destruct (Hsleep (100 * i) w2) as [w3 Hs]. pose proof (Rsleep (100 * i) w2) as H3. rewrite Hs in *. simpl in *.
  assert (R w w3) by (transitivity w1; [done|by transitivity w2]).
  destruct left; [done|by apply IH].
Qed.
End retry.
