(* ===== verification/CosmosLaws.v ===== *)
(** * The contract of the Cosmos DB service

    What the program relies on of the service, as documented, for requests on
    one collection: [store] is the collection's documents by their unique key
    (the [UniqueKeyPolicy] of src/pkg/deploy/rp.go, or the document's id), and
    each law says what a response with a given status means for it. Nothing is
    assumed of a response with a 5xx status or of a transport error, except that
    reads do not write. A query is answered in pages: [pending] is the set of
    keys a continuation token has still to deliver. *)
From S2P Require Import Prelude GoStrings.
From S2P Require Import Api.
From S2P Require Import Cosmos.
From Stdlib Require Import Ascii.

(** What the service knows of a document: its unique key, its partition, the
    fields it manages itself, and the field the lease triggers write. *)
Class Stored (D : Type) := {
  d_key : D -> string;
  d_part : D -> string;
  d_with_meta : DocMeta -> D -> D;
  d_with_leaseExpires : Z -> D -> D;
}.

(** The pre-triggers the program registers (openshiftclusters.go:48-61,
    subscriptions.go:34-60), at a service time in milliseconds; the service
    refuses a write that names any other. *)
Definition run_trigger {D} `{Stored D} (now : Z) (name : string) (d : D) : option D :=
  if decide (name = "renewLease") then Some (d_with_leaseExpires (now / 1000 + 60)%Z d)
  else if decide (name = "retryLater") then Some (d_with_leaseExpires (now / 1000 + 600)%Z d)
  else None.
Definition run_triggers {D} `{Stored D} (now : Z) (names : list string) (d : D) : option D :=
  foldl (fun o name => o ≫= run_trigger now name) (Some d) names.

Definition pk_header (pk : string) : string := "[" +:+ dquote +:+ pk +:+ dquote +:+ "]".
Definition coll_url (c : documentClient) : string :=
  "https://" +:+ dc_databaseAccount (c_databaseClient c) +:+ ".documents.azure.com/" +:+
  c_path c +:+ "/docs".
Definition doc_url (c : documentClient) (id : string) : string :=
  "https://" +:+ dc_databaseAccount (c_databaseClient c) +:+ ".documents.azure.com/" +:+
  c_path c +:+ "/docs/" +:+ id.

Definition pre_triggers (h : Header) : list string :=
  match h !! "X-Ms-Documentdb-Pre-Trigger-Include" with
  | Some [names] => SplitChar "," names
  | _ => []
  end.

Definition is_read {D} (req : Request D) : Prop :=
  rq_Method req = "GET" \/ exists q, rq_Body req = BodyQuery q.

Definition client_error (status : Z) : Prop := (400 <= status < 500)%Z.

Definition json_response {D} (resp : Response D) : Prop :=
  h_Get (rs_Header resp) "Content-Type" = "application/json".

#[export] Instance json_response_dec {D} (resp : Response D) : Decision (json_response resp).
Proof. unfold json_response. apply _. Defined.

(** The state of a collection, as its clients see it *)
Class Collection (W D : Type) := {
  store : W -> gmap string D;
  svc_time : W -> Z;
  matches : Query -> string -> Z -> D -> bool;
  pending : W -> Query -> string -> string -> gset string;
  rank : string -> nat;
}.
Arguments store {W D _} w.
Arguments svc_time {W D _} w.
Arguments pending {W D _} w q pk t.

(** Nothing about the collection changed. *)
Definition quiet {W D} `{Collection W D} (w w' : W) : Prop :=
  store w' = store w /\ forall q pk t, pending (D := D) w' q pk t = pending w q pk t.
Arguments quiet {W} D {_} w w'.

Section contract.
Context (W D : Type) `{!Service W D, !Document D, !Stored D, !Collection W D} (c : documentClient).

(** The document [d'] is what the service stores for a write of [d]. *)
Definition written (w : W) (h : Header) (d d' : D) : Prop :=
  exists m d1, run_triggers (svc_time (D := D) w) (pre_triggers h) d = Some d1 /\ d' = d_with_meta m d1.

Definition created (resp : Response D) (d' : D) : Prop :=
  json_response resp /\ rs_doc resp = inl (Some d').

Class ServiceLaws := {
  store_key w k d : store w !! k = Some d -> d_key d = k;
  store_id w k1 k2 d1 d2 :
    store w !! k1 = Some d1 -> store w !! k2 = Some d2 ->
    d_ID d1 = d_ID d2 -> d_part d1 = d_part d2 -> k1 = k2;

  transport_total (req : Request D) : total (hc_Do req);
  transport_error req w e w' :
    hc_Do (D := D) req w = (Err e, w') -> exists m, e = ErrOther m;
  read_store req w : is_read req -> store (snd (hc_Do req w)) = store w;
  get_quiet req w : rq_Method req = "GET" -> quiet D w (snd (hc_Do req w));
  error_quiet req w resp w' :
    hc_Do req w = (Ok resp, w') -> client_error (rs_StatusCode resp) -> quiet D w w';

  (** GET of a document *)
  get_ok req w resp w' id pk :
    hc_Do req w = (Ok resp, w') -> rq_Method req = "GET" -> rq_URL req = doc_url c id ->
    rq_Header req !! "X-Ms-Documentdb-Partitionkey" = Some [pk_header pk] ->
    rs_StatusCode resp = StatusOK ->
    exists d, created resp d /\ store w !! d_key d = Some d /\ d_ID d = id /\ d_part d = pk;
  get_absent req w resp w' id pk :
    hc_Do req w = (Ok resp, w') -> rq_Method req = "GET" -> rq_URL req = doc_url c id ->
    rq_Header req !! "X-Ms-Documentdb-Partitionkey" = Some [pk_header pk] ->
    rs_StatusCode resp = StatusNotFound ->
    forall k d, store w !! k = Some d -> d_ID d = id -> d_part d <> pk;

  (** POST of a document *)
  post_ok req w resp w' d :
    hc_Do req w = (Ok resp, w') -> rq_Method req = "POST" -> rq_URL req = coll_url c ->
    rq_Body req = BodyDoc d -> rs_StatusCode resp = StatusCreated ->
    exists d', written w (rq_Header req) d d' /\ created resp d' /\
      store w !! d_key d = None /\ store w' = <[d_key d := d']> (store w);

  (** PUT of a document: the one with its id is replaced, if the [If-Match]
      header allows it *)
  put_ok req w resp w' d :
    hc_Do req w = (Ok resp, w') -> rq_Method req = "PUT" -> rq_URL req = doc_url c (d_ID d) ->
    rq_Header req !! "X-Ms-Documentdb-Partitionkey" = Some [pk_header (d_part d)] ->
    rq_Body req = BodyDoc d -> rs_StatusCode resp = StatusOK ->
    exists k old d', written w (rq_Header req) d d' /\ created resp d' /\
      store w !! k = Some old /\ d_ID old = d_ID d /\ d_part old = d_part d /\
      (forall e, rq_Header req !! "If-Match" = Some [e] -> d_ETag old = e) /\
      store w' = <[d_key d := d']> (delete k (store w));
  precondition_failed req w resp w' :
    hc_Do req w = (Ok resp, w') -> rs_StatusCode resp = StatusPreconditionFailed ->
    is_Some (rq_Header req !! "If-Match");

  (** DELETE of a document *)
  delete_ok req w resp w' id pk :
    hc_Do req w = (Ok resp, w') -> rq_Method req = "DELETE" -> rq_URL req = doc_url c id ->
    rq_Header req !! "X-Ms-Documentdb-Partitionkey" = Some [pk_header pk] ->
    rs_StatusCode resp = StatusNoContent ->
    exists k old, store w !! k = Some old /\ d_ID old = id /\ d_part old = pk /\
      store w' = delete k (store w);

  (** a page of a query *)
  query_page req w resp w' q pk t :
    hc_Do req w = (Ok resp, w') -> rq_Method req = "POST" -> rq_URL req = coll_url c ->
    rq_Body req = BodyQuery q ->
    rq_Header req !! "X-Ms-Documentdb-Partitionkey" =
      (if decide (pk = EmptyString) then None else Some [pk_header pk]) ->
    h_Get (rq_Header req) "X-Ms-Continuation" = t ->
    rs_StatusCode resp = StatusOK ->
    exists ds next, json_response resp /\ rs_docs resp = inl (Some ds) /\
      h_Get (rs_Header resp) "X-Ms-Continuation" = next /\
      (forall d, d ∈ ds_Documents ds ->
         store w !! d_key d = Some d /\ matches q pk (svc_time (D := D) w) d = true) /\
      (forall k, k ∈ pending (D := D) w q pk t ->
         (exists d, d ∈ ds_Documents ds /\ d_key d = k) \/
         (next <> EmptyString /\ k ∈ pending (D := D) w' q pk next)) /\
      (next = EmptyString \/ rank next < rank t);
  (** the collection exists *)
  query_not_found req w resp w' q :
    hc_Do req w = (Ok resp, w') -> rq_Body req = BodyQuery q -> rs_StatusCode resp <> StatusNotFound;
  pending_start w q pk k d :
    store w !! k = Some d -> matches q pk (svc_time (D := D) w) d = true ->
    k ∈ pending (D := D) w q pk EmptyString;
  pending_stable req w q pk t k d :
    k ∈ pending (D := D) w q pk t ->
    store (snd (hc_Do req w)) !! k = Some d ->
    matches q pk (svc_time (D := D) (snd (hc_Do req w))) d = true ->
    k ∈ pending (D := D) (snd (hc_Do req w)) q pk t;
}.

(** The clock, sleeping and UUIDs leave the collection alone. *)
Class RuntimeQuiet `{!Runtime W} := {
  now_quiet w : quiet D w (snd (time_Now w));
  sleep_quiet n w : quiet D w (snd (time_Sleep n w));
  uuid_quiet w : quiet D w (snd (uuid_NewV4 w));
  now_ok w : is_ok (fst (time_Now w)) = true;
  sleep_ok n w : is_ok (fst (time_Sleep n w)) = true;
  uuid_ok w : is_ok (fst (uuid_NewV4 w)) = true;
}.
End contract.

(** Requests on another collection leave this one alone. *)
Class Apart (W D D' : Type) `{!Service W D', !Collection W D} :=
  apart_quiet (req : Request D') w : quiet D w (snd (hc_Do req w)).

#[export] Instance quiet_preorder {W D} `{Collection W D} : PreOrder (quiet (W := W) D).
Proof.
  split; [by intros w|]. intros w1 w2 w3 [H1 H1'] [H2 H2']. split; [congruence|].
  intros. by rewrite H2', H1'.
Qed.
