(* ===== verification/CosmosSpec.v ===== *)
(** * What the client's operations do to the collection

    Each operation of Cosmos.v against the contract of CosmosLaws.v: a
    successful call has had the one effect it stands for, and an error with a
    4xx status has had none. *)
From S2P Require Import Prelude GoStrings.
From S2P Require Import Api.
From S2P Require Import Cosmos.
From S2P Require Import CosmosLaws.
From Stdlib Require Import Ascii.

(** ** Headers *)
Definition canonical (h : Header) : Prop :=
  forall k, is_Some (h !! k) -> CanonicalMIMEHeaderKey k = k.

Lemma canonical_empty : canonical ∅.
Proof. intros k [? H]. by rewrite lookup_empty in H. Qed.

Lemma canonical_idemp_from b s :
  canonical_from b (canonical_from b s) = canonical_from b s.
Proof.
  revert b. induction s as [|c s IH]; intros b; [done|]. cbn [canonical_from].
  assert (canonical_char b (canonical_char b c) = canonical_char b c /\
    bool_decide (canonical_char b c = "-"%char) = bool_decide (c = "-"%char)) as [-> ->].
  { by destruct b, c as [[] [] [] [] [] [] [] []]. }
  by rewrite IH.
Qed.

Lemma canonical_set k v h : canonical h -> canonical (h_Set k v h).
Proof.
  intros Hh k' Hk'. unfold h_Set in Hk'.
  destruct (decide (k' = CanonicalMIMEHeaderKey k)) as [->|Hne].
  - apply canonical_idemp_from.
  - rewrite lookup_insert_ne in Hk' by done. by apply Hh.
Qed.

Lemma h_merge_lookup headers h k :
  canonical headers ->
  h_merge headers h !! k = match headers !! k with Some v => Some v | None => h !! k end.
Proof.
  unfold h_merge. intros Hc.
  apply (map_fold_weak_ind (fun (r : Header) (m : Header) =>
    (forall j, is_Some (m !! j) -> CanonicalMIMEHeaderKey j = j) ->
    r !! k = match m !! k with Some v => Some v | None => h !! k end)); [|  |exact Hc].
  - intros _. by rewrite lookup_empty.
  - intros i x m r Hi IH Hm.
    rewrite (Hm i) by (rewrite lookup_insert_eq; eauto).
    destruct (decide (i = k)) as [->|Hne].
    + by rewrite !lookup_insert_eq.
    + rewrite !lookup_insert_ne by done. apply IH. intros j Hj. apply Hm.
      rewrite lookup_insert_is_Some'. by right.
Qed.

(** The headers [_do] sets itself *)
Definition own_header (k : string) : bool :=
  existsb (fun x => bool_decide (x = k)) ["Authorization"; "X-Ms-Date"; "X-Ms-Version"; "Content-Type"].

Lemma h_Set_ne k v h k' : CanonicalMIMEHeaderKey k <> k' -> h_Set k v h !! k' = h !! k'.
Proof. intros. unfold h_Set. by rewrite lookup_insert_ne. Qed.

Section spec.
Context {W D : Type} `{!Runtime W, !Service W D, !Document D, !Stored D, !Collection W D}.
Context (c : documentClient) `{!ServiceLaws W D c, !RuntimeQuiet W D}.

(** [req] is a request the client sends for a call with these arguments. *)
Record sent (dbc : databaseClient) (method path : string) (inb : Payload D) (headers : Header)
    (req : Request D) : Prop := {
  sent_method : rq_Method req = method;
  sent_url : rq_URL req = "https://" +:+ dc_databaseAccount dbc +:+ ".documents.azure.com/" +:+ path;
  sent_body : rq_Body req = inb;
  sent_header k : canonical headers -> own_header k = false -> rq_Header req !! k = headers !! k;
}.

Lemma authorizeRequest_ok dbc method rt rl h w r w' :
  authorizeRequest dbc method rt rl h w = (r, w') ->
  quiet D w w' /\ exists date auth, r = Ok (h_Set "x-ms-date" date (h_Set "Authorization" auth h)).
Proof.
  unfold authorizeRequest, bind. pose proof (now_quiet W D w) as Hq.
  pose proof (now_ok W D w) as Hok.
  destruct (time_Now w) as [[now| | |] w1]; simpl in *; [|done..].
  unfold ret. intros [= <- <-]. split; [done|]. by eexists _, _.
Qed.

(** The outcomes of one attempt *)
Lemma _do_inv {O} dbc method path rt rl expected inb (nil : O) decode headers w resp out err w' :
  _do dbc method path rt rl expected inb nil decode headers w = (Ok (resp, out, err), w') ->
  exists w0 req, quiet D w w0 /\ sent dbc method path inb headers req /\
  match resp with
  | None => exists m, hc_Do req w0 = (Err (ErrOther m), w') /\ err = Some (ErrOther m)
  | Some rs => hc_Do req w0 = (Ok rs, w') /\
      ((rs_StatusCode rs = expected /\
        match decode with
        | Some dec => (json_response rs -> match dec rs with inl a => out = a /\ err = None
                                           | inr m => err = Some (ErrOther m) end) /\
                      (~ json_response rs -> out = nil /\ err = None)
        | None => out = nil /\ err = None
        end) \/
       (rs_StatusCode rs <> expected /\ exists code msg, err = Some (ErrCosmos (rs_StatusCode rs) code msg)))
  end.
Proof.
  unfold _do, bind at 1.
  set (h1 := h_Set "x-ms-version" _ _).
  destruct (authorizeRequest _ _ _ _ h1 w) as [[h2| | |] w0] eqn:Ha; [|done..].
  apply authorizeRequest_ok in Ha as (Hq & date & auth & [=->]).
  set (req := mkRequest _ _ _ _).
  assert (sent dbc method path inb headers req) as Hs.
  { split; [done..|]. intros k Hc Hk. subst req. simpl.
    unfold own_header in Hk. simpl in Hk. rewrite !orb_false_iff, !bool_decide_eq_false in Hk.
    destruct Hk as (?&?&?&?&_). unfold h1.
    rewrite !h_Set_ne by done. rewrite h_merge_lookup by done.
    destruct (headers !! k) eqn:E; [done|]. destruct inb; rewrite ?h_Set_ne by done; apply lookup_empty. }
  intros H. exists w0, req. do 2 (split; [done|]). clear Hs.
  unfold bind, try in H.
  destruct (hc_Do req w0) as [[rs|e| |] w1] eqn:Hdo; [| |done..].
  2: { apply (transport_error W D c) in Hdo as ?. destruct H0 as [m ->]. unfold ret in H. simplify_eq. eauto. }
  destruct (decide (rs_StatusCode rs = expected)) as [Hst|Hst].
  - destruct decode as [dec|]; [|unfold ret in H; simplify_eq; eauto 10].
    unfold json_response.
    destruct (decide (h_Get (rs_Header rs) "Content-Type" = "application/json")) as [Hj|Hj].
    + destruct (dec rs) eqn:Hd; unfold ret in H; simplify_eq; split; try done; left;
        split; try done; split; intros; rewrite ?Hd; done.
    + unfold ret in H; simplify_eq. split; [done|]. left. by repeat split.
  - destruct (decide _) in H; [destruct (rs_error rs) as [code msg] eqn:?|];
      unfold ret in H; simplify_eq; eauto 10.
Qed.

Definition throttled (err : option error) : bool :=
  match err with Some e => IsErrorStatusCode e StatusTooManyRequests | None => false end.

Lemma sleep_run n w : exists w1, time_Sleep n w = (Ok tt, w1) /\ quiet D w w1.
Proof.
  pose proof (sleep_quiet W D n w) as Hq. pose proof (sleep_ok W D n w) as Hok.
  destruct (time_Sleep n w) as [[[]| | |] w1]; [eauto|done..].
Qed.

Lemma do_loop_inv {O} n (attempt : M W (option (Response D) * O * option error)) last w r w' :
  (forall w0 rs out err w1, attempt w0 = (Ok (rs, out, err), w1) -> throttled err = true -> quiet D w0 w1) ->
  do_loop n attempt last w = (Ok r, w') -> n <> 0 ->
  match r with
  | inl a => exists w0 w1, quiet D w w0 /\ attempt w0 = (Ok a, w1) /\ quiet D w1 w' /\
               (throttled (snd a) = false -> w1 = w')
  | inr e => quiet D w w' /\ exists m, e = ErrOther m
  end.
Proof.
  intros Hatt. revert last w. induction n as [|n IH]; intros last w H Hn; [done|]. clear Hn.
  simpl in H. unfold bind at 1 in H.
  destruct (attempt w) as [[[[resp out] err]| | |] w1] eqn:Ha; try done.
  assert (throttled err = false -> r = inl (resp, out, err) -> w1 = w' ->
    match r with
    | inl a => exists w0 w1, quiet D w w0 /\ attempt w0 = (Ok a, w1) /\ quiet D w1 w' /\
                 (throttled (snd a) = false -> w1 = w')
    | inr e => quiet D w w' /\ exists m, e = ErrOther m
    end) as Hdone.
  { intros Ht -> <-. exists w, w1. by repeat split. }
  destruct err as [e|]; [|unfold ret in H; simplify_eq; by apply Hdone].
  destruct (IsErrorStatusCode e StatusTooManyRequests) eqn:Ht;
    [|unfold ret in H; simplify_eq; by apply Hdone].
  destruct resp as [rs|]; [|done].
  assert (quiet D w w1) as Hq by (by eapply Hatt).
  destruct (ParseInt _) as [ms|]; [|unfold ret in H; simplify_eq; eauto].
  unfold bind in H. destruct (sleep_run ms w1) as (w2 & Hs & Hq2). rewrite Hs in H.
  destruct n as [|n].
  - simpl in H. unfold ret in H. simplify_eq. exists w, w1. split_and!; [done..|]. unfold throttled, snd. by rewrite Ht.
  - specialize (IH _ _ H ltac:(done)). destruct r as [a|e'].
    + destruct IH as (w0 & w3 & Hq3 & ? & ? & ?). exists w0, w3. split; [|done].
      by do 2 (etransitivity; [done|]).
    + destruct IH as [? ?]. split; [|done]. by do 2 (etransitivity; [done|]).
Qed.

(** The client's own code raises no error but through its results. *)
Lemma _do_no_err {O} dbc method path rt rl expected inb (nil : O) decode headers w e w' :
  _do dbc method path rt rl expected inb nil decode headers w <> (Err e, w').
Proof.
  unfold _do, bind at 1. destruct (authorizeRequest _ _ _ _ _ w) as [r w0] eqn:Ha.
  apply authorizeRequest_ok in Ha as (_ & ? & ? & ->).
  unfold bind, try. destruct (hc_Do _ w0) as [[rs|e'| |] w1]; unfold ret; [|done..].
  repeat case_match; done.
Qed.

Lemma do_loop_no_err {O} dbc method path rt rl expected inb (nil : O) decode headers n last w e w' :
  do_loop n (_do dbc method path rt rl expected inb nil decode headers) last w <> (Err e, w').
Proof.
  revert last w. induction n as [|n IH]; intros last w; [done|]. simpl. unfold bind at 1.
  destruct (_do _ _ _ _ _ _ _ _ _ _ w) as [[[[resp out] err]|e'| |] w1] eqn:E; try done.
  - destruct err as [err|]; [|done]. destruct (IsErrorStatusCode _ _); [|done].
    destruct resp as [rs|]; [|done]. destruct (ParseInt _) as [ms|]; [|done].
    unfold bind. destruct (sleep_run ms w1) as (w2 & -> & _). apply IH.
  - by apply _do_no_err in E.
Qed.

Context (Hret : dc_maxRetries (c_databaseClient c) <> 0).


Lemma attempt_throttled {O} method path rt rl expected inb (nil : O) decode headers w rs out err w' :
  _do (c_databaseClient c) method path rt rl expected inb nil decode headers w = (Ok (rs, out, err), w') ->
  throttled err = true -> quiet D w w'.
Proof.
  intros Ha Ht. apply _do_inv in Ha as (w2 & req & Hq & _ & H). etransitivity; [done|].
  destruct rs as [rs|]; [destruct H as [H [[_ Hd]|[_ (?&?&->)]]]|destruct H as (?&_&->); done].
  - exfalso. destruct decode as [dec|]; [|by destruct Hd as [_ ->]].
    destruct (decide (json_response rs)) as [Hj|Hj]; [apply proj1 in Hd|apply proj2 in Hd];
      specialize (Hd Hj); [destruct (dec rs)|]; naive_solver.
  - apply bool_decide_eq_true in Ht. eapply (error_quiet W D c); [done|]. by rewrite Ht.
Qed.

(** A call that succeeds has had one successful response, and nothing but
    quiet steps before it. *)
Lemma do_success {O} method path rt rl expected inb (nil : O) decode headers w out hs w' :
  do (c_databaseClient c) method path rt rl expected inb nil decode headers w = (Ok (out, hs, None), w') ->
  exists w0 req rs, quiet D w w0 /\ sent (c_databaseClient c) method path inb headers req /\
    hc_Do req w0 = (Ok rs, w') /\ rs_StatusCode rs = expected /\ hs = rs_Header rs /\
    match decode with
    | Some dec => (json_response rs -> dec rs = inl out) /\ (~ json_response rs -> out = nil)
    | None => out = nil
    end.
Proof.
  unfold do. intros ([[[resp out'] err]|e] & w1 & Hl & H)%bind_inv_ok; unfold ret in H; simplify_eq.
  apply do_loop_inv in Hl as (w0 & w1 & Hq & Ha & _ & Heq); [|apply attempt_throttled|done].
  simpl in Heq. rewrite Heq in Ha by done. clear Heq.
  apply _do_inv in Ha as (w2 & req & Hq2 & Hs & H).
  destruct resp as [rs|]; [|naive_solver]. destruct H as [H [[Hst Hd]|[_ (?&?&?)]]]; [|done].
  exists w2, req, rs. split; [by etransitivity|]. do 4 (split; [done|]).
  destruct decode as [dec|]; [|by destruct Hd].
  split; intros Hj; [apply proj1 in Hd|apply proj2 in Hd]; specialize (Hd Hj);
    [destruct (dec rs)|]; naive_solver.
Qed.

(** A call that fails with a status has had a response with this status. *)
Lemma do_status {O} method path rt rl expected inb (nil : O) decode headers w out hs n code msg w' :
  do (c_databaseClient c) method path rt rl expected inb nil decode headers w
  = (Ok (out, hs, Some (ErrCosmos n code msg)), w') ->
  exists w0 req rs w1, quiet D w w0 /\ sent (c_databaseClient c) method path inb headers req /\
    hc_Do req w0 = (Ok rs, w1) /\ quiet D w1 w' /\ rs_StatusCode rs = n /\ n <> expected.
Proof.
  unfold do. intros ([[[resp out'] err]|e] & w1 & Hl & H)%bind_inv_ok; unfold ret in H; simplify_eq.
  2: { apply do_loop_inv in Hl; [|apply attempt_throttled|done]. naive_solver. }
  apply do_loop_inv in Hl as (w0 & w3 & Hq & Ha & Hq' & _); [|apply attempt_throttled|done].
  apply _do_inv in Ha as (w2 & req & Hq2 & Hs & H).
  destruct resp as [rs|]; [|naive_solver].
  destruct H as [H [[Hst Hd]|[Hst (?&?&?)]]].
  - exfalso. destruct decode as [dec|]; [|by destruct Hd].
    destruct (decide (json_response rs)) as [Hj|Hj]; [apply proj1 in Hd|apply proj2 in Hd];
      specialize (Hd Hj); [destruct (dec rs)|]; naive_solver.
  - simplify_eq. exists w2, req, rs, w3. split; [by etransitivity|]. done.
Qed.

(** So an error with a 4xx status leaves the collection as it was. *)
Lemma do_client_error {O} method path rt rl expected inb (nil : O) decode headers w out hs n code msg w' :
  do (c_databaseClient c) method path rt rl expected inb nil decode headers w
  = (Ok (out, hs, Some (ErrCosmos n code msg)), w') ->
  client_error n -> quiet D w w'.
Proof.
  intros (w0 & req & rs & w1 & Hq & _ & Hdo & Hq1 & Hn & _)%do_status Hc.
  etransitivity; [done|]. etransitivity; [|done]. eapply (error_quiet W D c); [done|]. by rewrite Hn.
Qed.

(** *** The headers of an operation *)
Definition opt_triggers (o : option Options) : list string :=
  match o with Some o => o_PreTriggers o | None => [] end.
Definition no_commas (l : list string) : Prop := Forall (fun s => ContainsRune s "," = false) l.

Lemma pk_headers_lookup pk k :
  pk_headers pk !! k = if decide (k = "X-Ms-Documentdb-Partitionkey") then Some [pk_header pk] else None.
Proof.
  unfold pk_headers, h_Set. case_decide as Hk.
  - subst. by rewrite lookup_insert_eq.
  - rewrite lookup_insert_ne by (intros <-; by apply Hk). apply lookup_empty.
Qed.

Lemma pk_headers_canonical pk : canonical (pk_headers pk).
Proof. apply canonical_set, canonical_empty. Qed.

Lemma setTriggers_canonical o h : canonical h -> canonical (setTriggers o h).
Proof.
  intros Hh. unfold setTriggers.
  destruct (o_PreTriggers o), (o_PostTriggers o), (decide (o_PartitionKeyRangeID o = EmptyString));
    repeat apply canonical_set; done.
Qed.

Lemma setTriggers_lookup o h k :
  k <> "X-Ms-Documentdb-Pre-Trigger-Include" -> k <> "X-Ms-Documentdb-Post-Trigger-Include" ->
  k <> CanonicalMIMEHeaderKey "X-Ms-Documentdb-PartitionKeyRangeID" ->
  setTriggers o h !! k = h !! k.
Proof.
  intros H1 H2 H3. unfold setTriggers.
  destruct (o_PreTriggers o), (o_PostTriggers o), (decide (o_PartitionKeyRangeID o = EmptyString));
    rewrite ?h_Set_ne by (intros <-; (by apply H1) || (by apply H2) || (by apply H3)); done.
Qed.

Lemma setTriggers_pre o h :
  h !! "X-Ms-Documentdb-Pre-Trigger-Include" = None -> no_commas (o_PreTriggers o) ->
  pre_triggers (setTriggers o h) = o_PreTriggers o.
Proof.
  intros Hh Hc. unfold pre_triggers.
  assert (forall h' : Header, h' !! "X-Ms-Documentdb-Pre-Trigger-Include"
    = match o_PreTriggers o with [] => None | l => Some [JoinChar "," l] end ->
    match h' !! "X-Ms-Documentdb-Pre-Trigger-Include" with Some [names] => SplitChar "," names | _ => [] end
    = o_PreTriggers o) as Hok.
  { intros h' ->. destruct (o_PreTriggers o) eqn:E; [done|]. rewrite <-E in *.
    apply SplitChar_JoinChar; [by rewrite E|done]. }
  apply Hok. unfold setTriggers.
  assert (forall l (h' : Header), h_Set "X-Ms-Documentdb-Post-Trigger-Include" l h'
    !! "X-Ms-Documentdb-Pre-Trigger-Include" = h' !! "X-Ms-Documentdb-Pre-Trigger-Include") as H1
    by (intros; by apply h_Set_ne).
  assert (forall l (h' : Header), h_Set "X-Ms-Documentdb-PartitionKeyRangeID" l h'
    !! "X-Ms-Documentdb-Pre-Trigger-Include" = h' !! "X-Ms-Documentdb-Pre-Trigger-Include") as H2
    by (intros; by apply h_Set_ne).
  assert (forall l (h' : Header), h_Set "X-Ms-Documentdb-Pre-Trigger-Include" l h'
    !! "X-Ms-Documentdb-Pre-Trigger-Include" = Some [l]) as H3
    by (intros; apply lookup_insert_eq).
  destruct (o_PreTriggers o), (o_PostTriggers o), (decide (o_PartitionKeyRangeID o = EmptyString));
    rewrite ?H2, ?H1, ?H3; done.
Qed.

(** The headers of a call on a document or on a collection *)
Record op_headers (o : option Options) (d : option D) (h h' : Header) : Prop := {
  oh_canonical : canonical h';
  oh_pk : h' !! "X-Ms-Documentdb-Partitionkey" = h !! "X-Ms-Documentdb-Partitionkey";
  oh_cont : h' !! "X-Ms-Continuation" = h !! "X-Ms-Continuation";
  oh_triggers : no_commas (opt_triggers o) -> pre_triggers h' = opt_triggers o;
  oh_match : h' !! "If-Match" =
    match o, d with
    | Some o, Some d => if o_NoETag o then None else Some [d_ETag d]
    | _, _ => None
    end;
}.

Lemma setOptions_headers o d h h' :
  canonical h -> h !! "If-Match" = None -> h !! "X-Ms-Documentdb-Pre-Trigger-Include" = None ->
  setOptions o d h = Ok h' -> op_headers o d h h'.
Proof.
  intros Hh Hm Hp H. destruct o as [o|]; simpl in H.
  2: { simplify_eq. split; try done. intros _. unfold pre_triggers. simpl. by rewrite Hp. }
  assert (exists h1, canonical h1 /\ h' = setTriggers o h1 /\
    h1 !! "If-Match" = match d with Some d => if o_NoETag o then None else Some [d_ETag d] | _ => None end /\
    forall k, k <> "If-Match" -> h1 !! k = h !! k) as (h1 & Hc1 & -> & Hm1 & Hk).
  { destruct d as [d|]; simpl in H; [|simplify_eq; eauto].
    destruct (o_NoETag o); simpl in H; [simplify_eq; eauto|]. case_decide; [done|]. simpl in H.
    simplify_eq. eexists. split_and!; [by apply canonical_set|done|apply lookup_insert_eq|].
    intros k Hne. by apply h_Set_ne. }
  split; [by apply setTriggers_canonical|rewrite setTriggers_lookup by done; by apply Hk..| |].
  - intros Hnc. apply setTriggers_pre; [|done]. by rewrite Hk.
  - by rewrite setTriggers_lookup.
Qed.

Lemma pk_op_headers o d pk h' :
  setOptions o d (pk_headers pk) = Ok h' -> op_headers o d (pk_headers pk) h'.
Proof.
  apply setOptions_headers; [apply pk_headers_canonical|by rewrite pk_headers_lookup..].
Qed.

(** *** The operations *)

(** What a write of [d] with these triggers leaves in the collection *)
Definition stored_as (triggers : list string) (d d' : D) : Prop :=
  exists t m d1, run_triggers t triggers d = Some d1 /\ d' = d_with_meta m d1.

Lemma sent_pk dbc method path inb o d pk h' req :
  op_headers o d (pk_headers pk) h' -> sent dbc method path inb h' req ->
  rq_Header req !! "X-Ms-Documentdb-Partitionkey" = Some [pk_header pk].
Proof.
  intros Ho Hs. rewrite (sent_header _ _ _ _ _ _ Hs); [|apply Ho|done].
  rewrite (oh_pk _ _ _ _ Ho), pk_headers_lookup. by rewrite decide_True.
Qed.

Lemma sent_match dbc method path inb o d h h' req :
  op_headers o d h h' -> sent dbc method path inb h' req ->
  rq_Header req !! "If-Match" = h' !! "If-Match".
Proof. intros Ho Hs. by rewrite (sent_header _ _ _ _ _ _ Hs); [|apply Ho|]. Qed.

Lemma sent_written dbc method path inb o d0 h h' req w d d' :
  op_headers o d0 h h' -> sent dbc method path inb h' req -> no_commas (opt_triggers o) ->
  written W D w (rq_Header req) d d' -> stored_as (opt_triggers o) d d'.
Proof.
  intros Ho Hs Hc (m & d1 & Hr & ->). exists (svc_time (D := D) w), m, d1. split; [|done].
  rewrite <-Hr. f_equal. rewrite <-(oh_triggers _ _ _ _ Ho) by done.
  unfold pre_triggers. by rewrite (sent_header _ _ _ _ _ _ Hs); [|apply Ho|].
Qed.

Lemma check_ok {O} (r : O * Header * option error) a h : check r = Ok (a, h) -> r = (a, h, None).
Proof. destruct r as [[out hs] [e|]]; simpl; intros; simplify_eq; done. Qed.

(** Inversion of [do! r <- do ...; do! r <- lift (check r); ret (fst r)] *)
Lemma op_inv {O} method path rt rl expected inb (nil : O) decode headers w out w' :
  (do! r <- do (c_databaseClient c) method path rt rl expected inb nil decode headers;
   do! r <- lift (check r);
   ret (fst r)) w = (Ok out, w') ->
  exists hs, do (c_databaseClient c) method path rt rl expected inb nil decode headers w
             = (Ok (out, hs, None), w').
Proof.
  intros (r & w1 & Hdo & (r2 & w2 & [Hc ->]%lift_inv & H)%bind_inv_ok)%bind_inv_ok.
  destruct r2 as [a h]. apply check_ok in Hc as ->. unfold ret in H. simplify_eq. eauto.
Qed.

Lemma Replace_ok d o w r w' :
  no_commas (opt_triggers o) -> Replace c (d_part d) d o w = (Ok r, w') ->
  exists k old d', stored_as (opt_triggers o) d d' /\ r = Some d' /\
    store w !! k = Some old /\ d_ID old = d_ID d /\ d_part old = d_part d /\
    (match o with Some o => o_NoETag o = false -> d_ETag old = d_ETag d | None => True end) /\
    store w' = <[d_key d := d']> (delete k (store w)).
Proof.
  intros Hc. unfold Replace.
  intros (h & w1 & [Hset%pk_op_headers ->]%lift_inv & (hs & H)%op_inv)%bind_inv_ok.
  apply do_success in H as (w0 & req & rs & [Hst _] & Hs & Hdo & Hsc & _ & Hdec & _).
  edestruct (put_ok W D c) as (k & old & d' & Hwr & [Hj Hdoc] & Hk & Hid & Hp & Hm & Hst');
    [exact Hdo|apply Hs|by rewrite (sent_url _ _ _ _ _ _ Hs)|by eapply sent_pk|apply Hs|done|].
  exists k, old, d'. rewrite <-Hst, Hst'.
  split_and!; [by eapply sent_written|specialize (Hdec Hj); congruence|done..| |done].
  destruct o as [o|]; [|done]. intros Hn. apply Hm.
  rewrite (sent_match _ _ _ _ _ _ _ _ _ Hset Hs), (oh_match _ _ _ _ Hset). by rewrite Hn.
Qed.

(** The error of an operation is that of its [do] when it has a status. *)
Lemma op_err {O} method path rt rl expected inb (nil : O) decode headers w n code msg w' :
  (do! r <- do (c_databaseClient c) method path rt rl expected inb nil decode headers;
   do! r <- lift (check r);
   ret (fst r)) w = (Err (ErrCosmos n code msg), w') ->
  (exists out hs, do (c_databaseClient c) method path rt rl expected inb nil decode headers w
             = (Ok (out, hs, Some (ErrCosmos n code msg)), w')) .
Proof.
  unfold bind at 1.
  destruct (do _ _ _ _ _ _ _ _ _ _ w) as [[[[out hs] err]| | |] w1] eqn:E; intros H; simplify_eq.
  - destruct err as [e|]; unfold bind, lift, check, ret in H; simplify_eq. eauto.
  - exfalso. unfold do, bind in E. destruct (do_loop _ _ _ w) as [[[[[? ?] ?]|?]| | |] ?] eqn:E2;
      unfold ret in E; simplify_eq. by apply do_loop_no_err in E2.
Qed.

Lemma Replace_412 d pk o w n code msg w' :
  Replace c pk d o w = (Err (ErrCosmos n code msg), w') -> n = StatusPreconditionFailed ->
  (exists o', o = Some o' /\ o_NoETag o' = false) /\ quiet D w w'.
Proof.
  unfold Replace, bind at 1, lift at 1. intros H Hn.
  destruct (setOptions _ _ _) as [h|e| |] eqn:Hset; simplify_eq.
  - apply pk_op_headers in Hset. apply op_err in H as (out & hs & H).
    split; [|by eapply do_client_error].
    apply do_status in H as (w0 & req & rs & w1 & _ & Hs & Hdo & _ & Hsc & _).
    apply (precondition_failed W D c) in Hdo; [|done].
    rewrite (sent_match _ _ _ _ _ _ _ _ _ Hset Hs), (oh_match _ _ _ _ Hset) in Hdo.
    destruct o as [o|]; [|by destruct Hdo]. destruct (o_NoETag o) eqn:?; [by destruct Hdo|eauto].
  - exfalso. destruct o as [o|]; [|done]. simpl in Hset. by destruct (o_NoETag o), (decide (d_ETag d = EmptyString)).
Qed.

Lemma Create_ok pk d o w r w' :
  no_commas (opt_triggers o) -> Create c pk d o w = (Ok r, w') ->
  exists d', stored_as (opt_triggers o) d d' /\ r = Some d' /\
    store w !! d_key d = None /\ store w' = <[d_key d := d']> (store w).
Proof.
  intros Hc. unfold Create.
  set (o' := mkOptions _ _ _ _).
  assert (opt_triggers (Some o') = opt_triggers o) as Ho by (by destruct o).
  intros (h & w1 & [Hset%pk_op_headers ->]%lift_inv & (hs & H)%op_inv)%bind_inv_ok.
  apply do_success in H as (w0 & req & rs & [Hst _] & Hs & Hdo & Hsc & _ & Hdec & _).
  edestruct (post_ok W D c) as (d' & Hwr & [Hj Hdoc] & Hk & Hst');
    [exact Hdo|apply Hs|by rewrite (sent_url _ _ _ _ _ _ Hs)|apply Hs|done|].
  exists d'. rewrite <-Hst. rewrite <-Ho in *.
  split_and!; [by eapply sent_written|specialize (Hdec Hj); congruence|done..].
Qed.

Lemma Create_client_error pk d o w n code msg w' :
  Create c pk d o w = (Err (ErrCosmos n code msg), w') -> client_error n -> quiet D w w'.
Proof.
  unfold Create, bind at 1, lift at 1. simpl. intros H Hn.
  apply op_err in H as (out & hs & H). by eapply do_client_error.
Qed.

Lemma Get_ok pk id o w r w' :
  Get c pk id o w = (Ok r, w') ->
  exists d, r = Some d /\ store w !! d_key d = Some d /\ d_ID d = id /\ d_part d = pk.
Proof.
  unfold Get.
  intros (h & w1 & [Hset%pk_op_headers ->]%lift_inv & (hs & H)%op_inv)%bind_inv_ok.
  apply do_success in H as (w0 & req & rs & [Hst _] & Hs & Hdo & Hsc & _ & Hdec & _).
  edestruct (get_ok W D c) as (d & [Hj Hdoc] & Hk & Hid & Hp);
    [exact Hdo|apply Hs|by rewrite (sent_url _ _ _ _ _ _ Hs)|by eapply sent_pk|done|].
  exists d. rewrite <-Hst. split_and!; [specialize (Hdec Hj); congruence|done..].
Qed.

Lemma Get_404 pk id o w code msg w' :
  Get c pk id o w = (Err (ErrCosmos StatusNotFound code msg), w') ->
  forall k d, store w !! k = Some d -> d_ID d = id -> d_part d <> pk.
Proof.
  unfold Get, bind at 1, lift at 1. intros H k d.
  destruct (setOptions _ _ _) as [h|e| |] eqn:Hset; simplify_eq.
  - apply pk_op_headers in Hset. apply op_err in H as (out & hs & H).
    apply do_status in H as (w0 & req & rs & w1 & [<- _] & Hs & Hdo & _ & Hsc & _).
    eapply (get_absent W D c);
      [exact Hdo|apply Hs|by rewrite (sent_url _ _ _ _ _ _ Hs)|by eapply sent_pk|done].
  - exfalso. by destruct o.
Qed.

Lemma Delete_ok pk d o w w' :
  Delete c pk d o w = (Ok tt, w') ->
  exists k old, store w !! k = Some old /\ d_ID old = d_ID d /\ d_part old = pk /\
    store w' = delete k (store w).
Proof.
  unfold Delete.
  intros (h & w1 & [Hset%pk_op_headers ->]%lift_inv & (hs & H)%op_inv)%bind_inv_ok.
  apply do_success in H as (w0 & req & rs & [Hst _] & Hs & Hdo & Hsc & _ & _).
  edestruct (delete_ok W D c) as (k & old & Hk & Hid & Hp & Hst');
    [exact Hdo|apply Hs|by rewrite (sent_url _ _ _ _ _ _ Hs)|by eapply sent_pk|done|].
  exists k, old. by rewrite <-Hst.
Qed.

(** *** Whatever the outcome *)
Lemma do_steps {O} (R : W -> W -> Prop) `{!PreOrder R} method path rt rl expected inb
    (nil : O) decode headers :
  (forall w w', quiet D w w' -> R w w') ->
  (forall req : Request D, rq_Method req = method -> rq_Body req = inb -> steps R (hc_Do req)) ->
  steps R (do (c_databaseClient c) method path rt rl expected inb nil decode headers).
Proof.
  intros HR Hreq. unfold do. apply steps_bind; [done| |].
  2: { intros [[[? ?] ?]|?]; apply steps_ret; done. }
  clear Hret. generalize (@None (Response D), nil, @None error).
  induction (dc_maxRetries (c_databaseClient c)) as [|n IH]; intros last; [by apply steps_ret|].
  simpl. apply steps_bind; [done| |].
  - unfold _do. apply steps_bind; [done| |].
    + intros w. apply HR. destruct (authorizeRequest _ _ _ _ _ w) eqn:E.
      apply authorizeRequest_ok in E. apply E.
    + intros h2. apply steps_bind; [done| |].
      * apply steps_try. by apply Hreq.
      * intros [rs|e]; repeat case_match; apply steps_ret; done.
  - intros [[resp out] err]. destruct err as [e|]; [|by apply steps_ret].
    destruct (IsErrorStatusCode _ _); [|by apply steps_ret].
    destruct resp; [|by apply steps_panic]. destruct (ParseInt _); [|by apply steps_ret].
    apply steps_bind; [done| |intros ?; apply IH]. intros w. apply HR, sleep_quiet. apply RuntimeQuiet0.
Qed.

Lemma Get_quiet pk id o : steps (quiet D) (Get c pk id o).
Proof.
  unfold Get. apply steps_bind; [apply _|by apply steps_lift; apply _|]. intros h.
  apply steps_bind; [apply _| |].
  - apply do_steps; [apply _|done|]. intros req Hm _ w. by apply (get_quiet W D c).
  - intros r. apply steps_bind; [apply _|by apply steps_lift; apply _|].
    intros ?. apply steps_ret; apply _.
Qed.

Lemma Next_store i w : store (snd (Next c i w)) = store w.
Proof.
  set (R := fun w w' : W => store (D := D) w' = store w).
  assert (PreOrder R) by (split; [by intros ?|unfold R; intros ???; congruence]).
  revert w. change (steps (fun w w' => R w w') (Next c i)).
  unfold Next, query_NextRaw. destruct (qi_done i); [by apply steps_ret|].
  apply steps_bind; [done|by apply steps_lift|]. intros h.
  apply steps_bind; [done| |].
  - apply do_steps; [done|by intros ?? []|]. intros req Hm Hb w.
    apply (read_store W D c). right. eauto.
  - intros r. apply steps_bind; [done|by apply steps_lift|].
    intros [? ?]. by apply steps_ret.
Qed.

(** *** Queries *)

(** The iterator is where the service's token [qi_continuation] says, and done
    when a page came without one. *)
Definition iter_ok (i : queryIterator) : Prop :=
  qi_options i = None.

Lemma query_headers_ok i :
  canonical (query_headers i) /\
  query_headers i !! "X-Ms-Documentdb-Partitionkey" =
    (if decide (qi_partitionkey i = EmptyString) then None else Some [pk_header (qi_partitionkey i)]) /\
  h_Get (query_headers i) "X-Ms-Continuation" = qi_continuation i.
Proof.
  unfold query_headers.
  set (h0 := h_Set "Content-Type" _ _).
  assert (canonical h0) as Hc by (repeat apply canonical_set; apply canonical_empty).
  set (h1 := if decide (qi_partitionkey i = EmptyString) then _ else _).
  assert (canonical h1) as Hc1 by (subst h1; case_decide; by apply canonical_set).
  assert (h1 !! "X-Ms-Documentdb-Partitionkey" =
    (if decide (qi_partitionkey i = EmptyString) then None else Some [pk_header (qi_partitionkey i)])) as Hp1.
  { subst h1 h0. case_decide; [|apply lookup_insert_eq].
    rewrite !h_Set_ne by done. apply lookup_empty. }
  assert (h1 !! "X-Ms-Continuation" = None) as Hk1.
  { subst h1 h0. case_decide; rewrite !h_Set_ne by done; apply lookup_empty. }
  destruct (decide (qi_continuation i = EmptyString)) as [Hd|Hd].
  - split; [done|]. split; [done|]. unfold h_Get.
    change (CanonicalMIMEHeaderKey "X-Ms-Continuation") with "X-Ms-Continuation". by rewrite Hk1, Hd.
  - split; [by apply canonical_set|]. split; [by rewrite h_Set_ne|].
    unfold h_Get, h_Set. by rewrite lookup_insert_eq.
Qed.

Lemma Next_done i w : qi_done i = true -> Next c i w = (Ok (None, i), w).
Proof. unfold Next, query_NextRaw. by intros ->. Qed.

Lemma Next_ok i w out i' w' :
  iter_ok i -> qi_done i = false -> Next c i w = (Ok (out, i'), w') ->
  exists ds t, out = Some ds /\ iter_ok i' /\
    qi_query i' = qi_query i /\ qi_partitionkey i' = qi_partitionkey i /\
    qi_done i' = bool_decide (qi_continuation i' = EmptyString) /\
    (forall d, d ∈ ds_Documents ds ->
       store w !! d_key d = Some d /\ matches (qi_query i) (qi_partitionkey i) t d = true) /\
    (forall k, k ∈ pending (D := D) w (qi_query i) (qi_partitionkey i) (qi_continuation i) ->
       (exists d, d ∈ ds_Documents ds /\ d_key d = k) \/
       (qi_done i' = false /\ k ∈ pending (D := D) w' (qi_query i) (qi_partitionkey i) (qi_continuation i'))) /\
    (qi_done i' = true \/
     rank (W := W) (D := D) (qi_continuation i') < rank (W := W) (D := D) (qi_continuation i)).
Proof.
  unfold Next, query_NextRaw, iter_ok. intros Ho ->. rewrite Ho.
  intros (h & w1 & [[=<-] ->]%lift_inv & (r & w2 & Hdo & (r' & w3 & [Hr ->]%lift_inv & H)%bind_inv_ok)%bind_inv_ok)%bind_inv_ok.
  destruct r' as [out' hs]. apply check_ok in Hr as ->. unfold ret in H. simplify_eq/=.
  apply do_success in Hdo as (w0 & req & rs & [Hst Hpd] & Hs & Hdo & Hsc & -> & Hdec & _).
  destruct (query_headers_ok i) as (Hc & Hp & Hcont).
  edestruct (query_page W D c) with (t := qi_continuation i) (pk := qi_partitionkey i)
    as (ds & next & Hj & Hdocs & Hnext & Hin & Hpend & Hrank);
    [exact Hdo|apply Hs|by rewrite (sent_url _ _ _ _ _ _ Hs)|apply Hs|
     by rewrite (sent_header _ _ _ _ _ _ Hs)| |done|].
  { rewrite <-Hcont. unfold h_Get. by rewrite (sent_header _ _ _ _ _ _ Hs). }
  exists ds, (svc_time (D := D) w0). specialize (Hdec Hj). rewrite Hdocs in Hdec. simplify_eq.
  rewrite <-Hst. split_and!; try done.
  - intros k Hk. rewrite <-Hpd in Hk. destruct (Hpend k Hk) as [|[Hne Hk']]; [by left|right].
    by rewrite bool_decide_eq_false_2.
  - destruct Hrank as [He|]; [left|by right]. by apply bool_decide_eq_true.
Qed.

(** Going through all the pages *)
Lemma all_from_ok fuel i acc w r w' :
  iter_ok i -> all_from (Next c) fuel i acc w = (Ok r, w') ->
  store w' = store w /\
  exists ds, ds_Documents r = ds_Documents acc ++ ds /\
    (forall d, d ∈ ds -> store w !! d_key d = Some d /\
       exists t, matches (qi_query i) (qi_partitionkey i) t d = true) /\
    (qi_done i = false ->
     forall k, k ∈ pending (D := D) w (qi_query i) (qi_partitionkey i) (qi_continuation i) ->
       exists d, d ∈ ds /\ d_key d = k).
Proof.
  revert i acc w. induction fuel as [|fuel IH]; intros i acc w Hi H; [done|].
  simpl in H. apply bind_inv_ok in H as ([out i1] & w1 & Hn & H).
  destruct (qi_done i) eqn:Hd.
  - rewrite Next_done in Hn by done. simplify_eq. unfold ret in H. simplify_eq.
    split; [done|]. exists []. rewrite app_nil_r. split_and!; [done|set_solver|done].
  - pose proof (Next_store i w) as Hst. rewrite Hn in Hst. simpl in Hst.
    apply Next_ok in Hn as (ds & t & -> & Hi1 & Hq & Hp & _ & Hin & Hpend & _); [|done..].
    apply IH in H as (Hst' & ds' & Hr & Hin' & Hpend'); [|done].
    rewrite Hst in Hin'. rewrite Hq, Hp in *. split; [congruence|].
    exists (ds_Documents ds ++ ds'). simpl in Hr. rewrite Hr, app_assoc. split; [done|]. split.
    + intros d [Hd1|Hd1]%elem_of_app; [|by apply Hin']. destruct (Hin _ Hd1); eauto.
    + intros _ k Hk. destruct (Hpend k Hk) as [(d & ? & ?)|[Hd1 Hk1]].
      * exists d. rewrite elem_of_app. eauto.
      * destruct (Hpend' Hd1 k Hk1) as (d & ? & ?). exists d. rewrite elem_of_app. eauto.
Qed.

(** A query gives documents of the collection that match it, and all of those
    whose matching does not depend on the time. *)
Lemma QueryAll_ok fuel pk q w r w' :
  QueryAll c fuel pk q None w = (Ok r, w') ->
  store w' = store w /\
  (forall d, d ∈ ds_Documents r -> store w !! d_key d = Some d /\ exists t, matches q pk t d = true) /\
  (forall k d, store w !! k = Some d -> (forall t, matches q pk t d = true) -> d ∈ ds_Documents r).
Proof.
  unfold QueryAll, all. intros H. apply all_from_ok in H as (Hst & ds & Hr & Hin & Hp); [|done].
  simpl in Hr. rewrite Hr. split; [done|]. split; [done|]. intros k d Hk Hm.
  destruct (Hp eq_refl k) as (d' & Hd' & Hkey); [by eapply (pending_start W D c)|].
  destruct (Hin d' Hd') as [Hd1 _]. rewrite Hkey in Hd1. by simplify_eq.
Qed.

(** *** Every call returns *)
Lemma do_total {O} method path rt rl expected inb (nil : O) decode headers :
  total (do (c_databaseClient c) method path rt rl expected inb nil decode headers).
Proof.
  unfold do. apply total_bind; [|intros [[[? ?] ?]|?]; apply total_ret].
  clear Hret. generalize (@None (Response D), nil, @None error).
  induction (dc_maxRetries (c_databaseClient c)) as [|n IH]; intros last; [apply total_ret|].
  simpl. apply total_bind_ok.
  - unfold _do. apply total_bind.
    + intros w. destruct (authorizeRequest _ _ _ _ _ w) eqn:E.
      by apply authorizeRequest_ok in E as (_ & ? & ? & ->).
    + intros h2. apply total_bind; [apply total_try, (transport_total W D c)|].
      intros [rs|e]; repeat case_match; apply total_ret.
  - intros w [[resp out] err] w' H. apply _do_inv in H as (w0 & req & _ & _ & H).
    destruct err as [e|]; [|done]. destruct (IsErrorStatusCode _ _) eqn:Ht; [|done].
    destruct resp as [rs|]; [|naive_solver]. destruct (ParseInt _); [|done].
    apply total_bind; [|done]. intros w1. by destruct (sleep_run z w1) as (? & -> & _).
Qed.

Lemma Next_total i : total (Next c i).
Proof.
  unfold Next, query_NextRaw. destruct (qi_done i); [apply total_ret|].
  apply total_bind.
  - intros w. unfold lift, setOptions. by destruct (qi_options i).
  - intros h. apply total_bind; [apply do_total|]. intros [[out hs] err].
    apply total_bind; [intros w; by destruct err|]. intros [? ?]. apply total_ret.
Qed.

(** [rank] bounds the number of pages, so enough fuel reads them all. *)
Lemma QueryAll_total fuel pk q :
  rank (W := W) (D := D) EmptyString + 2 <= fuel -> total (QueryAll c fuel pk q None).
Proof.
  intros Hf. unfold QueryAll, all.
  assert (forall fuel i acc, iter_ok i ->
    (if qi_done i then 1 else rank (W := W) (D := D) (qi_continuation i) + 2) <= fuel ->
    total (all_from (Next c) fuel i acc)) as Hall; [|by apply Hall].
  clear fuel Hf. induction fuel as [|fuel IH]; intros i acc Hi Hf; [destruct (qi_done i); lia|].
  simpl. apply total_bind_ok; [apply Next_total|]. intros w [out i1] w1 H.
  destruct (qi_done i) eqn:Hd.
  - rewrite Next_done in H by done. by simplify_eq.
  - apply Next_ok in H as (ds & t & -> & Hi1 & _ & _ & _ & _ & _ & Hr); [|done..].
    apply IH; [done|]. destruct (qi_done i1); [lia|]. destruct Hr as [|Hr]; [done|]. lia.
Qed.

(** *** The errors of a query are neither 404 nor 412. *)
Lemma Next_err i w n code msg w' :
  qi_options i = None -> Next c i w = (Err (ErrCosmos n code msg), w') ->
  n <> StatusNotFound /\ n <> StatusPreconditionFailed.
Proof.
  unfold Next, query_NextRaw. intros Ho. rewrite Ho. simpl.
  destruct (qi_done i); [done|]. unfold bind at 1, lift at 1.
  destruct (query_headers_ok i) as (Hc & _ & _).
  assert (query_headers i !! "If-Match" = None) as Hm.
  { unfold query_headers. repeat case_decide; rewrite !h_Set_ne by done; apply lookup_empty. }
  unfold bind at 1. destruct (do _ _ _ _ _ _ _ _ _ _ w) as [[[[out hs] err]| | |] w1] eqn:E.
  - destruct err as [e|]; unfold bind, lift, check, ret; intros; simplify_eq.
    apply do_status in E as (w0 & req & rs & w2 & _ & Hs & Hdo & _ & <- & _). split.
    + eapply (query_not_found W D c); [done|apply Hs].
    + intros Hn. apply (precondition_failed W D c) in Hdo; [|done].
      rewrite (sent_header _ _ _ _ _ _ Hs), Hm in Hdo by done. by destruct Hdo.
  - intros. simplify_eq. exfalso. unfold do, bind in E.
    destruct (do_loop _ _ _ w) as [[[[[? ?] ?]|?]| | |] ?] eqn:E2;
      unfold ret in E; simplify_eq. by apply do_loop_no_err in E2.
  - done.
  - done.
Qed.

Lemma QueryAll_err fuel pk q w n code msg w' :
  QueryAll c fuel pk q None w = (Err (ErrCosmos n code msg), w') ->
  n <> StatusNotFound /\ n <> StatusPreconditionFailed.
Proof.
  unfold QueryAll, all.
  assert (forall fuel i acc w, iter_ok i -> all_from (Next c) fuel i acc w = (Err (ErrCosmos n code msg), w') ->
    n <> StatusNotFound /\ n <> StatusPreconditionFailed) as H; [|by apply H].
  clear fuel w. induction fuel as [|fuel IH]; intros i acc w Hi H; [done|]. simpl in H.
  unfold bind in H. destruct (Next c i w) as [[[out i1]|e| |] w1] eqn:En; [|by simplify_eq; eapply Next_err|done..].
  destruct (qi_done i) eqn:Hd.
  - rewrite Next_done in En by done. by simplify_eq.
  - apply Next_ok in En as (ds & t & -> & Hi1 & _); [|done..]. by eapply IH.
Qed.

Lemma QueryAll_store fuel pk q w : store (snd (QueryAll c fuel pk q None w)) = store w.
Proof.
  set (R := fun w w' : W => store (D := D) w' = store w).
  assert (PreOrder R) by (split; [by intros ?|unfold R; intros ???; congruence]).
  revert w. change (steps (fun w w' => R w w') (QueryAll c fuel pk q None)).
  unfold QueryAll, all. generalize (@mkDocuments D 0 EmptyString []), (Query_ pk q None).
  induction fuel as [|fuel IH]; intros acc i; [by apply steps_lift|]. simpl.
  apply steps_bind; [done|intros w; apply Next_store|]. intros [[docs|] i1]; [apply IH|by apply steps_ret].
Qed.

(** The errors of a write are those the service answers. *)
Lemma Replace_err_store d pk o w n code msg w' :
  Replace c pk d o w = (Err (ErrCosmos n code msg), w') -> client_error n -> quiet D w w'.
Proof.
  unfold Replace, bind at 1, lift at 1. intros H Hn.
  destruct (setOptions _ _ _) as [h|e| |] eqn:Hset; simplify_eq.
  - apply op_err in H as (out & hs & H). by eapply do_client_error.
  - exfalso. destruct o as [o|]; [|done]. simpl in Hset.
    by destruct (o_NoETag o), (decide (d_ETag d = EmptyString)).
Qed.
End spec.
