(* ===== verification/Database.v ===== *)
(** * The database layer (src/pkg/database)

    The three collections as the front end and the back end see them: documents
    by key, patches under optimistic concurrency, leases. Each operation is the
    code's, over the client of Cosmos.v. A document handed to a closure is a
    value: the closure returns the document it has changed. *)
From S2P Require Import Prelude GoStrings.
From S2P Require Import Azure Api.
From S2P Require Import Cosmos.

(** The number of pages a listing may have before a run is cut off *)
Class PageBound := page_bound : nat.

#[export] Instance OpenShiftClusterDocument_Document : Document OpenShiftClusterDocument := {
  d_ID := ocd_ID; d_ETag d := m_ETag (ocd_Meta d) }.
#[export] Instance SubscriptionDocument_Document : Document SubscriptionDocument := {
  d_ID := sd_ID; d_ETag d := m_ETag (sd_Meta d) }.
#[export] Instance AsyncOperationDocument_Document : Document AsyncOperationDocument := {
  d_ID := ad_ID; d_ETag d := m_ETag (ad_Meta d) }.

(** The service and the run-time, for the three collections *)
Class Account (W : Type) := {
  account_clusters :: Service W OpenShiftClusterDocument;
  account_subscriptions :: Service W SubscriptionDocument;
  account_async :: Service W AsyncOperationDocument;
}.

(** A conflict on creation is reported as a failed precondition. *)
Definition conflict_as_precondition {A} (r : A + error) : A + error :=
  match r with
  | inr (ErrCosmos n code msg) =>
      if decide (n = StatusConflict) then inr (ErrCosmos StatusPreconditionFailed code msg) else r
  | _ => r
  end.
Definition unwrap {W A} (r : A + error) : M W A :=
  match r with inl a => ret a | inr e => throw e end.

Definition not_lower (what key : string) : error :=
  ErrOther (what +:+ " " +:+ Quote key +:+ " is not lower case").

(** The read-modify-write loop of the three [patch] methods *)
Definition patch_loop {W D} `{Runtime W} (get : M W D) (f : D -> M W D) (put : D -> M W (option D))
    : M W (option D) :=
  RetryOnPreconditionFailed (do! doc <- get; do! doc <- f doc; put doc).

Definition renewLease : Options := mkOptions false ["renewLease"] [] EmptyString.
Definition retryLater : Options := mkOptions false ["retryLater"] [] EmptyString.

(** [for _, doc := range docs { ...; continue | return }] of the two [Dequeue]
    methods: the outcome of the first document whose update is not refused. *)
Fixpoint first_update {W D} (update : D -> M W (option D)) (docs : list D)
    : M W (option (option D)) :=
  match docs with
  | [] => ret None
  | doc :: docs =>
      do! r <- try (update doc);
      if is_status r StatusPreconditionFailed then first_update update docs
      else do! doc <- unwrap r; ret (Some doc)
  end.

Fixpoint dequeue_loop {W D} (next : queryIterator -> M W (option (Documents D) * queryIterator))
    (update : D -> M W (option D)) (fuel : nat) (i : queryIterator) : M W (option D) :=
  match fuel with
  | 0 => lift OutOfFuel
  | S fuel =>
      do! '(docs, i) <- next i;
      match docs with
      | None => ret None
      | Some docs =>
          do! r <- first_update update (ds_Documents docs);
          match r with
          | Some doc => ret doc
          | None => dequeue_loop next update fuel i
          end
      end
  end.

(** ** openshiftclusters.go *)
Module OpenShiftClusters.
Record openShiftClusters := mkOpenShiftClusters {
  c : documentClient;
  uuid : string;
}.

Definition query_key (key : string) : Query :=
  mkQuery "SELECT * FROM OpenShiftClusters doc WHERE doc.key = @key" [mkParameter "@key" key].
Definition query_prefix (prefix : string) : Query :=
  mkQuery "SELECT * FROM OpenShiftClusters doc WHERE STARTSWITH(doc.key, @prefix)"
    [mkParameter "@prefix" prefix].
Definition query_dequeue : Query :=
  mkQuery ("SELECT * FROM OpenShiftClusters doc WHERE NOT (doc.openShiftCluster.properties.provisioningState IN (" +:+
    dquote +:+ "Succeeded" +:+ dquote +:+ ", " +:+ dquote +:+ "Failed" +:+ dquote +:+
    ")) AND (doc.leaseExpires ?? 0) < GetCurrentTimestamp() / 1000") [].

Definition partitionKey (key : string) : res string :=
  do? r <- ParseResourceID key; Ok (r_SubscriptionID r).

Section ops.
Context {W : Type} `{!Runtime W, !Account W, !PageBound}.
Notation Doc := OpenShiftClusterDocument (only parsing).

Definition Create (d : openShiftClusters) (doc : Doc) : M W (option Doc) :=
  if decide (ocd_Key doc <> ToLower (ocd_Key doc)) then throw (not_lower "key" (ocd_Key doc))
  else
    do! pk <- lift (partitionKey (ocd_Key doc));
    let doc := doc <| ocd_PartitionKey := pk |> in
    do! r <- try (Cosmos.Create (c d) (ocd_PartitionKey doc) doc None);
    unwrap (conflict_as_precondition r).

Definition Get (d : openShiftClusters) (key : string) : M W Doc :=
  if decide (key <> ToLower key) then throw (not_lower "key" key)
  else
    do! partitionKey <- lift (partitionKey key);
    do! docs <- QueryAll (c d) page_bound partitionKey (query_key key) None;
    match ds_Documents docs with
    | [] => throw (ErrCosmos StatusNotFound EmptyString EmptyString)
    | [doc] => ret doc
    | l => throw (ErrOther ("read " +:+ Itoa (Z.of_nat (length l)) +:+ " documents, expected <= 1"))
    end.

Definition update (d : openShiftClusters) (doc : Doc) (options : option Options) : M W (option Doc) :=
  if decide (ocd_Key doc <> ToLower (ocd_Key doc)) then throw (not_lower "key" (ocd_Key doc))
  else Replace (c d) (ocd_PartitionKey doc) doc options.

Definition patch (d : openShiftClusters) (key : string) (f : Doc -> M W Doc)
    (options : option Options) : M W (option Doc) :=
  patch_loop (Get d key) f (fun doc => update d doc options).

Definition Patch (d : openShiftClusters) (key : string) (f : Doc -> M W Doc) : M W (option Doc) :=
  patch d key f None.

Definition with_lease (d : openShiftClusters) (f : Doc -> M W Doc) (doc : Doc) : M W Doc :=
  if decide (ocd_LeaseOwner doc <> uuid d) then throw (ErrOther "lost lease") else f doc.

Definition patchWithLease (d : openShiftClusters) (key : string) (f : Doc -> M W Doc)
    (options : option Options) : M W (option Doc) :=
  patch d key (with_lease d f) options.

Definition PatchWithLease (d : openShiftClusters) (key : string) (f : Doc -> M W Doc)
    : M W (option Doc) := patchWithLease d key f None.

Definition Update (d : openShiftClusters) (doc : Doc) : M W (option Doc) := update d doc None.

Definition Delete (d : openShiftClusters) (doc : Doc) : M W unit :=
  if decide (ocd_Key doc <> ToLower (ocd_Key doc)) then throw (not_lower "key" (ocd_Key doc))
  else Cosmos.Delete (c d) (ocd_PartitionKey doc) doc (Some (mkOptions true [] [] EmptyString)).

Definition ListByPrefix (d : openShiftClusters) (subscriptionID prefix : string) : res queryIterator :=
  if decide (prefix <> ToLower prefix) then Err (not_lower "prefix" prefix)
  else Ok (Query_ subscriptionID (query_prefix prefix) None).

(** What [Dequeue] writes into a document it takes *)
Definition take (d : openShiftClusters) (doc : Doc) : Doc :=
  doc <| ocd_LeaseOwner := uuid d |> <| ocd_Dequeues := int64 (ocd_Dequeues doc + 1) |>.

Definition Dequeue (d : openShiftClusters) : M W (option Doc) :=
  dequeue_loop (Next (c d)) (fun doc => update d (take d doc) (Some renewLease)) page_bound
    (Query_ EmptyString query_dequeue None).

Definition Lease (d : openShiftClusters) (key : string) : M W (option Doc) :=
  patchWithLease d key ret (Some renewLease).

(** What [EndLease] writes into the document *)
Definition end_lease (provisioningState failedProvisioningState : ProvisioningState) (doc : Doc)
    : res Doc :=
  do? oc <- deref (ocd_OpenShiftCluster doc);
  let oc := set_failed_state failedProvisioningState (set_state provisioningState oc) in
  let doc := doc <| ocd_OpenShiftCluster := Some oc |>
                 <| ocd_LeaseOwner := EmptyString |> <| ocd_LeaseExpires := 0%Z |> in
  let doc := if decide (provisioningState = ProvisioningStateSucceeded)
             then doc <| ocd_Dequeues := 0%Z |> else doc in
  Ok (doc <| ocd_AsyncOperationID := EmptyString |>).

Definition EndLease (d : openShiftClusters) (key : string)
    (provisioningState failedProvisioningState : ProvisioningState) : M W (option Doc) :=
  patchWithLease d key (fun doc => lift (end_lease provisioningState failedProvisioningState doc)) None.
End ops.
End OpenShiftClusters.

(** ** subscriptions.go *)
Module Subscriptions.
Record subscriptions := mkSubscriptions {
  c : documentClient;
  uuid : string;
}.

Definition query_dequeue : Query :=
  mkQuery "SELECT * FROM Subscriptions doc WHERE (doc.deleting ?? false) AND (doc.leaseExpires ?? 0) < GetCurrentTimestamp() / 1000" [].

Section ops.
Context {W : Type} `{!Runtime W, !Account W, !PageBound}.
Notation Doc := SubscriptionDocument (only parsing).

Definition Create (d : subscriptions) (doc : Doc) : M W (option Doc) :=
  if decide (sd_ID doc <> ToLower (sd_ID doc)) then throw (not_lower "id" (sd_ID doc))
  else
    do! r <- try (Cosmos.Create (c d) (sd_ID doc) doc None);
    unwrap (conflict_as_precondition r).

Definition Get (d : subscriptions) (id : string) : M W (option Doc) :=
  if decide (id <> ToLower id) then throw (not_lower "id" id)
  else Cosmos.Get (c d) id id None.

Definition update (d : subscriptions) (doc : Doc) (options : option Options) : M W (option Doc) :=
  if decide (sd_ID doc <> ToLower (sd_ID doc)) then throw (not_lower "id" (sd_ID doc))
  else Replace (c d) (sd_ID doc) doc options.

(** [f] looks at the document at once, so a nil document panics here. *)
Definition patch (d : subscriptions) (id : string) (f : Doc -> M W Doc)
    (options : option Options) : M W (option Doc) :=
  patch_loop (do! doc <- Get d id; lift (deref doc)) f (fun doc => update d doc options).

Definition with_lease (d : subscriptions) (f : Doc -> M W Doc) (doc : Doc) : M W Doc :=
  if decide (sd_LeaseOwner doc <> uuid d) then throw (ErrOther "lost lease") else f doc.

(** The [options] argument is not passed on. *)
Definition patchWithLease (d : subscriptions) (key : string) (f : Doc -> M W Doc)
    (options : option Options) : M W (option Doc) :=
  patch d key (with_lease d f) None.

Definition Update (d : subscriptions) (doc : Doc) : M W (option Doc) := update d doc None.

Definition take (d : subscriptions) (doc : Doc) : Doc :=
  doc <| sd_LeaseOwner := uuid d |> <| sd_Dequeues := int64 (sd_Dequeues doc + 1) |>.

Definition Dequeue (d : subscriptions) : M W (option Doc) :=
  dequeue_loop (Next (c d)) (fun doc => update d (take d doc) (Some renewLease)) page_bound
    (Query_ EmptyString query_dequeue None).

Definition Lease (d : subscriptions) (id : string) : M W (option Doc) :=
  patchWithLease d id ret (Some renewLease).

Definition end_lease (done retryLater : bool) (doc : Doc) : Doc :=
  let doc := if done then doc <| sd_Deleting := false |> else doc in
  let doc := doc <| sd_LeaseOwner := EmptyString |> <| sd_LeaseExpires := 0%Z |> in
  if done || retryLater then doc <| sd_Dequeues := 0%Z |> else doc.

Definition EndLease (d : subscriptions) (id : string) (done retry_later : bool) : M W (option Doc) :=
  let options := if retry_later then Some retryLater else None in
  patchWithLease d id (fun doc => ret (end_lease done retry_later doc)) options.
End ops.
End Subscriptions.

(** ** asyncoperations.go *)
Module AsyncOperations.
Record asyncOperations := mkAsyncOperations {
  c : documentClient;
  uuid : string;
}.

Section ops.
Context {W : Type} `{!Runtime W, !Account W}.
Notation Doc := AsyncOperationDocument (only parsing).

Definition Create (d : asyncOperations) (doc : Doc) : M W (option Doc) :=
  if decide (ad_ID doc <> ToLower (ad_ID doc)) then throw (not_lower "id" (ad_ID doc))
  else
    do! r <- try (Cosmos.Create (c d) (ad_ID doc) doc None);
    unwrap (conflict_as_precondition r).

Definition Get (d : asyncOperations) (id : string) : M W (option Doc) :=
  if decide (id <> ToLower id) then throw (not_lower "id" id)
  else Cosmos.Get (c d) id id None.

Definition Patch (d : asyncOperations) (id : string) (f : Doc -> M W Doc) : M W (option Doc) :=
  patch_loop (do! doc <- Get d id; lift (deref doc)) f
    (fun doc => Replace (c d) (ad_ID doc) doc None).
End ops.
End AsyncOperations.

(** ** database.go *)
Record Database := mkDatabase {
  db_AsyncOperations : AsyncOperations.asyncOperations;
  db_OpenShiftClusters : OpenShiftClusters.openShiftClusters;
  db_Subscriptions : Subscriptions.subscriptions;
}.

(** The triggers of the two queues, as the service will run them *)
Definition trigger_body (seconds : Z) : string :=
  "function trigger() {" +:+ newline_s +:+
  "	var request = getContext().getRequest();" +:+ newline_s +:+
  "	var body = request.getBody();" +:+ newline_s +:+
  "	var date = new Date();" +:+ newline_s +:+
  "	body[" +:+ dquote +:+ "leaseExpires" +:+ dquote +:+ "] = Math.floor(date.getTime() / 1000) + " +:+
    Itoa seconds +:+ ";" +:+ newline_s +:+
  "	request.setBody(body);" +:+ newline_s +:+ "}".
Definition trigger_renewLease : Trigger :=
  mkTrigger "renewLease" EmptyString 0 EmptyString EmptyString (trigger_body 60) TriggerOperationAll TriggerTypePre.
Definition trigger_retryLater : Trigger :=
  mkTrigger "retryLater" EmptyString 0 EmptyString EmptyString (trigger_body 600) TriggerOperationAll TriggerTypePre.

Section new.
Context {W : Type} `{!Runtime W, !Service W Trigger}.

(** Creates each trigger; one that exists already is fine. *)
Fixpoint create_triggers (triggerc : documentClient) (triggers : list Trigger) : M W unit :=
  match triggers with
  | [] => ret tt
  | trigger :: triggers =>
      do! r <- try (Triggers.Create triggerc trigger);
      match r with
      | inr e => if IsErrorStatusCode e StatusConflict then create_triggers triggerc triggers else throw e
      | inl _ => create_triggers triggerc triggers
      end
  end.

Definition NewOpenShiftClusters (uuid : string) (dbc : databaseClient) (dbid collid : string)
    : M W OpenShiftClusters.openShiftClusters :=
  let c := NewDocumentClient dbc dbid collid in
  do! _ <- create_triggers c [trigger_renewLease];
  ret (OpenShiftClusters.mkOpenShiftClusters c uuid).

Definition NewSubscriptions (uuid : string) (dbc : databaseClient) (dbid collid : string)
    : M W Subscriptions.subscriptions :=
  let c := NewDocumentClient dbc dbid collid in
  do! _ <- create_triggers c [trigger_renewLease; trigger_retryLater];
  ret (Subscriptions.mkSubscriptions c uuid).

Definition NewAsyncOperations (uuid : string) (dbc : databaseClient) (dbid collid : string)
    : AsyncOperations.asyncOperations :=
  AsyncOperations.mkAsyncOperations (NewDocumentClient dbc dbid collid) uuid.

(** [NewDatabase], on the account, key and database name of the environment *)
Definition NewDatabase (databaseAccount masterKey databaseName uuid : string) : M W Database :=
  do! dbc <- lift (NewDatabaseClient databaseAccount masterKey);
  let ao := NewAsyncOperations uuid dbc databaseName "AsyncOperations" in
  do! oc <- NewOpenShiftClusters uuid dbc databaseName "OpenShiftClusters";
  do! s <- NewSubscriptions uuid dbc databaseName "Subscriptions";
  ret (mkDatabase ao oc s).
End new.
