(* ===== verification/Frame.v ===== *)
(** * What a call can do to the world at most

    A relation that the clock, sleeping and every request on a collection
    respect is respected by every operation on the collection. Used for what an
    operation on one collection may do to another. *)
From S2P Require Import Prelude GoStrings.
From S2P Require Import Azure Api.
From S2P Require Import Cosmos Database.

Section frame.
Context {W D : Type} `{!Runtime W, !Service W D, !Document D}.
Context (R : W -> W -> Prop) `{!PreOrder R}.
Context (Rnow : steps R time_Now) (Rsleep : forall n, steps R (time_Sleep n)).
Context (Rdo : forall req : Request D, steps R (hc_Do req)).
#[local] Hint Resolve Rnow Rsleep Rdo : steps.

Lemma _do_frame {O} dbc method path rt rl expected inb (nil : O) decode headers :
  steps R (_do dbc method path rt rl expected inb nil decode headers).
Proof. unfold _do, authorizeRequest. steps_auto. Qed.

Lemma do_frame {O} dbc method path rt rl expected inb (nil : O) decode headers :
  steps R (do dbc method path rt rl expected inb nil decode headers).
Proof.
  unfold do. apply steps_bind; [done| |intros [[[? ?] ?]|?]; by apply steps_ret].
  generalize (@None (Response D), nil, @None error).
  induction (dc_maxRetries dbc) as [|n IH]; intros last; [by apply steps_ret|]. simpl.
  apply steps_bind; [done|apply _do_frame|]. intros [[resp out] err]. steps_auto.
Qed.
#[local] Hint Resolve do_frame : steps.

Lemma Create_frame c pk d o : steps R (Create c pk d o).
Proof. unfold Create. steps_auto. Qed.
Lemma Get_frame c pk id o : steps R (Get c pk id o).
Proof. unfold Get. steps_auto. Qed.
Lemma Replace_frame c pk d o : steps R (Replace c pk d o).
Proof. unfold Replace. steps_auto. Qed.
Lemma Delete_frame c pk d o : steps R (Delete c pk d o).
Proof. unfold Delete. steps_auto. Qed.
Lemma Next_frame c i : steps R (Next c i).
Proof. unfold Next, query_NextRaw. steps_auto. Qed.
Lemma QueryAll_frame c fuel pk q o : steps R (QueryAll c fuel pk q o).
Proof.
  unfold QueryAll, all. generalize (@mkDocuments D 0 EmptyString []), (Query_ pk q o).
  induction fuel as [|fuel IH]; intros acc i; [by apply steps_lift|]. simpl.
  apply steps_bind; [done|apply Next_frame|]. intros [[docs|] i1]; [apply IH|by apply steps_ret].
Qed.

Lemma patch_loop_frame (get : M W D) f (put : D -> M W (option D)) :
  steps R get -> (forall d, steps R (f d)) -> (forall d, steps R (put d)) ->
  steps R (patch_loop get f put).
Proof. intros. unfold patch_loop. apply Retry_steps; [done|done|]. steps_auto. Qed.
End frame.

#[export] Hint Resolve Create_frame Get_frame Replace_frame Delete_frame Next_frame QueryAll_frame
  patch_loop_frame : steps.

Section collections.
Context {W : Type} `{!Runtime W, !Account W, !PageBound}.
Context (R : W -> W -> Prop) `{!PreOrder R}.
Context (Rnow : steps R time_Now) (Rsleep : forall n, steps R (time_Sleep n)).
#[local] Hint Resolve Rnow Rsleep : steps.

Section async.
Context (Rdo : forall req : Request AsyncOperationDocument, steps R (hc_Do req)).
#[local] Hint Resolve Rdo : steps.

Lemma async_Create_frame d doc : steps R (AsyncOperations.Create d doc).
Proof. unfold AsyncOperations.Create, unwrap. steps_auto. Qed.
Lemma async_Get_frame d id : steps R (AsyncOperations.Get d id).
Proof. unfold AsyncOperations.Get. steps_auto. Qed.
Lemma async_Patch_frame d id f : (forall doc, steps R (f doc)) -> steps R (AsyncOperations.Patch d id f).
Proof.
  intros. unfold AsyncOperations.Patch. apply patch_loop_frame; [done|done|..|done|];
    [unfold AsyncOperations.Get|]; steps_auto.
Qed.
End async.

Section subscriptions.
Context (Rdo : forall req : Request SubscriptionDocument, steps R (hc_Do req)).
#[local] Hint Resolve Rdo : steps.

Lemma subs_Get_frame d id : steps R (Subscriptions.Get d id).
Proof. unfold Subscriptions.Get. steps_auto. Qed.
Lemma subs_Create_frame d doc : steps R (Subscriptions.Create d doc).
Proof. unfold Subscriptions.Create, unwrap. steps_auto. Qed.
Lemma subs_update_frame d doc o : steps R (Subscriptions.update d doc o).
Proof. unfold Subscriptions.update. steps_auto. Qed.
Lemma subs_patch_frame d id f o :
  (forall doc, steps R (f doc)) -> steps R (Subscriptions.patch d id f o).
Proof.
  intros. unfold Subscriptions.patch. apply patch_loop_frame; [done|done|..|done|];
    [unfold Subscriptions.Get|intros; apply subs_update_frame]; steps_auto.
Qed.
End subscriptions.

Section clusters.
Context (Rdo : forall req : Request OpenShiftClusterDocument, steps R (hc_Do req)).
#[local] Hint Resolve Rdo : steps.

Lemma clusters_Get_frame d key : steps R (OpenShiftClusters.Get d key).
Proof. unfold OpenShiftClusters.Get. steps_auto. Qed.
Lemma clusters_Create_frame d doc : steps R (OpenShiftClusters.Create d doc).
Proof. unfold OpenShiftClusters.Create, unwrap. steps_auto. Qed.
Lemma clusters_update_frame d doc o : steps R (OpenShiftClusters.update d doc o).
Proof. unfold OpenShiftClusters.update. steps_auto. Qed.
Lemma clusters_patch_frame d key f o :
  (forall doc, steps R (f doc)) -> steps R (OpenShiftClusters.patch d key f o).
Proof.
  intros. unfold OpenShiftClusters.patch. apply patch_loop_frame; [done|done|..|done|];
    [apply clusters_Get_frame|intros; apply clusters_update_frame].
Qed.
Lemma clusters_Delete_frame d doc : steps R (OpenShiftClusters.Delete d doc).
Proof. unfold OpenShiftClusters.Delete. steps_auto. Qed.
End clusters.
End collections.

#[export] Hint Resolve async_Create_frame async_Get_frame async_Patch_frame subs_Get_frame
  subs_Create_frame subs_update_frame subs_patch_frame clusters_Get_frame clusters_Create_frame
  clusters_update_frame clusters_patch_frame clusters_Delete_frame : steps.
