(* ===== verification/DatabaseSpec.v ===== *)
(** * What the database layer promises to the front end and the back end

    The operations of Database.v on an account that keeps the contract of
    CosmosLaws.v, in terms of the three collections' contents. *)
From S2P Require Import Prelude GoStrings.
From S2P Require Import Azure Api.
From S2P Require Import Cosmos CosmosLaws CosmosSpec.
From S2P Require Import Database Frame.

(** ** The documents, as the service stores them *)
#[export] Instance OpenShiftClusterDocument_Stored : Stored OpenShiftClusterDocument := {
  d_key := ocd_Key;
  d_part := ocd_PartitionKey;
  d_with_meta m d := d <| ocd_Meta := m |>;
  d_with_leaseExpires t d := d <| ocd_LeaseExpires := t |>;
}.
#[export] Instance SubscriptionDocument_Stored : Stored SubscriptionDocument := {
  d_key := sd_ID;
  d_part := sd_ID;
  d_with_meta m d := d <| sd_Meta := m |>;
  d_with_leaseExpires t d := d <| sd_LeaseExpires := t |>;
}.
#[export] Instance AsyncOperationDocument_Stored : Stored AsyncOperationDocument := {
  d_key := ad_ID;
  d_part := ad_ID;
  d_with_meta m d := d <| ad_Meta := m |>;
  d_with_leaseExpires t d :=
    d <| ad_MissingFields := fst (CodecMissingField (ad_MissingFields d) "leaseExpires" (Itoa t)) |>;
}.

(** The [WHERE] clauses of the program's queries. A comparison with an absent
    field is undefined, and an undefined condition selects nothing; an empty
    string is not stored. *)
Definition in_partition (pk part : string) : bool := bool_decide (pk = EmptyString) || bool_decide (part = pk).
Definition terminal (s : ProvisioningState) : bool :=
  bool_decide (s = ProvisioningStateSucceeded) || bool_decide (s = ProvisioningStateFailed).
Definition dequeuable (t : Z) (d : OpenShiftClusterDocument) : bool :=
  match ocd_OpenShiftCluster d with
  | Some oc => negb (bool_decide (state_of oc = EmptyString)) && negb (terminal (state_of oc))
  | None => false
  end && bool_decide (ocd_LeaseExpires d * 1000 < t)%Z.
Definition dequeuable_subscription (t : Z) (d : SubscriptionDocument) : bool :=
  sd_Deleting d && bool_decide (sd_LeaseExpires d * 1000 < t)%Z.

Class AccountLaws (W : Type) `{!Runtime W, !Account W}
    `{!Collection W OpenShiftClusterDocument, !Collection W SubscriptionDocument,
      !Collection W AsyncOperationDocument} (db : Database) := {
  clusters_laws :: ServiceLaws W OpenShiftClusterDocument (OpenShiftClusters.c (db_OpenShiftClusters db));
  subscriptions_laws :: ServiceLaws W SubscriptionDocument (Subscriptions.c (db_Subscriptions db));
  async_laws :: ServiceLaws W AsyncOperationDocument (AsyncOperations.c (db_AsyncOperations db));
  clusters_runtime :: RuntimeQuiet W OpenShiftClusterDocument;
  subscriptions_runtime :: RuntimeQuiet W SubscriptionDocument;
  async_runtime :: RuntimeQuiet W AsyncOperationDocument;
  clusters_apart_s :: Apart W OpenShiftClusterDocument SubscriptionDocument;
  clusters_apart_a :: Apart W OpenShiftClusterDocument AsyncOperationDocument;
  subscriptions_apart_c :: Apart W SubscriptionDocument OpenShiftClusterDocument;
  subscriptions_apart_a :: Apart W SubscriptionDocument AsyncOperationDocument;
  async_apart_c :: Apart W AsyncOperationDocument OpenShiftClusterDocument;
  async_apart_s :: Apart W AsyncOperationDocument SubscriptionDocument;
  clusters_retries : dc_maxRetries (c_databaseClient (OpenShiftClusters.c (db_OpenShiftClusters db))) <> 0;
  subscriptions_retries : dc_maxRetries (c_databaseClient (Subscriptions.c (db_Subscriptions db))) <> 0;
  async_retries : dc_maxRetries (c_databaseClient (AsyncOperations.c (db_AsyncOperations db))) <> 0;
  matches_key key pk t (d : OpenShiftClusterDocument) :
    matches (W := W) (OpenShiftClusters.query_key key) pk t d
    = in_partition pk (ocd_PartitionKey d) && bool_decide (ocd_Key d = key);
  matches_prefix prefix pk t (d : OpenShiftClusterDocument) :
    matches (W := W) (OpenShiftClusters.query_prefix prefix) pk t d
    = in_partition pk (ocd_PartitionKey d) && HasPrefix (ocd_Key d) prefix;
  matches_dequeue pk t (d : OpenShiftClusterDocument) :
    matches (W := W) OpenShiftClusters.query_dequeue pk t d
    = in_partition pk (ocd_PartitionKey d) && dequeuable t d;
  matches_dequeue_subscription pk t (d : SubscriptionDocument) :
    matches (W := W) Subscriptions.query_dequeue pk t d
    = in_partition pk (sd_ID d) && dequeuable_subscription t d;
}.

Section spec.
Context {W : Type} `{!Runtime W, !Account W}.
Context `{!Collection W OpenShiftClusterDocument, !Collection W SubscriptionDocument,
          !Collection W AsyncOperationDocument}.
Context (db : Database) `{!AccountLaws W db} {PB : PageBound}.
Implicit Types w : W.

(** The collections *)
Definition clusters w : gmap string OpenShiftClusterDocument := store w.
Definition subs w : gmap string SubscriptionDocument := store w.
Definition asyncs w : gmap string AsyncOperationDocument := store w.

Lemma Sleep_ok n w : exists w', time_Sleep n w = (Ok tt, w').
Proof.
  pose proof (sleep_ok W OpenShiftClusterDocument n w).
  destruct (time_Sleep n w) as [[[]| | |] w']; [eauto|done..].
Qed.

(** Requests on one collection do not move the others, whatever the call. *)
Definition same {D} `{Collection W D} (w w' : W) : Prop := store (D := D) w' = store w.
#[local] Instance same_preorder {D} `{Collection W D} : PreOrder (same (D := D)).
Proof. split; [by intros ?|unfold same; intros ???; congruence]. Qed.

(** *** Trigger effects *)
Lemma stored_none {D} `{Document D, Stored D} (d d' : D) :
  stored_as [] d d' -> exists m, d' = d_with_meta m d.
Proof. intros (t & m & d1 & [=->] & ->). eauto. Qed.

Lemma stored_renewLease {D} `{Document D, Stored D} (d d' : D) :
  stored_as ["renewLease"] d d' ->
  exists m now, d' = d_with_meta m (d_with_leaseExpires (now / 1000 + 60)%Z d).
Proof. intros (t & m & d1 & [=<-] & ->). eauto. Qed.

(** *** The read-modify-write loop *)
Section patch_loop.
Context {D : Type} `{!Collection W D} (HD : RuntimeQuiet W D) (k : string).
Context (get : M W D) (f : D -> M W D) (put : D -> M W (option D)).
Context (Hget : forall w d w', get w = (Ok d, w') -> store (D := D) w !! k = Some d).
Context (Hget_same : forall w, store (D := D) (snd (get w)) = store w).
Context (Hput_412 : forall d w e w', put d w = (Err e, w') ->
  is_412 (A := option D) (Err e) = true -> store (D := D) w' = store w).
Context (Hf : forall d w, store (D := D) (snd (f d w)) = store w).

Lemma patch_try_412 w e w' :
  (do! doc <- get; do! doc <- f doc; put doc) w = (Err e, w') ->
  is_412 (A := option D) (Err e) = true -> same (D := D) w w'.
Proof.
  unfold bind, same. intros Hp He. pose proof (Hget_same w) as Hg.
  destruct (get w) as [[doc|e'| |] w1]; simplify_eq/=; [|done].
  pose proof (Hf doc w1) as Hf1. destruct (f doc w1) as [[doc1|e'| |] w2]; simplify_eq/=; [|congruence].
  apply Hput_412 in Hp; [congruence|done].
Qed.

(** A success: the closure ran on the stored document, its result was put. *)
Lemma patch_loop_ok w r w' :
  patch_loop get f put w = (Ok r, w') ->
  exists d0 w1 d1 w2, store w !! k = Some d0 /\ same (D := D) w w1 /\ f d0 w1 = (Ok d1, w2) /\
    same (D := D) w w2 /\ put d1 w2 = (Ok r, w').
Proof.
  intros Hp. unfold patch_loop in Hp.
  apply (Retry_ok Sleep_ok (same (D := D))) in Hp as (wi & Hwi & Hp);
    [|intros n w0; apply sleep_quiet, HD|intros w0 e w1; apply patch_try_412].
  apply bind_inv_ok in Hp as (d0 & w1 & Hg & (d1 & w2 & Hf1 & Hu)%bind_inv_ok).
  pose proof (Hget _ _ _ Hg) as Hd0. pose proof (Hget_same wi) as Hs. rewrite Hg in Hs.
  pose proof (Hf d0 w1) as Hw2. rewrite Hf1 in Hw2. unfold same in *. simpl in *.
  exists d0, w1, d1, w2. split_and!; congruence.
Qed.

(** A closure that refuses the stored document: nothing is put. *)
Lemma patch_loop_refused w :
  (forall d wf, store w !! k = Some d -> is_ok (fst (f d wf)) = false) ->
  same (D := D) w (snd (patch_loop get f put w)) /\ is_ok (fst (patch_loop get f put w)) = false.
Proof.
  intros Href. unfold patch_loop, RetryOnPreconditionFailed, same. set (body := bind _ _).
  assert (forall w1, store (D := D) w1 = store w -> store (D := D) (snd (body w1)) = store w /\
    is_ok (fst (body w1)) = false) as Hbody.
  { intros w1 Hw1. unfold body, bind. pose proof (Hget_same w1) as Hs.
    destruct (get w1) as [[doc|e'| |] w2] eqn:Hg; simpl in *; [|split; congruence..].
    apply Hget in Hg. rewrite Hw1 in Hg. specialize (Href doc w2 Hg). pose proof (Hf doc w2) as Hf1.
    destruct (f doc w2) as [[doc1|e'| |] w3]; simpl in *; try done; split; congruence. }
  assert (forall n i w1, n <> 0 -> store (D := D) w1 = store w ->
    store (D := D) (snd (retry_from n i body w1)) = store w /\
    is_ok (fst (retry_from n i body w1)) = false) as Hall; [|by apply Hall].
  induction n as [|n IH]; intros i w1 Hn Hw1; [done|]. simpl.
  destruct (Hbody w1 Hw1) as [Hb Hok]. unfold bind at 1 3, try.
  destruct (body w1) as [[a|e| |] w2]; simpl in *; try done.
  destruct (IsErrorStatusCode _ _); [|done]. unfold bind.
  destruct (sleep_quiet W D (100 * i) w2) as [Hq _].
  destruct (Sleep_ok (100 * i) w2) as [w3 Hs]. rewrite Hs in *. simpl in Hq.
  destruct n; [simpl; split; congruence|]. apply IH; [done|congruence].
Qed.
End patch_loop.

(** *** The two [Dequeue] loops *)
Section dequeue.
Context {D : Type} `{!Service W D, !Document D, !Stored D, !Collection W D} (cl : documentClient).
Context `{!ServiceLaws W D cl, !RuntimeQuiet W D} (Hret : dc_maxRetries (c_databaseClient cl) <> 0).
Context (update : D -> M W (option D)).
Context (Hupd : forall d w e w', update d w = (Err e, w') ->
  is_412 (A := option D) (Err e) = true -> store (D := D) w' = store w).

Lemma first_update_ok docs w r w' :
  first_update update docs w = (Ok r, w') ->
  match r with
  | None => same (D := D) w w'
  | Some x => exists d w1, d ∈ docs /\ same (D := D) w w1 /\ update d w1 = (Ok x, w')
  end.
Proof.
  revert w. induction docs as [|d docs IH]; intros w Hf; [by injection Hf as <- <-|].
  simpl in Hf. unfold bind at 1, try in Hf. destruct (update d w) as [[x|e| |] w1] eqn:Hu; try done.
  - simpl in Hf. unfold bind, unwrap, ret in Hf. simplify_eq.
    exists d, w. split; [set_solver|]. split; [done|]. done.
  - simpl in Hf. destruct (IsErrorStatusCode e StatusPreconditionFailed) eqn:He.
    + apply Hupd in Hu; [|done]. apply IH in Hf. unfold same in *. destruct r as [x|]; [|by rewrite Hf].
      destruct Hf as (d' & w2 & ? & ? & ?). exists d', w2. split; [set_solver|].
      unfold same in *. split; [congruence|done].
    + unfold bind, unwrap, throw in Hf. done.
Qed.

Lemma dequeue_loop_ok fuel i w r w' :
  iter_ok i -> dequeue_loop (Next cl) update fuel i w = (Ok r, w') ->
  (r = None /\ same (D := D) w w') \/
  (exists d t w1, store w !! d_key d = Some d /\
     matches (W := W) (qi_query i) (qi_partitionkey i) t d = true /\
     same (D := D) w w1 /\ update d w1 = (Ok r, w')).
Proof.
  revert i w. induction fuel as [|fuel IH]; intros i w Hi Hd; [done|]. simpl in Hd.
  apply bind_inv_ok in Hd as ([out i1] & w1 & Hn & Hd).
  pose proof (Next_store cl i w) as Hs. rewrite Hn in Hs. simpl in Hs.
  destruct (qi_done i) eqn:Hdone.
  { rewrite Next_done in Hn by done. simplify_eq. unfold ret in Hd. simplify_eq. by left. }
  apply (Next_ok cl) in Hn as (ds & t & -> & Hi1 & Hq & Hp & _ & Hin & _); [|done..].
  apply bind_inv_ok in Hd as (x & w2 & Hf & Hd). apply first_update_ok in Hf. unfold same in *.
  destruct x as [x|].
  - unfold ret in Hd. simplify_eq. destruct Hf as (d & w3 & Hd & Hw3 & Hu).
    destruct (Hin d Hd) as [Hst Hm]. right. exists d, t, w3. split_and!; [done|done|congruence|done].
  - apply IH in Hd as [[-> Hw']|(d & t' & w3 & Hst & Hm & Hw3 & Hu)]; [left; split; congruence| |done].
    right. exists d, t', w3. rewrite Hq, Hp in Hm. split_and!; [congruence|done|congruence|done].
Qed.
End dequeue.

(** *** OpenShiftClusters *)
Abbreviation oc := (db_OpenShiftClusters db).
Abbreviation occ := (OpenShiftClusters.c (db_OpenShiftClusters db)).

Lemma partitionKey_err key e : OpenShiftClusters.partitionKey key = Err e -> exists m, e = ErrOther m.
Proof.
  unfold OpenShiftClusters.partitionKey. destruct (ParseResourceID key) eqn:Hp; simpl; try done.
  intros [= <-]. by eapply ParseResourceID_err.
Qed.

Lemma clusters_Get_ok key w doc w' :
  OpenShiftClusters.Get oc key w = (Ok doc, w') ->
  clusters w' = clusters w /\ clusters w !! key = Some doc /\ ocd_Key doc = key /\ key = ToLower key.
Proof.
  unfold OpenShiftClusters.Get. case_decide as Hl; [done|].
  intros (pk & w1 & [Hpk ->]%lift_inv & (r & w2 & Hq & Hr)%bind_inv_ok)%bind_inv_ok.
  apply (QueryAll_ok occ) in Hq as (Hst & Hin & _); [|apply clusters_retries].
  destruct (ds_Documents r) as [|doc' [|]]; unfold ret, throw in Hr; simplify_eq.
  destruct (Hin doc) as [Hk [t Hm]]; [set_solver|]. rewrite matches_key in Hm.
  apply andb_true_iff in Hm as [_ Hm]. apply bool_decide_eq_true in Hm. simpl in Hk.
  by rewrite Hm in Hk.
Qed.

Lemma clusters_Get_err key w n code msg w' :
  OpenShiftClusters.Get oc key w = (Err (ErrCosmos n code msg), w') ->
  clusters w' = clusters w /\ n <> StatusPreconditionFailed /\
  (n = StatusNotFound -> forall doc, clusters w !! key = Some doc ->
     OpenShiftClusters.partitionKey key <> Ok (ocd_PartitionKey doc)).
Proof.
  unfold OpenShiftClusters.Get. case_decide as Hl; [done|].
  unfold bind at 1, lift at 1. destruct (OpenShiftClusters.partitionKey key) as [pk|e| |] eqn:Hpk; try done.
  2: { intros. simplify_eq. by apply partitionKey_err in Hpk as [? ?]. }
  unfold bind. destruct (QueryAll _ _ _ _ _ w) as [[r|e| |] w1] eqn:Hq; try done.
  - apply (QueryAll_ok occ) in Hq as (Hst & Hin & Hall); [|apply clusters_retries].
    destruct (ds_Documents r) as [|doc' [|]]; unfold ret, throw; intros; simplify_eq.
    split_and!; [done|done|]. intros _ doc Hdoc [= ->].
    eapply Hall in Hdoc as Hin'; [by apply elem_of_nil in Hin'|]. intros t. rewrite matches_key.
    apply (store_key W OpenShiftClusterDocument occ) in Hdoc. simpl in Hdoc. unfold in_partition.
    by rewrite (bool_decide_eq_true_2 _ eq_refl), orb_true_r, bool_decide_eq_true_2.
  - intros. simplify_eq. pose proof (QueryAll_store occ page_bound pk (OpenShiftClusters.query_key key) w) as Hs.
    rewrite Hq in Hs. apply (QueryAll_err occ) in Hq as [? ?]; [|apply clusters_retries]. done.
Qed.

Lemma clusters_Get_stored key w doc w' :
  OpenShiftClusters.Get oc key w = (Ok doc, w') -> clusters w !! key = Some doc.
Proof. intros H. by apply clusters_Get_ok in H as (_ & ? & _). Qed.

Lemma clusters_Get_same key w : clusters (snd (OpenShiftClusters.Get oc key w)) = clusters w.
Proof.
  unfold OpenShiftClusters.Get. case_decide as Hl; [done|].
  unfold bind at 1, lift. destruct (OpenShiftClusters.partitionKey key) as [pk|e| |]; try done.
  pose proof (QueryAll_store occ page_bound pk (OpenShiftClusters.query_key key) w) as Hs.
  unfold bind. destruct (QueryAll _ _ _ _ _ w) as [[r|e| |] w1]; try done.
  by destruct (ds_Documents r) as [|? []].
Qed.

(** What a closure may not change: the document's id, key and partition *)
Definition ident (d : OpenShiftClusterDocument) := (ocd_ID d, ocd_Key d, ocd_PartitionKey d).

Lemma clusters_update_ok doc o w r w' old :
  no_commas (opt_triggers o) -> OpenShiftClusters.update oc doc o w = (Ok r, w') ->
  clusters w !! ocd_Key doc = Some old -> ident doc = ident old ->
  exists d', stored_as (opt_triggers o) doc d' /\ r = Some d' /\
    clusters w' = <[ocd_Key doc := d']> (clusters w) /\
    match o with Some o => o_NoETag o = false -> d_ETag old = d_ETag doc | None => True end.
Proof.
  intros Hc. unfold OpenShiftClusters.update. case_decide as Hl; [done|]. intros Hu Hold [= Hi _ Hp].
  change (ocd_PartitionKey doc) with (d_part doc) in Hu.
  destruct (Replace_ok occ clusters_retries doc o w r w' Hc Hu)
    as (k & old' & d' & Hst & -> & Hk & Hid & Hpt & Hm & Hw).
  simpl in *. assert (k = ocd_Key doc) as ->.
  { eapply (store_id W OpenShiftClusterDocument occ); [done|done|simpl; congruence..]. }
  exists d'. unfold clusters in *. rewrite Hw, insert_delete_eq. rewrite Hk in Hold. simplify_eq. done.
Qed.

Lemma clusters_update_412 doc o w e w' :
  OpenShiftClusters.update oc doc o w = (Err e, w') ->
  is_412 (A := option OpenShiftClusterDocument) (Err e) = true ->
  (exists o', o = Some o' /\ o_NoETag o' = false) /\ clusters w' = clusters w.
Proof.
  unfold OpenShiftClusters.update. case_decide as Hl; [by intros [= <- <-]|]. intros Hu He.
  destruct e; try done. apply bool_decide_eq_true in He.
  by apply (Replace_412 occ clusters_retries) in Hu as [? [Hq _]].
Qed.

Section patch.
Context (key : string) (f : OpenShiftClusterDocument -> M W OpenShiftClusterDocument) (o : option Options).
Context (Hsame : forall d w, clusters (snd (f d w)) = clusters w).

Lemma clusters_patch_ok w r w' :
  no_commas (opt_triggers o) ->
  (forall d wf d1 wf', f d wf = (Ok d1, wf') -> ident d1 = ident d) ->
  OpenShiftClusters.patch oc key f o w = (Ok r, w') ->
  exists d0 wf d1 wf' d', clusters w !! key = Some d0 /\ clusters wf = clusters w /\
    f d0 wf = (Ok d1, wf') /\ stored_as (opt_triggers o) d1 d' /\ r = Some d' /\
    clusters w' = <[key := d']> (clusters w).
Proof.
  intros Hc Hid Hp. unfold OpenShiftClusters.patch in Hp.
  eapply (patch_loop_ok _ key) in Hp as (d0 & w1 & d1 & w2 & Hd0 & Hw1 & Hf & Hw2 & Hu);
    [|apply clusters_Get_stored|apply clusters_Get_same
     |intros ???? H1 H2; by eapply clusters_update_412 in H2 as [_ ?]|done].
  pose proof (Hid _ _ _ _ Hf) as Hi.
  assert (ocd_Key d1 = key) as Hk.
  { apply (store_key W OpenShiftClusterDocument occ) in Hd0. injection Hi. simpl in *. congruence. }
  unfold same in *.
  eapply clusters_update_ok in Hu as (d' & Hst & -> & Hw & _);
    [|done|rewrite Hk; unfold clusters; by rewrite Hw2|done].
  exists d0, w1, d1, w2, d'. unfold clusters in *. rewrite Hk in Hw.
  split_and!; [done|congruence|done|done|done|congruence].
Qed.

(** A closure that refuses the stored document: nothing is written. *)
Lemma clusters_patch_refused w :
  (forall d wf, clusters w !! key = Some d -> is_ok (fst (f d wf)) = false) ->
  clusters (snd (OpenShiftClusters.patch oc key f o w)) = clusters w /\
  is_ok (fst (OpenShiftClusters.patch oc key f o w)) = false.
Proof.
  intros Href. eapply patch_loop_refused;
    [apply _|apply clusters_Get_stored|apply clusters_Get_same|done|done].
Qed.
End patch.

(** A closure run under a lease that is not ours is not run. *)
Lemma clusters_lost_lease key f o w d0 :
  (forall d w, clusters (snd (f d w)) = clusters w) ->
  clusters w !! key = Some d0 -> ocd_LeaseOwner d0 <> OpenShiftClusters.uuid oc ->
  clusters (snd (OpenShiftClusters.patchWithLease oc key f o w)) = clusters w /\
  is_ok (fst (OpenShiftClusters.patchWithLease oc key f o w)) = false.
Proof.
  intros Hf Hd0 Hne. apply clusters_patch_refused.
  - intros d w1. unfold OpenShiftClusters.with_lease. case_decide; [done|apply Hf].
  - intros d wf Hd. simplify_eq. unfold OpenShiftClusters.with_lease. by rewrite decide_True.
Qed.

Lemma clusters_patchWithLease_ok key f o w r w' :
  no_commas (opt_triggers o) -> (forall d w, clusters (snd (f d w)) = clusters w) ->
  (forall d wf d1 wf', f d wf = (Ok d1, wf') -> ident d1 = ident d) ->
  OpenShiftClusters.patchWithLease oc key f o w = (Ok r, w') ->
  exists d0 wf d1 wf' d', clusters w !! key = Some d0 /\
    ocd_LeaseOwner d0 = OpenShiftClusters.uuid oc /\ clusters wf = clusters w /\
    f d0 wf = (Ok d1, wf') /\ stored_as (opt_triggers o) d1 d' /\ r = Some d' /\
    clusters w' = <[key := d']> (clusters w).
Proof.
  intros Hc Hf Hid Hp. unfold OpenShiftClusters.patchWithLease in Hp.
  apply clusters_patch_ok in Hp as (d0 & wf & d1 & wf' & d' & Hd0 & Hwf & Hr & ? & ? & ?); [| |done|].
  - unfold OpenShiftClusters.with_lease in Hr. case_decide; [done|].
    exists d0, wf, d1, wf', d'. by split_and!.
  - intros d w1. unfold OpenShiftClusters.with_lease. case_decide; [done|apply Hf].
  - intros d w1 d1 w2. unfold OpenShiftClusters.with_lease. case_decide; [done|apply Hid].
Qed.

(** The owner's document with its lease renewed by the service's clock, which
    counts milliseconds: for a minute *)
Definition renewed (now : Z) (m : DocMeta) (d : OpenShiftClusterDocument) : OpenShiftClusterDocument :=
  d <| ocd_LeaseExpires := (now / 1000 + 60)%Z |> <| ocd_Meta := m |>.

Lemma clusters_Lease_ok key w r w' :
  OpenShiftClusters.Lease oc key w = (Ok r, w') ->
  exists d0 now m, clusters w !! key = Some d0 /\ ocd_LeaseOwner d0 = OpenShiftClusters.uuid oc /\
    r = Some (renewed now m d0) /\ clusters w' = <[key := renewed now m d0]> (clusters w).
Proof.
  intros Hl. apply clusters_patchWithLease_ok in Hl as (d0 & wf & d1 & wf' & d' & H0 & Ho & _ & Hr & Hst & -> & Hw).
  - unfold ret in Hr. simplify_eq. apply stored_renewLease in Hst as (m & t & ->). by exists d1, t, m.
  - by repeat constructor.
  - done.
  - intros d ? d1 ? Hr. unfold ret in Hr. by simplify_eq.
Qed.

Lemma end_lease_ident ps fps d d1 : OpenShiftClusters.end_lease ps fps d = Ok d1 -> ident d1 = ident d.
Proof.
  unfold OpenShiftClusters.end_lease. destruct d as [? ? ? ? ? ? ? ? ? ? [o|]]; simpl; [|done].
  intros [= <-]. by case_decide.
Qed.

(** The document [d] of the cluster [c] once its worker has let it go *)
Definition freed (ps fps : ProvisioningState) (c : OpenShiftCluster) (m : DocMeta)
    (d : OpenShiftClusterDocument) : OpenShiftClusterDocument :=
  d <| ocd_OpenShiftCluster := Some (set_failed_state fps (set_state ps c)) |>
    <| ocd_LeaseOwner := EmptyString |> <| ocd_LeaseExpires := 0%Z |> <| ocd_AsyncOperationID := EmptyString |>
    <| ocd_Dequeues := if decide (ps = ProvisioningStateSucceeded) then 0%Z else ocd_Dequeues d |>
    <| ocd_Meta := m |>.

Lemma end_lease_ok ps fps d d1 m :
  OpenShiftClusters.end_lease ps fps d = Ok d1 ->
  exists c, ocd_OpenShiftCluster d = Some c /\ d1 <| ocd_Meta := m |> = freed ps fps c m d.
Proof.
  unfold OpenShiftClusters.end_lease, freed. destruct d as [? ? ? ? ? ? ? ? ? ? [c|]]; simpl; [|done].
  intros [= <-]. exists c. split; [done|]. by case_decide.
Qed.

Lemma clusters_EndLease_ok key ps fps w r w' :
  OpenShiftClusters.EndLease oc key ps fps w = (Ok r, w') ->
  exists d0 c m, clusters w !! key = Some d0 /\ ocd_LeaseOwner d0 = OpenShiftClusters.uuid oc /\
    ocd_OpenShiftCluster d0 = Some c /\ r = Some (freed ps fps c m d0) /\
    clusters w' = <[key := freed ps fps c m d0]> (clusters w).
Proof.
  intros Hl. apply clusters_patchWithLease_ok in Hl as (d0 & wf & d1 & wf' & d' & H0 & Ho & _ & Hr & Hst & -> & Hw).
  - apply lift_inv in Hr as [Hr _]. apply stored_none in Hst as [m ->].
    destruct (end_lease_ok _ _ _ _ m Hr) as (c & Hc & Hd). exists d0, c, m. rewrite <-Hd. by split_and!.
  - by constructor.
  - done.
  - intros d ? d1 ? [Hr _]%lift_inv. by eapply end_lease_ident.
Qed.

(** The document [d] as the worker that takes it finds it: its own, until a
    minute from now, and counted *)
Definition taken (uuid : string) (now : Z) (m : DocMeta) (d : OpenShiftClusterDocument)
    : OpenShiftClusterDocument :=
  renewed now m (d <| ocd_LeaseOwner := uuid |> <| ocd_Dequeues := int64 (ocd_Dequeues d + 1) |>).

Lemma clusters_Dequeue_ok w r w' :
  OpenShiftClusters.Dequeue oc w = (Ok r, w') ->
  (r = None /\ clusters w' = clusters w) \/
  (exists d t d' now m, clusters w !! ocd_Key d = Some d /\ dequeuable t d = true /\
     d' = taken (OpenShiftClusters.uuid oc) now m d /\ r = Some d' /\
     clusters w' = <[ocd_Key d := d']> (clusters w)).
Proof.
  intros Hd. unfold OpenShiftClusters.Dequeue in Hd.
  apply (dequeue_loop_ok occ clusters_retries) in Hd
    as [[-> Hs]|(d & t & w1 & Hst & Hm & Hw1 & Hu)]; [by left| |intros ???? H1 H2; by eapply clusters_update_412 in H2 as [_ ?]|done].
  right. simpl in Hst, Hm. rewrite matches_dequeue in Hm. simpl in Hm.
  unfold same in Hw1. eapply clusters_update_ok with (old := d) in Hu as (d' & Hst' & -> & Hw & _).
  - apply stored_renewLease in Hst' as (m & t' & ->). unfold clusters in *.
    eexists d, t, _, t', m. split_and!; [done|done|done|done|]. rewrite Hw, Hw1. done.
  - by repeat constructor.
  - unfold clusters. rewrite Hw1. done.
  - done.
Qed.

Lemma clusters_Create_ok doc w r w' :
  OpenShiftClusters.Create oc doc w = (Ok r, w') ->
  exists pk m, OpenShiftClusters.partitionKey (ocd_Key doc) = Ok pk /\
    ocd_Key doc = ToLower (ocd_Key doc) /\ clusters w !! ocd_Key doc = None /\
    r = Some (doc <| ocd_PartitionKey := pk |> <| ocd_Meta := m |>) /\
    clusters w' = <[ocd_Key doc := doc <| ocd_PartitionKey := pk |> <| ocd_Meta := m |>]> (clusters w).
Proof.
  unfold OpenShiftClusters.Create. case_decide as Hl; [done|].
  intros (pk & w1 & [Hpk ->]%lift_inv & (x & w2 & Hx & Hu)%bind_inv_ok)%bind_inv_ok.
  unfold try in Hx. destruct (Cosmos.Create _ _ _ _ w) as [[y|e| |] w3] eqn:Hc; try done; simplify_eq.
  - unfold unwrap, ret in Hu. simplify_eq/=.
    apply (Create_ok occ clusters_retries) in Hc as (d' & Hst & -> & Hn & Hw); [|by constructor].
    apply stored_none in Hst as [m ->]. by exists pk, m.
  - exfalso. destruct e; simpl in Hu; try case_decide; done.
Qed.

(** A precondition failure on creation comes from a conflict or from the
    service, and nothing was created. *)
Lemma clusters_Create_412 doc w n code msg w' :
  OpenShiftClusters.Create oc doc w = (Err (ErrCosmos n code msg), w') ->
  client_error n -> clusters w' = clusters w.
Proof.
  unfold OpenShiftClusters.Create. case_decide as Hl; [done|]. unfold bind at 1, lift at 1.
  destruct (OpenShiftClusters.partitionKey _) as [pk|e| |] eqn:Hpk; try done.
  2: { intros. simplify_eq. by apply partitionKey_err in Hpk as [? ?]. }
  unfold bind, try. destruct (Cosmos.Create _ _ _ _ w) as [[y|e| |] w3] eqn:Hc; try done.
  intros Hu Hn. destruct e as [|n' c' m'| | |]; simpl in Hu; try done.
  assert (client_error n' /\ w3 = w') as [Hn' <-].
  { destruct (decide (n' = StatusConflict)) as [->|]; unfold throw in Hu; injection Hu as <- <- <- <-;
      (split; [|done]); [by split|done]. }
  by apply (Create_client_error occ clusters_retries) in Hc as [? _].
Qed.

Lemma clusters_Delete_ok doc w w' old :
  OpenShiftClusters.Delete oc doc w = (Ok tt, w') ->
  clusters w !! ocd_Key doc = Some old -> ident doc = ident old ->
  clusters w' = delete (ocd_Key doc) (clusters w).
Proof.
  unfold OpenShiftClusters.Delete. case_decide as Hl; [done|]. intros Hd Hold [= Hi _ Hp].
  apply (Delete_ok occ clusters_retries) in Hd as (k & old' & Hk & Hid & Hpt & Hw).
  unfold clusters. rewrite Hw. f_equal.
  eapply (store_id W OpenShiftClusterDocument occ); [done|done|simpl in *; congruence..].
Qed.

(** *** What the other operations leave alone *)
Lemma now_same {D} `{!Collection W D} (HD : RuntimeQuiet W D) : steps (same (D := D)) time_Now.
Proof. intros w. apply now_quiet, HD. Qed.
Lemma sleep_same {D} `{!Collection W D} (HD : RuntimeQuiet W D) n : steps (same (D := D)) (time_Sleep n).
Proof. intros w. apply sleep_quiet, HD. Qed.
Lemma uuid_same {D} `{!Collection W D} (HD : RuntimeQuiet W D) : steps (same (D := D)) uuid_NewV4.
Proof. intros w. apply uuid_quiet, HD. Qed.
Lemma apart_same {D D'} `{!Collection W D, !Service W D'} (HA : Apart W D D') (req : Request D') :
  steps (same (D := D)) (hc_Do req).
Proof. intros w. apply HA. Qed.

(** *** Subscriptions *)
Abbreviation sub := (db_Subscriptions db).
Abbreviation subc := (Subscriptions.c (db_Subscriptions db)).

Lemma subs_Get_ok id w r w' :
  Subscriptions.Get sub id w = (Ok r, w') ->
  exists d, r = Some d /\ subs w !! id = Some d /\ subs w' = subs w.
Proof.
  unfold Subscriptions.Get. case_decide; [done|]. intros Hg.
  pose proof (Get_quiet subc id id None w) as [Hq _]. rewrite Hg in Hq.
  apply (Get_ok subc subscriptions_retries) in Hg as (d & -> & Hd & Hid & _). simpl in *. subst.
  exists d. done.
Qed.

Lemma subs_Get_404 id w code msg w' :
  Subscriptions.Get sub id w = (Err (ErrCosmos StatusNotFound code msg), w') -> subs w !! id = None.
Proof.
  unfold Subscriptions.Get. case_decide; [done|]. intros Hg.
  destruct (subs w !! id) as [d|] eqn:Hd; [exfalso|done].
  pose proof (Get_404 subc subscriptions_retries _ _ _ _ _ _ _ Hg id d Hd) as Hne.
  apply (store_key W SubscriptionDocument subc) in Hd. simpl in *. by apply Hne.
Qed.

Lemma subs_Get_same id w : subs (snd (Subscriptions.Get sub id w)) = subs w.
Proof.
  unfold Subscriptions.Get. case_decide; [done|].
  apply (Get_quiet subc id id None w).
Qed.

Lemma subs_update_ok doc o w r w' :
  no_commas (opt_triggers o) -> Subscriptions.update sub doc o w = (Ok r, w') ->
  exists d' old, stored_as (opt_triggers o) doc d' /\ r = Some d' /\ subs w !! sd_ID doc = Some old /\
    subs w' = <[sd_ID doc := d']> (subs w).
Proof.
  intros Hc. unfold Subscriptions.update. case_decide as Hl; [done|]. intros Hu.
  change (sd_ID doc) with (d_part doc) in Hu at 1.
  destruct (Replace_ok subc subscriptions_retries doc o w r w' Hc Hu)
    as (k & old & d' & Hst & -> & Hk & Hid & Hpt & Hm & Hw). simpl in *.
  pose proof (store_key W SubscriptionDocument subc _ _ _ Hk) as Hkey. simpl in Hkey. subst k.
  rewrite Hid in *. exists d', old. unfold subs. rewrite Hw, insert_delete_eq. done.
Qed.

Lemma subs_update_412 doc o w e w' :
  Subscriptions.update sub doc o w = (Err e, w') ->
  is_412 (A := option SubscriptionDocument) (Err e) = true ->
  (exists o', o = Some o' /\ o_NoETag o' = false) /\ subs w' = subs w.
Proof.
  unfold Subscriptions.update. case_decide as Hl; [by intros [= <- <-]|]. intros Hu He.
  destruct e; try done. apply bool_decide_eq_true in He.
  by apply (Replace_412 subc subscriptions_retries) in Hu as [? [Hq _]].
Qed.

Lemma subs_patchWithLease_ok id f o w r w' :
  (forall d w, subs (snd (f d w)) = subs w) ->
  (forall d wf d1 wf', f d wf = (Ok d1, wf') -> sd_ID d1 = sd_ID d) ->
  Subscriptions.patchWithLease sub id f o w = (Ok r, w') ->
  exists d0 wf d1 wf' m, subs w !! id = Some d0 /\ sd_LeaseOwner d0 = Subscriptions.uuid sub /\
    f d0 wf = (Ok d1, wf') /\ r = Some (d1 <| sd_Meta := m |>) /\
    subs w' = <[id := d1 <| sd_Meta := m |>]> (subs w).
Proof.
  intros Hf Hid Hp. unfold Subscriptions.patchWithLease, Subscriptions.patch in Hp.
  eapply (patch_loop_ok _ id) in Hp as (d0 & w1 & d1 & w2 & Hd0 & Hw1 & Hr & Hw2 & Hu);
    [|intros w0 d w3 (x & w4 & Hg & [Hx ->]%lift_inv)%bind_inv_ok| | |].
  - unfold Subscriptions.with_lease in Hr. case_decide as Ho; [done|].
    apply Hid in Hr as Hi. apply subs_update_ok in Hu as (d' & old & Hst & -> & _ & Hw); [|by constructor].
    apply stored_none in Hst as [m ->]. exists d0, w1, d1, w2, m. unfold same, subs in *.
    pose proof (store_key W SubscriptionDocument subc _ _ _ Hd0) as Hkey. simpl in Hkey.
    rewrite Hw, Hi, Hkey, Hw2. done.
  - apply subs_Get_ok in Hg as (d' & -> & Hd & _). simpl in Hx. by simplify_eq.
  - intros w0. unfold bind. pose proof (subs_Get_same id w0) as Hs.
    by destruct (Subscriptions.Get sub id w0) as [[]].
  - intros ???? H1 H2. by eapply subs_update_412 in H2 as [_ ?].
  - intros d w0. unfold Subscriptions.with_lease. case_decide; [done|apply Hf].
Qed.

Definition taken_subscription (uuid : string) (now : Z) (m : DocMeta) (d : SubscriptionDocument)
    : SubscriptionDocument :=
  d <| sd_LeaseOwner := uuid |> <| sd_Dequeues := int64 (sd_Dequeues d + 1) |>
    <| sd_LeaseExpires := (now / 1000 + 60)%Z |> <| sd_Meta := m |>.

Lemma subs_Dequeue_ok w r w' :
  Subscriptions.Dequeue sub w = (Ok r, w') ->
  (r = None /\ subs w' = subs w) \/
  (exists d t d' now m, subs w !! sd_ID d = Some d /\ dequeuable_subscription t d = true /\
     d' = taken_subscription (Subscriptions.uuid sub) now m d /\ r = Some d' /\
     subs w' = <[sd_ID d := d']> (subs w)).
Proof.
  intros Hd. unfold Subscriptions.Dequeue in Hd.
  apply (dequeue_loop_ok subc subscriptions_retries) in Hd
    as [[-> Hs]|(d & t & w1 & Hst & Hm & Hw1 & Hu)]; [by left| |intros ???? H1 H2; by eapply subs_update_412 in H2 as [_ ?]|done].
  right. simpl in Hst, Hm. rewrite matches_dequeue_subscription in Hm. simpl in Hm.
  unfold same in Hw1. apply subs_update_ok in Hu as (d' & old & Hst' & -> & _ & Hw); [|by repeat constructor].
  apply stored_renewLease in Hst' as (m & t' & ->). unfold subs in *.
  eexists d, t, _, t', m. split_and!; [done|done|done|done|]. rewrite Hw, Hw1. done.
Qed.

(** *** AsyncOperations *)
Abbreviation ao := (db_AsyncOperations db).
Abbreviation aoc := (AsyncOperations.c (db_AsyncOperations db)).

Lemma async_Get_ok id w r w' :
  AsyncOperations.Get ao id w = (Ok r, w') ->
  exists d, r = Some d /\ asyncs w !! id = Some d /\ asyncs w' = asyncs w.
Proof.
  unfold AsyncOperations.Get. case_decide; [done|]. intros Hg.
  pose proof (Get_quiet aoc id id None w) as [Hq _]. rewrite Hg in Hq.
  apply (Get_ok aoc async_retries) in Hg as (d & -> & Hd & Hid & _). simpl in *. subst.
  exists d. done.
Qed.

Lemma async_Get_same id w : asyncs (snd (AsyncOperations.Get ao id w)) = asyncs w.
Proof.
  unfold AsyncOperations.Get. case_decide; [done|].
  apply (Get_quiet aoc id id None w).
Qed.

Lemma async_Create_ok doc w r w' :
  AsyncOperations.Create ao doc w = (Ok r, w') ->
  exists m, asyncs w !! ad_ID doc = None /\ r = Some (doc <| ad_Meta := m |>) /\
    asyncs w' = <[ad_ID doc := doc <| ad_Meta := m |>]> (asyncs w).
Proof.
  unfold AsyncOperations.Create. case_decide as Hl; [done|].
  intros (x & w2 & Hx & Hu)%bind_inv_ok.
  unfold try in Hx. destruct (Cosmos.Create _ _ _ _ w) as [[y|e| |] w3] eqn:Hc; try done; simplify_eq.
  - unfold unwrap, ret in Hu. simplify_eq/=.
    apply (Create_ok aoc async_retries) in Hc as (d' & Hst & -> & Hn & Hw); [|by constructor].
    apply stored_none in Hst as [m ->]. by exists m.
  - exfalso. destruct e; simpl in Hu; try case_decide; done.
Qed.

Lemma async_Patch_ok id f w r w' :
  (forall d w, asyncs (snd (f d w)) = asyncs w) ->
  (forall d wf d1 wf', f d wf = (Ok d1, wf') -> ad_ID d1 = ad_ID d) ->
  AsyncOperations.Patch ao id f w = (Ok r, w') ->
  exists d0 wf d1 wf' m, asyncs w !! id = Some d0 /\ f d0 wf = (Ok d1, wf') /\
    r = Some (d1 <| ad_Meta := m |>) /\ asyncs w' = <[id := d1 <| ad_Meta := m |>]> (asyncs w).
Proof.
  intros Hf Hid Hp. unfold AsyncOperations.Patch in Hp.
  eapply (patch_loop_ok _ id) in Hp as (d0 & w1 & d1 & w2 & Hd0 & Hw1 & Hr & Hw2 & Hu);
    [|intros w0 d w3 (x & w4 & Hg & [Hx ->]%lift_inv)%bind_inv_ok| | |done].
  - apply Hid in Hr as Hi.
    change (ad_ID d1) with (d_part d1) in Hu at 1.
    destruct (Replace_ok aoc async_retries d1 None w2 r w' ltac:(by constructor) Hu)
      as (k & old & d' & Hst & -> & Hk & Hio & _ & _ & Hw). simpl in *.
    apply stored_none in Hst as [m ->]. exists d0, w1, d1, w2, m. unfold same, asyncs in *.
    pose proof (store_key W AsyncOperationDocument aoc _ _ _ Hd0) as Hkey.
    pose proof (store_key W AsyncOperationDocument aoc _ _ _ Hk) as Hkey'. simpl in Hkey, Hkey'.
    rewrite Hw, <-Hkey', Hio, insert_delete_eq, Hi, Hkey, Hw2. done.
  - apply async_Get_ok in Hg as (d' & -> & Hd & _). simpl in Hx. by simplify_eq.
  - intros w0. unfold bind. pose proof (async_Get_same id w0) as Hs.
    by destruct (AsyncOperations.Get ao id w0) as [[]].
  - intros d w0 e w3 Hu He. destruct e as [|n code msg| | |]; try done.
    apply bool_decide_eq_true in He. by apply (Replace_412 aoc async_retries) in Hu as [? [Hq _]].
Qed.
End spec.
