(* ===== verification/External.v ===== *)
(** * The 2019-12-31-preview API (src/pkg/api/v20191231preview)

    The external representation of a cluster, its conversions to and from the
    internal one, the credentials view, and what the conversions keep. *)
From S2P Require Import Prelude GoStrings.
From S2P Require Import Api.

(** ** openshiftcluster.go: the external types, in a name space of their own *)
Module Ext.
Record ClusterProfile := mkClusterProfile { cp_Domain : string; cp_Version : string; cp_ResourceGroupID : string }.
Record ConsoleProfile := mkConsoleProfile { cons_URL : string }.
Record ServicePrincipalProfile := mkServicePrincipalProfile { spp_ClientID : string; spp_ClientSecret : string }.
Record NetworkProfile := mkNetworkProfile { np_PodCIDR : string; np_ServiceCIDR : string }.
Record MasterProfile := mkMasterProfile { mp_VMSize : VMSize; mp_SubnetID : string }.
Record WorkerProfile := mkWorkerProfile {
  wp_Name : string; wp_VMSize : VMSize; wp_DiskSizeGB : Z; wp_SubnetID : string; wp_Count : Z }.
Record APIServerProfile := mkAPIServerProfile { asp_Visibility : Visibility; asp_URL : string; asp_IP : string }.
Record IngressProfile := mkIngressProfile { ip_Name : string; ip_Visibility : Visibility; ip_IP : string }.
Record Properties := mkProperties {
  p_ProvisioningState : ProvisioningState;
  p_ClusterProfile : ClusterProfile;
  p_ConsoleProfile : ConsoleProfile;
  p_ServicePrincipalProfile : ServicePrincipalProfile;
  p_NetworkProfile : NetworkProfile;
  p_MasterProfile : MasterProfile;
  p_WorkerProfiles : option (list WorkerProfile);
  p_APIServerProfile : APIServerProfile;
  p_IngressProfiles : option (list IngressProfile);
}.
Record OpenShiftCluster := mkOpenShiftCluster {
  oc_ID : string;
  oc_Name : string;
  oc_Type : string;
  oc_Location : string;
  oc_Tags : option (gmap string string);
  oc_Properties : Properties;
}.
Record OpenShiftClusterList := mkOpenShiftClusterList { l_OpenShiftClusters : list OpenShiftCluster }.

(** openshiftclustercredentials.go *)
Record OpenShiftClusterCredentials := mkOpenShiftClusterCredentials {
  KubeadminUsername : string;
  KubeadminPassword : string;
}.
End Ext.

(** ** openshiftcluster_convert.go *)
Definition ToExternal_WorkerProfile (p : WorkerProfile) : Ext.WorkerProfile :=
  Ext.mkWorkerProfile (wp_Name p) (wp_VMSize p) (wp_DiskSizeGB p) (wp_SubnetID p) (wp_Count p).
Definition ToExternal_IngressProfile (p : IngressProfile) : Ext.IngressProfile :=
  Ext.mkIngressProfile (ip_Name p) (ip_Visibility p) (ip_IP p).

Definition ToExternal (oc : OpenShiftCluster) : Ext.OpenShiftCluster :=
  let p := oc_Properties oc in
  Ext.mkOpenShiftCluster (oc_ID oc) (oc_Name oc) (oc_Type oc) (oc_Location oc) (oc_Tags oc)
    (Ext.mkProperties (p_ProvisioningState p)
       (Ext.mkClusterProfile (cp_Domain (p_ClusterProfile p)) (cp_Version (p_ClusterProfile p))
          (cp_ResourceGroupID (p_ClusterProfile p)))
       (Ext.mkConsoleProfile (cons_URL (p_ConsoleProfile p)))
       (Ext.mkServicePrincipalProfile (spp_ClientID (p_ServicePrincipalProfile p))
          (spp_ClientSecret (p_ServicePrincipalProfile p)))
       (Ext.mkNetworkProfile (np_PodCIDR (p_NetworkProfile p)) (np_ServiceCIDR (p_NetworkProfile p)))
       (Ext.mkMasterProfile (mp_VMSize (p_MasterProfile p)) (mp_SubnetID (p_MasterProfile p)))
       (map ToExternal_WorkerProfile <$> p_WorkerProfiles p)
       (Ext.mkAPIServerProfile (asp_Visibility (p_APIServerProfile p)) (asp_URL (p_APIServerProfile p))
          (asp_IP (p_APIServerProfile p)))
       (map ToExternal_IngressProfile <$> p_IngressProfiles p)).

Definition ToExternalList (ocs : list OpenShiftCluster) : Ext.OpenShiftClusterList :=
  Ext.mkOpenShiftClusterList (map ToExternal ocs).

Definition no_missing : MissingFields := mkMissingFields None.

(** The profiles of a slice are made anew. *)
Definition ToInternal_WorkerProfile (p : Ext.WorkerProfile) : WorkerProfile :=
  mkWorkerProfile no_missing (Ext.wp_Name p) (Ext.wp_VMSize p) (Ext.wp_DiskSizeGB p)
    (Ext.wp_SubnetID p) (Ext.wp_Count p).
Definition ToInternal_IngressProfile (p : Ext.IngressProfile) : IngressProfile :=
  mkIngressProfile no_missing (Ext.ip_Name p) (Ext.ip_Visibility p) (Ext.ip_IP p).

Definition ToInternal_Properties (p : Ext.Properties) (out : Properties) : Properties :=
  out <| p_ProvisioningState := Ext.p_ProvisioningState p |>
      <| p_ClusterProfile -> cp_Domain := Ext.cp_Domain (Ext.p_ClusterProfile p) |>
      <| p_ClusterProfile -> cp_Version := Ext.cp_Version (Ext.p_ClusterProfile p) |>
      <| p_ClusterProfile -> cp_ResourceGroupID := Ext.cp_ResourceGroupID (Ext.p_ClusterProfile p) |>
      <| p_ConsoleProfile -> cons_URL := Ext.cons_URL (Ext.p_ConsoleProfile p) |>
      <| p_ServicePrincipalProfile -> spp_ClientID := Ext.spp_ClientID (Ext.p_ServicePrincipalProfile p) |>
      <| p_ServicePrincipalProfile -> spp_ClientSecret :=
           Ext.spp_ClientSecret (Ext.p_ServicePrincipalProfile p) |>
      <| p_NetworkProfile -> np_PodCIDR := Ext.np_PodCIDR (Ext.p_NetworkProfile p) |>
      <| p_NetworkProfile -> np_ServiceCIDR := Ext.np_ServiceCIDR (Ext.p_NetworkProfile p) |>
      <| p_MasterProfile -> mp_VMSize := Ext.mp_VMSize (Ext.p_MasterProfile p) |>
      <| p_MasterProfile -> mp_SubnetID := Ext.mp_SubnetID (Ext.p_MasterProfile p) |>
      <| p_WorkerProfiles := map ToInternal_WorkerProfile <$> Ext.p_WorkerProfiles p |>
      <| p_APIServerProfile -> asp_Visibility := Ext.asp_Visibility (Ext.p_APIServerProfile p) |>
      <| p_APIServerProfile -> asp_URL := Ext.asp_URL (Ext.p_APIServerProfile p) |>
      <| p_APIServerProfile -> asp_IP := Ext.asp_IP (Ext.p_APIServerProfile p) |>
      <| p_IngressProfiles := map ToInternal_IngressProfile <$> Ext.p_IngressProfiles p |>.

Definition ToInternal (oc : Ext.OpenShiftCluster) (out : OpenShiftCluster) : OpenShiftCluster :=
  out <| oc_ID := Ext.oc_ID oc |>
      <| oc_Name := Ext.oc_Name oc |>
      <| oc_Type := Ext.oc_Type oc |>
      <| oc_Location := Ext.oc_Location oc |>
      <| oc_Tags := Ext.oc_Tags oc |>
      <| oc_Properties ::= ToInternal_Properties (Ext.oc_Properties oc) |>.

(** ** openshiftclustercredentials_convert.go *)
Definition CredentialsToExternal (oc : OpenShiftCluster) : Ext.OpenShiftClusterCredentials :=
  Ext.mkOpenShiftClusterCredentials "kubeadmin" (p_KubeadminPassword (oc_Properties oc)).

(** The secret is left out of what a client is shown. *)
Definition blank_secret (oc : OpenShiftCluster) : OpenShiftCluster :=
  oc <| oc_Properties -> p_ServicePrincipalProfile -> spp_ClientSecret := EmptyString |>.

(** ** Lemmas *)
Lemma ToExternal_Workers (o : option (list Ext.WorkerProfile)) :
  map ToExternal_WorkerProfile <$> (map ToInternal_WorkerProfile <$> o) = o.
Proof.
  destruct o as [l|]; [|done]. simpl. f_equal. induction l as [|[] l IH]; simpl; [done|]. by f_equal.
Qed.

Lemma ToExternal_Ingresses (o : option (list Ext.IngressProfile)) :
  map ToExternal_IngressProfile <$> (map ToInternal_IngressProfile <$> o) = o.
Proof.
  destruct o as [l|]; [|done]. simpl. f_equal. induction l as [|[] l IH]; simpl; [done|]. by f_equal.
Qed.

(** The fields without an external counterpart *)
Definition unmapped (oc : OpenShiftCluster) :=
  let p := oc_Properties oc in
  (oc_MissingFields oc, p_MissingFields p, p_FailedProvisioningState p,
   cp_MissingFields (p_ClusterProfile p), cons_MissingFields (p_ConsoleProfile p),
   (spp_MissingFields (p_ServicePrincipalProfile p), spp_TenantID (p_ServicePrincipalProfile p)),
   (np_MissingFields (p_NetworkProfile p), np_PrivateEndpointIP (p_NetworkProfile p)),
   mp_MissingFields (p_MasterProfile p), asp_MissingFields (p_APIServerProfile p),
   (p_Install p, p_StorageSuffix p, p_SSHKey p, p_AdminKubeconfig p, p_KubeadminPassword p)).

Lemma ToExternal_ToInternal oc out : ToExternal (ToInternal oc out) = oc.
Proof.
  destruct oc as [i n t l tg [ps [] [] [] [] [] ws [] ig]], out as [? ? ? ? ? ? [? ? ? [] [] [] [] [] ? [] ? ? ? ? ? ?]].
  pose proof (ToExternal_Workers ws) as Hw. pose proof (ToExternal_Ingresses ig) as Hi.
  unfold ToExternal. simpl in *. unfold constant. by rewrite Hw, Hi.
Qed.

Lemma ToInternal_unmapped oc out : unmapped (ToInternal oc out) = unmapped out.
Proof. by destruct out as [? ? ? ? ? ? [? ? ? [] [] [] [] [] ? [] ? ? ? ? ? ?]]. Qed.

(** Two internal clusters with the same external view and the same unmapped
    fields are the same but for what the profiles of the slices do not map. *)
Lemma ToInternal_ToExternal oc :
  (default [] (p_WorkerProfiles (oc_Properties oc)) = [] \/
   Forall (fun p => wp_MissingFields p = no_missing) (default [] (p_WorkerProfiles (oc_Properties oc)))) ->
  (default [] (p_IngressProfiles (oc_Properties oc)) = [] \/
   Forall (fun p => ip_MissingFields p = no_missing) (default [] (p_IngressProfiles (oc_Properties oc)))) ->
  ToInternal (ToExternal oc) oc = oc.
Proof.
  destruct oc as [? ? ? ? ? ? [? ? ? [] [] [] [] [] ws [] ig ? ? ? ? ?]]. simpl. intros Hw Hi.
  assert (map ToInternal_WorkerProfile <$> (map ToExternal_WorkerProfile <$> ws) = ws) as Ew.
  { destruct ws as [ws|]; [|done]. simpl in *. f_equal. destruct Hw as [->|Hw]; [done|].
    induction Hw as [|[] l Hp Hl IH]; simpl in *; [done|]. subst. by f_equal. }
  assert (map ToInternal_IngressProfile <$> (map ToExternal_IngressProfile <$> ig) = ig) as Ei.
  { destruct ig as [ig|]; [|done]. simpl in *. f_equal. destruct Hi as [->|Hi]; [done|].
    induction Hi as [|[] l Hp Hl IH]; simpl in *; [done|]. subst. by f_equal. }
  unfold ToInternal, ToExternal, ToInternal_Properties. simpl in *. unfold constant. by rewrite Ew, Ei.
Qed.

Lemma blank_secret_ToExternal oc :
  Ext.spp_ClientSecret (Ext.p_ServicePrincipalProfile (Ext.oc_Properties (ToExternal (blank_secret oc))))
  = EmptyString.
Proof. by destruct oc as [? ? ? ? ? ? [? ? ? ? ? [] ? ? ? ? ? ? ? ? ? ?]]. Qed.
