(* ===== verification/Immutable.v ===== *)
(** * Immutable fields (src/pkg/util/immutable/immutable.go)

    [Validate] compares two values of a type by reflection, field by field,
    under the [mutable] tags of their structs. [value] is what reflection sees
    of a Go value: its type's name, its kind and its parts. *)
From S2P Require Import Prelude GoStrings.
From S2P Require Import Api External.
From Stdlib Require Import Ascii.

Record field := mkField { f_Name : string; f_json : string; f_mutable : string }.

Inductive value :=
| VBasic (ty : string) (z : Z)                      (* Bool, Int, Uint, Float, Complex *)
| VString (ty : string) (s : string)
| VSlice (ty : string) (l : option (list value))
| VArray (ty : string) (l : list value)
| VPtr (ty : string) (p : option value)             (* Ptr, Interface *)
| VMap (ty : string) (m : option (list (string * value)))
| VStruct (ty : string) (fs : list (field * value))
| VOther (ty kind : string).                        (* Chan, Func, UnsafePointer *)

Definition ty_of (v : value) : string :=
  match v with
  | VBasic ty _ | VString ty _ | VSlice ty _ | VArray ty _ | VPtr ty _ | VMap ty _
  | VStruct ty _ | VOther ty _ => ty
  end.

Definition validationError (path : string) : error :=
  NewCloudError StatusBadRequest CloudErrorCodePropertyChangeNotAllowed path
    ("Changing property '" +:+ path +:+ "' is not allowed.").
Definition reject (path : string) : res unit := Err (validationError path).

(** [path+"['"+Name+"']"] of a struct with a string field [Name], [path+"[i]"]
    otherwise *)
Definition index_path (path : string) (i : nat) (v : value) : string :=
  path +:+
  match v with
  | VStruct _ fs =>
      match list_find (fun fv => f_Name (fst fv) = "Name") fs with
      | Some (_, (_, VString _ s)) => "['" +:+ s +:+ "']"
      | _ => "[" +:+ Itoa (Z.of_nat i) +:+ "]"
      end
  | _ => "[" +:+ Itoa (Z.of_nat i) +:+ "]"
  end.

Definition sub_path (path : string) (f : field) : string :=
  let name := BeforeFirst "," (f_json f) in
  let name := if decide (name = EmptyString) then f_Name f else name in
  (if decide (path = EmptyString) then EmptyString else path +:+ ".") +:+ name.

Definition is_mutable (f : field) : bool := EqualFold (f_mutable f) "true".
Definition is_case (f : field) : bool := EqualFold (f_mutable f) "case".

(** The walk. A map is compared at the keys of [v]: a key that [w] does not have
    gives reflection's zero [Value], on which [Type] panics. *)
Fixpoint validate (path : string) (v w : value) (ignoreCase : bool) {struct v} : res unit :=
  if decide (ty_of v <> ty_of w) then reject path
  else
    match v, w with
    | VBasic _ x, VBasic _ y => if decide (x = y) then Ok tt else reject path
    | VString _ s, VString _ t =>
        if (if ignoreCase then EqualFold s t else bool_decide (s = t)) then Ok tt else reject path
    | VSlice _ None, VSlice _ None => Ok tt
    | VSlice _ (Some l), VSlice _ (Some m) | VArray _ l, VArray _ m =>
        if decide (length l <> length m) then reject path
        else (fix go (i : nat) (l m : list value) : res unit :=
                match l, m with
                | x :: l, y :: m =>
                    do? _ <- validate (index_path path i x) x y ignoreCase; go (S i) l m
                | _, _ => Ok tt
                end) 0 l m
    | VSlice _ _, VSlice _ _ => reject path
    | VPtr _ None, VPtr _ None => Ok tt
    | VPtr _ (Some x), VPtr _ (Some y) => validate path x y ignoreCase
    | VPtr _ _, VPtr _ _ => reject path
    | VMap _ None, VMap _ None => Ok tt
    | VMap _ (Some l), VMap _ (Some m) =>
        if decide (length l <> length m) then reject path
        else (fix go (l : list (string * value)) : res unit :=
                match l with
                | (k, x) :: l =>
                    do? _ <- match list_find (fun ky => fst ky = k) m with
                             | Some (_, (_, y)) =>
                                 validate (path +:+ "[" +:+ Quote k +:+ "]") x y ignoreCase
                             | None => Panic "reflect: call of reflect.Value.Type on zero Value"
                             end;
                    go l
                | [] => Ok tt
                end) l
    | VMap _ _, VMap _ _ => reject path
    | VStruct _ fs, VStruct _ gs =>
        (fix go (fs gs : list (field * value)) : res unit :=
           match fs, gs with
           | (f, x) :: fs, (_, y) :: gs =>
               do? _ <- (if is_mutable f then Ok tt
                         else validate (sub_path path f) x y (ignoreCase || is_case f));
               go fs gs
           | _, _ => Ok tt
           end) fs gs
    | _, _ => Err (ErrOther "unimplemented kind")
    end.

Definition Validate (path : string) (v w : value) : res unit := validate path v w false.

(** ** The external cluster, as reflection sees it: the tags of
    src/pkg/api/v20191231preview/openshiftcluster.go *)
Definition imm (n j : string) : field := mkField n j EmptyString.
Definition str (s : string) : value := VString "string" s.

Definition reflect_WorkerProfile (p : Ext.WorkerProfile) : value :=
  VStruct "WorkerProfile"
    [(imm "Name" "name,omitempty", str (Ext.wp_Name p));
     (imm "VMSize" "vmSize,omitempty", VString "VMSize" (Ext.wp_VMSize p));
     (imm "DiskSizeGB" "diskSizeGB,omitempty", VBasic "int" (Ext.wp_DiskSizeGB p));
     (imm "SubnetID" "subnetId,omitempty", str (Ext.wp_SubnetID p));
     (mkField "Count" "count,omitempty" "true", VBasic "int" (Ext.wp_Count p))].
Definition reflect_IngressProfile (p : Ext.IngressProfile) : value :=
  VStruct "IngressProfile"
    [(imm "Name" "name,omitempty", str (Ext.ip_Name p));
     (imm "Visibility" "visibility,omitempty", VString "Visibility" (Ext.ip_Visibility p));
     (imm "IP" "ip,omitempty", str (Ext.ip_IP p))].
Definition reflect_Properties (p : Ext.Properties) : value :=
  VStruct "Properties"
    [(imm "ProvisioningState" "provisioningState,omitempty",
        VString "ProvisioningState" (Ext.p_ProvisioningState p));
     (imm "ClusterProfile" "clusterProfile,omitempty",
        VStruct "ClusterProfile"
          [(imm "Domain" "domain,omitempty", str (Ext.cp_Domain (Ext.p_ClusterProfile p)));
           (imm "Version" "version,omitempty", str (Ext.cp_Version (Ext.p_ClusterProfile p)));
           (imm "ResourceGroupID" "resourceGroupId,omitempty",
              str (Ext.cp_ResourceGroupID (Ext.p_ClusterProfile p)))]);
     (imm "ConsoleProfile" "consoleProfile,omitempty",
        VStruct "ConsoleProfile" [(imm "URL" "url,omitempty", str (Ext.cons_URL (Ext.p_ConsoleProfile p)))]);
     (imm "ServicePrincipalProfile" "servicePrincipalProfile,omitempty",
        VStruct "ServicePrincipalProfile"
          [(imm "ClientID" "clientId,omitempty", str (Ext.spp_ClientID (Ext.p_ServicePrincipalProfile p)));
           (imm "ClientSecret" "clientSecret,omitempty",
              str (Ext.spp_ClientSecret (Ext.p_ServicePrincipalProfile p)))]);
     (imm "NetworkProfile" "networkProfile,omitempty",
        VStruct "NetworkProfile"
          [(imm "PodCIDR" "podCidr,omitempty", str (Ext.np_PodCIDR (Ext.p_NetworkProfile p)));
           (imm "ServiceCIDR" "serviceCidr,omitempty", str (Ext.np_ServiceCIDR (Ext.p_NetworkProfile p)))]);
     (imm "MasterProfile" "masterProfile,omitempty",
        VStruct "MasterProfile"
          [(imm "VMSize" "vmSize,omitempty", VString "VMSize" (Ext.mp_VMSize (Ext.p_MasterProfile p)));
           (imm "SubnetID" "subnetId,omitempty", str (Ext.mp_SubnetID (Ext.p_MasterProfile p)))]);
     (imm "WorkerProfiles" "workerProfiles,omitempty",
        VSlice "[]WorkerProfile" (map reflect_WorkerProfile <$> Ext.p_WorkerProfiles p));
     (imm "APIServerProfile" "apiserverProfile,omitempty",
        VStruct "APIServerProfile"
          [(imm "Visibility" "visibility,omitempty",
              VString "Visibility" (Ext.asp_Visibility (Ext.p_APIServerProfile p)));
           (imm "URL" "url,omitempty", str (Ext.asp_URL (Ext.p_APIServerProfile p)));
           (imm "IP" "ip,omitempty", str (Ext.asp_IP (Ext.p_APIServerProfile p)))]);
     (imm "IngressProfiles" "ingressProfiles,omitempty",
        VSlice "[]IngressProfile" (map reflect_IngressProfile <$> Ext.p_IngressProfiles p))].
Definition reflect_OpenShiftCluster (oc : Ext.OpenShiftCluster) : value :=
  VPtr "*OpenShiftCluster" (Some (VStruct "OpenShiftCluster"
    [(mkField "ID" "id,omitempty" "case", str (Ext.oc_ID oc));
     (mkField "Name" "name,omitempty" "case", str (Ext.oc_Name oc));
     (mkField "Type" "type,omitempty" "case", str (Ext.oc_Type oc));
     (imm "Location" "location,omitempty", str (Ext.oc_Location oc));
     (mkField "Tags" "tags,omitempty" "true",
        VMap "Tags" ((fun m => map (fun '(k, s) => (k, str s)) (map_to_list m)) <$> Ext.oc_Tags oc));
     (imm "Properties" "properties,omitempty", reflect_Properties (Ext.oc_Properties oc))])).

(** [validateDelta] *)
Definition validateDelta (oc current : Ext.OpenShiftCluster) : res unit :=
  Validate EmptyString (reflect_OpenShiftCluster oc) (reflect_OpenShiftCluster current).

(** ** What a change may do *)
Definition clear_Count (p : Ext.WorkerProfile) : Ext.WorkerProfile :=
  Ext.mkWorkerProfile (Ext.wp_Name p) (Ext.wp_VMSize p) (Ext.wp_DiskSizeGB p) (Ext.wp_SubnetID p) 0.
Definition clear_Counts (p : Ext.Properties) : Ext.Properties :=
  Ext.mkProperties (Ext.p_ProvisioningState p) (Ext.p_ClusterProfile p) (Ext.p_ConsoleProfile p)
    (Ext.p_ServicePrincipalProfile p) (Ext.p_NetworkProfile p) (Ext.p_MasterProfile p)
    (map clear_Count <$> Ext.p_WorkerProfiles p) (Ext.p_APIServerProfile p) (Ext.p_IngressProfiles p).

(** The identifiers may change case, the tags and the worker counts may change
    freely, nothing else may change. *)
Record allowed_delta (oc current : Ext.OpenShiftCluster) : Prop := {
  delta_ID : EqualFold (Ext.oc_ID oc) (Ext.oc_ID current) = true;
  delta_Name : EqualFold (Ext.oc_Name oc) (Ext.oc_Name current) = true;
  delta_Type : EqualFold (Ext.oc_Type oc) (Ext.oc_Type current) = true;
  delta_Location : Ext.oc_Location oc = Ext.oc_Location current;
  delta_Properties : clear_Counts (Ext.oc_Properties oc) = clear_Counts (Ext.oc_Properties current);
}.

(** ** The walk accepts exactly the allowed changes *)
Lemma validate_VString path ty s t ic :
  validate path (VString ty s) (VString ty t) ic = Ok tt <->
  if ic then EqualFold s t = true else s = t.
Proof.
  simpl. rewrite decide_False by (intros []; done).
  destruct ic; [|case_bool_decide; unfold reject; naive_solver].
  destruct (EqualFold s t); unfold reject; naive_solver.
Qed.

Lemma validate_VBasic path ty x y ic :
  validate path (VBasic ty x) (VBasic ty y) ic = Ok tt <-> x = y.
Proof.
  simpl. rewrite decide_False by (intros []; done). case_decide; unfold reject; naive_solver.
Qed.

Lemma validate_VPtr path ty x y ic :
  validate path (VPtr ty (Some x)) (VPtr ty (Some y)) ic = validate path x y ic.
Proof. cbn [validate ty_of]. by rewrite decide_False by (intros []; done). Qed.

Fixpoint fields_ok (path : string) (fs gs : list (field * value)) (ic : bool) : Prop :=
  match fs, gs with
  | (f, x) :: fs, (_, y) :: gs =>
      (if is_mutable f then True else validate (sub_path path f) x y (ic || is_case f) = Ok tt) /\
      fields_ok path fs gs ic
  | _, _ => True
  end.

Lemma validate_VStruct path ty fs gs ic :
  validate path (VStruct ty fs) (VStruct ty gs) ic = Ok tt <-> fields_ok path fs gs ic.
Proof.
  cbn [validate ty_of]. rewrite decide_False by (intros []; done).
  revert gs. induction fs as [|[f x] fs IH]; intros [|[g y] gs]; cbn [fields_ok]; [done..|].
  rewrite bind_unit_ok, IH. destruct (is_mutable f); [|done]. by split; intros [_ ?].
Qed.

Lemma validate_VSlice {A} (enc : A -> value) path ty (l m : option (list A)) ic :
  validate path (VSlice ty (map enc <$> l)) (VSlice ty (map enc <$> m)) ic = Ok tt <->
  match l, m with
  | None, None => True
  | Some l, Some m => length l = length m /\
      forall i x y, l !! i = Some x -> m !! i = Some y ->
        validate (index_path path i (enc x)) (enc x) (enc y) ic = Ok tt
  | _, _ => False
  end.
Proof.
  cbn [validate ty_of]. rewrite decide_False by (intros []; done).
  destruct l as [l|], m as [m|]; simpl; [|by split..].
  rewrite !length_map. case_decide as Hlen; [unfold reject; split; [done|tauto]|].
  set (go := fix go i l m := match l, m with x :: l, y :: m =>
    do? _ <- validate (index_path path i x) x y ic; go (S i) l m | _, _ => Ok tt end).
  assert (length l = length m) as Hl by lia. clear Hlen.
  assert (forall n, go n (map enc l) (map enc m) = Ok tt <->
    forall i x y, l !! i = Some x -> m !! i = Some y ->
      validate (index_path path (n + i) (enc x)) (enc x) (enc y) ic = Ok tt) as Hgo;
    [|rewrite (Hgo 0); tauto].
  revert m Hl. induction l as [|x l IH]; intros [|y m] Hl n; simpl in *; try done.
  rewrite bind_unit_ok, IH by lia. split.
  - intros [H1 H2] [|i] x' y'; simpl; intros; simplify_eq; [by rewrite Nat.add_0_r|].
    rewrite Nat.add_succ_r. by apply (H2 i).
  - intros H. split; [rewrite <-(Nat.add_0_r n); by apply (H 0)|].
    intros i x' y' ??. replace (S n + i) with (n + S i) by lia. by apply (H (S i)).
Qed.

Lemma imm_mutable n j : is_mutable (imm n j) = false.
Proof. done. Qed.
Lemma imm_case n j : is_case (imm n j) = false.
Proof. done. Qed.

Lemma validate_WorkerProfile path p q :
  validate path (reflect_WorkerProfile p) (reflect_WorkerProfile q) false = Ok tt <->
  clear_Count p = clear_Count q.
Proof.
  unfold reflect_WorkerProfile, str. rewrite validate_VStruct.
  cbn [fields_ok]. rewrite !imm_mutable, !imm_case.
  change (is_mutable (mkField "Count" "count,omitempty" "true")) with true.
  cbn [orb]. rewrite !validate_VString, validate_VBasic. unfold clear_Count.
  destruct p, q; simpl. naive_solver.
Qed.

Lemma validate_IngressProfile path p q :
  validate path (reflect_IngressProfile p) (reflect_IngressProfile q) false = Ok tt <-> p = q.
Proof.
  unfold reflect_IngressProfile, str. rewrite validate_VStruct.
  cbn [fields_ok]. rewrite !imm_mutable, !imm_case. cbn [orb]. rewrite !validate_VString.
  destruct p, q; simpl. naive_solver.
Qed.

Lemma slice_ok {A B} (enc : A -> value) (f : A -> B) path ty (l m : option (list A)) :
  (forall path x y, validate path (enc x) (enc y) false = Ok tt <-> f x = f y) ->
  validate path (VSlice ty (map enc <$> l)) (VSlice ty (map enc <$> m)) false = Ok tt <->
  map f <$> l = map f <$> m.
Proof.
  intros Hf. rewrite validate_VSlice. destruct l as [l|], m as [m|]; simpl; try (split; done).
  split.
  - intros [Hl H]. f_equal. apply list_eq_same_length with (length l);
      rewrite ?length_map; [done..|]. intros i x y Hi Hx Hy.
    rewrite list_lookup_fmap in Hx, Hy.
    apply fmap_Some_inv in Hx as (x' & Hx & ->), Hy as (y' & Hy & ->). eapply Hf, H; done.
  - intros [= H]. split.
    + by rewrite <-(length_map f l), H, length_map.
    + intros i x y Hx Hy. apply Hf.
      assert (map f l !! i = map f m !! i) as E by (by rewrite H).
      rewrite !list_lookup_fmap, Hx, Hy in E. simpl in E. congruence.
Qed.

Lemma validate_Properties path p q :
  validate path (reflect_Properties p) (reflect_Properties q) false = Ok tt <->
  clear_Counts p = clear_Counts q.
Proof.
  unfold reflect_Properties, str. rewrite validate_VStruct.
  cbn [fields_ok]. rewrite !imm_mutable, !imm_case. cbn [orb].
  rewrite !validate_VStruct. cbn [fields_ok]. rewrite !imm_mutable, !imm_case. cbn [orb].
  rewrite !validate_VString.
  rewrite (slice_ok reflect_WorkerProfile clear_Count) by (intros; apply validate_WorkerProfile).
  rewrite (slice_ok reflect_IngressProfile id) by (intros; apply validate_IngressProfile).
  assert (forall o : option (list Ext.IngressProfile), map id <$> o = o) as Hid.
  { intros [l|]; simpl; [|done]. by rewrite map_id. }
  rewrite !Hid. unfold clear_Counts.
  destruct p as [? [] [] [] [] [] ? [] ?], q as [? [] [] [] [] [] ? [] ?]; simpl. split; [intros; destruct_and?; congruence|]. intros Heq. injection Heq. intros. by split_and!.
Qed.

Lemma validateDelta_spec oc current :
  validateDelta oc current = Ok tt <-> allowed_delta oc current.
Proof.
  unfold validateDelta, Validate, reflect_OpenShiftCluster, str.
  rewrite validate_VPtr, validate_VStruct. cbn [fields_ok].
  rewrite !imm_mutable, !imm_case.
  repeat match goal with |- context [is_mutable (mkField ?a ?b ?c)] =>
    let v := eval vm_compute in (is_mutable (mkField a b c)) in
    change (is_mutable (mkField a b c)) with v end.
  repeat match goal with |- context [is_case (mkField ?a ?b ?c)] =>
    let v := eval vm_compute in (is_case (mkField a b c)) in
    change (is_case (mkField a b c)) with v end.
  cbn [orb]. rewrite !validate_VString, validate_Properties.
  split; [intros (?&?&?&?&_&?&_); by split|intros []; tauto].
Qed.
