(* ===== verification/Net.v ===== *)
(** * IP addresses and networks, as Go's [net] package reads them

    [ParseIP], [ParseCIDR], [To4] and [Mask.Size]: what the validators call. An
    address is its 4 or 16 bytes. *)
From S2P Require Import Prelude GoStrings.
From Stdlib Require Import Ascii.

Definition IP := list Z.
Definition v4InV6Prefix : list Z := [0; 0; 0; 0; 0; 0; 0; 0; 0; 0; 255; 255]%Z.
Definition IPv4 (a b c d : Z) : IP := v4InV6Prefix ++ [a; b; c; d].

Definition big : Z := 16777215.

(** Decimal and hexadecimal prefixes: the number, what follows it, whether there
    was one; too large a number is none. *)
Fixpoint dtoi_from (n : Z) (some : bool) (s : string) : option (Z * string) :=
  match s with
  | String c t =>
      match digit_of c with
      | Some d => let n := (n * 10 + d)%Z in if (big <=? n)%Z then None else dtoi_from n true t
      | None => if some then Some (n, s) else None
      end
  | EmptyString => if some then Some (n, s) else None
  end.
Definition dtoi (s : string) : option (Z * string) := dtoi_from 0 false s.

Definition hex_of (c : ascii) : option Z :=
  let n := Z.of_nat (nat_of_ascii c) in
  (if (48 <=? n) && (n <=? 57) then Some (n - 48)
   else if (97 <=? n) && (n <=? 102) then Some (n - 97 + 10)
   else if (65 <=? n) && (n <=? 70) then Some (n - 65 + 10)
   else None)%Z.
Fixpoint xtoi_from (n : Z) (some : bool) (s : string) : option (Z * string) :=
  match s with
  | String c t =>
      match hex_of c with
      | Some d => let n := (n * 16 + d)%Z in if (big <=? n)%Z then None else xtoi_from n true t
      | None => if some then Some (n, s) else None
      end
  | EmptyString => if some then Some (n, s) else None
  end.
Definition xtoi (s : string) : option (Z * string) := xtoi_from 0 false s.

Definition octet (s : string) : option (Z * string) :=
  match dtoi s with
  | Some (n, t) => if (255 <? n)%Z then None else Some (n, t)
  | None => None
  end.
Definition dot (s : string) : option string :=
  match s with String "." t => Some t | _ => None end.

Definition parseIPv4 (s : string) : option IP :=
  match octet s with Some (a, s) =>
  match dot s with Some s =>
  match octet s with Some (b, s) =>
  match dot s with Some s =>
  match octet s with Some (c, s) =>
  match dot s with Some s =>
  match octet s with Some (d, EmptyString) => Some (IPv4 a b c d)
  | _ => None end | _ => None end | _ => None end | _ => None end
  | _ => None end | _ => None end | _ => None end.

(** The groups of an IPv6 address from byte [length ip] on: at most eight.
    [ellipsis] is where "::" stood. *)
Fixpoint ipv6_groups (fuel : nat) (ip : list Z) (ellipsis : option nat) (s : string)
    : option (list Z * option nat * string) :=
  match fuel with
  | 0 => Some (ip, ellipsis, s)
  | S fuel =>
      if 16 <=? length ip then Some (ip, ellipsis, s)
      else
        match xtoi s with
        | None => None
        | Some (n, t) =>
            if (65535 <? n)%Z then None
            else
              match t with
              | String "." _ =>
                  if (match ellipsis with None => true | _ => false end) && negb (length ip =? 12) then None
                  else if 16 <? length ip + 4 then None
                  else match parseIPv4 s with
                       | Some v4 => Some (ip ++ drop 12 v4, ellipsis, EmptyString)
                       | None => None
                       end
              | EmptyString => Some (ip ++ [n / 256; n mod 256]%Z, ellipsis, EmptyString)
              | String c t =>
                  let ip := ip ++ [n / 256; n mod 256]%Z in
                  if negb (bool_decide (c = ":"%char)) then None
                  else match t with
                       | EmptyString => None
                       | String ":" u =>
                           match ellipsis with
                           | Some _ => None
                           | None => match u with
                                     | EmptyString => Some (ip, Some (length ip), EmptyString)
                                     | _ => ipv6_groups fuel ip (Some (length ip)) u
                                     end
                           end
                       | _ => ipv6_groups fuel ip ellipsis t
                       end
              end
        end
  end.

Definition parseIPv6 (s : string) : option IP :=
  match (match s with
         | String ":" (String ":" EmptyString) => Some ([], Some 0, EmptyString)
         | String ":" (String ":" t) => ipv6_groups 8 [] (Some 0) t
         | _ => ipv6_groups 8 [] None s
         end) with
  | Some (ip, ellipsis, EmptyString) =>
      if length ip <? 16 then
        match ellipsis with
        | None => None
        | Some e => Some (take e ip ++ replicate (16 - length ip) 0%Z ++ drop e ip)
        end
      else match ellipsis with None => Some ip | Some _ => None end
  | _ => None
  end.

(** The first of '.' and ':' decides. *)
Fixpoint first_sep (s : string) : option ascii :=
  match s with
  | EmptyString => None
  | String c s => if decide (c = "."%char \/ c = ":"%char) then Some c else first_sep s
  end.
Definition ParseIP (s : string) : option IP :=
  match first_sep s with
  | Some "."%char => parseIPv4 s
  | Some _ => parseIPv6 s
  | None => None
  end.

Definition To4 (ip : IP) : option IP :=
  if length ip =? 4 then Some ip
  else if (length ip =? 16) && bool_decide (take 12 ip = v4InV6Prefix) then Some (drop 12 ip)
  else None.

(** A network: the masked address, the number of ones and of bits of the mask *)
Record IPNet := mkIPNet { n_IP : IP; n_ones : Z; n_bits : Z }.

(** The [i]th byte of a mask of [n] ones *)
Definition mask_byte (n : Z) (i : nat) : Z :=
  let k := (n - 8 * Z.of_nat i)%Z in
  (if 8 <=? k then 255 else if k <=? 0 then 0 else 256 - 2 ^ (8 - k))%Z.
Definition mask_ip (n : Z) (ip : list Z) : list Z := imap (fun i b => Z.land b (mask_byte n i)) ip.

Definition ParseCIDR (s : string) : res (IP * IPNet) :=
  let bad := Err (ErrOther ("invalid CIDR address: " +:+ s)) in
  let i := IndexByte s "/" in
  if (i <? 0)%Z then bad
  else
    let addr := String.substring 0 (Z.to_nat i) s in
    let mask := String.substring (Z.to_nat i + 1) (String.length s - (Z.to_nat i + 1)) s in
    let '(v4, ip) := match parseIPv4 addr with
                     | Some ip => (true, Some ip)
                     | None => (false, parseIPv6 addr)
                     end in
    match ip, dtoi mask with
    | Some ip, Some (n, EmptyString) =>
        let bits := (if v4 then 32 else 128)%Z in
        if (bits <? n)%Z then bad
        else Ok (ip, mkIPNet (mask_ip n (if v4 then drop 12 ip else ip)) n bits)
    | _, _ => bad
    end.

Example ParseCIDR_v4 :
  ParseCIDR "10.128.5.7/14" = Ok (IPv4 10 128 5 7, mkIPNet [10; 128; 0; 0]%Z 14 32).
Proof. vm_compute. reflexivity. Qed.
Example ParseCIDR_v6 :
  ParseCIDR "2001:db8::1/33"
  = Ok ([32; 1; 13; 184; 0; 0; 0; 0; 0; 0; 0; 0; 0; 0; 0; 1]%Z,
        mkIPNet [32; 1; 13; 184; 0; 0; 0; 0; 0; 0; 0; 0; 0; 0; 0; 0]%Z 33 128).
Proof. vm_compute. reflexivity. Qed.
Example ParseIP_ex :
  ParseIP "::ffff:1.2.3.4" = Some (IPv4 1 2 3 4) /\ ParseIP "1.2.3" = None /\ ParseIP "1::2::3" = None.
Proof. by vm_compute. Qed.

(** ** Lemmas *)
Lemma dtoi_from_nonneg n b s m t : (0 <= n)%Z -> dtoi_from n b s = Some (m, t) -> (0 <= m)%Z.
Proof.
  revert n b. induction s as [|c s IH]; intros n b Hn H; simpl in H.
  - destruct b; simplify_eq; done.
  - destruct (digit_of c) as [d|] eqn:Ed; [|destruct b; simplify_eq; done].
    destruct (Z.leb_spec big (n * 10 + d)); [done|]. eapply IH; [|done].
    unfold digit_of in Ed. destruct (_ && _)%bool eqn:E in Ed; [|done]. simplify_eq.
    apply andb_true_iff in E as [E%Z.leb_le _]. lia.
Qed.

Lemma parseIPv4_form s ip : parseIPv4 s = Some ip -> exists a b c d, ip = IPv4 a b c d.
Proof. unfold parseIPv4. intros H. repeat case_match; simplify_eq. eauto. Qed.

Lemma mask_ip_lookup n ip i : mask_ip n ip !! i = (fun b => Z.land b (mask_byte n i)) <$> ip !! i.
Proof. unfold mask_ip. by rewrite list_lookup_imap. Qed.

Lemma mask_ip_length n ip : length (mask_ip n ip) = length ip.
Proof. unfold mask_ip. apply length_imap. Qed.

(** A network the parser accepts has a prefix length within its address. *)
Lemma ParseCIDR_ones s ip net :
  ParseCIDR s = Ok (ip, net) -> (0 <= n_ones net <= n_bits net)%Z /\ (n_bits net = 32 \/ n_bits net = 128)%Z.
Proof.
  unfold ParseCIDR. intros H. destruct (_ <? 0)%Z; [done|].
  destruct (match parseIPv4 _ with Some _ => _ | None => _ end) as [v4 [ip'|]]; [|done].
  destruct (dtoi _) as [[n [|]]|] eqn:Ed; try done.
  destruct (Z.ltb_spec (if v4 then 32 else 128) n); [done|]. simplify_eq/=.
  apply dtoi_from_nonneg in Ed; [|done]. split; [lia|]. destruct v4; auto.
Qed.

Lemma parseIPv6_length s ip : parseIPv6 s = Some ip -> 16 <= length ip.
Proof.
  unfold parseIPv6. intros H.
  match type of H with match ?x with _ => _ end = _ => destruct x as [ [ [ip0 e] [ | ? ? ] ] | ]; [ |done..] end.
  destruct (Nat.ltb_spec (length ip0) 16); destruct e as [e|]; simplify_eq; [|done].
  rewrite !length_app, length_replicate, length_take, length_drop. lia.
Qed.

Lemma mask_byte_even n i : (n <= 8 * Z.of_nat i + 7)%Z -> Z.testbit (mask_byte n i) 0 = false.
Proof.
  intros Hn. unfold mask_byte. set (k := (n - 8 * Z.of_nat i)%Z).
  destruct (Z.leb_spec 8 k); [lia|]. destruct (Z.leb_spec k 0); [done|].
  assert (k = 1 \/ k = 2 \/ k = 3 \/ k = 4 \/ k = 5 \/ k = 6 \/ k = 7)%Z as Hk by lia.
  by destruct Hk as [-> | [-> | [-> | [-> | [-> | [-> | ->]]]]]].
Qed.

(** A network whose masked address is an IPv4 address, and whose prefix has
    less than 96 bits, was written in IPv4. *)
Lemma ParseCIDR_v4_net s ip net :
  ParseCIDR s = Ok (ip, net) -> is_Some (To4 (n_IP net)) -> (n_ones net <= 95)%Z ->
  n_bits net = 32%Z /\ length (n_IP net) = 4.
Proof.
  unfold ParseCIDR. intros H. destruct (_ <? 0)%Z; [done|].
  destruct (parseIPv4 _) as [ip4|] eqn:E4.
  - destruct (dtoi _) as [[n [|]]|] eqn:Ed; try done. destruct (32 <? n)%Z; [done|].
    simplify_eq. intros _ _. apply parseIPv4_form in E4 as (a & b & c & d & ->). done.
  - destruct (parseIPv6 _) as [ip6|] eqn:E6; [|done].
    destruct (dtoi _) as [[n [|]]|] eqn:Ed; try done. destruct (128 <? n)%Z; [done|].
    simplify_eq. cbn [n_IP n_ones n_bits]. apply parseIPv6_length in E6.
    unfold To4. rewrite mask_ip_length. intros H4 Hn. exfalso.
    destruct (Nat.eqb_spec (length ip) 4); [lia|].
    destruct ((length ip =? 16) && _) eqn:Hb; [|by destruct H4].
    apply andb_true_iff in Hb as [_ Hp%bool_decide_eq_true].
    assert (mask_ip n ip !! 11 = Some 255%Z) as Hl.
    { rewrite <-(lookup_take_lt _ 12) by lia. by rewrite Hp. }
    rewrite mask_ip_lookup in Hl. apply fmap_Some_inv in Hl as (b & _ & Hl).
    apply (f_equal (fun z => Z.testbit z 0)) in Hl. rewrite Z.land_spec, mask_byte_even in Hl by lia.
    rewrite andb_false_r in Hl. done.
Qed.
