(* ===== verification/Services.v ===== *)
(** * The environment and the Azure services (src/pkg/env, src/pkg/util/azureclient)

    The interfaces through which the program reaches Azure: one class per
    service, with the operations the program calls and the parts of their
    resources it looks at. Nothing is assumed of them here. *)
From S2P Require Import Prelude.

(** [env.Interface] *)
Class Env := {
  env_Location : string;
  env_ResourceGroup : string;
  env_SubscriptionID : string;
  env_TenantID : string;
  env_Domain : string;
  env_isDev : bool;
}.

(** A token source: the tenant it was asked for and the identity it stands for *)
Inductive Authorizer :=
| FirstParty (tenantID : string)
| ServicePrincipal (tenantID clientID : string).

(** [azure.PublicCloud] *)
Definition ResourceManagerEndpoint : string := "https://management.azure.com/".

Class Auth (W : Type) := {
  env_FPAuthorizer : string -> string -> M W Authorizer;
}.

(** ** Subnets (network 2019-07-01) *)
Record ServiceEndpoint := mkServiceEndpoint {
  se_Service : option string;
  se_ProvisioningState : string;
}.
Record NSGRef := mkNSGRef { nsg_ID : option string }.
Record SubnetPropertiesFormat := mkSubnetPropertiesFormat {
  spf_AddressPrefix : option string;
  spf_NetworkSecurityGroup : option NSGRef;
  spf_ServiceEndpoints : option (list ServiceEndpoint);
  spf_PrivateLinkServiceNetworkPolicies : option string;
}.
Record Subnet := mkSubnet {
  sn_ID : option string;
  sn_SubnetPropertiesFormat : option SubnetPropertiesFormat;
}.

Class SubnetsClient (W : Type) := {
  subnets_Get : string -> Authorizer -> string -> string -> string -> M W Subnet;
  subnets_CreateOrUpdateAndWait :
    string -> Authorizer -> string -> string -> string -> Subnet -> M W unit;
}.

(** ** DNS record sets (dns 2018-05-01) *)
Record RecordSet := mkRecordSet {
  rs_Etag : option string;
  rs_Metadata : gmap string (option string);
  rs_TTL : option Z;
  rs_ARecords : option (list string);
}.
Class RecordSetsClient (W : Type) := {
  recordsets_Get : string -> string -> string -> M W RecordSet;
  recordsets_CreateOrUpdate : string -> string -> string -> RecordSet -> string -> string -> M W unit;
  recordsets_Delete : string -> string -> string -> string -> M W unit;
}.

(** ** Private endpoints (network 2019-07-01) *)
Record PrivateEndpoint := mkPrivateEndpoint {
  pe_SubnetID : string;
  pe_ConnectionName : string;
  pe_PrivateLinkServiceID : string;
  pe_Location : string;
}.
(** The network interfaces of an endpoint that was read, and the private
    addresses of their configurations *)
Class PrivateEndpointsClient (W : Type) := {
  privateendpoints_CreateOrUpdateAndWait : string -> string -> PrivateEndpoint -> M W unit;
  privateendpoints_DeleteAndWait : string -> string -> M W unit;
  privateendpoints_Get : string -> string -> string -> M W (option (list (option (list (option string)))));
}.

(** ** Resource groups *)
Class GroupsClient (W : Type) := {
  groups_DeleteAndWait : string -> Authorizer -> string -> M W unit;
}.

(** ** Permissions (authorization 2015-07-01) *)
Record Permission := mkPermission {
  pm_Actions : option (list string);
  pm_NotActions : option (list string);
}.
Class PermissionsClient (W : Type) := {
  permissions_ListForResource :
    string -> Authorizer -> string -> string -> string -> string -> M W (list Permission);
}.

(** [detailedErr.StatusCode] *)
Definition is_detailed (e : error) (statusCode : Z) : bool :=
  match e with ErrDetailed n _ => bool_decide (n = statusCode) | _ => false end.

(** ** net/url: whether a string parses, and the URL with its path replaced *)
Class Url := {
  url_Parse_ok : string -> bool;
  url_with_path : string -> string -> string;
}.
