(* ===== verification/Subnets.v ===== *)
(** * Linked subnets, DNS records and private endpoints (src/pkg/util) *)
From S2P Require Import Prelude GoStrings.
From S2P Require Import Azure Api Services.
From Stdlib Require Import Ascii.

(** ** subnet/subnet.go *)
Module Subnets.

(** The vnet's id and the subnet's name *)
Definition Split (subnetID : string) : res (string * string) :=
  let parts := GoStrings.Split subnetID in
  if decide (length parts <> 11)
  then Err (ErrOther ("subnet ID " +:+ Quote subnetID +:+ " has incorrect length"))
  else
    do? name <- index parts (length parts - 1);
    Ok (Join (take (length parts - 2) parts), name).

Definition NetworkSecurityGroupID (oc : OpenShiftCluster) (subnetID : string) : res string :=
  let p := oc_Properties oc in
  if EqualFold subnetID (mp_SubnetID (p_MasterProfile p)) then
    Ok (cp_ResourceGroupID (p_ClusterProfile p) +:+
        "/providers/Microsoft.Network/networkSecurityGroups/aro-controlplane-nsg")
  else
    do? wp <- index (elems (p_WorkerProfiles p)) 0;
    if EqualFold subnetID (wp_SubnetID wp) then
      Ok (cp_ResourceGroupID (p_ClusterProfile p) +:+
          "/providers/Microsoft.Network/networkSecurityGroups/aro-node-nsg")
    else Err (ErrOther ("unknown subnetID " +:+ Quote subnetID)).

(** A manager: the subscription and the credentials of its client *)
Record manager := mkManager { m_SubscriptionID : string; m_Authorizer : Authorizer }.
Definition NewManager (subscriptionID : string) (spAuthorizer : Authorizer) : manager :=
  mkManager subscriptionID spAuthorizer.

Section ops.
Context {W : Type} `{!SubnetsClient W}.

Definition Get (m : manager) (subnetID : string) : M W Subnet :=
  do! '(vnetID, subnetName) <- lift (Split subnetID);
  do! r <- lift (ParseResourceID vnetID);
  subnets_Get (m_SubscriptionID m) (m_Authorizer m) (r_ResourceGroup r) (r_ResourceName r) subnetName.

Definition CreateOrUpdate (m : manager) (subnetID : string) (s : Subnet) : M W unit :=
  do! '(vnetID, subnetName) <- lift (Split subnetID);
  do! r <- lift (ParseResourceID vnetID);
  subnets_CreateOrUpdateAndWait (m_SubscriptionID m) (m_Authorizer m) (r_ResourceGroup r)
    (r_ResourceName r) subnetName s.
End ops.

(** On a canonical subnet id the two parts are the vnet and the name, and
    nothing of the id is lost but the word between them. *)
Lemma Split_join parts :
  length parts = 11 -> Forall (fun s => ContainsRune s slash = false) parts ->
  exists name, parts !! 10 = Some name /\ Split (Join parts) = Ok (Join (take 9 parts), name).
Proof.
  intros Hl Hp. destruct (lookup_lt_is_Some_2 parts 10) as [name Hn]; [lia|].
  exists name. split; [done|]. unfold Split, GoStrings.Split, Join.
  rewrite SplitChar_JoinChar; [|by intros ->|done].
  rewrite decide_False by lia. rewrite Hl. unfold index. simpl Nat.sub. by rewrite Hn.
Qed.

Lemma Split_inv subnetID vnetID name :
  Split subnetID = Ok (vnetID, name) ->
  exists parts word, subnetID = Join (parts ++ [word; name]) /\ vnetID = Join parts /\ length parts = 9.
Proof.
  unfold Split. case_decide as Hl; [done|]. intros H.
  assert (length (GoStrings.Split subnetID) = 11) as Hl' by lia. clear Hl.
  pose proof (JoinChar_SplitChar slash subnetID) as Hj. unfold GoStrings.Split in *.
  set (parts := SplitChar slash subnetID) in *. rewrite Hl' in H. simpl in H. unfold index in H.
  destruct (parts !! 10) as [n|] eqn:Hn; [|done]. simpl in H. simplify_eq.
  destruct (lookup_lt_is_Some_2 parts 9) as [word Hw]; [lia|].
  exists (take 9 parts), word. split_and!; [|done|rewrite length_take; lia].
  rewrite <-Hj. unfold Join. f_equal.
  rewrite <-(take_drop 9 parts) at 1. f_equal.
  rewrite (drop_S _ _ _ Hw), (drop_S _ _ _ Hn). by rewrite drop_ge by lia.
Qed.
End Subnets.

(** ** dns/dns.go *)
Module Dns.
Definition resourceID : string := "resourceId".

Section ops.
Context {W : Type} `{!RecordSetsClient W, !Env}.

(** The domain under the program's own one, or nothing for a foreign domain *)
Definition managedDomain (domain : string) : string :=
  let domain := TrimSuffix domain ("." +:+ env_Domain) in
  if negb (ContainsRune domain ".") then domain else EmptyString.

(** [rs.Metadata[resourceID] == nil || *rs.Metadata[resourceID] != oc.ID] *)
Definition owned_by_other (rs : RecordSet) (oc : OpenShiftCluster) : bool :=
  match rs_Metadata rs !! resourceID with
  | Some (Some id) => negb (bool_decide (id = oc_ID oc))
  | _ => true
  end.

Definition createOrUpdate (oc : OpenShiftCluster) (ip ifMatch ifNoneMatch : string) : M W unit :=
  let managedDomain := managedDomain (cp_Domain (p_ClusterProfile (oc_Properties oc))) in
  if decide (managedDomain = EmptyString) then ret tt
  else
    let rs := mkRecordSet None {[ resourceID := Some (oc_ID oc) ]} (Some 300%Z)
                (if decide (ip = EmptyString) then None else Some [ip]) in
    recordsets_CreateOrUpdate env_ResourceGroup env_Domain ("api." +:+ managedDomain) rs ifMatch ifNoneMatch.

Definition already_registered (managedDomain : string) : error :=
  ErrOther ("recordset " +:+ Quote ("api." +:+ managedDomain) +:+ " already registered").

Definition Create (oc : OpenShiftCluster) : M W unit :=
  let managedDomain := managedDomain (cp_Domain (p_ClusterProfile (oc_Properties oc))) in
  if decide (managedDomain = EmptyString) then ret tt
  else
    do! rs <- try (recordsets_Get env_ResourceGroup env_Domain ("api." +:+ managedDomain));
    match rs with
    | inl rs => if owned_by_other rs oc then throw (already_registered managedDomain) else ret tt
    | inr e =>
        if is_detailed e StatusNotFound then createOrUpdate oc EmptyString EmptyString "*" else throw e
    end.

Definition Update (oc : OpenShiftCluster) (ip : string) : M W unit :=
  let managedDomain := managedDomain (cp_Domain (p_ClusterProfile (oc_Properties oc))) in
  if decide (managedDomain = EmptyString) then ret tt
  else
    do! rs <- recordsets_Get env_ResourceGroup env_Domain ("api." +:+ managedDomain);
    if owned_by_other rs oc then throw (already_registered managedDomain)
    else
      do! etag <- lift (deref (rs_Etag rs));
      createOrUpdate oc ip etag EmptyString.

Definition CreateOrUpdateRouter (oc : OpenShiftCluster) (routerIP : string) : M W unit :=
  let managedDomain := managedDomain (cp_Domain (p_ClusterProfile (oc_Properties oc))) in
  if decide (managedDomain = EmptyString) then ret tt
  else
    recordsets_CreateOrUpdate env_ResourceGroup env_Domain ("*.apps." +:+ managedDomain)
      (mkRecordSet None ∅ (Some 300%Z) (Some [routerIP])) EmptyString EmptyString.

Definition Delete (oc : OpenShiftCluster) : M W unit :=
  let managedDomain := managedDomain (cp_Domain (p_ClusterProfile (oc_Properties oc))) in
  if decide (managedDomain = EmptyString) then ret tt
  else
    do! r <- try (recordsets_Get env_ResourceGroup env_Domain ("api." +:+ managedDomain));
    match r with
    | inr e => if is_detailed e StatusNotFound then ret tt else throw e
    | inl rs =>
        if owned_by_other rs oc then ret tt
        else
          do! _ <- recordsets_Delete env_ResourceGroup env_Domain ("*.apps." +:+ managedDomain) EmptyString;
          do! etag <- lift (deref (rs_Etag rs));
          recordsets_Delete env_ResourceGroup env_Domain ("api." +:+ managedDomain) etag
    end.
End ops.
End Dns.

(** ** privateendpoint/privateendpoint.go *)
Module PrivateEndpoints.
Definition prefix : string := "rp-pe-".

Section ops.
Context {W : Type} `{!PrivateEndpointsClient W, !Env}.

Definition Create (doc : OpenShiftClusterDocument) : M W unit :=
  do! oc <- lift (deref (ocd_OpenShiftCluster doc));
  privateendpoints_CreateOrUpdateAndWait env_ResourceGroup (prefix +:+ ocd_ID doc)
    (mkPrivateEndpoint
       ("/subscriptions/" +:+ env_SubscriptionID +:+ "/resourceGroups/" +:+ env_ResourceGroup +:+
        "/providers/Microsoft.Network/virtualNetworks/rp-vnet/subnets/rp-pe-subnet")
       "rp-plsconnection"
       (cp_ResourceGroupID (p_ClusterProfile (oc_Properties oc)) +:+
        "/providers/Microsoft.Network/privateLinkServices/aro-pls")
       (oc_Location oc)).

Definition Delete (doc : OpenShiftClusterDocument) : M W unit :=
  privateendpoints_DeleteAndWait env_ResourceGroup (prefix +:+ ocd_ID doc).

(** An error of the service is dropped: the address is then empty. *)
Definition GetIP (doc : OpenShiftClusterDocument) : M W string :=
  do! pe <- try (privateendpoints_Get env_ResourceGroup (prefix +:+ ocd_ID doc) "networkInterfaces");
  match pe with
  | inr _ => ret EmptyString
  | inl interfaces =>
      do! interfaces <- lift (deref interfaces);
      do! configurations <- lift (index interfaces 0);
      do! configurations <- lift (deref configurations);
      do! ip <- lift (index configurations 0);
      lift (deref ip)
  end.
End ops.
End PrivateEndpoints.
