(* ===== verification/Static.v ===== *)
(** * Static validation (src/pkg/api/v20191231preview/openshiftcluster_validatestatic.go) *)
From S2P Require Import Prelude GoStrings.
From S2P Require Import Regex Azure Api External Immutable Net Services Subnets.
From Stdlib Require Import Ascii.

Definition resourceProviderNamespace : string := "Microsoft.RedHatOpenShift".
Definition resourceType : string := "openShiftClusters".
Definition clusterVersion : string := "4.3.0-0.nightly-2019-12-05-001549".

(** ** The patterns *)
Definition hexdigit : regex := Chr (fold_class (fun c => is_digit c || in_range "a" "f" c)).
Definition rg_char : regex := Chr (fold_class (fun c => is_lower c || is_digit c || one_of "-_()." c)).
Definition rg_last : regex := Chr (fold_class (fun c => is_lower c || is_digit c || one_of "-_()" c)).
Definition name_char : regex := Chr (fold_class (fun c => is_lower c || is_digit c || one_of "-_." c)).

Fixpoint seqs (l : list regex) : regex :=
  match l with [] => Eps | [r] => r | r :: l => Seq r (seqs l) end.

Definition rx_subscription : list regex :=
  [lit_i "/subscriptions/"; times 8 hexdigit; lit_i "-"; times 4 hexdigit; lit_i "-"; times 4 hexdigit;
   lit_i "-"; times 4 hexdigit; lit_i "-"; times 12 hexdigit].
Definition rx_group : list regex := [lit_i "/resourceGroups/"; upto 89 rg_char; rg_last].

Definition rxResourceGroupID : regex := seqs (rx_subscription ++ rx_group).
Definition rxSubnetID : regex :=
  seqs (rx_subscription ++ rx_group ++
    [lit_i "/providers/Microsoft.Network/virtualNetworks/"; between 2 64 name_char;
     lit_i "/subnets/"; between 2 80 name_char]).

Definition alnum : regex := Chr (fun c => is_lower c || is_digit c).
Definition alnum_dash : regex := Chr (fun c => is_lower c || is_digit c || one_of "-" c).
Definition rx_label : regex := Alt alnum (seqs [alnum; upto 61 alnum_dash; alnum]).
Definition rxDomainName : regex := Seq rx_label (Star (Seq (chr ".") rx_label)).

(** ** The validator *)
Record openShiftClusterStaticValidator := mkStaticValidator {
  sv_location : string;
  sv_resourceID : string;
  sv_r : Resource;
}.

Definition invalid (code target message : string) : res unit :=
  Err (NewCloudError StatusBadRequest code target message).
Definition invalid_parameter := invalid CloudErrorCodeInvalidParameter.

(** [if !ok { return err }] *)
Definition guard (ok : bool) (e : res unit) (k : res unit) : res unit := if ok then k else e.

Definition provided (what value rest : string) : string :=
  "The provided " +:+ what +:+ " '" +:+ value +:+ "' " +:+ rest.

Section validator.
Context `{!Url}.
Implicit Types (sv : openShiftClusterStaticValidator) (path : string).

Definition validateClusterProfile sv path (cp : Ext.ClusterProfile) : res unit :=
  guard (MatchString rxDomainName (Ext.cp_Domain cp))
    (invalid_parameter (path +:+ ".domain") (provided "domain" (Ext.cp_Domain cp) "is invalid.")) (
  guard (bool_decide (Ext.cp_Version cp = EmptyString) || bool_decide (Ext.cp_Version cp = clusterVersion))
    (invalid_parameter (path +:+ ".version") (provided "version" (Ext.cp_Version cp) "is invalid.")) (
  guard (MatchString rxResourceGroupID (Ext.cp_ResourceGroupID cp))
    (invalid_parameter (path +:+ ".resourceGroupId")
       (provided "resource group" (Ext.cp_ResourceGroupID cp) "is invalid.")) (
  do? sub <- index (GoStrings.Split (Ext.cp_ResourceGroupID cp)) 2;
  guard (bool_decide (sub = r_SubscriptionID (sv_r sv)))
    (invalid_parameter (path +:+ ".resourceGroupId")
       (provided "resource group" (Ext.cp_ResourceGroupID cp)
          "is invalid: must be in same subscription as cluster."))
    (Ok tt)))).

Definition validateConsoleProfile path (cp : Ext.ConsoleProfile) : res unit :=
  if negb (bool_decide (Ext.cons_URL cp = EmptyString)) then
    guard (url_Parse_ok (Ext.cons_URL cp))
      (invalid_parameter (path +:+ ".url") (provided "console URL" (Ext.cons_URL cp) "is invalid."))
      (Ok tt)
  else Ok tt.

Definition validateServicePrincipalProfile path (spp : Ext.ServicePrincipalProfile) : res unit :=
  guard (is_ok (FromString (Ext.spp_ClientID spp)))
    (invalid_parameter (path +:+ ".clientId") (provided "client ID" (Ext.spp_ClientID spp) "is invalid.")) (
  guard (negb (bool_decide (Ext.spp_ClientSecret spp = EmptyString)))
    (invalid_parameter (path +:+ ".clientSecret") "The provided client secret is invalid.")
    (Ok tt)).

(** One network of the profile: IPv4, at most [max] ones *)
Definition validateCIDR path (what cidr : string) (max : Z) : res unit :=
  match ParseCIDR cidr with
  | Ok (_, net) =>
      guard (bool_decide (is_Some (To4 (n_IP net))))
        (invalid_parameter path (provided (what +:+ " CIDR") cidr "is invalid: must be IPv4.")) (
      guard (n_ones net <=? max)%Z
        (invalid_parameter path
           (provided "vnet CIDR" cidr ("is invalid: must be /" +:+ Itoa max +:+ " or larger.")))
        (Ok tt))
  | Err e =>
      invalid_parameter path (provided (what +:+ " CIDR") cidr ("is invalid: '" +:+ Error_string e +:+ "'."))
  | Panic s => Panic s
  | OutOfFuel => OutOfFuel
  end.

Definition validateNetworkProfile path (np : Ext.NetworkProfile) : res unit :=
  do? _ <- validateCIDR (path +:+ ".podCidr") "pod" (Ext.np_PodCIDR np) 18;
  validateCIDR (path +:+ ".serviceCidr") "service" (Ext.np_ServiceCIDR np) 22.

Definition validateMasterProfile sv path (mp : Ext.MasterProfile) : res unit :=
  guard (bool_decide (Ext.mp_VMSize mp = VMSizeStandardD8sV3))
    (invalid_parameter (path +:+ ".vmSize") (provided "master VM size" (Ext.mp_VMSize mp) "is invalid.")) (
  guard (MatchString rxSubnetID (Ext.mp_SubnetID mp))
    (invalid_parameter (path +:+ ".subnetId") (provided "master VM subnet" (Ext.mp_SubnetID mp) "is invalid.")) (
  do? sr <- ParseResourceID (Ext.mp_SubnetID mp);
  guard (bool_decide (r_SubscriptionID sr = r_SubscriptionID (sv_r sv)))
    (invalid_parameter (path +:+ ".subnetId")
       (provided "master VM subnet" (Ext.mp_SubnetID mp)
          "is invalid: must be in same subscription as cluster."))
    (Ok tt))).

Definition validateWorkerProfile path (wp : Ext.WorkerProfile) (mp : Ext.MasterProfile) : res unit :=
  guard (bool_decide (Ext.wp_Name wp = "worker"))
    (invalid_parameter (path +:+ ".name") (provided "worker name" (Ext.wp_Name wp) "is invalid.")) (
  guard (existsb (fun s => bool_decide (Ext.wp_VMSize wp = s))
           [VMSizeStandardD2sV3; VMSizeStandardD4sV3; VMSizeStandardD8sV3])
    (invalid_parameter (path +:+ ".vmSize") (provided "worker VM size" (Ext.wp_VMSize wp) "is invalid.")) (
  guard (negb (Ext.wp_DiskSizeGB wp <? 128)%Z)
    (invalid_parameter (path +:+ ".diskSizeGB")
       (provided "worker disk size" (Itoa (Ext.wp_DiskSizeGB wp)) "is invalid.")) (
  guard (MatchString rxSubnetID (Ext.wp_SubnetID wp))
    (invalid_parameter (path +:+ ".subnetId") (provided "worker VM subnet" (Ext.wp_SubnetID wp) "is invalid.")) (
  do? '(workerVnetID, _) <- Subnets.Split (Ext.wp_SubnetID wp);
  do? '(masterVnetID, _) <- Subnets.Split (Ext.mp_SubnetID mp);
  guard (EqualFold masterVnetID workerVnetID)
    (invalid_parameter (path +:+ ".subnetId")
       (provided "worker VM subnet" (Ext.wp_SubnetID wp)
          ("is invalid: must be in the same vnet as master VM subnet '" +:+ Ext.mp_SubnetID mp +:+ "'."))) (
  guard (negb (EqualFold (Ext.mp_SubnetID mp) (Ext.wp_SubnetID wp)))
    (invalid_parameter (path +:+ ".subnetId")
       (provided "worker VM subnet" (Ext.wp_SubnetID wp)
          ("is invalid: must be different to master VM subnet '" +:+ Ext.mp_SubnetID mp +:+ "'."))) (
  guard (negb ((Ext.wp_Count wp <? 3) || (20 <? Ext.wp_Count wp))%Z)
    (invalid_parameter (path +:+ ".count")
       (provided "worker count" (Itoa (Ext.wp_Count wp)) "is invalid."))
    (Ok tt))))))).

Definition validateVisibility path (v : Visibility) (k : res unit) : res unit :=
  guard (bool_decide (v = VisibilityPublic) || bool_decide (v = VisibilityPrivate))
    (invalid_parameter (path +:+ ".visibility") (provided "visibility" v "is invalid.")) k.

Definition validateIP path (ip : string) : res unit :=
  if negb (bool_decide (ip = EmptyString)) then
    match ParseIP ip with
    | None => invalid_parameter (path +:+ ".ip") (provided "IP" ip "is invalid.")
    | Some addr =>
        guard (bool_decide (is_Some (To4 addr)))
          (invalid_parameter (path +:+ ".ip") (provided "IP" ip "is invalid: must be IPv4."))
          (Ok tt)
    end
  else Ok tt.

Definition validateAPIServerProfile path (ap : Ext.APIServerProfile) : res unit :=
  validateVisibility path (Ext.asp_Visibility ap) (
  do? _ <- (if negb (bool_decide (Ext.asp_URL ap = EmptyString)) then
              guard (url_Parse_ok (Ext.asp_URL ap))
                (invalid_parameter (path +:+ ".url") (provided "URL" (Ext.asp_URL ap) "is invalid."))
                (Ok tt)
            else Ok tt);
  validateIP path (Ext.asp_IP ap)).

Definition validateIngressProfile path (p : Ext.IngressProfile) : res unit :=
  guard (bool_decide (Ext.ip_Name p = "default"))
    (invalid_parameter (path +:+ ".name") (provided "ingress name" (Ext.ip_Name p) "is invalid.")) (
  validateVisibility path (Ext.ip_Visibility p) (validateIP path (Ext.ip_IP p))).

Definition validateProperties sv path (p : Ext.Properties) : res unit :=
  guard (existsb (fun s => bool_decide (Ext.p_ProvisioningState p = s))
           [ProvisioningStateCreating; ProvisioningStateUpdating; ProvisioningStateDeleting;
            ProvisioningStateSucceeded; ProvisioningStateFailed])
    (invalid_parameter (path +:+ ".provisioningState")
       (provided "provisioning state" (Ext.p_ProvisioningState p) "is invalid.")) (
  do? _ <- validateClusterProfile sv (path +:+ ".clusterProfile") (Ext.p_ClusterProfile p);
  do? _ <- validateConsoleProfile (path +:+ ".consoleProfile") (Ext.p_ConsoleProfile p);
  do? _ <- validateServicePrincipalProfile (path +:+ ".servicePrincipalProfile") (Ext.p_ServicePrincipalProfile p);
  do? _ <- validateNetworkProfile (path +:+ ".networkProfile") (Ext.p_NetworkProfile p);
  do? _ <- validateMasterProfile sv (path +:+ ".masterProfile") (Ext.p_MasterProfile p);
  match elems (Ext.p_WorkerProfiles p) with
  | [wp] =>
      do? _ <- validateWorkerProfile (path +:+ ".workerProfiles['" +:+ Ext.wp_Name wp +:+ "']") wp
                 (Ext.p_MasterProfile p);
      do? _ <- validateAPIServerProfile (path +:+ ".apiserverProfile") (Ext.p_APIServerProfile p);
      match elems (Ext.p_IngressProfiles p) with
      | [ip] => validateIngressProfile (path +:+ ".ingressProfiles['" +:+ Ext.ip_Name ip +:+ "']") ip
      | _ => invalid_parameter (path +:+ ".ingressProfiles") "There should be exactly one ingress profile."
      end
  | _ => invalid_parameter (path +:+ ".workerProfiles") "There should be exactly one worker profile."
  end).

Definition mismatch (code target what value url : string) : res unit :=
  invalid code target (provided what value ("did not match the name in the Url '" +:+ url +:+ "'.")).

Definition validate sv (oc : Ext.OpenShiftCluster) : res unit :=
  guard (EqualFold (Ext.oc_ID oc) (sv_resourceID sv))
    (mismatch CloudErrorCodeMismatchingResourceID "id" "resource ID" (Ext.oc_ID oc) (sv_resourceID sv)) (
  guard (EqualFold (Ext.oc_Name oc) (r_ResourceName (sv_r sv)))
    (mismatch CloudErrorCodeMismatchingResourceName "name" "resource name" (Ext.oc_Name oc)
       (r_ResourceName (sv_r sv))) (
  guard (EqualFold (Ext.oc_Type oc) (resourceProviderNamespace +:+ "/" +:+ resourceType))
    (mismatch CloudErrorCodeMismatchingResourceType "type" "resource type" (Ext.oc_Type oc)
       (resourceProviderNamespace +:+ "/" +:+ resourceType)) (
  guard (EqualFold (Ext.oc_Location oc) (sv_location sv))
    (invalid_parameter "location" (provided "location" (Ext.oc_Location oc) "is invalid.")) (
  validateProperties sv "properties" (Ext.oc_Properties oc))))).

(** [Static] of the validator for a location and a resource id: the cluster on
    its own, then the change from the current one. *)
Definition Static (location resourceID : string) (oc : Ext.OpenShiftCluster)
    (_current : option OpenShiftCluster) : res unit :=
  do? r <- ParseResourceID resourceID;
  let sv := mkStaticValidator location resourceID r in
  do? _ <- validate sv oc;
  match ToExternal <$> _current with
  | None => Ok tt
  | Some current => validateDelta oc current
  end.
End validator.

(** ** What an accepted cluster looks like *)
Ltac guards :=
  repeat match goal with
  | H : guard ?b _ _ = Ok tt |- _ =>
      let E := fresh "E" in destruct b eqn:E; cbn [guard] in H; [|discriminate H]
  | H : (do? _ <- _; _) = Ok tt |- _ =>
      let H1 := fresh "H" in let H2 := fresh "H" in
      apply bind_unit_ok in H as [H1 H2]
  end.

(** A valid cluster network: IPv4, with at most [max] ones in its mask *)
Definition cidr_ok (cidr : string) (max : Z) : Prop :=
  exists ip net, ParseCIDR cidr = Ok (ip, net) /\ n_bits net = 32%Z /\ length (n_IP net) = 4 /\
    (0 <= n_ones net <= max)%Z.

Record valid_worker (wp : Ext.WorkerProfile) (mp : Ext.MasterProfile) : Prop := {
  vw_name : Ext.wp_Name wp = "worker";
  vw_count : (3 <= Ext.wp_Count wp <= 20)%Z;
  vw_disk : (128 <= Ext.wp_DiskSizeGB wp)%Z;
  vw_subnet : lang rxSubnetID (Ext.wp_SubnetID wp);
  vw_vnet : exists wv wn mv mn, Subnets.Split (Ext.wp_SubnetID wp) = Ok (wv, wn) /\
    Subnets.Split (Ext.mp_SubnetID mp) = Ok (mv, mn) /\ fold_eq mv wv;
  vw_distinct : ~ fold_eq (Ext.mp_SubnetID mp) (Ext.wp_SubnetID wp);
}.

Record valid_cluster (location resourceID : string) (r : Resource) (oc : Ext.OpenShiftCluster) : Prop := {
  vc_ID : fold_eq (Ext.oc_ID oc) resourceID;
  vc_name : fold_eq (Ext.oc_Name oc) (r_ResourceName r);
  vc_location : fold_eq (Ext.oc_Location oc) location;
  vc_domain : lang rxDomainName (Ext.cp_Domain (Ext.p_ClusterProfile (Ext.oc_Properties oc)));
  vc_group : lang rxResourceGroupID (Ext.cp_ResourceGroupID (Ext.p_ClusterProfile (Ext.oc_Properties oc)));
  vc_client : is_ok (FromString (Ext.spp_ClientID (Ext.p_ServicePrincipalProfile (Ext.oc_Properties oc)))) = true;
  vc_secret : Ext.spp_ClientSecret (Ext.p_ServicePrincipalProfile (Ext.oc_Properties oc)) <> EmptyString;
  vc_pod : cidr_ok (Ext.np_PodCIDR (Ext.p_NetworkProfile (Ext.oc_Properties oc))) 18;
  vc_service : cidr_ok (Ext.np_ServiceCIDR (Ext.p_NetworkProfile (Ext.oc_Properties oc))) 22;
  vc_master : Ext.mp_VMSize (Ext.p_MasterProfile (Ext.oc_Properties oc)) = VMSizeStandardD8sV3 /\
    lang rxSubnetID (Ext.mp_SubnetID (Ext.p_MasterProfile (Ext.oc_Properties oc)));
  vc_workers : exists wp, Ext.p_WorkerProfiles (Ext.oc_Properties oc) = Some [wp] /\
    valid_worker wp (Ext.p_MasterProfile (Ext.oc_Properties oc));
  vc_ingress : exists ip, Ext.p_IngressProfiles (Ext.oc_Properties oc) = Some [ip] /\
    Ext.ip_Name ip = "default";
}.

Section facts.
Context {U : Url}.

Lemma validateCIDR_ok path what cidr max :
  (max <= 95)%Z -> validateCIDR path what cidr max = Ok tt -> cidr_ok cidr max.
Proof.
  intros Hmax. unfold validateCIDR. destruct (ParseCIDR cidr) as [[ip net]| | |] eqn:E; try done.
  intros H. guards. apply bool_decide_eq_true in E0. apply Z.leb_le in E1.
  destruct (ParseCIDR_ones _ _ _ E) as [[? _] _].
  destruct (ParseCIDR_v4_net _ _ _ E E0) as [? ?]; [lia|]. exists ip, net. done.
Qed.

Lemma validateWorkerProfile_ok path wp mp :
  validateWorkerProfile path wp mp = Ok tt -> valid_worker wp mp.
Proof.
  unfold validateWorkerProfile. intros H. guards.
  destruct (Subnets.Split (Ext.wp_SubnetID wp)) as [[wv wn]| | |] eqn:Ew; try done. simpl in H.
  destruct (Subnets.Split (Ext.mp_SubnetID mp)) as [[mv mn]| | |] eqn:Em; try done. simpl in H.
  guards. apply bool_decide_eq_true in E. apply negb_true_iff, Z.ltb_ge in E1.
  apply MatchString_spec in E2. apply negb_true_iff in E4, E5.
  apply orb_false_iff in E5 as [?%Z.ltb_ge ?%Z.ltb_ge].
  split; try done.
  - exists wv, wn, mv, mn. split_and!; [done|done|]. unfold fold_eq. by rewrite E3.
  - unfold fold_eq. rewrite E4. exact id.
Qed.

Lemma validate_ok location resourceID r oc :
  validate (mkStaticValidator location resourceID r) oc = Ok tt -> valid_cluster location resourceID r oc.
Proof.
  unfold validate, validateProperties. intros H. guards.
  destruct (elems (Ext.p_WorkerProfiles _)) as [|wp []] eqn:Ew; try done. guards.
  destruct (elems (Ext.p_IngressProfiles _)) as [|ip []] eqn:Ei; try done.
  unfold validateClusterProfile in H0. guards.
  destruct (index _ 2) as [sub| | |]; try done. cbn [res_bind] in H0. guards.
  unfold validateServicePrincipalProfile, validateNetworkProfile, validateMasterProfile,
    validateIngressProfile in *. guards.
  split.
  - unfold fold_eq. simpl in E. by rewrite E.
  - unfold fold_eq. simpl in E0. by rewrite E0.
  - unfold fold_eq. simpl in E2. by rewrite E2.
  - by apply MatchString_spec.
  - by apply MatchString_spec.
  - done.
  - match goal with E : negb _ = true |- _ => by apply negb_true_iff, bool_decide_eq_false in E end.
  - eapply validateCIDR_ok; [|done]. lia.
  - eapply validateCIDR_ok; [|done]. lia.
  - split; [by eapply bool_decide_eq_true_1|by apply MatchString_spec].
  - destruct (Ext.p_WorkerProfiles (Ext.oc_Properties oc)) as [l|]; [|done]. simpl in Ew. subst.
    exists wp. split; [done|]. by eapply validateWorkerProfile_ok.
  - destruct (Ext.p_IngressProfiles (Ext.oc_Properties oc)) as [l|]; [|done]. simpl in Ei. subst.
    exists ip. split; [done|]. by eapply bool_decide_eq_true_1.
Qed.
End facts.
