(* ===== verification/Domains.v ===== *)
(** * What the pattern of domain names accepts

    The labels between the dots of a name, as host names have them. *)
From S2P Require Import Prelude GoStrings.
From S2P Require Import Regex Static.
From Stdlib Require Import Ascii.

Definition chars (s : string) : list ascii := String.list_ascii_of_string s.

Definition is_alnum (c : ascii) : bool := is_lower c || is_digit c.

(** A label: 1 to 63 lower-case letters, digits and dashes, with no dash at
    either end *)
Record dns_label (s : string) : Prop := {
  dl_length : 1 <= String.length s <= 63;
  dl_chars : Forall (fun c => is_alnum c || one_of "-" c = true) (chars s);
  dl_head c : head (chars s) = Some c -> is_alnum c = true;
  dl_last c : last (chars s) = Some c -> is_alnum c = true;
}.

Lemma string_app_nil_l s : EmptyString +:+ s = s.
Proof. done. Qed.

Lemma chars_app s t : chars (s +:+ t) = chars s ++ chars t.
Proof. unfold chars. induction s as [|c s IH]; [done|]. rewrite string_app_cons. simpl. by rewrite IH. Qed.

Lemma chars_length s : length (chars s) = String.length s.
Proof. unfold chars. induction s; simpl; congruence. Qed.

Lemma chars_inj s t : chars s = chars t -> s = t.
Proof.
  unfold chars. intros H. rewrite <-(String.string_of_list_ascii_of_string s), H.
  apply String.string_of_list_ascii_of_string.
Qed.

Lemma chr_inv p w : lang (Chr p) w <-> exists c, w = String c EmptyString /\ p c = true.
Proof. split; [inversion 1; eauto|]. intros (c & -> & ?). by constructor. Qed.

Lemma alt_inv r s w : lang (Alt r s) w <-> lang r w \/ lang s w.
Proof. split; [inversion 1; auto|]. intros [?|?]; by constructor. Qed.

Lemma upto_inv p n w :
  lang (upto n (Chr p)) w <-> String.length w <= n /\ Forall (fun c => p c = true) (chars w).
Proof.
  revert w. induction n as [|n IH]; intros w; simpl.
  - rewrite eps_inv. split; [intros ->; split; [simpl; lia|constructor]|]. intros [H _]. destruct w; [done|simpl in H; lia].
  - rewrite alt_inv, eps_inv, seq_inv. setoid_rewrite chr_inv. setoid_rewrite IH. split.
    + intros [-> | (u & v & -> & (c & -> & Hc) & Hv & Hp)]; [split; [simpl; lia|constructor]|].
      rewrite string_app_cons, string_app_nil_l. simpl. split; [lia|by constructor].
    + intros [Hl Hp]. destruct w as [|c w]; [by left|right].
      simpl in *. inversion Hp; subst. exists (String c EmptyString), w.
      split_and!; [done|by exists c|lia|done].
Qed.

(** A string with its last character taken off *)
Lemma string_snoc w : w <> EmptyString -> exists u d, w = u +:+ String d EmptyString.
Proof.
  intros H. induction w as [|c w IH]; [done|]. destruct w as [|d w].
  - by exists EmptyString, c.
  - destruct IH as (u & e & ->); [done|]. exists (String c u), e. by rewrite string_app_cons.
Qed.

Lemma rx_label_spec w : lang rx_label w <-> dns_label w.
Proof.
  unfold rx_label. change (seqs [alnum; upto 61 alnum_dash; alnum]) with (Seq alnum (Seq (upto 61 alnum_dash) alnum)).
  rewrite alt_inv. unfold alnum, alnum_dash. rewrite chr_inv, seq_inv. setoid_rewrite chr_inv.
  setoid_rewrite seq_inv. setoid_rewrite upto_inv. setoid_rewrite chr_inv. split.
  - intros [(c & -> & Hc)|(u & v & -> & (c & -> & Hc) & u' & v' & -> & (Hl & Hf) & d & -> & Hd)].
    + split; simpl; [lia| |by intros ? [= <-]..]. repeat constructor. unfold is_alnum. by rewrite Hc.
    + split.
      * rewrite string_app_cons, string_app_nil_l. simpl. rewrite string_length_app. simpl. lia.
      * rewrite string_app_cons, string_app_nil_l. simpl. fold (chars (u' +:+ String d EmptyString)). rewrite chars_app.
        constructor; [unfold is_alnum; by rewrite Hc|]. apply Forall_app. split; [exact Hf|].
        repeat constructor. unfold is_alnum. by rewrite Hd.
      * intros ? [= <-]. exact Hc.
      * intros x Hx. rewrite <-string_app_assoc, chars_app in Hx.
        change (chars (String d EmptyString)) with [d] in Hx. rewrite last_snoc in Hx. by injection Hx as <-.
  - intros [Hl Hc Hh Ha]. destruct w as [|c w]; [simpl in Hl; lia|].
    destruct (decide (w = EmptyString)) as [->|Hw]; [left; exists c; split; [done|by apply Hh]|right].
    destruct (string_snoc w Hw) as (u & d & ->).
    exists (String c EmptyString), (u +:+ String d EmptyString).
    split_and!; [done|exists c; split; [done|by apply Hh]|].
    exists u, (String d EmptyString). simpl in Hl. rewrite string_length_app in Hl. simpl in Hl.
    simpl in Hc. inversion Hc as [|? ? Hc1 Hc2]. subst.
    fold (chars (u +:+ String d EmptyString)) in Hc2. rewrite chars_app, Forall_app in Hc2. destruct Hc2 as [Hu Hd].
    split_and!; [done|lia|exact Hu|]. exists d. split; [done|].
    apply Ha. change (String c (u +:+ String d EmptyString)) with (String c u +:+ String d EmptyString).
    rewrite chars_app. change (chars (String d EmptyString)) with [d]. apply last_snoc.
Qed.

Lemma dns_label_no_dot s : dns_label s -> ContainsRune s "." = false.
Proof.
  intros [_ H _ _]. induction s as [|c s IH]; [done|]. simpl in *. inversion H as [|? ? Hc Hs]; subst.
  rewrite IH by done. destruct (bool_decide ("."%char = c)) eqn:E; [|done].
  apply bool_decide_eq_true in E. by subst.
Qed.

Definition rx_tail : regex := Seq (chr ".") rx_label.

Lemma dot_label_spec w : lang rx_tail w <-> exists v, w = String "." v /\ dns_label v.
Proof.
  unfold rx_tail. rewrite seq_inv. unfold chr. setoid_rewrite chr_inv. setoid_rewrite rx_label_spec. split.
  - intros (u & v & -> & (c & -> & <-%bool_decide_eq_true) & Hv). by exists v.
  - intros (v & -> & Hv). exists (String "." EmptyString), v.
    split_and!; [done| |done]. exists "."%char. split; [done|]. by apply bool_decide_eq_true.
Qed.

(** The labels after the first *)
Lemma tail_spec w :
  lang (Star rx_tail) w <-> w = EmptyString \/ exists v, w = String "." v /\ Forall dns_label (SplitChar "." v).
Proof.
  split.
  - remember (Star rx_tail) as r eqn:Hr. induction 1 as [| | | | |r|r c v w Hv _ _ IH]; simplify_eq; [by left|].
    right. apply dot_label_spec in Hv as (u & [= -> ->] & Hu). exists (u +:+ w).
    rewrite string_app_cons. split; [done|].
    pose proof (dns_label_no_dot _ Hu) as Hdot.
    destruct (IH eq_refl) as [->|(v & -> & Hv)].
    + rewrite string_app_nil_r, SplitChar_no_sep by done. by apply Forall_singleton.
    + rewrite SplitChar_app_sep by done. by constructor.
  - intros [->|(v & -> & Hv)]; [constructor|].
    rewrite <-(JoinChar_SplitChar "." v). pose proof (SplitChar_not_nil "." v) as Hn.
    induction Hv as [|s l Hs Hl IH]; [done|].
    assert (lang rx_tail (String "." s)) as H by (apply dot_label_spec; by exists s).
    destruct l as [|t l].
    + simpl. rewrite <-(string_app_nil_r (String "." s)). apply lang_star_cons; [done|constructor].
    + change (JoinChar "." (s :: t :: l)) with (s +:+ String "." (JoinChar "." (t :: l))).
      rewrite <-string_app_cons. apply lang_star_cons; [done|]. by apply IH.
Qed.

Lemma rxDomainName_spec s : lang rxDomainName s <-> Forall dns_label (SplitChar "." s).
Proof.
  unfold rxDomainName. fold rx_tail. rewrite seq_inv. setoid_rewrite rx_label_spec. setoid_rewrite tail_spec. split.
  - intros (u & v & -> & Hu & [->|(w & -> & Hw)]); pose proof (dns_label_no_dot _ Hu) as Hdot.
    + rewrite string_app_nil_r, SplitChar_no_sep by done. by apply Forall_singleton.
    + rewrite SplitChar_app_sep by done. by constructor.
  - intros H. rewrite <-(JoinChar_SplitChar "." s). pose proof (SplitChar_parts "." s) as Hp.
    destruct (SplitChar "." s) as [|u l] eqn:E; [by destruct (SplitChar_not_nil "." s)|].
    inversion H as [|? ? Hu Hl]; subst. destruct l as [|t l].
    + exists u, EmptyString. split_and!; [by rewrite string_app_nil_r|done|by left].
    + change (JoinChar "." (u :: t :: l)) with (u +:+ String "." (JoinChar "." (t :: l))).
      exists u, (String "." (JoinChar "." (t :: l))). split_and!; [done|done|right].
      eexists. split; [done|]. inversion Hp; subst. by rewrite SplitChar_JoinChar.
Qed.
