(* ===== verification/Permissions.v ===== *)
(** * Permissions (src/pkg/util/permissions/permissions.go)

    Whether a set of role permissions grants an action. The actions of a role are
    patterns: the source quotes a pattern as a regular expression, turns the quoted
    asterisks into .* and matches without regard to case, over the whole text. A
    pattern that is valid UTF-8 always compiles. *)
From S2P Require Import Prelude GoStrings.
From S2P Require Import Regex Services Domains.
From Stdlib Require Import Ascii.

(** [.] matches anything but a newline. *)
Definition not_newline (c : ascii) : bool := negb (bool_decide (c = newline)).
Fixpoint action_regex (action : string) : regex :=
  match action with
  | EmptyString => Eps
  | String c action =>
      if decide (c = "*"%char) then Seq (Star (Chr not_newline)) (action_regex action)
      else Seq (chr_i c) (action_regex action)
  end.
Definition matches_action (a action : string) : bool := MatchString (action_regex action) a.

(** The loop over the permissions: the first that grants the action. The two lists
    are pointers. *)
Fixpoint CanDoAction (ps : list Permission) (a : string) : res bool :=
  match ps with
  | [] => Ok false
  | p :: ps =>
      do? actions <- deref (pm_Actions p);
      if existsb (matches_action a) actions then
        do? notActions <- deref (pm_NotActions p);
        if existsb (matches_action a) notActions then CanDoAction ps a else Ok true
      else CanDoAction ps a
  end.

(** ** What a pattern matches *)

(** The text is the pattern with each asterisk replaced by some text of one line,
    up to case. *)
Inductive glob : string -> string -> Prop :=
| glob_nil : glob EmptyString EmptyString
| glob_char c d p a : c <> "*"%char -> lower_ascii c = lower_ascii d -> glob p a -> glob (String c p) (String d a)
| glob_star u p a : Forall (fun c => c <> newline) (chars u) -> glob p a -> glob (String "*" p) (u +:+ a).

Lemma star_spec p w : lang (Star (Chr p)) w <-> Forall (fun c => p c = true) (chars w).
Proof.
  split.
  - remember (Star (Chr p)) as r eqn:Hr. induction 1 as [| | | | |r|r c v w Hv _ _ IH]; simplify_eq; [constructor|].
    apply chr_inv in Hv as (c' & [= -> ->] & Hc). rewrite string_app_cons, string_app_nil_l.
    constructor; [done|by apply IH].
  - induction w as [|c w IH]; [constructor|]. simpl. intros H. inversion H; subst.
    change (String c w) with (String c EmptyString +:+ w). apply lang_star_cons; [by constructor|auto].
Qed.

Lemma chr_i_spec c d : lang (chr_i c) (String d EmptyString) <-> lower_ascii c = lower_ascii d.
Proof.
  unfold chr_i. rewrite chr_inv. split.
  - by intros (? & [= <-] & ?%bool_decide_eq_true).
  - intros H. exists d. split; [done|]. by apply bool_decide_eq_true.
Qed.

Lemma action_regex_spec p a : lang (action_regex p) a <-> glob p a.
Proof.
  split.
  - revert a. induction p as [|c p IH]; intros a; simpl; [intros ->%eps_inv; constructor|].
    case_decide as Hc; intros (u & v & -> & Hu & Hv)%seq_inv.
    + subst c. apply star_spec in Hu. constructor; [|by apply IH].
      eapply Forall_impl; [exact Hu|]. intros x Hx%negb_true_iff. by apply bool_decide_eq_false in Hx.
    + pose proof Hu as Hu'. unfold chr_i in Hu'. apply chr_inv in Hu' as (d & -> & _).
      apply chr_i_spec in Hu. rewrite string_app_cons, string_app_nil_l. constructor; [done..|by apply IH].
  - induction 1 as [|c d p a Hc Hd H IH|u p a Hu H IH]; simpl; [constructor| |].
    + rewrite decide_False by done. change (String d a) with (String d EmptyString +:+ a).
      constructor; [by apply chr_i_spec|done].
    + apply lang_seq; [|done]. apply star_spec. eapply Forall_impl; [exact Hu|]. intros x Hx.
      apply negb_true_iff. by apply bool_decide_eq_false.
Qed.

Lemma matches_action_spec a p : matches_action a p = true <-> glob p a.
Proof. unfold matches_action. rewrite MatchString_spec. apply action_regex_spec. Qed.

(** A permission grants an action that one of its patterns matches and none of its
    exceptions. *)
Definition grants (a : string) (p : Permission) : Prop :=
  exists actions notActions, pm_Actions p = Some actions /\ pm_NotActions p = Some notActions /\
    (exists s, s ∈ actions /\ glob s a) /\ (forall s, s ∈ notActions -> ~ glob s a).

Lemma existsb_glob a l : existsb (matches_action a) l = true <-> exists s, s ∈ l /\ glob s a.
Proof.
  rewrite existsb_exists. split; intros (s & Hs & Hm); exists s.
  - split; [by apply list_elem_of_In|by apply matches_action_spec].
  - split; [by apply list_elem_of_In|by apply matches_action_spec].
Qed.

Definition complete (p : Permission) : Prop := is_Some (pm_Actions p) /\ is_Some (pm_NotActions p).

Lemma CanDoAction_spec ps a :
  Forall complete ps ->
  exists b, CanDoAction ps a = Ok b /\ (b = true <-> Exists (grants a) ps).
Proof.
  induction 1 as [|p ps [[l Hl] [n Hn]] Hps (b & Hb & IH)]; simpl.
  - exists false. split; [done|]. split; [done|]. intros H. by inversion H.
  - rewrite Hl. simpl. destruct (existsb (matches_action a) l) eqn:E1.
    + rewrite Hn. simpl. destruct (existsb (matches_action a) n) eqn:E2.
      * exists b. split; [done|]. rewrite IH, Exists_cons. split; [by right|intros [(l' & n' & _ & Hn' & _ & Hno)|?]; [|done]].
        apply existsb_glob in E2 as (s & Hs & Hg). exfalso. rewrite Hn in Hn'. injection Hn' as <-. by eapply Hno.
      * exists true. split; [done|]. split; [|done]. intros _. apply Exists_cons. left.
        exists l, n. split_and!; [done|done|by apply existsb_glob|].
        intros s Hs Hg. assert (existsb (matches_action a) n = true) by (apply existsb_glob; eauto). congruence.
    + exists b. split; [done|]. rewrite IH, Exists_cons. split; [by right|intros [(l' & n' & Hl' & _ & Hy & _)|?]; [|done]].
      rewrite Hl in Hl'. injection Hl' as <-. apply existsb_glob in Hy. congruence.
Qed.

Example contributor :
  CanDoAction [mkPermission (Some ["*"]) (Some ["Microsoft.Authorization/*/Write"; "microsoft.network/*/delete"])]
    "Microsoft.Network/virtualNetworks/subnets/write" = Ok true.
Proof. vm_compute. reflexivity. Qed.
