(* ===== verification/Cidr.v ===== *)
(** * Overlapping networks

    [IPNet.Contains] of Go's [net] package, and the vendored checks of
    src/vendor/github.com/apparentlymart/go-cidr/cidr. *)
From S2P Require Import Prelude GoStrings.
From S2P Require Import Net.
From Stdlib Require Import Ascii.

(** ** net.IPNet *)
Definition mask_bytes (net : IPNet) : list Z :=
  mask_byte (n_ones net) <$> seq 0 (Z.to_nat (n_bits net / 8)).

Definition networkNumberAndMask (ip : IP) (mask : list Z) : option (IP * list Z) :=
  let ip := default ip (To4 ip) in
  if (length ip =? 4) then
    if length mask =? 4 then Some (ip, mask)
    else if length mask =? 16 then Some (ip, drop 12 mask) else None
  else if (length ip =? 16) && (length mask =? 16) then Some (ip, mask) else None.

Fixpoint same_network (nn m ip : list Z) : bool :=
  match nn, m, ip with
  | n :: nn, b :: m, x :: ip => bool_decide (Z.land n b = Z.land x b) && same_network nn m ip
  | [], _, [] => true
  | _, _, _ => false
  end.
Definition Contains_mask (ip : IP) (mask : list Z) (x : IP) : bool :=
  let x := default x (To4 x) in
  match networkNumberAndMask ip mask with
  | Some (nn, m) => (length x =? length nn) && same_network nn m x
  | None => length x =? 0
  end.
Definition Contains (net : IPNet) (x : IP) : bool := Contains_mask (n_IP net) (mask_bytes net) x.

(** ** cidr.go, wrangling.go *)
Definition bytes_to_int (l : list Z) : Z := foldl (fun acc b => acc * 256 + b)%Z 0%Z l.
Definition int_to_bytes (len : nat) (z : Z) : list Z :=
  (fun i => (z / 256 ^ Z.of_nat (len - 1 - i)) mod 256)%Z <$> seq 0 len.

(** The integer an address is and its width; the library panics on any other
    length. *)
Definition ipToInt (ip : IP) : res (Z * Z) :=
  if (length ip =? 4) then Ok (bytes_to_int ip, 32%Z)
  else if (length ip =? 16) then Ok (bytes_to_int ip, 128%Z)
  else Panic "Unsupported address length".

Definition AddressRange (net : IPNet) : res (IP * IP) :=
  let firstIP := n_IP net in
  if decide (n_ones net = n_bits net) then Ok (firstIP, firstIP)
  else
    do? '(firstIPInt, bits) <- ipToInt firstIP;
    let hostLen := (bits - n_ones net)%Z in
    let lastIPInt := Z.lor (2 ^ hostLen - 1) firstIPInt in
    Ok (firstIP, int_to_bytes (Z.to_nat (bits / 8)) lastIPInt).

(** [IP.String] and [IPNet.String]: the messages print networks. The longest run
    of two zero groups or more, the first of the longest, becomes "::". *)
Definition hex_digit (d : Z) : string :=
  match String.get (Z.to_nat d) "0123456789abcdef" with Some c => String c EmptyString | None => EmptyString end.
Fixpoint strip_zeros (l : list Z) : list Z :=
  match l with
  | 0%Z :: (_ :: _) as t => strip_zeros t
  | l => l
  end.
Definition appendHex (g : Z) : string :=
  let digits := (fun i => (g / 16 ^ i) mod 16)%Z <$> [3; 2; 1; 0]%Z in
  foldr (fun d s => hex_digit d +:+ s) EmptyString (strip_zeros digits).
Fixpoint ip_groups (l : list Z) : list Z :=
  match l with a :: b :: l => (a * 256 + b)%Z :: ip_groups l | _ => [] end.
Fixpoint zeros (l : list Z) : nat :=
  match l with 0%Z :: l => S (zeros l) | _ => 0 end.
Definition longest_run (l : list Z) : nat * nat :=
  foldl (fun e i => if e.2 <? zeros (drop i l) then (i, zeros (drop i l)) else e) (0, 0) (seq 0 (length l)).
Definition IP_String (ip : IP) : string :=
  match To4 ip with
  | Some ip4 => JoinChar "." (Itoa <$> ip4)
  | None =>
      let groups := ip_groups ip in
      let '(e, n) := longest_run groups in
      let show l := JoinChar ":" (appendHex <$> l) in
      if n <=? 1 then show groups else show (take e groups) +:+ "::" +:+ show (drop (e + n) groups)
  end.
Definition IPNet_String (net : IPNet) : string :=
  match networkNumberAndMask (n_IP net) (mask_bytes net) with
  | Some (nn, m) =>
      IP_String nn +:+ "/" +:+
      Itoa (if length m =? length (mask_bytes net) then n_ones net else Z.max 0 (n_ones net - 96))
  | None => "<nil>"
  end.

Example IPNet_String_v4 :
  (do? '(_, net) <- ParseCIDR "10.128.5.7/14"; Ok (IPNet_String net)) = Ok "10.128.0.0/14".
Proof. reflexivity. Qed.
Example IPNet_String_v6 :
  (do? '(_, net) <- ParseCIDR "2001:db8:0:0:0ab::0:1/128"; Ok (IPNet_String net)) = Ok "2001:db8::ab:0:0:1/128".
Proof. reflexivity. Qed.

Fixpoint address_ranges (nets : list IPNet) : res (list (IP * IP)) :=
  match nets with
  | [] => Ok []
  | n :: nets => do? r <- AddressRange n; do? rs <- address_ranges nets; Ok (r :: rs)
  end.

(** The inner loop: the other networks, [j] being the index of the next *)
Fixpoint overlaps_other (s : IPNet) (i j : nat) (nets : list IPNet) (ranges : list (IP * IP)) : res unit :=
  match nets, ranges with
  | n :: nets, (first, last) :: ranges =>
      if decide (i <> j) then
        if Contains s first || Contains s last
        then Err (ErrOther (IPNet_String n +:+ " overlaps with " +:+ IPNet_String s))
        else overlaps_other s i (S j) nets ranges
      else overlaps_other s i (S j) nets ranges
  | _, _ => Ok tt
  end.
Fixpoint verify_from (block : IP * list Z) (block_string : string) (i : nat) (rest : list IPNet)
    (rest_ranges : list (IP * IP)) (nets : list IPNet) (ranges : list (IP * IP)) : res unit :=
  match rest, rest_ranges with
  | s :: rest, (first, last) :: rest_ranges =>
      if negb (Contains_mask block.1 block.2 first) || negb (Contains_mask block.1 block.2 last)
      then Err (ErrOther (block_string +:+ " does not fully contain " +:+ IPNet_String s))
      else
        do? _ <- overlaps_other s i 0 nets ranges;
        verify_from block block_string (S i) rest rest_ranges nets ranges
  | _, _ => Ok tt
  end.
Definition VerifyNoOverlap (nets : list IPNet) (block : IP * list Z) (block_string : string) : res unit :=
  do? ranges <- address_ranges nets;
  verify_from block block_string 0 nets ranges nets ranges.
(** [&net.IPNet{IP: net.IPv4zero, Mask: net.IPMask(net.IPv4zero)}]: the mask is
    the 16 bytes of the address, of which the last four are looked at. *)
Definition any_v4 : IP * list Z := (IPv4 0 0 0 0, IPv4 0 0 0 0).

(** ** IPv4 networks *)
Record v4net (net : IPNet) : Prop := {
  v4_bits : n_bits net = 32%Z;
  v4_ones : (0 <= n_ones net <= 32)%Z;
  v4_length : length (n_IP net) = 4;
  v4_bytes : Forall (fun b => 0 <= b < 256)%Z (n_IP net);
  v4_masked : mask_ip (n_ones net) (n_IP net) = n_IP net;
}.

(** The addresses of a network, as integers *)
Definition first_address (net : IPNet) : Z := bytes_to_int (n_IP net).
Definition size (net : IPNet) : Z := 2 ^ (32 - n_ones net).
Definition in_net (net : IPNet) (a : Z) : Prop := (first_address net <= a < first_address net + size net)%Z.
Definition disjoint_nets (m n : IPNet) : Prop := forall a, in_net m a -> in_net n a -> False.

(** A mask byte clears the low bits. *)
Lemma land_mask b k : (0 <= b < 256)%Z -> (0 <= k <= 8)%Z -> (Z.land b (256 - 2 ^ k) = b / 2 ^ k * 2 ^ k)%Z.
Proof.
  intros Hb Hk.
  assert (forallb (fun b => forallb (fun k => Z.land (Z.of_nat b) (256 - 2 ^ Z.of_nat k) =? Z.of_nat b / 2 ^ Z.of_nat k * 2 ^ Z.of_nat k)%Z
            (seq 0 9)) (seq 0 256) = true) as H by (by vm_compute).
  rewrite forallb_forall in H. specialize (H (Z.to_nat b) ltac:(apply in_seq; lia)).
  rewrite forallb_forall in H. specialize (H (Z.to_nat k) ltac:(apply in_seq; lia)).
  rewrite !Z2Nat.id in H by lia. by apply Z.eqb_eq.
Qed.

Lemma mask_byte_spec n i : mask_byte n i = (256 - 2 ^ (Z.max 0 (Z.min 8 (8 - (n - 8 * Z.of_nat i)))))%Z.
Proof.
  unfold mask_byte. set (k := (n - 8 * Z.of_nat i)%Z).
  destruct (Z.leb_spec 8 k); [by replace (Z.max _ _) with 0%Z by lia|].
  destruct (Z.leb_spec k 0); [by replace (Z.max _ _) with 8%Z by lia|].
  by replace (Z.max _ _) with (8 - k)%Z by lia.
Qed.

(** One byte more, on both sides of the comparison of two prefixes *)
Lemma prefix_step acc acc' b b' h :
  (0 <= b < 256)%Z -> (0 <= b' < 256)%Z ->
  ((acc * 256 + b) / 2 ^ Z.max 0 h = (acc' * 256 + b') / 2 ^ Z.max 0 h <->
   acc / 2 ^ Z.max 0 (h - 8) = acc' / 2 ^ Z.max 0 (h - 8) /\
   b / 2 ^ Z.max 0 (Z.min 8 h) = b' / 2 ^ Z.max 0 (Z.min 8 h))%Z.
Proof.
  intros Hb Hb'. destruct (Z.le_gt_cases 8 h) as [H8|H8].
  - replace (Z.max 0 h) with (8 + (h - 8))%Z by lia. replace (Z.max 0 (h - 8)) with (h - 8)%Z by lia.
    replace (Z.max 0 (Z.min 8 h)) with 8%Z by lia.
    rewrite Z.pow_add_r by lia. change (2 ^ 8)%Z with 256%Z. rewrite <-!Z.div_div by lia.
    rewrite !Z.div_add_l by lia. rewrite !(Z.div_small _ 256) by lia. rewrite !Z.add_0_r. tauto.
  - replace (Z.max 0 (h - 8)) with 0%Z by lia. replace (Z.min 8 h) with h by lia.
    set (k := Z.max 0 h). assert (0 <= k < 8)%Z as Hk by lia.
    assert (256 = 2 ^ (8 - k) * 2 ^ k)%Z as E by (rewrite <-Z.pow_add_r by lia; by replace (8 - k + k)%Z with 8%Z by lia).
    assert (0 < 2 ^ k)%Z by (apply Z.pow_pos_nonneg; lia).
    rewrite E at 1 2. rewrite !Z.mul_assoc, !Z.div_add_l by lia. change (2 ^ 0)%Z with 1%Z. rewrite !Z.div_1_r.
    assert (0 <= b / 2 ^ k < 2 ^ (8 - k))%Z by (split; [apply Z.div_pos; lia|apply Z.div_lt_upper_bound; lia]).
    assert (0 <= b' / 2 ^ k < 2 ^ (8 - k))%Z by (split; [apply Z.div_pos; lia|apply Z.div_lt_upper_bound; lia]).
    split; [intros H'|by intros [-> ->]]. assert (acc = acc') by nia. subst. split; [done|lia].
Qed.

Lemma land_same a b n i :
  (0 <= a < 256)%Z -> (0 <= b < 256)%Z ->
  (Z.land a (mask_byte n i) = Z.land b (mask_byte n i) <->
   a / 2 ^ Z.max 0 (Z.min 8 (8 - (n - 8 * Z.of_nat i))) = b / 2 ^ Z.max 0 (Z.min 8 (8 - (n - 8 * Z.of_nat i))))%Z.
Proof.
  intros Ha Hb. rewrite mask_byte_spec. set (k := Z.max 0 _). assert (0 <= k <= 8)%Z by lia.
  rewrite !land_mask by done. assert (0 < 2 ^ k)%Z by (apply Z.pow_pos_nonneg; lia). nia.
Qed.

Lemma four_bytes (l : list Z) : length l = 4 -> exists a b c d, l = [a; b; c; d].
Proof. destruct l as [|a [|b [|c [|d [|]]]]]; try done. eauto. Qed.

Lemma mask_bytes_v4 net : v4net net ->
  mask_bytes net = [mask_byte (n_ones net) 0; mask_byte (n_ones net) 1; mask_byte (n_ones net) 2; mask_byte (n_ones net) 3].
Proof. intros Hv. unfold mask_bytes. by rewrite (v4_bits _ Hv). Qed.

(** Two addresses are in the same network of [n] ones when they agree on the first
    [n] bits. *)
Lemma same_network_spec n x y :
  length x = 4 -> length y = 4 -> Forall (fun b => 0 <= b < 256)%Z x -> Forall (fun b => 0 <= b < 256)%Z y ->
  (0 <= n <= 32)%Z ->
  (same_network x [mask_byte n 0; mask_byte n 1; mask_byte n 2; mask_byte n 3] y = true <->
   bytes_to_int x / 2 ^ (32 - n) = bytes_to_int y / 2 ^ (32 - n))%Z.
Proof.
  intros Hx Hy Bx By Hn. destruct (four_bytes x Hx) as (a & b & c & d & ->).
  destruct (four_bytes y Hy) as (a' & b' & c' & d' & ->).
  repeat (apply Forall_cons in Bx as [? Bx]). repeat (apply Forall_cons in By as [? By]).
  cbn [same_network]. rewrite !andb_true_iff, !bool_decide_eq_true, !land_same by done.
  unfold bytes_to_int. cbn [foldl]. replace (2 ^ (32 - n))%Z with (2 ^ Z.max 0 (32 - n))%Z by (f_equal; lia).
  rewrite !prefix_step by done. rewrite !Z.div_0_l by (apply Z.pow_nonzero; lia).
  change (Z.of_nat 0) with 0%Z. change (Z.of_nat 1) with 1%Z. change (Z.of_nat 2) with 2%Z. change (Z.of_nat 3) with 3%Z.
  replace (8 - (n - 8 * 0))%Z with (32 - n - 8 - 8 - 8)%Z by lia.
  replace (8 - (n - 8 * 1))%Z with (32 - n - 8 - 8)%Z by lia.
  replace (8 - (n - 8 * 2))%Z with (32 - n - 8)%Z by lia.
  replace (8 - (n - 8 * 3))%Z with (32 - n)%Z by lia. tauto.
Qed.

Lemma v4_To4 net : v4net net -> To4 (n_IP net) = Some (n_IP net).
Proof. intros Hv. unfold To4. by rewrite (v4_length _ Hv). Qed.

Lemma first_aligned net : v4net net -> (first_address net mod size net = 0)%Z.
Proof.
  intros Hv. unfold first_address, size. pose proof (v4_masked _ Hv) as Hm. pose proof (v4_ones _ Hv).
  pose proof (v4_bytes _ Hv) as Hb. destruct (four_bytes _ (v4_length _ Hv)) as (a & b & c & d & E).
  rewrite E in *. unfold mask_ip in Hm. cbn in Hm. injection Hm as Ha Hb' Hc Hd.
  assert (forall x i, (0 <= x < 256)%Z -> Z.land x (mask_byte (n_ones net) i) = x ->
    (x mod 2 ^ Z.max 0 (Z.min 8 (8 - (n_ones net - 8 * Z.of_nat i))) = 0)%Z) as Hx.
  { intros x i Hr Hl. rewrite mask_byte_spec, land_mask in Hl by lia. rewrite <-Hl. apply Z.mod_mul.
    apply Z.pow_nonzero; lia. }
  repeat (apply Forall_cons in Hb as [? Hb]).
  apply Hx in Ha, Hb', Hc, Hd; try done.
  assert (forall acc b h, (0 <= b < 256)%Z -> (acc mod 2 ^ Z.max 0 (h - 8) = 0)%Z ->
    (b mod 2 ^ Z.max 0 (Z.min 8 h) = 0)%Z -> ((acc * 256 + b) mod 2 ^ Z.max 0 h = 0)%Z) as Hstep.
  { clear. intros acc b h Hb Hacc Hmod. destruct (Z.le_gt_cases 8 h).
    - replace (Z.max 0 (Z.min 8 h)) with 8%Z in Hmod by lia. change (2 ^ 8)%Z with 256%Z in Hmod.
      rewrite Z.mod_small in Hmod by lia. subst b. rewrite Z.add_0_r.
      replace (Z.max 0 h) with (Z.max 0 (h - 8) + 8)%Z by lia. rewrite Z.pow_add_r by lia. change (2 ^ 8)%Z with 256%Z.
      rewrite Z.mul_mod_distr_r by (try apply Z.pow_nonzero; lia). by rewrite Hacc.
    - replace (Z.max 0 (Z.min 8 h)) with (Z.max 0 h) in Hmod by lia.
      assert (256 = 2 ^ (8 - Z.max 0 h) * 2 ^ Z.max 0 h)%Z as E
        by (rewrite <-Z.pow_add_r by lia; by replace (8 - Z.max 0 h + Z.max 0 h)%Z with 8%Z by lia).
      rewrite E, Z.mul_assoc, Z.add_comm, Z.mod_add by (apply Z.pow_nonzero; lia). done. }
  unfold bytes_to_int. cbn [foldl]. replace (32 - n_ones net)%Z with (Z.max 0 (32 - n_ones net)) by lia.
  change (Z.of_nat 0) with 0%Z in Ha. change (Z.of_nat 1) with 1%Z in Hb'.
  change (Z.of_nat 2) with 2%Z in Hc. change (Z.of_nat 3) with 3%Z in Hd.
  repeat apply Hstep; try done.
  - by replace (32 - n_ones net - 8 - 8 - 8)%Z with (8 - (n_ones net - 8 * 0))%Z by lia.
  - by replace (32 - n_ones net - 8 - 8)%Z with (8 - (n_ones net - 8 * 1))%Z by lia.
  - by replace (32 - n_ones net - 8)%Z with (8 - (n_ones net - 8 * 2))%Z by lia.
  - by replace (32 - n_ones net)%Z with (8 - (n_ones net - 8 * 3))%Z by lia.
Qed.

Lemma size_pos net : v4net net -> (0 < size net)%Z.
Proof. intros Hv. pose proof (v4_ones _ Hv). apply Z.pow_pos_nonneg; lia. Qed.

(** What [Contains] decides *)
Lemma Contains_spec net x :
  v4net net -> length x = 4 -> Forall (fun b => 0 <= b < 256)%Z x ->
  (Contains net x = true <-> in_net net (bytes_to_int x)).
Proof.
  intros Hv Hl Hb. unfold Contains, Contains_mask, networkNumberAndMask. rewrite v4_To4 by done.
  unfold To4. rewrite Hl. cbn [Nat.eqb default from_option]. unfold id. rewrite (v4_length _ Hv), (mask_bytes_v4 _ Hv). cbn [Nat.eqb length].
  rewrite Hl, (v4_length _ Hv). cbn [Nat.eqb andb].
  rewrite same_network_spec; [|apply Hv|done|apply Hv|done|apply Hv].
  pose proof (first_aligned _ Hv) as Ha. pose proof (size_pos _ Hv) as Hs. unfold in_net, first_address, size in *.
  set (s := (2 ^ (32 - n_ones net))%Z) in *. set (N := bytes_to_int (n_IP net)) in *. set (X := bytes_to_int x).
  pose proof (Z.div_mod N s ltac:(lia)) as HN. rewrite Ha, Z.add_0_r in HN. split.
  - intros E. pose proof (Z.div_mod X s ltac:(lia)). pose proof (Z.mod_pos_bound X s ltac:(lia)). rewrite <-E in *. lia.
  - intros HX. apply (Z.div_unique_pos X s (N / s) (X - N)); lia.
Qed.

Lemma bytes_bound (x : list Z) : Forall (fun b => 0 <= b < 256)%Z x ->
  (0 <= bytes_to_int x < 256 ^ Z.of_nat (length x))%Z.
Proof.
  unfold bytes_to_int. intros H. induction x as [|b x IH] using rev_ind; [simpl; lia|].
  apply Forall_app in H as [Hx Hb]. rewrite Forall_singleton in Hb. specialize (IH Hx).
  rewrite foldl_app, length_app. simpl. replace (Z.of_nat (length x + 1)) with (Z.of_nat (length x) + 1)%Z by lia.
  rewrite Z.pow_add_r by lia. lia.
Qed.

Lemma int_to_bytes_spec z : (0 <= z < 2 ^ 32)%Z ->
  bytes_to_int (int_to_bytes 4 z) = z /\ length (int_to_bytes 4 z) = 4 /\
  Forall (fun b => 0 <= b < 256)%Z (int_to_bytes 4 z).
Proof.
  intros Hz. unfold int_to_bytes. cbn [seq fmap list_fmap]. change (4 - 1 - 0) with 3. change (4 - 1 - 1) with 2.
  change (4 - 1 - 2) with 1. change (4 - 1 - 3) with 0. unfold bytes_to_int. cbn [foldl].
  change (256 ^ Z.of_nat 3)%Z with 16777216%Z. change (256 ^ Z.of_nat 2)%Z with 65536%Z.
  change (256 ^ Z.of_nat 1)%Z with 256%Z. change (256 ^ Z.of_nat 0)%Z with 1%Z. change (2 ^ 32)%Z with 4294967296%Z in Hz.
  split_and!; [|done|repeat constructor; apply Z.mod_pos_bound; lia..].
  Z.to_euclidean_division_equations. lia.
Qed.

Lemma multiple_below n k h :
  (0 <= h <= k)%Z -> (n mod 2 ^ h = 0)%Z -> (0 <= n < 2 ^ k)%Z -> (n + 2 ^ h <= 2 ^ k)%Z.
Proof.
  intros Hh Hm Hn. assert (2 ^ k = 2 ^ (k - h) * 2 ^ h)%Z as E
    by (rewrite <-Z.pow_add_r by lia; by replace (k - h + h)%Z with k by lia).
  assert (0 < 2 ^ h)%Z by (apply Z.pow_pos_nonneg; lia).
  pose proof (Z.div_mod n (2 ^ h) ltac:(lia)) as Hd. rewrite Hm, Z.add_0_r in Hd. rewrite E in *.
  assert (n / 2 ^ h < 2 ^ (k - h))%Z by (apply Z.div_lt_upper_bound; lia). rewrite Hd at 1. nia.
Qed.

(** The first and the last address *)
Lemma AddressRange_spec net : v4net net ->
  exists last, AddressRange net = Ok (n_IP net, last) /\ length last = 4 /\
    Forall (fun b => 0 <= b < 256)%Z last /\ bytes_to_int last = (first_address net + size net - 1)%Z.
Proof.
  intros Hv. unfold AddressRange, first_address, size. pose proof (v4_ones _ Hv) as Hn. case_decide as Hd.
  - exists (n_IP net). split_and!; [done|apply Hv|apply Hv|].
    rewrite Hd, (v4_bits _ Hv). change (2 ^ (32 - 32))%Z with 1%Z. lia.
  - unfold ipToInt. rewrite (v4_length _ Hv). cbn [Nat.eqb res_bind]. change (Z.to_nat (32 / 8)) with 4.
    pose proof (first_aligned _ Hv) as Ha. pose proof (size_pos _ Hv) as Hs. unfold first_address, size in *.
    pose proof (bytes_bound _ (v4_bytes _ Hv)) as Hb. rewrite (v4_length _ Hv) in Hb.
    change (256 ^ Z.of_nat 4)%Z with (2 ^ 32)%Z in Hb.
    set (N := bytes_to_int (n_IP net)) in *. set (h := (32 - n_ones net)%Z) in *.
    assert (0 <= h <= 32)%Z as Hh by lia.
    assert (Z.lor (2 ^ h - 1) N = N + 2 ^ h - 1)%Z as E.
    { assert (Z.land N (Z.ones h) = 0)%Z as H0 by (rewrite Z.land_ones by lia; done).
      replace (2 ^ h - 1)%Z with (Z.ones h) by (rewrite Z.ones_equiv; lia).
      rewrite Z.lor_comm, <-Z.lxor_lor, <-Z.add_nocarry_lxor by done. rewrite Z.ones_equiv. lia. }
    rewrite E. assert (N + 2 ^ h <= 2 ^ 32)%Z as Hle by (apply (multiple_below _ _ h); lia).
    destruct (int_to_bytes_spec (N + 2 ^ h - 1)%Z) as (E1 & E2 & E3); [lia|].
    eexists. split_and!; done.
Qed.

(** ** What [VerifyNoOverlap] decides *)

(** A network and its first and last address *)
Definition range_of (net : IPNet) (r : IP * IP) : Prop :=
  r.1 = n_IP net /\ length r.2 = 4 /\ Forall (fun b => 0 <= b < 256)%Z r.2 /\
  bytes_to_int r.2 = (first_address net + size net - 1)%Z.

Lemma address_ranges_ok nets : Forall v4net nets ->
  exists ranges, address_ranges nets = Ok ranges /\ Forall2 range_of nets ranges.
Proof.
  induction 1 as [|net nets Hv Hnets (rs & E & Hrs)]; simpl; [by eexists|].
  destruct (AddressRange_spec net Hv) as (last & -> & ?). simpl. rewrite E. simpl.
  eexists. split; [done|]. by constructor.
Qed.

(** Two intervals meet when one of them has an end of the other inside. *)
Definition has_end (m n : IPNet) : Prop :=
  in_net m (first_address n) \/ in_net m (first_address n + size n - 1).
Lemma meeting_ends m n : v4net m -> v4net n ->
  (~ has_end m n /\ ~ has_end n m <-> disjoint_nets m n).
Proof.
  intros Hm%size_pos Hn%size_pos. unfold has_end, disjoint_nets, in_net. split.
  - intros [H1 H2] a Ha Hb. lia.
  - intros H. split; (intros [[? ?]|[? ?]]).
    + apply (H (first_address n)); lia.
    + apply (H (first_address n + size n - 1)%Z); lia.
    + apply (H (first_address m)); lia.
    + apply (H (first_address m + size m - 1)%Z); lia.
Qed.

Lemma ends_spec s n r : v4net s -> v4net n -> range_of n r ->
  (Contains s r.1 || Contains s r.2 = false <-> ~ has_end s n).
Proof.
  intros Hs Hn (-> & Hl & Hb & Hlast). rewrite <-not_true_iff_false, orb_true_iff.
  rewrite (Contains_spec s (n_IP n)), (Contains_spec s r.2); [|done..|apply Hn|apply Hn].
  unfold has_end, first_address at 1. by rewrite Hlast.
Qed.

Lemma any_v4_contains x : length x = 4 -> Contains_mask any_v4.1 any_v4.2 x = true.
Proof.
  intros Hx. destruct (four_bytes x Hx) as (a & b & c & d & ->). unfold Contains_mask. simpl.
  rewrite !Z.land_0_r. done.
Qed.

Lemma overlaps_other_spec s i j nets ranges :
  v4net s -> Forall v4net nets -> Forall2 range_of nets ranges ->
  (overlaps_other s i j nets ranges = Ok tt <->
   forall k n, nets !! k = Some n -> i <> j + k -> ~ has_end s n).
Proof.
  intros Hs Hv Hr. revert j Hv. induction Hr as [|n [f l] nets ranges Hn Hr IH]; intros j Hv.
  - split; [|done]. intros _ k n Hk. by rewrite lookup_nil in Hk.
  - apply Forall_cons in Hv as [Hvn Hv]. specialize (IH (S j) Hv). cbn [overlaps_other].
    pose proof (ends_spec s n _ Hs Hvn Hn) as He. cbn [fst snd] in He.
    assert ((forall k m, (n :: nets) !! k = Some m -> i <> j + k -> ~ has_end s m) <->
      (i <> j -> ~ has_end s n) /\ (forall k m, nets !! k = Some m -> i <> S j + k -> ~ has_end s m)) as ->.
    { split.
      - intros H. split; [intros ?; apply (H 0); [done|lia]|intros k m Hk ?; apply (H (S k)); [done|lia]].
      - intros [H1 H2] [|k] m Hk Hi; [simplify_eq/=; apply H1; lia|]. apply (H2 k); [done|lia]. }
    case_decide as Hij; [|rewrite IH; tauto].
    destruct (Contains s f || Contains s l).
    + split; [done|]. intros [H _]. discriminate (proj2 He (H Hij)).
    + rewrite IH. tauto.
Qed.

Lemma verify_from_spec bs i rest rest_ranges nets ranges :
  Forall v4net rest -> Forall2 range_of rest rest_ranges ->
  Forall v4net nets -> Forall2 range_of nets ranges ->
  (verify_from any_v4 bs i rest rest_ranges nets ranges = Ok tt <->
   forall k s j n, rest !! k = Some s -> nets !! j = Some n -> i + k <> j -> ~ has_end s n).
Proof.
  intros Hvr Hr Hv Hn. revert i Hvr. induction Hr as [|s [f l] rest rest_ranges Hs Hr IH]; intros i Hvr.
  - split; [|done]. intros _ k ? j n Hk. by rewrite lookup_nil in Hk.
  - apply Forall_cons in Hvr as [Hvs Hvr]. specialize (IH (S i) Hvr). cbn [verify_from].
    destruct Hs as (Hf & Hl & _). cbn [fst snd] in *. subst f.
    rewrite (any_v4_contains _ (v4_length _ Hvs)), (any_v4_contains _ Hl). cbn [negb orb].
    rewrite bind_unit_ok, IH, overlaps_other_spec by done. split.
    + intros [H1 H2] [|k] t j n Hk Hj Hij; [simplify_eq/=; apply (H1 j); [done|lia]|].
      apply (H2 k t j n); [done|done|lia].
    + intros H. split; [intros k n Hk ?; apply (H 0 s k n); [done|done|lia]|].
      intros k t j n Hk Hj ?. apply (H (S k) t j n); [done|done|lia].
Qed.

Lemma VerifyNoOverlap_spec nets bs :
  Forall v4net nets ->
  (VerifyNoOverlap nets any_v4 bs = Ok tt <->
   forall i j m n, i <> j -> nets !! i = Some m -> nets !! j = Some n -> disjoint_nets m n).
Proof.
  intros Hv. unfold VerifyNoOverlap. destruct (address_ranges_ok nets Hv) as (ranges & -> & Hr). simpl.
  rewrite verify_from_spec by done. rewrite Forall_lookup in Hv. split.
  - intros H i j m n Hij Hm Hn. apply meeting_ends; [by eapply Hv..|].
    split; [by apply (H i m j n)|by apply (H j n i m)].
  - intros H k s j n Hs Hn Hkj. apply (meeting_ends s n); [by eapply Hv..|by eapply (H k j)].
Qed.
(** ** The networks of the parser *)
Lemma octet_range s n t : octet s = Some (n, t) -> (0 <= n < 256)%Z.
Proof.
  unfold octet, dtoi. destruct (dtoi_from 0 false s) as [[m u]|] eqn:E; [|done].
  apply dtoi_from_nonneg in E; [|done]. destruct (Z.ltb_spec 255 m); [done|]. intros [= <- <-]. lia.
Qed.

Lemma parseIPv4_bytes s ip : parseIPv4 s = Some ip ->
  exists a b c d, ip = IPv4 a b c d /\ Forall (fun b => 0 <= b < 256)%Z [a; b; c; d].
Proof.
  unfold parseIPv4. intros H. repeat case_match; simplify_eq. do 4 eexists. split; [done|].
  repeat constructor; by eapply octet_range.
Qed.

Lemma mask_ip_idem n ip : mask_ip n (mask_ip n ip) = mask_ip n ip.
Proof.
  apply list_eq. intros i. rewrite !mask_ip_lookup. destruct (ip !! i); [|done]. simpl. f_equal.
  by rewrite <-Z.land_assoc, Z.land_diag.
Qed.

Lemma mask_byte_range n i : (0 <= mask_byte n i < 256)%Z.
Proof.
  rewrite mask_byte_spec. set (k := Z.max 0 _).
  assert (2 ^ 0 <= 2 ^ k <= 2 ^ 8)%Z by (split; apply Z.pow_le_mono_r; lia). lia.
Qed.

Lemma land_byte x y : (0 <= x < 256)%Z -> (0 <= Z.land x y < 256)%Z.
Proof.
  intros Hx. split; [apply Z.land_nonneg; lia|].
  destruct (Z.eq_dec (Z.land x y) 0) as [->|Hn]; [lia|].
  assert (0 <= Z.land x y)%Z by (apply Z.land_nonneg; lia).
  change 256%Z with (2 ^ 8)%Z. apply Z.log2_lt_pow2; [lia|].
  destruct (Z.eq_dec x 0) as [->|]; [by rewrite Z.land_0_l in Hn|].
  apply Z.le_lt_trans with (Z.log2 x); [|apply Z.log2_lt_pow2; lia].
  apply Z.log2_le_mono. apply Z.ldiff_le; [lia|].
  apply Z.bits_inj'. intros i Hi. rewrite Z.ldiff_spec, Z.land_spec, Z.bits_0. destruct (Z.testbit x i), (Z.testbit y i); done.
Qed.

(** A network written in IPv4 is one. *)
Lemma ParseCIDR_v4net s ip net : ParseCIDR s = Ok (ip, net) -> n_bits net = 32%Z -> v4net net.
Proof.
  intros H Hb. pose proof (ParseCIDR_ones _ _ _ H) as [Ho _]. rewrite Hb in Ho. revert H.
  unfold ParseCIDR. destruct (_ <? 0)%Z; [done|].
  destruct (parseIPv4 _) as [ip4|] eqn:E4.
  - apply parseIPv4_bytes in E4 as (a & b & c & d & -> & Hr).
    destruct (dtoi _) as [[n [|]]|] eqn:Ed; try done. destruct (32 <? n)%Z; [done|]. intros [= <- <-].
    cbn [n_IP n_ones n_bits] in *. change (drop 12 (IPv4 a b c d)) with [a; b; c; d].
    split; cbn [n_IP n_ones n_bits]; [done|done|by rewrite mask_ip_length| |apply mask_ip_idem].
    apply Forall_lookup. intros i x. rewrite mask_ip_lookup. intros (y & Hy & ->)%fmap_Some.
    apply land_byte. by eapply Forall_lookup_1 in Hr.
  - destruct (parseIPv6 _) as [ip6|]; [|done].
    destruct (dtoi _) as [[n [|]]|]; try done. destruct (128 <? n)%Z; [done|]. intros [= <- <-]. done.
Qed.

(** Whatever the networks are, the check against all of IPv4 lets pass only those
    whose first address is one of IPv4. *)
Lemma address_ranges_first nets ranges :
  address_ranges nets = Ok ranges -> Forall2 (fun n (r : IP * IP) => r.1 = n_IP n) nets ranges.
Proof.
  revert ranges. induction nets as [|n nets IH]; intros ranges H; simpl in H; [by simplify_eq; constructor|].
  apply res_bind_ok in H as (r & Hr & H). apply res_bind_ok in H as (rs & Hrs & [= <-]).
  constructor; [|by apply IH]. unfold AddressRange in Hr. case_decide; [by simplify_eq|].
  by apply res_bind_ok in Hr as ([i b] & _ & [= <-]).
Qed.

Lemma any_v4_only x : Contains_mask any_v4.1 any_v4.2 x = true -> is_Some (To4 x).
Proof.
  unfold Contains_mask. destruct (To4 x) as [y|] eqn:E; [done|]. simpl.
  destruct (length x =? 4) eqn:El; [|done]. unfold To4 in E. by rewrite El in E.
Qed.

Lemma VerifyNoOverlap_v4 nets bs :
  VerifyNoOverlap nets any_v4 bs = Ok tt -> Forall (fun n => is_Some (To4 (n_IP n))) nets.
Proof.
  unfold VerifyNoOverlap. intros H. apply res_bind_ok in H as (ranges & Hr%address_ranges_first & H).
  revert H. generalize 0. generalize nets at 2 as all. generalize ranges at 2 as all_ranges.
  induction Hr as [|n [f l] nets ranges Hn Hr IH]; intros ar a i H; constructor.
  - cbn [verify_from] in H. simpl in Hn. subst f. apply any_v4_only.
    destruct (Contains_mask _ _ (n_IP n)); [done|discriminate].
  - cbn [verify_from] in H. destruct (_ || _); [done|]. apply bind_unit_ok in H as [_ H]. by eapply IH.
Qed.
