(* ===== verification/Wait.v ===== *)
(** * Polling and retrying (src/vendor/k8s.io/apimachinery/pkg/util/wait, src/vendor/k8s.io/client-go/util/retry)

    A poll has a channel of ticks, at most one for each interval: [poller_tick] is
    whether a tick comes before the channel is closed, [until_tick] whether one comes
    before the caller's context is done, and [backoff_Sleep] the pause before another
    try, which is drawn at random. *)
From S2P Require Import Prelude GoStrings.

(** Durations, in nanoseconds *)
Definition time_Second : Z := 1000000000.
Definition time_Minute : Z := 60 * time_Second.
Definition time_Hour : Z := 60 * time_Minute.

Class Ticks (W : Type) := {
  poller_tick : M W bool;
  until_tick : M W bool;
  backoff_Sleep : M W unit;
  IsConflict : error -> bool;           (* apimachinery/pkg/api/errors *)
}.

Definition ErrWaitTimeout : error := ErrOther "timed out waiting for the condition".

Section wait.
Context {W : Type} `{!Ticks W}.
Implicit Types (fn : M W bool).

(** The channel is closed after the timeout. A last call of the condition follows
    the close. *)
Fixpoint WaitFor (ticks : nat) fn : M W unit :=
  do! open <- (match ticks with 0 => ret false | S _ => poller_tick end);
  do! ok <- fn;
  if (ok : bool) then ret tt
  else
    match ticks, open with
    | S ticks, true => WaitFor ticks fn
    | _, _ => throw ErrWaitTimeout
    end.

Definition Poll (interval timeout : Z) (condition : M W bool) : M W unit :=
  WaitFor (Z.to_nat (timeout / interval)) condition.

Definition PollImmediate (interval timeout : Z) (condition : M W bool) : M W unit :=
  do! done <- condition;
  if (done : bool) then ret tt else WaitFor (Z.to_nat (timeout / interval)) condition.

(** The caller's context ends the poll, at once: there are [ticks] at most before. *)
Fixpoint PollUntil (ticks : nat) fn : M W unit :=
  match ticks with
  | 0 => throw ErrWaitTimeout
  | S ticks =>
      do! tick <- until_tick;
      if (tick : bool) then
        do! ok <- fn;
        if (ok : bool) then ret tt else PollUntil ticks fn
      else throw ErrWaitTimeout
  end.
Definition PollImmediateUntil (interval timeout : Z) (condition : M W bool) : M W unit :=
  do! done <- condition;
  if (done : bool) then ret tt else PollUntil (Z.to_nat (timeout / interval)) condition.

(** [OnError] with [IsConflict]: the last conflict is the error. *)
Fixpoint OnConflict (steps : nat) (fn : M W unit) : M W unit :=
  match steps with
  | 0 => throw ErrWaitTimeout
  | S steps =>
      do! r <- try fn;
      match r with
      | inl _ => ret tt
      | inr e =>
          if IsConflict e then
            match steps with
            | 0 => throw e
            | S _ => do! _ <- backoff_Sleep; OnConflict steps fn
            end
          else throw e
      end
  end.
(** [retry.DefaultRetry] has five steps. *)
Definition RetryOnConflict (fn : M W unit) : M W unit := OnConflict 5 fn.

(** ** The polls end, however the ticks come. *)
Lemma WaitFor_total ticks fn : total (poller_tick (W := W)) -> total fn -> total (WaitFor ticks fn).
Proof.
  intros Ht Hf. induction ticks as [|ticks IH]; simpl.
  - apply total_bind; [apply total_ret|intros _]. apply total_bind; [done|]. intros []; by intros w.
  - apply total_bind; [done|intros open]. apply total_bind; [done|]. intros []; [by intros w|].
    destruct open; [done|by intros w].
Qed.

Lemma PollImmediate_total interval timeout fn :
  total (poller_tick (W := W)) -> total fn -> total (PollImmediate interval timeout fn).
Proof.
  intros Ht Hf. unfold PollImmediate. apply total_bind; [done|]. intros []; [by intros w|by apply WaitFor_total].
Qed.

(** ** What they do to the world *)
Context (R : W -> W -> Prop) `{!PreOrder R}.
Context (Rtick : steps R poller_tick) (Runtil : steps R until_tick) (Rsleep : steps R backoff_Sleep).

Lemma WaitFor_steps ticks fn : steps R fn -> steps R (WaitFor ticks fn).
Proof. intros Hf. induction ticks; simpl; steps_auto. Qed.
Lemma Poll_steps interval timeout fn : steps R fn -> steps R (Poll interval timeout fn).
Proof. apply WaitFor_steps. Qed.
Lemma PollImmediate_steps interval timeout fn : steps R fn -> steps R (PollImmediate interval timeout fn).
Proof. intros Hf. unfold PollImmediate. steps_auto. by apply WaitFor_steps. Qed.
Lemma PollUntil_steps ticks fn : steps R fn -> steps R (PollUntil ticks fn).
Proof. intros Hf. induction ticks; simpl; steps_auto. Qed.
Lemma PollImmediateUntil_steps interval timeout fn : steps R fn -> steps R (PollImmediateUntil interval timeout fn).
Proof. intros Hf. unfold PollImmediateUntil. steps_auto. by apply PollUntil_steps. Qed.
Lemma OnConflict_steps n (fn : M W unit) : steps R fn -> steps R (OnConflict n fn).
Proof. intros Hf. induction n; simpl; steps_auto. Qed.
Lemma RetryOnConflict_steps (fn : M W unit) : steps R fn -> steps R (RetryOnConflict fn).
Proof. apply OnConflict_steps. Qed.
End wait.
