(* ===== verification/Azureclient.v ===== *)
(** * The clients of Azure (src/pkg/util/azureclient)

    What the program adds to the clients of the vendored SDK: their construction, lists
    over all pages, and calls that wait for what they began. The operations of the SDK
    are a class; a page is what the SDK makes of it. What is built here are the classes
    of Services.v that the rest of the program is written against. *)
From S2P Require Import Prelude Api Services Database Wait.

(** A client: its constructor sets the subscription or the tenant, the authorizer and,
    for two of them, how long and how often they poll. *)
Record Client := mkClient {
  cl_SubscriptionID : string;
  cl_Authorizer : Authorizer;
  cl_PollingDuration : Z;
  cl_PollingDelay : Z;
}.
(** autorest.DefaultPollingDuration, autorest.DefaultPollingDelay *)
Definition DefaultPollingDuration : Z := 15 * time_Minute.
Definition DefaultPollingDelay : Z := 60 * time_Second.
Definition NewClientWithUserAgent (subscriptionID : string) (authorizer : Authorizer) : Client :=
  mkClient subscriptionID authorizer DefaultPollingDuration DefaultPollingDelay.

Definition NewPermissionsClient := NewClientWithUserAgent.
Definition NewRoleAssignmentsClient := NewClientWithUserAgent.
Definition NewApplicationsClient := NewClientWithUserAgent.
Definition NewResourceSkusClient := NewClientWithUserAgent.
Definition NewVirtualMachinesClient := NewClientWithUserAgent.
Definition NewDisksClient := NewClientWithUserAgent.
Definition NewZonesClient := NewClientWithUserAgent.
Definition NewRecordSetsClient := NewClientWithUserAgent.
Definition NewDatabaseAccountsClient := NewClientWithUserAgent.
Definition NewVaultsClient := NewClientWithUserAgent.
Definition NewInterfacesClient := NewClientWithUserAgent.
Definition NewPrivateEndpointsClient := NewClientWithUserAgent.
Definition NewPublicIPAddressesClient := NewClientWithUserAgent.
Definition NewSubnetsClient := NewClientWithUserAgent.
Definition NewAccountsClient := NewClientWithUserAgent.
Definition NewGroupsClient (subscriptionID : string) (authorizer : Authorizer) : Client :=
  (NewClientWithUserAgent subscriptionID authorizer) <| cl_PollingDuration := time_Hour |>.
Definition NewDeploymentsClient (subscriptionID : string) (authorizer : Authorizer) : Client :=
  (NewClientWithUserAgent subscriptionID authorizer) <| cl_PollingDuration := time_Hour |> <| cl_PollingDelay := (10 * time_Second)%Z |>.

(** ** Pages (dns/models.go of the SDK, like those of the others) *)
Record Page (A : Type) := mkPage { pg_Value : list A; pg_NextLink : option string }.
Arguments mkPage {A}.
Arguments pg_Value {A}.
Arguments pg_NextLink {A}.

(** An empty page is the end, whatever follows it. *)
Definition NotDone {A} (p : Page A) : bool := match pg_Value p with [] => false | _ => true end.

(** What the vendored clients are asked for; [SDK_Next] is the request for a page by its
    link, [Future] an operation that was begun. *)
Class SDK (W : Type) := {
  Future : Type;
  WaitForCompletion : Client -> Future -> M W unit;
  SDK_Next {A : Type} : Client -> string -> M W (Page A);
  Sku : Type;
  Zone : Type;
  Vault : Type;
  PublicIPAddress : Type;
  VirtualMachine : Type;
  StorageAccount : Type;
  ResourceSkus_List : Client -> string -> M W (Page Sku);
  Zones_ListByResourceGroup : Client -> string -> option Z -> M W (Page Zone);
  Vaults_ListByResourceGroup : Client -> string -> option Z -> M W (Page Vault);
  PublicIPAddresses_List : Client -> string -> M W (Page PublicIPAddress);
  Permissions_ListForResource : Client -> string -> string -> string -> string -> string -> M W (Page Permission);
  Permissions_ListForResourceGroup : Client -> string -> M W (Page Permission);
  Subnets_Get : Client -> string -> string -> string -> string -> M W Subnet;
  Subnets_CreateOrUpdate : Client -> string -> string -> string -> Subnet -> M W Future;
  PrivateEndpoints_Get : Client -> string -> string -> string -> M W (option (list (option (list (option string)))));
  PrivateEndpoints_CreateOrUpdate : Client -> string -> string -> PrivateEndpoint -> M W Future;
  PrivateEndpoints_Delete : Client -> string -> string -> M W Future;
  Groups_Delete : Client -> string -> M W Future;
  Disks_Delete : Client -> string -> string -> M W Future;
  Interfaces_Delete : Client -> string -> string -> M W Future;
  PublicIPAddresses_Delete : Client -> string -> string -> M W Future;
  VirtualMachines_CreateOrUpdate : Client -> string -> string -> VirtualMachine -> M W Future;
  VirtualMachines_Delete : Client -> string -> string -> M W Future;
  Accounts_Create : Client -> string -> string -> StorageAccount -> M W Future;
}.

Section azureclient.
Context {W : Type} `{!SDK W} {PB : PageBound}.
Implicit Types (c : Client).

(** The page after one without a link is empty. *)
Definition Next {A} c (p : Page A) : M W (Page A) :=
  match pg_NextLink p with
  | Some link => SDK_Next c link
  | None => ret (mkPage [] None)
  end.

(** [for page.NotDone() { ... }] *)
Fixpoint while_pages {A} (fuel : nat) c (page : Page A) (acc : list A) : M W (list A) :=
  match fuel with
  | 0 => lift OutOfFuel
  | S fuel =>
      if NotDone page then
        do! next <- Next c page;
        while_pages fuel c next (acc ++ pg_Value page)
      else ret acc
  end.
(** The same with the test at the end *)
Fixpoint until_done {A} (fuel : nat) c (page : Page A) (acc : list A) : M W (list A) :=
  match fuel with
  | 0 => lift OutOfFuel
  | S fuel =>
      do! next <- Next c page;
      if NotDone next then until_done fuel c next (acc ++ pg_Value page)
      else ret (acc ++ pg_Value page)
  end.
Definition all_pages {A} c (first : M W (Page A)) : M W (list A) :=
  do! page <- first;
  while_pages page_bound c page [].
Definition all_pages_until {A} c (first : M W (Page A)) : M W (list A) :=
  do! page <- first;
  until_done page_bound c page [].

Definition resourceSkus_List c (filter : string) : M W (list Sku) := all_pages c (ResourceSkus_List c filter).
Definition zones_ListByResourceGroup c (resourceGroupName : string) (top : option Z) : M W (list Zone) :=
  all_pages c (Zones_ListByResourceGroup c resourceGroupName top).
Definition vaults_ListByResourceGroup c (resourceGroupName : string) (top : option Z) : M W (list Vault) :=
  all_pages c (Vaults_ListByResourceGroup c resourceGroupName top).
Definition publicIPAddresses_List c (resourceGroupName : string) : M W (list PublicIPAddress) :=
  all_pages c (PublicIPAddresses_List c resourceGroupName).
Definition permissions_ForResource c (resourceGroupName resourceProviderNamespace parentResourcePath resourceType resourceName : string) :
    M W (list Permission) :=
  all_pages_until c
    (Permissions_ListForResource c resourceGroupName resourceProviderNamespace parentResourcePath resourceType resourceName).
Definition permissions_ForResourceGroup c (resourceGroupName : string) : M W (list Permission) :=
  all_pages_until c (Permissions_ListForResourceGroup c resourceGroupName).

(** ** Calls that wait *)
Definition and_wait c (begin : M W Future) : M W unit :=
  do! future <- begin;
  WaitForCompletion c future.

Definition subnets_AndWait c (resourceGroupName virtualNetworkName subnetName : string) (x : Subnet) : M W unit :=
  and_wait c (Subnets_CreateOrUpdate c resourceGroupName virtualNetworkName subnetName x).
Definition privateEndpoints_CreateAndWait c (resourceGroupName name : string) (x : PrivateEndpoint) : M W unit :=
  and_wait c (PrivateEndpoints_CreateOrUpdate c resourceGroupName name x).
Definition privateEndpoints_DeleteAndWait c (resourceGroupName name : string) : M W unit :=
  and_wait c (PrivateEndpoints_Delete c resourceGroupName name).
Definition groups_AndWait c (resourceGroupName : string) : M W unit := and_wait c (Groups_Delete c resourceGroupName).
Definition disks_AndWait c (resourceGroupName name : string) : M W unit := and_wait c (Disks_Delete c resourceGroupName name).
Definition interfaces_AndWait c (resourceGroupName name : string) : M W unit :=
  and_wait c (Interfaces_Delete c resourceGroupName name).
Definition publicIPAddresses_AndWait c (resourceGroupName name : string) : M W unit :=
  and_wait c (PublicIPAddresses_Delete c resourceGroupName name).
Definition virtualMachines_CreateAndWait c (resourceGroupName name : string) (x : VirtualMachine) : M W unit :=
  and_wait c (VirtualMachines_CreateOrUpdate c resourceGroupName name x).
Definition virtualMachines_DeleteAndWait c (resourceGroupName name : string) : M W unit :=
  and_wait c (VirtualMachines_Delete c resourceGroupName name).
Definition accounts_CreateAndWait c (resourceGroupName name : string) (x : StorageAccount) : M W unit :=
  and_wait c (Accounts_Create c resourceGroupName name x).

(** ** The classes of Services.v *)
Definition subnetsClient : SubnetsClient W := {|
  subnets_Get subscriptionID authorizer g v n := Subnets_Get (NewSubnetsClient subscriptionID authorizer) g v n EmptyString;
  subnets_CreateOrUpdateAndWait subscriptionID authorizer := subnets_AndWait (NewSubnetsClient subscriptionID authorizer);
|}.
Definition groupsClient : GroupsClient W := {|
  groups_DeleteAndWait subscriptionID authorizer := groups_AndWait (NewGroupsClient subscriptionID authorizer);
|}.
Definition permissionsClient : PermissionsClient W := {|
  permissions_ListForResource subscriptionID authorizer g provider t n :=
    permissions_ForResource (NewPermissionsClient subscriptionID authorizer) g provider EmptyString t n;
|}.
Definition privateEndpointsClient c : PrivateEndpointsClient W := {|
  privateendpoints_CreateOrUpdateAndWait := privateEndpoints_CreateAndWait c;
  privateendpoints_DeleteAndWait := privateEndpoints_DeleteAndWait c;
  privateendpoints_Get := PrivateEndpoints_Get c;
|}.

(** ** What a list holds: the pages up to the first empty one *)
Inductive walk {A} c : Page A -> W -> list (Page A) -> W -> Prop :=
| walk_done p w : NotDone p = false -> walk c p w [] w
| walk_next p w next w1 ps w2 :
    NotDone p = true -> Next c p w = (Ok next, w1) -> walk c next w1 ps w2 -> walk c p w (p :: ps) w2.

Lemma while_pages_ok {A} c (p : Page A) w ps w' fuel acc :
  walk c p w ps w' -> length ps < fuel -> while_pages fuel c p acc w = (Ok (acc ++ concat (pg_Value <$> ps)), w').
Proof.
  intros H. revert fuel acc. induction H as [p w Hp|p w next w1 ps w2 Hp Hn _ IH]; intros [|fuel] acc Hf;
    try (simpl in Hf; lia); cbn [while_pages]; rewrite Hp.
  - by rewrite app_nil_r.
  - unfold bind. rewrite Hn. rewrite IH by (simpl in Hf; lia). by rewrite <- app_assoc.
Qed.

(** The first page may be empty when the test is at the end. *)
Lemma until_done_ok {A} c (p : Page A) w next w1 ps w' fuel acc :
  Next c p w = (Ok next, w1) -> walk c next w1 ps w' -> length ps < fuel ->
  until_done fuel c p acc w = (Ok (acc ++ pg_Value p ++ concat (pg_Value <$> ps)), w').
Proof.
  intros Hn H. revert p w Hn fuel acc. induction H as [p' w' Hp|p' w' next' w1' ps w2' Hp Hn' _ IH]; intros p w Hn [|fuel] acc Hf;
    try (simpl in Hf; lia); cbn [until_done]; unfold bind; rewrite Hn, Hp.
  - by rewrite app_nil_r.
  - rewrite (IH p' w') by (done || simpl in Hf; lia). by rewrite <- !app_assoc.
Qed.

Lemma until_while {A} c (p : Page A) w ps w' fuel acc :
  walk c p w ps w' -> NotDone p = true -> length ps < fuel -> until_done fuel c p acc w = while_pages fuel c p acc w.
Proof.
  intros H Hp Hf. rewrite (while_pages_ok c p w ps w') by done. inversion H as [|? ? next w1 ps' ? ? Hn Hw]; subst; [congruence|].
  by rewrite (until_done_ok c p w next w1 ps' w') by (done || simpl in Hf; lia).
Qed.
End azureclient.
