(* ===== verification/Dynamic.v ===== *)
(** * Dynamic validation (src/pkg/api/v20191231preview/openshiftcluster_validatedynamic.go)

    The checks of a new cluster against Azure: the service principal, the
    permissions on the virtual network, the subnets. Tokens, Azure clients and the
    claims inside a token are services. *)
From S2P Require Import Prelude GoStrings.
From S2P Require Import Azure Api Net Cidr Services Subnets Permissions Wait.

Definition GraphEndpoint : string := "https://graph.windows.net/".

(** Tokens of Azure Active Directory (go-autorest/autorest/adal), the claims of
    one (jwt-go). *)
Class Tokens (W : Type) := {
  Token : Type;
  ServicePrincipalToken : string -> string -> string -> string -> M W Token;
  EnsureFresh : Token -> M W unit;
  OAuthToken : Token -> M W string;
  ParseUnverified : string -> res (list string);
}.

Section dynamic.
Context {W : Type} `{!Tokens W, !Ticks W, !Auth W, !PermissionsClient W, !SubnetsClient W}.

Definition fresh (token : Token) : M W bool :=
  do! r <- try (EnsureFresh token); ret (match r with inl _ => true | inr _ => false end).

(** The error that PollImmediate returns is dropped, and the one its condition
    sets is another variable: the check of [err] that follows looks at the nil of
    the token's construction. *)
Definition poll_token (token : Token) : M W unit :=
  do! _ <- try (PollImmediate time_Second (30 * time_Second) (fresh token)); ret tt.

Definition validateServicePrincipalProfile (oc : OpenShiftCluster) : M W Authorizer :=
  let spp := p_ServicePrincipalProfile (oc_Properties oc) in
  do! token <- ServicePrincipalToken (spp_ClientID spp) (spp_ClientSecret spp) (spp_TenantID spp)
                 ResourceManagerEndpoint;
  do! _ <- poll_token token;
  ret (ServicePrincipal (spp_TenantID spp) (spp_ClientID spp)).

Definition forbidden_role : string := "Application.ReadWrite.OwnedBy".
Definition check_roles (roles : list string) : res unit :=
  if existsb (fun role => bool_decide (role = forbidden_role)) roles then
    Err (NewCloudError StatusBadRequest CloudErrorCodeInvalidServicePrincipalCredentials
           "properties.servicePrincipalProfile"
           "The provided service principal must not have the Application.ReadWrite.OwnedBy permission.")
  else Ok tt.

Definition validateServicePrincipalRole (oc : OpenShiftCluster) : M W unit :=
  let spp := p_ServicePrincipalProfile (oc_Properties oc) in
  do! token <- ServicePrincipalToken (spp_ClientID spp) (spp_ClientSecret spp) (spp_TenantID spp) GraphEndpoint;
  do! _ <- poll_token token;
  do! raw <- OAuthToken token;
  do! roles <- lift (ParseUnverified raw);
  lift (check_roles roles).

Definition vnet_actions : list string :=
  ["Microsoft.Network/virtualNetworks/subnets/join/action";
   "Microsoft.Network/virtualNetworks/subnets/read";
   "Microsoft.Network/virtualNetworks/subnets/write"].

Fixpoint check_actions (permissions : list Permission) (code typ vnetID : string) (actions : list string) : res unit :=
  match actions with
  | [] => Ok tt
  | action :: actions =>
      do? ok <- CanDoAction permissions action;
      if (ok : bool) then check_actions permissions code typ vnetID actions
      else Err (NewCloudError StatusBadRequest code EmptyString
                  ("The " +:+ typ +:+ " does not have Contributor permission on vnet '" +:+ vnetID +:+ "'."))
  end.

(** The resource's type is passed as the path of the parent and the type is
    empty. *)
Definition validateVnetPermissions (oc : OpenShiftCluster) (subscriptionID : string) (client : Authorizer)
    (code typ : string) : M W unit :=
  do! '(vnetID, _) <- lift (Subnets.Split (mp_SubnetID (p_MasterProfile (oc_Properties oc))));
  do! r <- lift (ParseResourceID vnetID);
  do! permissions <- try (permissions_ListForResource subscriptionID client (r_ResourceGroup r) (r_Provider r)
                            (r_ResourceType r) (r_ResourceName r));
  match permissions with
  | inr e =>
      if is_detailed e StatusNotFound then
        throw (NewCloudError StatusBadRequest CloudErrorCodeInvalidLinkedVNet EmptyString
                 ("The vnet '" +:+ vnetID +:+ "' could not be found."))
      else throw e
  | inl permissions => lift (check_actions permissions code typ vnetID vnet_actions)
  end.

(** ** Subnets *)
Definition invalid_vnet (path message : string) : error :=
  NewCloudError StatusBadRequest CloudErrorCodeInvalidLinkedVNet path message.
Definition vm_subnet (typ subnetID rest : string) : string :=
  "The provided " +:+ typ +:+ " VM subnet '" +:+ subnetID +:+ "' " +:+ rest.

Definition Succeeded : string := "Succeeded".
Fixpoint find_endpoint (l : list ServiceEndpoint) : res bool :=
  match l with
  | [] => Ok false
  | se :: l =>
      do? service <- deref (se_Service se);
      if EqualFold service "Microsoft.ContainerRegistry" && bool_decide (se_ProvisioningState se = Succeeded)
      then Ok true else find_endpoint l
  end.

Definition nsg_of (s : Subnet) : option NSGRef :=
  spf ← sn_SubnetPropertiesFormat s; spf_NetworkSecurityGroup spf.

(** The security group: none on the subnets of a cluster that is created, the
    cluster's own on those of any other. *)
Definition check_nsg (oc : OpenShiftCluster) (s : Subnet) (path typ subnetID : string) : res unit :=
  if decide (p_ProvisioningState (oc_Properties oc) = ProvisioningStateCreating) then
    match nsg_of s with
    | Some _ => Err (invalid_vnet path (vm_subnet typ subnetID
                       "is invalid: must not have a network security group attached."))
    | None => Ok tt
    end
  else
    do? id <- deref (sn_ID s);
    do? nsgID <- Subnets.NetworkSecurityGroupID oc id;
    let bad := Err (invalid_vnet path (vm_subnet typ subnetID
                      ("is invalid: must have network security group '" +:+ nsgID +:+ "' attached."))) in
    match nsg_of s with
    | None => bad
    | Some nsg => do? id <- deref (nsg_ID nsg); if EqualFold id nsgID then Ok tt else bad
    end.

Definition check_policies (oc : OpenShiftCluster) (s : Subnet) (path typ subnetID : string) : res unit :=
  if EqualFold (mp_SubnetID (p_MasterProfile (oc_Properties oc))) subnetID then
    do? spf <- deref (sn_SubnetPropertiesFormat s);
    do? policies <- deref (spf_PrivateLinkServiceNetworkPolicies spf);
    if EqualFold policies "Disabled" then Ok tt
    else Err (invalid_vnet path (vm_subnet typ subnetID
                "is invalid: must have privateLinkServiceNetworkPolicies disabled."))
  else Ok tt.

(** What is asked of a subnet that was read, and its network *)
Definition check_subnet (oc : OpenShiftCluster) (s : Subnet) (path typ subnetID : string) : res IPNet :=
  do? _ <- check_policies oc s path typ subnetID;
  do? spf <- deref (sn_SubnetPropertiesFormat s);
  do? ses <- deref (spf_ServiceEndpoints spf);
  do? found <- find_endpoint ses;
  if negb found then
    Err (invalid_vnet path (vm_subnet typ subnetID
           "is invalid: must have Microsoft.ContainerRegistry serviceEndpoint."))
  else
    do? _ <- check_nsg oc s path typ subnetID;
    do? prefix <- deref (spf_AddressPrefix spf);
    do? '(_, net) <- ParseCIDR prefix;
    if (27 <? n_ones net)%Z then
      Err (invalid_vnet path (vm_subnet typ subnetID "is invalid: must be /27 or larger."))
    else Ok net.

Definition validateSubnet (oc : OpenShiftCluster) (subnets : Subnets.manager) (path typ subnetID : string)
    : M W IPNet :=
  do! s <- try (Subnets.Get subnets subnetID);
  match s with
  | inr e =>
      if is_detailed e StatusNotFound
      then throw (invalid_vnet path (vm_subnet typ subnetID "could not be found."))
      else throw e
  | inl s => lift (check_subnet oc s path typ subnetID)
  end.

Definition check_overlap (nets : list IPNet) : res unit :=
  match VerifyNoOverlap nets any_v4 "0.0.0.0/0" with
  | Err e => Err (invalid_vnet EmptyString ("The provided CIDRs must not overlap: '" +:+ Error_string e +:+ "'."))
  | r => r
  end.

Definition validateSubnets (oc : OpenShiftCluster) (subnets : Subnets.manager) : M W unit :=
  let p := oc_Properties oc in
  do! master <- validateSubnet oc subnets "properties.masterProfile.subnetId" "master"
                  (mp_SubnetID (p_MasterProfile p));
  do! wp <- lift (index (elems (p_WorkerProfiles p)) 0);
  do! worker <- validateSubnet oc subnets
                  ("properties.workerProfiles[" +:+ Quote "worker" +:+ "].subnetId") "worker" (wp_SubnetID wp);
  do! '(_, pod) <- lift (ParseCIDR (np_PodCIDR (p_NetworkProfile p)));
  do! '(_, service) <- lift (ParseCIDR (np_ServiceCIDR (p_NetworkProfile p)));
  lift (check_overlap [master; worker; pod; service]).

Definition Dynamic (oc : OpenShiftCluster) : M W unit :=
  do! r <- lift (ParseResourceID (oc_ID oc));
  do! spAuthorizer <- validateServicePrincipalProfile oc;
  do! _ <- validateServicePrincipalRole oc;
  do! _ <- validateVnetPermissions oc (r_SubscriptionID r) spAuthorizer
             CloudErrorCodeInvalidServicePrincipalPermissions "provided service principal";
  do! fpAuthorizer <- env_FPAuthorizer (spp_TenantID (p_ServicePrincipalProfile (oc_Properties oc)))
                        ResourceManagerEndpoint;
  do! _ <- validateVnetPermissions oc (r_SubscriptionID r) fpAuthorizer
             CloudErrorCodeInvalidResourceProviderPermissions "resource provider";
  validateSubnets oc (Subnets.NewManager (r_SubscriptionID r) spAuthorizer).
End dynamic.

(** ** What an accepted cluster has been seen to have *)

(** A service answered a call with a value. *)
Definition seen {W A} (m : M W A) (a : A) : Prop := exists w w', m w = (Ok a, w').

Lemma CanDoAction_grants ps a : CanDoAction ps a = Ok true -> Exists (grants a) ps.
Proof.
  induction ps as [|p ps IH]; simpl; [done|]. intros H. apply res_bind_ok in H as (l & Hl%deref_ok & H).
  destruct (existsb _ l) eqn:E; [|right; auto]. apply res_bind_ok in H as (n & Hn%deref_ok & H).
  destruct (existsb _ n) eqn:E'; [right; auto|left]. exists l, n. split_and!; [done|done|by apply existsb_glob|].
  intros s Hs Hg. assert (existsb (matches_action a) n = true) by (apply existsb_glob; eauto). congruence.
Qed.

Lemma check_actions_ok ps code typ vnetID actions :
  check_actions ps code typ vnetID actions = Ok tt -> Forall (fun a => Exists (grants a) ps) actions.
Proof.
  induction actions as [|a actions IH]; simpl; [constructor|]. intros H.
  apply res_bind_ok in H as ([|] & Ha & H); [|done]. constructor; [by apply CanDoAction_grants|auto].
Qed.

Record good_subnet (oc : OpenShiftCluster) (s : Subnet) (subnetID : string) (net : IPNet) : Prop := {
  gs_policies : fold_eq (mp_SubnetID (p_MasterProfile (oc_Properties oc))) subnetID ->
    exists spf p, sn_SubnetPropertiesFormat s = Some spf /\
      spf_PrivateLinkServiceNetworkPolicies spf = Some p /\ fold_eq p "Disabled";
  gs_endpoint : exists spf l se service, sn_SubnetPropertiesFormat s = Some spf /\
    spf_ServiceEndpoints spf = Some l /\ se ∈ l /\ se_Service se = Some service /\
    fold_eq service "Microsoft.ContainerRegistry" /\ se_ProvisioningState se = "Succeeded";
  gs_creating : p_ProvisioningState (oc_Properties oc) = ProvisioningStateCreating -> nsg_of s = None;
  gs_nsg : p_ProvisioningState (oc_Properties oc) <> ProvisioningStateCreating ->
    exists id nsgID nsg attached, sn_ID s = Some id /\ Subnets.NetworkSecurityGroupID oc id = Ok nsgID /\
      nsg_of s = Some nsg /\ nsg_ID nsg = Some attached /\ fold_eq attached nsgID;
  gs_net : exists spf prefix ip, sn_SubnetPropertiesFormat s = Some spf /\
    spf_AddressPrefix spf = Some prefix /\ ParseCIDR prefix = Ok (ip, net);
  gs_size : (n_ones net <= 27)%Z;
}.

Lemma find_endpoint_ok l : find_endpoint l = Ok true ->
  exists se service, se ∈ l /\ se_Service se = Some service /\
    fold_eq service "Microsoft.ContainerRegistry" /\ se_ProvisioningState se = "Succeeded".
Proof.
  induction l as [|se l IH]; simpl; [done|]. intros H. apply res_bind_ok in H as (service & Hs%deref_ok & H).
  destruct (EqualFold _ _ && _) eqn:E.
  - apply andb_true_iff in E as [E1 E2%bool_decide_eq_true]. exists se, service.
    split_and!; [by left|done| |done]. unfold fold_eq. by rewrite E1.
  - destruct (IH H) as (se' & sv & Hin & ?). exists se', sv. split; [by right|done].
Qed.

Lemma check_policies_ok oc s path typ subnetID :
  check_policies oc s path typ subnetID = Ok tt ->
  fold_eq (mp_SubnetID (p_MasterProfile (oc_Properties oc))) subnetID ->
  exists spf p, sn_SubnetPropertiesFormat s = Some spf /\
    spf_PrivateLinkServiceNetworkPolicies spf = Some p /\ fold_eq p "Disabled".
Proof.
  unfold check_policies, fold_eq. intros H Hf. destruct (EqualFold _ subnetID); [|done].
  apply res_bind_ok in H as (spf & Hs%deref_ok & H). apply res_bind_ok in H as (p & Hp%deref_ok & H).
  exists spf, p. split_and!; [done|done|]. by destruct (EqualFold p _).
Qed.

Lemma check_nsg_ok oc s path typ subnetID :
  check_nsg oc s path typ subnetID = Ok tt ->
  if decide (p_ProvisioningState (oc_Properties oc) = ProvisioningStateCreating) then nsg_of s = None
  else exists id nsgID nsg attached, sn_ID s = Some id /\ Subnets.NetworkSecurityGroupID oc id = Ok nsgID /\
      nsg_of s = Some nsg /\ nsg_ID nsg = Some attached /\ fold_eq attached nsgID.
Proof.
  unfold check_nsg. case_decide.
  - by destruct (nsg_of s).
  - intros H'. apply res_bind_ok in H' as (id & Hid%deref_ok & H'). apply res_bind_ok in H' as (nsgID & Hn & H').
    destruct (nsg_of s) as [nsg|] eqn:Es; [|done]. apply res_bind_ok in H' as (at' & Ha%deref_ok & H').
    exists id, nsgID, nsg, at'. split_and!; [done..|]. unfold fold_eq. by destruct (EqualFold _ _).
Qed.

Lemma check_subnet_ok oc s path typ subnetID net :
  check_subnet oc s path typ subnetID = Ok net -> good_subnet oc s subnetID net.
Proof.
  unfold check_subnet. intros H. apply res_bind_ok in H as ([] & Hp & H).
  apply res_bind_ok in H as (spf & Hs%deref_ok & H). apply res_bind_ok in H as (l & Hl%deref_ok & H).
  apply res_bind_ok in H as ([|] & He & H); [|done]. cbn [negb] in H.
  apply res_bind_ok in H as ([] & Hn%check_nsg_ok & H). apply res_bind_ok in H as (prefix & Hpr%deref_ok & H).
  apply res_bind_ok in H as ([ip n] & Hc & H). destruct (Z.ltb_spec 27 (n_ones n)); [done|]. injection H as ->.
  apply find_endpoint_ok in He as (se & sv & ?). split; [by apply (check_policies_ok _ _ path typ)|..].
  - exists spf, l, se, sv. naive_solver.
  - intros Hc'. by rewrite decide_True in Hn.
  - intros Hc'. by rewrite decide_False in Hn.
  - by exists spf, prefix, ip.
  - done.
Qed.

Section accepted.
Context {W : Type} `{!Tokens W, !Ticks W, !Auth W, !PermissionsClient W, !SubnetsClient W}.
Implicit Types (w : W).

(** The permissions that were listed for an identity grant what the program does
    on the cluster's virtual network. *)
Definition may_write_vnet (oc : OpenShiftCluster) (subscriptionID : string) (client : Authorizer) : Prop :=
  exists vnetID name r permissions,
    Subnets.Split (mp_SubnetID (p_MasterProfile (oc_Properties oc))) = Ok (vnetID, name) /\
    ParseResourceID vnetID = Ok r /\
    seen (permissions_ListForResource subscriptionID client (r_ResourceGroup r) (r_Provider r)
            (r_ResourceType r) (r_ResourceName r)) permissions /\
    Forall (fun a => Exists (grants a) permissions) vnet_actions.

Lemma validateVnetPermissions_ok oc sub client code typ w w' :
  validateVnetPermissions oc sub client code typ w = (Ok tt, w') -> may_write_vnet oc sub client.
Proof.
  unfold validateVnetPermissions. intros H.
  apply bind_inv_ok in H as ([vnetID name] & w1 & [Hs ->]%lift_inv & H).
  apply bind_inv_ok in H as (r & w2 & [Hr ->]%lift_inv & H).
  apply bind_inv_ok in H as ([ps|e] & w3 & Hp%try_inv & H); [|by destruct (is_detailed e _)].
  apply lift_inv in H as [H%check_actions_ok ->]. exists vnetID, name, r, ps.
  split_and!; [done|done|by exists w, w3|done].
Qed.

Lemma validateServicePrincipalProfile_ok oc w a w' :
  validateServicePrincipalProfile oc w = (Ok a, w') ->
  a = ServicePrincipal (spp_TenantID (p_ServicePrincipalProfile (oc_Properties oc)))
        (spp_ClientID (p_ServicePrincipalProfile (oc_Properties oc))).
Proof.
  unfold validateServicePrincipalProfile. intros H.
  apply bind_inv_ok in H as (token & w1 & _ & H). by apply bind_inv_ok in H as ([] & w2 & _ & [= <- _]).
Qed.

(** The service principal's token does not carry the forbidden role. *)
Definition without_role (oc : OpenShiftCluster) : Prop :=
  let spp := p_ServicePrincipalProfile (oc_Properties oc) in
  exists token raw roles,
    seen (ServicePrincipalToken (spp_ClientID spp) (spp_ClientSecret spp) (spp_TenantID spp) GraphEndpoint) token /\
    seen (OAuthToken token) raw /\ ParseUnverified raw = Ok roles /\ forbidden_role ∉ roles.

Lemma check_roles_ok roles : check_roles roles = Ok tt <-> forbidden_role ∉ roles.
Proof.
  unfold check_roles. destruct (existsb _ roles) eqn:E.
  - apply existsb_exists in E as (role & Hin%list_elem_of_In & ->%bool_decide_eq_true). naive_solver.
  - split; [|done]. intros _ Hin. apply not_true_iff_false in E. apply E, existsb_exists.
    exists forbidden_role. split; [by apply list_elem_of_In|by apply bool_decide_eq_true].
Qed.

Lemma validateServicePrincipalRole_ok oc w w' :
  validateServicePrincipalRole oc w = (Ok tt, w') -> without_role oc.
Proof.
  unfold validateServicePrincipalRole. intros H.
  apply bind_inv_ok in H as (token & w1 & Ht & H). apply bind_inv_ok in H as ([] & w2 & _ & H).
  apply bind_inv_ok in H as (raw & w3 & Hr & H). apply bind_inv_ok in H as (roles & w4 & [Hp ->]%lift_inv & H).
  apply lift_inv in H as [H%check_roles_ok ->]. exists token, raw, roles.
  split_and!; [by exists w, w1|by exists w2, w3|done|done].
Qed.

Lemma validateSubnet_ok oc subnets path typ subnetID w net w' :
  validateSubnet oc subnets path typ subnetID w = (Ok net, w') ->
  exists s, seen (Subnets.Get subnets subnetID) s /\ good_subnet oc s subnetID net.
Proof.
  unfold validateSubnet. intros H. apply bind_inv_ok in H as ([s|e] & w1 & Hs%try_inv & H).
  - apply lift_inv in H as [H%check_subnet_ok ->]. exists s. split; [by exists w, w1|done].
  - by destruct (is_detailed e _).
Qed.

Lemma check_overlap_ok nets : check_overlap nets = Ok tt <-> VerifyNoOverlap nets any_v4 "0.0.0.0/0" = Ok tt.
Proof. unfold check_overlap. by destruct (VerifyNoOverlap _ _ _) as [[]| | |]. Qed.

(** A network of at most /27 that passed the check is one of IPv4. *)
Lemma good_subnet_v4 oc s subnetID net :
  good_subnet oc s subnetID net -> is_Some (To4 (n_IP net)) -> v4net net.
Proof.
  intros [_ _ _ _ (spf & prefix & ip & _ & _ & Hp) Hsize] H4. eapply ParseCIDR_v4net; [done|].
  destruct (ParseCIDR_v4_net _ _ _ Hp H4); [lia|done].
Qed.

(** The pod and the service network, as the static validation leaves them: written
    in IPv4 *)
Definition cluster_net (cidr : string) (net : IPNet) : Prop :=
  exists ip, ParseCIDR cidr = Ok (ip, net) /\ n_bits net = 32%Z.

Definition pairwise_disjoint (nets : list IPNet) : Prop :=
  forall i j m n, i <> j -> nets !! i = Some m -> nets !! j = Some n -> disjoint_nets m n.

Lemma validateSubnets_ok oc subnets pod service w w' :
  cluster_net (np_PodCIDR (p_NetworkProfile (oc_Properties oc))) pod ->
  cluster_net (np_ServiceCIDR (p_NetworkProfile (oc_Properties oc))) service ->
  validateSubnets oc subnets w = (Ok tt, w') ->
  exists wp s t master worker,
    elems (p_WorkerProfiles (oc_Properties oc)) !! 0 = Some wp /\
    seen (Subnets.Get subnets (mp_SubnetID (p_MasterProfile (oc_Properties oc)))) s /\
    good_subnet oc s (mp_SubnetID (p_MasterProfile (oc_Properties oc))) master /\
    seen (Subnets.Get subnets (wp_SubnetID wp)) t /\
    good_subnet oc t (wp_SubnetID wp) worker /\
    pairwise_disjoint [master; worker; pod; service].
Proof.
  intros (ip & Hpod & Hpb) (ip' & Hsvc & Hsb). unfold validateSubnets. intros H.
  apply bind_inv_ok in H as (master & w1 & (s & Hs & Hm)%validateSubnet_ok & H).
  apply bind_inv_ok in H as (wp & w2 & [Hwp ->]%lift_inv & H).
  apply bind_inv_ok in H as (worker & w3 & (t & Ht & Hw)%validateSubnet_ok & H).
  apply bind_inv_ok in H as ([ip1 net1] & w4 & [Hpod' ->]%lift_inv & H).
  apply bind_inv_ok in H as ([ip2 net2] & w5 & [Hsvc' ->]%lift_inv & H).
  rewrite Hpod in Hpod'. rewrite Hsvc in Hsvc'. simplify_eq.
  apply lift_inv in H as [H%check_overlap_ok ->]. pose proof (VerifyNoOverlap_v4 _ _ H) as H4.
  repeat (apply Forall_cons in H4 as [? H4]).
  exists wp, s, t, master, worker.
  split_and!; [unfold index in Hwp; by destruct (_ !! 0); simplify_eq|done..|].
  refine (proj1 (VerifyNoOverlap_spec _ _ _) H).
  repeat apply Forall_cons_2; [by eauto using good_subnet_v4, ParseCIDR_v4net..|constructor].
Qed.

(** The polls end, however the ticks come. *)
Lemma poll_token_total token :
  total (poller_tick (W := W)) -> total (EnsureFresh token) -> total (poll_token token).
Proof.
  intros Ht Hf. unfold poll_token. apply total_bind; [|intros; apply total_ret].
  apply total_try, PollImmediate_total; [done|]. unfold fresh.
  apply total_bind; [by apply total_try|intros; apply total_ret].
Qed.

(** *** What the validation does to the world, the services' doing included *)
Context (R : W -> W -> Prop) `{!PreOrder R}.
Context (Rnew : forall c k t r, steps R (ServicePrincipalToken c k t r)) (Rfresh : forall t, steps R (EnsureFresh t)).
Context (Rraw : forall t, steps R (OAuthToken t)) (Rtick : steps R (poller_tick (W := W))).
Context (Rfp : forall t r, steps R (env_FPAuthorizer t r)).
Context (Rperm : forall s a g p t n, steps R (permissions_ListForResource s a g p t n)).
Context (Rsub : forall s a g v n, steps R (subnets_Get s a g v n)).

Lemma poll_token_steps token : steps R (poll_token token).
Proof.
  unfold poll_token, fresh. steps_auto; apply PollImmediate_steps; steps_auto.
Qed.

Lemma Dynamic_steps oc : steps R (Dynamic oc).
Proof.
  pose proof poll_token_steps as Hp.
  unfold Dynamic, validateServicePrincipalProfile, validateServicePrincipalRole, validateVnetPermissions,
    validateSubnets, validateSubnet, Subnets.Get. steps_auto.
Qed.
End accepted.
