(* ===== verification/Frontend.v ===== *)
(** * The front end's handlers (src/pkg/frontend)

    One definition per handler, over the database layer and a version of the
    API. The [*http.Header] the handlers fill in is a cell of the world, since
    it outlives a try that fails. JSON is encoded and decoded by [Codec] and by
    the version. *)
From S2P Require Import Prelude GoStrings.
From S2P Require Import Azure Api External Services.
From S2P Require Import Cosmos Database.

(** ** Requests and responses *)
Record Request := mkRequest {
  r_Method : string;
  r_Path : string;                    (* r.URL.Path *)
  r_OriginalPath : string;            (* the path before it was lower-cased *)
  r_Vars : gmap string string;        (* mux.Vars(r) *)
  r_Header : Header;
  r_Body : string;                    (* the body the middleware has read *)
}.
Definition var (r : Request) (k : string) : string := default EmptyString (r_Vars r !! k).

Record HttpResponse := mkHttpResponse {
  resp_StatusCode : Z;
  resp_Header : Header;
  resp_Body : option string;
}.

Class Codec := {
  encode_error : CloudErrorBody -> string;
  encode_async : AsyncOperation -> string;
  encode_subscription : Subscription -> string;
  (** into a pointer: the body "null" leaves it nil *)
  decode_subscription : string -> option Subscription + string;
  json_Valid : string -> bool;
}.

(** A version of the API (src/pkg/api/register.go): its converter, its
    validator, and the JSON of its external types. Unmarshalling "null" leaves
    no value behind. *)
Record Version (W : Type) := mkVersion {
  v_External : Type;
  v_ToExternal : OpenShiftCluster -> v_External;
  v_ToInternal : v_External -> OpenShiftCluster -> OpenShiftCluster;
  v_Unmarshal : string -> v_External -> option v_External + string;
  v_Marshal : v_External -> string;
  v_MarshalList : list OpenShiftCluster -> string;
  v_Credentials : OpenShiftCluster -> string;
  v_Static : string -> string -> v_External -> option OpenShiftCluster -> res unit;
  v_Dynamic : OpenShiftCluster -> M W unit;
}.
Arguments v_ToExternal {W}.
Arguments v_ToInternal {W}.
Arguments v_Unmarshal {W}.
Arguments v_Marshal {W}.
Arguments v_MarshalList {W}.
Arguments v_Credentials {W}.
Arguments v_Static {W}.
Arguments v_Dynamic {W}.

Definition internal_server_error : CloudErrorBody :=
  NewCloudErrorBody CloudErrorCodeInternalServerError EmptyString "Internal server error.".

Section frontend.
Context {W : Type} `{!Runtime W, !Account W} {PB : PageBound} `{!Cell W Header}.
Context {EV : Env} {U : Url} {CD : Codec}.
Context (db : Database) (apis : gmap string (Version W)) (feature_operations : bool).

(** ** frontend.go, error.go *)
Definition WriteCloudError (header : Header) (statusCode : Z) (body : CloudErrorBody) : HttpResponse :=
  mkHttpResponse statusCode header (Some (encode_error body)).

(** The reply: a cloud error as it is, a status with what body there is, any
    other error as an internal one. *)
Definition reply (header : Header) (b : option string) (err : option error) : HttpResponse :=
  match err with
  | None => mkHttpResponse StatusOK header b
  | Some (ErrCloud n body) => WriteCloudError header n body
  | Some (ErrStatusCode n) => mkHttpResponse n header b
  | Some _ => WriteCloudError header StatusInternalServerError internal_server_error
  end.

(** What a handler's inner function returned: bytes and maybe a status, or an
    error *)
Definition reply_outcome (header : Header) (r : (option string * option error) + error) : HttpResponse :=
  match r with
  | inl (b, err) => reply header b err
  | inr e => reply header None (Some e)
  end.

(** [f.apis[vars["api-version"]]] *)
Definition api_version (r : Request) : res (Version W) := deref (apis !! var r "api-version").

(** ** validate.go *)
Definition validateTerminalProvisioningState (state : ProvisioningState) : res unit :=
  if bool_decide (state = ProvisioningStateSucceeded) || bool_decide (state = ProvisioningStateFailed)
  then Ok tt
  else Err (NewCloudError StatusBadRequest CloudErrorCodeRequestNotAllowed EmptyString
              ("Request is not allowed in provisioningState '" +:+ state +:+ "'.")).

Definition invalid_subscription_state (rest : string) : error :=
  NewCloudError StatusBadRequest CloudErrorCodeInvalidSubscriptionState EmptyString
    ("Request is not allowed in " +:+ rest).

Definition validateSubscriptionState (key : string) (allowedStates : list SubscriptionState)
    : M W SubscriptionDocument :=
  do! r <- lift (ParseResourceID key);
  do! doc <- try (Subscriptions.Get (db_Subscriptions db) (r_SubscriptionID r));
  match doc with
  | inr e =>
      if IsErrorStatusCode e StatusNotFound
      then throw (invalid_subscription_state
                    ("unregistered subscription '" +:+ r_SubscriptionID r +:+ "'."))
      else throw e
  | inl doc =>
      do! doc <- lift (deref doc);
      do! s <- lift (deref (sd_Subscription doc));
      if existsb (fun st => bool_decide (s_State s = st)) allowedStates then ret doc
      else throw (invalid_subscription_state ("subscription in state '" +:+ s_State s +:+ "'."))
  end.

(** ** asyncoperations.go *)
Definition operationsPath (r : Request) (id : string) : string :=
  "/subscriptions/" +:+ var r "subscriptionId" +:+ "/providers/" +:+ var r "resourceProviderNamespace" +:+
  "/locations/" +:+ ToLower env_Location +:+ "/operationsstatus/" +:+ id.
Definition operationResultsPath (r : Request) (id : string) : string :=
  "/subscriptions/" +:+ var r "subscriptionId" +:+ "/providers/" +:+ var r "resourceProviderNamespace" +:+
  "/locations/" +:+ ToLower env_Location +:+ "/operationresults/" +:+ id.

Definition no_meta : DocMeta := mkDocMeta EmptyString 0 EmptyString EmptyString EmptyString.

Definition newAsyncOperation (r : Request) (doc : OpenShiftClusterDocument) : M W string :=
  do! id <- uuid_NewV4;
  do! oc <- lift (deref (ocd_OpenShiftCluster doc));
  do! now <- time_Now;
  do! _ <- AsyncOperations.Create (db_AsyncOperations db)
    (mkAsyncOperationDocument no_missing id no_meta
       (Some (mkAsyncOperation no_missing (operationsPath r id) id (state_of oc) (state_of oc) now None None))
       (ocd_Key doc) None);
  ret id.

(** ** openshiftcluster_putorpatch.go *)

(** A document for a cluster that does not exist yet *)
Definition new_document (id : string) (r : Request) (originalR : Resource) (tenantID : string)
    : OpenShiftClusterDocument :=
  mkOpenShiftClusterDocument no_missing id no_meta (r_Path r) EmptyString EmptyString EmptyString 0 0 EmptyString
    (Some (mkOpenShiftCluster no_missing (r_OriginalPath r) (r_ResourceName originalR)
       (r_Provider originalR +:+ "/" +:+ r_ResourceType originalR) EmptyString None
       (mkProperties no_missing ProvisioningStateSucceeded EmptyString
          (mkClusterProfile no_missing EmptyString EmptyString EmptyString)
          (mkConsoleProfile no_missing EmptyString)
          (mkServicePrincipalProfile no_missing tenantID EmptyString EmptyString)
          (mkNetworkProfile no_missing EmptyString EmptyString EmptyString)
          (mkMasterProfile no_missing EmptyString EmptyString) None
          (mkAPIServerProfile no_missing EmptyString EmptyString EmptyString) None None EmptyString None None
          EmptyString))).

(** The cluster a PUT starts from: its identity and its provisioning state *)
Definition put_base (oc : OpenShiftCluster) : OpenShiftCluster :=
  mkOpenShiftCluster no_missing (oc_ID oc) (oc_Name oc) (oc_Type oc) EmptyString None
    (mkProperties no_missing (state_of oc) EmptyString
       (mkClusterProfile no_missing EmptyString EmptyString EmptyString)
       (mkConsoleProfile no_missing EmptyString)
       (mkServicePrincipalProfile no_missing EmptyString EmptyString EmptyString)
       (mkNetworkProfile no_missing EmptyString EmptyString EmptyString)
       (mkMasterProfile no_missing EmptyString EmptyString) None
       (mkAPIServerProfile no_missing EmptyString EmptyString EmptyString) None None EmptyString None None
       EmptyString).

Definition not_allowed (what : string) : error :=
  NewCloudError StatusBadRequest CloudErrorCodeRequestNotAllowed EmptyString
    ("Request is not allowed on cluster whose " +:+ what +:+ " failed. Delete the cluster.").

(** The gate on the provisioning state, and what it does to the cluster *)
Definition gate_update (oc : OpenShiftCluster) : res OpenShiftCluster :=
  do? _ <- validateTerminalProvisioningState (state_of oc);
  if decide (state_of oc = ProvisioningStateFailed) then
    if decide (failed_state_of oc = ProvisioningStateCreating) then Err (not_allowed "creation")
    else if decide (failed_state_of oc = ProvisioningStateUpdating) then Ok (set_failed_state EmptyString oc)
    else if decide (failed_state_of oc = ProvisioningStateDeleting) then Err (not_allowed "deletion")
    else Err (ErrOther ("unexpected failedProvisioningState " +:+ Quote (failed_state_of oc)))
  else Ok oc.

(** The request's body over the cluster, validated, back in the internal form:
    identity and casing stay those of the stored cluster. *)
Definition apply_body (v : Version W) (r : Request) (isCreate : bool) (oc : OpenShiftCluster)
    : res OpenShiftCluster :=
  do? ext <- (if decide (r_Method r = "PUT") then Ok (v_ToExternal v (put_base oc))
              else if decide (r_Method r = "PATCH") then Ok (v_ToExternal v oc)
              else Panic "interface conversion: interface {} is not *OpenShiftCluster");
  match v_Unmarshal v (r_Body r) ext with
  | inr err =>
      Err (NewCloudError StatusBadRequest CloudErrorCodeInvalidRequestContent EmptyString
             ("The request content was invalid and could not be deserialized: " +:+ Quote err +:+ "."))
  | inl None => Panic "interface conversion: interface {} is nil, not *OpenShiftCluster"
  | inl (Some ext) =>
      do? _ <- v_Static v env_Location (r_Path r) ext (if isCreate then None else Some oc);
      let oc' := v_ToInternal v ext oc in
      Ok (oc' <| oc_ID := oc_ID oc |> <| oc_Name := oc_Name oc |> <| oc_Type := oc_Type oc |>)
  end.

(** What a request writes into the document for the back end to work on *)
Definition enqueue (isCreate : bool) (doc : OpenShiftClusterDocument) (oc : OpenShiftCluster)
    : OpenShiftClusterDocument :=
  if isCreate then
    let oc := set_state ProvisioningStateCreating oc in
    let oc := oc <| oc_Properties -> p_ClusterProfile -> cp_Version := "4.3.0-0.nightly-2019-12-05-001549" |> in
    doc <| ocd_ClusterResourceGroupIDKey :=
             ToLower (cp_ResourceGroupID (p_ClusterProfile (oc_Properties oc))) |>
        <| ocd_OpenShiftCluster := Some oc |>
  else
    doc <| ocd_OpenShiftCluster := Some (set_state ProvisioningStateUpdating oc) |> <| ocd_Dequeues := 0%Z |>.

Definition resource_group_taken (doc : OpenShiftClusterDocument) : error :=
  NewCloudError StatusBadRequest CloudErrorCodeInvalidResourceGroup EmptyString
    ("The provided resource group '" +:+
     match ocd_OpenShiftCluster doc with
     | Some oc => cp_ResourceGroupID (p_ClusterProfile (oc_Properties oc))
     | None => EmptyString
     end +:+ "' already contains a cluster.").

(** The document is stored. The [err] of the creation is declared in the inner
    block, and the check that follows looks at the outer one: an error other than
    a failed precondition leaves a nil document behind. *)
Definition put_document (isCreate : bool) (doc : OpenShiftClusterDocument)
    : M W (option OpenShiftClusterDocument) :=
  if isCreate then
    do! newdoc <- try (OpenShiftClusters.Create (db_OpenShiftClusters db) doc);
    match newdoc with
    | inl newdoc => ret newdoc
    | inr e => if IsErrorStatusCode e StatusPreconditionFailed then throw (resource_group_taken doc) else ret None
    end
  else OpenShiftClusters.Update (db_OpenShiftClusters db) doc.

(** [Azure-AsyncOperation: ...], behind a feature flag *)
Definition set_async_header (r : Request) (id : string) : M W unit :=
  if feature_operations then
    let referer := h_Get (r_Header r) "Referer" in
    if url_Parse_ok referer then
      set_cell {["Azure-AsyncOperation" := [url_with_path referer (operationsPath r id)]]}
    else throw (ErrOther "parse: invalid URL")
  else ret tt.

Definition _putOrPatchOpenShiftCluster (v : Version W) (r : Request) : M W (option string * option error) :=
  do! subdoc <- validateSubscriptionState (r_Path r) [SubscriptionStateRegistered];
  do! found <- try (OpenShiftClusters.Get (db_OpenShiftClusters db) (r_Path r));
  do! '(isCreate, doc) <-
    match found with
    | inl doc => ret (false, doc)
    | inr e =>
        if IsErrorStatusCode e StatusNotFound then
          do! originalR <- lift (ParseResourceID (r_OriginalPath r));
          do! id <- uuid_NewV4;
          do! s <- lift (deref (sd_Subscription subdoc));
          do! sp <- lift (deref (s_Properties s));
          ret (true, new_document id r originalR (sp_TenantID sp))
        else throw e
    end;
  do! oc <- lift (deref (ocd_OpenShiftCluster doc));
  do! oc <- lift (gate_update oc);
  do! oc <- lift (apply_body v r isCreate oc);
  let doc := enqueue isCreate doc oc in
  do! oc <- lift (deref (ocd_OpenShiftCluster doc));
  do! _ <- v_Dynamic v oc;
  do! id <- newAsyncOperation r doc;
  let doc := doc <| ocd_AsyncOperationID := id |> in
  do! _ <- set_async_header r id;
  do! doc <- put_document isCreate doc;
  do! doc <- lift (deref doc);
  do! oc <- lift (deref (ocd_OpenShiftCluster doc));
  ret (Some (v_Marshal v (v_ToExternal v (blank_secret oc))),
       if isCreate then Some (ErrStatusCode StatusCreated) else None).

Definition putOrPatchOpenShiftCluster (r : Request) : M W HttpResponse :=
  do! _ <- set_cell ∅;
  do! v <- lift (api_version r);
  do! out <- try (RetryOnPreconditionFailed (_putOrPatchOpenShiftCluster v r));
  do! header <- get_cell;
  ret (reply_outcome header out).

(** ** openshiftcluster_delete.go *)

(** What a DELETE writes into the document for the back end to work on *)
Definition enqueue_delete (doc : OpenShiftClusterDocument) : OpenShiftClusterDocument :=
  set_oc (set_state ProvisioningStateDeleting) doc <| ocd_Dequeues := 0%Z |>.

Definition delete_header (r : Request) (id : string) : M W unit :=
  let referer := h_Get (r_Header r) "Referer" in
  if url_Parse_ok referer then
    let h := {["Location" := [url_with_path referer (operationResultsPath r id)]]} in
    set_cell
      (if feature_operations
       then <["Azure-AsyncOperation" := [url_with_path referer (operationsPath r id)]]> h
       else h)
  else throw (ErrOther "parse: invalid URL").

Definition _deleteOpenShiftCluster (r : Request) (doc : OpenShiftClusterDocument)
    : M W OpenShiftClusterDocument :=
  do! _ <- validateSubscriptionState (ocd_Key doc)
    [SubscriptionStateRegistered; SubscriptionStateWarned; SubscriptionStateSuspended];
  do! oc <- lift (deref (ocd_OpenShiftCluster doc));
  do! _ <- lift (validateTerminalProvisioningState (state_of oc));
  let doc := enqueue_delete doc in
  do! id <- newAsyncOperation r doc;
  let doc := doc <| ocd_AsyncOperationID := id |> in
  do! _ <- delete_header r id;
  ret doc.

Definition delete_outcome {A} (out : A + error) : error :=
  match out with
  | inl _ => ErrStatusCode StatusAccepted
  | inr e => if IsErrorStatusCode e StatusNotFound then ErrStatusCode StatusNoContent else e
  end.

Definition deleteOpenShiftCluster (r : Request) : M W HttpResponse :=
  do! _ <- set_cell ∅;
  do! out <- try (OpenShiftClusters.Patch (db_OpenShiftClusters db) (r_Path r) (_deleteOpenShiftCluster r));
  do! header <- get_cell;
  ret (reply header None (Some (delete_outcome out))).

(** ** openshiftcluster_get.go *)
Definition resource_not_found (r : Request) : error :=
  NewCloudError StatusNotFound CloudErrorCodeResourceNotFound EmptyString
    ("The Resource '" +:+ var r "resourceType" +:+ "/" +:+ var r "resourceName" +:+
     "' under resource group '" +:+ var r "resourceGroupName" +:+ "' was not found.").

(** The cluster a key names, or the client's 404 *)
Definition get_cluster (r : Request) (key : string) : M W OpenShiftClusterDocument :=
  do! found <- try (OpenShiftClusters.Get (db_OpenShiftClusters db) key);
  match found with
  | inl doc => ret doc
  | inr e => if IsErrorStatusCode e StatusNotFound then throw (resource_not_found r) else throw e
  end.

Definition _getOpenShiftCluster (v : Version W) (r : Request) : M W string :=
  do! doc <- get_cluster r (r_Path r);
  do! oc <- lift (deref (ocd_OpenShiftCluster doc));
  ret (v_Marshal v (v_ToExternal v (blank_secret oc))).

(** [reply(log, w, nil, b, err)] of an inner handler that returns bytes *)
Definition reply_bytes (m : M W string) : M W HttpResponse :=
  do! out <- try m;
  ret (reply_outcome ∅ (match out with inl b => inl (Some b, None) | inr e => inr e end)).

Definition getOpenShiftCluster (r : Request) : M W HttpResponse :=
  do! v <- lift (api_version r);
  reply_bytes (_getOpenShiftCluster v r).

(** ** openshiftcluster_list.go *)

(** The clusters of a page, their secrets blanked; a document without a cluster
    panics. *)
Fixpoint blank_secrets (docs : list OpenShiftClusterDocument) : res (list OpenShiftCluster) :=
  match docs with
  | [] => Ok []
  | doc :: docs =>
      do? oc <- deref (ocd_OpenShiftCluster doc);
      do? ocs <- blank_secrets docs;
      Ok (blank_secret oc :: ocs)
  end.

Fixpoint list_pages (fuel : nat) (i : queryIterator) (ocs : list OpenShiftCluster)
    : M W (list OpenShiftCluster) :=
  match fuel with
  | 0 => lift OutOfFuel
  | S fuel =>
      do! '(docs, i) <- Next (OpenShiftClusters.c (db_OpenShiftClusters db)) i;
      match docs with
      | None => ret ocs
      | Some docs =>
          do! l <- lift (blank_secrets (ds_Documents docs));
          list_pages fuel i (ocs ++ l)
      end
  end.

Definition list_prefix (r : Request) : string :=
  "/subscriptions/" +:+ var r "subscriptionId" +:+ "/" +:+
  (if decide (var r "resourceGroupName" = EmptyString) then EmptyString
   else "resourcegroups/" +:+ var r "resourceGroupName" +:+ "/").

Definition _getOpenShiftClusters (v : Version W) (r : Request) : M W string :=
  do! i <- lift (OpenShiftClusters.ListByPrefix (db_OpenShiftClusters db) (var r "subscriptionId") (list_prefix r));
  do! ocs <- list_pages page_bound i [];
  ret (v_MarshalList v ocs).

Definition getOpenShiftClusters (r : Request) : M W HttpResponse :=
  do! v <- lift (api_version r);
  reply_bytes (_getOpenShiftClusters v r).

(** ** openshiftclustercredentials_post.go *)
Definition _postOpenShiftClusterCredentials (v : Version W) (r : Request) : M W string :=
  do! _ <- validateSubscriptionState (r_Path r) [SubscriptionStateRegistered];
  do! doc <- get_cluster r (r_Path r);
  do! oc <- lift (deref (ocd_OpenShiftCluster doc));
  if decide (state_of oc = ProvisioningStateCreating) then
    throw (NewCloudError StatusBadRequest CloudErrorCodeRequestNotAllowed EmptyString
             ("Request is not allowed in provisioningState '" +:+ state_of oc +:+ "'."))
  else ret (v_Credentials v (blank_secret oc)).

Definition with_path (p : string) (r : Request) : Request :=
  mkRequest (r_Method r) p (r_OriginalPath r) (r_Vars r) (r_Header r) (r_Body r).

Definition postOpenShiftClusterCredentials (r : Request) : M W HttpResponse :=
  if negb (bool_decide (r_Body r = EmptyString)) && negb (json_Valid (r_Body r)) then
    ret (WriteCloudError ∅ StatusBadRequest
           (NewCloudErrorBody CloudErrorCodeInvalidRequestContent EmptyString
              "The request content was invalid and could not be deserialized."))
  else
    let r := with_path (filepath_Dir (r_Path r)) r in
    do! v <- lift (api_version r);
    reply_bytes (_postOpenShiftClusterCredentials v r).

(** ** asyncoperationresult_get.go, asyncoperationsstatus_get.go *)
Definition entity_not_found : error :=
  NewCloudError StatusNotFound CloudErrorCodeNotFound EmptyString "The entity was not found.".

Definition get_operation (r : Request) : M W AsyncOperationDocument :=
  do! found <- try (AsyncOperations.Get (db_AsyncOperations db) (var r "operationId"));
  match found with
  | inl asyncdoc => lift (deref asyncdoc)
  | inr e => if IsErrorStatusCode e StatusNotFound then throw entity_not_found else throw e
  end.

(** Whether the operation is still the one its cluster's document names: its
    outcome is not committed yet. *)
Definition in_progress (r : Request) (asyncdoc : AsyncOperationDocument) : M W bool :=
  do! found <- try (OpenShiftClusters.Get (db_OpenShiftClusters db) (ad_OpenShiftClusterKey asyncdoc));
  match found with
  | inl doc => ret (bool_decide (ocd_AsyncOperationID doc = var r "operationId"))
  | inr e => if IsErrorStatusCode e StatusNotFound then ret false else throw e
  end.

Definition _getAsyncOperationResult (v : Version W) (r : Request) : M W (option string * option error) :=
  do! asyncdoc <- get_operation r;
  do! running <- in_progress r asyncdoc;
  if running : bool then
    do! h <- get_cell;
    do! _ <- set_cell (<["Location" := default [] (r_Header r !! "Referer")]> h);
    ret (None, Some (ErrStatusCode StatusAccepted))
  else
    match ad_OpenShiftCluster asyncdoc with
    | None => ret (None, Some (ErrStatusCode StatusNoContent))
    | Some oc => ret (Some (v_Marshal v (v_ToExternal v (blank_secret oc))), None)
    end.

Definition getAsyncOperationResult (r : Request) : M W HttpResponse :=
  do! _ <- set_cell ∅;
  do! v <- lift (api_version r);
  do! out <- try (_getAsyncOperationResult v r);
  do! header <- get_cell;
  ret (reply_outcome header out).

(** What a client is shown of an operation that is still running *)
Definition hide_outcome (ao : AsyncOperation) : AsyncOperation :=
  ao <| ao_ProvisioningState := ao_InitialProvisioningState ao |> <| ao_EndTime := None |> <| ao_Error := None |>.
Definition public_operation (ao : AsyncOperation) : AsyncOperation :=
  ao <| ao_MissingFields := no_missing |> <| ao_InitialProvisioningState := EmptyString |>.

Definition _getAsyncOperationsStatus (r : Request) : M W string :=
  do! asyncdoc <- get_operation r;
  do! running <- in_progress r asyncdoc;
  do! ao <- lift (deref (ad_AsyncOperation asyncdoc));
  ret (encode_async (public_operation (if running : bool then hide_outcome ao else ao))).

Definition getAsyncOperationsStatus (r : Request) : M W HttpResponse :=
  reply_bytes (_getAsyncOperationsStatus r).

(** ** subscriptions_put.go *)
Definition new_subscription (r : Request) : SubscriptionDocument :=
  mkSubscriptionDocument no_missing (var r "subscriptionId") no_meta EmptyString 0 0 false
    (Some (mkSubscription no_missing EmptyString None)).

(** The new state in the document, if the request may ask for it *)
Definition change_subscription (oldState : SubscriptionState) (s : Subscription) (doc : SubscriptionDocument)
    : res SubscriptionDocument :=
  let doc := doc <| sd_Subscription := Some s |> in
  do? doc <-
    (if existsb (fun st => bool_decide (s_State s = st))
          [SubscriptionStateRegistered; SubscriptionStateUnregistered; SubscriptionStateWarned;
           SubscriptionStateSuspended]
     then Ok doc
     else if decide (s_State s = SubscriptionStateDeleted) then Ok (doc <| sd_Deleting := true |>)
     else Err (NewCloudError StatusBadRequest CloudErrorCodeInvalidParameter "state"
                 ("The provided state '" +:+ s_State s +:+ "' is invalid.")));
  if decide (oldState = SubscriptionStateDeleted /\ s_State s <> SubscriptionStateDeleted)
  then Err (invalid_subscription_state ("subscription in state '" +:+ oldState +:+ "'."))
  else Ok doc.

Definition _putSubscription (r : Request) : M W (option string * option error) :=
  do! found <- try (Subscriptions.Get (db_Subscriptions db) (var r "subscriptionId"));
  do! stored <-
    match found with
    | inl doc => ret doc
    | inr e => if IsErrorStatusCode e StatusNotFound then ret None else throw e
    end;
  let isCreate := bool_decide (stored = None) in
  let doc := default (new_subscription r) stored in
  do! old <- lift (deref (sd_Subscription doc));
  match decode_subscription (r_Body r) with
  | inr err =>
      throw (NewCloudError StatusBadRequest CloudErrorCodeInvalidRequestContent EmptyString
               ("The request content was invalid and could not be deserialized: " +:+ Quote err +:+ "."))
  | inl s =>
      do! s <- lift (deref s);
      do! doc <- lift (change_subscription (s_State old) s doc);
      do! doc <- (if isCreate then Subscriptions.Create (db_Subscriptions db) doc
                  else Subscriptions.Update (db_Subscriptions db) doc);
      do! doc <- lift (deref doc);
      do! s <- lift (deref (sd_Subscription doc));
      ret (Some (encode_subscription s), if isCreate then Some (ErrStatusCode StatusCreated) else None)
  end.

Definition putSubscription (r : Request) : M W HttpResponse :=
  do! out <- try (RetryOnPreconditionFailed (_putSubscription r));
  ret (reply_outcome ∅ out).

(** ** ready_get.go, operations_get.go *)

(** [ready]: the server has not been told to stop; [is_ready]: the environment
    agrees. The success carries a cloud error without a body, which encodes to
    an empty object. *)
Definition getReady (ready is_ready : bool) (empty_error : string) : HttpResponse :=
  if ready && is_ready then mkHttpResponse StatusOK ∅ (Some empty_error)
  else WriteCloudError ∅ StatusInternalServerError internal_server_error.
End frontend.

(** The operations the provider lists (src/pkg/api/operation.go) *)
Record Display := mkDisplay { dis_Provider : string; dis_Resource : string; dis_Operation : string }.
Record Operation := mkOperation { op_Name : string; op_Display : Display }.
Definition operation (name resource what : string) : Operation :=
  mkOperation ("Microsoft.RedHatOpenShift/" +:+ name) (mkDisplay "Azure Red Hat OpenShift" resource what).
Definition getOperations : list Operation := [
  operation "locations/operationresults/read" "locations/operationresults" "Read operation results";
  operation "locations/operationsstatus/read" "locations/operationsstatus" "Read operations status";
  operation "openShiftClusters/read" "openShiftClusters" "Read OpenShift cluster";
  operation "openShiftClusters/write" "openShiftClusters" "Write OpenShift cluster";
  operation "openShiftClusters/delete" "openShiftClusters" "Delete OpenShift cluster";
  operation "openShiftClusters/listCredentials/action" "openShiftClusters"
    "Lists credentials of an OpenShift cluster";
  operation "operations/read" "operations" "Read operations" ].
