(* ===== verification/Backend.v ===== *)
(** * The back end's workers (src/pkg/backend)

    What is done with a dequeued document, step by step. The heart beat of a
    worker is a second thread: a schedule says how many renewals it makes before
    each of the worker's own steps, and once a renewal has failed the worker's
    context is cancelled, so that each later call under it is an error. What a
    cluster manager does is behind the interface [ClusterManager]. *)
From S2P Require Import Prelude GoStrings.
From S2P Require Import Azure Api.
From S2P Require Import Cosmos Database.

Definition maxDequeueCount : Z := 5.

(** openshiftcluster.Manager, as the back end uses it *)
Class ClusterManager (W : Type) := {
  Manager : Type;
  NewManager : OpenShiftClusterDocument -> M W Manager;
  Manager_Create : Manager -> M W unit;
  Manager_Update : Manager -> M W unit;
  Manager_Delete : Manager -> M W unit;
}.

(** ** The heart beat *)
Inductive beat := Beating | Cancelled | Crashed.

(** The renewals made before each of a worker's steps: before the manager's
    work, before the asynchronous operation is updated, before the stop *)
Record Beats := mkBeats { at_start : nat; after_work : nat; before_stop : nat }.

(** What [try] came to: whether there was work, its error, and the document a
    goroutine was started for *)
Record Tried (Doc : Type) := mkTried {
  did_work : bool;
  tried_err : option error;
  spawned : option Doc;
}.
Arguments mkTried {Doc}.
Arguments did_work {Doc}.
Arguments tried_err {Doc}.
Arguments spawned {Doc}.

Section backend.
Context {W : Type} `{!Runtime W, !Account W} {PB : PageBound}.

(** [n] renewals; the first that fails ends the thread and cancels the worker's
    context, a panic just ends it. *)
Fixpoint heartbeat {Doc} (lease : M W (option Doc)) (n : nat) (b : beat) : M W beat :=
  match n, b with
  | S n, Beating =>
      do! r <- recover lease;
      match r with
      | Some (inl _) => heartbeat lease n Beating
      | Some (inr _) => ret Cancelled
      | None => ret Crashed
      end
  | _, _ => ret b
  end.

(** A call under the worker's context *)
Definition with_ctx {A} (b : beat) (m : M W A) : M W A :=
  match b with Cancelled => throw (ErrOther "context canceled") | _ => m end.

Context (db : Database).

(** ** openshiftcluster.go *)

(** What [updateAsyncOperation] writes into the operation's document *)
Definition finish_operation (oc : option OpenShiftCluster)
    (provisioningState failedProvisioningState : ProvisioningState)
    (now : Z) (asyncdoc : AsyncOperationDocument) : res AsyncOperationDocument :=
  do? ao <- deref (ad_AsyncOperation asyncdoc);
  let ao := ao <| ao_ProvisioningState := provisioningState |> <| ao_EndTime := Some now |> in
  let ao := if decide (provisioningState = ProvisioningStateFailed)
            then ao <| ao_Error := Some (NewCloudErrorBody CloudErrorCodeInternalServerError EmptyString
                                           "Internal server error.") |>
            else ao in
  let asyncdoc := asyncdoc <| ad_AsyncOperation := Some ao |> in
  Ok (match oc with
      | Some oc =>
          asyncdoc <| ad_OpenShiftCluster :=
            Some (set_failed_state failedProvisioningState (set_state provisioningState oc)) |>
      | None => asyncdoc
      end).

Definition updateAsyncOperation (id : string) (oc : option OpenShiftCluster)
    (provisioningState failedProvisioningState : ProvisioningState) : M W unit :=
  if decide (id = EmptyString) then ret tt
  else
    do! _ <- AsyncOperations.Patch (db_AsyncOperations db) id (fun asyncdoc =>
      do! now <- time_Now;
      lift (finish_operation oc provisioningState failedProvisioningState now asyncdoc));
    ret tt.

Abbreviation Doc := OpenShiftClusterDocument (only parsing).

Definition lease (doc : Doc) : M W (option Doc) :=
  OpenShiftClusters.Lease (db_OpenShiftClusters db) (ocd_Key doc).

(** [stop] is a heart beat that still runs, with the renewals it makes before it
    is stopped, or nil. *)
Definition endLease (stop : option (beat * nat)) (doc : Doc) (provisioningState : ProvisioningState)
    : M W unit :=
  do! failedProvisioningState <-
    (if decide (provisioningState = ProvisioningStateFailed)
     then do! oc <- lift (deref (ocd_OpenShiftCluster doc)); ret (state_of oc)
     else ret EmptyString);
  let b := match stop with Some (b, _) => b | None => Beating end in
  do! _ <- with_ctx b
    (updateAsyncOperation (ocd_AsyncOperationID doc) (ocd_OpenShiftCluster doc) provisioningState
       failedProvisioningState);
  do! b <- match stop with
           | Some (b, n) => heartbeat (lease doc) n b
           | None => ret b
           end;
  do! _ <- with_ctx b
    (OpenShiftClusters.EndLease (db_OpenShiftClusters db) (ocd_Key doc) provisioningState
       failedProvisioningState);
  ret tt.

Context `{!ClusterManager W}.

Definition delete_cluster (s : Beats) (b : beat) (doc : Doc) (m : Manager) : M W unit :=
  do! r <- try (with_ctx b (Manager_Delete m));
  do! b <- heartbeat (lease doc) (after_work s) b;
  let stop := Some (b, before_stop s) in
  match r with
  | inr _ => endLease stop doc ProvisioningStateFailed
  | inl _ =>
      do! r <- try (with_ctx b
        (updateAsyncOperation (ocd_AsyncOperationID doc) None ProvisioningStateSucceeded EmptyString));
      match r with
      | inr _ => endLease stop doc ProvisioningStateFailed
      | inl _ =>
          do! b <- heartbeat (lease doc) (before_stop s) b;
          with_ctx b (OpenShiftClusters.Delete (db_OpenShiftClusters db) doc)
      end
  end.

(** Runs the manager's work, then ends the lease with its outcome. *)
Definition work (s : Beats) (b : beat) (doc : Doc) (m : M W unit) : M W unit :=
  do! r <- try (with_ctx b m);
  do! b <- heartbeat (lease doc) (after_work s) b;
  endLease (Some (b, before_stop s)) doc
    (match r with inl _ => ProvisioningStateSucceeded | inr _ => ProvisioningStateFailed end).

Definition handle (s : Beats) (doc : Doc) : M W unit :=
  do! m <- try (NewManager doc);
  do! b <- heartbeat (lease doc) (at_start s) Beating;
  match m with
  | inr _ => endLease (Some (b, before_stop s)) doc ProvisioningStateFailed
  | inl m =>
      do! oc <- lift (deref (ocd_OpenShiftCluster doc));
      if decide (state_of oc = ProvisioningStateCreating) then work s b doc (Manager_Create m)
      else if decide (state_of oc = ProvisioningStateUpdating) then work s b doc (Manager_Update m)
      else if decide (state_of oc = ProvisioningStateDeleting) then delete_cluster s b doc m
      else throw (ErrOther ("unexpected provisioningState " +:+ Quote (state_of oc)))
  end.

(** [openShiftClusterBackend.try] *)
Definition ocb_try : M W (Tried Doc) :=
  do! r <- try (OpenShiftClusters.Dequeue (db_OpenShiftClusters db));
  match r with
  | inr e => ret (mkTried false (Some e) None)
  | inl None => ret (mkTried false None None)
  | inl (Some doc) =>
      do! _ <- lift (deref (ocd_OpenShiftCluster doc));
      if decide (maxDequeueCount < ocd_Dequeues doc)%Z then
        do! r <- try (endLease None doc ProvisioningStateFailed);
        ret (mkTried true (match r with inl _ => None | inr e => Some e end) None)
      else ret (mkTried true None (Some doc))
  end.
End backend.

(** ** subscriptions.go *)
Section subscriptions.
Context {W : Type} `{!Runtime W, !Account W} {PB : PageBound} `{!Cell W bool}.
Context (db : Database).
Abbreviation Doc := SubscriptionDocument (only parsing).

Definition sub_lease (doc : Doc) : M W (option Doc) :=
  Subscriptions.Lease (db_Subscriptions db) (sd_ID doc).

(** The closure that starts the deletion of one cluster; [done] is the caller's
    variable. *)
Definition delete_one (doc : OpenShiftClusterDocument) : M W OpenShiftClusterDocument :=
  do! oc <- lift (deref (ocd_OpenShiftCluster doc));
  if decide (state_of oc = ProvisioningStateCreating \/ state_of oc = ProvisioningStateUpdating) then
    do! _ <- set_cell false;
    ret doc
  else if decide (state_of oc = ProvisioningStateDeleting) then ret doc
  else if decide (state_of oc = ProvisioningStateSucceeded \/ state_of oc = ProvisioningStateFailed) then
    ret (set_oc (set_state ProvisioningStateDeleting) doc)
  else throw (ErrOther ("unexpected provisioningState " +:+ Quote (state_of oc))).

Fixpoint delete_docs (docs : list OpenShiftClusterDocument) : M W unit :=
  match docs with
  | [] => ret tt
  | doc :: docs =>
      do! _ <- OpenShiftClusters.Patch (db_OpenShiftClusters db) (ocd_Key doc) delete_one;
      delete_docs docs
  end.

Fixpoint delete_pages (fuel : nat) (i : queryIterator) : M W unit :=
  match fuel with
  | 0 => lift OutOfFuel
  | S fuel =>
      do! '(docs, i) <- Next (OpenShiftClusters.c (db_OpenShiftClusters db)) i;
      match docs with
      | None => ret tt
      | Some docs =>
          do! _ <- delete_docs (ds_Documents docs);
          delete_pages fuel i
      end
  end.

Definition handleDelete (subdoc : Doc) : M W bool :=
  do! i <- lift (OpenShiftClusters.ListByPrefix (db_OpenShiftClusters db) (sd_ID subdoc)
                   ("/subscriptions/" +:+ sd_ID subdoc +:+ "/"));
  do! _ <- set_cell true;
  do! _ <- delete_pages page_bound i;
  get_cell.

Definition sub_endLease (stop : option (beat * nat)) (doc : Doc) (done retryLater : bool) : M W unit :=
  do! b <- match stop with
           | Some (b, n) => heartbeat (sub_lease doc) n b
           | None => ret Beating
           end;
  do! _ <- with_ctx b (Subscriptions.EndLease (db_Subscriptions db) (sd_ID doc) done retryLater);
  ret tt.

Definition sub_handle (s : Beats) (doc : Doc) : M W unit :=
  do! b <- heartbeat (sub_lease doc) (at_start s) Beating;
  do! r <- try (with_ctx b (handleDelete doc));
  do! b <- heartbeat (sub_lease doc) (after_work s) b;
  match r with
  | inr _ => sub_endLease (Some (b, before_stop s)) doc false false
  | inl done => sub_endLease (Some (b, before_stop s)) doc done (negb done)
  end.

(** [subscriptionBackend.try] *)
Definition sb_try : M W (Tried Doc) :=
  do! r <- try (Subscriptions.Dequeue (db_Subscriptions db));
  match r with
  | inr e => ret (mkTried false (Some e) None)
  | inl None => ret (mkTried false None None)
  | inl (Some doc) =>
      if decide (maxDequeueCount < sd_Dequeues doc)%Z then
        do! r <- try (sub_endLease None doc false true);
        ret (mkTried true (match r with inl _ => None | inr e => Some e end) None)
      else ret (mkTried true None (Some doc))
  end.
End subscriptions.
