(* ===== verification/Workers.v ===== *)
(** * The back end's main loop (src/pkg/backend/backend.go)

    [Run] takes work while fewer than [maxWorkers] workers are busy, and sleeps
    on a condition variable otherwise. The counter and the stop flag are atomics:
    who writes them does not take the mutex of the condition variable. One step
    is one atomic access, one call, or one wake-up. *)
From S2P Require Import Prelude.
From S2P Require Import Api.

Definition maxWorkers : Z := 100.

(** Where [Run] is *)
Inductive pc :=
| LoadWorkers     (* lock held: [atomic.LoadInt32(&b.workers) >= maxWorkers] *)
| LoadStopping    (* lock held, too many workers: [!b.stopping.Load()] *)
| EnterWait       (* lock held: about to call [b.cond.Wait()] *)
| Asleep          (* in [b.cond.Wait()], on the condition's list *)
| CheckStopping   (* lock released: [if b.stopping.Load() { break }] *)
| TryClusters     (* [b.ocb.try(ctx)] *)
| TrySubscriptions (did_work : bool)
| WaitTick        (* [<-t.C] *)
| Returned.

Record state := mkState {
  st_pc : pc;
  st_workers : Z;       (* the int32 counter *)
  st_busy : nat;        (* the goroutines that have not decremented it yet *)
  st_signals : nat;     (* the calls of [b.cond.Signal()] still to come *)
  st_stopping : bool;
}.

#[export] Instance pc_eq_dec : EqDecision pc.
Proof. solve_decision. Defined.
#[export] Instance state_eq_dec : EqDecision state.
Proof. solve_decision. Defined.

Definition initial : state := mkState LoadWorkers 0 0 0 false.

(** A [try] that starts a goroutine counts it first. *)
Definition spawn (s : state) : state :=
  s <| st_workers := int32 (st_workers s + 1) |> <| st_busy := S (st_busy s) |>.

Inductive step : state -> state -> Prop :=
| step_full s :
    st_pc s = LoadWorkers -> (maxWorkers <= st_workers s)%Z -> step s (s <| st_pc := LoadStopping |>)
| step_room s :
    st_pc s = LoadWorkers -> (st_workers s < maxWorkers)%Z -> step s (s <| st_pc := CheckStopping |>)
| step_load_stopping s :
    st_pc s = LoadStopping ->
    step s (s <| st_pc := if st_stopping s then CheckStopping else EnterWait |>)
| step_wait s : st_pc s = EnterWait -> step s (s <| st_pc := Asleep |>)
| step_check s :
    st_pc s = CheckStopping ->
    step s (s <| st_pc := if st_stopping s then Returned else TryClusters |>)
| step_try_clusters s (did_work spawned : bool) :
    st_pc s = TryClusters -> (spawned = true -> did_work = true) ->
    step s ((if spawned then spawn s else s) <| st_pc := TrySubscriptions did_work |>)
| step_try_subscriptions s (before did_work spawned : bool) :
    st_pc s = TrySubscriptions before -> (spawned = true -> did_work = true) ->
    step s ((if spawned then spawn s else s)
              <| st_pc := if before || did_work then LoadWorkers else WaitTick |>)
| step_tick s : st_pc s = WaitTick -> step s (s <| st_pc := LoadWorkers |>)
| step_finish s n :
    st_busy s = S n ->
    step s (s <| st_workers := int32 (st_workers s - 1) |> <| st_busy := n |>
              <| st_signals := S (st_signals s) |>)
| step_stop s :
    st_stopping s = false ->
    step s (s <| st_stopping := true |> <| st_signals := S (st_signals s) |>)
| step_signal s n :
    st_signals s = S n ->
    step s (s <| st_signals := n |>
              <| st_pc := if decide (st_pc s = Asleep) then LoadWorkers else st_pc s |>).

Definition reachable (s : state) : Prop := rtc step initial s.

(** ** The bound on the number of workers *)
Definition room (s : state) : Prop :=
  match st_pc s with
  | CheckStopping => st_busy s <= 99 \/ st_stopping s = true
  | TryClusters => st_busy s <= 99
  | TrySubscriptions _ => st_busy s <= 100
  | _ => True
  end.
Definition counted (s : state) : Prop :=
  st_workers s = Z.of_nat (st_busy s) /\ st_busy s <= 101 /\ room s.

Lemma int32_small z : (-1 <= z <= 102)%Z -> int32 z = z.
Proof. intros. apply wrap_id; lia. Qed.

Lemma step_counted s s' : counted s -> step s s' -> counted s'.
Proof.
  intros (Hw & Hb & Hr) Hs. unfold counted, room, maxWorkers in *.
  destruct Hs; destruct s as [p w b sg st]; simpl in *; subst; simpl in *; unfold spawn;
    repeat match goal with x : bool |- _ => destruct x end; simpl; unfold constant; simpl;
    rewrite ?int32_small by lia; try (destruct p); simpl in *; try lia;
    (split_and!; [lia|lia|unfold maxWorkers in *; first [lia|tauto|left; lia]]).
Qed.

Lemma reachable_counted s : reachable s -> counted s.
Proof.
  intros H. unfold reachable in H. remember initial as i eqn:Hi.
  assert (counted i) as Hc by (subst; unfold counted, room; simpl; lia). clear Hi.
  induction H; [done|]. eauto using step_counted.
Qed.

(** ** Runs *)
Definition at_pc (p : pc) (n : nat) (st : bool) : state := mkState p (Z.of_nat n) n 0 st.
Definition at_top (n : nat) : state := at_pc LoadWorkers n false.

Lemma reach s1 s2 s3 : reachable s1 -> step s1 s2 -> s2 = s3 -> reachable s3.
Proof. intros H H1 <-. by eapply rtc_r. Qed.

Lemma spawn_at p n (a : bool) st : n < 101 ->
  (if a then spawn (at_pc p n st) else at_pc p n st) = at_pc p (n + (if a then 1 else 0)) st.
Proof.
  intros Hn. destruct a; unfold spawn, at_pc; simpl; unfold constant; [|by rewrite Nat.add_0_r].
  rewrite int32_small by lia. f_equal; lia.
Qed.

(** A round that starts one or two workers *)
Lemma round n (a b : bool) :
  n < 100 -> (a || b) = true -> reachable (at_top n) ->
  reachable (at_top (n + (if a then 1 else 0) + (if b then 1 else 0))).
Proof.
  intros Hn Hab H.
  assert (reachable (at_pc CheckStopping n false)) as H1.
  { eapply reach; [exact H|by apply step_room; simpl; [|unfold maxWorkers; lia]|done]. }
  assert (reachable (at_pc TryClusters n false)) as H2.
  { eapply reach; [exact H1|by apply step_check|done]. }
  assert (reachable (at_pc (TrySubscriptions a) (n + (if a then 1 else 0)) false)) as H3.
  { eapply reach; [exact H2|by apply (step_try_clusters _ a a)|by rewrite spawn_at by lia]. }
  eapply reach; [exact H3|by apply (step_try_subscriptions _ a b b)|].
  rewrite spawn_at by (destruct a; lia). rewrite Hab. done.
Qed.

(** 50 rounds of two, from [n] *)
Lemma rounds k n : n + 2 * k <= 101 -> reachable (at_top n) -> reachable (at_top (n + 2 * k)).
Proof.
  revert n. induction k as [|k IH]; intros n Hn H; [by rewrite Nat.add_0_r|].
  replace (n + 2 * S k) with ((n + 1 + 1) + 2 * k) by lia.
  apply IH; [lia|]. by apply (round n true true); [lia|..].
Qed.

Lemma at_top_0 : reachable (at_top 0).
Proof. apply rtc_refl. Qed.

(** Every worker finishes, and its signal finds nobody asleep. *)
Lemma drain p n st :
  p <> Asleep -> n <= 101 -> reachable (at_pc p n st) -> reachable (at_pc p 0 st).
Proof.
  intros Hp. induction n as [|n IH]; intros Hn H; [done|].
  apply IH; [lia|].
  assert (reachable (mkState p (Z.of_nat n) n 1 st)) as H1.
  { eapply reach; [exact H|by apply (step_finish _ n)|].
    simpl. unfold constant, at_pc. simpl. rewrite int32_small by lia. f_equal. lia. }
  eapply reach; [exact H1|by apply (step_signal _ 0)|].
  simpl. unfold constant, at_pc. by rewrite decide_False.
Qed.

(** The sleeper nobody will wake *)
Definition lost : state := at_pc Asleep 0 true.

Lemma lost_reachable : reachable lost.
Proof.
  pose proof (rounds 50 0 ltac:(lia) at_top_0) as H. change (0 + 2 * 50) with 100 in H.
  assert (reachable (at_pc LoadStopping 100 false)) as H1
    by (eapply reach; [exact H|apply step_full; [done|by vm_compute]|done]).
  assert (reachable (at_pc EnterWait 100 false)) as H2
    by (eapply reach; [exact H1|by apply step_load_stopping|done]).
  apply (drain EnterWait 100 false) in H2; [|done|lia].
  assert (reachable (mkState EnterWait 0 0 1 true)) as H3
    by (eapply reach; [exact H2|by apply step_stop|done]).
  assert (reachable (at_pc EnterWait 0 true)) as H4
    by (eapply reach; [exact H3|by apply (step_signal _ 0)|done]).
  eapply reach; [exact H4|by apply step_wait|done].
Qed.

Lemma lost_stuck s : ~ step lost s.
Proof. intros H. unfold lost, at_pc in *. inversion H; simplify_eq/=. Qed.
