(* ===== verification/Kube.v ===== *)
(** * The cluster's own API (src/pkg/util/restconfig)

    [RestConfig] makes the configuration with which the program talks to a cluster:
    its kubeconfig, with connections that go to the private endpoint. The Kubernetes
    clients and their resources, as far as the program looks at them, are a class. *)
From S2P Require Import Prelude GoStrings.
From S2P Require Import Api.
From Stdlib Require Import Ascii.

(** ** net.SplitHostPort *)
Definition address_error (why addr : string) : error := ErrOther ("address " +:+ addr +:+ ": " +:+ why).
Definition missing_port (hostport : string) : error := address_error "missing port in address" hostport.
Definition too_many_colons (hostport : string) : error := address_error "too many colons in address" hostport.

Definition SplitHostPort (hostport : string) : res (string * string) :=
  let from i := String.substring i (String.length hostport) hostport in
  let i := LastIndexByte hostport ":" in
  if decide (i < 0)%Z then Err (missing_port hostport)
  else
    do? '(host, j, k) <-
      (if HasPrefix hostport "[" then
         let e := IndexByte hostport "]" in
         if decide (e < 0)%Z then Err (address_error "missing ']' in address" hostport)
         else if decide (e + 1 = Z.of_nat (String.length hostport))%Z then Err (missing_port hostport)
         else if decide (e + 1 <> i)%Z then
           Err (if bool_decide (String.get (Z.to_nat (e + 1)) hostport = Some ":"%char) then too_many_colons hostport
                else missing_port hostport)
         else Ok (String.substring 1 (Z.to_nat (e - 1)) hostport, 1, Z.to_nat (e + 1))
       else
         let host := String.substring 0 (Z.to_nat i) hostport in
         if ContainsRune host ":" then Err (too_many_colons hostport) else Ok (host, 0, 0));
    if ContainsRune (from j) "[" then Err (address_error "unexpected '[' in address" hostport)
    else if ContainsRune (from k) "]" then Err (address_error "unexpected ']' in address" hostport)
    else Ok (host, from (Z.to_nat (i + 1))).

(** ** restconfig.go *)

(** k8s.io/client-go/tools/clientcmd: a kubeconfig is loaded, and the client's part of
    it taken; [env_DialContext] is the environment's. *)
Class Config (W : Type) := {
  Kubeconfig : Type;
  ClientConfig : Type;
  clientcmd_Load : option string -> res Kubeconfig;
  NewDefaultClientConfig : Kubeconfig -> res ClientConfig;
  Conn : Type;
  env_DialContext : string -> string -> M W Conn;
}.

Section restconfig.
Context {W : Type} {CF : Config W}.

Record Rest := mkRest { rc_Config : ClientConfig; rc_Dial : string -> string -> M W Conn }.

Definition Dial (oc : OpenShiftCluster) (network address : string) : M W Conn :=
  if decide (network <> "tcp") then throw (ErrOther ("unimplemented network " +:+ Quote network))
  else
    do! '(_, port) <- lift (SplitHostPort address);
    env_DialContext network (np_PrivateEndpointIP (p_NetworkProfile (oc_Properties oc)) +:+ ":" +:+ port).

Definition RestConfig (oc : OpenShiftCluster) : res Rest :=
  do? config <- clientcmd_Load (p_AdminKubeconfig (oc_Properties oc));
  do? restconfig <- NewDefaultClientConfig config;
  Ok (mkRest restconfig (Dial oc)).
End restconfig.
Arguments Rest W {CF}.

(** ** The resources the program looks at *)

(** A machine set. Each has a replica count of its own, which may be missing. *)
Record MachineSet := mkMachineSet {
  ms_Namespace : string;
  ms_Name : string;
  ms_Replicas : option Z;               (* *int32 *)
  ms_Generation : Z;
  ms_ObservedGeneration : Z;
  ms_AvailableReplicas : Z;
}.
(** The version of a cluster, with the conditions of its status: type and status *)
Record ClusterVersion := mkClusterVersion {
  cv_ResourceVersion : string;
  cv_Upstream : string;
  cv_Channel : string;
  cv_Conditions : list (string * string);
}.

Class Kube (W : Type) {CF : Config W} := {
  KubeClient : Type;
  ConfigClient : Type;
  MachineClient : Type;
  kubernetes_NewForConfig : Rest W -> res KubeClient;
  config_NewForConfig : Rest W -> res ConfigClient;
  machine_NewForConfig : Rest W -> res MachineClient;
  configmaps_Get : KubeClient -> string -> string -> M W (gmap string string);
  services_Get : KubeClient -> string -> string -> M W (list string);  (* the addresses of its load balancer *)
  clusterversions_Get : ConfigClient -> string -> M W ClusterVersion;
  clusterversions_Update : ConfigClient -> ClusterVersion -> M W ClusterVersion;
  machinesets_List : MachineClient -> string -> M W (list MachineSet);
  machinesets_Get : MachineClient -> string -> string -> M W MachineSet;
  machinesets_Update : MachineClient -> string -> MachineSet -> M W MachineSet;
}.
