(* ===== verification/Manager.v ===== *)
(** * The cluster manager (src/pkg/backend/openshiftcluster)

    [NewManager], [Delete], and [Update], which scales the workers: the counts are
    spread over the machine sets, one machine at a time. [Create] is in Create.v. *)
From S2P Require Import Prelude GoStrings.
From S2P Require Import Azure Api Services Subnets Wait Kube.

(** ** openshiftcluster.go *)
Record Manager := mkManager {
  m_fpAuthorizer : Authorizer;
  m_localFPAuthorizer : Authorizer;     (* of privateendpoint and dns *)
  m_subnets : Subnets.manager;
  m_groups_SubscriptionID : string;
  m_doc : OpenShiftClusterDocument;
}.

Section new.
Context {W : Type} `{!Env, !Auth W}.

Definition NewManager (doc : OpenShiftClusterDocument) : M W Manager :=
  do! oc <- lift (deref (ocd_OpenShiftCluster doc));
  do! r <- lift (ParseResourceID (oc_ID oc));
  do! localFPAuthorizer <- env_FPAuthorizer env_TenantID ResourceManagerEndpoint;
  do! fpAuthorizer <- env_FPAuthorizer (spp_TenantID (p_ServicePrincipalProfile (oc_Properties oc)))
    ResourceManagerEndpoint;
  ret (mkManager fpAuthorizer localFPAuthorizer (Subnets.NewManager (r_SubscriptionID r) fpAuthorizer)
         (r_SubscriptionID r) doc).
End new.

(** ** delete.go *)
Section delete.
Context {W : Type} `{!Env, !RecordSetsClient W, !SubnetsClient W, !PrivateEndpointsClient W, !GroupsClient W}.

(** Whether the subnet's network security group is the one the program attached *)
Definition attached (s : Subnet) (nsgID : string) : res bool :=
  match sn_SubnetPropertiesFormat s with
  | None => Ok false
  | Some p =>
      match spf_NetworkSecurityGroup p with
      | None => Ok false
      | Some nsg => do? id <- deref (nsg_ID nsg); Ok (EqualFold id nsgID)
      end
  end.

Definition detach (s : Subnet) : Subnet :=
  mkSubnet (sn_ID s)
    ((fun p => p <| spf_NetworkSecurityGroup := None |>) <$> sn_SubnetPropertiesFormat s).

(** One round of the loop over the two subnets: an error is logged, and the loop
    goes on. *)
Definition detach_subnet (m : Manager) (oc : OpenShiftCluster) (subnetID : string) : M W unit :=
  do! r <- try (Subnets.Get (m_subnets m) subnetID);
  match r with
  | inr _ => ret tt
  | inl s =>
      do! r <- try (lift (Subnets.NetworkSecurityGroupID oc subnetID));
      match r with
      | inr _ => ret tt
      | inl nsgID =>
          do! ours <- lift (attached s nsgID);
          if ours : bool then
            do! _ <- try (Subnets.CreateOrUpdate (m_subnets m) subnetID (detach s));
            ret tt
          else ret tt
      end
  end.

Fixpoint detach_subnets (m : Manager) (oc : OpenShiftCluster) (subnetIDs : list string) : M W unit :=
  match subnetIDs with
  | [] => ret tt
  | subnetID :: subnetIDs =>
      do! _ <- detach_subnet m oc subnetID;
      detach_subnets m oc subnetIDs
  end.

Definition Delete (m : Manager) : M W unit :=
  do! oc <- lift (deref (ocd_OpenShiftCluster (m_doc m)));
  let p := oc_Properties oc in
  do! resourceGroup <- lift (resource_group_of (cp_ResourceGroupID (p_ClusterProfile p)));
  do! _ <- Dns.Delete oc;
  do! wp <- lift (index (elems (p_WorkerProfiles p)) 0);
  do! _ <- detach_subnets m oc [mp_SubnetID (p_MasterProfile p); wp_SubnetID wp];
  do! _ <- PrivateEndpoints.Delete (m_doc m);
  do! r <- try (groups_DeleteAndWait (m_groups_SubscriptionID m) (m_fpAuthorizer m) resourceGroup);
  match r with
  | inl _ => ret tt
  | inr e => if is_detailed e StatusForbidden then ret tt else throw e
  end.
End delete.

(** ** update.go *)

(** The loop of [find] from [i] on: [f] is asked whether [i] beats [j]. *)
Fixpoint find_from (f : nat -> nat -> res bool) (n i j : nat) : res nat :=
  match n with
  | 0 => Ok j
  | S n => do? b <- f i j; find_from f n (S i) (if b : bool then i else j)
  end.
Definition find (len : nat) (f : nat -> nat -> res bool) : res nat :=
  do? j <- find_from f len 0 0;
  if decide (j < len) then Ok j else Panic "reflect: slice index out of range".

Definition replicas (rs : list (option Z)) (i : nat) : res Z := do? r <- index rs i; deref r.

Definition compare (cmp : Z -> Z -> bool) (rs : list (option Z)) (i j : nat) : res bool :=
  do? a <- replicas rs i; do? b <- replicas rs j; Ok (cmp a b).

(** One round: the machine set that beats all the others gets one machine more,
    or one less. *)
Definition scale_one (cmp : Z -> Z -> bool) (delta : Z) (rs : list (option Z)) : res (list (option Z)) :=
  do? j <- find (length rs) (compare cmp rs);
  do? r <- replicas rs j;
  Ok (<[j := Some (int32 (r + delta))]> rs).

(** [for have > want { ... }]; the counter moves by one each round. *)
Fixpoint scale_loop (cmp : Z -> Z -> bool) (delta : Z) (fuel : nat) (rs : list (option Z))
    : res (list (option Z)) :=
  match fuel with
  | 0 => Ok rs
  | S fuel => do? rs <- scale_one cmp delta rs; scale_loop cmp delta fuel rs
  end.

(** The two loops, of which at most one runs *)
Definition scale (have want : Z) (rs : list (option Z)) : res (list (option Z)) :=
  do? rs <- scale_loop Z.gtb (-1) (Z.to_nat (have - want)) rs;
  scale_loop Z.ltb 1 (Z.to_nat (want - have)) rs.

(** [have]: a machine set without a count has one machine. The count is put into
    the loop's own copy only. *)
Definition have (rs : list (option Z)) : Z := foldr (fun r n => default 1 r + n)%Z 0%Z rs.

Section update.
Context {W : Type} `{!Ticks W} {CF : Config W} {KB : Kube W}.

Definition is_worker (ms : MachineSet) : bool := HasPrefix (ms_Name ms) "aro-worker-".

Definition set_replicas (cli : MachineClient) (ms : MachineSet) (want : Z) : M W unit :=
  RetryOnConflict
    (do! machineset <- machinesets_Get cli (ms_Namespace ms) (ms_Name ms);
     if decide (default 1%Z (ms_Replicas machineset) = want) then ret tt
     else
       do! _ <- machinesets_Update cli (ms_Namespace machineset) (machineset <| ms_Replicas := Some want |>);
       ret tt).

Definition wait_replicas (cli : MachineClient) (ms : MachineSet) (want : Z) : M W unit :=
  PollImmediate (10 * time_Second) (30 * time_Minute)
    (do! m <- machinesets_Get cli (ms_Namespace ms) (ms_Name ms);
     ret (bool_decide (ms_ObservedGeneration m = ms_Generation m) &&
          bool_decide (ms_AvailableReplicas m = want))).

Fixpoint for_each (f : MachineSet -> Z -> M W unit) (l : list (MachineSet * option Z)) : M W unit :=
  match l with
  | [] => ret tt
  | (ms, r) :: l =>
      do! want <- lift (deref r);
      do! _ <- f ms want;
      for_each f l
  end.

Definition Update (m : Manager) : M W unit :=
  do! oc <- lift (deref (ocd_OpenShiftCluster (m_doc m)));
  do! restConfig <- lift (RestConfig oc);
  do! cli <- lift (machine_NewForConfig restConfig);
  do! machinesets <- machinesets_List cli "openshift-machine-api";
  let items := filter (fun ms => is_worker ms = true) machinesets in
  if decide (items = []) then throw (ErrOther "no worker machinesets found")
  else
    let rs := map ms_Replicas items in
    do! wp <- lift (index (elems (p_WorkerProfiles (oc_Properties oc))) 0);
    do! rs <- lift (scale (have rs) (wp_Count wp) rs);
    do! _ <- for_each (set_replicas cli) (zip items rs);
    for_each (wait_replicas cli) (zip items rs).
End update.

(** ** Scaling

    Both loops, [s = 1] for less and [s = -1] for more machines: [find] takes a
    machine set that is largest for [s * _]. *)
Definition total (zs : list Z) : Z := foldr Z.add 0%Z zs.
Definition beats (s : Z) (a b : Z) : bool := (s * a >? s * b)%Z.
Definition int32_counts (zs : list Z) : Prop := Forall (fun z => 0 <= z < 2 ^ 31)%Z zs.

(** What a loop keeps of the counts [zs0] it started from: none has moved the
    wrong way, and one that has moved is level with the others. *)
Record levelled (s : Z) (zs0 zs : list Z) : Prop := {
  lv_length : length zs = length zs0;
  lv_move i x0 x : zs0 !! i = Some x0 -> zs !! i = Some x -> (s * x <= s * x0)%Z;
  lv_level i j x0 x y : zs0 !! i = Some x0 -> zs !! i = Some x -> zs !! j = Some y -> x <> x0 ->
    (s * y <= s * x + 1)%Z;
}.

Lemma levelled_refl s zs : levelled s zs zs.
Proof. split; [done|intros; simplify_eq; lia|intros; congruence]. Qed.

Lemma have_total zs : have (Some <$> zs) = total zs.
Proof. unfold have, total. induction zs as [|z zs IH]; [done|]. rewrite fmap_cons. cbn [foldr]. rewrite IH. done. Qed.

Lemma replicas_Some zs i z : zs !! i = Some z -> replicas (Some <$> zs) i = Ok z.
Proof. intros H. unfold replicas, index. by rewrite list_lookup_fmap, H. Qed.

Lemma find_from_best s zs n i j z :
  i + n = length zs -> zs !! j = Some z -> (forall k x, k < i -> zs !! k = Some x -> (s * x <= s * z)%Z) ->
  exists j' z', find_from (compare (beats s) (Some <$> zs)) n i j = Ok j' /\ zs !! j' = Some z' /\
    (forall k x, zs !! k = Some x -> (s * x <= s * z')%Z).
Proof.
  revert i j z. induction n as [|n IH]; intros i j z Hn Hj Hk; simpl.
  - exists j, z. split_and!; [done|done|]. intros k x Hx. apply (Hk k x); [|done].
    apply lookup_lt_Some in Hx. lia.
  - destruct (lookup_lt_is_Some_2 zs i) as [a Ha]; [lia|].
    unfold compare at 1. rewrite (replicas_Some _ _ _ Ha), (replicas_Some _ _ _ Hj). simpl.
    destruct (beats s a z) eqn:Hb; unfold beats in Hb; rewrite Z.gtb_ltb in Hb;
      [apply Z.ltb_lt in Hb|apply Z.ltb_ge in Hb].
    + apply (IH (S i) i a); [lia|done|]. intros k x Hki Hx.
      destruct (decide (k = i)) as [->|]; [simplify_eq; lia|].
      specialize (Hk k x ltac:(lia) Hx). lia.
    + apply (IH (S i) j z); [lia|done|]. intros k x Hki Hx.
      destruct (decide (k = i)) as [->|]; [simplify_eq; lia|]. apply (Hk k x); [lia|done].
Qed.

Lemma find_best s zs :
  zs <> [] -> exists j z, find (length (Some <$> zs)) (compare (beats s) (Some <$> zs)) = Ok j /\
    zs !! j = Some z /\ (forall k x, zs !! k = Some x -> (s * x <= s * z)%Z).
Proof.
  intros Hne. destruct (lookup_lt_is_Some_2 zs 0) as [z0 H0]; [by destruct zs; simpl in *; [|lia]|].
  destruct (find_from_best s zs (length zs) 0 0 z0) as (j & z & Hf & Hz & Hm); [lia|done|lia|].
  exists j, z. split_and!; [|done|done]. unfold find. rewrite length_fmap, Hf. simpl.
  apply lookup_lt_Some in Hz. by rewrite decide_True.
Qed.

Lemma total_insert zs j z x : zs !! j = Some z -> total (<[j:=x]> zs) = (total zs - z + x)%Z.
Proof.
  revert j. induction zs as [|a zs IH]; intros [|j] Hj; simpl in *; simplify_eq; [unfold total; simpl; lia|].
  specialize (IH j Hj). unfold total in *. simpl. lia.
Qed.

Lemma total_bound zs i z : int32_counts zs -> zs !! i = Some z -> (0 <= z <= total zs)%Z.
Proof.
  intros H. revert i. induction H as [|a zs Ha H IH]; intros [|i] Hi; simpl in *; simplify_eq.
  - enough (0 <= total zs)%Z by (unfold total in *; simpl; lia). clear IH.
    induction H; unfold total in *; simpl; lia.
  - specialize (IH i Hi). unfold total in *. simpl. lia.
Qed.

Lemma total_pos zs : int32_counts zs -> (0 < total zs)%Z -> exists i z, zs !! i = Some z /\ (0 < z)%Z.
Proof.
  intros H. induction H as [|a zs Ha H IH]; unfold total in *; simpl; [lia|]. intros Ht.
  destruct (decide (0 < a)%Z); [by exists 0, a|]. destruct IH as (i & z & Hi & Hz); [lia|].
  by exists (S i), z.
Qed.

(** One round, on counts for which the move stays an [int32] *)
Lemma scale_one_ok s zs0 zs :
  (s = 1 \/ s = -1)%Z -> zs <> [] -> int32_counts zs -> levelled s zs0 zs ->
  (0 <= total zs - s < 2 ^ 31)%Z ->
  exists zs', scale_one (beats s) (- s) (Some <$> zs) = Ok (Some <$> zs') /\ int32_counts zs' /\
    levelled s zs0 zs' /\ total zs' = (total zs - s)%Z /\ zs' <> [].
Proof.
  intros Hs Hne Hr Hlv Ht. destruct (find_best s zs Hne) as (j & z & Hf & Hz & Hm).
  assert (0 <= z + - s < 2 ^ 31)%Z as Hb.
  { pose proof (total_bound _ _ _ Hr Hz). destruct Hs as [-> | ->]; [|lia].
    destruct (total_pos zs Hr) as (i & x & Hx & Hx0); [lia|]. specialize (Hm i x Hx). lia. }
  exists (<[j:=(z + - s)%Z]> zs). split_and!.
  - unfold scale_one. rewrite Hf. simpl. rewrite (replicas_Some _ _ _ Hz). simpl.
    rewrite list_fmap_insert. unfold int32. by rewrite wrap_id by lia.
  - by apply Forall_insert.
  - pose proof (lookup_lt_Some _ _ _ Hz) as Hlt. destruct Hlv as [Hl Hmv Hlev]. split.
    + by rewrite length_insert.
    + intros i x0 x H0 Hx. apply list_lookup_insert_Some in Hx as [(-> & <- & _)|[_ Hx]]; [|by eapply Hmv].
      specialize (Hmv i x0 z H0 Hz). destruct Hs as [-> | ->]; lia.
    + intros i k x0 x y H0 Hx Hy Hne0.
      apply list_lookup_insert_Some in Hx as [(-> & <- & _)|[Hij Hx]];
        apply list_lookup_insert_Some in Hy as [(<- & <- & _)|[Hkj Hy]].
      * lia.
      * specialize (Hm _ _ Hy). destruct Hs as [-> | ->]; lia.
      * specialize (Hlev i j x0 x z H0 Hx Hz Hne0). destruct Hs as [-> | ->]; lia.
      * by eapply Hlev.
  - rewrite (total_insert _ _ _ _ Hz). lia.
  - intros He. apply (f_equal length) in He. rewrite length_insert in He. by destruct zs.
Qed.

Lemma scale_loop_ok s n zs0 zs :
  (s = 1 \/ s = -1)%Z -> zs <> [] -> int32_counts zs -> levelled s zs0 zs ->
  (0 <= total zs < 2 ^ 31)%Z -> (0 <= total zs - s * Z.of_nat n < 2 ^ 31)%Z ->
  exists zs', scale_loop (beats s) (- s) n (Some <$> zs) = Ok (Some <$> zs') /\ int32_counts zs' /\
    levelled s zs0 zs' /\ total zs' = (total zs - s * Z.of_nat n)%Z /\ zs' <> [].
Proof.
  intros Hs. revert zs. induction n as [|n IH]; intros zs Hne Hr Hlv Ht Htn.
  - exists zs. split_and!; [done|done|done|lia|done].
  - destruct (scale_one_ok s zs0 zs) as (zs1 & H1 & Hr1 & Hlv1 & Ht1 & Hne1); [done..|lia|].
    destruct (IH zs1) as (zs2 & H2 & Hr2 & Hlv2 & Ht2 & Hne2); [done..|lia|lia|].
    exists zs2. cbn [scale_loop]. rewrite H1. simpl. split_and!; [done..|lia|done].
Qed.

Lemma scale_loop_ext cmp cmp' delta n rs :
  (forall a b, cmp a b = cmp' a b) -> scale_loop cmp delta n rs = scale_loop cmp' delta n rs.
Proof.
  intros H.
  assert (forall rs n i j, find_from (compare cmp rs) n i j = find_from (compare cmp' rs) n i j) as Hf.
  { clear n rs. intros rs n. induction n as [|n IH]; intros i j; simpl; [done|]. unfold compare at 1 3.
    destruct (replicas rs i); simpl; [|done..]. destruct (replicas rs j); simpl; [|done..]. by rewrite H, IH. }
  revert rs. induction n as [|n IH]; intros rs; [done|]. cbn [scale_loop].
  unfold scale_one, find. rewrite Hf.
  destruct (find_from _ _ _ _); simpl; [|done..]. case_decide; simpl; [|done].
  destruct (replicas rs _); simpl; [|done..]. apply IH.
Qed.

(** Without a missing count: the counts add up to what is wanted, and those that
    moved are level with the others. *)
Lemma scale_ok zs want :
  zs <> [] -> int32_counts zs -> (total zs < 2 ^ 31)%Z -> (0 <= want < 2 ^ 31)%Z ->
  exists zs', scale (have (Some <$> zs)) want (Some <$> zs) = Ok (Some <$> zs') /\ int32_counts zs' /\
    total zs' = want /\ levelled (if decide (want <= total zs)%Z then 1 else -1)%Z zs zs'.
Proof.
  intros Hne Hr Ht Hw. rewrite have_total. unfold scale.
  rewrite (scale_loop_ext Z.gtb (beats 1)) by (intros; unfold beats; f_equal; lia).
  assert (0 <= total zs)%Z as H0.
  { destruct zs as [|z zs]; [done|]. pose proof (total_bound _ 0 z Hr eq_refl). lia. }
  case_decide as Hd.
  - destruct (scale_loop_ok 1 (Z.to_nat (total zs - want)) zs zs) as (zs1 & H1 & ? & ? & Ht1 & _);
      [by left|done|done|apply levelled_refl|lia|lia|].
    exists zs1. change (-1)%Z with (- (1))%Z. rewrite H1. cbn [res_bind].
    replace (Z.to_nat (want - total zs)) with 0 by lia. split_and!; [done|done|lia|done].
  - replace (Z.to_nat (total zs - want)) with 0 by lia. cbn [scale_loop res_bind].
    rewrite (scale_loop_ext Z.ltb (beats (-1))).
    + destruct (scale_loop_ok (-1) (Z.to_nat (want - total zs)) zs zs) as (zs1 & H1 & ? & ? & Ht1 & _);
        [by right|done|done|apply levelled_refl|lia|lia|].
      exists zs1. change (- (-1))%Z with 1%Z in H1. rewrite H1. split_and!; [done|done|lia|done].
    + intros a b. unfold beats. rewrite Z.gtb_ltb.
      destruct (Z.ltb_spec a b), (Z.ltb_spec (-1 * b) (-1 * a)); lia.
Qed.

(** A missing count is found as soon as one machine has to move. *)
Lemma replicas_total rs i : (exists z, replicas rs i = Ok z) \/ (exists why, replicas rs i = Panic why).
Proof. unfold replicas, index, deref. destruct (rs !! i) as [[z|]|]; simpl; eauto. Qed.

Lemma find_from_missing cmp rs n i j k :
  i <= k < i + n -> rs !! k = Some None -> exists why, find_from (compare cmp rs) n i j = Panic why.
Proof.
  revert i j. induction n as [|n IH]; intros i j Hk Hn; [lia|]. simpl. unfold compare at 1.
  destruct (replicas_total rs i) as [[a Ha]|[why Ha]]; rewrite Ha; simpl; [|eauto].
  destruct (replicas_total rs j) as [[b Hb]|[why Hb]]; rewrite Hb; simpl; [|eauto].
  apply IH; [|done]. enough (k <> i) by lia. intros ->. unfold replicas, index in Ha. by rewrite Hn in Ha.
Qed.

Lemma scale_missing rs want :
  None ∈ rs -> have rs <> want -> exists why, scale (have rs) want rs = Panic why.
Proof.
  intros [k Hk]%list_elem_of_lookup Hw.
  assert (forall cmp delta n, exists why, scale_loop cmp delta (S n) rs = Panic why) as Hloop.
  { intros cmp delta n. cbn [scale_loop]. unfold scale_one, find.
    destruct (find_from_missing cmp rs (length rs) 0 0 k) as [why ->]; [|done|simpl; eauto].
    apply lookup_lt_Some in Hk. lia. }
  unfold scale. destruct (Z.to_nat (have rs - want)) as [|n] eqn:E.
  - cbn [scale_loop res_bind]. destruct (Z.to_nat (want - have rs)) as [|n'] eqn:E'; [lia|]. apply Hloop.
  - destruct (Hloop Z.gtb (-1)%Z n) as [why ->]. simpl. eauto.
Qed.
