(* ===== verification/Graph.v ===== *)
(** * The assets of the installer (src/pkg/install/graph.go)

    The vendored OpenShift installer makes a cluster out of assets, each generated
    from the ones it depends on. The program resolves the assets of a cluster over
    the four it fills in itself, keeps them in a graph under their types, and stores
    the graph between two phases of an installation. What an asset depends on and how
    it is generated is the installer's: a class. *)
From S2P Require Import Prelude GoStrings.
From S2P Require Import Net.

(** ** The installer's values, as far as the program fills them in or reads them *)
Record MachinePool := mkMachinePool {
  mp_Name : string;
  mp_Replicas : option Z;               (* *int64 *)
  mp_Zones : list string;
  mp_InstanceType : string;
  mp_DiskSizeGB : Z;                    (* int32 *)
  mp_Hyperthreading : string;
}.
Record OSImage := mkOSImage { im_Publisher : string; im_Offer : string; im_SKU : string; im_Version : string }.
Record AzurePlatform := mkAzurePlatform {
  az_Region : string;
  az_ResourceGroupName : string;
  az_NetworkResourceGroupName : string;
  az_VirtualNetwork : string;
  az_ControlPlaneSubnet : string;
  az_ComputeSubnet : string;
  az_ARO : bool;
  az_Image : option OSImage;
}.
Record InstallConfig := mkInstallConfig {
  ic_Name : string;
  ic_SSHKey : string;
  ic_BaseDomain : string;
  ic_MachineCIDR : IPNet;
  ic_NetworkType : string;
  ic_ClusterNetwork : list (IPNet * Z);
  ic_ServiceNetwork : list IPNet;
  ic_ControlPlane : MachinePool;
  ic_Compute : list MachinePool;
  ic_Azure : AzurePlatform;
  ic_PullSecret : string;
  ic_ImageContentSources : list (string * list string);
  ic_Publish : string;
}.
Record PlatformCreds := mkPlatformCreds {
  pc_TenantID : string;
  pc_ClientID : string;
  pc_ClientSecret : string;
  pc_SubscriptionID : string;
}.

(** An asset that is generated shows what the program reads of it; of any other
    there are the type and the content. *)
Inductive asset :=
| AInstallConfig (c : InstallConfig)
| APlatformCreds (c : PlatformCreds)
| AImage (PullSpec : string)
| AClusterID (UUID InfraID : string)
| AAdminClient (data : string)
| ABootstrap (data : string)
| AMachineMaster (data : string)
| AKubeadminPassword (password : string)
| AOther (type content : string).

(** [reflect.TypeOf(a).String()] *)
Definition TypeOf (a : asset) : string :=
  match a with
  | AInstallConfig _ => "*installconfig.InstallConfig"
  | APlatformCreds _ => "*installconfig.PlatformCreds"
  | AImage _ => "*releaseimage.Image"
  | AClusterID _ _ => "*installconfig.ClusterID"
  | AAdminClient _ => "*kubeconfig.AdminClient"
  | ABootstrap _ => "*bootstrap.Bootstrap"
  | AMachineMaster _ => "*machine.Master"
  | AKubeadminPassword _ => "*password.KubeadminPassword"
  | AOther type _ => type
  end.

(** Keyed by type: no two types of the installer have the same name. *)
Abbreviation graph := (gmap string asset).

Class Assets (W : Type) := {
  Dependencies : asset -> list asset;
  Generate : asset -> graph -> M W (asset * graph);   (* a generation may write through the pointers of its parents *)
  json_Marshal : asset -> res string;
  json_Unmarshal : string -> string -> res asset;  (* into a new value of the type *)
  json_MarshalIndent_object : gmap string string -> string;   (* of a map of raw messages *)
  json_Decode_object : string -> res (gmap string string);
  targets_Cluster : list asset;
}.

Definition registeredTypes : list string := [
  "*bootkube.CVOOverrides"; "*bootkube.EtcdCAConfigMap"; "*bootkube.EtcdClientSecret"; "*bootkube.EtcdHostService";
  "*bootkube.EtcdHostServiceEndpoints"; "*bootkube.EtcdMetricClientSecret";
  "*bootkube.EtcdMetricServingCAConfigMap"; "*bootkube.EtcdMetricSignerSecret"; "*bootkube.EtcdNamespace";
  "*bootkube.EtcdService"; "*bootkube.EtcdServingCAConfigMap"; "*bootkube.EtcdSignerSecret";
  "*bootkube.KubeCloudConfig"; "*bootkube.KubeSystemConfigmapRootCA"; "*bootkube.MachineConfigServerTLSSecret";
  "*bootkube.OpenshiftConfigSecretPullSecret"; "*bootkube.OpenshiftMachineConfigOperator"; "*bootstrap.Bootstrap";
  "*cluster.Metadata"; "*cluster.TerraformVariables"; "*installconfig.ClusterID"; "*installconfig.InstallConfig";
  "*installconfig.PlatformCreds"; "*installconfig.PlatformCredsCheck"; "*kubeconfig.AdminClient";
  "*kubeconfig.AdminInternalClient"; "*kubeconfig.Kubelet"; "*kubeconfig.LoopbackClient"; "*machine.Master";
  "*machine.Worker"; "*machines.Master"; "*machines.Worker"; "*manifests.AdditionalTrustBundleConfig";
  "*manifests.CloudProviderConfig"; "*manifests.DNS"; "*manifests.ImageContentSourcePolicy";
  "*manifests.Infrastructure"; "*manifests.Ingress"; "*manifests.Manifests"; "*manifests.Networking";
  "*manifests.Openshift"; "*manifests.Proxy"; "*manifests.Scheduler"; "*openshift.CloudCredsSecret";
  "*openshift.KubeadminPasswordSecret"; "*openshift.NetworkCRDs"; "*openshift.PrivateClusterOutbound";
  "*openshift.RoleCloudCredsSecretReader"; "*password.KubeadminPassword"; "*releaseimage.Image";
  "*rhcos.BootstrapImage"; "*rhcos.Image"; "*tls.AdminKubeConfigCABundle"; "*tls.AdminKubeConfigClientCertKey";
  "*tls.AdminKubeConfigSignerCertKey"; "*tls.AggregatorCA"; "*tls.AggregatorCABundle";
  "*tls.AggregatorClientCertKey"; "*tls.AggregatorSignerCertKey"; "*tls.APIServerProxyCertKey";
  "*tls.EtcdCABundle"; "*tls.EtcdMetricCABundle"; "*tls.EtcdMetricSignerCertKey";
  "*tls.EtcdMetricSignerClientCertKey"; "*tls.EtcdSignerCertKey"; "*tls.EtcdSignerClientCertKey";
  "*tls.JournalCertKey"; "*tls.KubeAPIServerCompleteCABundle"; "*tls.KubeAPIServerCompleteClientCABundle";
  "*tls.KubeAPIServerExternalLBServerCertKey"; "*tls.KubeAPIServerInternalLBServerCertKey";
  "*tls.KubeAPIServerLBCABundle"; "*tls.KubeAPIServerLBSignerCertKey"; "*tls.KubeAPIServerLocalhostCABundle";
  "*tls.KubeAPIServerLocalhostServerCertKey"; "*tls.KubeAPIServerLocalhostSignerCertKey";
  "*tls.KubeAPIServerServiceNetworkCABundle"; "*tls.KubeAPIServerServiceNetworkServerCertKey";
  "*tls.KubeAPIServerServiceNetworkSignerCertKey"; "*tls.KubeAPIServerToKubeletCABundle";
  "*tls.KubeAPIServerToKubeletClientCertKey"; "*tls.KubeAPIServerToKubeletSignerCertKey";
  "*tls.KubeControlPlaneCABundle"; "*tls.KubeControlPlaneKubeControllerManagerClientCertKey";
  "*tls.KubeControlPlaneKubeSchedulerClientCertKey"; "*tls.KubeControlPlaneSignerCertKey";
  "*tls.KubeletBootstrapCABundle"; "*tls.KubeletBootstrapCertSigner"; "*tls.KubeletClientCABundle";
  "*tls.KubeletClientCertKey"; "*tls.KubeletCSRSignerCertKey"; "*tls.KubeletServingCABundle"; "*tls.MCSCertKey";
  "*tls.RootCA"; "*tls.ServiceAccountKeyPair"].

(** How deep [resolve] calls itself *)
Class Depth := resolve_depth : nat.

Section graph.
Context {W : Type} `{!Assets W}.
Implicit Types (g : graph) (a : asset).

(** [for _, dep := range a.Dependencies() { g.resolve(dep) }] *)
Fixpoint resolve_each (resolve : graph -> asset -> M W graph) (l : list asset) (g : graph) : M W graph :=
  match l with
  | [] => ret g
  | a :: l => do! g <- resolve g a; resolve_each resolve l g
  end.

(** The graph is a map that the calls share: each returns what it has become. The
    depth of the calls is bounded by the fuel. *)
Fixpoint resolve (fuel : nat) (g : graph) (a : asset) : M W graph :=
  match fuel with
  | 0 => lift OutOfFuel
  | S fuel =>
      match g !! TypeOf a with
      | Some _ => ret g
      | None =>
          do! g <- resolve_each (resolve fuel) (Dependencies a) g;
          do! '(a', g) <- Generate a g;
          ret (<[TypeOf a := a']> g)
      end
  end.

(** [json.Marshal(m)]: a JSON object with one field per type *)
Fixpoint marshal_fields (l : list (string * asset)) : res (gmap string string) :=
  match l with
  | [] => Ok ∅
  | (t, a) :: l =>
      do? b <- json_Marshal a;
      do? m <- marshal_fields l;
      Ok (<[t := b]> m)
  end.
Definition MarshalJSON (g : graph) : res (gmap string string) := marshal_fields (map_to_list g).

Fixpoint unmarshal_fields (l : list (string * string)) (g : graph) : res graph :=
  match l with
  | [] => Ok g
  | (n, b) :: l =>
      if decide (n ∈ registeredTypes) then
        do? a <- json_Unmarshal n b;
        unmarshal_fields l (<[n := a]> g)
      else Err (ErrOther ("unregistered type " +:+ Quote n))
  end.
Definition UnmarshalJSON (g : graph) (m : gmap string string) : res graph :=
  unmarshal_fields (map_to_list m) g.
End graph.

(** ** The order of generation

    Which assets are generated, and in which order, does not depend on what they
    turn out to be: it is the post-order of the dependencies that are not there
    yet. *)
Section order.
Context {W : Type} `{!Assets W}.
Implicit Types (g : graph) (a : asset) (have : gset string) (l : list asset).

Definition types l : gset string := list_to_set (TypeOf <$> l).

Fixpoint order_each (order : gset string -> asset -> option (list asset)) (l : list asset) (have : gset string)
    : option (list asset) :=
  match l with
  | [] => Some []
  | a :: l =>
      l1 ← order have a;
      l2 ← order_each order l (have ∪ types l1);
      Some (l1 ++ l2)
  end.
Fixpoint order (fuel : nat) (have : gset string) (a : asset) : option (list asset) :=
  match fuel with
  | 0 => None
  | S fuel =>
      if decide (TypeOf a ∈ have) then Some []
      else l ← order_each (order fuel) (Dependencies a) have; Some (l ++ [a])
  end.

(** One asset after the other, without looking at dependencies *)
Fixpoint generate_all l g : M W graph :=
  match l with
  | [] => ret g
  | a :: l => do! '(a', g) <- Generate a g; generate_all l (<[TypeOf a := a']> g)
  end.

(** Each asset comes after all it depends on, and once. *)
Record sorted (have : gset string) l : Prop := {
  so_NoDup : NoDup (TypeOf <$> l);
  so_new a : a ∈ l -> TypeOf a ∉ have;
  so_deps l1 a l2 d : l = l1 ++ a :: l2 -> d ∈ Dependencies a -> TypeOf d ∈ have ∪ types l1;
}.

Lemma types_app l1 l2 : types (l1 ++ l2) = types l1 ∪ types l2.
Proof. unfold types. by rewrite fmap_app, list_to_set_app_L. Qed.

Lemma generate_all_app l1 l2 g w :
  generate_all (l1 ++ l2) g w = (do! g <- generate_all l1 g; generate_all l2 g) w.
Proof.
  revert g w. induction l1 as [|a l1 IH]; intros g w; [done|]. simpl. unfold bind.
  destruct (Generate a g w) as [[[a' g']| | |] w1]; [|done..]. rewrite IH. done.
Qed.

(** A generation adds no entry of its own and takes none away. *)
Context (generates : forall a g w a' g' w', Generate a g w = (Ok (a', g'), w') -> dom g' = dom g).

Lemma generate_all_dom l g w g' w' : generate_all l g w = (Ok g', w') -> dom g' = dom g ∪ types l.
Proof.
  revert g w. induction l as [|a l IH]; intros g w; [intros [= <- <-]; unfold types; set_solver|].
  simpl. intros ([a' g1] & w1 & Hg & H)%bind_inv_ok. apply IH in H. rewrite H, dom_insert_L, (generates _ _ _ _ _ _ Hg).
  unfold types. set_solver.
Qed.

Lemma bind_ext {X B} (m m' : M W X) (f f' : X -> M W B) w :
  m w = m' w -> (forall (x : X) w', m' w = (Ok x, w') -> f x w' = f' x w') -> bind m f w = bind m' f' w.
Proof. unfold bind. intros -> H. destruct (m' w) as [[a| | |] w1]; [by apply H|done..]. Qed.

Lemma resolve_order fuel g a l w : order fuel (dom g) a = Some l -> resolve fuel g a w = generate_all l g w.
Proof.
  revert g a l w. induction fuel as [|fuel IH]; intros g a l w; [done|]. simpl.
  destruct (g !! TypeOf a) as [x|] eqn:Hx.
  { rewrite decide_True by (apply elem_of_dom; eauto). by intros [= <-]. }
  rewrite decide_False by (by rewrite not_elem_of_dom).
  destruct (order_each _ _ _) as [ls|] eqn:Ho; [|done]. intros [= <-]. rewrite generate_all_app.
  apply bind_ext; [|done]. clear Hx. revert g ls w Ho.
  induction (Dependencies a) as [|d ds IHd]; intros g ls w; simpl; [by intros [= <-]|].
  destruct (order fuel (dom g) d) as [l1|] eqn:H1; [|done]. simpl.
  destruct (order_each _ ds _) as [l2|] eqn:H2; [|done]. intros [= <-]. rewrite generate_all_app.
  apply bind_ext; [by apply IH|]. intros g1 w1 Hg1. apply IHd. by rewrite (generate_all_dom _ _ _ _ _ Hg1).
Qed.

(** Dependencies are on types of lower rank. *)
Context (rank : string -> nat) (acyclic : forall a d, d ∈ Dependencies a -> rank (TypeOf d) < rank (TypeOf a)).

Lemma sorted_nil have : sorted have [].
Proof. split; [constructor|set_solver|by intros [] ? ? ?]. Qed.

Lemma sorted_app have l1 l2 : sorted have l1 -> sorted (have ∪ types l1) l2 -> sorted have (l1 ++ l2).
Proof.
  intros [Hn1 Hw1 Hd1] [Hn2 Hw2 Hd2]. split.
  - rewrite fmap_app. apply NoDup_app. split_and!; [done| |done].
    intros t Ht (b & -> & Hb)%list_elem_of_fmap. apply (Hw2 b Hb). apply elem_of_union. right.
    unfold types. by apply elem_of_list_to_set.
  - intros b [Hb|Hb]%elem_of_app; [by apply Hw1|]. intros Hh. apply (Hw2 b Hb). set_solver.
  - intros k1 b k2 d E Hd. apply app_eq_inv in E as [(k & -> & E)|(k & -> & E)].
    + destruct k as [|c k]; [|injection E as -> ->; by eapply Hd1].
      simpl in E. pose proof (Hd2 [] b k2 d (eq_sym E) Hd) as H. rewrite types_app in H. unfold types in *. set_solver.
    + rewrite types_app. pose proof (Hd2 k b k2 d E Hd). set_solver.
Qed.

(** What a resolution adds is no higher than its asset. *)
Lemma order_sorted fuel have a l :
  order fuel have a = Some l ->
  sorted have l /\ TypeOf a ∈ have ∪ types l /\ forall b, b ∈ l -> rank (TypeOf b) <= rank (TypeOf a).
Proof.
  revert have a l. induction fuel as [|fuel IH]; intros have a l; [done|]. simpl. case_decide as Ha.
  { intros [= <-]. split_and!; [apply sorted_nil|set_solver|set_solver]. }
  destruct (order_each _ _ _) as [ls|] eqn:Ho; [|done]. intros [= <-].
  assert (sorted have ls /\ (forall d, d ∈ Dependencies a -> TypeOf d ∈ have ∪ types ls) /\
    forall b, b ∈ ls -> rank (TypeOf b) < rank (TypeOf a)) as (Hs & Hd & Hr).
  { pose proof (acyclic a) as Hac. clear Ha. revert have ls Ho.
    induction (Dependencies a) as [|d ds IHd]; intros have ls; simpl.
    { intros [= <-]. split_and!; [apply sorted_nil|set_solver|set_solver]. }
    destruct (order fuel have d) as [l1|] eqn:H1; [|done]. simpl.
    destruct (order_each _ ds _) as [l2|] eqn:H2; [|done]. intros [= <-].
    apply IH in H1 as (Hs1 & Hd1 & Hr1). apply IHd in H2 as (Hs2 & Hd2 & Hr2); [|set_solver].
    split_and!.
    - by apply sorted_app.
    - rewrite types_app. intros x [-> |Hx]%elem_of_cons; [set_solver|]. specialize (Hd2 x Hx). set_solver.
    - intros b [Hb|Hb]%elem_of_app; [|by apply Hr2]. apply Nat.le_lt_trans with (rank (TypeOf d)); [by apply Hr1|].
      apply Hac. by left. }
  split_and!.
  - apply sorted_app; [done|]. split.
    + apply NoDup_singleton.
    + intros b ->%list_elem_of_singleton. intros [|(b & Hb & Hin)%elem_of_list_to_set%list_elem_of_fmap]%elem_of_union; [done|].
      apply Hr in Hin. rewrite <-Hb in Hin. lia.
    + intros [|x k1] b k2 d E Hin; [|by destruct k1]. injection E as <- <-. specialize (Hd d Hin). unfold types in *. set_solver.
  - rewrite types_app. unfold types. set_solver.
  - intros b [Hb| ->%list_elem_of_singleton]%elem_of_app; [apply Hr in Hb; lia|done].
Qed.

(** A depth above the rank is enough. *)
Lemma order_total fuel have a : rank (TypeOf a) < fuel -> is_Some (order fuel have a).
Proof.
  revert have a. induction fuel as [|fuel IH]; intros have a Hr; [lia|]. simpl. case_decide; [eauto|].
  assert (forall l have, (forall d, d ∈ l -> rank (TypeOf d) < fuel) -> is_Some (order_each (order fuel) l have)) as H1.
  { clear have H a Hr. induction l as [|d l IHl]; intros have Hl; simpl; [eauto|].
    destruct (IH have d) as [l1 ->]; [apply Hl; by left|]. simpl.
    destruct (IHl (have ∪ types l1)) as [l2 ->]; [|simpl; eauto]. intros x Hx. apply Hl. by right. }
  destruct (H1 (Dependencies a) have) as [l ->]; [|simpl; eauto].
  intros d Hd. apply acyclic in Hd. lia.
Qed.
End order.

(** ** The graph as it is stored *)
Section json.
Context {W : Type} `{!Assets W}.
Implicit Types (g : graph).

(** An asset that is encoded comes back. *)
Definition storable (t : string) (a : asset) : Prop :=
  t ∈ registeredTypes /\ exists b, json_Marshal a = Ok b /\ json_Unmarshal t b = Ok a.

Lemma marshal_fields_ok l :
  NoDup l.*1 -> Forall (fun ta => storable ta.1 ta.2) l ->
  exists m, marshal_fields l = Ok m /\ dom m = list_to_set l.*1 /\
    forall t b, m !! t = Some b -> exists a, (t, a) ∈ l /\ json_Unmarshal t b = Ok a.
Proof.
  induction l as [|[t a] l IH]; intros Hn Hl; [by exists ∅; rewrite dom_empty_L|].
  apply NoDup_cons in Hn as [Ht Hn]. apply Forall_cons in Hl as [(Hr & b & Hb & Hu) Hl].
  cbn [fst snd] in Hr, Hb, Hu. destruct (IH Hn Hl) as (m & Hm & Hd & Hall). exists (<[t:=b]> m). simpl. rewrite Hb. simpl. rewrite Hm. simpl.
  split_and!; [done|by rewrite dom_insert_L, Hd|].
  intros t' b' [[<- <-]|[_ Hl']]%lookup_insert_Some; [exists a; split; [by left|done]|].
  destruct (Hall t' b' Hl') as (a' & Hin & Ha'). exists a'. split; [by right|done].
Qed.

Lemma unmarshal_fields_ok l g :
  Forall (fun nb => nb.1 ∈ registeredTypes /\ is_ok (json_Unmarshal nb.1 nb.2) = true) l -> NoDup l.*1 ->
  exists g', unmarshal_fields l g = Ok g' /\ forall t, g' !! t =
    match list_to_map (M := gmap string string) l !! t with
    | Some b => match json_Unmarshal t b with Ok a => Some a | _ => None end
    | None => g !! t
    end.
Proof.
  revert g. induction l as [|[n b] l IH]; intros g Hl Hn; [by exists g|].
  apply Forall_cons in Hl as [[Hr Hok] Hl]. apply NoDup_cons in Hn as [Hnn Hn]. simpl in *.
  rewrite decide_True by done. destruct (json_Unmarshal n b) as [a| | |] eqn:Ha; try done. simpl.
  destruct (IH (<[n := a]> g) Hl Hn) as (g' & Hg' & Hall). exists g'. split; [done|]. intros t. rewrite Hall.
  destruct (decide (t = n)) as [->|Hne].
  - rewrite lookup_insert_eq. rewrite not_elem_of_list_to_map_1 by done. by rewrite lookup_insert_eq, Ha.
  - rewrite !lookup_insert_ne by done. done.
Qed.

Lemma graph_roundtrip g :
  map_Forall storable g -> exists m, MarshalJSON g = Ok m /\ UnmarshalJSON ∅ m = Ok g.
Proof.
  intros Hg. unfold MarshalJSON, UnmarshalJSON.
  destruct (marshal_fields_ok (map_to_list g)) as (m & Hm & Hd & Hall).
  { apply NoDup_fst_map_to_list. }
  { apply Forall_forall. intros [t a] Hin%elem_of_map_to_list. by apply Hg. }
  exists m. split; [done|].
  assert (forall t b, m !! t = Some b -> exists a, g !! t = Some a /\ json_Unmarshal t b = Ok a) as Hm'.
  { intros t b H. destruct (Hall t b H) as (a & Hin%elem_of_map_to_list & Ha). eauto. }
  destruct (unmarshal_fields_ok (map_to_list m) ∅) as (g' & -> & Hg').
  { apply Forall_forall. intros [t b] Hin%elem_of_map_to_list. cbn [fst snd]. destruct (Hm' t b Hin) as (a & Ha & ->).
    split; [by apply Hg in Ha as [? _]|done]. }
  { apply NoDup_fst_map_to_list. }
  f_equal. apply map_eq. intros t. rewrite Hg', list_to_map_to_list, lookup_empty.
  destruct (m !! t) as [b|] eqn:Ht.
  - destruct (Hm' t b Ht) as (a & -> & ->). done.
  - symmetry. apply not_elem_of_dom. apply not_elem_of_dom in Ht. rewrite Hd in Ht.
    intros [a Ha]%elem_of_dom. apply Ht, elem_of_list_to_set, list_elem_of_fmap.
    exists (t, a). split; [done|by apply elem_of_map_to_list].
Qed.
End json.
