(* ===== verification/Arm.v ===== *)
(** * Deployment templates (src/pkg/util/arm)

    A template is a list of resources, each a value of one of the SDK's structs with
    what the deployment adds to it. The structs are values by type and field, as
    their literals in the source give them; a field that is not given is zero, and a
    pointer is what it points to. *)
From S2P Require Import Prelude GoStrings.
From Stdlib Require Import Ascii.

Inductive val :=
| VStr (s : string)
| VInt (z : Z)
| VBool (b : bool)
| VNil                                  (* a nil pointer that is given *)
| VList (l : list val)
| VMap (m : list (string * val))
| VStruct (type : string) (fields : list (string * val)).

Declare Scope arm_scope.
Delimit Scope arm_scope with arm.
Notation "f ↦ v" := (f, v) (at level 62, no associativity, only parsing) : arm_scope.

(** ** types.go *)
Record Copy := mkCopy { cp_Name : string; cp_Count : Z; cp_Mode : string; cp_BatchSize : Z }.

Record Resource := mkResource {
  ar_Resource : val;
  ar_Name : string;
  ar_Type : string;
  ar_Condition : bool;
  ar_APIVersion : string;
  ar_DependsOn : list string;
  ar_Location : string;
  ar_Tags : list (string * val);
  ar_Copy : option Copy;
  ar_Comments : string;
}.
Record TemplateParameter := mkTemplateParameter {
  tp_Type : string;
  tp_DefaultValue : option val;         (* interface{} *)
}.
Record Output := mkOutput { o_Condition : bool; o_Type : string; o_Value : val }.
Record Template := mkTemplate {
  t_Schema : string;
  t_ContentVersion : string;
  t_Variables : list (string * val);
  t_Parameters : list (string * TemplateParameter);
  t_Resources : list Resource;
  t_Outputs : list (string * Output);
}.
Record ParametersParameter := mkParametersParameter { pp_Value : option val }.
Record Parameters := mkParameters {
  ps_Schema : string;
  ps_ContentVersion : string;
  ps_Parameters : list (string * ParametersParameter);
}.

Definition Schema : string := "https://schema.management.azure.com/schemas/2015-01-01/deploymentTemplate.json#".

(** [&arm.Resource{Resource: ..., APIVersion: ..., Copy: ..., DependsOn: ...}] *)
Definition resource (apiVersion : string) (copy : option Copy) (dependsOn : list string) (v : val) : Resource :=
  mkResource v EmptyString EmptyString false apiVersion dependsOn EmptyString [] copy EmptyString.
Definition copies (name : string) (count : Z) : option Copy := Some (mkCopy name count EmptyString 0).

(** A field of a struct *)
Fixpoint field_of (name : string) (fields : list (string * val)) : option val :=
  match fields with
  | [] => None
  | (n, v) :: fields => if decide (n = name) then Some v else field_of name fields
  end.
Definition str_field (name : string) (v : val) : string :=
  match v with
  | VStruct _ fields => match field_of name fields with Some (VStr s) => s | _ => EmptyString end
  | _ => EmptyString
  end.
Definition name_of (r : Resource) : string := str_field "Name" (ar_Resource r).
Definition type_of (r : Resource) : string := str_field "Type" (ar_Resource r).

(** A map of the program by its keys, in their order: what is not there is the
    empty string. *)
Fixpoint at_key (m : list (string * string)) (k : string) : string :=
  match m with
  | [] => EmptyString
  | (k', v) :: m => if decide (k' = k) then v else at_key m k
  end.

(** ** Strings of the templates

    A double quote, and a string between two *)
Definition DQ : string := String (ascii_of_nat 34) EmptyString.
Definition q (s : string) : string := DQ +:+ s +:+ DQ.

(** [base64.StdEncoding.EncodeToString] *)
Definition base64_alphabet : string := "ABCDEFGHIJKLMNOPQRSTUVWXYZabcdefghijklmnopqrstuvwxyz0123456789+/".
Definition base64_char (n : nat) : string :=
  match String.get n base64_alphabet with Some c => String c EmptyString | None => EmptyString end.
Fixpoint EncodeToString (s : string) : string :=
  match s with
  | EmptyString => EmptyString
  | String a EmptyString =>
      let a := nat_of_ascii a in base64_char (a / 4) +:+ base64_char (a mod 4 * 16) +:+ "=="
  | String a (String b EmptyString) =>
      let (a, b) := (nat_of_ascii a, nat_of_ascii b) in
      base64_char (a / 4) +:+ base64_char (a mod 4 * 16 + b / 16) +:+ base64_char (b mod 16 * 4) +:+ "="
  | String a (String b (String c s)) =>
      let '(a, b, c) := (nat_of_ascii a, nat_of_ascii b, nat_of_ascii c) in
      base64_char (a / 4) +:+ base64_char (a mod 4 * 16 + b / 16) +:+ base64_char (b mod 16 * 4 + c / 64) +:+
      base64_char (c mod 64) +:+ EncodeToString s
  end.

(** ** What a dependency names

    [id type name]: the segments of the name between those of the type, as Azure
    makes a resource identifier of them *)
Definition segment (s : string) : Prop := ContainsRune s slash = false.

Inductive id : string -> string -> string -> Prop :=
| id_one provider type name : segment provider -> segment type ->
    id (provider +:+ "/" +:+ type) name (provider +:+ "/" +:+ type +:+ "/" +:+ name)
| id_two type t name n i : segment t -> id type name i ->
    id (type +:+ "/" +:+ t) (name +:+ "/" +:+ n) (i +:+ "/" +:+ t +:+ "/" +:+ n).

(** The arguments after the type that [resourceId] takes for a name: the name
    itself, the expression it is, or the two expressions it joins. *)
Inductive arguments : string -> string -> Prop :=
| arguments_literal s : arguments s ("'" +:+ s +:+ "'")
| arguments_expression e : arguments ("[" +:+ e +:+ "]") e
| arguments_pair e1 e2 : arguments ("[concat(" +:+ e1 +:+ ", '/', " +:+ e2 +:+ ")]") (e1 +:+ ", " +:+ e2).

(** A dependency is the identifier of a resource, the name of its copy loop, or an
    expression: one that puts the type before the name's expression, or a call of
    [resourceId]. *)
Inductive names (r : Resource) : string -> Prop :=
| names_id d : id (type_of r) (name_of r) d -> names r d
| names_copy c : ar_Copy r = Some c -> names r (cp_Name c)
| names_concat s e : name_of r = "[concat('" +:+ s +:+ "', " +:+ e +:+ ")]" ->
    names r ("[concat('" +:+ type_of r +:+ "/" +:+ s +:+ "', " +:+ e +:+ ")]")
| names_expression e : name_of r = "[" +:+ e +:+ "]" ->
    names r ("[concat('" +:+ type_of r +:+ "/', " +:+ e +:+ ")]")
| names_resourceId a : arguments (name_of r) a -> names r ("[resourceId('" +:+ type_of r +:+ "', " +:+ a +:+ ")]").

(** A template that can be deployed: no two resources have the same type and name,
    and they can be ordered so that each comes after those it depends on, all of
    which are in the template. *)
Definition key_of (r : Resource) : string * string := (type_of r, name_of r).
Definition deployable (t : Template) : Prop :=
  NoDup (key_of <$> t_Resources t) /\
  exists order, Permutation order (t_Resources t) /\
    forall l1 r l2 d, order = l1 ++ r :: l2 -> d ∈ ar_DependsOn r -> exists r', r' ∈ l1 /\ names r' d.

(** One resource after the other *)
Inductive ordered (before : list Resource) : list Resource -> Prop :=
| ordered_nil : ordered before []
| ordered_cons r l :
    Forall (fun d => Exists (fun r' => names r' d) before) (ar_DependsOn r) ->
    ordered (r :: before) l -> ordered before (r :: l).

Lemma ordered_spec before l : ordered before l ->
  forall l1 r l2 d, l = l1 ++ r :: l2 -> d ∈ ar_DependsOn r -> exists r', r' ∈ before ++ l1 /\ names r' d.
Proof.
  induction 1 as [before|before r l Hr Hl IH]; intros l1 r' l2 d E Hd; [by destruct l1|].
  destruct l1 as [|x l1]; injection E as -> E.
  - rewrite Forall_forall in Hr. apply Hr, Exists_exists in Hd as (r & Hin & Hn). exists r. set_solver.
  - destruct (IH l1 r' l2 d E Hd) as (y & Hy & Hn). exists y. split; [|done]. set_solver.
Qed.

Lemma deployable_intro t order :
  NoDup (key_of <$> t_Resources t) -> Permutation order (t_Resources t) -> ordered [] order -> deployable t.
Proof.
  intros Hn Hp Ho. split; [done|]. exists order. split; [done|]. intros l1 r l2 d E Hd.
  by destruct (ordered_spec _ _ Ho l1 r l2 d E Hd) as (r' & Hr & ?); [exists r'].
Qed.
Lemma deployable_listed t : NoDup (key_of <$> t_Resources t) -> ordered [] (t_Resources t) -> deployable t.
Proof. intros. by apply deployable_intro with (t_Resources t). Qed.

(** Every resource says of which version of its API it is, what it is and its name. *)
Definition typed (r : Resource) : Prop :=
  ar_APIVersion r <> EmptyString /\ type_of r <> EmptyString /\ name_of r <> EmptyString.

(** ** References to the parts of a load balancer

    The parts a load balancer defines, under the identifiers by which resources refer
    to them *)
Definition lb_part (part lb name : string) : string :=
  "[resourceId('Microsoft.Network/loadBalancers/" +:+ part +:+ "', '" +:+ lb +:+ "', '" +:+ name +:+ "')]".

Definition list_at (name : string) (fields : list (string * val)) : list val :=
  match field_of name fields with Some (VList l) => l | _ => [] end.
Definition fields_at (name : string) (fields : list (string * val)) : list (string * val) :=
  match field_of name fields with Some (VStruct _ fs) => fs | _ => [] end.

Definition offered (r : Resource) : list string :=
  match ar_Resource r with
  | VStruct "LoadBalancer" fs =>
      let fs := fields_at "LoadBalancerPropertiesFormat" fs in
      ((fun v => lb_part "frontendIPConfigurations" (name_of r) (str_field "Name" v)) <$>
        list_at "FrontendIPConfigurations" fs) ++
      ((fun v => lb_part "backendAddressPools" (name_of r) (str_field "Name" v)) <$>
        list_at "BackendAddressPools" fs) ++
      ((fun v => lb_part "probes" (name_of r) (str_field "Name" v)) <$> list_at "Probes" fs)
  | _ => []
  end.

(** The fields through which a resource refers to one: a structure with an [ID], or
    a list of them *)
Definition reference_fields : list string := [
  "FrontendIPConfiguration"; "FrontendIPConfigurations"; "LoadBalancerFrontendIPConfigurations";
  "BackendAddressPool"; "LoadBalancerBackendAddressPools"; "Probe"; "HealthProbe"].

Definition id_of (v : val) : list string :=
  match v with
  | VStruct _ fs => match field_of "ID" fs with Some (VStr s) => [s] | _ => [] end
  | _ => []
  end.

Fixpoint referred (v : val) : list string :=
  match v with
  | VList l => mjoin (map referred l)
  | VMap m => mjoin (map (fun kv => referred (snd kv)) m)
  | VStruct _ fs =>
      mjoin (map (fun kv =>
        (if bool_decide (fst kv ∈ reference_fields) then
           id_of (snd kv) ++ match snd kv with VList l => mjoin (map id_of l) | _ => [] end
         else []) ++ referred (snd kv)) fs)
  | _ => []
  end.

(** Every part of a load balancer that is referred to is there. *)
Definition wired (t : Template) : Prop :=
  forall r i, r ∈ t_Resources t -> i ∈ referred (ar_Resource r) -> exists r', r' ∈ t_Resources t /\ i ∈ offered r'.

(** ** Parameters

    Those an expression mentions, as [parameters('...')] *)
Definition call : string := "parameters('".
Fixpoint mentioned (s : string) : list string :=
  match s with
  | EmptyString => []
  | String _ s' =>
      (if HasPrefix s call then
         [BeforeFirst "'" (String.substring (String.length call) (String.length s) s)] else []) ++ mentioned s'
  end.
Fixpoint val_strings (v : val) : list string :=
  match v with
  | VStr s => [s]
  | VList l => mjoin (map val_strings l)
  | VMap m => mjoin (map (fun kv => fst kv :: val_strings (snd kv)) m)
  | VStruct _ fs => mjoin (map (fun kv => val_strings (snd kv)) fs)
  | _ => []
  end.
Definition template_strings (t : Template) : list string :=
  mjoin ((fun r => val_strings (ar_Resource r) ++ ar_DependsOn r) <$> t_Resources t) ++
  mjoin ((fun kv => val_strings (snd kv)) <$> t_Variables t) ++
  mjoin ((fun kv => val_strings (o_Value (snd kv))) <$> t_Outputs t).
Definition template_mentions (t : Template) : list string := mjoin (mentioned <$> template_strings t).
Definition declared (t : Template) : list string := fst <$> t_Parameters t.

(** What is mentioned is declared, once; and what is declared is mentioned, but for
    [rest]. *)
Record closed (rest : list string) (t : Template) : Prop := {
  cl_declared p : p ∈ template_mentions t -> p ∈ declared t;
  cl_once : NoDup (declared t);
  cl_mentioned p : p ∈ declared t -> p ∈ template_mentions t \/ p ∈ rest;
}.
