(* ===== verification/InstallTemplates.v ===== *)
(** * The templates of the installer (src/pkg/install)

    What the installer deploys into the cluster's resource group: the storage
    template of 0-installstorage.go, then the resources template of
    1-installresources.go, one definition per resource. [c] is the installer's
    configuration and [oc] the cluster's document. *)
From S2P Require Import Prelude GoStrings.
From S2P Require Import Api Services Cidr Net Graph Arm.
#[local] Open Scope arm_scope.
#[local] Open Scope string_scope.
#[local] Open Scope Z_scope.

Definition apiVersions : list (string * string) := [
  ("authorization", "2015-07-01"); ("compute", "2019-03-01"); ("network", "2019-07-01");
  ("privatedns", "2018-09-01"); ("storage", "2019-04-01")].
Definition apiVersion (provider : string) : string := at_key apiVersions provider.

Definition region (c : InstallConfig) : string := az_Region (ic_Azure c).
Definition suffix (oc : OpenShiftCluster) : string := p_StorageSuffix (oc_Properties oc).

(** ** The storage template *)
Definition storage_account (c : InstallConfig) (oc : OpenShiftCluster) : Resource :=
  resource (apiVersion "storage") None []
    (VStruct "Account" [
      "Sku" ↦ VStruct "Sku" ["Name" ↦ VStr "Standard_LRS"]; "Name" ↦ VStr ("cluster" +:+ suffix oc);
      "Location" ↦ VStr (region c); "Type" ↦ VStr "Microsoft.Storage/storageAccounts"]).

Definition container_ignition (oc : OpenShiftCluster) : Resource :=
  resource (apiVersion "storage") None ["Microsoft.Storage/storageAccounts/cluster" +:+ suffix oc]
    (VStruct "BlobContainer" [
      "Name" ↦ VStr ("cluster" +:+ suffix oc +:+ "/default/ignition");
      "Type" ↦ VStr "Microsoft.Storage/storageAccounts/blobServices/containers"]).

Definition container_aro (oc : OpenShiftCluster) : Resource :=
  resource (apiVersion "storage") None ["Microsoft.Storage/storageAccounts/cluster" +:+ suffix oc]
    (VStruct "BlobContainer" [
      "Name" ↦ VStr ("cluster" +:+ suffix oc +:+ "/default/aro");
      "Type" ↦ VStr "Microsoft.Storage/storageAccounts/blobServices/containers"]).

Definition nsg_controlplane (c : InstallConfig) : Resource :=
  resource (apiVersion "network") None []
    (VStruct "SecurityGroup" [
      "SecurityGroupPropertiesFormat" ↦ VStruct "SecurityGroupPropertiesFormat" [
        "SecurityRules" ↦ VList [
          VStruct "SecurityRule" [
            "SecurityRulePropertiesFormat" ↦ VStruct "SecurityRulePropertiesFormat" [
              "Protocol" ↦ VStr "Tcp"; "SourcePortRange" ↦ VStr "*"; "DestinationPortRange" ↦ VStr "6443";
              "SourceAddressPrefix" ↦ VStr "*"; "DestinationAddressPrefix" ↦ VStr "*"; "Access" ↦ VStr "Allow";
              "Priority" ↦ VInt 101; "Direction" ↦ VStr "Inbound"];
            "Name" ↦ VStr "apiserver_in"];
          VStruct "SecurityRule" [
            "SecurityRulePropertiesFormat" ↦ VStruct "SecurityRulePropertiesFormat" [
              "Protocol" ↦ VStr "Tcp"; "SourcePortRange" ↦ VStr "*"; "DestinationPortRange" ↦ VStr "22";
              "SourceAddressPrefix" ↦ VStr "*"; "DestinationAddressPrefix" ↦ VStr "*"; "Access" ↦ VStr "Allow";
              "Priority" ↦ VInt 103; "Direction" ↦ VStr "Inbound"];
            "Name" ↦ VStr "bootstrap_ssh_in"]]];
      "Name" ↦ VStr "aro-controlplane-nsg"; "Type" ↦ VStr "Microsoft.Network/networkSecurityGroups";
      "Location" ↦ VStr (region c)]).

Definition nsg_node (c : InstallConfig) : Resource :=
  resource (apiVersion "network") None []
    (VStruct "SecurityGroup" [
      "Name" ↦ VStr "aro-node-nsg"; "Type" ↦ VStr "Microsoft.Network/networkSecurityGroups";
      "Location" ↦ VStr (region c)]).

Definition storage_template (c : InstallConfig) (oc : OpenShiftCluster) : Template :=
  mkTemplate Schema "1.0.0.0" [] []
    [storage_account c oc; container_ignition oc; container_aro oc; nsg_controlplane c; nsg_node c] [].

(** ** The resources template *)
(** A pointer to a list of strings *)
Definition strings (l : option (list string)) : val :=
  match l with Some l => VList (VStr <$> l) | None => VNil end.

(** [srvRecords[i] = mgmtprivatedns.SrvRecord{...}], [i] below the number of replicas *)
Definition srvRecord (c : InstallConfig) (i : nat) : val :=
  VStruct "SrvRecord" [
    "Priority" ↦ VInt 10; "Weight" ↦ VInt 10; "Port" ↦ VInt 2380;
    "Target" ↦ VStr ("etcd-" +:+ Itoa (Z.of_nat i) +:+ "." +:+ ic_Name c +:+ "." +:+ ic_BaseDomain c)].
Definition srvRecords (c : InstallConfig) (replicas : Z) : list val := srvRecord c <$> seq 0 (Z.to_nat replicas).

Section resources.
Context `{!Env}.

Definition contributor (objectID : string) : Resource :=
  resource (apiVersion "authorization") None []
    (VStruct "RoleAssignment" [
      "Name" ↦ VStr "[guid(resourceGroup().id, 'SP / Contributor')]";
      "Type" ↦ VStr "Microsoft.Authorization/roleAssignments";
      "Properties" ↦ VStruct "RoleAssignmentPropertiesWithScope" [
        "Scope" ↦ VStr "[resourceGroup().id]";
        "RoleDefinitionID" ↦ VStr "[resourceId('Microsoft.Authorization/roleDefinitions', 'b24988ac-6180-42a0-ab88-20f7382dd24c')]";
        "PrincipalID" ↦ VStr objectID]]).

Definition zone (c : InstallConfig) : Resource :=
  resource (apiVersion "privatedns") None []
    (VStruct "PrivateZone" [
      "Name" ↦ VStr (ic_Name c +:+ "." +:+ ic_BaseDomain c); "Type" ↦ VStr "Microsoft.Network/privateDnsZones";
      "Location" ↦ VStr "global"]).

Definition record_api_int (c : InstallConfig) (lbIP : IP) : Resource :=
  resource (apiVersion "privatedns") None
    ["Microsoft.Network/privateDnsZones/" +:+ ic_Name c +:+ "." +:+ ic_BaseDomain c]
    (VStruct "RecordSet" [
      "Name" ↦ VStr (ic_Name c +:+ "." +:+ ic_BaseDomain c +:+ "/api-int");
      "Type" ↦ VStr "Microsoft.Network/privateDnsZones/A";
      "RecordSetProperties" ↦ VStruct "RecordSetProperties" [
        "TTL" ↦ VInt 300; "ARecords" ↦ VList [VStruct "ARecord" ["Ipv4Address" ↦ VStr (IP_String lbIP)]]]]).

Definition record_api (c : InstallConfig) (lbIP : IP) : Resource :=
  resource (apiVersion "privatedns") None
    ["Microsoft.Network/privateDnsZones/" +:+ ic_Name c +:+ "." +:+ ic_BaseDomain c]
    (VStruct "RecordSet" [
      "Name" ↦ VStr (ic_Name c +:+ "." +:+ ic_BaseDomain c +:+ "/api");
      "Type" ↦ VStr "Microsoft.Network/privateDnsZones/A";
      "RecordSetProperties" ↦ VStruct "RecordSetProperties" [
        "TTL" ↦ VInt 300; "ARecords" ↦ VList [VStruct "ARecord" ["Ipv4Address" ↦ VStr (IP_String lbIP)]]]]).

Definition record_etcd_srv (c : InstallConfig) (replicas : Z) : Resource :=
  resource (apiVersion "privatedns") None
    ["Microsoft.Network/privateDnsZones/" +:+ ic_Name c +:+ "." +:+ ic_BaseDomain c]
    (VStruct "RecordSet" [
      "Name" ↦ VStr (ic_Name c +:+ "." +:+ ic_BaseDomain c +:+ "/_etcd-server-ssl._tcp");
      "Type" ↦ VStr "Microsoft.Network/privateDnsZones/SRV";
      "RecordSetProperties" ↦ VStruct "RecordSetProperties" ["TTL" ↦ VInt 60; "SrvRecords" ↦ VList (srvRecords c replicas)]]).

Definition record_etcd (c : InstallConfig) (replicas : Z) : Resource :=
  resource (apiVersion "privatedns") (copies "privatednscopy" replicas)
    ["[concat('Microsoft.Network/networkInterfaces/aro-master', copyIndex(), '-nic')]";
     "Microsoft.Network/privateDnsZones/" +:+ ic_Name c +:+ "." +:+ ic_BaseDomain c]
    (VStruct "RecordSet" [
      "Name" ↦ VStr ("[concat('" +:+ ic_Name c +:+ "." +:+ ic_BaseDomain c +:+ "/etcd-', copyIndex())]");
      "Type" ↦ VStr "Microsoft.Network/privateDnsZones/A";
      "RecordSetProperties" ↦ VStruct "RecordSetProperties" [
        "TTL" ↦ VInt 60;
        "ARecords" ↦ VList [
          VStruct "ARecord" [
            "Ipv4Address" ↦ VStr "[reference(resourceId('Microsoft.Network/networkInterfaces', concat('aro-master', copyIndex(), '-nic')), '2019-07-01').ipConfigurations[0].properties.privateIPAddress]"]]]]).

Definition network_link (c : InstallConfig) (vnetID : string) : Resource :=
  resource (apiVersion "privatedns") None
    ["Microsoft.Network/privateDnsZones/" +:+ ic_Name c +:+ "." +:+ ic_BaseDomain c; "privatednscopy"]
    (VStruct "VirtualNetworkLink" [
      "VirtualNetworkLinkProperties" ↦ VStruct "VirtualNetworkLinkProperties" [
        "VirtualNetwork" ↦ VStruct "SubResource" ["ID" ↦ VStr vnetID]; "RegistrationEnabled" ↦ VBool false];
      "Name" ↦ VStr (ic_Name c +:+ "." +:+ ic_BaseDomain c +:+ "/" +:+ ic_Name c +:+ "-network-link");
      "Type" ↦ VStr "Microsoft.Network/privateDnsZones/virtualNetworkLinks"; "Location" ↦ VStr "global"]).

Definition pls (c : InstallConfig) (oc : OpenShiftCluster) : Resource :=
  resource (apiVersion "network") None ["Microsoft.Network/loadBalancers/aro-internal-lb"]
    (VStruct "PrivateLinkService" [
      "PrivateLinkServiceProperties" ↦ VStruct "PrivateLinkServiceProperties" [
        "LoadBalancerFrontendIPConfigurations" ↦ VList [
          VStruct "FrontendIPConfiguration" [
            "ID" ↦ VStr "[resourceId('Microsoft.Network/loadBalancers/frontendIPConfigurations', 'aro-internal-lb', 'internal-lb-ip')]"]];
        "IPConfigurations" ↦ VList [
          VStruct "PrivateLinkServiceIPConfiguration" [
            "PrivateLinkServiceIPConfigurationProperties" ↦ VStruct "PrivateLinkServiceIPConfigurationProperties" [
              "Subnet" ↦ VStruct "Subnet" ["ID" ↦ VStr (mp_SubnetID (p_MasterProfile (oc_Properties oc)))]];
            "Name" ↦ VStr "aro-pls-nic"]];
        "Visibility" ↦ VStruct "PrivateLinkServicePropertiesVisibility" [
          "Subscriptions" ↦ VList [VStr env_SubscriptionID]];
        "AutoApproval" ↦ VStruct "PrivateLinkServicePropertiesAutoApproval" [
          "Subscriptions" ↦ VList [VStr env_SubscriptionID]]];
      "Name" ↦ VStr "aro-pls"; "Type" ↦ VStr "Microsoft.Network/privateLinkServices";
      "Location" ↦ VStr (region c)]).

Definition routetable (c : InstallConfig) : Resource :=
  resource (apiVersion "network") None []
    (VStruct "RouteTable" [
      "Name" ↦ VStr "aro-node-routetable"; "Type" ↦ VStr "Microsoft.Network/routeTables";
      "Location" ↦ VStr (region c)]).

Definition pip (c : InstallConfig) : Resource :=
  resource (apiVersion "network") None []
    (VStruct "PublicIPAddress" [
      "Sku" ↦ VStruct "PublicIPAddressSku" ["Name" ↦ VStr "Standard"];
      "PublicIPAddressPropertiesFormat" ↦ VStruct "PublicIPAddressPropertiesFormat" [
        "PublicIPAllocationMethod" ↦ VStr "Static"];
      "Name" ↦ VStr "aro-pip"; "Type" ↦ VStr "Microsoft.Network/publicIPAddresses";
      "Location" ↦ VStr (region c)]).

(** resources.go: the rules and the probe of the API server are there only if it is
    public. *)
Definition apiServerPublicLoadBalancer (location visibility : string) : Resource :=
  resource (apiVersion "network") None ["Microsoft.Network/publicIPAddresses/aro-pip"]
    (VStruct "LoadBalancer" [
      "Sku" ↦ VStruct "LoadBalancerSku" ["Name" ↦ VStr "Standard"];
      "LoadBalancerPropertiesFormat" ↦ VStruct "LoadBalancerPropertiesFormat" ([
        "FrontendIPConfigurations" ↦ VList [
          VStruct "FrontendIPConfiguration" [
            "FrontendIPConfigurationPropertiesFormat" ↦ VStruct "FrontendIPConfigurationPropertiesFormat" [
              "PublicIPAddress" ↦ VStruct "PublicIPAddress" [
                "ID" ↦ VStr "[resourceId('Microsoft.Network/publicIPAddresses', 'aro-pip')]"]];
            "Name" ↦ VStr "public-lb-ip"]];
        "BackendAddressPools" ↦ VList [
          VStruct "BackendAddressPool" ["Name" ↦ VStr "aro-public-lb-control-plane"]];
        "OutboundRules" ↦ VList [
          VStruct "OutboundRule" [
            "OutboundRulePropertiesFormat" ↦ VStruct "OutboundRulePropertiesFormat" [
              "FrontendIPConfigurations" ↦ VList [
                VStruct "SubResource" [
                  "ID" ↦ VStr "[resourceId('Microsoft.Network/loadBalancers/frontendIPConfigurations', 'aro-public-lb', 'public-lb-ip')]"]];
              "BackendAddressPool" ↦ VStruct "SubResource" [
                "ID" ↦ VStr "[resourceId('Microsoft.Network/loadBalancers/backendAddressPools', 'aro-public-lb', 'aro-public-lb-control-plane')]"];
              "Protocol" ↦ VStr "All"; "IdleTimeoutInMinutes" ↦ VInt 30];
            "Name" ↦ VStr "api-internal-outboundrule"]]] ++
        if decide (visibility = VisibilityPublic) then [
          "LoadBalancingRules" ↦ VList [
            VStruct "LoadBalancingRule" [
              "LoadBalancingRulePropertiesFormat" ↦ VStruct "LoadBalancingRulePropertiesFormat" [
                "FrontendIPConfiguration" ↦ VStruct "SubResource" [
                  "ID" ↦ VStr "[resourceId('Microsoft.Network/loadBalancers/frontendIPConfigurations', 'aro-public-lb', 'public-lb-ip')]"];
                "BackendAddressPool" ↦ VStruct "SubResource" [
                  "ID" ↦ VStr "[resourceId('Microsoft.Network/loadBalancers/backendAddressPools', 'aro-public-lb', 'aro-public-lb-control-plane')]"];
                "Probe" ↦ VStruct "SubResource" [
                  "ID" ↦ VStr "[resourceId('Microsoft.Network/loadBalancers/probes', 'aro-public-lb', 'api-internal-probe')]"];
                "Protocol" ↦ VStr "Tcp"; "LoadDistribution" ↦ VStr "Default"; "FrontendPort" ↦ VInt 6443;
                "BackendPort" ↦ VInt 6443; "IdleTimeoutInMinutes" ↦ VInt 30; "DisableOutboundSnat" ↦ VBool true];
              "Name" ↦ VStr "api-internal"]];
          "Probes" ↦ VList [
            VStruct "Probe" [
              "ProbePropertiesFormat" ↦ VStruct "ProbePropertiesFormat" [
                "Protocol" ↦ VStr "Tcp"; "Port" ↦ VInt 6443; "IntervalInSeconds" ↦ VInt 10;
                "NumberOfProbes" ↦ VInt 3];
              "Name" ↦ VStr "api-internal-probe"; "Type" ↦ VStr "Microsoft.Network/loadBalancers/probes"]]]
        else []);
      "Name" ↦ VStr "aro-public-lb"; "Type" ↦ VStr "Microsoft.Network/loadBalancers"; "Location" ↦ VStr location]).

Definition internal_lb (c : InstallConfig) (oc : OpenShiftCluster) (lbIP : IP) : Resource :=
  resource (apiVersion "network") None []
    (VStruct "LoadBalancer" [
      "Sku" ↦ VStruct "LoadBalancerSku" ["Name" ↦ VStr "Standard"];
      "LoadBalancerPropertiesFormat" ↦ VStruct "LoadBalancerPropertiesFormat" [
        "FrontendIPConfigurations" ↦ VList [
          VStruct "FrontendIPConfiguration" [
            "FrontendIPConfigurationPropertiesFormat" ↦ VStruct "FrontendIPConfigurationPropertiesFormat" [
              "PrivateIPAddress" ↦ VStr (IP_String lbIP); "PrivateIPAllocationMethod" ↦ VStr "Static";
              "Subnet" ↦ VStruct "Subnet" ["ID" ↦ VStr (mp_SubnetID (p_MasterProfile (oc_Properties oc)))]];
            "Name" ↦ VStr "internal-lb-ip"]];
        "BackendAddressPools" ↦ VList [
          VStruct "BackendAddressPool" ["Name" ↦ VStr "aro-internal-controlplane"]];
        "LoadBalancingRules" ↦ VList [
          VStruct "LoadBalancingRule" [
            "LoadBalancingRulePropertiesFormat" ↦ VStruct "LoadBalancingRulePropertiesFormat" [
              "FrontendIPConfiguration" ↦ VStruct "SubResource" [
                "ID" ↦ VStr "[resourceId('Microsoft.Network/loadBalancers/frontendIPConfigurations', 'aro-internal-lb', 'internal-lb-ip')]"];
              "BackendAddressPool" ↦ VStruct "SubResource" [
                "ID" ↦ VStr "[resourceId('Microsoft.Network/loadBalancers/backendAddressPools', 'aro-internal-lb', 'aro-internal-controlplane')]"];
              "Probe" ↦ VStruct "SubResource" [
                "ID" ↦ VStr "[resourceId('Microsoft.Network/loadBalancers/probes', 'aro-internal-lb', 'api-internal-probe')]"];
              "Protocol" ↦ VStr "Tcp"; "LoadDistribution" ↦ VStr "Default"; "FrontendPort" ↦ VInt 6443;
              "BackendPort" ↦ VInt 6443; "IdleTimeoutInMinutes" ↦ VInt 30; "DisableOutboundSnat" ↦ VBool true];
            "Name" ↦ VStr "api-internal"];
          VStruct "LoadBalancingRule" [
            "LoadBalancingRulePropertiesFormat" ↦ VStruct "LoadBalancingRulePropertiesFormat" [
              "FrontendIPConfiguration" ↦ VStruct "SubResource" [
                "ID" ↦ VStr "[resourceId('Microsoft.Network/loadBalancers/frontendIPConfigurations', 'aro-internal-lb', 'internal-lb-ip')]"];
              "BackendAddressPool" ↦ VStruct "SubResource" [
                "ID" ↦ VStr "[resourceId('Microsoft.Network/loadBalancers/backendAddressPools', 'aro-internal-lb', 'aro-internal-controlplane')]"];
              "Probe" ↦ VStruct "SubResource" [
                "ID" ↦ VStr "[resourceId('Microsoft.Network/loadBalancers/probes', 'aro-internal-lb', 'sint-probe')]"];
              "Protocol" ↦ VStr "Tcp"; "LoadDistribution" ↦ VStr "Default"; "FrontendPort" ↦ VInt 22623;
              "BackendPort" ↦ VInt 22623; "IdleTimeoutInMinutes" ↦ VInt 30];
            "Name" ↦ VStr "sint"]];
        "Probes" ↦ VList [
          VStruct "Probe" [
            "ProbePropertiesFormat" ↦ VStruct "ProbePropertiesFormat" [
              "Protocol" ↦ VStr "Tcp"; "Port" ↦ VInt 6443; "IntervalInSeconds" ↦ VInt 10;
              "NumberOfProbes" ↦ VInt 3];
            "Name" ↦ VStr "api-internal-probe"];
          VStruct "Probe" [
            "ProbePropertiesFormat" ↦ VStruct "ProbePropertiesFormat" [
              "Protocol" ↦ VStr "Tcp"; "Port" ↦ VInt 22623; "IntervalInSeconds" ↦ VInt 10;
              "NumberOfProbes" ↦ VInt 3];
            "Name" ↦ VStr "sint-probe"]]];
      "Name" ↦ VStr "aro-internal-lb"; "Type" ↦ VStr "Microsoft.Network/loadBalancers";
      "Location" ↦ VStr (region c)]).

Definition bootstrap_nic (c : InstallConfig) (oc : OpenShiftCluster) : Resource :=
  resource (apiVersion "network") None
    ["Microsoft.Network/loadBalancers/aro-internal-lb"; "Microsoft.Network/loadBalancers/aro-public-lb"]
    (VStruct "Interface" [
      "InterfacePropertiesFormat" ↦ VStruct "InterfacePropertiesFormat" [
        "IPConfigurations" ↦ VList [
          VStruct "InterfaceIPConfiguration" [
            "InterfaceIPConfigurationPropertiesFormat" ↦ VStruct "InterfaceIPConfigurationPropertiesFormat" [
              "LoadBalancerBackendAddressPools" ↦ VList [
                VStruct "BackendAddressPool" [
                  "ID" ↦ VStr "[resourceId('Microsoft.Network/loadBalancers/backendAddressPools', 'aro-public-lb', 'aro-public-lb-control-plane')]"];
                VStruct "BackendAddressPool" [
                  "ID" ↦ VStr "[resourceId('Microsoft.Network/loadBalancers/backendAddressPools', 'aro-internal-lb', 'aro-internal-controlplane')]"]];
              "Subnet" ↦ VStruct "Subnet" ["ID" ↦ VStr (mp_SubnetID (p_MasterProfile (oc_Properties oc)))]];
            "Name" ↦ VStr "bootstrap-nic-ip"]]];
      "Name" ↦ VStr "aro-bootstrap-nic"; "Type" ↦ VStr "Microsoft.Network/networkInterfaces";
      "Location" ↦ VStr (region c)]).

Definition master_nic (c : InstallConfig) (oc : OpenShiftCluster) (replicas : Z) : Resource :=
  resource (apiVersion "network") (copies "networkcopy" replicas)
    ["Microsoft.Network/loadBalancers/aro-internal-lb"; "Microsoft.Network/loadBalancers/aro-public-lb"]
    (VStruct "Interface" [
      "InterfacePropertiesFormat" ↦ VStruct "InterfacePropertiesFormat" [
        "IPConfigurations" ↦ VList [
          VStruct "InterfaceIPConfiguration" [
            "InterfaceIPConfigurationPropertiesFormat" ↦ VStruct "InterfaceIPConfigurationPropertiesFormat" [
              "LoadBalancerBackendAddressPools" ↦ VList [
                VStruct "BackendAddressPool" [
                  "ID" ↦ VStr "[resourceId('Microsoft.Network/loadBalancers/backendAddressPools', 'aro-public-lb', 'aro-public-lb-control-plane')]"];
                VStruct "BackendAddressPool" [
                  "ID" ↦ VStr "[resourceId('Microsoft.Network/loadBalancers/backendAddressPools', 'aro-internal-lb', 'aro-internal-controlplane')]"]];
              "Subnet" ↦ VStruct "Subnet" ["ID" ↦ VStr (mp_SubnetID (p_MasterProfile (oc_Properties oc)))]];
            "Name" ↦ VStr "pipConfig"]]];
      "Name" ↦ VStr "[concat('aro-master', copyIndex(), '-nic')]";
      "Type" ↦ VStr "Microsoft.Network/networkInterfaces"; "Location" ↦ VStr (region c)]).

Definition bootstrap_vm (c : InstallConfig) (oc : OpenShiftCluster) (image : OSImage) : Resource :=
  resource (apiVersion "compute") None
    ["[concat('Microsoft.Authorization/roleAssignments/', guid(resourceGroup().id, 'SP / Contributor'))]";
     "Microsoft.Network/networkInterfaces/aro-bootstrap-nic";
     "Microsoft.Network/privateDnsZones/" +:+ ic_Name c +:+ "." +:+ ic_BaseDomain c +:+
       "/virtualNetworkLinks/" +:+ ic_Name c +:+ "-network-link"]
    (VStruct "VirtualMachine" [
      "VirtualMachineProperties" ↦ VStruct "VirtualMachineProperties" [
        "HardwareProfile" ↦ VStruct "HardwareProfile" ["VMSize" ↦ VStr "Standard_D4s_v3"];
        "StorageProfile" ↦ VStruct "StorageProfile" [
          "ImageReference" ↦ VStruct "ImageReference" [
            "Publisher" ↦ VStr (im_Publisher image); "Offer" ↦ VStr (im_Offer image);
            "Sku" ↦ VStr (im_SKU image); "Version" ↦ VStr (im_Version image)];
          "OsDisk" ↦ VStruct "OSDisk" [
            "Name" ↦ VStr "aro-bootstrap_OSDisk"; "Caching" ↦ VStr "ReadWrite";
            "CreateOption" ↦ VStr "FromImage"; "DiskSizeGB" ↦ VInt 100;
            "ManagedDisk" ↦ VStruct "ManagedDiskParameters" ["StorageAccountType" ↦ VStr "Premium_LRS"]]];
        "OsProfile" ↦ VStruct "OSProfile" [
          "ComputerName" ↦ VStr "aro-bootstrap-vm"; "AdminUsername" ↦ VStr "core";
          "AdminPassword" ↦ VStr "NotActuallyApplied!";
          "CustomData" ↦ VStr ("[base64(concat('{" +:+ q "ignition" +:+ ":{" +:+ q "version" +:+ ":" +:+ q "2.2.0" +:+ "," +:+
            q "config" +:+ ":{" +:+ q "replace" +:+ ":{" +:+ q "source" +:+ ":" +:+ DQ +:+ "https://cluster" +:+
            suffix oc +:+ ".blob.core.windows.net/ignition/bootstrap.ign?', listAccountSas(resourceId(" +:+
            "'Microsoft.Storage/storageAccounts', 'cluster" +:+ suffix oc +:+ "'), '2019-04-01', " +:+
            "parameters('sas')).accountSasToken, '" +:+ DQ +:+ "}}}}'))]");
          "LinuxConfiguration" ↦ VStruct "LinuxConfiguration" ["DisablePasswordAuthentication" ↦ VBool false]];
        "NetworkProfile" ↦ VStruct "NetworkProfile" [
          "NetworkInterfaces" ↦ VList [
            VStruct "NetworkInterfaceReference" [
              "ID" ↦ VStr "[resourceId('Microsoft.Network/networkInterfaces', 'aro-bootstrap-nic')]"]]];
        "DiagnosticsProfile" ↦ VStruct "DiagnosticsProfile" [
          "BootDiagnostics" ↦ VStruct "BootDiagnostics" [
            "Enabled" ↦ VBool true;
            "StorageURI" ↦ VStr ("https://cluster" +:+ suffix oc +:+ ".blob.core.windows.net/")]]];
      "Name" ↦ VStr "aro-bootstrap"; "Type" ↦ VStr "Microsoft.Compute/virtualMachines";
      "Location" ↦ VStr (region c)]).

Definition master_vm (c : InstallConfig) (oc : OpenShiftCluster) (image : OSImage) (replicas : Z) (zones : option (list string)) (machineMaster : string) : Resource :=
  resource (apiVersion "compute") (copies "computecopy" replicas)
    ["[concat('Microsoft.Authorization/roleAssignments/', guid(resourceGroup().id, 'SP / Contributor'))]";
     "[concat('Microsoft.Network/networkInterfaces/aro-master', copyIndex(), '-nic')]";
     "Microsoft.Network/privateDnsZones/" +:+ ic_Name c +:+ "." +:+ ic_BaseDomain c +:+
       "/virtualNetworkLinks/" +:+ ic_Name c +:+ "-network-link"]
    (VStruct "VirtualMachine" [
      "VirtualMachineProperties" ↦ VStruct "VirtualMachineProperties" [
        "HardwareProfile" ↦ VStruct "HardwareProfile" ["VMSize" ↦ VStr (mp_InstanceType (ic_ControlPlane c))];
        "StorageProfile" ↦ VStruct "StorageProfile" [
          "ImageReference" ↦ VStruct "ImageReference" [
            "Publisher" ↦ VStr (im_Publisher image); "Offer" ↦ VStr (im_Offer image);
            "Sku" ↦ VStr (im_SKU image); "Version" ↦ VStr (im_Version image)];
          "OsDisk" ↦ VStruct "OSDisk" [
            "Name" ↦ VStr "[concat('aro-master-', copyIndex(), '_OSDisk')]"; "Caching" ↦ VStr "ReadOnly";
            "CreateOption" ↦ VStr "FromImage"; "DiskSizeGB" ↦ VInt (mp_DiskSizeGB (ic_ControlPlane c));
            "ManagedDisk" ↦ VStruct "ManagedDiskParameters" ["StorageAccountType" ↦ VStr "Premium_LRS"]]];
        "OsProfile" ↦ VStruct "OSProfile" [
          "ComputerName" ↦ VStr "[concat('aro-master-', copyIndex())]"; "AdminUsername" ↦ VStr "core";
          "AdminPassword" ↦ VStr "NotActuallyApplied!"; "CustomData" ↦ VStr (EncodeToString machineMaster);
          "LinuxConfiguration" ↦ VStruct "LinuxConfiguration" ["DisablePasswordAuthentication" ↦ VBool false]];
        "NetworkProfile" ↦ VStruct "NetworkProfile" [
          "NetworkInterfaces" ↦ VList [
            VStruct "NetworkInterfaceReference" [
              "ID" ↦ VStr "[resourceId('Microsoft.Network/networkInterfaces', concat('aro-master', copyIndex(), '-nic'))]"]]];
        "DiagnosticsProfile" ↦ VStruct "DiagnosticsProfile" [
          "BootDiagnostics" ↦ VStruct "BootDiagnostics" [
            "Enabled" ↦ VBool true;
            "StorageURI" ↦ VStr ("https://cluster" +:+ suffix oc +:+ ".blob.core.windows.net/")]]];
      "Zones" ↦ strings zones; "Name" ↦ VStr "[concat('aro-master-', copyIndex())]";
      "Type" ↦ VStr "Microsoft.Compute/virtualMachines"; "Location" ↦ VStr (region c)]).

Definition outbound_pip (c : InstallConfig) : Resource :=
  resource (apiVersion "network") None []
    (VStruct "PublicIPAddress" [
      "Sku" ↦ VStruct "PublicIPAddressSku" ["Name" ↦ VStr "Standard"];
      "PublicIPAddressPropertiesFormat" ↦ VStruct "PublicIPAddressPropertiesFormat" [
        "PublicIPAllocationMethod" ↦ VStr "Static"];
      "Name" ↦ VStr "aro-outbound-pip"; "Type" ↦ VStr "Microsoft.Network/publicIPAddresses";
      "Location" ↦ VStr (region c)]).

Definition outbound_lb (c : InstallConfig) : Resource :=
  resource (apiVersion "network") None ["Microsoft.Network/publicIPAddresses/aro-outbound-pip"]
    (VStruct "LoadBalancer" [
      "Sku" ↦ VStruct "LoadBalancerSku" ["Name" ↦ VStr "Standard"];
      "LoadBalancerPropertiesFormat" ↦ VStruct "LoadBalancerPropertiesFormat" [
        "FrontendIPConfigurations" ↦ VList [
          VStruct "FrontendIPConfiguration" [
            "FrontendIPConfigurationPropertiesFormat" ↦ VStruct "FrontendIPConfigurationPropertiesFormat" [
              "PublicIPAddress" ↦ VStruct "PublicIPAddress" [
                "ID" ↦ VStr "[resourceId('Microsoft.Network/publicIPAddresses', 'aro-outbound-pip')]"]];
            "Name" ↦ VStr "outbound"]];
        "BackendAddressPools" ↦ VList [VStruct "BackendAddressPool" ["Name" ↦ VStr "aro"]];
        "OutboundRules" ↦ VList [
          VStruct "OutboundRule" [
            "OutboundRulePropertiesFormat" ↦ VStruct "OutboundRulePropertiesFormat" [
              "FrontendIPConfigurations" ↦ VList [
                VStruct "SubResource" [
                  "ID" ↦ VStr "[resourceId('Microsoft.Network/loadBalancers/frontendIPConfigurations', 'aro', 'outbound')]"]];
              "BackendAddressPool" ↦ VStruct "SubResource" [
                "ID" ↦ VStr "[resourceId('Microsoft.Network/loadBalancers/backendAddressPools', 'aro', 'aro')]"];
              "Protocol" ↦ VStr "All"; "IdleTimeoutInMinutes" ↦ VInt 30];
            "Name" ↦ VStr "outboundrule"]]];
      "Name" ↦ VStr "aro"; "Type" ↦ VStr "Microsoft.Network/loadBalancers"; "Location" ↦ VStr (region c)]).

Definition resources_template (c : InstallConfig) (oc : OpenShiftCluster) (image : OSImage)
    (objectID vnetID machineMaster : string) (lbIP : IP) (replicas : Z) (zones : option (list string)) : Template :=
  mkTemplate Schema "1.0.0.0" [] [("sas", mkTemplateParameter "object" None)]
    [contributor objectID; zone c; record_api_int c lbIP; record_api c lbIP; record_etcd_srv c replicas;
     record_etcd c replicas; network_link c vnetID; pls c oc; routetable c; pip c;
     apiServerPublicLoadBalancer (region c) (asp_Visibility (p_APIServerProfile (oc_Properties oc)));
     internal_lb c oc lbIP; bootstrap_nic c oc; master_nic c oc replicas; bootstrap_vm c oc image;
     master_vm c oc image replicas zones machineMaster; outbound_pip c; outbound_lb c] [].
End resources.
