(* ===== verification/Install.v ===== *)
(** * The installer (src/pkg/install)

    Three phases: the storage account and the security groups, the other resources,
    and the removal of the machine that brought the cluster up. The phase reached is
    kept in the cluster's document, so that an installation that fails is taken up
    again where it failed. *)
From S2P Require Import Prelude GoStrings.
From S2P Require Import Azure Api Net Cidr Services Subnets Wait Kube.
From S2P Require Import Cosmos Database.
From S2P Require Import Graph Arm InstallTemplates.

(** ** Azure clients of the installer *)
Record Group := mkGroup { g_Location : string; g_ManagedBy : option string }.
Record Deployment := mkDeployment {
  d_Template : Template;
  d_Parameters : list (string * val);
  d_Mode : string;
}.
Record AccountSasParameters := mkAccountSasParameters {
  sas_Services : string;
  sas_ResourceTypes : string;
  sas_Permissions : string;
  sas_Protocols : string;
  sas_SharedAccessStartTime : Z;
  sas_SharedAccessExpiryTime : Z;
}.

(** The management clients take a subscription and an authorizer. [Values] is what
    url.ParseQuery makes of a token, with which the blobs of an account are read and
    written. *)
Class InstallClients (W : Type) := {
  groups_CreateOrUpdate : string -> Authorizer -> string -> Group -> M W unit;
  CreateARMResourceGroupRoleAssignment : Authorizer -> string -> M W unit;  (* of env.Dev *)
  DeploymentFuture : Type;
  deployments_CreateOrUpdate : string -> Authorizer -> string -> string -> Deployment -> M W DeploymentFuture;
  WaitForCompletionRef : DeploymentFuture -> M W unit;
  deployments_Get : string -> Authorizer -> string -> string -> M W (option string);  (* its provisioning state *)
  accounts_ListAccountSAS : string -> Authorizer -> string -> string -> AccountSasParameters -> M W (option string);
  Values : Type;
  url_ParseQuery : string -> res Values;
  blob_Get : string -> Values -> string -> string -> M W string;
  blob_CreateBlockBlobFromReader : string -> Values -> string -> string -> string -> M W unit;
  ClientCredentialsConfig_Authorizer : string -> string -> string -> string -> M W Authorizer;
  applications_GetServicePrincipalsIDByAppID : string -> Authorizer -> string -> M W (option string);
  publicipaddresses_Get : string -> Authorizer -> string -> string -> M W (option string);
  virtualmachines_DeleteAndWait : string -> Authorizer -> string -> string -> M W unit;
  disks_DeleteAndWait : string -> Authorizer -> string -> string -> M W unit;
  interfaces_DeleteAndWait : string -> Authorizer -> string -> string -> M W unit;
}.

(** ** The addresses at the end of a network (vendored cidr.Dec) *)
Fixpoint dec_bytes (ip : list Z) : list Z :=
  (* from the last byte on *)
  match ip with
  | [] => []
  | b :: rest => if decide (b = 0)%Z then 255%Z :: dec_bytes rest else (b - 1)%Z :: rest
  end.
Definition checkIPv4 (ip : IP) : IP := match To4 ip with Some v4 => v4 | None => ip end.
Definition Dec (ip : IP) : IP := reverse (dec_bytes (reverse (checkIPv4 ip))).

(** ** Time, in nanoseconds since 1970 *)
Definition Truncate (t d : Z) : Z := (t - t mod d)%Z.

(** The date of a day *)
Definition civil (days : Z) : Z * Z * Z :=
  (let z := days + 719468 in
   let era := z / 146097 in
   let doe := z mod 146097 in
   let yoe := (doe - doe / 1460 + doe / 36524 - doe / 146096) / 365 in
   let doy := doe - (365 * yoe + yoe / 4 - yoe / 100) in
   let mp := (5 * doy + 2) / 153 in
   let d := doy - (153 * mp + 2) / 5 + 1 in
   let m := if mp <? 10 then mp + 3 else mp - 9 in
   let y := yoe + era * 400 + (if m <=? 2 then 1 else 0) in
   (y, m, d))%Z.
Fixpoint padded (width : nat) (s : string) : string :=
  match width with
  | 0 => s
  | S width => if decide (String.length s < S width) then "0" +:+ padded width s else s
  end.
Definition pad (width : nat) (z : Z) : string := padded width (Itoa z).

(** [Format(time.RFC3339)] of a time in UTC *)
Definition RFC3339 (t : Z) : string :=
  (let s := t / time_Second in
   let '(y, m, d) := civil (s / 86400) in
   let r := s mod 86400 in
   pad 4 y +:+ "-" +:+ pad 2 m +:+ "-" +:+ pad 2 d +:+ "T" +:+
   pad 2 (r / 3600) +:+ ":" +:+ pad 2 (r / 60 mod 60) +:+ ":" +:+ pad 2 (r mod 60) +:+ "Z")%Z.

(** ** install.go *)
Record Installer := mkInstaller {
  i_doc : OpenShiftClusterDocument;
  i_SubscriptionID : string;            (* of the clients of the cluster's resource group *)
  i_fpAuthorizer : Authorizer;
  i_localFPAuthorizer : Authorizer;     (* of privateendpoint and dns *)
  i_subnets : Subnets.manager;
}.

(** The value of a type assertion on an entry of the graph *)
Definition asserted {A} (get : asset -> option A) (g : graph) (type : string) : res A :=
  match g !! type ≫= get with
  | Some a => Ok a
  | None => Panic "interface conversion: asset.Asset is nil or of another type"
  end.
Definition get_InstallConfig (g : graph) : res InstallConfig :=
  asserted (fun a => match a with AInstallConfig c => Some c | _ => None end) g "*installconfig.InstallConfig".
Definition get_AdminClient (g : graph) : res string :=
  asserted (fun a => match a with AAdminClient d => Some d | _ => None end) g "*kubeconfig.AdminClient".
Definition get_Bootstrap (g : graph) : res string :=
  asserted (fun a => match a with ABootstrap d => Some d | _ => None end) g "*bootstrap.Bootstrap".
Definition get_Master (g : graph) : res string :=
  asserted (fun a => match a with AMachineMaster d => Some d | _ => None end) g "*machine.Master".
Definition get_KubeadminPassword (g : graph) : res string :=
  asserted (fun a => match a with AKubeadminPassword p => Some p | _ => None end) g "*password.KubeadminPassword".

Definition cluster_group (oc : OpenShiftCluster) : res string :=
  resource_group_of (cp_ResourceGroupID (p_ClusterProfile (oc_Properties oc))).

Section installer.
Context {W : Type} `{!Runtime W, !Account W} {PB : PageBound}.
Context {EV : Env} `{!Auth W, !SubnetsClient W, !RecordSetsClient W, !PrivateEndpointsClient W, !Ticks W}.
Context `{!InstallClients W, !Assets W} {DP : Depth} {CF : Config W} {KB : Kube W}.
Context (db : Database).

Definition NewInstaller (doc : OpenShiftClusterDocument) : M W Installer :=
  do! oc <- lift (deref (ocd_OpenShiftCluster doc));
  do! r <- lift (ParseResourceID (oc_ID oc));
  do! localFPAuthorizer <- env_FPAuthorizer env_TenantID ResourceManagerEndpoint;
  do! fpAuthorizer <- env_FPAuthorizer (spp_TenantID (p_ServicePrincipalProfile (oc_Properties oc)))
    ResourceManagerEndpoint;
  ret (mkInstaller doc (r_SubscriptionID r) fpAuthorizer localFPAuthorizer
         (Subnets.NewManager (r_SubscriptionID r) fpAuthorizer)).

(** [i.db.PatchWithLease(ctx, i.doc.Key, func(doc) error {...})], on the cluster *)
Definition patch_cluster (i : Installer) (f : OpenShiftCluster -> M W OpenShiftCluster)
    : M W (option OpenShiftClusterDocument) :=
  OpenShiftClusters.PatchWithLease (db_OpenShiftClusters db) (ocd_Key (i_doc i)) (fun doc =>
    do! oc <- lift (deref (ocd_OpenShiftCluster doc));
    do! oc <- f oc;
    ret (doc <| ocd_OpenShiftCluster := Some oc |>)).

Definition start_install (oc : OpenShiftCluster) : OpenShiftCluster :=
  match p_Install (oc_Properties oc) with
  | Some _ => oc
  | None => oc <| oc_Properties -> p_Install := Some (mkInstall (mkMissingFields None) 0 InstallPhaseDeployStorage) |>
  end.
Definition next_phase (oc : OpenShiftCluster) : res OpenShiftCluster :=
  do? install <- deref (p_Install (oc_Properties oc));
  Ok (oc <| oc_Properties -> p_Install := Some (install <| i_Phase := int64 (i_Phase install + 1) |>) |>).
Definition end_install (oc : OpenShiftCluster) : OpenShiftCluster := oc <| oc_Properties -> p_Install := None |>.

Definition getBlobService (i : Installer) : M W (string * Values) :=
  do! oc <- lift (deref (ocd_OpenShiftCluster (i_doc i)));
  do! resourceGroup <- lift (cluster_group oc);
  do! now <- time_Now;
  let t := Truncate now time_Second in
  let account := "cluster" +:+ p_StorageSuffix (oc_Properties oc) in
  do! token <- accounts_ListAccountSAS (i_SubscriptionID i) (i_fpAuthorizer i) resourceGroup account
    (mkAccountSasParameters "b" "o" "crw" "https" t (t + 24 * time_Hour));
  do! token <- lift (deref token);
  do! v <- lift (url_ParseQuery token);
  ret (account, v).

Definition getGraph (i : Installer) : M W graph :=
  do! '(account, v) <- getBlobService i;
  do! b <- blob_Get account v "aro" "graph";
  lift (do? m <- json_Decode_object b; UnmarshalJSON ∅ m).

(** pkg/util/azureclient/mgmt/resources/deployments_addons.go *)
Definition CreateOrUpdateAndWait (i : Installer) (resourceGroup name : string) (d : Deployment) : M W unit :=
  do! future <- deployments_CreateOrUpdate (i_SubscriptionID i) (i_fpAuthorizer i) resourceGroup name d;
  WaitForCompletionRef future.
Definition Wait (i : Installer) (resourceGroup name : string) : M W unit :=
  Poll (10 * time_Second) time_Hour
    (do! state <- deployments_Get (i_SubscriptionID i) (i_fpAuthorizer i) resourceGroup name;
     do! state <- lift (deref state);
     if bool_decide (state = "Canceled") || bool_decide (state = "Failed")
     then throw (ErrOther ("got provisioningState " +:+ Quote state))
     else ret (bool_decide (state = "Succeeded"))).

(** A deployment of the same name that is still under way is waited for. *)
Definition deployment_active (e : error) : bool :=
  match e with ErrDetailed _ code => bool_decide (code = "DeploymentActive") | _ => false end.
Definition deploy (i : Installer) (resourceGroup : string) (d : Deployment) : M W unit :=
  do! r <- try (CreateOrUpdateAndWait i resourceGroup "azuredeploy" d);
  match r with
  | inl _ => ret tt
  | inr e => if deployment_active e then Wait i resourceGroup "azuredeploy" else throw e
  end.

(** ** 0-installstorage.go *)
Fixpoint resolve_all (l : list asset) (g : graph) : M W graph :=
  match l with
  | [] => ret g
  | a :: l => do! g <- resolve resolve_depth g a; resolve_all l g
  end.

Definition attach_subnet (i : Installer) (oc : OpenShiftCluster) (subnetID : string) : M W unit :=
  do! s <- Subnets.Get (i_subnets i) subnetID;
  let p := default (mkSubnetPropertiesFormat None None None None) (sn_SubnetPropertiesFormat s) in
  do! nsgID <- lift (Subnets.NetworkSecurityGroupID oc subnetID);
  match spf_NetworkSecurityGroup p with
  | Some nsg =>
      do! id <- lift (deref (nsg_ID nsg));
      if EqualFold id nsgID then ret tt
      else throw (ErrOther "tried to overwrite non-nil network security group")
  | None =>
      Subnets.CreateOrUpdate (i_subnets i) subnetID
        (mkSubnet (sn_ID s) (Some (p <| spf_NetworkSecurityGroup := Some (mkNSGRef (Some nsgID)) |>)))
  end.
Fixpoint attach_subnets (i : Installer) (oc : OpenShiftCluster) (subnetIDs : list string) : M W unit :=
  match subnetIDs with
  | [] => ret tt
  | subnetID :: subnetIDs => do! _ <- attach_subnet i oc subnetID; attach_subnets i oc subnetIDs
  end.

(** What the installation keeps for the next phases *)
Definition storage_done (now : Z) (adminClient : string) (oc : OpenShiftCluster) : res OpenShiftCluster :=
  do? install <- deref (p_Install (oc_Properties oc));
  let oc := oc <| oc_Properties -> p_Install := Some (install <| i_Now := now |>) |> in
  Ok (oc <| oc_Properties -> p_AdminKubeconfig := Some adminClient |>).

Definition installStorage (i : Installer) (installConfig : InstallConfig) (platformCreds : PlatformCreds)
    (PullSpec : string) : M W (option OpenShiftClusterDocument) :=
  do! oc <- lift (deref (ocd_OpenShiftCluster (i_doc i)));
  do! _ <- Dns.Create oc;
  do! UUID <- uuid_NewV4;
  let g : graph := {[
    "*installconfig.InstallConfig" := AInstallConfig installConfig;
    "*installconfig.PlatformCreds" := APlatformCreds platformCreds;
    "*releaseimage.Image" := AImage PullSpec;
    "*installconfig.ClusterID" := AClusterID UUID "aro" ]} in
  do! g <- resolve_all targets_Cluster g;
  do! adminClient <- lift (get_AdminClient g);
  do! bootstrap <- lift (get_Bootstrap g);
  do! resourceGroup <- lift (cluster_group oc);
  do! _ <- groups_CreateOrUpdate (i_SubscriptionID i) (i_fpAuthorizer i) resourceGroup
    (mkGroup (region installConfig) (if env_isDev then None else Some (oc_ID oc)));
  do! _ <- (if env_isDev then CreateARMResourceGroupRoleAssignment (i_fpAuthorizer i) resourceGroup else ret tt);
  do! _ <- deploy i resourceGroup (mkDeployment (storage_template installConfig oc) [] "Incremental");
  do! '(account, v) <- getBlobService i;
  do! _ <- blob_CreateBlockBlobFromReader account v "ignition" "bootstrap.ign" bootstrap;
  do! m <- lift (MarshalJSON g);
  do! _ <- blob_CreateBlockBlobFromReader account v "aro" "graph" (json_MarshalIndent_object m);
  do! wp <- lift (index (elems (p_WorkerProfiles (oc_Properties oc))) 0);
  do! _ <- attach_subnets i oc [mp_SubnetID (p_MasterProfile (oc_Properties oc)); wp_SubnetID wp];
  patch_cluster i (fun oc => do! now <- time_Now; lift (storage_done now adminClient oc)).

(** ** 1-installresources.go *)

(** The zones of the masters: one, or one for each *)
Definition master_zones (installConfig : InstallConfig) (replicas : Z) : res (option (list string)) :=
  let n := Z.of_nat (length (mp_Zones (ic_ControlPlane installConfig))) in
  if decide (n = 1)%Z then Ok None
  else if decide (n = replicas) then Ok (Some ["[copyIndex(1)]"])
  else Err (ErrOther ("cluster creation with " +:+ Itoa n +:+ " zones is unimplemented")).

Definition sas_parameter (now : Z) : list (string * val) :=
  [("sas", VMap [("value", VMap [
     ("signedStart", VStr (RFC3339 now)); ("signedExpiry", VStr (RFC3339 (now + 24 * time_Hour)));
     ("signedPermission", VStr "rl"); ("signedResourceTypes", VStr "o"); ("signedServices", VStr "b");
     ("signedProtocol", VStr "https")])])].

Definition resources_done (privateEndpointIP ipAddress : string) (oc : OpenShiftCluster) : OpenShiftCluster :=
  let oc := oc <| oc_Properties -> p_NetworkProfile -> np_PrivateEndpointIP := privateEndpointIP |> in
  oc <| oc_Properties -> p_APIServerProfile -> asp_IP := ipAddress |>.

Definition wait_bootstrap (oc : OpenShiftCluster) : M W unit :=
  do! restConfig <- lift (RestConfig oc);
  do! cli <- lift (kubernetes_NewForConfig restConfig);
  PollImmediateUntil (10 * time_Second) (30 * time_Minute)
    (do! cm <- try (configmaps_Get cli "kube-system" "bootstrap");
     ret (match cm with inl cm => bool_decide (default EmptyString (cm !! "status") = "complete") | inr _ => false end)).

Definition service_principal_id (oc : OpenShiftCluster) : M W string :=
  let spp := p_ServicePrincipalProfile (oc_Properties oc) in
  do! spGraphAuthorizer <- ClientCredentialsConfig_Authorizer (spp_ClientID spp) (spp_ClientSecret spp)
    (spp_TenantID spp) "https://graph.windows.net/";
  do! res <- applications_GetServicePrincipalsIDByAppID (spp_TenantID spp) spGraphAuthorizer (spp_ClientID spp);
  lift (deref res).

Definition installResources (i : Installer) : M W (option OpenShiftClusterDocument) :=
  do! g <- getGraph i;
  do! installConfig <- lift (get_InstallConfig g);
  do! machineMaster <- lift (get_Master g);
  do! oc <- lift (deref (ocd_OpenShiftCluster (i_doc i)));
  do! resourceGroup <- lift (cluster_group oc);
  let masterSubnetID := mp_SubnetID (p_MasterProfile (oc_Properties oc)) in
  do! '(vnetID, _) <- lift (Subnets.Split masterSubnetID);
  do! masterSubnet <- Subnets.Get (i_subnets i) masterSubnetID;
  do! p <- lift (deref (sn_SubnetPropertiesFormat masterSubnet));
  do! prefix <- lift (deref (spf_AddressPrefix p));
  do! '(_, masterSubnetCIDR) <- lift (ParseCIDR prefix);
  do! '(_, last) <- lift (AddressRange masterSubnetCIDR);
  let lbIP := Dec (Dec last) in
  do! replicas <- lift (deref (mp_Replicas (ic_ControlPlane installConfig)));
  do! _ <- lift (if decide (replicas < 0)%Z then Panic "makeslice: len out of range" else Ok tt);
  do! zones <- lift (master_zones installConfig replicas);
  do! objectID <- service_principal_id oc;
  do! image <- lift (deref (az_Image (ic_Azure installConfig)));
  do! install <- lift (deref (p_Install (oc_Properties oc)));
  do! _ <- deploy i resourceGroup
    (mkDeployment (resources_template installConfig oc image objectID vnetID machineMaster lbIP replicas zones)
       (sas_parameter (i_Now install)) "Incremental");
  do! _ <- PrivateEndpoints.Create (i_doc i);
  do! ipAddress <-
    (if decide (asp_Visibility (p_APIServerProfile (oc_Properties oc)) = VisibilityPublic) then
       do! ip <- publicipaddresses_Get (i_SubscriptionID i) (i_fpAuthorizer i) resourceGroup "aro-pip";
       lift (deref ip)
     else ret (IP_String lbIP));
  do! _ <- Dns.Update oc ipAddress;
  do! privateEndpointIP <- PrivateEndpoints.GetIP (i_doc i);
  do! doc <- patch_cluster i (fun oc => ret (resources_done privateEndpointIP ipAddress oc));
  do! d <- lift (deref doc);
  do! oc <- lift (deref (ocd_OpenShiftCluster d));
  do! _ <- wait_bootstrap oc;
  ret doc.

(** ** 2-removebootstrap.go *)
Definition available (cv : ClusterVersion) : bool :=
  existsb (fun cond => bool_decide (cond = ("Available", "True"))) (cv_Conditions cv).

Definition cluster_version (restConfig : Rest W) : M W unit :=
  do! cli <- lift (config_NewForConfig restConfig);
  do! _ <- PollImmediateUntil (10 * time_Second) (30 * time_Minute)
    (do! cv <- try (clusterversions_Get cli "version");
     ret (match cv with inl cv => available cv | inr _ => false end));
  RetryOnConflict
    (do! cv <- clusterversions_Get cli "version";
     do! _ <- clusterversions_Update cli
       (mkClusterVersion (cv_ResourceVersion cv) EmptyString EmptyString (cv_Conditions cv));
     ret tt).

Definition bootstrap_done (installConfig : InstallConfig) (routerIP kubeadminPassword : string)
    (oc : OpenShiftCluster) : res OpenShiftCluster :=
  let name := ic_Name installConfig +:+ "." +:+ ic_BaseDomain installConfig in
  let oc := oc <| oc_Properties -> p_APIServerProfile -> asp_URL := "https://api." +:+ name +:+ ":6443/" |> in
  do? ip <- index (elems (p_IngressProfiles (oc_Properties oc))) 0;
  let oc := oc <| oc_Properties -> p_IngressProfiles :=
    (fun l => <[0 := ip <| ip_IP := routerIP |>]> l) <$> p_IngressProfiles (oc_Properties oc) |> in
  let oc := oc <| oc_Properties -> p_ConsoleProfile -> cons_URL :=
    "https://console-openshift-console.apps." +:+ name +:+ "/" |> in
  Ok (oc <| oc_Properties -> p_KubeadminPassword := kubeadminPassword |>).

Definition removeBootstrap (i : Installer) : M W (option OpenShiftClusterDocument) :=
  do! g <- getGraph i;
  do! installConfig <- lift (get_InstallConfig g);
  do! kubeadminPassword <- lift (get_KubeadminPassword g);
  do! oc <- lift (deref (ocd_OpenShiftCluster (i_doc i)));
  do! resourceGroup <- lift (cluster_group oc);
  do! _ <- virtualmachines_DeleteAndWait (i_SubscriptionID i) (i_fpAuthorizer i) resourceGroup "aro-bootstrap";
  do! _ <- disks_DeleteAndWait (i_SubscriptionID i) (i_fpAuthorizer i) resourceGroup "aro-bootstrap_OSDisk";
  do! _ <- interfaces_DeleteAndWait (i_SubscriptionID i) (i_fpAuthorizer i) resourceGroup "aro-bootstrap-nic";
  do! restConfig <- lift (RestConfig oc);
  do! _ <- cluster_version restConfig;
  do! cli <- lift (kubernetes_NewForConfig restConfig);
  do! ingress <- services_Get cli "openshift-ingress" "router-default";
  match ingress with
  | [] => throw (ErrOther "routerIP not found")
  | routerIP :: _ =>
      do! _ <- Dns.CreateOrUpdateRouter oc routerIP;
      patch_cluster i (fun oc => lift (bootstrap_done installConfig routerIP kubeadminPassword oc))
  end.

(** ** The loop over the phases

    Three rounds at most: see [Install_total]. *)
Definition phase_of (doc : OpenShiftClusterDocument) : res InstallPhase :=
  do? oc <- deref (ocd_OpenShiftCluster doc);
  do? install <- deref (p_Install (oc_Properties oc));
  Ok (i_Phase install).

Section phases.
Context (installConfig : InstallConfig) (platformCreds : PlatformCreds) (PullSpec : string).

Fixpoint phases (rounds : nat) (i : Installer) : M W unit :=
  match rounds with
  | 0 => lift OutOfFuel
  | S rounds =>
      let next (doc : option OpenShiftClusterDocument) : M W unit :=
        do! doc <- lift (deref doc);
        let i := i <| i_doc := doc |> in
        do! doc <- patch_cluster i (fun oc => lift (next_phase oc));
        do! doc <- lift (deref doc);
        phases rounds (i <| i_doc := doc |>) in
      do! phase <- lift (phase_of (i_doc i));
      if decide (phase = InstallPhaseDeployStorage) then
        do! doc <- installStorage i installConfig platformCreds PullSpec; next doc
      else if decide (phase = InstallPhaseDeployResources) then
        do! doc <- installResources i; next doc
      else if decide (phase = InstallPhaseRemoveBootstrap) then
        do! doc <- removeBootstrap i;
        do! doc <- lift (deref doc);
        do! _ <- patch_cluster (i <| i_doc := doc |>) (fun oc => ret (end_install oc));
        ret tt
      else throw (ErrOther ("unrecognised phase " +:+ InstallPhases.String phase))
  end.

Definition Install_ (i : Installer) : M W unit :=
  do! doc <- patch_cluster i (fun oc => ret (start_install oc));
  do! doc <- lift (deref doc);
  phases 3 (i <| i_doc := doc |>).
End phases.
End installer.
