(* ===== verification/Create.v ===== *)
(** * The creation of a cluster (src/pkg/backend/openshiftcluster/create.go)

    The manager's [Create]: it draws the cluster's keys, fills in the configuration of
    the OpenShift installer and installs. With [Delete] and [Update] it makes the
    manager that the back end works with. *)
From S2P Require Import Prelude GoStrings.
From S2P Require Import Regex Azure Api Net Services Subnets Wait Kube.
From S2P Require Import Cosmos Database Backend Manager.
From S2P Require Import Graph Arm Install.
From Stdlib Require Import Ascii.

(** Random numbers and keys, the validation of the vendored installer and the image
    it installs; the environment's variable and table of zones *)
Class Creation (W : Type) := {
  rsa_GenerateKey : Z -> M W string;
  rand_Int : Z -> M W Z;
  ssh_NewPublicKey : string -> res (string * string);  (* the key's type and its wire form *)
  ValidateInstallConfig : InstallConfig -> res unit;
  rhcos_VHD : M W string;
  PULL_SECRET : string;
  env_zones : gmap string (list string);
}.

(** env/prod.go *)
Definition Zones (zones : gmap string (list string)) (vmSize : string) : res (list string) :=
  match zones !! vmSize with
  | Some zones => Ok zones
  | None => Err (ErrOther ("zone information not found for vm size " +:+ Quote vmSize))
  end.

(** ** rxRHCOS: rhcos-((\d+)\.\d+\.\d{8})\d{4}\.\d+-azure\.x86_64\.vhd

    What follows a run of digits in the pattern is not a digit, or the run has a fixed
    length: there is one way to match from a place in the text. *)
Fixpoint digits (s : string) : string * string :=
  match s with
  | String c s' => if is_digit c then let '(d, t) := digits s' in (String c d, t) else (EmptyString, s)
  | EmptyString => (EmptyString, EmptyString)
  end.
Definition strip (p s : string) : option string :=
  if HasPrefix s p then Some (String.substring (String.length p) (String.length s) s) else None.
Definition digits1 (s : string) : option (string * string) :=
  let '(d, t) := digits s in if decide (d = EmptyString) then None else Some (d, t).

Definition match_rhcos (s : string) : option (string * string) :=
  s ← strip "rhcos-" s;
  '(m2, s) ← digits1 s;
  s ← strip "." s;
  '(minor, s) ← digits1 s;
  s ← strip "." s;
  '(date, s) ← digits1 s;
  if decide (String.length date <> 12) then None
  else
    s ← strip "." s;
    '(_, s) ← digits1 s;
    _ ← strip "-azure.x86_64.vhd" s;
    Some (m2 +:+ "." +:+ minor +:+ "." +:+ String.substring 0 8 date, m2).
(** [FindStringSubmatch]: from the first place that matches *)
Fixpoint find_rhcos (s : string) : option (string * string) :=
  match match_rhcos s with
  | Some m => Some m
  | None => match s with String _ s => find_rhcos s | EmptyString => None end
  end.

Definition rhcos_image (osImage : string) : res OSImage :=
  match find_rhcos osImage with
  | Some (m1, m2) => Ok (mkOSImage "azureopenshift" "aro4" ("aro_" +:+ m2) m1)
  | None => Err (ErrOther ("couldn't match osImage " +:+ Quote osImage))
  end.

(** The vendored ipnet: unlike net.ParseCIDR, it keeps the bits of the host. *)
Definition MustParseCIDR (s : string) : res IPNet :=
  match ParseCIDR s with
  | Ok (ip, net) => Ok (mkIPNet (checkIPv4 ip) (n_ones net) (n_bits net))
  | _ => Panic "ipnet: could not parse CIDR"
  end.

Definition letterBytes : string := "abcdefghijklmnopqrstuvwxyz0123456789".

(** A domain without a dot is under the program's own. *)
Definition full_domain `{!Env} (domain : string) : string :=
  if ContainsRune domain "." then domain else domain +:+ "." +:+ env_Domain.

Section create.
Context {W : Type} `{!Runtime W, !Account W} {PB : PageBound}.
Context {EV : Env} `{!Auth W, !SubnetsClient W, !RecordSetsClient W, !PrivateEndpointsClient W, !GroupsClient W}.
Context `{!Ticks W, !InstallClients W, !Assets W} {DP : Depth} {CF : Config W} {KB : Kube W} {CR : Creation W}.
Context (db : Database).

Definition getRHCOSImage : M W OSImage := do! osImage <- rhcos_VHD; lift (rhcos_image osImage).

Fixpoint randomString (letterBytes : string) (n : nat) : M W string :=
  match n with
  | 0 => ret EmptyString
  | S n =>
      do! o <- rand_Int (Z.of_nat (String.length letterBytes));
      do! c <- lift (match String.get (Z.to_nat o) letterBytes with
                     | Some c => Ok c | None => Panic "index out of range" end);
      do! s <- randomString letterBytes n;
      ret (String c s)
  end.
Definition randomLowerCaseAlphanumericString (n : nat) : M W string := randomString letterBytes n.

(** What is drawn once for a cluster *)
Definition draw_keys (oc : OpenShiftCluster) : M W OpenShiftCluster :=
  do! oc <- (match p_SSHKey (oc_Properties oc) with
             | Some _ => ret oc
             | None => do! k <- rsa_GenerateKey 2048; ret (oc <| oc_Properties -> p_SSHKey := Some k |>)
             end);
  if decide (p_StorageSuffix (oc_Properties oc) = EmptyString) then
    do! s <- randomLowerCaseAlphanumericString 5;
    ret (oc <| oc_Properties -> p_StorageSuffix := s |>)
  else ret oc.

Definition draw (m : Manager) : M W (option OpenShiftClusterDocument) :=
  OpenShiftClusters.PatchWithLease (db_OpenShiftClusters db) (ocd_Key (m_doc m)) (fun doc =>
    do! oc <- lift (deref (ocd_OpenShiftCluster doc));
    do! oc <- draw_keys oc;
    ret (doc <| ocd_OpenShiftCluster := Some oc |>)).

(** The configuration, but for the image *)
Definition make_config (oc : OpenShiftCluster) (resourceGroup : string) : res InstallConfig :=
  let p := oc_Properties oc in
  do? '(vnetID, masterSubnetName) <- Subnets.Split (mp_SubnetID (p_MasterProfile p));
  do? wp <- index (elems (p_WorkerProfiles p)) 0;
  do? '(vnetID, workerSubnetName) <- Subnets.Split (wp_SubnetID wp);
  do? vnetr <- ParseResourceID vnetID;
  do? key <- deref (p_SSHKey p);
  do? '(type, wire) <- ssh_NewPublicKey key;
  let domain := full_domain (cp_Domain (p_ClusterProfile p)) in
  do? masterZones <- Zones env_zones (mp_VMSize (p_MasterProfile p));
  let masterZones := if decide (masterZones = []) then [EmptyString] else masterZones in
  do? workerZones <- Zones env_zones (wp_VMSize wp);
  (* sic: the zones of the masters *)
  let masterZones := if decide (workerZones = []) then [EmptyString] else masterZones in
  let dot := IndexByte domain "." in
  do? name <- slice_to domain dot;
  do? baseDomain <- slice_from domain (dot + 1);
  do? machine <- MustParseCIDR "127.0.0.0/8";
  do? pod <- MustParseCIDR (np_PodCIDR (p_NetworkProfile p));
  do? service <- MustParseCIDR (np_ServiceCIDR (p_NetworkProfile p));
  do? ingress <- index (elems (p_IngressProfiles p)) 0;
  Ok (mkInstallConfig name (type +:+ " " +:+ EncodeToString wire) baseDomain machine "OpenShiftSDN" [(pod, 23%Z)] [service]
        (mkMachinePool "master" (Some 3%Z) masterZones (mp_VMSize (p_MasterProfile p)) 0 "Enabled")
        [mkMachinePool (wp_Name wp) (Some (wp_Count wp)) workerZones (wp_VMSize wp) (int32 (wp_DiskSizeGB wp)) "Enabled"]
        (mkAzurePlatform (oc_Location oc) resourceGroup (r_ResourceGroup vnetr) (r_ResourceName vnetr)
           masterSubnetName workerSubnetName true None)
        PULL_SECRET
        [("quay.io/openshift-release-dev/ocp-release-nightly",
          ["arosvc.azurecr.io/openshift-release-dev/ocp-release-nightly"]);
         ("quay.io/openshift-release-dev/ocp-v4.0-art-dev",
          ["arosvc.azurecr.io/openshift-release-dev/ocp-v4.0-art-dev"])]
        (if decide (ip_Visibility ingress = VisibilityPrivate) then "Internal" else "External")).

Definition release_image (version : string) : res string :=
  if decide (version = "4.3.0-0.nightly-2019-12-05-001549") then
    Ok ("arosvc.azurecr.io/openshift-release-dev/ocp-release-nightly@sha256:" +:+
        "5f1ff5e767acd58445532222c38e643069fdb9fdf0bb176ced48bc2eb1032f2a")
  else Err (ErrOther ("unimplemented version " +:+ Quote version)).

Definition Create (m : Manager) : M W unit :=
  do! oc <- lift (deref (ocd_OpenShiftCluster (m_doc m)));
  do! resourceGroup <- lift (cluster_group oc);
  do! doc <- draw m;
  do! doc <- lift (deref doc);
  do! oc <- lift (deref (ocd_OpenShiftCluster doc));
  do! r <- lift (ParseResourceID (oc_ID oc));
  do! installConfig <- lift (make_config oc resourceGroup);
  let spp := p_ServicePrincipalProfile (oc_Properties oc) in
  let platformCreds := mkPlatformCreds (spp_TenantID spp) (spp_ClientID spp) (spp_ClientSecret spp) (r_SubscriptionID r) in
  do! image <- getRHCOSImage;
  let installConfig := installConfig <| ic_Azure -> az_Image := Some image |> in
  do! PullSpec <- lift (release_image (cp_Version (p_ClusterProfile (oc_Properties oc))));
  do! _ <- lift (ValidateInstallConfig installConfig);
  do! i <- NewInstaller doc;
  Install_ db installConfig platformCreds PullSpec i.

(** ** The manager of the back end *)
Definition manager : ClusterManager W := {|
  Backend.Manager := Manager.Manager;
  Backend.NewManager := Manager.NewManager;
  Manager_Create := Create;
  Manager_Update := Manager.Update;
  Manager_Delete := Manager.Delete;
|}.
End create.
