(* ===== verification/Deploy.v ===== *)
(** * The templates of the service's own deployment (src/pkg/deploy)

    rp.go, nsg.go, dev.go and proxy.go: the resources that run the program, in
    production and for development, and the files their templates are written to. *)
From S2P Require Import Prelude GoStrings.
From S2P Require Import Arm.
From Stdlib Require Import Ascii.
#[local] Open Scope arm_scope.
#[local] Open Scope string_scope.
#[local] Open Scope Z_scope.

Module Rp.
Definition apiVersions : list (string * string) := [
  ("authorization", "2018-09-01-preview"); ("compute", "2019-03-01"); ("dns", "2018-05-01");
  ("documentdb", "2019-08-01"); ("keyvault", "2016-10-01"); ("msi", "2018-11-30"); ("network", "2019-07-01")].
Definition apiVersion (provider : string) : string := at_key apiVersions provider.

Definition tenantIDHack : string := "13805ec3-a223-47ad-ad65-8b2baf92c0fb".

(** ** Strings *)
Definition NL : string := String (ascii_of_nat 10) EmptyString.
Fixpoint unlines (l : list string) : string :=
  match l with [] => EmptyString | s :: l => s +:+ NL +:+ unlines l end.
Definition upper_ascii (c : ascii) : ascii :=
  let n := nat_of_ascii c in
  if ((97 <=? n) && (n <=? 122))%nat then ascii_of_nat (n - 32) else c.
Fixpoint ToUpper (s : string) : string :=
  match s with EmptyString => EmptyString | String c s => String (upper_ascii c) (ToUpper s) end.

(** A shell variable that is set from a parameter: from its base64 form, or as it is *)
Definition decoded_variable (variable : string) : list string :=
  ["'" +:+ ToUpper variable +:+ "=$(base64 -d <<<'''"; "base64(parameters('" +:+ variable +:+ "'))"; "''')" +:+ NL +:+ "'"].
Definition plain_variable (variable : string) : list string :=
  ["'" +:+ ToUpper variable +:+ "='''"; "parameters('" +:+ variable +:+ "')"; "'''" +:+ NL +:+ "'"].
Definition base64ToString (s : string) : string := "base64ToString('" +:+ EncodeToString s +:+ "')".
Definition set_ex : string := base64ToString ("set -ex" +:+ NL +:+ NL).
Definition script_of (parts : list string) (trailer : string) : string :=
  "[base64(concat(" +:+
    JoinChar "," (parts ++ ["'" +:+ NL +:+ "'"; base64ToString trailer]) +:+ "))]".

(** ** rp.go *)
Definition vnet (production : bool) : Resource :=
  let subnet :=
    VStruct "Subnet" [
      "SubnetPropertiesFormat" ↦ VStruct "SubnetPropertiesFormat" ([
        "AddressPrefix" ↦ VStr "10.0.0.0/24";
        "NetworkSecurityGroup" ↦ VStruct "SecurityGroup" [
          "ID" ↦ VStr "[resourceId('Microsoft.Network/networkSecurityGroups', 'rp-nsg')]"]] ++
        if production then [
        "ServiceEndpoints" ↦ VList [
          VStruct "ServiceEndpointPropertiesFormat" [
            "Service" ↦ VStr "Microsoft.KeyVault"; "Locations" ↦ VList [VStr "*"]];
          VStruct "ServiceEndpointPropertiesFormat" [
            "Service" ↦ VStr "Microsoft.AzureCosmosDB"; "Locations" ↦ VList [VStr "*"]]]]
        else []);
      "Name" ↦ VStr "rp-subnet"] in
  resource (apiVersion "network") None []
    (VStruct "VirtualNetwork" [
      "VirtualNetworkPropertiesFormat" ↦ VStruct "VirtualNetworkPropertiesFormat" [
        "AddressSpace" ↦ VStruct "AddressSpace" ["AddressPrefixes" ↦ VList [VStr "10.0.0.0/8"]];
        "Subnets" ↦ VList [
          subnet;
          VStruct "Subnet" [
            "SubnetPropertiesFormat" ↦ VStruct "SubnetPropertiesFormat" [
              "AddressPrefix" ↦ VStr "10.1.0.0/16";
              "NetworkSecurityGroup" ↦ VStruct "SecurityGroup" [
                "ID" ↦ VStr "[resourceId('Microsoft.Network/networkSecurityGroups', 'rp-pe-nsg')]"];
              "PrivateEndpointNetworkPolicies" ↦ VStr "Disabled"];
            "Name" ↦ VStr "rp-pe-subnet"]]];
      "Name" ↦ VStr "rp-vnet"; "Type" ↦ VStr "Microsoft.Network/virtualNetworks";
      "Location" ↦ VStr "[resourceGroup().location]"]).

Definition pip : Resource :=
  resource (apiVersion "network") None []
    (VStruct "PublicIPAddress" [
      "Sku" ↦ VStruct "PublicIPAddressSku" ["Name" ↦ VStr "Standard"];
      "PublicIPAddressPropertiesFormat" ↦ VStruct "PublicIPAddressPropertiesFormat" [
        "PublicIPAllocationMethod" ↦ VStr "Static"];
      "Name" ↦ VStr "rp-pip"; "Type" ↦ VStr "Microsoft.Network/publicIPAddresses";
      "Location" ↦ VStr "[resourceGroup().location]"]).

Definition lb : Resource :=
  resource (apiVersion "network") None ["[resourceId('Microsoft.Network/publicIPAddresses', 'rp-pip')]"]
    (VStruct "LoadBalancer" [
      "Sku" ↦ VStruct "LoadBalancerSku" ["Name" ↦ VStr "Standard"];
      "LoadBalancerPropertiesFormat" ↦ VStruct "LoadBalancerPropertiesFormat" [
        "FrontendIPConfigurations" ↦ VList [
          VStruct "FrontendIPConfiguration" [
            "FrontendIPConfigurationPropertiesFormat" ↦ VStruct "FrontendIPConfigurationPropertiesFormat" [
              "PublicIPAddress" ↦ VStruct "PublicIPAddress" [
                "ID" ↦ VStr "[resourceId('Microsoft.Network/publicIPAddresses', 'rp-pip')]"]];
            "Name" ↦ VStr "rp-frontend"]];
        "BackendAddressPools" ↦ VList [VStruct "BackendAddressPool" ["Name" ↦ VStr "rp-backend"]];
        "LoadBalancingRules" ↦ VList [
          VStruct "LoadBalancingRule" [
            "LoadBalancingRulePropertiesFormat" ↦ VStruct "LoadBalancingRulePropertiesFormat" [
              "FrontendIPConfiguration" ↦ VStruct "SubResource" [
                "ID" ↦ VStr "[resourceId('Microsoft.Network/loadBalancers/frontendIPConfigurations', 'rp-lb', 'rp-frontend')]"];
              "BackendAddressPool" ↦ VStruct "SubResource" [
                "ID" ↦ VStr "[resourceId('Microsoft.Network/loadBalancers/backendAddressPools', 'rp-lb', 'rp-backend')]"];
              "Probe" ↦ VStruct "SubResource" [
                "ID" ↦ VStr "[resourceId('Microsoft.Network/loadBalancers/probes', 'rp-lb', 'rp-probe')]"];
              "Protocol" ↦ VStr "Tcp"; "LoadDistribution" ↦ VStr "Default"; "FrontendPort" ↦ VInt 443;
              "BackendPort" ↦ VInt 443];
            "Name" ↦ VStr "rp-lbrule"]];
        "Probes" ↦ VList [
          VStruct "Probe" [
            "ProbePropertiesFormat" ↦ VStruct "ProbePropertiesFormat" [
              "Protocol" ↦ VStr "Https"; "Port" ↦ VInt 443; "NumberOfProbes" ↦ VInt 2;
              "RequestPath" ↦ VStr "/healthz/ready"];
            "Name" ↦ VStr "rp-probe"]]];
      "Name" ↦ VStr "rp-lb"; "Type" ↦ VStr "Microsoft.Network/loadBalancers";
      "Location" ↦ VStr "[resourceGroup().location]"]).

(** What a machine of the scale set does once its variables are set *)
Definition vmss_trailer : string := unlines [
  "systemctl stop arorp.service || true"; EmptyString; "yum -y update -x WALinuxAgent"; EmptyString;
  "rpm --import https://dl.fedoraproject.org/pub/epel/RPM-GPG-KEY-EPEL-8"; EmptyString;
  "yum -y install https://dl.fedoraproject.org/pub/epel/epel-release-latest-8.noarch.rpm || true"; EmptyString;
  "cat >/etc/yum.repos.d/azure-cli.repo <<'EOF'"; "[azurecore]"; "name=azurecore";
  "baseurl=https://packages.microsoft.com/yumrepos/azurecore"; "enabled=yes"; "gpgcheck=no"; "EOF"; EmptyString;
  "yum -y install azsec-clamav azsec-monitor azure-mdsd azure-security podman-docker"; EmptyString;
  "firewall-cmd --add-port=443/tcp --permanent"; EmptyString; "if [[ -n " +:+ q "$RPIMAGEAUTH" +:+ " ]]; then";
  "  mkdir -p /root/.docker"; EmptyString; "  cat >/root/.docker/config.json <<EOF"; "{";
  "	" +:+ q "auths" +:+ ": {"; "		" +:+ q "${RPIMAGE%%/*}" +:+ ": {";
  "			" +:+ q "auth" +:+ ": " +:+ q "$RPIMAGEAUTH"; "		}"; "	}"; "}"; "EOF"; EmptyString; "else";
  "  rm -rf /root/.docker"; "fi"; EmptyString; "mkdir -p /etc/mdm";
  "echo " +:+ q "$MDMCERTIFICATE" +:+ " >/etc/mdm/cert.pem";
  "echo " +:+ q "$MDMPRIVATEKEY" +:+ " >/etc/mdm/key.pem"; "chown -R 1000:1000 /etc/mdm";
  "chmod 0600 /etc/mdm/key.pem"; EmptyString; "cat >/etc/sysconfig/mdm <<EOF";
  "MDMIMAGE='arosvc.azurecr.io/mdm:2019.801.1228-66cac1'"; "EOF"; EmptyString;
  "cat >/etc/sysconfig/arorp <<EOF"; "PULL_SECRET='$PULLSECRET'"; "RPIMAGE='$RPIMAGE'"; "EOF"; EmptyString;
  "cat >/etc/systemd/system/mdm.service <<EOF"; "[Unit]"; "After=network-online.target"; EmptyString;
  "[Service]"; "EnvironmentFile=/etc/sysconfig/mdm"; "ExecStartPre=-/usr/bin/docker rm -f %N";
  "ExecStartPre=/usr/bin/docker pull \$MDMIMAGE"; "ExecStart=/usr/bin/docker run \"; "  --hostname %H \";
  "  --name %N \"; "  --rm \"; "  -v /etc/mdm:/etc/mdm \"; "  -v /var/etw:/var/etw \"; "  \$MDMIMAGE \";
  "  -FrontEndUrl \$MDMFRONTENDURL \"; "  -MonitoringAccount \$MDMMONITORINGACCOUNT \";
  "  -MetricNamespace \$MDMMETRICNAMESPACE \"; "  -CertFile /etc/mdm/cert.pem \";
  "  -PrivateKeyFile /etc/mdm/key.pem"; "ExecStop=/usr/bin/docker stop %N"; "Restart=always"; EmptyString;
  "[Install]"; "WantedBy=multi-user.target"; "EOF"; EmptyString; "cat >/etc/systemd/system/arorp.service <<EOF";
  "[Unit]"; "After=network-online.target"; EmptyString; "[Service]"; "EnvironmentFile=/etc/sysconfig/arorp";
  "ExecStartPre=-/usr/bin/docker rm -f %N"; "ExecStartPre=/usr/bin/docker pull \$RPIMAGE";
  "ExecStart=/usr/bin/docker run \"; "  --hostname %H \"; "  --name %N \"; "  --rm \"; "  -e PULL_SECRET \";
  "  -p 443:8443 \"; "  \$RPIMAGE \"; "  rp"; "ExecStop=/usr/bin/docker stop -t 90 %N"; "Restart=always";
  EmptyString; "[Install]"; "WantedBy=multi-user.target"; "EOF"; EmptyString;
  "for service in arorp chronyd; do"; "  systemctl enable $service.service"; "done"; EmptyString;
  "chcon -R system_u:object_r:var_log_t:s0 /var/opt/microsoft/linuxmonagent"; EmptyString;
  "for service in auoms azsecd azsecmond mdsd; do"; "  systemctl disable $service.service";
  "  systemctl mask $service.service"; "done"; EmptyString; "rm /etc/rsyslog.d/10-mdsd.conf"; EmptyString;
  "rm /etc/motd.d/*"; ">/etc/containers/nodocker"; EmptyString; "(sleep 30; reboot) &"].
Definition vmss_variables : list string := [
  "mdmCertificate"; "mdmFrontendUrl"; "mdmMetricNamespace"; "mdmMonitoringAccount"; "mdmPrivateKey"; "pullSecret";
  "rpImage"; "rpImageAuth"].
Definition vmss_script : string := script_of (set_ex :: mjoin (decoded_variable <$> vmss_variables)) vmss_trailer.
Definition vmss : Resource :=
  let script := vmss_script in
  resource (apiVersion "compute") None
    ["[resourceId('Microsoft.Network/virtualNetworks', 'rp-vnet')]";
     "[resourceId('Microsoft.Network/loadBalancers', 'rp-lb')]"]
    (VStruct "VirtualMachineScaleSet" [
      "Sku" ↦ VStruct "Sku" ["Name" ↦ VStr "Standard_D2s_v3"; "Tier" ↦ VStr "Standard"; "Capacity" ↦ VInt 3];
      "VirtualMachineScaleSetProperties" ↦ VStruct "VirtualMachineScaleSetProperties" [
        "UpgradePolicy" ↦ VStruct "UpgradePolicy" ["Mode" ↦ VStr "Manual"];
        "VirtualMachineProfile" ↦ VStruct "VirtualMachineScaleSetVMProfile" [
          "OsProfile" ↦ VStruct "VirtualMachineScaleSetOSProfile" [
            "ComputerNamePrefix" ↦ VStr "rp-"; "AdminUsername" ↦ VStr "cloud-user";
            "LinuxConfiguration" ↦ VStruct "LinuxConfiguration" [
              "DisablePasswordAuthentication" ↦ VBool true;
              "SSH" ↦ VStruct "SSHConfiguration" [
                "PublicKeys" ↦ VList [
                  VStruct "SSHPublicKey" [
                    "Path" ↦ VStr "/home/cloud-user/.ssh/authorized_keys";
                    "KeyData" ↦ VStr "[parameters('sshPublicKey')]"]]]]];
          "StorageProfile" ↦ VStruct "VirtualMachineScaleSetStorageProfile" [
            "ImageReference" ↦ VStruct "ImageReference" [
              "Publisher" ↦ VStr "RedHat"; "Offer" ↦ VStr "RHEL"; "Sku" ↦ VStr "8"; "Version" ↦ VStr "latest"];
            "OsDisk" ↦ VStruct "VirtualMachineScaleSetOSDisk" [
              "CreateOption" ↦ VStr "FromImage";
              "ManagedDisk" ↦ VStruct "VirtualMachineScaleSetManagedDiskParameters" [
                "StorageAccountType" ↦ VStr "Premium_LRS"]]];
          "NetworkProfile" ↦ VStruct "VirtualMachineScaleSetNetworkProfile" [
            "HealthProbe" ↦ VStruct "APIEntityReference" [
              "ID" ↦ VStr "[resourceId('Microsoft.Network/loadBalancers/probes', 'rp-lb', 'rp-probe')]"];
            "NetworkInterfaceConfigurations" ↦ VList [
              VStruct "VirtualMachineScaleSetNetworkConfiguration" [
                "Name" ↦ VStr "rp-vmss-nic";
                "VirtualMachineScaleSetNetworkConfigurationProperties" ↦
                  VStruct "VirtualMachineScaleSetNetworkConfigurationProperties" [
                  "Primary" ↦ VBool true;
                  "IPConfigurations" ↦ VList [
                    VStruct "VirtualMachineScaleSetIPConfiguration" [
                      "Name" ↦ VStr "rp-vmss-ipconfig";
                      "VirtualMachineScaleSetIPConfigurationProperties" ↦
                        VStruct "VirtualMachineScaleSetIPConfigurationProperties" [
                        "Subnet" ↦ VStruct "APIEntityReference" [
                          "ID" ↦ VStr "[resourceId('Microsoft.Network/virtualNetworks/subnets', 'rp-vnet', 'rp-subnet')]"];
                        "Primary" ↦ VBool true;
                        "PublicIPAddressConfiguration" ↦ VStruct "VirtualMachineScaleSetPublicIPAddressConfiguration" [
                          "Name" ↦ VStr "rp-vmss-pip";
                          "VirtualMachineScaleSetPublicIPAddressConfigurationProperties" ↦
                            VStruct "VirtualMachineScaleSetPublicIPAddressConfigurationProperties" [
                            "DNSSettings" ↦ VStruct "VirtualMachineScaleSetPublicIPAddressConfigurationDNSSettings" [
                              "DomainNameLabel" ↦ VStr "[parameters('vmssDomainNameLabel')]"]]];
                        "LoadBalancerBackendAddressPools" ↦ VList [
                          VStruct "SubResource" [
                            "ID" ↦ VStr "[resourceId('Microsoft.Network/loadBalancers/backendAddressPools', 'rp-lb', 'rp-backend')]"]]]]]]]]];
          "ExtensionProfile" ↦ VStruct "VirtualMachineScaleSetExtensionProfile" [
            "Extensions" ↦ VList [
              VStruct "VirtualMachineScaleSetExtension" [
                "Name" ↦ VStr "rp-vmss-cse";
                "VirtualMachineScaleSetExtensionProperties" ↦
                  VStruct "VirtualMachineScaleSetExtensionProperties" [
                  "Publisher" ↦ VStr "Microsoft.Azure.Extensions"; "Type" ↦ VStr "CustomScript";
                  "TypeHandlerVersion" ↦ VStr "2.0"; "AutoUpgradeMinorVersion" ↦ VBool true;
                  "Settings" ↦ VMap []; "ProtectedSettings" ↦ VMap ["script" ↦ VStr script]]]]]];
        "Overprovision" ↦ VBool false];
      "Identity" ↦ VStruct "VirtualMachineScaleSetIdentity" [
        "Type" ↦ VStr "UserAssigned";
        "UserAssignedIdentities" ↦ VMap [
          "[resourceId('Microsoft.ManagedIdentity/userAssignedIdentities', 'rp-identity')]" ↦
            VStruct "VirtualMachineScaleSetIdentityUserAssignedIdentitiesValue" []]];
      "Name" ↦ VStr "rp-vmss"; "Type" ↦ VStr "Microsoft.Compute/virtualMachineScaleSets";
      "Location" ↦ VStr "[resourceGroup().location]"]).

Definition zone : Resource :=
  resource (apiVersion "dns") None []
    (VStruct "Zone" [
      "ZoneProperties" ↦ VStruct "ZoneProperties" []; "Name" ↦ VStr "[parameters('domainName')]";
      "Type" ↦ VStr "Microsoft.Network/dnsZones"; "Location" ↦ VStr "global"]).

Definition accessPolicyEntry : val :=
  VStruct "AccessPolicyEntry" [
    "TenantID" ↦ VStr tenantIDHack; "ObjectID" ↦ VStr "[parameters('rpServicePrincipalId')]";
    "Permissions" ↦ VStruct "Permissions" ["Secrets" ↦ VList [VStr "get"]]].

Definition vault (production : bool) : Resource :=
  let vault :=
    VStruct "Vault" [
      "Properties" ↦ VStruct "VaultProperties" [
        "TenantID" ↦ VStr tenantIDHack; "Sku" ↦ VStruct "Sku" ["Name" ↦ VStr "standard"; "Family" ↦ VStr "A"];
        "AccessPolicies" ↦
        if production then VList []
        else VList [
          accessPolicyEntry;
          VStruct "AccessPolicyEntry" [
            "TenantID" ↦ VStr tenantIDHack; "ObjectID" ↦ VStr "[parameters('adminObjectId')]";
            "Permissions" ↦ VStruct "Permissions" [
              "Certificates" ↦ VList [
                VStr "create"; VStr "delete"; VStr "deleteissuers"; VStr "get"; VStr "getissuers";
                VStr "import"; VStr "list"; VStr "listissuers"; VStr "managecontacts"; VStr "manageissuers";
                VStr "purge"; VStr "recover"; VStr "setissuers"; VStr "update"]]]]];
      "Name" ↦ VStr "[parameters('keyvaultName')]"; "Type" ↦ VStr "Microsoft.KeyVault/vaults";
      "Location" ↦ VStr "[resourceGroup().location]"] in
  resource (apiVersion "keyvault") None [] vault.

(** The dependencies on a database, and on the account *)
Definition sqlDatabase_id (databaseName : string) : string :=
  "[resourceId('Microsoft.DocumentDB/databaseAccounts/sqlDatabases', " +:+
  "parameters('databaseAccountName'), " +:+ databaseName +:+ ")]".
Definition databaseAccount_id : string :=
  "[resourceId('Microsoft.DocumentDB/databaseAccounts', parameters('databaseAccountName'))]".

Definition sqlDatabase (databaseName : string) : Resource :=
  resource (apiVersion "documentdb") None []
    (VStruct "SQLDatabaseCreateUpdateParameters" [
      "SQLDatabaseCreateUpdateProperties" ↦ VStruct "SQLDatabaseCreateUpdateProperties" [
        "Resource" ↦ VStruct "SQLDatabaseResource" ["ID" ↦ VStr ("[" +:+ databaseName +:+ "]")];
        "Options" ↦ VMap ["x-ms-offer-throughput" ↦ VStr "400"]];
      "Name" ↦ VStr ("[concat(parameters('databaseAccountName'), '/', " +:+ databaseName +:+ ")]");
      "Type" ↦ VStr "Microsoft.DocumentDB/databaseAccounts/sqlDatabases";
      "Location" ↦ VStr "[resourceGroup().location]"]).
Definition container_AsyncOperations (databaseName : string) : Resource :=
  resource (apiVersion "documentdb") None
    [sqlDatabase_id databaseName]
    (VStruct "SQLContainerCreateUpdateParameters" [
      "SQLContainerCreateUpdateProperties" ↦ VStruct "SQLContainerCreateUpdateProperties" [
        "Resource" ↦ VStruct "SQLContainerResource" [
          "ID" ↦ VStr "AsyncOperations";
          "PartitionKey" ↦ VStruct "ContainerPartitionKey" ["Paths" ↦ VList [VStr "/id"]; "Kind" ↦ VStr "Hash"];
          "DefaultTTL" ↦ VInt 604800];
        "Options" ↦ VMap []];
      "Name" ↦ VStr ("[concat(parameters('databaseAccountName'), '/', " +:+ databaseName +:+ ", '/AsyncOperations')]");
      "Type" ↦ VStr "Microsoft.DocumentDB/databaseAccounts/sqlDatabases/containers";
      "Location" ↦ VStr "[resourceGroup().location]"]).
Definition container_OpenShiftClusters (databaseName : string) : Resource :=
  resource (apiVersion "documentdb") None
    [sqlDatabase_id databaseName]
    (VStruct "SQLContainerCreateUpdateParameters" [
      "SQLContainerCreateUpdateProperties" ↦ VStruct "SQLContainerCreateUpdateProperties" [
        "Resource" ↦ VStruct "SQLContainerResource" [
          "ID" ↦ VStr "OpenShiftClusters";
          "PartitionKey" ↦ VStruct "ContainerPartitionKey" [
            "Paths" ↦ VList [VStr "/partitionKey"]; "Kind" ↦ VStr "Hash"];
          "UniqueKeyPolicy" ↦ VStruct "UniqueKeyPolicy" [
            "UniqueKeys" ↦ VList [
              VStruct "UniqueKey" ["Paths" ↦ VList [VStr "/key"]];
              VStruct "UniqueKey" ["Paths" ↦ VList [VStr "/clusterResourceGroupIdKey"]]]]];
        "Options" ↦ VMap []];
      "Name" ↦ VStr ("[concat(parameters('databaseAccountName'), '/', " +:+ databaseName +:+ ", '/OpenShiftClusters')]");
      "Type" ↦ VStr "Microsoft.DocumentDB/databaseAccounts/sqlDatabases/containers";
      "Location" ↦ VStr "[resourceGroup().location]"]).
Definition container_Subscriptions (databaseName : string) : Resource :=
  resource (apiVersion "documentdb") None
    [sqlDatabase_id databaseName]
    (VStruct "SQLContainerCreateUpdateParameters" [
      "SQLContainerCreateUpdateProperties" ↦ VStruct "SQLContainerCreateUpdateProperties" [
        "Resource" ↦ VStruct "SQLContainerResource" [
          "ID" ↦ VStr "Subscriptions";
          "PartitionKey" ↦ VStruct "ContainerPartitionKey" [
            "Paths" ↦ VList [VStr "/id"]; "Kind" ↦ VStr "Hash"]];
        "Options" ↦ VMap []];
      "Name" ↦ VStr ("[concat(parameters('databaseAccountName'), '/', " +:+ databaseName +:+ ", '/Subscriptions')]");
      "Type" ↦ VStr "Microsoft.DocumentDB/databaseAccounts/sqlDatabases/containers";
      "Location" ↦ VStr "[resourceGroup().location]"]).
Definition depend_on (d : string) (r : Resource) : Resource :=
  mkResource (ar_Resource r) (ar_Name r) (ar_Type r) (ar_Condition r) (ar_APIVersion r) (ar_DependsOn r ++ [d])
    (ar_Location r) (ar_Tags r) (ar_Copy r) (ar_Comments r).
Definition database (databaseName : string) (addDependsOn : bool) : list Resource :=
  let rs := [sqlDatabase databaseName; container_AsyncOperations databaseName; container_OpenShiftClusters databaseName;
             container_Subscriptions databaseName] in
  if addDependsOn then depend_on databaseAccount_id <$> rs else rs.

Definition cosmosdb_account (production : bool) : Resource :=
  let cosmosdb :=
      VStruct "DatabaseAccountCreateUpdateParameters" [
        "Kind" ↦ VStr "GlobalDocumentDB";
        "DatabaseAccountCreateUpdateProperties" ↦ VStruct "DatabaseAccountCreateUpdateProperties" ([
          "ConsistencyPolicy" ↦ VStruct "ConsistencyPolicy" ["DefaultConsistencyLevel" ↦ VStr "Strong"];
          "Locations" ↦ VList [VStruct "Location" ["LocationName" ↦ VStr "[resourceGroup().location]"]];
          "DatabaseAccountOfferType" ↦ VStr "Standard"] ++
          if production then [
            "IPRangeFilter" ↦ VStr ("[concat('104.42.195.92,40.76.54.131,52.176.6.30,52.169.50.45,52.187.184.26', " +:+
              "if(equals(parameters('extraCosmosDBIPs'), ''), '', ','), parameters('extraCosmosDBIPs'))]");
            "IsVirtualNetworkFilterEnabled" ↦ VBool true;
            "VirtualNetworkRules" ↦ VList [
              VStruct "VirtualNetworkRule" [
                "ID" ↦ VStr "[resourceId('Microsoft.Network/virtualNetworks/subnets', 'rp-vnet', 'rp-subnet')]"]];
            "DisableKeyBasedMetadataWriteAccess" ↦ VBool true]
          else []);
        "Name" ↦ VStr "[parameters('databaseAccountName')]";
        "Type" ↦ VStr "Microsoft.DocumentDB/databaseAccounts"; "Location" ↦ VStr "[resourceGroup().location]";
        "Tags" ↦ VMap ["defaultExperience" ↦ VStr "Core (SQL)"]] in
  resource (apiVersion "documentdb") None
    (if production then ["[resourceId('Microsoft.Network/virtualNetworks', 'rp-vnet')]"] else []) cosmosdb.
Definition cosmosdb (production : bool) (databaseName : string) : list Resource :=
  cosmosdb_account production :: if production then database databaseName true else [].

Definition rp_Reader : Resource :=
  resource (apiVersion "authorization") None []
    (VStruct "RoleAssignment" [
      "Name" ↦ VStr "[guid(resourceGroup().id, 'RP / Reader')]";
      "Type" ↦ VStr "Microsoft.Authorization/roleAssignments";
      "RoleAssignmentPropertiesWithScope" ↦ VStruct "RoleAssignmentPropertiesWithScope" [
        "Scope" ↦ VStr "[resourceGroup().id]";
        "RoleDefinitionID" ↦ VStr ("[subscriptionResourceId('Microsoft.Authorization/roleDefinitions', " +:+
          "'acdd72a7-3385-48ef-bd42-f606fba81ae7')]");
        "PrincipalID" ↦ VStr "[parameters('rpServicePrincipalId')]";
        "PrincipalType" ↦ VStr "ServicePrincipal"]]).
Definition fp_Network_Contributor : Resource :=
  resource (apiVersion "authorization") None []
    (VStruct "RoleAssignment" [
      "Name" ↦ VStr "[guid(resourceGroup().id, 'FP / Network Contributor')]";
      "Type" ↦ VStr "Microsoft.Authorization/roleAssignments";
      "RoleAssignmentPropertiesWithScope" ↦ VStruct "RoleAssignmentPropertiesWithScope" [
        "Scope" ↦ VStr "[resourceGroup().id]";
        "RoleDefinitionID" ↦ VStr ("[subscriptionResourceId('Microsoft.Authorization/roleDefinitions', " +:+
          "'4d97b98b-1d4f-4787-a291-c67834d212e7')]");
        "PrincipalID" ↦ VStr "[parameters('fpServicePrincipalId')]";
        "PrincipalType" ↦ VStr "ServicePrincipal"]]).
Definition rp_DocumentDB_Contributor : Resource :=
  resource (apiVersion "authorization") None
    ["[resourceId('Microsoft.DocumentDB/databaseAccounts', parameters('databaseAccountName'))]"]
    (VStruct "RoleAssignment" [
      "Name" ↦ VStr ("[concat(parameters('databaseAccountName'), '/Microsoft.Authorization/', " +:+
        "guid(resourceId('Microsoft.DocumentDB/databaseAccounts', parameters('databaseAccountName')), 'RP / DocumentDB Account Contributor'))]");
      "Type" ↦ VStr "Microsoft.DocumentDB/databaseAccounts/providers/roleAssignments";
      "RoleAssignmentPropertiesWithScope" ↦ VStruct "RoleAssignmentPropertiesWithScope" [
        "Scope" ↦ VStr "[resourceId('Microsoft.DocumentDB/databaseAccounts', parameters('databaseAccountName'))]";
        "RoleDefinitionID" ↦ VStr ("[subscriptionResourceId('Microsoft.Authorization/roleDefinitions', " +:+
          "'5bd9cd88-fe45-4216-938b-f97437e15450')]");
        "PrincipalID" ↦ VStr "[parameters('rpServicePrincipalId')]";
        "PrincipalType" ↦ VStr "ServicePrincipal"]]).
Definition fp_DNS_Contributor : Resource :=
  resource (apiVersion "authorization") None
    ["[resourceId('Microsoft.Network/dnsZones', parameters('domainName'))]"]
    (VStruct "RoleAssignment" [
      "Name" ↦ VStr ("[concat(parameters('domainName'), '/Microsoft.Authorization/', " +:+
        "guid(resourceId('Microsoft.Network/dnsZones', parameters('domainName')), 'FP / DNS Zone Contributor'))]");
      "Type" ↦ VStr "Microsoft.Network/dnsZones/providers/roleAssignments";
      "RoleAssignmentPropertiesWithScope" ↦ VStruct "RoleAssignmentPropertiesWithScope" [
        "Scope" ↦ VStr "[resourceId('Microsoft.Network/dnsZones', parameters('domainName'))]";
        "RoleDefinitionID" ↦ VStr ("[subscriptionResourceId('Microsoft.Authorization/roleDefinitions', " +:+
          "'befefa01-2a29-4197-83a8-272ff33ce314')]");
        "PrincipalID" ↦ VStr "[parameters('fpServicePrincipalId')]";
        "PrincipalType" ↦ VStr "ServicePrincipal"]]).
Definition rbac : list Resource :=
  [rp_Reader; fp_Network_Contributor; rp_DocumentDB_Contributor; fp_DNS_Contributor].

Definition template_params (production : bool) : list string :=
  ["databaseAccountName"; "domainName"; "fpServicePrincipalId"; "keyvaultName"; "rpServicePrincipalId"] ++
  if production then [
    "mdmCertificate"; "mdmFrontendUrl"; "mdmMetricNamespace"; "mdmMonitoringAccount"; "mdmPrivateKey"; "pullSecret";
    "rpImage"; "rpImageAuth"; "sshPublicKey"; "vmssDomainNameLabel"]
  else ["adminObjectId"].
Definition param_type (param : string) : string :=
  if bool_decide (param ∈ ["mdmPrivateKey"; "pullSecret"; "rpImageAuth"]) then "securestring" else "string".

Definition template (production : bool) : Template :=
  mkTemplate Schema "1.0.0.0"
    (if production then ["keyvaultAccessPolicies" ↦ VList [accessPolicyEntry]] else [])
    (((fun param => (param, mkTemplateParameter (param_type param) None)) <$> template_params production) ++
     if production then [
       ("extraCosmosDBIPs", mkTemplateParameter "string" (Some (VStr EmptyString)));
       ("extraKeyvaultAccessPolicies", mkTemplateParameter "array" (Some (VList [])))]
     else [])
    ((if production then [pip; lb; vmss] else []) ++ [zone; vault production; vnet production] ++
     cosmosdb production (if production then "'ARO'" else "parameters('databaseName')") ++ rbac) [].

(** The template of a database that developers share *)
Definition databases_template : Template :=
  mkTemplate Schema "1.0.0.0" []
    [("databaseAccountName", mkTemplateParameter "string" None); ("databaseName", mkTemplateParameter "string" None)]
    (database "parameters('databaseName')" false) [].

(** ** nsg.go *)
Definition rp_nsg (production : bool) : Resource :=
  let nsg :=
    VStruct "SecurityGroup" [
      "SecurityGroupPropertiesFormat" ↦ VStruct "SecurityGroupPropertiesFormat" [
        "SecurityRules" ↦ VList ([
          VStruct "SecurityRule" [
            "SecurityRulePropertiesFormat" ↦ VStruct "SecurityRulePropertiesFormat" [
              "Protocol" ↦ VStr "Tcp"; "SourcePortRange" ↦ VStr "*"; "DestinationPortRange" ↦ VStr "443";
              "SourceAddressPrefix" ↦ VStr "*"; "DestinationAddressPrefix" ↦ VStr "*"; "Access" ↦ VStr "Allow";
              "Priority" ↦ VInt 120; "Direction" ↦ VStr "Inbound"];
            "Name" ↦ VStr "rp_in"]] ++
        if production then []
        else [
        VStruct "SecurityRule" [
          "SecurityRulePropertiesFormat" ↦ VStruct "SecurityRulePropertiesFormat" [
            "Protocol" ↦ VStr "Tcp"; "SourcePortRange" ↦ VStr "*"; "DestinationPortRange" ↦ VStr "22";
            "SourceAddressPrefix" ↦ VStr "*"; "DestinationAddressPrefix" ↦ VStr "*"; "Access" ↦ VStr "Allow";
            "Priority" ↦ VInt 100; "Direction" ↦ VStr "Inbound"];
          "Name" ↦ VStr "ssh_in"]])];
      "Name" ↦ VStr "rp-nsg"; "Type" ↦ VStr "Microsoft.Network/networkSecurityGroups";
      "Location" ↦ VStr "[resourceGroup().location]"] in
  resource (apiVersion "network") None [] nsg.
Definition rp_pe_nsg : Resource :=
  resource (apiVersion "network") None []
    (VStruct "SecurityGroup" [
      "SecurityGroupPropertiesFormat" ↦ VStruct "SecurityGroupPropertiesFormat" []; "Name" ↦ VStr "rp-pe-nsg";
      "Type" ↦ VStr "Microsoft.Network/networkSecurityGroups"; "Location" ↦ VStr "[resourceGroup().location]"]).
Definition rp_identity : Resource :=
  resource (apiVersion "msi") None []
    (VStruct "Identity" [
      "Name" ↦ VStr "rp-identity"; "Location" ↦ VStr "[resourceGroup().location]";
      "Type" ↦ VStr "Microsoft.ManagedIdentity/userAssignedIdentities"]).
Definition nsg_template (production : bool) : Template :=
  mkTemplate Schema "1.0.0.0" [] []
    ([rp_nsg production; rp_pe_nsg] ++ if production then [rp_identity] else [])
    (if production then [
       ("rpServicePrincipalId", mkOutput false "string" (VStr
         ("[reference(resourceId('Microsoft.ManagedIdentity/userAssignedIdentities', 'rp-identity'), " +:+
          "'2018-11-30').principalId]")))]
     else []).

(** ** proxy.go *)
Definition proxy_trailer : string := unlines [
  "yum -y update -x WALinuxAgent"; EmptyString; "yum -y install docker"; EmptyString;
  "firewall-cmd --add-port=443/tcp --permanent"; EmptyString; "mkdir /root/.docker";
  "cat >/root/.docker/config.json <<EOF"; "{"; "	" +:+ q "auths" +:+ ": {";
  "		" +:+ q "${PROXYIMAGE%%/*}" +:+ ": {"; "			" +:+ q "auth" +:+ ": " +:+ q "$PROXYIMAGEAUTH"; "		}"; "	}";
  "}"; "EOF"; EmptyString; "mkdir /etc/proxy"; "base64 -d <<<" +:+ q "$PROXYCERT" +:+ " >/etc/proxy/proxy.crt";
  "base64 -d <<<" +:+ q "$PROXYKEY" +:+ " >/etc/proxy/proxy.key";
  "base64 -d <<<" +:+ q "$PROXYCLIENTCERT" +:+ " >/etc/proxy/proxy-client.crt"; "chown -R 1000:1000 /etc/proxy";
  "chmod 0600 /etc/proxy/proxy.key"; EmptyString; "cat >/etc/sysconfig/proxy <<EOF";
  "PROXY_IMAGE='$PROXYIMAGE'"; "EOF"; EmptyString; "cat >/etc/systemd/system/proxy.service <<EOF"; "[Unit]";
  "After=docker.service"; "Requires=docker.service"; EmptyString; "[Service]";
  "EnvironmentFile=/etc/sysconfig/proxy"; "ExecStartPre=-/usr/bin/docker rm -f %n";
  "ExecStartPre=/usr/bin/docker pull \$PROXY_IMAGE";
  "ExecStart=/usr/bin/docker run --rm --name %n -p 443:8443 -v /etc/proxy:/secrets \$PROXY_IMAGE";
  "ExecStop=/usr/bin/docker stop %n"; "Restart=always"; EmptyString; "[Install]"; "WantedBy=multi-user.target";
  "EOF"; EmptyString; "systemctl enable proxy.service"; EmptyString; "(sleep 30; reboot) &"].
Definition proxy_script : string :=
  script_of (set_ex :: mjoin (decoded_variable <$> ["proxyImage"; "proxyImageAuth"]) ++
             mjoin (plain_variable <$> ["proxyCert"; "proxyClientCert"; "proxyKey"])) proxy_trailer.
Definition proxyVmss : Resource :=
  let script := proxy_script in
  resource (apiVersion "compute") None []
    (VStruct "VirtualMachineScaleSet" [
      "Sku" ↦ VStruct "Sku" ["Name" ↦ VStr "Standard_D2s_v3"; "Tier" ↦ VStr "Standard"; "Capacity" ↦ VInt 1];
      "VirtualMachineScaleSetProperties" ↦ VStruct "VirtualMachineScaleSetProperties" [
        "UpgradePolicy" ↦ VStruct "UpgradePolicy" ["Mode" ↦ VStr "Manual"];
        "VirtualMachineProfile" ↦ VStruct "VirtualMachineScaleSetVMProfile" [
          "OsProfile" ↦ VStruct "VirtualMachineScaleSetOSProfile" [
            "ComputerNamePrefix" ↦ VStr "dev-proxy-"; "AdminUsername" ↦ VStr "cloud-user";
            "LinuxConfiguration" ↦ VStruct "LinuxConfiguration" [
              "DisablePasswordAuthentication" ↦ VBool true;
              "SSH" ↦ VStruct "SSHConfiguration" [
                "PublicKeys" ↦ VList [
                  VStruct "SSHPublicKey" [
                    "Path" ↦ VStr "/home/cloud-user/.ssh/authorized_keys";
                    "KeyData" ↦ VStr "[parameters('sshPublicKey')]"]]]]];
          "StorageProfile" ↦ VStruct "VirtualMachineScaleSetStorageProfile" [
            "ImageReference" ↦ VStruct "ImageReference" [
              "Publisher" ↦ VStr "RedHat"; "Offer" ↦ VStr "RHEL"; "Sku" ↦ VStr "7-RAW";
              "Version" ↦ VStr "latest"];
            "OsDisk" ↦ VStruct "VirtualMachineScaleSetOSDisk" [
              "CreateOption" ↦ VStr "FromImage";
              "ManagedDisk" ↦ VStruct "VirtualMachineScaleSetManagedDiskParameters" [
                "StorageAccountType" ↦ VStr "Premium_LRS"]]];
          "NetworkProfile" ↦ VStruct "VirtualMachineScaleSetNetworkProfile" [
            "NetworkInterfaceConfigurations" ↦ VList [
              VStruct "VirtualMachineScaleSetNetworkConfiguration" [
                "Name" ↦ VStr "dev-proxy-vmss-nic";
                "VirtualMachineScaleSetNetworkConfigurationProperties" ↦
                  VStruct "VirtualMachineScaleSetNetworkConfigurationProperties" [
                  "Primary" ↦ VBool true;
                  "IPConfigurations" ↦ VList [
                    VStruct "VirtualMachineScaleSetIPConfiguration" [
                      "Name" ↦ VStr "dev-proxy-vmss-ipconfig";
                      "VirtualMachineScaleSetIPConfigurationProperties" ↦
                        VStruct "VirtualMachineScaleSetIPConfigurationProperties" [
                        "Subnet" ↦ VStruct "APIEntityReference" [
                          "ID" ↦ VStr "[resourceId('Microsoft.Network/virtualNetworks/subnets', 'rp-vnet', 'rp-subnet')]"];
                        "Primary" ↦ VBool true;
                        "PublicIPAddressConfiguration" ↦ VStruct "VirtualMachineScaleSetPublicIPAddressConfiguration" [
                          "Name" ↦ VStr "dev-proxy-vmss-pip";
                          "VirtualMachineScaleSetPublicIPAddressConfigurationProperties" ↦
                            VStruct "VirtualMachineScaleSetPublicIPAddressConfigurationProperties" [
                            "DNSSettings" ↦ VStruct "VirtualMachineScaleSetPublicIPAddressConfigurationDNSSettings" [
                              "DomainNameLabel" ↦ VStr "[parameters('proxyDomainNameLabel')]"]]]]]]]]]];
          "ExtensionProfile" ↦ VStruct "VirtualMachineScaleSetExtensionProfile" [
            "Extensions" ↦ VList [
              VStruct "VirtualMachineScaleSetExtension" [
                "Name" ↦ VStr "dev-proxy-vmss-cse";
                "VirtualMachineScaleSetExtensionProperties" ↦
                  VStruct "VirtualMachineScaleSetExtensionProperties" [
                  "Publisher" ↦ VStr "Microsoft.Azure.Extensions"; "Type" ↦ VStr "CustomScript";
                  "TypeHandlerVersion" ↦ VStr "2.0"; "AutoUpgradeMinorVersion" ↦ VBool true;
                  "Settings" ↦ VMap []; "ProtectedSettings" ↦ VMap ["script" ↦ VStr script]]]]]];
        "Overprovision" ↦ VBool false];
      "Name" ↦ VStr "dev-proxy-vmss"; "Type" ↦ VStr "Microsoft.Compute/virtualMachineScaleSets";
      "Location" ↦ VStr "[resourceGroup().location]"]).

(** ** dev.go *)
Definition dev_vpn_pip : Resource :=
  resource (apiVersion "network") None []
    (VStruct "PublicIPAddress" [
      "Sku" ↦ VStruct "PublicIPAddressSku" ["Name" ↦ VStr "[parameters('publicIPAddressSkuName')]"];
      "PublicIPAddressPropertiesFormat" ↦ VStruct "PublicIPAddressPropertiesFormat" [
        "PublicIPAllocationMethod" ↦ VStr "[parameters('publicIPAddressAllocationMethod')]"];
      "Name" ↦ VStr "dev-vpn-pip"; "Type" ↦ VStr "Microsoft.Network/publicIPAddresses";
      "Location" ↦ VStr "[resourceGroup().location]"]).
Definition dev_vnet : Resource :=
  resource (apiVersion "network") None []
    (VStruct "VirtualNetwork" [
      "VirtualNetworkPropertiesFormat" ↦ VStruct "VirtualNetworkPropertiesFormat" [
        "AddressSpace" ↦ VStruct "AddressSpace" ["AddressPrefixes" ↦ VList [VStr "10.0.0.0/9"]];
        "Subnets" ↦ VList [
          VStruct "Subnet" [
            "SubnetPropertiesFormat" ↦ VStruct "SubnetPropertiesFormat" ["AddressPrefix" ↦ VStr "10.0.0.0/24"];
            "Name" ↦ VStr "GatewaySubnet"]]];
      "Name" ↦ VStr "dev-vnet"; "Type" ↦ VStr "Microsoft.Network/virtualNetworks";
      "Location" ↦ VStr "[resourceGroup().location]"]).
Definition dev_vpn : Resource :=
  resource (apiVersion "network") None
    ["[resourceId('Microsoft.Network/publicIPAddresses', 'dev-vpn-pip')]";
     "[resourceId('Microsoft.Network/virtualNetworks', 'dev-vnet')]"]
    (VStruct "VirtualNetworkGateway" [
      "VirtualNetworkGatewayPropertiesFormat" ↦ VStruct "VirtualNetworkGatewayPropertiesFormat" [
        "IPConfigurations" ↦ VList [
          VStruct "VirtualNetworkGatewayIPConfiguration" [
            "VirtualNetworkGatewayIPConfigurationPropertiesFormat" ↦
              VStruct "VirtualNetworkGatewayIPConfigurationPropertiesFormat" [
              "Subnet" ↦ VStruct "SubResource" [
                "ID" ↦ VStr "[resourceId('Microsoft.Network/virtualNetworks/subnets', 'dev-vnet', 'GatewaySubnet')]"];
              "PublicIPAddress" ↦ VStruct "SubResource" [
                "ID" ↦ VStr "[resourceId('Microsoft.Network/publicIPAddresses', 'dev-vpn-pip')]"]];
            "Name" ↦ VStr "default"]];
        "VpnType" ↦ VStr "RouteBased";
        "Sku" ↦ VStruct "VirtualNetworkGatewaySku" ["Name" ↦ VStr "VpnGw1"; "Tier" ↦ VStr "VpnGw1"];
        "VpnClientConfiguration" ↦ VStruct "VpnClientConfiguration" [
          "VpnClientAddressPool" ↦ VStruct "AddressSpace" ["AddressPrefixes" ↦ VList [VStr "192.168.255.0/24"]];
          "VpnClientRootCertificates" ↦ VList [
            VStruct "VpnClientRootCertificate" [
              "VpnClientRootCertificatePropertiesFormat" ↦
                VStruct "VpnClientRootCertificatePropertiesFormat" [
                "PublicCertData" ↦ VStr "[parameters('vpnCACertificate')]"];
              "Name" ↦ VStr "dev-vpn-ca"]];
          "VpnClientProtocols" ↦ VList [VStr "OpenVPN"]]];
      "Name" ↦ VStr "dev-vpn"; "Type" ↦ VStr "Microsoft.Network/virtualNetworkGateways";
      "Location" ↦ VStr "[resourceGroup().location]"]).
Definition development_params : list string := [
  "proxyCert"; "proxyClientCert"; "proxyDomainNameLabel"; "proxyImage"; "proxyImageAuth"; "proxyKey";
  "publicIPAddressAllocationMethod"; "publicIPAddressSkuName"; "sshPublicKey"; "vpnCACertificate"].
Definition development_param (param : string) : TemplateParameter :=
  mkTemplateParameter
    (if bool_decide (param ∈ ["proxyImageAuth"; "proxyKey"]) then "securestring" else "string")
    (if decide (param = "publicIPAddressAllocationMethod") then Some (VStr "Static")
     else if decide (param = "publicIPAddressSkuName") then Some (VStr "Standard") else None).
Definition development_template : Template :=
  mkTemplate Schema "1.0.0.0" [] ((fun param => (param, development_param param)) <$> development_params)
    [dev_vpn_pip; dev_vnet; dev_vpn; proxyVmss] [].

(** ** The files *)
Fixpoint replace_from (fuel : nat) (s old new : string) : string :=
  match fuel, s with
  | S fuel, String c s' =>
      if HasPrefix s old then new +:+ replace_from fuel (String.substring (String.length old) (String.length s) s) old new
      else String c (replace_from fuel s' old new)
  | _, _ => s
  end.
(** [bytes.ReplaceAll], of an [old] that is not empty *)
Definition ReplaceAll (s old new : string) : string := replace_from (String.length s) s old new.

Class Files (W : Type) := {
  ioutil_WriteFile : string -> string -> M W unit;
  json_MarshalIndent : Template -> res string;
  json_MarshalIndent_Parameters : Parameters -> res string;
}.

Section generate.
Context {W : Type} `{!Files W}.

Fixpoint generate_rp (l : list (string * bool)) : M W unit :=
  match l with
  | [] => ret tt
  | (templateFile, production) :: l =>
      do! b <- lift (json_MarshalIndent (template production));
      let b := ReplaceAll b tenantIDHack "[subscription().tenantId]" in
      let b := ReplaceAll b (q "accessPolicies" +:+ ": []")
        (q "accessPolicies" +:+ ": " +:+
         q ("[concat(variables('keyvaultAccessPolicies'), parameters('extraKeyvaultAccessPolicies'))]")) in
      do! _ <- ioutil_WriteFile templateFile (b +:+ NL);
      generate_rp l
  end.
Definition GenerateRPTemplates : M W unit :=
  do! _ <- generate_rp [("rp-development.json", false); ("rp-production.json", true)];
  do! b <- lift (json_MarshalIndent databases_template);
  ioutil_WriteFile "databases-development.json" (b +:+ NL).

Definition parameter_of (tp : TemplateParameter) : ParametersParameter :=
  mkParametersParameter (Some (default (VStr EmptyString) (tp_DefaultValue tp))).
Definition rp_parameters : Parameters :=
  mkParameters "https://schema.management.azure.com/schemas/2015-01-01/deploymentParameters.json#" "1.0.0.0"
    ((fun kv => (fst kv, parameter_of (snd kv))) <$> t_Parameters (template true)).
Definition GenerateRPParameterTemplate : M W unit :=
  do! b <- lift (json_MarshalIndent_Parameters rp_parameters);
  ioutil_WriteFile "rp-production-parameters.json" (b +:+ NL).

Fixpoint generate_nsg (l : list (string * bool)) : M W unit :=
  match l with
  | [] => ret tt
  | (templateFile, production) :: l =>
      do! b <- lift (json_MarshalIndent (nsg_template production));
      do! _ <- ioutil_WriteFile templateFile (b +:+ NL);
      generate_nsg l
  end.
Definition GenerateNSGTemplates : M W unit :=
  generate_nsg [("rp-development-nsg.json", false); ("rp-production-nsg.json", true)].

Definition GenerateDevelopmentTemplate : M W unit :=
  do! b <- lift (json_MarshalIndent development_template);
  ioutil_WriteFile "env-development.json" (b +:+ NL).
End generate.
End Rp.
