(* ===== verification/TemplatesSpec.v ===== *)
(** * What the templates promise

    That each can be deployed, and that no rule of a load balancer and no network
    interface refers to a part that is not there. *)
From S2P Require Import Prelude GoStrings.
From S2P Require Import Api Services Cidr Net Graph Arm InstallTemplates Deploy.

(** ** Dependencies by identifier *)
Lemma names_child r type t name n : segment t ->
  type_of r = type +:+ "/" +:+ t -> name_of r = name +:+ "/" +:+ n -> forall i, id type name i ->
  names r (i +:+ "/" +:+ t +:+ "/" +:+ n).
Proof. intros Ht E1 E2 i Hi. apply names_id. rewrite E1, E2. by apply id_two. Qed.

Section link.
Context `{!Env}.

Lemma link_named c vnetID :
  names (network_link c vnetID)
    ("Microsoft.Network/privateDnsZones/" +:+ ic_Name c +:+ "." +:+ ic_BaseDomain c +:+
     "/virtualNetworkLinks/" +:+ ic_Name c +:+ "-network-link").
Proof.
  pose proof (names_child (network_link c vnetID) "Microsoft.Network/privateDnsZones" "virtualNetworkLinks"
    (ic_Name c +:+ "." +:+ ic_BaseDomain c) (ic_Name c +:+ "-network-link") eq_refl eq_refl) as Hn.
  unshelve epose proof (Hn _ _ (id_one "Microsoft.Network" "privateDnsZones" _ eq_refl eq_refl)) as Hi.
  - by rewrite !string_app_assoc.
  - by rewrite !string_app_assoc in Hi.
Qed.
End link.

(** [names r d] of a concrete resource and a dependency in one of its forms *)
Ltac name_it :=
  match goal with
  | |- names ?r ?d => first
    [ exact (names_id r d (id_one "Microsoft.Network" "privateDnsZones" _ eq_refl eq_refl))
    | exact (names_id r d (id_one "Microsoft.Network" "loadBalancers" _ eq_refl eq_refl))
    | exact (names_id r d (id_one "Microsoft.Network" "publicIPAddresses" _ eq_refl eq_refl))
    | exact (names_id r d (id_one "Microsoft.Network" "networkInterfaces" _ eq_refl eq_refl))
    | exact (names_id r d (id_one "Microsoft.Storage" "storageAccounts" _ eq_refl eq_refl))
    | exact (link_named _ _)
    | refine (names_copy r (mkCopy _ _ _ _) eq_refl)
    | exact (names_concat r "aro-master" "copyIndex(), '-nic'" eq_refl)
    | exact (names_resourceId r _ (arguments_literal (name_of r)))
    | exact (names_resourceId r _ (arguments_expression "parameters('databaseAccountName')"))
    | exact (names_resourceId r _ (arguments_expression "parameters('domainName')"))
    | exact (names_resourceId r _ (arguments_pair "parameters('databaseAccountName')" "'ARO'"))
    | exact (names_resourceId r _ (arguments_pair "parameters('databaseAccountName')" "parameters('databaseName')"))
    | exact (names_expression r "guid(resourceGroup().id, 'SP / Contributor')" eq_refl) ]
  end.
Ltac find_it := first [ apply Exists_cons_hd; name_it | apply Exists_cons_tl; find_it ].

(** Each resource of a list in order *)
Ltac deps_of :=
  match goal with
  | |- Forall ?P ?l =>
      let l' := eval hnf in l in
      change (Forall P l');
      match l' with
      | [] => exact (Forall_nil_2 P)
      | _ :: _ => apply Forall_cons_2; [find_it|deps_of]
      end
  end.
Ltac order_them := repeat (apply ordered_cons; [deps_of|]); apply ordered_nil.

(** ** Distinct resources: the names of each type *)
Definition of_type (t : string) (l : list Resource) : list string :=
  name_of <$> filter (fun r => type_of r = t) l.

Lemma distinct_by_type l : (forall t, t ∈ type_of <$> l -> NoDup (of_type t l)) -> NoDup (key_of <$> l).
Proof.
  induction l as [|r l IH]; intros H; [constructor|]. rewrite fmap_cons. apply NoDup_cons. split.
  - intros (r' & E & Hin)%list_elem_of_fmap. injection E as Et En.
    specialize (H (type_of r) ltac:(rewrite fmap_cons; left)). unfold of_type in H.
    rewrite filter_cons_True, fmap_cons, NoDup_cons in H by done. destruct H as [H _]. apply H.
    rewrite En. apply list_elem_of_fmap_2, list_elem_of_filter. by split.
  - apply IH. intros t Ht. specialize (H t ltac:(rewrite fmap_cons; by right)).
    unfold of_type in *. rewrite filter_cons in H. case_decide; [|done].
    rewrite fmap_cons in H. by apply NoDup_cons in H as [_ H].
Qed.

Lemma distinct_types l :
  Forall (fun t => NoDup (of_type t l)) (remove_dups (type_of <$> l)) -> NoDup (key_of <$> l).
Proof.
  intros H. apply distinct_by_type. intros t Ht. rewrite Forall_forall in H.
  apply H, elem_of_remove_dups, Ht.
Qed.

(** Names differ in their letters or in their length. *)
Ltac differ :=
  let E := fresh "E" in
  intros E; first
  [ discriminate E
  | apply (f_equal String.length) in E; cbn in E; rewrite ?string_length_app in E; cbn in E; lia ].
Ltac all_differ :=
  match goal with
  | |- NoDup [] => apply NoDup_nil_2
  | |- NoDup [_] => apply NoDup_singleton
  | |- NoDup (_ :: _) => apply NoDup_cons_2; [|all_differ]; rewrite ?not_elem_of_cons; repeat split;
      first [apply not_elem_of_nil | differ]
  end.
Ltac distinct_keys :=
  apply distinct_types;
  match goal with |- Forall ?P ?l => let l' := eval lazy in l in change (Forall P l') end;
  repeat (apply Forall_cons_2;
    [match goal with |- NoDup ?l => let l' := eval lazy -[String.append] in l in change (NoDup l') end; all_differ|]);
  apply Forall_nil_2.

Lemma storage_template_distinct c oc : NoDup (key_of <$> t_Resources (storage_template c oc)).
Proof. distinct_keys. Qed.

(** The resources of a template, as it lists them *)
Ltac order_all :=
  match goal with |- ordered [] ?l => let l' := eval hnf in l in change (ordered [] l') end;
  cbn [app]; order_them.

Lemma storage_template_ordered c oc : ordered [] (t_Resources (storage_template c oc)).
Proof. unfold storage_template, t_Resources. order_them. Qed.

Section resources.
Context `{!Env}.
Variables (c : InstallConfig) (oc : OpenShiftCluster) (image : OSImage) (objectID vnetID machineMaster : string)
  (lbIP : IP) (replicas : Z) (zones : option (list string)).

Definition in_order : list Resource :=
  [contributor objectID; zone c; record_api_int c lbIP; record_api c lbIP; record_etcd_srv c replicas;
   routetable c; pip c;
   apiServerPublicLoadBalancer (region c) (asp_Visibility (p_APIServerProfile (oc_Properties oc)));
   internal_lb c oc lbIP; pls c oc; bootstrap_nic c oc; master_nic c oc replicas; record_etcd c replicas;
   network_link c vnetID; bootstrap_vm c oc image; master_vm c oc image replicas zones machineMaster;
   outbound_pip c; outbound_lb c].

Lemma in_order_ordered : ordered [] in_order.
Proof. unfold in_order. order_them. Qed.

Lemma in_order_permutation :
  Permutation in_order
    (t_Resources (resources_template c oc image objectID vnetID machineMaster lbIP replicas zones)).
Proof. unfold in_order, resources_template, t_Resources. solve_Permutation. Qed.
End resources.
Section resources_keys.
Context `{!Env}.
Lemma resources_template_distinct c oc image objectID vnetID machineMaster lbIP replicas zones :
  NoDup (key_of <$> t_Resources (resources_template c oc image objectID vnetID machineMaster lbIP replicas zones)).
Proof. distinct_keys. Qed.
End resources_keys.

(** ** Types and versions *)
Ltac typed_them :=
  repeat (apply Forall_cons_2;
    [split_and!; first [discriminate|let E := fresh in intros E; lazy -[String.append] in E; revert E; differ]|]);
  apply Forall_nil_2.
Ltac typed_all :=
  match goal with |- Forall typed ?l => let l' := eval hnf in l in change (Forall typed l') end;
  cbn [app]; typed_them.

Lemma storage_template_typed c oc : Forall typed (t_Resources (storage_template c oc)).
Proof. typed_all. Qed.
Lemma resources_template_typed `{!Env} c oc image objectID vnetID machineMaster lbIP replicas zones :
  Forall typed (t_Resources (resources_template c oc image objectID vnetID machineMaster lbIP replicas zones)).
Proof. typed_all. Qed.

(** ** References to the parts of the load balancers *)
Definition offers (l : list Resource) : list string := mjoin (offered <$> l).
Definition refers (l : list Resource) : list string := mjoin ((fun r => referred (ar_Resource r)) <$> l).

Lemma wired_intro t : Forall (fun i => i ∈ offers (t_Resources t)) (refers (t_Resources t)) -> wired t.
Proof.
  intros H r i Hr Hi. rewrite Forall_forall in H.
  assert (i ∈ refers (t_Resources t)) as Hin.
  { apply list_elem_of_join. exists (referred (ar_Resource r)). split; [done|].
    by apply (list_elem_of_fmap_2 (fun r => referred (ar_Resource r))). }
  apply H, list_elem_of_join in Hin as (l & Hl & (r' & -> & Hr')%list_elem_of_fmap). by exists r'.
Qed.

Lemma all_in (l l' : list string) :
  forallb (fun i => bool_decide (i ∈ l')) l = true -> Forall (fun i => i ∈ l') l.
Proof.
  rewrite forallb_forall, Forall_forall. intros H x Hx. apply list_elem_of_In, H, bool_decide_eq_true in Hx. done.
Qed.

Section refs.
Context `{!Env}.

Lemma no_references_strings l : referred (strings l) = [].
Proof. destruct l as [l|]; [|done]. by induction l. Qed.
Lemma no_references_srvRecords c n : referred (VList (srvRecords c n)) = [].
Proof.
  unfold srvRecords. generalize (seq 0 (Z.to_nat n)) as l. induction l as [|i l IH]; [done|].
  change (referred (srvRecord c i) ++ referred (VList (srvRecord c <$> l)) = []). by rewrite IH.
Qed.

Lemma no_references_record_etcd_srv c n : referred (ar_Resource (record_etcd_srv c n)) = [].
Proof.
  unfold record_etcd_srv. pose proof (no_references_srvRecords c n) as Hv. revert Hv.
  generalize (VList (srvRecords c n)) as v. intros v.
  lazy. intros Hv. by rewrite Hv.
Qed.
Lemma no_references_master_vm c oc image n zones m : referred (ar_Resource (master_vm c oc image n zones m)) = [].
Proof.
  unfold master_vm. pose proof (no_references_strings zones) as Hv. revert Hv.
  generalize (strings zones) as v. intros v.
  lazy. intros Hv. by rewrite Hv.
Qed.

Lemma resources_template_wired c oc image objectID vnetID machineMaster lbIP replicas zones :
  wired (resources_template c oc image objectID vnetID machineMaster lbIP replicas zones).
Proof.
  apply wired_intro. unfold resources_template, t_Resources, refers. rewrite !fmap_cons.
  rewrite no_references_record_etcd_srv, no_references_master_vm.
  unfold apiServerPublicLoadBalancer. by case_decide; apply all_in; vm_compute.
Qed.
End refs.

(** ** The templates of the service *)
Section service.
Import Rp.

Definition rp_in_order (production : bool) : list Resource :=
  (if production then [pip; lb; vnet production; vmss; zone; vault production]
   else [zone; vault production; vnet production]) ++
  cosmosdb production (if production then "'ARO'" else "parameters('databaseName')") ++ rbac.

Lemma rp_ordered production : ordered [] (rp_in_order production).
Proof. destruct production; cbv [rp_in_order cosmosdb rbac app database fmap list_fmap]; order_them. Qed.
Lemma rp_permutation production : Permutation (rp_in_order production) (t_Resources (template production)).
Proof.
  unfold rp_in_order, template, t_Resources. destruct production; [|done]. cbn [app]. solve_Permutation.
Qed.
Lemma rp_distinct production : NoDup (key_of <$> t_Resources (template production)).
Proof. destruct production; distinct_keys. Qed.

Lemma service_deployable production :
  deployable (template production) /\ deployable (nsg_template production) /\
  deployable databases_template /\ deployable development_template.
Proof.
  split_and!.
  - by eapply deployable_intro; [apply rp_distinct|apply rp_permutation|apply rp_ordered].
  - destruct production; (apply deployable_listed; [distinct_keys|order_all]).
  - apply deployable_listed; [distinct_keys|order_all].
  - apply deployable_listed; [distinct_keys|order_all].
Qed.

Lemma service_typed (production : bool) :
  Forall typed (t_Resources (template production)) /\ Forall typed (t_Resources (nsg_template production)) /\
  Forall typed (t_Resources databases_template) /\ Forall typed (t_Resources development_template).
Proof. split_and!; destruct production; typed_all. Qed.

Definition closed_b (rest : list string) (t : Template) : bool :=
  forallb (fun p => bool_decide (p ∈ declared t)) (template_mentions t) &&
  bool_decide (NoDup (declared t)) &&
  forallb (fun p => bool_decide (p ∈ template_mentions t ++ rest)) (declared t).
Lemma closed_spec rest t : closed_b rest t = true -> closed rest t.
Proof.
  unfold closed_b. rewrite !andb_true_iff. intros [[H1 H2] H3]. apply all_in in H1, H3.
  rewrite Forall_forall in H1, H3. split; [done|by apply bool_decide_eq_true in H2|].
  intros p Hp. by apply elem_of_app, H3.
Qed.

Lemma service_closed (production : bool) :
  closed (if production then ["extraKeyvaultAccessPolicies"] else []) (template production) /\
  closed [] (nsg_template production) /\ closed [] databases_template /\ closed [] development_template.
Proof. split_and!; apply closed_spec; destruct production; vm_compute; reflexivity. Qed.

Lemma service_wired production : wired (template production).
Proof. apply wired_intro, all_in. by destruct production; vm_compute. Qed.
End service.
