(* ===== verification/Marshal.v ===== *)
(** * The JSON of a template's resources (src/pkg/util/arm/marshal.go)

    [MarshalJSON] of a resource copies what it wraps into structs without methods,
    lays its own fields over it, and hands the struct it has made by reflection to
    encoding/json. [gv] is what reflection sees of a Go value; the JSON text is the
    tree [json], and what encoding/json makes of a value is [encode]. The keys of a map
    are strings, in the order in which they are written. *)
From S2P Require Import Prelude GoStrings Arm.
From Stdlib Require Import Ascii.

(** A field of a struct: its name, its path when it is not exported, its tag *)
Record gfield := mkField { gf_Name : string; gf_PkgPath : string; gf_json : string }.

Inductive prim := PBool (b : bool) | PInt (z : Z) | PString (s : string).

Inductive gv :=
| GBasic (p : prim)
| GUUID (text : string)                     (* [uuid.UUID], an array with a [MarshalText] *)
| GArray (l : list gv)
| GPtr (p : option gv)
| GInterface (i : option gv)
| GMap (m : option (list (string * gv)))
| GSlice (l : option (list gv))
| GBytes (b : option string)                (* a slice whose elements are bytes *)
| GStruct (fields : list (gfield * gv)).

Inductive json :=
| JNull
| JLit (p : prim)
| JArray (l : list json)
| JObject (m : list (string * json)).

#[export] Instance gfield_eq_dec : EqDecision gfield.
Proof. solve_decision. Defined.
#[export] Instance prim_eq_dec : EqDecision prim.
Proof. solve_decision. Defined.

(** Induction over a value and its parts *)
Section gv_ind.
Context (P : gv -> Prop).
Hypothesis HBasic : forall p, P (GBasic p).
Hypothesis HUUID : forall s, P (GUUID s).
Hypothesis HArray : forall l, Forall P l -> P (GArray l).
Hypothesis HPtr : forall p, from_option P True p -> P (GPtr p).
Hypothesis HInterface : forall i, from_option P True i -> P (GInterface i).
Hypothesis HMap : forall m, from_option (Forall (fun kv => P (snd kv))) True m -> P (GMap m).
Hypothesis HSlice : forall s, from_option (Forall P) True s -> P (GSlice s).
Hypothesis HBytes : forall b, P (GBytes b).
Hypothesis HStruct : forall fs, Forall (fun fv => P (snd fv)) fs -> P (GStruct fs).

Fixpoint gv_parts (v : gv) : P v :=
  let all := fix all l : Forall P l :=
    match l with [] => Forall_nil_2 P | v :: l => Forall_cons_2 P v l (gv_parts v) (all l) end in
  let fields {K} := fix fields (l : list (K * gv)) : Forall (fun kv => P (snd kv)) l :=
    match l with
    | [] => Forall_nil_2 _
    | kv :: l => Forall_cons_2 _ kv l (let '(_, v) as kv := kv return P (snd kv) in gv_parts v) (fields l)
    end in
  match v with
  | GBasic p => HBasic p
  | GUUID s => HUUID s
  | GArray l => HArray l (all l)
  | GPtr p => HPtr p (match p return from_option P True p with None => I | Some v => gv_parts v end)
  | GInterface i => HInterface i (match i return from_option P True i with None => I | Some v => gv_parts v end)
  | GMap m =>
      HMap m (match m return from_option (Forall (fun kv => P (snd kv))) True m with None => I | Some m => fields m end)
  | GSlice l => HSlice l (match l return from_option (Forall P) True l with None => I | Some l => all l end)
  | GBytes b => HBytes b
  | GStruct fs => HStruct fs (fields fs)
  end.
End gv_ind.

(** ** encoding/json *)
Definition tag_name (f : gfield) : string := BeforeFirst ","%char (gf_json f).
Definition omitempty (f : gfield) : bool :=
  match SplitChar ","%char (gf_json f) with _ :: options => bool_decide ("omitempty" ∈ options) | [] => false end.
Definition tagged (f : gfield) : bool := negb (bool_decide (tag_name f = EmptyString)).
Definition key (f : gfield) : string := if tagged f then tag_name f else gf_Name f.
Definition exported (f : gfield) : bool := bool_decide (gf_PkgPath f = EmptyString).
Definition visible (f : gfield) : bool := exported f && negb (bool_decide (gf_json f = "-")).

(** Of the fields with one key the one with a tag is written, and none when several
    have one, or none has. *)
Definition hides (f g : gfield) : bool :=
  bool_decide (key f = key g) && negb (bool_decide (gf_Name f = gf_Name g)) && (tagged g || negb (tagged f)).
Definition dominant (fs : list gfield) (f : gfield) : bool := negb (existsb (hides f) (filter visible fs)).

(** [reflect.Value.IsZero] *)
Definition is_zero_prim (p : prim) : bool :=
  match p with PBool b => negb b | PInt z => bool_decide (z = 0%Z) | PString s => bool_decide (s = EmptyString) end.
Definition uuid_nil : string := "00000000-0000-0000-0000-000000000000".
Fixpoint IsZero (v : gv) : bool :=
  match v with
  | GBasic p => is_zero_prim p
  | GUUID s => bool_decide (s = uuid_nil)
  | GArray l => forallb IsZero l
  | GPtr p => match p with None => true | _ => false end
  | GInterface i => match i with None => true | _ => false end
  | GMap m => match m with None => true | _ => false end
  | GSlice l => match l with None => true | _ => false end
  | GBytes b => match b with None => true | _ => false end
  | GStruct fs => forallb (fun fv => IsZero (snd fv)) fs
  end.

(** encoding/json's [isEmptyValue]; an identifier has sixteen bytes *)
Definition isEmptyValue (v : gv) : bool :=
  match v with
  | GBasic p => is_zero_prim p
  | GUUID _ | GStruct _ => false
  | GArray l => match l with [] => true | _ => false end
  | GPtr p => match p with None => true | _ => false end
  | GInterface i => match i with None => true | _ => false end
  | GMap m => match m with None | Some [] => true | _ => false end
  | GSlice l => match l with None | Some [] => true | _ => false end
  | GBytes b => match b with None | Some EmptyString => true | _ => false end
  end.

(** What is written of a value without methods *)
Fixpoint encode (v : gv) : json :=
  match v with
  | GBasic p => JLit p
  | GUUID s => JLit (PString s)
  | GArray l => JArray (encode <$> l)
  | GPtr p => match p with None => JNull | Some v => encode v end
  | GInterface i => match i with None => JNull | Some v => encode v end
  | GMap m => match m with None => JNull | Some m => JObject ((fun kv => (fst kv, encode (snd kv))) <$> m) end
  | GSlice l => match l with None => JNull | Some l => JArray (encode <$> l) end
  | GBytes b => match b with None => JNull | Some s => JLit (PString (EncodeToString s)) end
  | GStruct fs =>
      JObject ((fix go (l : list (gfield * gv)) : list (string * json) :=
        match l with
        | [] => []
        | (f, v) :: l =>
            if visible f && dominant (fst <$> fs) f && negb (omitempty f && isEmptyValue v)
            then (key f, encode v) :: go l else go l
        end) fs)
  end.

(** ** marshal.go

    A value set into a variable of type [interface{}] *)
Definition set_interface (v : gv) : gv :=
  match v with GInterface _ => v | _ => GInterface (Some v) end.
(** [reflect.ValueOf(v.Interface())] *)
Definition value_of (v : gv) : option gv :=
  match v with GInterface i => i | _ => Some v end.

Fixpoint _shadowCopy (v : gv) : gv :=
  match v with
  | GArray l => GArray ((fun x => set_interface (_shadowCopy x)) <$> l)
  | GPtr p => match p with None => GInterface None | Some v => set_interface (_shadowCopy v) end
  | GInterface i => match i with None => GInterface None | Some v => set_interface (_shadowCopy v) end
  | GMap m =>
      match m with
      | None => GMap None
      | Some m => GMap (Some ((fun kv => (fst kv, set_interface (_shadowCopy (snd kv)))) <$> m))
      end
  | GSlice l =>
      match l with
      | None => GSlice None
      | Some l => GSlice (Some ((fun x => set_interface (_shadowCopy x)) <$> l))
      end
  | GStruct fs =>
      GStruct ((fix go (l : list (gfield * gv)) : list (gfield * gv) :=
        match l with
        | [] => []
        | (f, v) :: l =>
            if exported f then
              let s := _shadowCopy v in
              (f, if IsZero s then GInterface None else set_interface s) :: go l
            else go l
        end) fs)
  | _ => v
  end.

(** A nil interface is an invalid [reflect.Value], on which [Interface] panics. *)
Definition shadowCopy (i : option gv) : res gv :=
  match i with
  | Some v => Ok (_shadowCopy v)
  | None => Panic "call of reflect.Value.Interface on zero Value"
  end.

(** The fields of the inner struct, those of the outer one laid over them: one that the
    inner has takes its place, and its value when it is not zero. *)
Definition lay_over (inner : list (gfield * gv)) (o : gfield * gv) : list (gfield * gv) :=
  let '(field, value) := o in
  match list_find (fun fv => gf_Name (fst fv) = gf_Name field) inner with
  | Some (idx, (_, old)) => <[idx := (field, if IsZero value then old else set_interface value)]> inner
  | None => inner ++ [o]
  end.
Definition combine (inner outer : list (gfield * gv)) : list (gfield * gv) := foldl lay_over inner outer.

(** [reflect.StructOf] panics on two fields of one name. *)
Definition StructOf (fields : list (gfield * gv)) : res gv :=
  if decide (NoDup (gf_Name <$> (fst <$> fields))) then Ok (GStruct fields) else Panic "reflect.StructOf: duplicate field".

(** types.go: a resource, whose fields but the first are the outer ones *)
Record Resource := mkResource {
  r_Resource : option gv;
  r_Name : string;
  r_Type : string;
  r_Condition : bool;
  r_APIVersion : string;
  r_DependsOn : option (list string);
  r_Location : string;
  r_Tags : option (list (string * gv));
  r_Copy : option Copy;
  r_Comments : string;
}.
Definition field_ (name tag : string) : gfield := mkField name EmptyString (tag +:+ ",omitempty").
Definition copy_fields (c : Copy) : gv :=
  GStruct [(field_ "Name" "name", GBasic (PString (cp_Name c)));
           (field_ "Count" "count", GBasic (PInt (cp_Count c)));
           (field_ "Mode" "mode", GBasic (PString (cp_Mode c)));
           (field_ "BatchSize" "batchSize", GBasic (PInt (cp_BatchSize c)))].
Definition outer_fields (r : Resource) : list (gfield * gv) :=
  [(field_ "Name" "name", GBasic (PString (r_Name r)));
   (field_ "Type" "type", GBasic (PString (r_Type r)));
   (field_ "Condition" "condition", GBasic (PBool (r_Condition r)));
   (field_ "APIVersion" "apiVersion", GBasic (PString (r_APIVersion r)));
   (field_ "DependsOn" "dependsOn", GSlice (option_map (map (fun s => GBasic (PString s))) (r_DependsOn r)));
   (field_ "Location" "location", GBasic (PString (r_Location r)));
   (field_ "Tags" "tags", GMap (r_Tags r));
   (field_ "Copy" "copy", GPtr (option_map copy_fields (r_Copy r)));
   (field_ "Comments" "comments", GBasic (PString (r_Comments r)))].

Definition not_a_struct : error := ErrOther "Resource field must be a struct".

Definition MarshalJSON (r : Resource) : res json :=
  do? resource <- shadowCopy (r_Resource r);
  match value_of resource with
  | Some (GStruct inner) =>
      do? combined <- StructOf (combine inner (outer_fields r));
      Ok (encode combined)
  | _ => Err not_a_struct
  end.
