(* ===== verification/MarshalSpec.v ===== *)
(** * What the JSON of a resource is

    The copy without methods is written as the value itself would be, but for empty
    values, and the fields laid over the copy are those of one struct. *)
From S2P Require Import Prelude GoStrings Arm Marshal.

(** ** Structs by their fields *)
Definition name (fv : gfield * gv) : string := gf_Name (fst fv).
Definition skipped (fv : gfield * gv) : bool := omitempty (fst fv) && isEmptyValue (snd fv).
Definition written_as (fs : list gfield) (fv : gfield * gv) : option (string * json) :=
  if visible (fst fv) && dominant fs (fst fv) && negb (skipped fv)
  then Some (key (fst fv), encode (snd fv)) else None.

Lemma encode_struct fs : encode (GStruct fs) = JObject (omap (written_as (fst <$> fs)) fs).
Proof.
  simpl. f_equal. generalize (fst <$> fs) as all. intros all.
  induction fs as [|[f v] fs IH]; [done|]. cbn [omap list_omap].
  change (written_as all (f, v)) with
    (if visible f && dominant all f && negb (omitempty f && isEmptyValue v) then Some (key f, encode v) else None).
  rewrite IH. by destruct (_ && _).
Qed.

(** Two fields that are written alike *)
Definition alike (x y : gfield * gv) : Prop :=
  fst x = fst y /\
  (visible (fst x) = true -> skipped x = skipped y /\ (skipped y = false -> encode (snd x) = encode (snd y))).

Lemma encode_alike fs fs' : Forall2 alike fs fs' -> encode (GStruct fs) = encode (GStruct fs').
Proof.
  intros Hf. rewrite !encode_struct. f_equal.
  assert (fst <$> fs = fst <$> fs') as -> by (induction Hf as [|x y l k [Hxy _] _ IH]; [done|]; cbn; congruence).
  generalize (fst <$> fs') as all. intros all.
  induction Hf as [|x y l k [Hxy Ha] _ IH]; [done|]. cbn [omap list_omap].
  assert (written_as all x = written_as all y) as ->; [|by rewrite IH].
  unfold written_as. rewrite <- Hxy. destruct (visible (fst x)); [|done].
  destruct (Ha eq_refl) as [Hs He]. rewrite Hs. destruct (skipped y) eqn:E; simpl; [by rewrite andb_false_r|].
  by rewrite He.
Qed.

(** ** The copy *)
Fixpoint nil_chain (v : gv) : bool :=
  match v with
  | GPtr None | GInterface None => true
  | GPtr (Some v) | GInterface (Some v) => nil_chain v
  | _ => false
  end.

(** The values whose copy is zero *)
Fixpoint blank (v : gv) : bool :=
  match v with
  | GArray l => forallb nil_chain l
  | GPtr _ | GInterface _ => nil_chain v
  | GStruct fs => forallb (fun fv => negb (exported (fst fv)) || blank (snd fv)) fs
  | _ => IsZero v
  end.

Lemma set_interface_idemp v : set_interface (set_interface v) = set_interface v.
Proof. by destruct v. Qed.

Lemma encode_set_interface v : encode (set_interface v) = encode v.
Proof. by destruct v. Qed.

Lemma set_interface_zero v : IsZero (set_interface (_shadowCopy v)) = nil_chain v.
Proof.
  induction v using gv_parts; try done;
    match goal with o : option _ |- _ => destruct o; simpl in *; [|done] end; try done; by rewrite set_interface_idemp.
Qed.

Lemma set_interface_nil v : IsZero (set_interface v) = true -> IsZero v = true /\ encode v = JNull.
Proof. by destruct v as [| | | |[]| | | |]. Qed.

(** A field of the copy *)
Definition stored (v : gv) : gv :=
  let s := _shadowCopy v in if IsZero s then GInterface None else set_interface s.
Definition copied_field (fv : gfield * gv) : option (gfield * gv) :=
  if exported (fst fv) then Some (fst fv, stored (snd fv)) else None.

Lemma shadow_struct fs : _shadowCopy (GStruct fs) = GStruct (omap copied_field fs).
Proof.
  simpl. f_equal. induction fs as [|[f v] fs IH]; [done|]. cbn [omap list_omap].
  unfold copied_field at 1. cbn [fst snd]. rewrite IH. by destruct (exported f).
Qed.

Lemma stored_zero v : IsZero (stored v) = IsZero (_shadowCopy v).
Proof.
  unfold stored. destruct (IsZero (_shadowCopy v)) eqn:E; [done|].
  destruct (IsZero (set_interface (_shadowCopy v))) eqn:E2; [|done].
  apply set_interface_nil in E2 as [E2 _]. congruence.
Qed.

Lemma IsZero_shadow v : IsZero (_shadowCopy v) = blank v.
Proof.
  induction v as [| |l _|[v|] _|[v|] _|[]|[]| |fs IH] using gv_parts; try done.
  - simpl. induction l as [|v l IH]; [done|]. simpl. by rewrite set_interface_zero, <- IH.
  - apply set_interface_zero.
  - apply set_interface_zero.
  - rewrite shadow_struct. simpl. induction IH as [|[f v] fs IH _ IHfs]; [done|].
    cbn [omap list_omap]. unfold copied_field at 1. simpl in *.
    destruct (exported f); simpl; [|done]. by rewrite stored_zero, IH, IHfs.
Qed.

(** ** Values whose copy is written as they are

    A field that is written leaves an empty value out exactly when its copy is zero,
    and is never a zero that is written other than null. *)
Definition plain_field (fv : gfield * gv) : Prop :=
  visible (fst fv) = true ->
  if omitempty (fst fv) then isEmptyValue (snd fv) = blank (snd fv)
  else blank (snd fv) = true -> encode (snd fv) = JNull.

Inductive plain : gv -> Prop :=
| plain_basic p : plain (GBasic p)
| plain_uuid s : plain (GUUID s)
| plain_array l : Forall plain l -> plain (GArray l)
| plain_nil_ptr : plain (GPtr None)
| plain_ptr v : plain v -> plain (GPtr (Some v))
| plain_nil : plain (GInterface None)
| plain_interface v : plain v -> plain (GInterface (Some v))
| plain_nil_map : plain (GMap None)
| plain_map m : Forall (fun kv => plain (snd kv)) m -> plain (GMap (Some m))
| plain_nil_slice : plain (GSlice None)
| plain_slice l : Forall plain l -> plain (GSlice (Some l))
| plain_bytes b : plain (GBytes b)
| plain_struct fs : Forall (fun fv => plain (snd fv)) fs -> Forall plain_field fs -> plain (GStruct fs).

Lemma stored_empty v : isEmptyValue (stored v) = blank v.
Proof.
  rewrite <- IsZero_shadow, <- stored_zero. unfold stored. destruct (IsZero _); [done|].
  by destruct (_shadowCopy v) as [| | | |[]| | | |].
Qed.

Lemma stored_alike f v :
  (visible f = true -> encode (_shadowCopy v) = encode v) -> plain_field (f, v) -> alike (f, stored v) (f, v).
Proof.
  intros He Hp. split; [done|]. intros Hv. specialize (He Hv). specialize (Hp Hv). simpl in *.
  unfold skipped. simpl. rewrite stored_empty. destruct (omitempty f); simpl.
  - split; [done|]. rewrite Hp, <- IsZero_shadow. unfold stored. intros ->. by rewrite encode_set_interface.
  - split; [done|]. intros _. unfold stored. rewrite IsZero_shadow. destruct (blank v); [by rewrite Hp|].
    by rewrite encode_set_interface.
Qed.

Definition is_exported (fv : gfield * gv) : bool := exported (fst fv).

Lemma encode_exported fs : encode (GStruct (filter is_exported fs)) = encode (GStruct fs).
Proof.
  rewrite !encode_struct. f_equal.
  assert (forall f, dominant (fst <$> filter is_exported fs) f = dominant (fst <$> fs) f) as Hd.
  { intros f. unfold dominant. do 2 f_equal. induction fs as [|[g v] fs IH]; [done|].
    rewrite filter_cons. cbn [fmap list_fmap fst]. case_decide as Hx; cbn [fmap list_fmap fst]; rewrite !filter_cons, IH; [done|].
    rewrite decide_False; [done|]. unfold visible, is_exported in *. simpl in Hx. by destruct (exported g). }
  assert (forall fv, written_as (fst <$> filter is_exported fs) fv = written_as (fst <$> fs) fv) as Hw.
  { intros fv. unfold written_as. by rewrite Hd. }
  revert Hw. clear. generalize (fst <$> filter is_exported fs) (fst <$> fs). intros l1 l2 Hw.
  induction fs as [|[g v] fs IH]; [done|]. rewrite filter_cons. cbn [omap list_omap].
  case_decide as Hx; cbn [omap list_omap]; rewrite IH; [by rewrite Hw|].
  unfold written_as, visible, is_exported in *. simpl in *. by destruct (exported g).
Qed.

Lemma encode_shadow v : plain v -> encode (_shadowCopy v) = encode v.
Proof.
  induction v as [| |l IH|[v|] IH|[v|] IH|[m|] IH|[l|] IH| |fs IH] using gv_parts; intros Hp; try done; inversion Hp as [| |? Hl| |? Hl| |? Hl| |? Hl| |? Hl| |? Hl Hf]; subst; simpl in IH.
  - simpl. f_equal. rewrite <- list_fmap_compose. apply list_fmap_ext. intros i x Hx. simpl.
    rewrite encode_set_interface. rewrite Forall_lookup in IH, Hl. eauto.
  - simpl. rewrite encode_set_interface. auto.
  - simpl. rewrite encode_set_interface. auto.
  - simpl. f_equal. rewrite <- list_fmap_compose. apply list_fmap_ext. intros i [k x] Hx. simpl.
    rewrite encode_set_interface. f_equal. rewrite Forall_lookup in IH, Hl.
    exact (IH _ _ Hx (Hl _ _ Hx)).
  - simpl. f_equal. rewrite <- list_fmap_compose. apply list_fmap_ext. intros i x Hx. simpl.
    rewrite encode_set_interface. rewrite Forall_lookup in IH, Hl. eauto.
  - rewrite shadow_struct, <- (encode_exported fs). apply encode_alike.
    clear Hp. induction fs as [|[f v] fs IHfs]; [constructor|].
    apply Forall_cons in IH as [IHv IH], Hl as [Hv Hl], Hf as [Hp Hf].
    cbn [omap list_omap]. rewrite filter_cons. unfold copied_field at 1. cbn [fst snd].
    case_decide as Hx; unfold is_exported in Hx; simpl in Hx; destruct (exported f); try done; [|by apply IHfs].
    constructor; [|by apply IHfs]. apply stored_alike; [|done]. intros _. by apply IHv.
Qed.

(** ** The fields laid over *)
Fixpoint by_name (n : string) (l : list (gfield * gv)) : option (gfield * gv) :=
  match l with
  | [] => None
  | fv :: l => if decide (name fv = n) then Some fv else by_name n l
  end.

(** A field of the inner struct takes the tag of the outer one of its name, and its
    value when it is not zero. *)
Definition laid (set : gv -> gv) (outer : list (gfield * gv)) (fv : gfield * gv) : gfield * gv :=
  match by_name (name fv) outer with
  | Some (g, w) => (g, if IsZero w then snd fv else set w)
  | None => fv
  end.
Definition others (inner outer : list (gfield * gv)) : list (gfield * gv) :=
  filter (fun fv => name fv ∉ name <$> inner) outer.
Definition overlay (set : gv -> gv) (inner outer : list (gfield * gv)) : list (gfield * gv) :=
  (laid set outer <$> inner) ++ others inner outer.

Lemma by_name_None n l : by_name n l = None <-> n ∉ name <$> l.
Proof.
  induction l as [|fv l IH]; cbn; [set_solver|]. case_decide; set_solver.
Qed.

Lemma by_name_Some n l g w : by_name n l = Some (g, w) -> gf_Name g = n /\ (g, w) ∈ l.
Proof. induction l as [|fv l IH]; cbn; [done|]. case_decide; intros; simplify_eq; set_solver. Qed.

Lemma laid_name set outer fv : name (laid set outer fv) = name fv.
Proof.
  unfold laid. destruct (by_name (name fv) outer) as [[g w]|] eqn:E; [|done]. by apply by_name_Some in E as [? _].
Qed.

Lemma overlay_names set inner outer : name <$> overlay set inner outer = (name <$> inner) ++ (name <$> others inner outer).
Proof.
  unfold overlay. rewrite fmap_app. f_equal. rewrite <- list_fmap_compose. apply list_fmap_ext. intros i fv _. apply laid_name.
Qed.

Lemma lay_over_cons x inner o :
  name x <> name o -> lay_over (x :: inner) o = x :: lay_over inner o.
Proof.
  destruct o as [f w]. unfold name, lay_over. simpl. intros Hn. rewrite decide_False by done.
  by destruct (list_find _ inner) as [[i [g v]]|].
Qed.

Lemma lay_over_one inner o :
  NoDup (name <$> inner) -> lay_over inner o = overlay set_interface inner [o].
Proof.
  induction inner as [|x inner IH]; intros Hd.
  { destruct o as [f w]. unfold overlay, others. by rewrite filter_cons_True by set_solver. }
  cbn in Hd. apply NoDup_cons in Hd as [Hx Hd]. destruct (decide (name x = name o)) as [Hn|Hn].
  - destruct o as [f w], x as [g v]. unfold name in Hn. simpl in Hn. unfold lay_over. simpl. rewrite decide_True by done.
    unfold overlay, others. rewrite filter_cons, filter_nil. rewrite decide_False by (cbn; unfold name; simpl; set_solver).
    rewrite app_nil_r. cbn. f_equal.
    + unfold laid. cbn. by rewrite decide_True.
    + rewrite <- (list_fmap_id inner) at 1. apply list_fmap_ext. intros i y Hy. unfold laid. cbn.
      rewrite decide_False; [done|]. intros E. apply Hx. apply list_elem_of_fmap. exists y.
      split; [unfold name in *; simpl in *; congruence|by eapply list_elem_of_lookup_2].
  - rewrite lay_over_cons, IH by done. unfold overlay, others. rewrite !filter_cons, filter_nil. cbn.
    assert (laid set_interface [o] x = x) as -> by (unfold laid; cbn; by rewrite decide_False).
    do 2 f_equal. repeat case_decide; set_solver.
Qed.

Lemma laid_cons set o outer x :
  name o ∉ name <$> outer -> laid set outer (laid set [o] x) = laid set (o :: outer) x.
Proof.
  intros Ho%by_name_None. unfold laid at 2 3. cbn. destruct (decide (name o = name x)) as [E|E]; [|done].
  destruct o as [g w]. unfold laid. unfold name in *. simpl in *. by rewrite Ho.
Qed.

Lemma others_same a b outer :
  (forall n, n ∈ name <$> outer -> n ∈ name <$> a <-> n ∈ name <$> b) -> others a outer = others b outer.
Proof.
  unfold others. induction outer as [|fv outer IH]; intros Hab; [done|].
  cbn in Hab. rewrite !filter_cons, IH by set_solver.
  specialize (Hab (name fv)). repeat case_decide; set_solver.
Qed.

Lemma overlay_cons set inner o outer :
  NoDup (name <$> o :: outer) -> overlay set (overlay set inner [o]) outer = overlay set inner (o :: outer).
Proof.
  intros [Ho Hd]%NoDup_cons.
  assert (forall fv, fv ∈ others inner [o] -> fv = o) as H1.
  { intros fv [_ Hfv]%list_elem_of_filter. by apply list_elem_of_singleton in Hfv. }
  assert (laid set outer <$> others inner [o] = others inner [o]) as HB.
  { rewrite <- (list_fmap_id (others inner [o])) at 2. apply list_fmap_ext. intros i fv Hfv%list_elem_of_lookup_2%H1.
    subst. unfold laid. apply by_name_None in Ho. by rewrite Ho. }
  assert (others (overlay set inner [o]) outer = others inner outer) as HC.
  { apply others_same. intros n Hn. rewrite overlay_names, elem_of_app.
    assert (n ∉ name <$> others inner [o]); [|tauto].
    intros (fv & -> & ->%H1)%list_elem_of_fmap. done. }
  assert (others inner (o :: outer) = others inner [o] ++ others inner outer) as HD.
  { unfold others. by rewrite <- filter_app. }
  unfold overlay at 1. rewrite HC. unfold overlay. rewrite HD, fmap_app, HB, <- app_assoc. f_equal.
  rewrite <- list_fmap_compose. apply list_fmap_ext. intros i x _. by apply laid_cons.
Qed.

Lemma overlay_nil set inner : overlay set inner [] = inner.
Proof.
  unfold overlay, others. rewrite filter_nil, app_nil_r. rewrite <- (list_fmap_id inner) at 2. by apply list_fmap_ext.
Qed.

Lemma overlay_NoDup set inner outer :
  NoDup (name <$> inner) -> NoDup (name <$> outer) -> NoDup (name <$> overlay set inner outer).
Proof.
  intros Hi Ho. rewrite overlay_names. apply NoDup_app. split_and!; [done| |].
  - intros n Hn (fv & -> & [Hfv _]%list_elem_of_filter)%list_elem_of_fmap. done.
  - unfold others. induction outer as [|fv outer IH]; [constructor|]. cbn in Ho. apply NoDup_cons in Ho as [Hf Ho].
    rewrite filter_cons. case_decide; [|by apply IH]. cbn. apply NoDup_cons. split; [|by apply IH].
    intros (x & Hx & [_ Hxo]%list_elem_of_filter)%list_elem_of_fmap. apply Hf. rewrite Hx. apply list_elem_of_fmap. eauto.
Qed.

Lemma combine_overlay inner outer :
  NoDup (name <$> inner) -> NoDup (name <$> outer) -> combine inner outer = overlay set_interface inner outer.
Proof.
  revert inner. induction outer as [|o outer IH]; intros inner Hi Ho; [by rewrite overlay_nil|].
  unfold combine. simpl. change (foldl lay_over ?x outer) with (combine x outer).
  rewrite lay_over_one by done. rewrite IH; [by apply overlay_cons|apply overlay_NoDup; [done|]|by apply NoDup_cons in Ho as [_ ?]].
  cbn. apply NoDup_singleton.
Qed.

(** ** The JSON of a resource *)

(** The struct in what a resource wraps *)
Definition struct_of (v : gv) : option (list (gfield * gv)) :=
  match v with
  | GStruct fs | GPtr (Some (GStruct fs)) => Some fs
  | _ => None
  end.

(** A field that the resource inherits is written as it is, under the tag it has there. *)
Definition inherited (outer : list (gfield * gv)) (fv : gfield * gv) : Prop :=
  match by_name (name fv) outer with
  | Some (g, w) => IsZero w = true -> plain (snd fv) /\ plain_field (g, snd fv)
  | None => plain (snd fv) /\ plain_field fv
  end.

(** The struct whose JSON it is *)
Definition reference (r : Resource) (fs : list (gfield * gv)) : gv :=
  GStruct (overlay (fun w => w) (filter is_exported fs) (outer_fields r)).

Lemma outer_NoDup r : NoDup (name <$> outer_fields r).
Proof. apply (bool_decide_unpack _). by vm_compute. Qed.

Lemma laid_alike outer fv :
  exported (fst fv) = true -> inherited outer fv ->
  (forall g w, (g, w) ∈ outer -> IsZero w = false -> isEmptyValue w = false) ->
  alike (laid set_interface outer (fst fv, stored (snd fv))) (laid (fun w => w) outer fv).
Proof.
  intros Hx Hi Ho. unfold laid, inherited in *. change (name (fst fv, stored (snd fv))) with (name fv).
  destruct (by_name (name fv) outer) as [[g w]|] eqn:E.
  - apply by_name_Some in E as [_ E]. specialize (Ho g w E). destruct (IsZero w) eqn:Hz.
    + destruct (Hi eq_refl) as [Hp Hf]. apply stored_alike; [|done]. intros _. by apply encode_shadow.
    + split; [done|]. intros _. unfold skipped. simpl. rewrite Ho, encode_set_interface by done.
      assert (isEmptyValue (set_interface w) = false) as ->; [|done].
      destruct w as [| | | |[]| | | |]; try done.
  - destruct fv as [f v]. destruct Hi as [Hp Hf]. apply stored_alike; [|done]. intros _. by apply encode_shadow.
Qed.

Lemma copied_fields (fs : list (gfield * gv)) :
  omap copied_field fs = (fun fv => (fst fv, stored (snd fv))) <$> filter is_exported fs.
Proof.
  induction fs as [|[f v] fs IH]; [done|]. cbn [omap list_omap]. rewrite filter_cons, IH.
  unfold copied_field at 1, is_exported at 2. cbn [fst snd].
  case_decide as Hx; unfold is_exported in Hx; simpl in Hx; by destruct (exported f).
Qed.

Lemma shadow_names (l : list (gfield * gv)) :
  name <$> ((fun fv => (fst fv, stored (snd fv))) <$> l) = name <$> l.
Proof. by rewrite <- list_fmap_compose. Qed.

Lemma alike_refl x : alike x x.
Proof. done. Qed.

Lemma overlay_alike inner outer :
  Forall (fun fv => exported (fst fv) = true /\ inherited outer fv) inner ->
  (forall g w, (g, w) ∈ outer -> IsZero w = false -> isEmptyValue w = false) ->
  Forall2 alike (overlay set_interface ((fun fv => (fst fv, stored (snd fv))) <$> inner) outer)
    (overlay (fun w => w) inner outer).
Proof.
  intros Hi Ho. unfold overlay. apply Forall2_app.
  - rewrite <- list_fmap_compose. induction Hi as [|fv inner [Hx Hf] _ IH]; [constructor|].
    constructor; [|exact IH]. by apply laid_alike.
  - rewrite (others_same _ inner) by (intros n _; by rewrite shadow_names).
    generalize (others inner outer) as l. intros l. induction l; constructor; [apply alike_refl|done].
Qed.

Lemma outer_nonempty r g w :
  r_DependsOn r <> Some [] -> r_Tags r <> Some [] ->
  (g, w) ∈ outer_fields r -> IsZero w = false -> isEmptyValue w = false.
Proof.
  intros Hd Ht Hin. unfold outer_fields in Hin.
  repeat (apply elem_of_cons in Hin as [[= -> ->]|Hin]; [try done|]); [..|by apply elem_of_nil in Hin].
  - by destruct (r_DependsOn r) as [[]|].
  - by destruct (r_Tags r) as [[]|].
Qed.

Lemma exported_NoDup (fs : list (gfield * gv)) : NoDup (name <$> fs) -> NoDup (name <$> filter is_exported fs).
Proof.
  intros Hd. eapply sublist_NoDup; [exact Hd|]. apply fmap_sublist, sublist_filter.
Qed.

Lemma StructOf_ok fields : NoDup (name <$> fields) -> StructOf fields = Ok (GStruct fields).
Proof. intros Hd. unfold StructOf. rewrite decide_True; [done|]. by rewrite <- list_fmap_compose. Qed.
