(* ===== verification/OrderedMap.v ===== *)
(** * Objects with the order of their keys (src/pkg/util/orderedmap/orderedmap.go)

    A slice of structs of a key and a value, read from a JSON object and written as
    one, by reflection on the slice: here a list of pairs. The decoder of encoding/json
    is the list of what is left to read at the depth of the object; [decode] and
    [encode] are what encoding/json does with the type of the values. *)
From S2P Require Import Prelude GoStrings Arm Marshal.

Inductive item :=
| Delim (d : string)                    (* a brace or a bracket at this depth *)
| Value (j : json).                     (* a whole value *)

(** What [Token] gives of a value: a string, or something else *)
Inductive token := TDelim (d : string) | TString (s : string) | TOther.
Definition token_of (j : json) : token :=
  match j with
  | JLit (PString s) => TString s
  | JObject _ => TDelim "{"
  | JArray _ => TDelim "["
  | _ => TOther
  end.

Definition EOF : error := ErrOther "EOF".
Definition unexpected_token : error := ErrOther "unexpected token".

Definition Token (d : list item) : res (token * list item) :=
  match d with
  | [] => Err EOF
  | Delim s :: d => Ok (TDelim s, d)
  | Value j :: d => Ok (token_of j, d)
  end.

Section ordered.
Context {V : Type} (decode : json -> res V) (encode : V -> res json).

(** [d.Decode] of the next value *)
Definition Decode (d : list item) : res (V * list item) :=
  match d with
  | Value j :: d => do? v <- decode j; Ok (v, d)
  | Delim _ :: _ => Err unexpected_token
  | [] => Err EOF
  end.

(** [indexes] has the keys that were read, each with its index in the slice. *)
Definition put (xs : list (string * V)) (indexes : list (string * nat)) (k : string) (v : V) :
    list (string * V) * list (string * nat) :=
  match list_find (fun p => fst p = k) indexes with
  | Some (_, (_, i)) => (<[i := (k, v)]> xs, indexes)
  | None => (xs ++ [(k, v)], (k, length xs) :: indexes)
  end.

(** The loop reads two items in a turn, so as many turns as there are items are
    enough. *)
Fixpoint members (fuel : nat) (xs : list (string * V)) (indexes : list (string * nat)) (d : list item) :
    res (list (string * V)) :=
  match fuel with
  | 0 => OutOfFuel
  | S fuel =>
      do? '(tok, d) <- Token d;
      match tok with
      | TDelim "}" => Ok xs
      | TString k =>
          do? '(v, d) <- Decode d;
          let '(xs, indexes) := put xs indexes k v in members fuel xs indexes d
      | _ => Err unexpected_token
      end
  end.

(** [xs] is the slice as it was: what is read is appended to it. *)
Definition UnmarshalJSON (xs : list (string * V)) (d : list item) : res (list (string * V)) :=
  do? '(tok, d) <- Token d;
  match tok with
  | TDelim "{" => members (S (length d)) xs [] d
  | _ => Err unexpected_token
  end.

Fixpoint marshal_members (xs : list (string * V)) : res (list (string * json)) :=
  match xs with
  | [] => Ok []
  | (k, v) :: xs =>
      do? b <- encode v;
      do? rest <- marshal_members xs;
      Ok ((k, b) :: rest)
  end.

(** A nil interface is null; a nil slice in one is an object. *)
Definition MarshalJSON (i : option (list (string * V))) : res json :=
  match i with
  | None => Ok JNull
  | Some xs => do? m <- marshal_members xs; Ok (JObject m)
  end.
End ordered.

(** The items of a value at its own depth *)
Definition items (j : json) : list item :=
  match j with
  | JObject m => Delim "{" :: concat ((fun kv => [Value (JLit (PString (fst kv))); Value (snd kv)]) <$> m) ++ [Delim "}"]
  | _ => [Value j]
  end.

Lemma length_concat_pairs {A B} (f g : A -> B) (l : list A) : length (concat ((fun x => [f x; g x]) <$> l)) = 2 * length l.
Proof. induction l as [|x l IH]; [done|]. cbn in *. rewrite IH. lia. Qed.

(** ** Reading back what was written *)
Section roundtrip.
Context {V : Type} (decode : json -> res V) (encode : V -> res json).
Implicit Types (xs : list (string * V)).

Definition reads_back : Prop := forall v j, encode v = Ok j -> decode j = Ok v.

(** The last value of each key, where the key came first *)
Definition keep (xs : list (string * V)) (kv : string * V) : list (string * V) :=
  match list_find (fun x => fst x = fst kv) xs with
  | Some (i, _) => <[i := kv]> xs
  | None => xs ++ [kv]
  end.

Definition last_values (xs : list (string * V)) : list (string * V) := foldl keep [] xs.

Definition index_of (k : string) (keys : list string) : option nat := fst <$> list_find (fun s => s = k) keys.

(** The indexes are those of the keys, after what the slice held before. *)
Definition indexed (before : nat) (xs : list (string * V)) (indexes : list (string * nat)) : Prop :=
  forall k, snd <$> (snd <$> list_find (fun p => fst p = k) indexes) =
            (fun i => before + i) <$> index_of k (fst <$> xs).

Lemma index_of_snoc k keys x :
  index_of k (keys ++ [x]) =
  match index_of k keys with Some i => Some i | None => if decide (x = k) then Some (length keys) else None end.
Proof.
  unfold index_of. destruct (list_find _ keys) as [[i s]|] eqn:E; simpl.
  - by rewrite (list_find_app_l _ _ _ _ _ E).
  - rewrite (list_find_app_r _ _ _ E). simpl. case_decide; [|done]. by simpl.
Qed.

Lemma index_of_find k xs :
  index_of k (fst <$> xs) = fst <$> list_find (fun x => fst x = k) xs.
Proof. unfold index_of. rewrite list_find_fmap. unfold compose. by destruct (list_find _ xs) as [[]|]. Qed.

Lemma keep_keys xs kv :
  fst <$> keep xs kv = match index_of (fst kv) (fst <$> xs) with Some _ => fst <$> xs | None => (fst <$> xs) ++ [fst kv] end.
Proof.
  rewrite index_of_find. unfold keep. destruct (list_find _ xs) as [[i x]|] eqn:E; simpl; [|by rewrite fmap_app].
  apply list_find_Some in E as (Hi & Hk & _). rewrite list_fmap_insert. apply list_insert_id. rewrite list_lookup_fmap, Hi. simpl. by rewrite Hk.
Qed.

Lemma put_keep ys xs indexes k v :
  indexed (length ys) xs indexes ->
  exists indexes', put (ys ++ xs) indexes k v = (ys ++ keep xs (k, v), indexes') /\ indexed (length ys) (keep xs (k, v)) indexes'.
Proof.
  intros Hi. pose proof (Hi k) as Hk. rewrite index_of_find in Hk. unfold put.
  destruct (list_find _ indexes) as [[n [k' i]]|] eqn:E; simpl in Hk.
  - destruct (list_find _ xs) as [[j x]|] eqn:Ex; simplify_eq/=. exists indexes. split.
    + unfold keep. simpl. rewrite Ex. by rewrite insert_app_r.
    + intros k2. rewrite keep_keys, index_of_find. simpl. rewrite Ex. simpl. apply Hi.
  - destruct (list_find _ xs) as [[j x]|] eqn:Ex; simplify_eq/=. eexists. split.
    + unfold keep. simpl. rewrite Ex. by rewrite <- app_assoc.
    + intros k2. rewrite keep_keys, index_of_find. simpl. rewrite Ex. simpl. rewrite index_of_snoc. simpl.
      case_decide as Hd; subst.
      * rewrite index_of_find, Ex. simpl. by rewrite length_app, length_fmap.
      * specialize (Hi k2). destruct (list_find _ indexes) as [[? []]|], (index_of k2 (fst <$> xs)); simpl in *; done.
Qed.

Lemma members_keep ys m xs fuel done_ indexes :
  reads_back -> marshal_members encode xs = Ok m -> indexed (length ys) done_ indexes -> length xs < fuel ->
  members decode fuel (ys ++ done_) indexes
    (concat ((fun kv => [Value (JLit (PString (fst kv))); Value (snd kv)]) <$> m) ++ [Delim "}"]) =
  Ok (ys ++ foldl keep done_ xs).
Proof.
  intros Hb. revert m fuel done_ indexes. induction xs as [|[k v] xs IH]; intros m [|fuel] done_ indexes Hm Hi Hf; simpl in Hf; try lia; simplify_eq/=; [done|].
  apply res_bind_ok in Hm as (b & Hv & (rest & Hr & Hm)%res_bind_ok). simplify_eq/=.
  rewrite (Hb _ _ Hv). simpl. destruct (put_keep ys done_ indexes k v Hi) as (indexes' & -> & Hi').
  apply IH; [done..|lia].
Qed.

Lemma marshal_members_length xs m : marshal_members encode xs = Ok m -> length m = length xs.
Proof.
  revert m. induction xs as [|[k v] xs IH]; intros m Hm; simplify_eq/=; [done|].
  apply res_bind_ok in Hm as (b & _ & (rest & Hr & Hm)%res_bind_ok). simplify_eq/=. by rewrite IH.
Qed.

(** The keys come out as they came first, each once. *)
Lemma last_values_keys xs : NoDup (fst <$> last_values xs).
Proof.
  unfold last_values. assert (NoDup (fst <$> ([] : list (string * V)))) as H by constructor. revert H.
  generalize ([] : list (string * V)) as acc. induction xs as [|kv xs IH]; intros acc Hn; [done|]. simpl. apply IH.
  rewrite keep_keys, index_of_find. destruct (list_find _ acc) as [[]|] eqn:E; [done|]. simpl.
  apply NoDup_app. split_and!; [done| |apply NoDup_singleton].
  intros k (x & -> & Hx)%list_elem_of_fmap Hk%list_elem_of_singleton. apply list_find_None in E.
  rewrite Forall_forall in E. by apply (E _ Hx).
Qed.

Lemma last_values_NoDup xs : NoDup (fst <$> xs) -> last_values xs = xs.
Proof.
  unfold last_values. intros Hn. rewrite <- (app_nil_l xs) in Hn |- * at 2. revert Hn. generalize ([] : list (string * V)) as acc.
  induction xs as [|kv xs IH]; intros acc Hn; [by rewrite app_nil_r|]. simpl.
  assert (keep acc kv = acc ++ [kv]) as ->.
  { unfold keep. destruct (list_find _ acc) as [[i x]|] eqn:E; [|done]. exfalso.
    apply list_find_Some in E as (Hi & Hk & _). rewrite fmap_app in Hn. apply NoDup_app in Hn as (_ & Hn & _).
    apply (Hn (fst kv)); [rewrite <- Hk; apply list_elem_of_fmap; exists x; split; [done|by eapply list_elem_of_lookup_2]|]. cbn. left. }
  rewrite (IH (acc ++ [kv])) by (by rewrite <- app_assoc). by rewrite <- app_assoc.
Qed.
End roundtrip.

(** ** The tests of the source *)
Definition decode_int (j : json) : res Z :=
  match j with JLit (PInt z) => Ok z | _ => Err (ErrOther "cannot unmarshal into Go value of type int") end.
Definition encode_int (z : Z) : res json := Ok (JLit (PInt z)).

Example unmarshal_example :
  UnmarshalJSON decode_int [] (items (JObject [("a", JLit (PInt 1)); ("b", JLit (PInt 2))])) = Ok [("a", 1%Z); ("b", 2%Z)].
Proof. by vm_compute. Qed.
Example marshal_example :
  MarshalJSON encode_int (Some [("a", 1%Z); ("b", 2%Z)]) = Ok (JObject [("a", JLit (PInt 1)); ("b", JLit (PInt 2))]).
Proof. by vm_compute. Qed.
Example unmarshal_duplicate_field :
  UnmarshalJSON decode_int []
    (items (JObject [("a", JLit (PInt 1)); ("b", JLit (PInt 0)); ("b", JLit (PInt 2))])) = Ok [("a", 1%Z); ("b", 2%Z)].
Proof. by vm_compute. Qed.
Example unmarshal_truncated :
  UnmarshalJSON decode_int [] [Delim "{"; Value (JLit (PString "a"))] = Err EOF.
Proof. by vm_compute. Qed.
