(* ===== verification/SwaggerTypes.v ===== *)
(** * The API specification's types (src/pkg/swagger/types.go)

    The objects of the Swagger specification, and their JSON: a field that is empty is
    left out, in every type. A Go map is the list of its members in the order of their
    keys, in which encoding/json writes them. *)
From S2P Require Import Prelude GoStrings Arm Marshal.
From Stdlib Require Import Ascii.

(** ** Members of an object that may be left out *)
Definition o_text (s : string) : json := JLit (PString s).
Definition o_string (k s : string) : string * option json :=
  (k, if decide (s = EmptyString) then None else Some (o_text s)).
Definition o_int (k : string) (z : Z) : string * option json :=
  (k, if decide (z = 0%Z) then None else Some (JLit (PInt z))).
Definition o_bool (k : string) (b : bool) : string * option json :=
  (k, if b then Some (JLit (PBool true)) else None).
Definition o_list {A} (k : string) (f : A -> json) (l : list A) : string * option json :=
  (k, match l with [] => None | _ => Some (JArray (map f l)) end).
Definition o_map {A} (k : string) (f : A -> json) (m : list (string * A)) : string * option json :=
  (k, match m with [] => None | _ => Some (JObject (map (fun '(k, v) => (k, f v)) m)) end).
Definition o_object (l : list (string * option json)) : json :=
  JObject (omap (fun '(k, j) => match j with Some j => Some (k, j) | None => None end) l).

Record Contact := mkContact {
  co_Name : string;
  co_URL : string;
  co_Email : string;
}.
Definition zero_Contact : Contact :=
  mkContact EmptyString EmptyString EmptyString.
Definition encode_Contact (x : Contact) : json :=
  o_object
    [ o_string "name" (co_Name x);
      o_string "url" (co_URL x);
      o_string "email" (co_Email x) ].

Record License := mkLicense {
  li_Name : string;
  li_URL : string;
}.
Definition zero_License : License :=
  mkLicense EmptyString EmptyString.
Definition encode_License (x : License) : json :=
  o_object
    [ o_string "name" (li_Name x);
      o_string "url" (li_URL x) ].

Record Info := mkInfo {
  in_Title : string;
  in_Description : string;
  in_TermsOfService : string;
  in_Contact : option Contact;
  in_License : option License;
  in_Version : string;
}.
Definition zero_Info : Info :=
  mkInfo EmptyString EmptyString EmptyString None None EmptyString.
Definition encode_Info (x : Info) : json :=
  o_object
    [ o_string "title" (in_Title x);
      o_string "description" (in_Description x);
      o_string "termsOfService" (in_TermsOfService x);
      ("contact", match in_Contact x with Some y => Some (encode_Contact y) | None => None end);
      ("license", match in_License x with Some y => Some (encode_License y) | None => None end);
      o_string "version" (in_Version x) ].

Record ExternalDocumentation := mkExternalDocumentation {
  ed_Description : string;
  ed_URL : string;
}.
Definition zero_ExternalDocumentation : ExternalDocumentation :=
  mkExternalDocumentation EmptyString EmptyString.
Definition encode_ExternalDocumentation (x : ExternalDocumentation) : json :=
  o_object
    [ o_string "description" (ed_Description x);
      o_string "url" (ed_URL x) ].

Record XML := mkXML {
  xm_Description : string;
  xm_URL : string;
}.
Definition zero_XML : XML :=
  mkXML EmptyString EmptyString.
Definition encode_XML (x : XML) : json :=
  o_object
    [ o_string "description" (xm_Description x);
      o_string "url" (xm_URL x) ].

Record Reference := mkReference {
  rf_Ref : string;
}.
Definition zero_Reference : Reference :=
  mkReference EmptyString.
Definition encode_Reference (x : Reference) : json :=
  o_object
    [ o_string "$ref" (rf_Ref x) ].

Record Tag := mkTag {
  tg_Name : string;
  tg_Description : string;
  tg_ExternalDocs : option ExternalDocumentation;
}.
Definition zero_Tag : Tag :=
  mkTag EmptyString EmptyString None.
Definition encode_Tag (x : Tag) : json :=
  o_object
    [ o_string "name" (tg_Name x);
      o_string "description" (tg_Description x);
      ("externalDocs", match tg_ExternalDocs x with Some y => Some (encode_ExternalDocumentation y) | None => None end) ].

Record SecurityScheme := mkSecurityScheme {
  ss_Type : string;
  ss_Description : string;
  ss_Name : string;
  ss_In : string;
  ss_Flow : string;
  ss_AuthorizationURL : string;
  ss_TokenURL : string;
  ss_Scopes : list (string * string);
}.
Definition zero_SecurityScheme : SecurityScheme :=
  mkSecurityScheme EmptyString EmptyString EmptyString EmptyString EmptyString EmptyString EmptyString [].
Definition encode_SecurityScheme (x : SecurityScheme) : json :=
  o_object
    [ o_string "type" (ss_Type x);
      o_string "description" (ss_Description x);
      o_string "name" (ss_Name x);
      o_string "in" (ss_In x);
      o_string "flow" (ss_Flow x);
      o_string "authorizationUrl" (ss_AuthorizationURL x);
      o_string "tokenUrl" (ss_TokenURL x);
      o_map "scopes" o_text (ss_Scopes x) ].

Inductive Items := mkItems {
  it_Type : string;
  it_Format : string;
  it_Items : option Items;
  it_CollectionFormat : string;
  it_Default : option json;
  it_Maximum : Z;
  it_ExclusiveMaximum : bool;
  it_Minimum : Z;
  it_ExclusiveMinimum : bool;
  it_MaxLength : Z;
  it_MinLength : Z;
  it_Pattern : string;
  it_MaxItems : Z;
  it_MinItems : Z;
  it_UniqueItems : bool;
  it_Enum : list json;
  it_MultipleOf : Z;
}.
Definition zero_Items : Items :=
  mkItems EmptyString EmptyString None EmptyString None 0%Z false 0%Z false 0%Z 0%Z EmptyString 0%Z 0%Z false [] 0%Z.
Fixpoint encode_Items (x : Items) : json :=
  o_object
    [ o_string "type" (it_Type x);
      o_string "format" (it_Format x);
      ("items", match it_Items x with Some y => Some (encode_Items y) | None => None end);
      o_string "collectionFormat" (it_CollectionFormat x);
      ("default", it_Default x);
      o_int "maximum" (it_Maximum x);
      o_bool "exclusiveMaximum" (it_ExclusiveMaximum x);
      o_int "minimum" (it_Minimum x);
      o_bool "exclusiveMinimum" (it_ExclusiveMinimum x);
      o_int "maxLength" (it_MaxLength x);
      o_int "minLength" (it_MinLength x);
      o_string "pattern" (it_Pattern x);
      o_int "maxItems" (it_MaxItems x);
      o_int "minItems" (it_MinItems x);
      o_bool "uniqueItems" (it_UniqueItems x);
      o_list "enum" (fun j => j) (it_Enum x);
      o_int "multipleOf" (it_MultipleOf x) ].

Record Header := mkHeader {
  hd_Description : string;
  hd_Type : string;
  hd_Format : string;
  hd_Items : option Items;
  hd_CollectionFormat : string;
  hd_Default : option json;
  hd_Maximum : Z;
  hd_ExclusiveMaximum : bool;
  hd_Minimum : Z;
  hd_ExclusiveMinimum : bool;
  hd_MaxLength : Z;
  hd_MinLength : Z;
  hd_Pattern : string;
  hd_MaxItems : Z;
  hd_MinItems : Z;
  hd_UniqueItems : bool;
  hd_Enum : list json;
  hd_MultipleOf : Z;
}.
Definition zero_Header : Header :=
  mkHeader EmptyString EmptyString EmptyString None EmptyString None 0%Z false 0%Z false 0%Z 0%Z EmptyString 0%Z 0%Z false [] 0%Z.
Definition encode_Header (x : Header) : json :=
  o_object
    [ o_string "description" (hd_Description x);
      o_string "type" (hd_Type x);
      o_string "format" (hd_Format x);
      ("items", match hd_Items x with Some y => Some (encode_Items y) | None => None end);
      o_string "collectionFormat" (hd_CollectionFormat x);
      ("default", hd_Default x);
      o_int "maximum" (hd_Maximum x);
      o_bool "exclusiveMaximum" (hd_ExclusiveMaximum x);
      o_int "minimum" (hd_Minimum x);
      o_bool "exclusiveMinimum" (hd_ExclusiveMinimum x);
      o_int "maxLength" (hd_MaxLength x);
      o_int "minLength" (hd_MinLength x);
      o_string "pattern" (hd_Pattern x);
      o_int "maxItems" (hd_MaxItems x);
      o_int "minItems" (hd_MinItems x);
      o_bool "uniqueItems" (hd_UniqueItems x);
      o_list "enum" (fun j => j) (hd_Enum x);
      o_int "multipleOf" (hd_MultipleOf x) ].

Inductive Schema := mkSchema {
  sc_Ref : string;
  sc_Format : string;
  sc_Title : string;
  sc_Description : string;
  sc_Default : option json;
  sc_MultipleOf : Z;
  sc_Maximum : Z;
  sc_ExclusiveMaximum : bool;
  sc_Minimum : Z;
  sc_ExclusiveMinimum : bool;
  sc_MaxLength : Z;
  sc_MinLength : Z;
  sc_Pattern : string;
  sc_MaxItems : Z;
  sc_MinItems : Z;
  sc_UniqueItems : bool;
  sc_MaxProperties : Z;
  sc_MinProperties : Z;
  sc_Required : bool;
  sc_Enum : list json;
  sc_Type : string;
  sc_Items : option Schema;
  sc_AllOf : list Schema;
  sc_Properties : list (string * option Schema);
  sc_AdditionalProperties : option Schema;
  sc_Discriminator : string;
  sc_ReadOnly : bool;
  sc_XML : option XML;
  sc_ExternalDocs : option ExternalDocumentation;
  sc_Example : option json;
  sc_ClientFlatten : bool;
  sc_Mutability : list string;
}.
Definition zero_Schema : Schema :=
  mkSchema EmptyString EmptyString EmptyString EmptyString None 0%Z 0%Z false 0%Z false 0%Z 0%Z EmptyString 0%Z 0%Z false 0%Z 0%Z false [] EmptyString None [] [] None EmptyString false None None None false [].
Fixpoint encode_Schema (x : Schema) : json :=
  o_object
    [ o_string "$ref" (sc_Ref x);
      o_string "format" (sc_Format x);
      o_string "title" (sc_Title x);
      o_string "description" (sc_Description x);
      ("default", sc_Default x);
      o_int "multipleOf" (sc_MultipleOf x);
      o_int "maximum" (sc_Maximum x);
      o_bool "exclusiveMaximum" (sc_ExclusiveMaximum x);
      o_int "minimum" (sc_Minimum x);
      o_bool "exclusiveMinimum" (sc_ExclusiveMinimum x);
      o_int "maxLength" (sc_MaxLength x);
      o_int "minLength" (sc_MinLength x);
      o_string "pattern" (sc_Pattern x);
      o_int "maxItems" (sc_MaxItems x);
      o_int "minItems" (sc_MinItems x);
      o_bool "uniqueItems" (sc_UniqueItems x);
      o_int "maxProperties" (sc_MaxProperties x);
      o_int "minProperties" (sc_MinProperties x);
      o_bool "required" (sc_Required x);
      o_list "enum" (fun j => j) (sc_Enum x);
      o_string "type" (sc_Type x);
      ("items", match sc_Items x with Some y => Some (encode_Schema y) | None => None end);
      o_list "allOf" encode_Schema (sc_AllOf x);
      o_map "properties" (fun p => match p with Some y => encode_Schema y | None => JNull end) (sc_Properties x);
      ("additionalProperties", match sc_AdditionalProperties x with Some y => Some (encode_Schema y) | None => None end);
      o_string "discriminator" (sc_Discriminator x);
      o_bool "readOnly" (sc_ReadOnly x);
      ("xml", match sc_XML x with Some y => Some (encode_XML y) | None => None end);
      ("externalDocs", match sc_ExternalDocs x with Some y => Some (encode_ExternalDocumentation y) | None => None end);
      ("example", sc_Example x);
      o_bool "x-ms-client-flatten" (sc_ClientFlatten x);
      o_list "x-ms-mutability" o_text (sc_Mutability x) ].

Record Response := mkResponse {
  rs_Description : string;
  rs_Schema : option Schema;
  rs_Headers : list (string * Header);
  rs_Examples : list (string * json);
}.
Definition zero_Response : Response :=
  mkResponse EmptyString None [] [].
Definition encode_Response (x : Response) : json :=
  o_object
    [ o_string "description" (rs_Description x);
      ("schema", match rs_Schema x with Some y => Some (encode_Schema y) | None => None end);
      o_map "headers" encode_Header (rs_Headers x);
      o_map "examples" (fun j => j) (rs_Examples x) ].

Record Parameter_ := mkParameter {
  pm_Name : string;
  pm_In : string;
  pm_Description : string;
  pm_Required : bool;
  pm_Schema : option Schema;
  pm_Type : string;
  pm_Format : string;
  pm_AllowEmptyValue : bool;
  pm_Items : option Items;
  pm_CollectionFormat : string;
  pm_Default : option json;
  pm_Maximum : Z;
  pm_ExclusiveMaximum : bool;
  pm_Minimum : Z;
  pm_ExclusiveMinimum : bool;
  pm_MaxLength : Z;
  pm_MinLength : Z;
  pm_Pattern : string;
  pm_MaxItems : Z;
  pm_MinItems : Z;
  pm_UniqueItems : bool;
  pm_Enum : list json;
  pm_MultipleOf : Z;
}.
Definition zero_Parameter : Parameter_ :=
  mkParameter EmptyString EmptyString EmptyString false None EmptyString EmptyString false None EmptyString None 0%Z false 0%Z false 0%Z 0%Z EmptyString 0%Z 0%Z false [] 0%Z.
Definition encode_Parameter (x : Parameter_) : json :=
  o_object
    [ o_string "name" (pm_Name x);
      o_string "in" (pm_In x);
      o_string "description" (pm_Description x);
      o_bool "required" (pm_Required x);
      ("schema", match pm_Schema x with Some y => Some (encode_Schema y) | None => None end);
      o_string "type" (pm_Type x);
      o_string "format" (pm_Format x);
      o_bool "allowEmptyValue" (pm_AllowEmptyValue x);
      ("items", match pm_Items x with Some y => Some (encode_Items y) | None => None end);
      o_string "collectionFormat" (pm_CollectionFormat x);
      ("default", pm_Default x);
      o_int "maximum" (pm_Maximum x);
      o_bool "exclusiveMaximum" (pm_ExclusiveMaximum x);
      o_int "minimum" (pm_Minimum x);
      o_bool "exclusiveMinimum" (pm_ExclusiveMinimum x);
      o_int "maxLength" (pm_MaxLength x);
      o_int "minLength" (pm_MinLength x);
      o_string "pattern" (pm_Pattern x);
      o_int "maxItems" (pm_MaxItems x);
      o_int "minItems" (pm_MinItems x);
      o_bool "uniqueItems" (pm_UniqueItems x);
      o_list "enum" (fun j => j) (pm_Enum x);
      o_int "multipleOf" (pm_MultipleOf x) ].

(** What the lists of parameters hold *)
Inductive any := AReference (r : Reference) | AParameter (p : Parameter_).
Definition encode_any (a : any) : json :=
  match a with AReference r => encode_Reference r | AParameter p => encode_Parameter p end.

Record Operation := mkOperation {
  op_Tags : list string;
  op_Summary : string;
  op_Description : string;
  op_ExternalDocs : option ExternalDocumentation;
  op_OperationID : string;
  op_Consumes : list string;
  op_Produces : list string;
  op_Parameters : list any;
  op_Responses : list (string * Response);
  op_Schemes : list string;
  op_Deprecated : bool;
  op_LongRunningOperation : bool;
  op_Examples : list (string * Reference);
}.
Definition zero_Operation : Operation :=
  mkOperation [] EmptyString EmptyString None EmptyString [] [] [] [] [] false false [].
Definition encode_Operation (x : Operation) : json :=
  o_object
    [ o_list "tags" o_text (op_Tags x);
      o_string "summary" (op_Summary x);
      o_string "description" (op_Description x);
      ("externalDocs", match op_ExternalDocs x with Some y => Some (encode_ExternalDocumentation y) | None => None end);
      o_string "operationId" (op_OperationID x);
      o_list "consumes" o_text (op_Consumes x);
      o_list "produces" o_text (op_Produces x);
      o_list "parameters" encode_any (op_Parameters x);
      o_map "responses" encode_Response (op_Responses x);
      o_list "schemes" o_text (op_Schemes x);
      o_bool "deprecated" (op_Deprecated x);
      o_bool "x-ms-long-running-operation" (op_LongRunningOperation x);
      o_map "x-ms-examples" encode_Reference (op_Examples x) ].

Record PathItem := mkPathItem {
  pi_Ref : string;
  pi_Get : option Operation;
  pi_Put : option Operation;
  pi_Post : option Operation;
  pi_Delete : option Operation;
  pi_Options : option Operation;
  pi_Head : option Operation;
  pi_Patch : option Operation;
  pi_Parameters : list any;
}.
Definition zero_PathItem : PathItem :=
  mkPathItem EmptyString None None None None None None None [].
Definition encode_PathItem (x : PathItem) : json :=
  o_object
    [ o_string "$ref" (pi_Ref x);
      ("get", match pi_Get x with Some y => Some (encode_Operation y) | None => None end);
      ("put", match pi_Put x with Some y => Some (encode_Operation y) | None => None end);
      ("post", match pi_Post x with Some y => Some (encode_Operation y) | None => None end);
      ("delete", match pi_Delete x with Some y => Some (encode_Operation y) | None => None end);
      ("options", match pi_Options x with Some y => Some (encode_Operation y) | None => None end);
      ("head", match pi_Head x with Some y => Some (encode_Operation y) | None => None end);
      ("patch", match pi_Patch x with Some y => Some (encode_Operation y) | None => None end);
      o_list "parameters" encode_any (pi_Parameters x) ].

Record Swagger := mkSwagger {
  sw_Swagger : string;
  sw_Info : option Info;
  sw_Host : string;
  sw_BasePath : string;
  sw_Schemes : list string;
  sw_Consumes : list string;
  sw_Produces : list string;
  sw_Paths : list (string * PathItem);
  sw_Definitions : list (string * Schema);
  sw_Parameters : list (string * Parameter_);
  sw_Responses : list (string * Response);
  sw_SecurityDefinitions : list (string * SecurityScheme);
  sw_Security : list (list (string * list string));
  sw_Tags : list Tag;
  sw_ExternalDocs : option ExternalDocumentation;
}.
Definition zero_Swagger : Swagger :=
  mkSwagger EmptyString None EmptyString EmptyString [] [] [] [] [] [] [] [] [] [] None.
Definition encode_Swagger (x : Swagger) : json :=
  o_object
    [ o_string "swagger" (sw_Swagger x);
      ("info", match sw_Info x with Some y => Some (encode_Info y) | None => None end);
      o_string "host" (sw_Host x);
      o_string "basePath" (sw_BasePath x);
      o_list "schemes" o_text (sw_Schemes x);
      o_list "consumes" o_text (sw_Consumes x);
      o_list "produces" o_text (sw_Produces x);
      o_map "paths" encode_PathItem (sw_Paths x);
      o_map "definitions" encode_Schema (sw_Definitions x);
      o_map "parameters" encode_Parameter (sw_Parameters x);
      o_map "responses" encode_Response (sw_Responses x);
      o_map "securityDefinitions" encode_SecurityScheme (sw_SecurityDefinitions x);
      o_list "security" (fun r => JObject (map (fun kv => (fst kv, JArray (map o_text (snd kv)))) r)) (sw_Security x);
      o_list "tags" encode_Tag (sw_Tags x);
      ("externalDocs", match sw_ExternalDocs x with Some y => Some (encode_ExternalDocumentation y) | None => None end) ].
