(* ===== verification/Client.v ===== *)
(** * The generated client of the service (src/pkg/client/services/preview/redhatopenshift)

    The requests that the client of the version 2019-12-31-preview makes, what it
    refuses before it makes them, the answers it accepts and the JSON of its models.
    Sending, with the retries and the registration of the provider, and polling are the
    operations of a class (src/vendor/github.com/Azure/go-autorest). An error is passed
    on as it is: what NewErrorWithError puts around it keeps it. *)
From S2P Require Import Prelude GoStrings.
From S2P Require Import Arm Marshal SwaggerTypes.
From Stdlib Require Import Ascii.

(** ** Escapes of paths (net/url, autorest.Encode) *)
Definition is_unreserved (c : ascii) : bool :=
  let n := nat_of_ascii c in
  ((48 <=? n) && (n <=? 57)) || ((65 <=? n) && (n <=? 90)) || ((97 <=? n) && (n <=? 122)) ||
  bool_decide (c ∈ ["-"; "_"; "."; "~"]%char).
Definition upperhex (n : nat) : ascii := ascii_of_nat (if n <? 10 then 48 + n else 55 + n).
Definition unhex (c : ascii) : option nat :=
  let n := nat_of_ascii c in
  if (48 <=? n) && (n <=? 57) then Some (n - 48)
  else if (65 <=? n) && (n <=? 70) then Some (n - 55)
  else if (97 <=? n) && (n <=? 102) then Some (n - 87)
  else None.

Fixpoint QueryEscape (s : string) : string :=
  match s with
  | EmptyString => EmptyString
  | String c s =>
      if is_unreserved c then String c (QueryEscape s)
      else if decide (c = " "%char) then String "+" (QueryEscape s)
      else String "%" (String (upperhex (nat_of_ascii c / 16)) (String (upperhex (nat_of_ascii c mod 16)) (QueryEscape s)))
  end.

(** [strings.Replace] of every occurrence; [skip] is what is left of the one being
    replaced. *)
Fixpoint replace_from (old new : string) (skip : nat) (s : string) : string :=
  match s with
  | EmptyString => EmptyString
  | String c s' =>
      match skip with
      | S k => replace_from old new k s'
      | 0 => if HasPrefix s old then new +:+ replace_from old new (String.length old - 1) s'
             else String c (replace_from old new 0 s')
      end
  end.
Definition Replace (s old new : string) : string := replace_from old new 0 s.

Definition pathEscape (s : string) : string := Replace (QueryEscape s) "+" "%20".

(** The path of a URL as it is read *)
Fixpoint unescape_path (s : string) : option string :=
  match s with
  | EmptyString => Some EmptyString
  | String c s =>
      if decide (c = "%"%char) then
        match s with
        | String a (String b s) =>
            h ← unhex a; l ← unhex b; rest ← unescape_path s; Some (String (ascii_of_nat (16 * h + l)) rest)
        | _ => None
        end
      else rest ← unescape_path s; Some (String c rest)
  end.

(** ** models.go *)
Definition o_ptr (k : string) (p : option string) : string * option json := (k, o_text <$> p).
Definition o_int32 (k : string) (p : option Z) : string * option json := (k, (fun z => JLit (PInt z)) <$> p).
Definition o_struct {A} (k : string) (f : A -> json) (p : option A) : string * option json := (k, f <$> p).

Module Cl.
Record APIServerProfile := mkAPIServerProfile { asp_Visibility : string; asp_URL : option string; asp_IP : option string }.
Record ClusterProfile := mkClusterProfile { cp_Domain : option string; cp_Version : option string; cp_ResourceGroupID : option string }.
Record ConsoleProfile := mkConsoleProfile { cons_URL : option string }.
Record IngressProfile := mkIngressProfile { ip_Name : option string; ip_Visibility : string; ip_IP : option string }.
Record MasterProfile := mkMasterProfile { mp_VMSize : string; mp_SubnetID : option string }.
Record NetworkProfile := mkNetworkProfile { np_PodCidr : option string; np_ServiceCidr : option string }.
Record ServicePrincipalProfile := mkServicePrincipalProfile { spp_ClientID : option string; spp_ClientSecret : option string }.
Record WorkerProfile := mkWorkerProfile {
  wp_Name : option string; wp_VMSize : string; wp_DiskSizeGB : option Z; wp_SubnetID : option string; wp_Count : option Z }.
Record Properties := mkProperties {
  p_ProvisioningState : string;
  p_ClusterProfile : option ClusterProfile;
  p_ConsoleProfile : option ConsoleProfile;
  p_ServicePrincipalProfile : option ServicePrincipalProfile;
  p_NetworkProfile : option NetworkProfile;
  p_MasterProfile : option MasterProfile;
  p_WorkerProfiles : option (list WorkerProfile);
  p_ApiserverProfile : option APIServerProfile;
  p_IngressProfiles : option (list IngressProfile);
}.
(** The tags in the order of their keys *)
Record OpenShiftCluster := mkOpenShiftCluster {
  oc_Tags : option (list (string * option string));
  oc_Location : option string;
  oc_Properties : option Properties;
  oc_ID : option string;
  oc_Name : option string;
  oc_Type : option string;
}.
Record OpenShiftClusterCredentials := mkCredentials { KubeadminUsername : option string; KubeadminPassword : option string }.
Record OpenShiftClusterList := mkList { l_Value : option (list OpenShiftCluster) }.

Definition json_ClusterProfile (p : ClusterProfile) : json :=
  o_object [o_ptr "domain" (cp_Domain p); o_ptr "version" (cp_Version p); o_ptr "resourceGroupId" (cp_ResourceGroupID p)].
Definition json_ConsoleProfile (p : ConsoleProfile) : json := o_object [o_ptr "url" (cons_URL p)].
Definition json_ServicePrincipalProfile (p : ServicePrincipalProfile) : json :=
  o_object [o_ptr "clientId" (spp_ClientID p); o_ptr "clientSecret" (spp_ClientSecret p)].
Definition json_NetworkProfile (p : NetworkProfile) : json :=
  o_object [o_ptr "podCidr" (np_PodCidr p); o_ptr "serviceCidr" (np_ServiceCidr p)].
Definition json_MasterProfile (p : MasterProfile) : json :=
  o_object [o_string "vmSize" (mp_VMSize p); o_ptr "subnetId" (mp_SubnetID p)].
Definition json_WorkerProfile (p : WorkerProfile) : json :=
  o_object [o_ptr "name" (wp_Name p); o_string "vmSize" (wp_VMSize p); o_int32 "diskSizeGB" (wp_DiskSizeGB p);
            o_ptr "subnetId" (wp_SubnetID p); o_int32 "count" (wp_Count p)].
Definition json_APIServerProfile (p : APIServerProfile) : json :=
  o_object [o_string "visibility" (asp_Visibility p); o_ptr "url" (asp_URL p); o_ptr "ip" (asp_IP p)].
Definition json_IngressProfile (p : IngressProfile) : json :=
  o_object [o_ptr "name" (ip_Name p); o_string "visibility" (ip_Visibility p); o_ptr "ip" (ip_IP p)].
(** A pointer to an empty slice is not empty. *)
Definition json_Properties (p : Properties) : json :=
  o_object
    [o_string "provisioningState" (p_ProvisioningState p);
     o_struct "clusterProfile" json_ClusterProfile (p_ClusterProfile p);
     o_struct "consoleProfile" json_ConsoleProfile (p_ConsoleProfile p);
     o_struct "servicePrincipalProfile" json_ServicePrincipalProfile (p_ServicePrincipalProfile p);
     o_struct "networkProfile" json_NetworkProfile (p_NetworkProfile p);
     o_struct "masterProfile" json_MasterProfile (p_MasterProfile p);
     o_struct "workerProfiles" (fun l => JArray (map json_WorkerProfile l)) (p_WorkerProfiles p);
     o_struct "apiserverProfile" json_APIServerProfile (p_ApiserverProfile p);
     o_struct "ingressProfiles" (fun l => JArray (map json_IngressProfile l)) (p_IngressProfiles p)].
Definition json_tags (tags : list (string * option string)) : json :=
  JObject (map (fun '(k, v) => (k, match v with Some s => o_text s | None => JNull end)) tags).

(** The identity is left out, which the service fills in; a map of Go is written in
    the order of its keys. *)
Definition MarshalJSON (osc : OpenShiftCluster) : json :=
  o_object [o_ptr "location" (oc_Location osc); o_struct "properties" json_Properties (oc_Properties osc);
            o_struct "tags" json_tags (oc_Tags osc)].

Section unmarshal.
Context (decode_tags : json -> res (list (string * option string))) (decode_Properties : json -> res Properties).

Definition decode_string (j : json) : res string :=
  match j with JLit (PString s) => Ok s | _ => Err (ErrOther "cannot unmarshal into Go value of type string") end.
Definition unmarshal_member (k : string) (v : json) (osc : OpenShiftCluster) : res OpenShiftCluster :=
  match v with
  | JNull => Ok osc
  | _ =>
      if decide (k = "tags") then do? x <- decode_tags v; Ok (osc <| oc_Tags := Some x |>)
      else if decide (k = "location") then do? x <- decode_string v; Ok (osc <| oc_Location := Some x |>)
      else if decide (k = "properties") then do? x <- decode_Properties v; Ok (osc <| oc_Properties := Some x |>)
      else if decide (k = "id") then do? x <- decode_string v; Ok (osc <| oc_ID := Some x |>)
      else if decide (k = "name") then do? x <- decode_string v; Ok (osc <| oc_Name := Some x |>)
      else if decide (k = "type") then do? x <- decode_string v; Ok (osc <| oc_Type := Some x |>)
      else Ok osc
  end.
(** The members in the order in which the loop over the map takes them *)
Fixpoint unmarshal_members (m : list (string * json)) (osc : OpenShiftCluster) : res OpenShiftCluster :=
  match m with
  | [] => Ok osc
  | (k, v) :: m => do? osc <- unmarshal_member k v osc; unmarshal_members m osc
  end.
Definition UnmarshalJSON (visit : list (string * json) -> list (string * json)) (body : json) (osc : OpenShiftCluster) :
    res OpenShiftCluster :=
  match body with
  | JObject m => unmarshal_members (visit m) osc
  | JNull => Ok osc
  | _ => Err (ErrOther "cannot unmarshal into Go value of type map[string]*json.RawMessage")
  end.
End unmarshal.
End Cl.

(** ** client.go, openshiftclusters.go, operations.go *)
Definition DefaultBaseURI : string := "https://management.azure.com".
Definition APIVersion : string := "2019-12-31-preview".
Record BaseClient := mkBaseClient { bc_BaseURI : string; bc_SubscriptionID : string }.
Definition NewClient (subscriptionID : string) : BaseClient := mkBaseClient DefaultBaseURI subscriptionID.

(** A request as it was prepared; the path is escaped. *)
Record prepared := mkPrepared {
  pp_Method : string;
  pp_BaseURI : string;
  pp_Path : string;
  pp_Query : list (string * list string);
  pp_ContentType : option string;
  pp_Body : option json;
}.

(** The replacements of the parameters, one after the other in any order: a value that
    has been escaped has no brace. *)
Definition WithPathParameters (path : string) (parameters : list (string * string)) : string :=
  foldl (fun path '(key, value) => Replace path ("{" +:+ key +:+ "}") value) path parameters.

Definition cluster_template : string :=
  "/subscriptions/{subscriptionId}/resourceGroups/{resourceGroupName}/providers/Microsoft.RedHatOpenShift/openShiftClusters/{resourceName}".
Definition api_version_query : list (string * list string) := [("api-version", [APIVersion])].
Definition json_content : string := "application/json; charset=utf-8".

Section preparers.
Context (client : BaseClient).
Let subscription := ("subscriptionId", pathEscape (bc_SubscriptionID client)).
Let group (resourceGroupName : string) := ("resourceGroupName", pathEscape resourceGroupName).
Let name (resourceName : string) := ("resourceName", pathEscape resourceName).

Definition CreateOrUpdatePreparer (resourceGroupName resourceName : string) (parameters : Cl.OpenShiftCluster) : prepared :=
  mkPrepared "PUT" (bc_BaseURI client)
    (WithPathParameters cluster_template [group resourceGroupName; name resourceName; subscription])
    api_version_query (Some json_content) (Some (Cl.MarshalJSON parameters)).
Definition UpdatePreparer (resourceGroupName resourceName : string) (parameters : Cl.OpenShiftCluster) : prepared :=
  mkPrepared "PATCH" (bc_BaseURI client)
    (WithPathParameters cluster_template [group resourceGroupName; name resourceName; subscription])
    api_version_query (Some json_content) (Some (Cl.MarshalJSON parameters)).
Definition DeletePreparer (resourceGroupName resourceName : string) : prepared :=
  mkPrepared "DELETE" (bc_BaseURI client)
    (WithPathParameters cluster_template [group resourceGroupName; name resourceName; subscription])
    api_version_query None None.
Definition GetPreparer (resourceGroupName resourceName : string) : prepared :=
  mkPrepared "GET" (bc_BaseURI client)
    (WithPathParameters cluster_template [group resourceGroupName; name resourceName; subscription])
    api_version_query None None.
Definition ListPreparer : prepared :=
  mkPrepared "GET" (bc_BaseURI client)
    (WithPathParameters "/subscriptions/{subscriptionId}/providers/Microsoft.RedHatOpenShift/openShiftClusters" [subscription])
    api_version_query None None.
Definition ListByResourceGroupPreparer (resourceGroupName : string) : prepared :=
  mkPrepared "GET" (bc_BaseURI client)
    (WithPathParameters
       "/subscriptions/{subscriptionId}/resourceGroups/{resourceGroupName}/providers/Microsoft.RedHatOpenShift/openShiftClusters"
       [group resourceGroupName; subscription])
    api_version_query None None.
Definition ListCredentialsPreparer (resourceGroupName resourceName : string) : prepared :=
  mkPrepared "POST" (bc_BaseURI client)
    (WithPathParameters (cluster_template +:+ "/listCredentials") [group resourceGroupName; name resourceName; subscription])
    api_version_query None None.
Definition OperationsListPreparer : prepared :=
  mkPrepared "GET" (bc_BaseURI client) "/providers/Microsoft.RedHatOpenShift/operations" api_version_query None None.

(** *** What is refused before a request is prepared: the first constraint that fails

    The pattern of a group is ^[-\w\._\(\)]+$. *)
Definition group_char (c : ascii) : bool :=
  let n := nat_of_ascii c in
  ((48 <=? n) && (n <=? 57)) || ((65 <=? n) && (n <=? 90)) || ((97 <=? n) && (n <=? 122)) ||
  bool_decide (c ∈ ["-"; "_"; "."; "("; ")"]%char).
Definition matches_group (s : string) : bool :=
  negb (bool_decide (s = EmptyString)) && forallb group_char (String.list_ascii_of_string s).
Definition invalid (target constraint : string) : error := ErrOther ("validation failed: " +:+ target +:+ " " +:+ constraint).
Definition validate_subscription : res unit :=
  if String.length (bc_SubscriptionID client) <? 1 then Err (invalid "client.SubscriptionID" "MinLength") else Ok tt.
Definition validate (resourceGroupName : string) : res unit :=
  do? _ <- validate_subscription;
  if 90 <? String.length resourceGroupName then Err (invalid "resourceGroupName" "MaxLength")
  else if String.length resourceGroupName <? 1 then Err (invalid "resourceGroupName" "MinLength")
  else if matches_group resourceGroupName then Ok tt
  else Err (invalid "resourceGroupName" "Pattern").
End preparers.

(** *** Sending and reading answers *)
Record response := mkResponse { rp_StatusCode : Z; rp_Body : json }.
Class Sender (W Future : Type) := {
  SendWithSender : prepared -> M W response;
  NewFutureFromResponse : response -> M W Future;
  DoneWithContext : Future -> M W (bool * response);   (* and the last response of the poll *)
  GetResult : Future -> M W response;
}.

(** What a client makes of a status that is none of the codes *)
Definition WithErrorUnlessStatusCode {A} (service_code : json -> string) (codes : list Z) (resp : response) (k : res A) : res A :=
  if bool_decide (rp_StatusCode resp ∈ codes) then k else Err (ErrDetailed (rp_StatusCode resp) (service_code (rp_Body resp))).

Section client.
Context {W Future : Type} `{!Sender W Future}.
Context (service_code : json -> string) (decode_cluster : json -> res Cl.OpenShiftCluster)
  (decode_list : json -> res Cl.OpenShiftClusterList) (decode_credentials : json -> res Cl.OpenShiftClusterCredentials)
  (decode_operations : json -> res json) (client : BaseClient).

Definition CreateOrUpdateResponder (resp : response) : res Cl.OpenShiftCluster :=
  WithErrorUnlessStatusCode service_code [200; 201]%Z resp (decode_cluster (rp_Body resp)).
Definition UpdateResponder (resp : response) : res Cl.OpenShiftCluster :=
  WithErrorUnlessStatusCode service_code [200; 201]%Z resp (decode_cluster (rp_Body resp)).
Definition DeleteResponder (resp : response) : res unit :=
  WithErrorUnlessStatusCode service_code [200; 202; 204]%Z resp (Ok tt).
Definition GetResponder (resp : response) : res Cl.OpenShiftCluster :=
  WithErrorUnlessStatusCode service_code [200]%Z resp (decode_cluster (rp_Body resp)).
Definition ListResponder (resp : response) : res Cl.OpenShiftClusterList :=
  WithErrorUnlessStatusCode service_code [200]%Z resp (decode_list (rp_Body resp)).
Definition ListByResourceGroupResponder (resp : response) : res Cl.OpenShiftClusterList :=
  WithErrorUnlessStatusCode service_code [200]%Z resp (decode_list (rp_Body resp)).
Definition ListCredentialsResponder (resp : response) : res Cl.OpenShiftClusterCredentials :=
  WithErrorUnlessStatusCode service_code [200]%Z resp (decode_credentials (rp_Body resp)).
Definition OperationsListResponder (resp : response) : res json :=
  WithErrorUnlessStatusCode service_code [200]%Z resp (decode_operations (rp_Body resp)).

(** A call that is answered at once, and one that starts an operation *)
Definition answered {A} (check : res unit) (req : prepared) (respond : response -> res A) : M W A :=
  do! _ <- lift check;
  do! resp <- SendWithSender req;
  lift (respond resp).
Definition begun (check : res unit) (req : prepared) : M W Future :=
  do! _ <- lift check;
  do! resp <- SendWithSender req;
  NewFutureFromResponse resp.

Definition CreateOrUpdate (resourceGroupName resourceName : string) (parameters : Cl.OpenShiftCluster) : M W Future :=
  begun (validate client resourceGroupName) (CreateOrUpdatePreparer client resourceGroupName resourceName parameters).
Definition Update (resourceGroupName resourceName : string) (parameters : Cl.OpenShiftCluster) : M W Future :=
  begun (validate client resourceGroupName) (UpdatePreparer client resourceGroupName resourceName parameters).
Definition Delete (resourceGroupName resourceName : string) : M W Future :=
  begun (validate client resourceGroupName) (DeletePreparer client resourceGroupName resourceName).
Definition Get (resourceGroupName resourceName : string) : M W Cl.OpenShiftCluster :=
  answered (validate client resourceGroupName) (GetPreparer client resourceGroupName resourceName) GetResponder.
Definition List : M W Cl.OpenShiftClusterList :=
  answered (validate_subscription client) (ListPreparer client) ListResponder.
Definition ListByResourceGroup (resourceGroupName : string) : M W Cl.OpenShiftClusterList :=
  answered (validate client resourceGroupName) (ListByResourceGroupPreparer client resourceGroupName) ListByResourceGroupResponder.
Definition ListCredentials (resourceGroupName resourceName : string) : M W Cl.OpenShiftClusterCredentials :=
  answered (validate client resourceGroupName) (ListCredentialsPreparer client resourceGroupName resourceName) ListCredentialsResponder.
Definition OperationsList : M W json :=
  answered (Ok tt) (OperationsListPreparer client) OperationsListResponder.

(** The results of the operations that were begun; a result without content is read as
    an empty cluster. *)
Definition incomplete : error := ErrOther "asynchronous operation has not completed".
Definition empty_cluster : Cl.OpenShiftCluster := Cl.mkOpenShiftCluster None None None None None None.
Definition cluster_result (respond : response -> res Cl.OpenShiftCluster) (future : Future) : M W Cl.OpenShiftCluster :=
  do! '(done, _) <- DoneWithContext future;
  if (done : bool) then
    do! resp <- GetResult future;
    if decide (rp_StatusCode resp = 204%Z) then ret empty_cluster else lift (respond resp)
  else throw incomplete.
Definition CreateOrUpdateFuture_Result (future : Future) : M W Cl.OpenShiftCluster := cluster_result CreateOrUpdateResponder future.
Definition UpdateFuture_Result (future : Future) : M W Cl.OpenShiftCluster := cluster_result UpdateResponder future.
Definition DeleteFuture_Result (future : Future) : M W response :=
  do! '(done, last) <- DoneWithContext future;
  if (done : bool) then ret last else throw incomplete.
End client.

Example prepared_path :
  pp_Path (GetPreparer (NewClient "subscription") "my (group)" "cluster") =
  "/subscriptions/subscription/resourceGroups/my%20%28group%29/providers/Microsoft.RedHatOpenShift/openShiftClusters/cluster".
Proof. by vm_compute. Qed.
Example prepared_path_read :
  unescape_path (pp_Path (GetPreparer (NewClient "subscription") "my (group)" "cluster")) =
  Some "/subscriptions/subscription/resourceGroups/my (group)/providers/Microsoft.RedHatOpenShift/openShiftClusters/cluster".
Proof. by vm_compute. Qed.

(** ** The requests as the server reads them *)
(** ** Escapes *)
Definition escape (c : ascii) : string :=
  if is_unreserved c then String c EmptyString
  else if decide (c = " "%char) then "%20"
  else String "%" (String (upperhex (nat_of_ascii c / 16)) (String (upperhex (nat_of_ascii c mod 16)) EmptyString)).

Ltac each_char c := destruct c as [[] [] [] [] [] [] [] []]; vm_compute.

(** A character other than the first of what is replaced stays. *)
Lemma replace_other o old new c s : c <> o ->
  replace_from (String o old) new 0 (String c s) = String c (replace_from (String o old) new 0 s).
Proof. intros Hc. cbn. by destruct (Ascii.ascii_dec o c). Qed.

Lemma escape_chars c : Forall (fun d => d <> "+"%char /\ d <> "{"%char) (String.list_ascii_of_string (escape c)).
Proof. apply (bool_decide_unpack _). by each_char c. Qed.

Lemma replace_others o old new a s : Forall (fun d => d <> o) (String.list_ascii_of_string a) ->
  replace_from (String o old) new 0 (a +:+ s) = a +:+ replace_from (String o old) new 0 s.
Proof.
  induction a as [|c a IH]; [done|]. intros [Hc Ha]%Forall_cons.
  change (String c a +:+ s) with (String c (a +:+ s)). rewrite replace_other by done. by rewrite IH.
Qed.

Lemma pathEscape_cons c s : pathEscape (String c s) = escape c +:+ pathEscape s.
Proof.
  unfold pathEscape, Replace. pose proof (escape_chars c) as Hc. unfold escape in *. cbn [QueryEscape].
  destruct (is_unreserved c); [|destruct (decide (c = " "%char)) as [->|]].
  - rewrite replace_other; [done|]. by apply Forall_cons in Hc as [[? _] _].
  - by destruct (QueryEscape s).
  - match goal with |- replace_from _ _ 0 (String ?a (String ?b (String ?d ?t))) = _ =>
      apply (replace_others "+" EmptyString "%20" (String a (String b (String d EmptyString))) t) end.
    eapply Forall_impl; [exact Hc|]. by intros d [? _].
Qed.

Lemma hex_read c :
  unhex (upperhex (nat_of_ascii c / 16)) = Some (nat_of_ascii c / 16) /\
  unhex (upperhex (nat_of_ascii c mod 16)) = Some (nat_of_ascii c mod 16) /\
  ascii_of_nat (16 * (nat_of_ascii c / 16) + nat_of_ascii c mod 16) = c.
Proof. each_char c; done. Qed.

Lemma unreserved_plain c : is_unreserved c = true -> c <> "%"%char.
Proof. by intros H ->. Qed.

Lemma escape_read c t : unescape_path (escape c +:+ t) = String c <$> unescape_path t.
Proof.
  unfold escape. destruct (is_unreserved c) eqn:E; [|destruct (decide (c = " "%char)) as [->|]].
  - change (unescape_path (String c t) = String c <$> unescape_path t). cbn [unescape_path]. rewrite decide_False by (by apply unreserved_plain). by destruct (unescape_path t).
  - change (unescape_path (String "%" (String "2" (String "0" t))) = String " " <$> unescape_path t).
    cbn [unescape_path]. rewrite decide_True by done. cbn. reflexivity.
  - destruct (hex_read c) as (H1 & H2 & H3).
    match goal with |- unescape_path (String ?x (String ?a (String ?b EmptyString)) +:+ t) = _ =>
      change (unescape_path (String x (String a (String b t))) = String c <$> unescape_path t) end.
    cbn [unescape_path]. rewrite decide_True by done. rewrite H1. cbn [mbind option_bind]. rewrite H2. cbn [mbind option_bind]. rewrite H3.
    by destruct (unescape_path t).
Qed.

Lemma pathEscape_read s t : unescape_path (pathEscape s +:+ t) = (fun r => s +:+ r) <$> unescape_path t.
Proof.
  induction s as [|c s IH].
  { change (unescape_path t = (fun r => r) <$> unescape_path t). by destruct (unescape_path t). }
  rewrite pathEscape_cons, string_app_assoc, escape_read, IH. by destruct (unescape_path t).
Qed.

Lemma plain_read a t : ContainsRune a "%" = false -> unescape_path (a +:+ t) = (fun r => a +:+ r) <$> unescape_path t.
Proof.
  induction a as [|c a IH].
  { intros _. change (unescape_path t = (fun r => r) <$> unescape_path t). by destruct (unescape_path t). }
  cbn [ContainsRune]. intros [Hc Ha]%orb_false_iff. apply bool_decide_eq_false in Hc.
  change (unescape_path (String c (a +:+ t)) = (fun r => String c (a +:+ r)) <$> unescape_path t). cbn [unescape_path].
  rewrite decide_False by congruence. rewrite IH by done. by destruct (unescape_path t).
Qed.

Lemma pathEscape_chars s : Forall (fun d => d <> "{"%char) (String.list_ascii_of_string (pathEscape s)).
Proof.
  induction s as [|c s IH]; [constructor|]. rewrite pathEscape_cons. pose proof (escape_chars c) as Hc.
  revert Hc IH. generalize (escape c) as a, (pathEscape s) as t. intros a t. induction a as [|d a IHa]; [done|].
  intros [[_ Hd] Ha]%Forall_cons Ht. constructor; [done|by apply IHa].
Qed.

(** What has been escaped is passed over by the replacement of a parameter. *)
Lemma replace_escaped old new v s :
  replace_from (String "{" old) new 0 (pathEscape v +:+ s) = pathEscape v +:+ replace_from (String "{" old) new 0 s.
Proof. apply replace_others, pathEscape_chars. Qed.

(** A text at no place of which what is replaced can begin *)
Fixpoint differs (old u : string) : bool :=
  match old, u with
  | String a old, String b u => negb (bool_decide (a = b)) || differs old u
  | _, _ => false
  end.
Fixpoint apart (old u : string) : bool :=
  match u with EmptyString => true | String _ u' => differs old u && apart old u' end.

Lemma differs_prefix old u s : differs old u = true -> HasPrefix (u +:+ s) old = false.
Proof.
  unfold HasPrefix. revert u. induction old as [|a old IH]; intros [|b u] H; [done..|].
  change (String.prefix (String a old) (String b (u +:+ s)) = false). cbn in H |- *.
  destruct (Ascii.ascii_dec a b) as [->|]; [|done]. apply IH. by rewrite bool_decide_eq_true_2 in H.
Qed.

Lemma replace_apart old new u s : apart old u = true ->
  replace_from old new 0 (u +:+ s) = u +:+ replace_from old new 0 s.
Proof.
  induction u as [|c u IH]; [done|]. intros [Hd Ha]%andb_prop. pose proof (differs_prefix _ _ s Hd) as Hp.
  change (replace_from old new 0 (String c (u +:+ s)) = String c (u +:+ replace_from old new 0 s)).
  change (String c u +:+ s) with (String c (u +:+ s)) in Hp.
  cbn [replace_from]. rewrite Hp. by rewrite IH.
Qed.

Lemma replace_left old new k s t : k = String.length s -> replace_from old new k (s +:+ t) = replace_from old new 0 t.
Proof. intros ->. induction s as [|c s IH]; [done|]. exact IH. Qed.

Lemma prefix_app p s : String.prefix p (p +:+ s) = true.
Proof.
  induction p as [|c p IH]; [by destruct s|]. change (String.prefix (String c p) (String c (p +:+ s)) = true). cbn.
  by destruct (Ascii.ascii_dec c c).
Qed.

Lemma replace_old a old new s :
  replace_from (String a old) new 0 (String a old +:+ s) = new +:+ replace_from (String a old) new 0 s.
Proof.
  change (String a old +:+ s) with (String a (old +:+ s)). cbn [replace_from].
  pose proof (prefix_app (String a old) s) as Hp. unfold HasPrefix. change (String a (old +:+ s)) with (String a old +:+ s).
  rewrite Hp. rewrite (replace_left _ _ _ old) by (cbn; lia). done.
Qed.

(** ** The paths *)
Definition group_path (sub g : string) : string :=
  "/subscriptions/" +:+ sub +:+ "/resourceGroups/" +:+ g +:+ "/providers/Microsoft.RedHatOpenShift/openShiftClusters".
Definition cluster_path_of (sub g n suffix : string) : string :=
  "/subscriptions/" +:+ sub +:+ "/resourceGroups/" +:+ g +:+ "/providers/Microsoft.RedHatOpenShift/openShiftClusters/" +:+ n +:+ suffix.
Definition subscription_path (sub : string) : string :=
  "/subscriptions/" +:+ sub +:+ "/providers/Microsoft.RedHatOpenShift/openShiftClusters".

(** One replacement after the other in a text that is given in pieces *)
Ltac replacing :=
  repeat first
    [ rewrite replace_escaped
    | match goal with |- context [replace_from (String "{" ?o) ?w 0 (?u +:+ ?s)] =>
        first [ unify u (String "{" o); rewrite (replace_old "{" o w s) | rewrite (replace_apart (String "{" o) w u s) by reflexivity ] end ].
Ltac keys :=
  unfold WithPathParameters, Replace; cbn [foldl];
  change ("{" +:+ "resourceGroupName" +:+ "}") with "{resourceGroupName}";
  change ("{" +:+ "resourceName" +:+ "}") with "{resourceName}";
  change ("{" +:+ "subscriptionId" +:+ "}") with "{subscriptionId}".

Lemma cluster_path_prepared g n sub suffix :
  apart "{resourceGroupName}" suffix = true -> apart "{resourceName}" suffix = true -> apart "{subscriptionId}" suffix = true ->
  WithPathParameters (cluster_template +:+ suffix)
    [("resourceGroupName", pathEscape g); ("resourceName", pathEscape n); ("subscriptionId", pathEscape sub)] =
  cluster_path_of (pathEscape sub) (pathEscape g) (pathEscape n) suffix.
Proof.
  intros H1 H2 H3. keys. rewrite <- (string_app_nil_r suffix) at 1.
  change (cluster_template +:+ suffix +:+ EmptyString) with ("/subscriptions/" +:+ "{subscriptionId}" +:+ "/resourceGroups/" +:+ "{resourceGroupName}" +:+
    "/providers/Microsoft.RedHatOpenShift/openShiftClusters/" +:+ "{resourceName}" +:+ suffix +:+ EmptyString).
  replacing. rewrite !replace_apart by done. cbn [replace_from]. unfold cluster_path_of. by rewrite string_app_nil_r.
Qed.

Lemma group_path_prepared g sub :
  WithPathParameters "/subscriptions/{subscriptionId}/resourceGroups/{resourceGroupName}/providers/Microsoft.RedHatOpenShift/openShiftClusters"
    [("resourceGroupName", pathEscape g); ("subscriptionId", pathEscape sub)] = group_path (pathEscape sub) (pathEscape g).
Proof.
  keys. match goal with |- context [replace_from _ _ 0 ?t] => change t with ("/subscriptions/" +:+ "{subscriptionId}" +:+ "/resourceGroups/" +:+
    "{resourceGroupName}" +:+ "/providers/Microsoft.RedHatOpenShift/openShiftClusters" +:+ EmptyString) end.
  replacing. reflexivity.
Qed.

Lemma subscription_path_prepared sub :
  WithPathParameters "/subscriptions/{subscriptionId}/providers/Microsoft.RedHatOpenShift/openShiftClusters"
    [("subscriptionId", pathEscape sub)] = subscription_path (pathEscape sub).
Proof.
  keys. match goal with |- context [replace_from _ _ 0 ?t] => change t with ("/subscriptions/" +:+ "{subscriptionId}" +:+
    "/providers/Microsoft.RedHatOpenShift/openShiftClusters" +:+ EmptyString) end.
  replacing. reflexivity.
Qed.

(** ** The paths as they are read *)
Lemma cluster_path_read sub g n suffix : ContainsRune suffix "%" = false ->
  unescape_path (cluster_path_of (pathEscape sub) (pathEscape g) (pathEscape n) suffix) = Some (cluster_path_of sub g n suffix).
Proof.
  intros Hs. unfold cluster_path_of. rewrite <- (string_app_nil_r suffix).
  repeat first [rewrite pathEscape_read | rewrite (plain_read suffix) by done | rewrite plain_read by reflexivity]. done.
Qed.

Lemma group_path_read sub g : unescape_path (group_path (pathEscape sub) (pathEscape g)) = Some (group_path sub g).
Proof.
  unfold group_path. rewrite <- (string_app_nil_r "/providers/Microsoft.RedHatOpenShift/openShiftClusters").
  repeat first [rewrite pathEscape_read | rewrite plain_read by reflexivity]. done.
Qed.

Lemma subscription_path_read sub : unescape_path (subscription_path (pathEscape sub)) = Some (subscription_path sub).
Proof.
  unfold subscription_path. rewrite <- (string_app_nil_r "/providers/Microsoft.RedHatOpenShift/openShiftClusters").
  repeat first [rewrite pathEscape_read | rewrite plain_read by reflexivity]. done.
Qed.
