(* ===== verification/Util.v ===== *)
(** * Certificates and log lines (src/pkg/util/tls, src/pkg/util/log)

    What a certificate says that the program makes, over the cryptography of the
    standard library, and how the place of a line in the log is written. Times are in
    seconds. *)
From S2P Require Import Prelude GoStrings Regex.
From S2P Require Import Cosmos.
From S2P Require Client.
From Stdlib Require Import Ascii.

(** ** Calendar: [time.Time.AddDate] in UTC *)
Definition day : Z := 86400.
Definition days_from_civil (y m d : Z) : Z :=
  let y := (if m <=? 2 then y - 1 else y)%Z in
  let era := (y / 400)%Z in
  let yoe := (y - era * 400)%Z in
  let doy := ((153 * (if 2 <? m then m - 3 else m + 9) + 2) / 5 + d - 1)%Z in
  (era * 146097 + (yoe * 365 + yoe / 4 - yoe / 100 + doy) - 719468)%Z.
Definition civil_from_days (z : Z) : Z * Z * Z :=
  let z := (z + 719468)%Z in
  let era := (z / 146097)%Z in
  let doe := (z - era * 146097)%Z in
  let yoe := ((doe - doe / 1460 + doe / 36524 - doe / 146096) / 365)%Z in
  let doy := (doe - (365 * yoe + yoe / 4 - yoe / 100))%Z in
  let mp := ((5 * doy + 2) / 153)%Z in
  let m := (if mp <? 10 then mp + 3 else mp - 9)%Z in
  ((yoe + era * 400 + (if m <=? 2 then 1 else 0))%Z, m, (doy - (153 * mp + 2) / 5 + 1)%Z).
(** The day that is not in the month is in the next one. *)
Definition AddYears (t n : Z) : Z :=
  let '(y, m, d) := civil_from_days (t / day) in (days_from_civil (y + n) m d * day + t mod day)%Z.

(** ** tls.go *)
Module Tls.
Inductive ExtKeyUsage := ExtKeyUsageClientAuth | ExtKeyUsageServerAuth.
Record template := mkTemplate {
  t_SerialNumber : Z;
  t_NotBefore : Z;
  t_NotAfter : Z;
  t_CommonName : string;
  t_BasicConstraintsValid : bool;
  t_KeyUsage : list string;
  t_ExtKeyUsage : list ExtKeyUsage;
  t_IsCA : bool;
}.

(** [x509.CreateCertificate] of a template under a parent, with its key, for another *)
Class Crypto (W PrivateKey Certificate : Type) := {
  rsa_GenerateKey : Z -> M W PrivateKey;
  rand_Int : Z -> M W Z;
  cert_template : Certificate -> template;
  x509_CreateCertificate : template -> option template -> PrivateKey -> option PrivateKey -> M W string;
  x509_ParseCertificate : string -> res Certificate;
}.

Section tls.
Context {W PrivateKey Certificate : Type} `{!Runtime W, !Crypto W PrivateKey Certificate}.

(** A year, or as long as the parent is valid *)
Definition not_after (now : Z) (parent : option template) : Z :=
  let notAfter := AddYears now 1 in
  match parent with
  | Some p => if (t_NotAfter p <? notAfter)%Z then t_NotAfter p else notAfter
  | None => notAfter
  end.
Definition make_template (serial now : Z) (commonName : string) (parent : option template) (isCA isClient : bool) : template :=
  mkTemplate serial now (not_after now parent) commonName true ["DigitalSignature"; "KeyEncipherment"]
    (if isCA then [] else [if isClient then ExtKeyUsageClientAuth else ExtKeyUsageServerAuth]) isCA.

Definition GenerateKeyAndCertificate (commonName : string) (parentKey : option PrivateKey) (parentCert : option Certificate)
    (isCA isClient : bool) : M W (PrivateKey * list Certificate) :=
  if isCA && isClient then throw (ErrOther "cannot generate CA client certificate")
  else
    do! key <- rsa_GenerateKey 2048;
    do! serialNumber <- rand_Int (2 ^ 128);
    do! now <- time_Now;
    let t := make_template serialNumber now commonName (cert_template <$> parentCert) isCA isClient in
    let '(parent, signer) :=
      match parentCert, parentKey with
      | None, None => (Some t, Some key)
      | _, _ => (cert_template <$> parentCert, parentKey)
      end in
    do! b <- x509_CreateCertificate t parent key signer;
    do! cert <- lift (x509_ParseCertificate b);
    ret (key, [cert]).

(** What is signed names one purpose unless it is an authority, and does not outlive
    its parent. *)
Lemma make_template_ok serial now name parent isCA isClient :
  let t := make_template serial now name parent isCA isClient in
  t_NotBefore t = now /\ (t_NotAfter t <= AddYears now 1)%Z /\
  (forall p, parent = Some p -> (t_NotAfter t <= t_NotAfter p)%Z) /\
  (t_IsCA t = true <-> t_ExtKeyUsage t = []).
Proof.
  cbn [make_template t_NotBefore t_NotAfter t_IsCA t_ExtKeyUsage]. unfold not_after. generalize (AddYears now 1) as year. intros year.
  split_and!; [done| | |by destruct isCA].
  - destruct parent as [p|]; [|lia]. destruct (Z.ltb_spec (t_NotAfter p) year); lia.
  - intros p ->. destruct (Z.ltb_spec (t_NotAfter p) year); lia.
Qed.
End tls.
End Tls.

(** ** log.go *)
Module Log.
Record Frame := mkFrame { f_Function : string; f_File : string; f_Line : Z }.
Definition repopath (thisfile : string) : string :=
  Client.Replace thisfile "pkg/util/log/log.go" EmptyString.
Definition RelativeFilePathPrettier (repopath : string) (f : Frame) : string * string :=
  let file := if HasPrefix (f_File f) repopath
              then String.substring (String.length repopath) (String.length (f_File f) - String.length repopath) (f_File f)
              else f_File f in
  let from := Z.to_nat (LastIndexByte (f_Function f) slash + 1) in
  let function := String.substring from (String.length (f_Function f) - from) (f_Function f) in
  (function +:+ "()", " " +:+ file +:+ ":" +:+ Itoa (f_Line f)).

(** A file of the repository is written as it is named there. *)
Lemma prettier_relative repo file function line :
  snd (RelativeFilePathPrettier repo (mkFrame function (repo +:+ file) line)) = " " +:+ file +:+ ":" +:+ Itoa line.
Proof.
  unfold RelativeFilePathPrettier. cbn [f_File f_Line snd]. rewrite HasPrefix_app, string_length_app.
  replace (String.length repo + String.length file - String.length repo) with (String.length file) by lia.
  by rewrite substring_app_r.
Qed.

(** The program's tests (log_test.go) *)
Example prettier_install :
  RelativeFilePathPrettier "/go/src/github.com/Azure/ARO-RP/"
    (mkFrame "github.com/Azure/ARO-RP/pkg/install/install.installResources"
       "/go/src/github.com/Azure/ARO-RP/pkg/install/1-installresources.go" 623) =
  ("install.installResources()", " pkg/install/1-installresources.go:623").
Proof. by vm_compute. Qed.
Example prettier_empty : RelativeFilePathPrettier "/go/" (mkFrame EmptyString EmptyString 0) = ("()", " :0").
Proof. by vm_compute. Qed.
End Log.

(** The last day of February in a leap year, a year later *)
Example leap_day : civil_from_days (AddYears (days_from_civil 2020 2 29 * day + 5) 1 / day) = (2021, 3, 1)%Z.
Proof. by vm_compute. Qed.
Example epoch : days_from_civil 1970 1 1 = 0%Z.
Proof. by vm_compute. Qed.
