(* ===== verification/Swagger.v ===== *)
(** * The API specification (src/pkg/swagger)

    The program that writes the specification of the API: the paths and their
    operations, the definitions that it makes of the Go types of a package and of all
    they mention, and the examples. A Go map is the list of its members in the order of
    their keys; [order], and [visit] for the paths, is the order in which a loop over a
    map runs, where it can be told. *)
From S2P Require Import Prelude GoStrings.
From S2P Require Import Api External Arm Marshal OrderedMap SwaggerTypes.
From Stdlib Require Import Ascii.

(** ** Maps *)
Fixpoint set_key {A} (k : string) (v : A) (m : list (string * A)) : list (string * A) :=
  match m with
  | [] => [(k, v)]
  | (k', v') :: m' =>
      match String.compare k k' with
      | Eq => (k, v) :: m'
      | Lt => (k, v) :: m
      | Gt => (k', v') :: set_key k v m'
      end
  end.
Fixpoint get_key {A} (k : string) (m : list (string * A)) : option A :=
  match m with
  | [] => None
  | (k', v) :: m => if decide (k = k') then Some v else get_key k m
  end.
Fixpoint delete_key {A} (k : string) (m : list (string * A)) : list (string * A) :=
  match m with
  | [] => []
  | (k', v) :: m => if decide (k = k') then m else (k', v) :: delete_key k m
  end.

(** ** [strings.Title], [strings.Trim] of new lines, [http.StatusText] *)
Definition is_upper (c : ascii) : bool := (65 <=? nat_of_ascii c) && (nat_of_ascii c <=? 90).
Definition is_lower (c : ascii) : bool := (97 <=? nat_of_ascii c) && (nat_of_ascii c <=? 122).
Definition is_digit (c : ascii) : bool := (48 <=? nat_of_ascii c) && (nat_of_ascii c <=? 57).
Definition is_separator (c : ascii) : bool :=
  negb (is_upper c || is_lower c || is_digit c || bool_decide (c = "_"%char)).
Definition to_title (c : ascii) : ascii := if is_lower c then ascii_of_nat (nat_of_ascii c - 32) else c.
Fixpoint Title_after (prev : ascii) (s : string) : string :=
  match s with
  | EmptyString => EmptyString
  | String c s => String (if is_separator prev then to_title c else c) (Title_after c s)
  end.
Definition Title (s : string) : string := Title_after " " s.

Definition LF : ascii := "010"%char.
Fixpoint TrimLeft (s : string) : string :=
  match s with
  | String c s' => if decide (c = LF) then TrimLeft s' else s
  | EmptyString => EmptyString
  end.
Fixpoint TrimRight (s : string) : string :=
  match s with
  | String c s =>
      let s := TrimRight s in
      if decide (c = LF /\ s = EmptyString) then EmptyString else String c s
  | EmptyString => EmptyString
  end.
Definition Trim (s : string) : string := TrimRight (TrimLeft s).

Definition status_texts : list (Z * string) :=
  [(100, "Continue"); (101, "Switching Protocols"); (102, "Processing"); (103, "Early Hints"); (200, "OK"); 
   (201, "Created"); (202, "Accepted"); (203, "Non-Authoritative Information"); (204, "No Content"); 
   (205, "Reset Content"); (206, "Partial Content"); (207, "Multi-Status"); (208, "Already Reported"); 
   (226, "IM Used"); (300, "Multiple Choices"); (301, "Moved Permanently"); (302, "Found"); (303, "See Other"); 
   (304, "Not Modified"); (305, "Use Proxy"); (307, "Temporary Redirect"); (308, "Permanent Redirect"); 
   (400, "Bad Request"); (401, "Unauthorized"); (402, "Payment Required"); (403, "Forbidden"); 
   (404, "Not Found"); (405, "Method Not Allowed"); (406, "Not Acceptable"); 
   (407, "Proxy Authentication Required"); (408, "Request Timeout"); (409, "Conflict"); (410, "Gone"); 
   (411, "Length Required"); (412, "Precondition Failed"); (413, "Request Entity Too Large"); 
   (414, "Request URI Too Long"); (415, "Unsupported Media Type"); (416, "Requested Range Not Satisfiable"); 
   (417, "Expectation Failed"); (418, "I'm a teapot"); (421, "Misdirected Request"); 
   (422, "Unprocessable Entity"); (423, "Locked"); (424, "Failed Dependency"); (425, "Too Early"); 
   (426, "Upgrade Required"); (428, "Precondition Required"); (429, "Too Many Requests"); 
   (431, "Request Header Fields Too Large"); (451, "Unavailable For Legal Reasons"); 
   (500, "Internal Server Error"); (501, "Not Implemented"); (502, "Bad Gateway"); (503, "Service Unavailable"); 
   (504, "Gateway Timeout"); (505, "HTTP Version Not Supported"); (506, "Variant Also Negotiates"); 
   (507, "Insufficient Storage"); (508, "Loop Detected"); (510, "Not Extended"); 
   (511, "Network Authentication Required")]%Z.
Definition StatusText (code : Z) : string :=
  match list_find (fun p => fst p = code) status_texts with Some (_, (_, s)) => s | None => EmptyString end.

(** ** paths.go *)
Definition common_types : string := "../../../../../common-types/resource-management/v1/types.json#/".
Definition ref (name : string) : Schema := zero_Schema <| sc_Ref := "#/definitions/" +:+ name |>.
Definition when {A} (b : bool) (l : list A) : list A := if b then l else [].

Definition populateParameters (n : Z) (typ friendlyName : string) : list any :=
  [AReference (mkReference (common_types +:+ "parameters/ApiVersionParameter"))] ++
  when (bool_decide (n > 0)%Z) [AReference (mkReference (common_types +:+ "parameters/SubscriptionIdParameter"))] ++
  when (bool_decide (n > 1)%Z) [AReference (mkReference (common_types +:+ "parameters/ResourceGroupNameParameter"))] ++
  when (bool_decide (n > 2)%Z)
    [AParameter (zero_Parameter <| pm_Name := "resourceName" |> <| pm_In := "path" |>
       <| pm_Description := "The name of the " +:+ friendlyName +:+ " resource." |>
       <| pm_Required := true |> <| pm_Type := "string" |>)] ++
  when (bool_decide (n > 3)%Z)
    [AParameter (zero_Parameter <| pm_Name := "parameters" |> <| pm_In := "body" |>
       <| pm_Description := "The " +:+ friendlyName +:+ " resource." |>
       <| pm_Required := true |> <| pm_Schema := Some (ref typ) |>)].

Definition default_response : Response :=
  zero_Response
    <| rs_Description := "Error response describing why the operation failed.  If the resource doesn't exist, 404 (Not Found) is returned.  If any of the input parameters is wrong, 400 (Bad Request) is returned." |>
    <| rs_Schema := Some (ref "CloudError") |>.
Definition response (typ : string) (isDelete : bool) (statusCode : Z) : Response :=
  let r := zero_Response <| rs_Description := StatusText statusCode |> in
  if negb isDelete && bool_decide (statusCode = 200 \/ statusCode = 201)%Z
  then r <| rs_Schema := Some (ref typ) |> else r.
Definition populateResponses (typ : string) (isDelete : bool) (statusCodes : list Z) : list (string * Response) :=
  foldl (fun responses statusCode => set_key (Itoa statusCode) (response typ isDelete statusCode) responses)
    [("default", default_response)] statusCodes.

Definition operation (tag summary rest id : string) (params : list any) (responses : list (string * Response)) : Operation :=
  zero_Operation <| op_Tags := [tag] |> <| op_Summary := summary |>
    <| op_Description := summary +:+ "  The operation returns " +:+ rest |>
    <| op_OperationID := id |> <| op_Parameters := params |> <| op_Responses := responses |>.
Definition long_running (o : Operation) : Operation := o <| op_LongRunningOperation := true |>.

Section paths.
Context (resourceProviderNamespace resourceType friendlyName : string).
Let typ := Title resourceType.
Let tag := typ +:+ "s".
Let in_subscription := "/subscriptions/{subscriptionId}/providers/" +:+ resourceProviderNamespace +:+ "/" +:+ resourceType +:+ "s".
Let in_group :=
  "/subscriptions/{subscriptionId}/resourceGroups/{resourceGroupName}/providers/" +:+ resourceProviderNamespace +:+
  "/" +:+ resourceType +:+ "s".
Let specified := " with the specified subscription, resource group and resource name.".
Let one := "properties of a " +:+ friendlyName +:+ ".".
Let each := "properties of each " +:+ friendlyName +:+ ".".

Definition item_of_resource : PathItem :=
  zero_PathItem
    <| pi_Get := Some (operation tag ("Gets a " +:+ friendlyName +:+ specified) one (tag +:+ "_Get")
         (populateParameters 3 typ friendlyName) (populateResponses typ false [200%Z])) |>
    <| pi_Put := Some (long_running (operation tag ("Creates or updates a " +:+ friendlyName +:+ specified) one
         (tag +:+ "_CreateOrUpdate") (populateParameters 4 typ friendlyName) (populateResponses typ false [200; 201]%Z))) |>
    <| pi_Delete := Some (long_running (operation tag ("Deletes a " +:+ friendlyName +:+ specified) "nothing."
         (tag +:+ "_Delete") (populateParameters 3 typ friendlyName) (populateResponses typ true [202; 204]%Z))) |>
    <| pi_Patch := Some (long_running (operation tag ("Creates or updates a " +:+ friendlyName +:+ specified) one
         (tag +:+ "_Update") (populateParameters 4 typ friendlyName) (populateResponses typ false [200; 201]%Z))) |>.

Definition populateTopLevelPaths : list (string * PathItem) :=
  set_key (in_group +:+ "/{resourceName}") item_of_resource
  (set_key in_group
    (zero_PathItem <| pi_Get := Some (operation tag
       ("Lists " +:+ friendlyName +:+ "s in the specified subscription and resource group.") each
       (tag +:+ "_ListByResourceGroup") (populateParameters 2 typ friendlyName)
       (populateResponses (typ +:+ "List") false [200%Z])) |>)
  (set_key in_subscription
    (zero_PathItem <| pi_Get := Some (operation tag
       ("Lists " +:+ friendlyName +:+ "s in the specified subscription.") each
       (tag +:+ "_List") (populateParameters 1 typ friendlyName)
       (populateResponses (typ +:+ "List") false [200%Z])) |>) [])).
End paths.

Definition with_example (op : Operation) : Operation :=
  op <| op_Examples := [(op_Summary op, mkReference ("./examples/" +:+ op_OperationID op +:+ ".json"))] |>.
Definition item_examples (pi : PathItem) : PathItem :=
  let f := option_map with_example in
  pi <| pi_Get ::= f |> <| pi_Put ::= f |> <| pi_Post ::= f |> <| pi_Delete ::= f |> <| pi_Options ::= f |>
     <| pi_Head ::= f |> <| pi_Patch ::= f |>.
Definition populateExamples (ps : list (string * PathItem)) : list (string * PathItem) :=
  map (fun '(p, pi) => (p, item_examples pi)) ps.
(** The operations of an item in the order of the loops *)
Definition operations_of (pi : PathItem) : list Operation :=
  omap (fun op => op) [pi_Get pi; pi_Put pi; pi_Post pi; pi_Delete pi; pi_Options pi; pi_Head pi; pi_Patch pi].

(** ** typewalker.go

    A type of go/types, a named one by its name in its package; a field of a struct
    with the text of its comment, and its tag for JSON if it has a tag. *)
Inductive basic := Bool | Int | String_ | Uint8 | OtherBasic.
#[export] Instance basic_eq_dec : EqDecision basic.
Proof. solve_decision. Defined.

Record tfield := mkTField { tf_Doc : string; tf_json : option string }.
Inductive gotype :=
| TBasic (k : basic)
| TMap (elem : gotype)
| TNamed (name : string)
| TPointer (elem : gotype)
| TSlice (elem : gotype)
| TStruct (fields : list (tfield * gotype))
| TOtherType.

(** A type that is declared in the package, with the comment of its declaration *)
Record decl := mkDecl { d_Name : string; d_Doc : string; d_Underlying : gotype }.
Inductive constant_val := CInt (z : Z) | CString (s : string) | COther.
Record constant := mkConstant { k_Name : string; k_Type : string; k_Val : constant_val }.
(** The constants are in the order of their names, as a scope gives them. *)
Record package := mkPackage { pk_Types : list decl; pk_Consts : list constant }.

Definition exported_name (s : string) : bool :=
  match s with String c _ => is_upper c | EmptyString => false end.
Definition constant_json (v : constant_val) : res json :=
  match v with
  | CInt z => Ok (JLit (PInt z))
  | CString s => Ok (JLit (PString s))
  | COther => Panic "constant"
  end.

Record typeWalker := mkTypeWalker { tw_pkg : package; tw_enums : list (string * json) }.

(** Constants that are not exported are left out before their kind is looked at. *)
Fixpoint enums_of (cs : list constant) : res (list (string * json)) :=
  match cs with
  | [] => Ok []
  | c :: cs =>
      if exported_name (k_Name c) then
        do? j <- constant_json (k_Val c);
        do? rest <- enums_of cs;
        Ok ((k_Type c, j) :: rest)
      else enums_of cs
  end.
Definition newTypeWalker (load : string -> res (list package)) (pkgname : string) : res typeWalker :=
  do? pkgs <- load pkgname;
  match pkgs with
  | [pkg] => do? enums <- enums_of (pk_Consts pkg); Ok (mkTypeWalker pkg enums)
  | _ => Err (ErrOther ("found " +:+ Itoa (Z.of_nat (length pkgs)) +:+ " packages, expected 1"))
  end.
Definition enum_of (tw : typeWalker) (name : string) : list json :=
  omap (fun '(t, j) => if decide (t = name) then Some j else None) (tw_enums tw).

Definition type_schema (t : string) : Schema := zero_Schema <| sc_Type := t |>.

(** The schema of a type, and the named types that it refers to *)
Fixpoint schemaFromType (t : gotype) : res (Schema * list string) :=
  match t with
  | TBasic Bool => Ok (type_schema "boolean", [])
  | TBasic Int => Ok (type_schema "integer", [])
  | TBasic String_ => Ok (type_schema "string", [])
  | TMap elem =>
      do? '(s, deps) <- schemaFromType elem;
      Ok ((type_schema "object") <| sc_AdditionalProperties := Some s |>, deps)
  | TNamed name => Ok (ref name, [name])
  | TPointer elem => schemaFromType elem
  | TSlice (TBasic k) => Ok (if decide (k = Uint8) then type_schema "string" else zero_Schema, [])
  | TSlice elem =>
      do? '(s, deps) <- schemaFromType elem;
      Ok ((type_schema "array") <| sc_Items := Some s |>, deps)
  | TStruct fields =>
      (fix go (fields : list (tfield * gotype)) : res (Schema * list string) :=
         match fields with
         | [] => Ok (zero_Schema, [])
         | (f, t) :: fields =>
             do? tag <- deref (tf_json f);
             let name := BeforeFirst ","%char tag in
             if decide (name = "-") then go fields
             else
               do? '(p, deps) <- schemaFromType t;
               do? '(s, rest) <- go fields;
               let p := p <| sc_Description := Trim (tf_Doc f) |> in
               Ok (s <| sc_Properties := (name, Some p) :: sc_Properties s |>, deps ++ rest)
         end) fields
  | _ => Panic "type"
  end.

Definition find_decl (pkg : package) (name : string) : option decl :=
  snd <$> list_find (fun d => d_Name d = name) (pk_Types pkg).

Section define.
Context (order : list string -> list string) (tw : typeWalker).

(** A type that is not declared in the package has no nodes to take a comment from. *)
Definition schema_of (name : string) : res (Schema * list string) :=
  match find_decl (tw_pkg tw) name with
  | None => Panic "index out of range"
  | Some d =>
      do? '(s, deps) <- schemaFromType (d_Underlying d);
      Ok (s <| sc_Description := Trim (d_Doc d) |> <| sc_Enum := enum_of tw name |>, deps)
  end.

(** The loop over the dependencies, with [rec] for the recursive call *)
Fixpoint define_deps (rec : list (string * Schema) -> string -> res (list (string * Schema)))
    (definitions : list (string * Schema)) (deps : list string) : res (list (string * Schema)) :=
  match deps with
  | [] => Ok definitions
  | dep :: deps =>
      match get_key dep definitions with
      | Some _ => define_deps rec definitions deps
      | None => do? definitions <- rec definitions dep; define_deps rec definitions deps
      end
  end.

(** A call inserts a type that was not there, so the depth is at most the number of
    the declared types. *)
Fixpoint _define (fuel : nat) (definitions : list (string * Schema)) (name : string) : res (list (string * Schema)) :=
  match fuel with
  | 0 => OutOfFuel
  | S fuel =>
      do? '(s, deps) <- schema_of name;
      define_deps (_define fuel) (set_key name s definitions) (order deps)
  end.

Definition tw_define (definitions : list (string * Schema)) (name : string) : res (list (string * Schema)) :=
  _define (S (length (pk_Types (tw_pkg tw)))) definitions name.

Fixpoint define_all (definitions : list (string * Schema)) (names : list string) : res (list (string * Schema)) :=
  match names with
  | [] => Ok definitions
  | name :: names => do? definitions <- tw_define definitions name; define_all definitions names
  end.
End define.

Definition define (order : list string -> list string) (load : string -> res (list package))
    (definitions : list (string * Schema)) (pkgname : string) (names : list string) : res (list (string * Schema)) :=
  do? tw <- newTypeWalker load pkgname;
  define_all order tw definitions names.

(** ** The JSON of the external types (src/pkg/api/v20191231preview/openshiftcluster.go) *)
Definition o_some (k : string) (j : json) : string * option json := (k, Some j).
Section encoders.
Import Ext.
Definition encode_WorkerProfile (p : WorkerProfile) : json :=
  o_object [o_string "name" (wp_Name p); o_string "vmSize" (wp_VMSize p); o_int "diskSizeGB" (wp_DiskSizeGB p);
            o_string "subnetId" (wp_SubnetID p); o_int "count" (wp_Count p)].
Definition encode_IngressProfile (p : IngressProfile) : json :=
  o_object [o_string "name" (ip_Name p); o_string "visibility" (ip_Visibility p); o_string "ip" (ip_IP p)].
Definition encode_Properties (p : Properties) : json :=
  o_object
    [o_string "provisioningState" (p_ProvisioningState p);
     o_some "clusterProfile" (o_object
       [o_string "domain" (cp_Domain (p_ClusterProfile p)); o_string "version" (cp_Version (p_ClusterProfile p));
        o_string "resourceGroupId" (cp_ResourceGroupID (p_ClusterProfile p))]);
     o_some "consoleProfile" (o_object [o_string "url" (cons_URL (p_ConsoleProfile p))]);
     o_some "servicePrincipalProfile" (o_object
       [o_string "clientId" (spp_ClientID (p_ServicePrincipalProfile p));
        o_string "clientSecret" (spp_ClientSecret (p_ServicePrincipalProfile p))]);
     o_some "networkProfile" (o_object
       [o_string "podCidr" (np_PodCIDR (p_NetworkProfile p)); o_string "serviceCidr" (np_ServiceCIDR (p_NetworkProfile p))]);
     o_some "masterProfile" (o_object
       [o_string "vmSize" (mp_VMSize (p_MasterProfile p)); o_string "subnetId" (mp_SubnetID (p_MasterProfile p))]);
     o_list "workerProfiles" encode_WorkerProfile (elems (p_WorkerProfiles p));
     o_some "apiserverProfile" (o_object
       [o_string "visibility" (asp_Visibility (p_APIServerProfile p)); o_string "url" (asp_URL (p_APIServerProfile p));
        o_string "ip" (asp_IP (p_APIServerProfile p))]);
     o_list "ingressProfiles" encode_IngressProfile (elems (p_IngressProfiles p))].
Definition sorted_map (m : option (gmap string string)) : list (string * string) :=
  match m with Some m => foldr (fun '(k, v) l => set_key k v l) [] (map_to_list m) | None => [] end.
Definition encode_OpenShiftCluster (oc : OpenShiftCluster) : json :=
  o_object
    [o_string "id" (oc_ID oc); o_string "name" (oc_Name oc); o_string "type" (oc_Type oc);
     o_string "location" (oc_Location oc); o_map "tags" o_text (sorted_map (oc_Tags oc));
     o_some "properties" (encode_Properties (oc_Properties oc))].
Definition encode_OpenShiftClusterList (l : OpenShiftClusterList) : json :=
  o_object [o_some "value" (JArray (map encode_OpenShiftCluster (l_OpenShiftClusters l)))].
Definition encode_Credentials (c : OpenShiftClusterCredentials) : json :=
  o_object [o_string "kubeadminUsername" (KubeadminUsername c); o_string "kubeadminPassword" (KubeadminPassword c)].

(** ** openshiftcluster_example.go, openshiftclustercredentials_example.go *)
Definition example_subnet (name : string) : string :=
  "/subscriptions/subscriptionId/resourceGroups/vnetResourceGroup/providers/Microsoft.Network/virtualNetworks/vnet/subnets/" +:+ name.
Definition exampleOpenShiftCluster : OpenShiftCluster :=
  mkOpenShiftCluster
    "/subscriptions/subscriptionId/resourceGroups/resourceGroup/providers/Microsoft.RedHatOpenShift/OpenShiftClusters/resourceName"
    "resourceName" "Microsoft.RedHatOpenShift/OpenShiftClusters" "location" (Some {["key" := "value"]})
    (mkProperties ProvisioningStateSucceeded
       (mkClusterProfile "cluster.location.aroapp.io" "4.3.0" "/subscriptions/subscriptionId/resourceGroups/clusterResourceGroup")
       (mkConsoleProfile "https://console-openshift-console.apps.cluster.location.aroapp.io/")
       (mkServicePrincipalProfile "clientId" "clientSecret")
       (mkNetworkProfile "10.128.0.0/14" "172.30.0.0/16")
       (mkMasterProfile VMSizeStandardD8sV3 (example_subnet "master"))
       (Some [mkWorkerProfile "worker" VMSizeStandardD2sV3 128 (example_subnet "worker") 3])
       (mkAPIServerProfile VisibilityPublic "https://api.cluster.location.aroapp.io:6443/" "1.2.3.4")
       (Some [mkIngressProfile "default" VisibilityPublic "1.2.3.4"])).

(** [oc.Properties.IngressProfiles[0].IP = ""] *)
Definition blank_first_ip (l : option (list IngressProfile)) : option (list IngressProfile) :=
  match l with Some (p :: ps) => Some (p <| ip_IP := EmptyString |> :: ps) | _ => l end.
Definition ExampleOpenShiftClusterParameter : OpenShiftCluster :=
  exampleOpenShiftCluster
    <| oc_ID := EmptyString |> <| oc_Name := EmptyString |> <| oc_Type := EmptyString |>
    <| oc_Properties -> p_ProvisioningState := EmptyString |>
    <| oc_Properties -> p_ClusterProfile -> cp_Version := EmptyString |>
    <| oc_Properties -> p_ConsoleProfile -> cons_URL := EmptyString |>
    <| oc_Properties -> p_APIServerProfile -> asp_URL := EmptyString |>
    <| oc_Properties -> p_APIServerProfile -> asp_IP := EmptyString |>
    <| oc_Properties -> p_IngressProfiles ::= blank_first_ip |>.
Definition ExampleOpenShiftClusterResponse : OpenShiftCluster :=
  exampleOpenShiftCluster <| oc_Properties -> p_ServicePrincipalProfile -> spp_ClientSecret := EmptyString |>.
Definition ExampleOpenShiftClusterListResponse : OpenShiftClusterList :=
  mkOpenShiftClusterList [ExampleOpenShiftClusterResponse].
Definition ExampleOpenShiftClusterCredentialsResponse : OpenShiftClusterCredentials :=
  mkOpenShiftClusterCredentials "kubeadmin" "password".
End encoders.

(** src/pkg/api/operation_example.go *)
Definition ExampleOperationListResponse : json :=
  o_object [o_some "value" (JArray [o_object
    [o_string "name" "Microsoft.RedHatOpenShift/openShiftClusters/read";
     o_some "display" (o_object
       [o_string "provider" "Azure Red Hat OpenShift"; o_string "resource" "openShiftClusters";
        o_string "operation" "Read OpenShift cluster"])]])].

(** ** swagger.go *)
Definition new_specification : Swagger :=
  zero_Swagger
    <| sw_Swagger := "2.0" |>
    <| sw_Info := Some (zero_Info <| in_Title := "Azure Red Hat OpenShift Client" |>
         <| in_Description := "Rest API for Azure Red Hat OpenShift" |> <| in_Version := "2019-12-31-preview" |>) |>
    <| sw_Host := "management.azure.com" |>
    <| sw_Schemes := ["https"] |> <| sw_Consumes := ["application/json"] |> <| sw_Produces := ["application/json"] |>
    <| sw_Paths := populateTopLevelPaths "Microsoft.RedHatOpenShift" "openShiftCluster" "OpenShift cluster" |>
    <| sw_SecurityDefinitions := [("azure_auth", zero_SecurityScheme
         <| ss_Type := "oauth2" |>
         <| ss_AuthorizationURL := "https://login.microsoftonline.com/common/oauth2/authorize" |>
         <| ss_Flow := "implicit" |> <| ss_Description := "Azure Active Directory OAuth2 Flow" |>
         <| ss_Scopes := [("user_impersonation", "impersonate your user account")] |>)] |>
    <| sw_Security := [[("azure_auth", ["user_impersonation"])]] |>.

Definition listCredentials_path : string :=
  "/subscriptions/{subscriptionId}/resourceGroups/{resourceGroupName}/providers/Microsoft.RedHatOpenShift/openShiftClusters/{resourceName}/listCredentials".
Definition listCredentials_item : PathItem :=
  zero_PathItem <| pi_Post := Some (operation "OpenShiftClusters"
    "Lists credentials of an OpenShift cluster with the specified subscription, resource group and resource name."
    "the credentials." "OpenShiftClusters_ListCredentials" (populateParameters 3 "OpenShiftCluster" "OpenShift cluster")
    (populateResponses "OpenShiftClusterCredentials" false [200%Z])) |>.
Definition operations_item : PathItem :=
  zero_PathItem <| pi_Get := Some (operation "Operations" "Lists all of the available RP operations." "the operations."
    "Operations_List" (populateParameters 0 "Operation" "Operation") (populateResponses "OperationList" false [200%Z])) |>.
Definition with_paths (s : Swagger) : Swagger :=
  s <| sw_Paths ::= fun ps => populateExamples
         (set_key "/providers/Microsoft.RedHatOpenShift/operations" operations_item
            (set_key listCredentials_path listCredentials_item ps)) |>.

Definition tags_schema : Schema :=
  zero_Schema <| sc_Description := "Resource tags." |> <| sc_Type := "object" |>
    <| sc_AdditionalProperties := Some (type_schema "string") |> <| sc_Mutability := ["read"; "create"; "update"] |>.
Definition location_schema : Schema :=
  zero_Schema <| sc_Description := "The geo-location where the resource lives" |> <| sc_Type := "string" |>
    <| sc_Mutability := ["read"; "create"] |>.

(** The schema of the property is written through its pointer. *)
Fixpoint flattened (properties : list (string * option Schema)) : res (list (string * option Schema)) :=
  match properties with
  | [] => Ok []
  | (name, schema) :: properties =>
      if decide (name = "properties") then
        do? s <- deref schema;
        do? rest <- flattened properties;
        Ok ((name, Some (s <| sc_ClientFlatten := true |>)) :: rest)
      else flattened properties
  end.
Definition azure_resource (definitions : list (string * Schema)) (name : string) : res (list (string * Schema)) :=
  do? s <- deref (get_key name definitions);
  do? properties <- flattened (sc_Properties s);
  Ok (set_key name
        (s <| sc_AllOf := [zero_Schema <| sc_Ref := common_types +:+ "definitions/Resource" |>] |>
           <| sc_Properties := ("tags", Some tags_schema) :: ("location", Some location_schema) :: properties |>)
        definitions).

Definition external_package : string := "github.com/Azure/ARO-RP/pkg/api/v20191231preview".
Definition internal_package : string := "github.com/Azure/ARO-RP/pkg/api".

Definition specification (order : list string -> list string) (load : string -> res (list package)) : res Swagger :=
  let s := with_paths new_specification in
  do? definitions <- define order load (sw_Definitions s) external_package ["OpenShiftClusterList"; "OpenShiftClusterCredentials"];
  do? definitions <- define order load definitions internal_package ["CloudError"; "OperationList"];
  do? definitions <- azure_resource definitions "OpenShiftCluster";
  Ok (s <| sw_Definitions := delete_key "Tags" definitions |>).

(** ** examples.go *)
Definition example_parameter (p : any) : list (string * json) :=
  match p with
  | AReference r =>
      if decide (rf_Ref r = common_types +:+ "parameters/ApiVersionParameter") then [("api-version", o_text "2019-12-31-preview")]
      else if decide (rf_Ref r = common_types +:+ "parameters/SubscriptionIdParameter") then [("subscriptionId", o_text "subscriptionId")]
      else if decide (rf_Ref r = common_types +:+ "parameters/ResourceGroupNameParameter") then [("resourceGroupName", o_text "resourceGroup")]
      else []
  | AParameter p =>
      if decide (pm_Name p = "resourceName") then [(pm_Name p, o_text "resourceName")]
      else []
  end.
(** The schema of the parameter of that name is followed through its pointer. *)
Definition example_parameters (p : any) : res (list (string * json)) :=
  match p with
  | AParameter q =>
      if decide (pm_Name q = "parameters") then
        do? s <- deref (pm_Schema q);
        Ok (if decide (sc_Ref s = "#/definitions/OpenShiftCluster")
            then [(pm_Name q, encode_OpenShiftCluster ExampleOpenShiftClusterParameter)] else [])
      else Ok (example_parameter p)
  | _ => Ok (example_parameter p)
  end.
Definition example_body (r : Response) : option json :=
  s ← rs_Schema r;
  if decide (sc_Ref s = "#/definitions/OpenShiftCluster") then Some (encode_OpenShiftCluster ExampleOpenShiftClusterResponse)
  else if decide (sc_Ref s = "#/definitions/OpenShiftClusterCredentials") then Some (encode_Credentials ExampleOpenShiftClusterCredentialsResponse)
  else if decide (sc_Ref s = "#/definitions/OpenShiftClusterList") then Some (encode_OpenShiftClusterList ExampleOpenShiftClusterListResponse)
  else if decide (sc_Ref s = "#/definitions/OperationList") then Some ExampleOperationListResponse
  else None.
Fixpoint all_parameters (ps : list any) : res (list (string * json)) :=
  match ps with
  | [] => Ok []
  | p :: ps => do? x <- example_parameters p; do? rest <- all_parameters ps; Ok (x ++ rest)
  end.
Definition example (op : Operation) : res json :=
  do? parameters <- all_parameters (op_Parameters op);
  let responses := omap (fun '(statusCode, r) =>
    if decide (statusCode = "default") then None else Some (statusCode, o_object [("body", example_body r)])) (op_Responses op) in
  Ok (o_object [("parameters", match parameters with [] => None | _ => Some (JObject parameters) end);
                o_map "responses" (fun j => j) responses]).

(** Files of JSON, indented, with a new line at their end *)
Class Outputs (W : Type) := {
  os_RemoveAll : string -> M W unit;
  os_MkdirAll : string -> M W unit;
  write_json : string -> json -> M W unit;
}.

Section run.
Context {W : Type} `{!Outputs W}.

Fixpoint write_examples (outputDir : string) (ops : list Operation) : M W unit :=
  match ops with
  | [] => ret tt
  | op :: ops =>
      do! e <- lift (example op);
      do! _ <- write_json (outputDir +:+ "/examples/" +:+ op_OperationID op +:+ ".json") e;
      write_examples outputDir ops
  end.
Definition generateExamples (visit : list (string * PathItem) -> list (string * PathItem))
    (outputDir : string) (s : Swagger) : M W unit :=
  do! _ <- os_RemoveAll (outputDir +:+ "/examples");
  do! _ <- os_MkdirAll (outputDir +:+ "/examples");
  write_examples outputDir (concat (map (fun pi => operations_of (snd pi)) (visit (sw_Paths s)))).

Definition Run (order : list string -> list string) (visit : list (string * PathItem) -> list (string * PathItem))
    (load : string -> res (list package)) (outputDir : string) : M W unit :=
  do! s <- lift (specification order load);
  do! _ <- generateExamples visit outputDir s;
  write_json (outputDir +:+ "/redhatopenshift.json") (encode_Swagger s).
End run.
