(* ===== verification/SwaggerData.v ===== *)
(** * The program's specification, and what it is made of

    The declarations of the two packages that the walk of Swagger.v is given, from
    src/pkg/api/v20191231preview and src/pkg/api, with their comments and tags, and the
    files it has written, as they are kept under src/swagger. Of src/pkg/api the types
    are those the specification asks for and what they mention. *)
From S2P Require Import Prelude GoStrings Arm Marshal SwaggerTypes Swagger.
From Stdlib Require Import Ascii.

(** The text of a comment of one line *)
Definition doc (s : string) : string := s +:+ String LF EmptyString.

(** src/pkg/api/v20191231preview: openshiftcluster.go, openshiftclustercredentials.go, register.go *)
Definition v20191231preview : package := {|
  pk_Types := [
    mkDecl "OpenShiftClusterList" (doc "OpenShiftClusterList represents a list of OpenShift clusters.")
      (TStruct
      [(mkTField (doc "The list of OpenShift clusters.") (Some "value"), (TSlice (TPointer (TNamed "OpenShiftCluster"))))]);
    mkDecl "OpenShiftCluster" (doc "OpenShiftCluster represents an Azure Red Hat OpenShift cluster.")
      (TStruct
      [(mkTField (doc "The resource ID (immutable).") (Some "id,omitempty"), (TBasic String_));
       (mkTField (doc "The resource name (immutable).") (Some "name,omitempty"), (TBasic String_));
       (mkTField (doc "The resource type (immutable).") (Some "type,omitempty"), (TBasic String_));
       (mkTField (doc "The resource location (immutable).") (Some "location,omitempty"), (TBasic String_));
       (mkTField (doc "The resource tags.") (Some "tags,omitempty"), (TNamed "Tags"));
       (mkTField (doc "The cluster properties.") (Some "properties,omitempty"), (TNamed "Properties"))]);
    mkDecl "Tags" (doc "Tags represents an OpenShift cluster's tags.")
      (TMap (TBasic String_));
    mkDecl "Properties" (doc "Properties represents an OpenShift cluster's properties.")
      (TStruct
      [(mkTField (doc "The cluster provisioning state (immutable).") (Some "provisioningState,omitempty"), (TNamed "ProvisioningState"));
       (mkTField (doc "The cluster profile.") (Some "clusterProfile,omitempty"), (TNamed "ClusterProfile"));
       (mkTField (doc "The console profile.") (Some "consoleProfile,omitempty"), (TNamed "ConsoleProfile"));
       (mkTField (doc "The cluster service principal profile.") (Some "servicePrincipalProfile,omitempty"), (TNamed "ServicePrincipalProfile"));
       (mkTField (doc "The cluster network profile.") (Some "networkProfile,omitempty"), (TNamed "NetworkProfile"));
       (mkTField (doc "The cluster master profile.") (Some "masterProfile,omitempty"), (TNamed "MasterProfile"));
       (mkTField (doc "The cluster worker profiles.") (Some "workerProfiles,omitempty"), (TSlice (TNamed "WorkerProfile")));
       (mkTField (doc "The cluster API server profile.") (Some "apiserverProfile,omitempty"), (TNamed "APIServerProfile"));
       (mkTField (doc "The cluster ingress profiles.") (Some "ingressProfiles,omitempty"), (TSlice (TNamed "IngressProfile")))]);
    mkDecl "ProvisioningState" (doc "ProvisioningState represents a provisioning state.")
      (TBasic String_);
    mkDecl "ClusterProfile" EmptyString
      (TStruct
      [(mkTField (doc "The domain for the cluster (immutable).") (Some "domain,omitempty"), (TBasic String_));
       (mkTField (doc "The version of the cluster (immutable).") (Some "version,omitempty"), (TBasic String_));
       (mkTField (doc "The ID of the cluster resource group (immutable).") (Some "resourceGroupId,omitempty"), (TBasic String_))]);
    mkDecl "ConsoleProfile" EmptyString
      (TStruct
      [(mkTField (doc "The URL to access the cluster console (immutable).") (Some "url,omitempty"), (TBasic String_))]);
    mkDecl "ServicePrincipalProfile" (doc "ServicePrincipalProfile represents a service principal profile.")
      (TStruct
      [(mkTField (doc "The client ID used for the cluster (immutable).") (Some "clientId,omitempty"), (TBasic String_));
       (mkTField (doc "The client secret used for the cluster (immutable).") (Some "clientSecret,omitempty"), (TBasic String_))]);
    mkDecl "NetworkProfile" (doc "NetworkProfile represents a network profile.")
      (TStruct
      [(mkTField (doc "The CIDR used for OpenShift/Kubernetes Pods (immutable).") (Some "podCidr,omitempty"), (TBasic String_));
       (mkTField (doc "The CIDR used for OpenShift/Kubernetes Services (immutable).") (Some "serviceCidr,omitempty"), (TBasic String_))]);
    mkDecl "MasterProfile" (doc "MasterProfile represents a master profile.")
      (TStruct
      [(mkTField (doc "The size of the master VMs (immutable).") (Some "vmSize,omitempty"), (TNamed "VMSize"));
       (mkTField (doc "The Azure resource ID of the master subnet (immutable).") (Some "subnetId,omitempty"), (TBasic String_))]);
    mkDecl "VMSize" (doc "VMSize represents a VM size.")
      (TBasic String_);
    mkDecl "WorkerProfile" (doc "WorkerProfile represents a worker profile.")
      (TStruct
      [(mkTField (doc ("The worker profile name.  Must be " +:+ q "worker" +:+ " (immutable).")) (Some "name,omitempty"), (TBasic String_));
       (mkTField (doc "The size of the worker VMs (immutable).") (Some "vmSize,omitempty"), (TNamed "VMSize"));
       (mkTField (doc "The disk size of the worker VMs.  Must be 128 or greater (immutable).") (Some "diskSizeGB,omitempty"), (TBasic Int));
       (mkTField (doc "The Azure resource ID of the worker subnet (immutable).") (Some "subnetId,omitempty"), (TBasic String_));
       (mkTField (doc "The number of worker VMs.  Must be between 3 and 20.") (Some "count,omitempty"), (TBasic Int))]);
    mkDecl "APIServerProfile" (doc "APIServerProfile represents an API server profile.")
      (TStruct
      [(mkTField (doc "API server visibility (immutable).") (Some "visibility,omitempty"), (TNamed "Visibility"));
       (mkTField (doc "The URL to access the cluster API server (immutable).") (Some "url,omitempty"), (TBasic String_));
       (mkTField (doc "The IP of the cluster API server (immutable).") (Some "ip,omitempty"), (TBasic String_))]);
    mkDecl "Visibility" (doc "Visibility represents visibility.")
      (TBasic String_);
    mkDecl "IngressProfile" (doc "IngressProfile represents an ingress profile.")
      (TStruct
      [(mkTField (doc ("The ingress profile name.  Must be " +:+ q "default" +:+ " (immutable).")) (Some "name,omitempty"), (TBasic String_));
       (mkTField (doc "Ingress visibility (immutable).") (Some "visibility,omitempty"), (TNamed "Visibility"));
       (mkTField (doc "The IP of the ingress (immutable).") (Some "ip,omitempty"), (TBasic String_))]);
    mkDecl "OpenShiftClusterCredentials" (doc "OpenShiftClusterCredentials represents an OpenShift cluster's credentials")
      (TStruct
      [(mkTField (doc "The username for the kubeadmin user") (Some "kubeadminUsername,omitempty"), (TBasic String_));
       (mkTField (doc "The password for the kubeadmin user") (Some "kubeadminPassword,omitempty"), (TBasic String_))])];
  pk_Consts := [
    mkConstant "ProvisioningStateCreating" "ProvisioningState" (CString "Creating");
    mkConstant "ProvisioningStateDeleting" "ProvisioningState" (CString "Deleting");
    mkConstant "ProvisioningStateFailed" "ProvisioningState" (CString "Failed");
    mkConstant "ProvisioningStateSucceeded" "ProvisioningState" (CString "Succeeded");
    mkConstant "ProvisioningStateUpdating" "ProvisioningState" (CString "Updating");
    mkConstant "VMSizeStandardD2sV3" "VMSize" (CString "Standard_D2s_v3");
    mkConstant "VMSizeStandardD4sV3" "VMSize" (CString "Standard_D4s_v3");
    mkConstant "VMSizeStandardD8sV3" "VMSize" (CString "Standard_D8s_v3");
    mkConstant "VisibilityPrivate" "Visibility" (CString "Private");
    mkConstant "VisibilityPublic" "Visibility" (CString "Public");
    mkConstant "resourceProviderNamespace" "untyped string" (CString "Microsoft.RedHatOpenShift");
    mkConstant "resourceType" "untyped string" (CString "openShiftClusters")];
|}.

(** src/pkg/api: error.go, operation.go, and the exported constants of every file *)
Definition api : package := {|
  pk_Types := [
    mkDecl "CloudError" (doc "CloudError represents a cloud error.")
      (TStruct
      [(mkTField (doc "The status code.") (Some "-"), (TBasic Int));
       (mkTField (doc "An error response from the service.") (Some "error,omitempty"), (TPointer (TNamed "CloudErrorBody")))]);
    mkDecl "CloudErrorBody" (doc "CloudErrorBody represents the body of a cloud error.")
      (TStruct
      [(mkTField (doc "An identifier for the error. Codes are invariant and are intended to be consumed programmatically.") (Some "code,omitempty"), (TBasic String_));
       (mkTField (doc "A message describing the error, intended to be suitable for display in a user interface.") (Some "message,omitempty"), (TBasic String_));
       (mkTField (doc "The target of the particular error. For example, the name of the property in error.") (Some "target,omitempty"), (TBasic String_));
       (mkTField (doc "A list of additional details about the error.") (Some "details,omitempty"), (TSlice (TNamed "CloudErrorBody")))]);
    mkDecl "OperationList" (doc "OperationList represents an operation list.")
      (TStruct
      [(mkTField (doc "List of operations supported by the resource provider.") (Some "value"), (TSlice (TNamed "Operation")))]);
    mkDecl "Operation" (doc "Operation represents an operation.")
      (TStruct
      [(mkTField (doc "Operation name: {provider}/{resource}/{operation}.") (Some "name,omitempty"), (TBasic String_));
       (mkTField (doc "The object that describes the operation.") (Some "display,omitempty"), (TNamed "Display"))]);
    mkDecl "Display" (doc "Display represents the display details of an operation.")
      (TStruct
      [(mkTField (doc "Friendly name of the resource provider.") (Some "provider,omitempty"), (TBasic String_));
       (mkTField (doc "Resource type on which the operation is performed.") (Some "resource,omitempty"), (TBasic String_));
       (mkTField (doc "Operation type: read, write, delete, listKeys/action, etc.") (Some "operation,omitempty"), (TBasic String_));
       (mkTField (doc "Friendly name of the operation.") (Some "description,omitempty"), (TBasic String_))])];
  pk_Consts := [
    mkConstant "InstallPhaseDeployResources" "InstallPhase" (CInt 1);
    mkConstant "InstallPhaseDeployStorage" "InstallPhase" (CInt 0);
    mkConstant "InstallPhaseRemoveBootstrap" "InstallPhase" (CInt 2);
    mkConstant "ProvisioningStateCreating" "ProvisioningState" (CString "Creating");
    mkConstant "ProvisioningStateDeleting" "ProvisioningState" (CString "Deleting");
    mkConstant "ProvisioningStateFailed" "ProvisioningState" (CString "Failed");
    mkConstant "ProvisioningStateSucceeded" "ProvisioningState" (CString "Succeeded");
    mkConstant "ProvisioningStateUpdating" "ProvisioningState" (CString "Updating");
    mkConstant "SubscriptionStateDeleted" "SubscriptionState" (CString "Deleted");
    mkConstant "SubscriptionStateRegistered" "SubscriptionState" (CString "Registered");
    mkConstant "SubscriptionStateSuspended" "SubscriptionState" (CString "Suspended");
    mkConstant "SubscriptionStateUnregistered" "SubscriptionState" (CString "Unregistered");
    mkConstant "SubscriptionStateWarned" "SubscriptionState" (CString "Warned");
    mkConstant "VMSizeStandardD2sV3" "VMSize" (CString "Standard_D2s_v3");
    mkConstant "VMSizeStandardD4sV3" "VMSize" (CString "Standard_D4s_v3");
    mkConstant "VMSizeStandardD8sV3" "VMSize" (CString "Standard_D8s_v3");
    mkConstant "VisibilityPrivate" "Visibility" (CString "Private");
    mkConstant "VisibilityPublic" "Visibility" (CString "Public")];
|}.

Definition load (pkgname : string) : res (list package) :=
  if decide (pkgname = external_package) then Ok [v20191231preview]
  else if decide (pkgname = internal_package) then Ok [api]
  else Err (ErrOther "no package").

(** ** src/swagger/redhatopenshift/resource-manager/Microsoft.RedHatOpenShift/preview/2019-12-31-preview

    redhatopenshift.json *)
Definition redhatopenshift_json : json :=
  JObject [("swagger", o_text "2.0");
  ("info", JObject [("title", o_text "Azure Red Hat OpenShift Client");
   ("description", o_text "Rest API for Azure Red Hat OpenShift");
   ("version", o_text "2019-12-31-preview")]);
  ("host", o_text "management.azure.com");
  ("schemes", JArray [o_text "https"]);
  ("consumes", JArray [o_text "application/json"]);
  ("produces", JArray [o_text "application/json"]);
  ("paths", JObject [("/providers/Microsoft.RedHatOpenShift/operations", JObject [("get", JObject [("tags", JArray [o_text "Operations"]);
     ("summary", o_text "Lists all of the available RP operations.");
     ("description", o_text "Lists all of the available RP operations.  The operation returns the operations.");
     ("operationId", o_text "Operations_List");
     ("parameters", JArray [JObject [("$ref", o_text "../../../../../common-types/resource-management/v1/types.json#/parameters/ApiVersionParameter")]]);
     ("responses", JObject [("200", JObject [("description", o_text "OK");
       ("schema", JObject [("$ref", o_text "#/definitions/OperationList")])]);
      ("default", JObject [("description", o_text "Error response describing why the operation failed.  If the resource doesn't exist, 404 (Not Found) is returned.  If any of the input parameters is wrong, 400 (Bad Request) is returned.");
       ("schema", JObject [("$ref", o_text "#/definitions/CloudError")])])]);
     ("x-ms-examples", JObject [("Lists all of the available RP operations.", JObject [("$ref", o_text "./examples/Operations_List.json")])])])]);
   ("/subscriptions/{subscriptionId}/providers/Microsoft.RedHatOpenShift/openShiftClusters", JObject [("get", JObject [("tags", JArray [o_text "OpenShiftClusters"]);
     ("summary", o_text "Lists OpenShift clusters in the specified subscription.");
     ("description", o_text "Lists OpenShift clusters in the specified subscription.  The operation returns properties of each OpenShift cluster.");
     ("operationId", o_text "OpenShiftClusters_List");
     ("parameters", JArray [JObject [("$ref", o_text "../../../../../common-types/resource-management/v1/types.json#/parameters/ApiVersionParameter")];
      JObject [("$ref", o_text "../../../../../common-types/resource-management/v1/types.json#/parameters/SubscriptionIdParameter")]]);
     ("responses", JObject [("200", JObject [("description", o_text "OK");
       ("schema", JObject [("$ref", o_text "#/definitions/OpenShiftClusterList")])]);
      ("default", JObject [("description", o_text "Error response describing why the operation failed.  If the resource doesn't exist, 404 (Not Found) is returned.  If any of the input parameters is wrong, 400 (Bad Request) is returned.");
       ("schema", JObject [("$ref", o_text "#/definitions/CloudError")])])]);
     ("x-ms-examples", JObject [("Lists OpenShift clusters in the specified subscription.", JObject [("$ref", o_text "./examples/OpenShiftClusters_List.json")])])])]);
   ("/subscriptions/{subscriptionId}/resourceGroups/{resourceGroupName}/providers/Microsoft.RedHatOpenShift/openShiftClusters", JObject [("get", JObject [("tags", JArray [o_text "OpenShiftClusters"]);
     ("summary", o_text "Lists OpenShift clusters in the specified subscription and resource group.");
     ("description", o_text "Lists OpenShift clusters in the specified subscription and resource group.  The operation returns properties of each OpenShift cluster.");
     ("operationId", o_text "OpenShiftClusters_ListByResourceGroup");
     ("parameters", JArray [JObject [("$ref", o_text "../../../../../common-types/resource-management/v1/types.json#/parameters/ApiVersionParameter")];
      JObject [("$ref", o_text "../../../../../common-types/resource-management/v1/types.json#/parameters/SubscriptionIdParameter")];
      JObject [("$ref", o_text "../../../../../common-types/resource-management/v1/types.json#/parameters/ResourceGroupNameParameter")]]);
     ("responses", JObject [("200", JObject [("description", o_text "OK");
       ("schema", JObject [("$ref", o_text "#/definitions/OpenShiftClusterList")])]);
      ("default", JObject [("description", o_text "Error response describing why the operation failed.  If the resource doesn't exist, 404 (Not Found) is returned.  If any of the input parameters is wrong, 400 (Bad Request) is returned.");
       ("schema", JObject [("$ref", o_text "#/definitions/CloudError")])])]);
     ("x-ms-examples", JObject [("Lists OpenShift clusters in the specified subscription and resource group.", JObject [("$ref", o_text "./examples/OpenShiftClusters_ListByResourceGroup.json")])])])]);
   ("/subscriptions/{subscriptionId}/resourceGroups/{resourceGroupName}/providers/Microsoft.RedHatOpenShift/openShiftClusters/{resourceName}", JObject [("get", JObject [("tags", JArray [o_text "OpenShiftClusters"]);
     ("summary", o_text "Gets a OpenShift cluster with the specified subscription, resource group and resource name.");
     ("description", o_text "Gets a OpenShift cluster with the specified subscription, resource group and resource name.  The operation returns properties of a OpenShift cluster.");
     ("operationId", o_text "OpenShiftClusters_Get");
     ("parameters", JArray [JObject [("$ref", o_text "../../../../../common-types/resource-management/v1/types.json#/parameters/ApiVersionParameter")];
      JObject [("$ref", o_text "../../../../../common-types/resource-management/v1/types.json#/parameters/SubscriptionIdParameter")];
      JObject [("$ref", o_text "../../../../../common-types/resource-management/v1/types.json#/parameters/ResourceGroupNameParameter")];
      JObject [("name", o_text "resourceName");
       ("in", o_text "path");
       ("description", o_text "The name of the OpenShift cluster resource.");
       ("required", JLit (PBool true));
       ("type", o_text "string")]]);
     ("responses", JObject [("200", JObject [("description", o_text "OK");
       ("schema", JObject [("$ref", o_text "#/definitions/OpenShiftCluster")])]);
      ("default", JObject [("description", o_text "Error response describing why the operation failed.  If the resource doesn't exist, 404 (Not Found) is returned.  If any of the input parameters is wrong, 400 (Bad Request) is returned.");
       ("schema", JObject [("$ref", o_text "#/definitions/CloudError")])])]);
     ("x-ms-examples", JObject [("Gets a OpenShift cluster with the specified subscription, resource group and resource name.", JObject [("$ref", o_text "./examples/OpenShiftClusters_Get.json")])])]);
    ("put", JObject [("tags", JArray [o_text "OpenShiftClusters"]);
     ("summary", o_text "Creates or updates a OpenShift cluster with the specified subscription, resource group and resource name.");
     ("description", o_text "Creates or updates a OpenShift cluster with the specified subscription, resource group and resource name.  The operation returns properties of a OpenShift cluster.");
     ("operationId", o_text "OpenShiftClusters_CreateOrUpdate");
     ("parameters", JArray [JObject [("$ref", o_text "../../../../../common-types/resource-management/v1/types.json#/parameters/ApiVersionParameter")];
      JObject [("$ref", o_text "../../../../../common-types/resource-management/v1/types.json#/parameters/SubscriptionIdParameter")];
      JObject [("$ref", o_text "../../../../../common-types/resource-management/v1/types.json#/parameters/ResourceGroupNameParameter")];
      JObject [("name", o_text "resourceName");
       ("in", o_text "path");
       ("description", o_text "The name of the OpenShift cluster resource.");
       ("required", JLit (PBool true));
       ("type", o_text "string")];
      JObject [("name", o_text "parameters");
       ("in", o_text "body");
       ("description", o_text "The OpenShift cluster resource.");
       ("required", JLit (PBool true));
       ("schema", JObject [("$ref", o_text "#/definitions/OpenShiftCluster")])]]);
     ("responses", JObject [("200", JObject [("description", o_text "OK");
       ("schema", JObject [("$ref", o_text "#/definitions/OpenShiftCluster")])]);
      ("201", JObject [("description", o_text "Created");
       ("schema", JObject [("$ref", o_text "#/definitions/OpenShiftCluster")])]);
      ("default", JObject [("description", o_text "Error response describing why the operation failed.  If the resource doesn't exist, 404 (Not Found) is returned.  If any of the input parameters is wrong, 400 (Bad Request) is returned.");
       ("schema", JObject [("$ref", o_text "#/definitions/CloudError")])])]);
     ("x-ms-long-running-operation", JLit (PBool true));
     ("x-ms-examples", JObject [("Creates or updates a OpenShift cluster with the specified subscription, resource group and resource name.", JObject [("$ref", o_text "./examples/OpenShiftClusters_CreateOrUpdate.json")])])]);
    ("delete", JObject [("tags", JArray [o_text "OpenShiftClusters"]);
     ("summary", o_text "Deletes a OpenShift cluster with the specified subscription, resource group and resource name.");
     ("description", o_text "Deletes a OpenShift cluster with the specified subscription, resource group and resource name.  The operation returns nothing.");
     ("operationId", o_text "OpenShiftClusters_Delete");
     ("parameters", JArray [JObject [("$ref", o_text "../../../../../common-types/resource-management/v1/types.json#/parameters/ApiVersionParameter")];
      JObject [("$ref", o_text "../../../../../common-types/resource-management/v1/types.json#/parameters/SubscriptionIdParameter")];
      JObject [("$ref", o_text "../../../../../common-types/resource-management/v1/types.json#/parameters/ResourceGroupNameParameter")];
      JObject [("name", o_text "resourceName");
       ("in", o_text "path");
       ("description", o_text "The name of the OpenShift cluster resource.");
       ("required", JLit (PBool true));
       ("type", o_text "string")]]);
     ("responses", JObject [("202", JObject [("description", o_text "Accepted")]);
      ("204", JObject [("description", o_text "No Content")]);
      ("default", JObject [("description", o_text "Error response describing why the operation failed.  If the resource doesn't exist, 404 (Not Found) is returned.  If any of the input parameters is wrong, 400 (Bad Request) is returned.");
       ("schema", JObject [("$ref", o_text "#/definitions/CloudError")])])]);
     ("x-ms-long-running-operation", JLit (PBool true));
     ("x-ms-examples", JObject [("Deletes a OpenShift cluster with the specified subscription, resource group and resource name.", JObject [("$ref", o_text "./examples/OpenShiftClusters_Delete.json")])])]);
    ("patch", JObject [("tags", JArray [o_text "OpenShiftClusters"]);
     ("summary", o_text "Creates or updates a OpenShift cluster with the specified subscription, resource group and resource name.");
     ("description", o_text "Creates or updates a OpenShift cluster with the specified subscription, resource group and resource name.  The operation returns properties of a OpenShift cluster.");
     ("operationId", o_text "OpenShiftClusters_Update");
     ("parameters", JArray [JObject [("$ref", o_text "../../../../../common-types/resource-management/v1/types.json#/parameters/ApiVersionParameter")];
      JObject [("$ref", o_text "../../../../../common-types/resource-management/v1/types.json#/parameters/SubscriptionIdParameter")];
      JObject [("$ref", o_text "../../../../../common-types/resource-management/v1/types.json#/parameters/ResourceGroupNameParameter")];
      JObject [("name", o_text "resourceName");
       ("in", o_text "path");
       ("description", o_text "The name of the OpenShift cluster resource.");
       ("required", JLit (PBool true));
       ("type", o_text "string")];
      JObject [("name", o_text "parameters");
       ("in", o_text "body");
       ("description", o_text "The OpenShift cluster resource.");
       ("required", JLit (PBool true));
       ("schema", JObject [("$ref", o_text "#/definitions/OpenShiftCluster")])]]);
     ("responses", JObject [("200", JObject [("description", o_text "OK");
       ("schema", JObject [("$ref", o_text "#/definitions/OpenShiftCluster")])]);
      ("201", JObject [("description", o_text "Created");
       ("schema", JObject [("$ref", o_text "#/definitions/OpenShiftCluster")])]);
      ("default", JObject [("description", o_text "Error response describing why the operation failed.  If the resource doesn't exist, 404 (Not Found) is returned.  If any of the input parameters is wrong, 400 (Bad Request) is returned.");
       ("schema", JObject [("$ref", o_text "#/definitions/CloudError")])])]);
     ("x-ms-long-running-operation", JLit (PBool true));
     ("x-ms-examples", JObject [("Creates or updates a OpenShift cluster with the specified subscription, resource group and resource name.", JObject [("$ref", o_text "./examples/OpenShiftClusters_Update.json")])])])]);
   ("/subscriptions/{subscriptionId}/resourceGroups/{resourceGroupName}/providers/Microsoft.RedHatOpenShift/openShiftClusters/{resourceName}/listCredentials", JObject [("post", JObject [("tags", JArray [o_text "OpenShiftClusters"]);
     ("summary", o_text "Lists credentials of an OpenShift cluster with the specified subscription, resource group and resource name.");
     ("description", o_text "Lists credentials of an OpenShift cluster with the specified subscription, resource group and resource name.  The operation returns the credentials.");
     ("operationId", o_text "OpenShiftClusters_ListCredentials");
     ("parameters", JArray [JObject [("$ref", o_text "../../../../../common-types/resource-management/v1/types.json#/parameters/ApiVersionParameter")];
      JObject [("$ref", o_text "../../../../../common-types/resource-management/v1/types.json#/parameters/SubscriptionIdParameter")];
      JObject [("$ref", o_text "../../../../../common-types/resource-management/v1/types.json#/parameters/ResourceGroupNameParameter")];
      JObject [("name", o_text "resourceName");
       ("in", o_text "path");
       ("description", o_text "The name of the OpenShift cluster resource.");
       ("required", JLit (PBool true));
       ("type", o_text "string")]]);
     ("responses", JObject [("200", JObject [("description", o_text "OK");
       ("schema", JObject [("$ref", o_text "#/definitions/OpenShiftClusterCredentials")])]);
      ("default", JObject [("description", o_text "Error response describing why the operation failed.  If the resource doesn't exist, 404 (Not Found) is returned.  If any of the input parameters is wrong, 400 (Bad Request) is returned.");
       ("schema", JObject [("$ref", o_text "#/definitions/CloudError")])])]);
     ("x-ms-examples", JObject [("Lists credentials of an OpenShift cluster with the specified subscription, resource group and resource name.", JObject [("$ref", o_text "./examples/OpenShiftClusters_ListCredentials.json")])])])])]);
  ("definitions", JObject [("APIServerProfile", JObject [("description", o_text "APIServerProfile represents an API server profile.");
    ("properties", JObject [("visibility", JObject [("$ref", o_text "#/definitions/Visibility");
      ("description", o_text "API server visibility (immutable).")]);
     ("url", JObject [("description", o_text "The URL to access the cluster API server (immutable).");
      ("type", o_text "string")]);
     ("ip", JObject [("description", o_text "The IP of the cluster API server (immutable).");
      ("type", o_text "string")])])]);
   ("CloudError", JObject [("description", o_text "CloudError represents a cloud error.");
    ("properties", JObject [("error", JObject [("$ref", o_text "#/definitions/CloudErrorBody");
      ("description", o_text "An error response from the service.")])])]);
   ("CloudErrorBody", JObject [("description", o_text "CloudErrorBody represents the body of a cloud error.");
    ("properties", JObject [("code", JObject [("description", o_text "An identifier for the error. Codes are invariant and are intended to be consumed programmatically.");
      ("type", o_text "string")]);
     ("message", JObject [("description", o_text "A message describing the error, intended to be suitable for display in a user interface.");
      ("type", o_text "string")]);
     ("target", JObject [("description", o_text "The target of the particular error. For example, the name of the property in error.");
      ("type", o_text "string")]);
     ("details", JObject [("description", o_text "A list of additional details about the error.");
      ("type", o_text "array");
      ("items", JObject [("$ref", o_text "#/definitions/CloudErrorBody")])])])]);
   ("ClusterProfile", JObject [("properties", JObject [("domain", JObject [("description", o_text "The domain for the cluster (immutable).");
      ("type", o_text "string")]);
     ("version", JObject [("description", o_text "The version of the cluster (immutable).");
      ("type", o_text "string")]);
     ("resourceGroupId", JObject [("description", o_text "The ID of the cluster resource group (immutable).");
      ("type", o_text "string")])])]);
   ("ConsoleProfile", JObject [("properties", JObject [("url", JObject [("description", o_text "The URL to access the cluster console (immutable).");
      ("type", o_text "string")])])]);
   ("Display", JObject [("description", o_text "Display represents the display details of an operation.");
    ("properties", JObject [("provider", JObject [("description", o_text "Friendly name of the resource provider.");
      ("type", o_text "string")]);
     ("resource", JObject [("description", o_text "Resource type on which the operation is performed.");
      ("type", o_text "string")]);
     ("operation", JObject [("description", o_text "Operation type: read, write, delete, listKeys/action, etc.");
      ("type", o_text "string")]);
     ("description", JObject [("description", o_text "Friendly name of the operation.");
      ("type", o_text "string")])])]);
   ("IngressProfile", JObject [("description", o_text "IngressProfile represents an ingress profile.");
    ("properties", JObject [("name", JObject [("description", o_text ("The ingress profile name.  Must be " +:+ q "default" +:+ " (immutable)."));
      ("type", o_text "string")]);
     ("visibility", JObject [("$ref", o_text "#/definitions/Visibility");
      ("description", o_text "Ingress visibility (immutable).")]);
     ("ip", JObject [("description", o_text "The IP of the ingress (immutable).");
      ("type", o_text "string")])])]);
   ("MasterProfile", JObject [("description", o_text "MasterProfile represents a master profile.");
    ("properties", JObject [("vmSize", JObject [("$ref", o_text "#/definitions/VMSize");
      ("description", o_text "The size of the master VMs (immutable).")]);
     ("subnetId", JObject [("description", o_text "The Azure resource ID of the master subnet (immutable).");
      ("type", o_text "string")])])]);
   ("NetworkProfile", JObject [("description", o_text "NetworkProfile represents a network profile.");
    ("properties", JObject [("podCidr", JObject [("description", o_text "The CIDR used for OpenShift/Kubernetes Pods (immutable).");
      ("type", o_text "string")]);
     ("serviceCidr", JObject [("description", o_text "The CIDR used for OpenShift/Kubernetes Services (immutable).");
      ("type", o_text "string")])])]);
   ("OpenShiftCluster", JObject [("description", o_text "OpenShiftCluster represents an Azure Red Hat OpenShift cluster.");
    ("allOf", JArray [JObject [("$ref", o_text "../../../../../common-types/resource-management/v1/types.json#/definitions/Resource")]]);
    ("properties", JObject [("tags", JObject [("description", o_text "Resource tags.");
      ("type", o_text "object");
      ("additionalProperties", JObject [("type", o_text "string")]);
      ("x-ms-mutability", JArray [o_text "read";
       o_text "create";
       o_text "update"])]);
     ("location", JObject [("description", o_text "The geo-location where the resource lives");
      ("type", o_text "string");
      ("x-ms-mutability", JArray [o_text "read";
       o_text "create"])]);
     ("properties", JObject [("$ref", o_text "#/definitions/Properties");
      ("description", o_text "The cluster properties.");
      ("x-ms-client-flatten", JLit (PBool true))])])]);
   ("OpenShiftClusterCredentials", JObject [("description", o_text "OpenShiftClusterCredentials represents an OpenShift cluster's credentials");
    ("properties", JObject [("kubeadminUsername", JObject [("description", o_text "The username for the kubeadmin user");
      ("type", o_text "string")]);
     ("kubeadminPassword", JObject [("description", o_text "The password for the kubeadmin user");
      ("type", o_text "string")])])]);
   ("OpenShiftClusterList", JObject [("description", o_text "OpenShiftClusterList represents a list of OpenShift clusters.");
    ("properties", JObject [("value", JObject [("description", o_text "The list of OpenShift clusters.");
      ("type", o_text "array");
      ("items", JObject [("$ref", o_text "#/definitions/OpenShiftCluster")])])])]);
   ("Operation", JObject [("description", o_text "Operation represents an operation.");
    ("properties", JObject [("name", JObject [("description", o_text "Operation name: {provider}/{resource}/{operation}.");
      ("type", o_text "string")]);
     ("display", JObject [("$ref", o_text "#/definitions/Display");
      ("description", o_text "The object that describes the operation.")])])]);
   ("OperationList", JObject [("description", o_text "OperationList represents an operation list.");
    ("properties", JObject [("value", JObject [("description", o_text "List of operations supported by the resource provider.");
      ("type", o_text "array");
      ("items", JObject [("$ref", o_text "#/definitions/Operation")])])])]);
   ("Properties", JObject [("description", o_text "Properties represents an OpenShift cluster's properties.");
    ("properties", JObject [("provisioningState", JObject [("$ref", o_text "#/definitions/ProvisioningState");
      ("description", o_text "The cluster provisioning state (immutable).")]);
     ("clusterProfile", JObject [("$ref", o_text "#/definitions/ClusterProfile");
      ("description", o_text "The cluster profile.")]);
     ("consoleProfile", JObject [("$ref", o_text "#/definitions/ConsoleProfile");
      ("description", o_text "The console profile.")]);
     ("servicePrincipalProfile", JObject [("$ref", o_text "#/definitions/ServicePrincipalProfile");
      ("description", o_text "The cluster service principal profile.")]);
     ("networkProfile", JObject [("$ref", o_text "#/definitions/NetworkProfile");
      ("description", o_text "The cluster network profile.")]);
     ("masterProfile", JObject [("$ref", o_text "#/definitions/MasterProfile");
      ("description", o_text "The cluster master profile.")]);
     ("workerProfiles", JObject [("description", o_text "The cluster worker profiles.");
      ("type", o_text "array");
      ("items", JObject [("$ref", o_text "#/definitions/WorkerProfile")])]);
     ("apiserverProfile", JObject [("$ref", o_text "#/definitions/APIServerProfile");
      ("description", o_text "The cluster API server profile.")]);
     ("ingressProfiles", JObject [("description", o_text "The cluster ingress profiles.");
      ("type", o_text "array");
      ("items", JObject [("$ref", o_text "#/definitions/IngressProfile")])])])]);
   ("ProvisioningState", JObject [("description", o_text "ProvisioningState represents a provisioning state.");
    ("enum", JArray [o_text "Creating";
     o_text "Deleting";
     o_text "Failed";
     o_text "Succeeded";
     o_text "Updating"]);
    ("type", o_text "string")]);
   ("ServicePrincipalProfile", JObject [("description", o_text "ServicePrincipalProfile represents a service principal profile.");
    ("properties", JObject [("clientId", JObject [("description", o_text "The client ID used for the cluster (immutable).");
      ("type", o_text "string")]);
     ("clientSecret", JObject [("description", o_text "The client secret used for the cluster (immutable).");
      ("type", o_text "string")])])]);
   ("VMSize", JObject [("description", o_text "VMSize represents a VM size.");
    ("enum", JArray [o_text "Standard_D2s_v3";
     o_text "Standard_D4s_v3";
     o_text "Standard_D8s_v3"]);
    ("type", o_text "string")]);
   ("Visibility", JObject [("description", o_text "Visibility represents visibility.");
    ("enum", JArray [o_text "Private";
     o_text "Public"]);
    ("type", o_text "string")]);
   ("WorkerProfile", JObject [("description", o_text "WorkerProfile represents a worker profile.");
    ("properties", JObject [("name", JObject [("description", o_text ("The worker profile name.  Must be " +:+ q "worker" +:+ " (immutable)."));
      ("type", o_text "string")]);
     ("vmSize", JObject [("$ref", o_text "#/definitions/VMSize");
      ("description", o_text "The size of the worker VMs (immutable).")]);
     ("diskSizeGB", JObject [("description", o_text "The disk size of the worker VMs.  Must be 128 or greater (immutable).");
      ("type", o_text "integer")]);
     ("subnetId", JObject [("description", o_text "The Azure resource ID of the worker subnet (immutable).");
      ("type", o_text "string")]);
     ("count", JObject [("description", o_text "The number of worker VMs.  Must be between 3 and 20.");
      ("type", o_text "integer")])])])]);
  ("securityDefinitions", JObject [("azure_auth", JObject [("type", o_text "oauth2");
    ("description", o_text "Azure Active Directory OAuth2 Flow");
    ("flow", o_text "implicit");
    ("authorizationUrl", o_text "https://login.microsoftonline.com/common/oauth2/authorize");
    ("scopes", JObject [("user_impersonation", o_text "impersonate your user account")])])]);
  ("security", JArray [JObject [("azure_auth", JArray [o_text "user_impersonation"])]])].

(** The examples, by the name of their file *)
Definition examples_json : list (string * json) := [
  ("Operations_List.json", JObject [("parameters", JObject [("api-version", o_text "2019-12-31-preview")]);
   ("responses", JObject [("200", JObject [("body", JObject [("value", JArray [JObject [("name", o_text "Microsoft.RedHatOpenShift/openShiftClusters/read");
        ("display", JObject [("provider", o_text "Azure Red Hat OpenShift");
         ("resource", o_text "openShiftClusters");
         ("operation", o_text "Read OpenShift cluster")])]])])])])]);
  ("OpenShiftClusters_List.json", JObject [("parameters", JObject [("api-version", o_text "2019-12-31-preview");
    ("subscriptionId", o_text "subscriptionId")]);
   ("responses", JObject [("200", JObject [("body", JObject [("value", JArray [JObject [("id", o_text "/subscriptions/subscriptionId/resourceGroups/resourceGroup/providers/Microsoft.RedHatOpenShift/OpenShiftClusters/resourceName");
        ("name", o_text "resourceName");
        ("type", o_text "Microsoft.RedHatOpenShift/OpenShiftClusters");
        ("location", o_text "location");
        ("tags", JObject [("key", o_text "value")]);
        ("properties", JObject [("provisioningState", o_text "Succeeded");
         ("clusterProfile", JObject [("domain", o_text "cluster.location.aroapp.io");
          ("version", o_text "4.3.0");
          ("resourceGroupId", o_text "/subscriptions/subscriptionId/resourceGroups/clusterResourceGroup")]);
         ("consoleProfile", JObject [("url", o_text "https://console-openshift-console.apps.cluster.location.aroapp.io/")]);
         ("servicePrincipalProfile", JObject [("clientId", o_text "clientId")]);
         ("networkProfile", JObject [("podCidr", o_text "10.128.0.0/14");
          ("serviceCidr", o_text "172.30.0.0/16")]);
         ("masterProfile", JObject [("vmSize", o_text "Standard_D8s_v3");
          ("subnetId", o_text "/subscriptions/subscriptionId/resourceGroups/vnetResourceGroup/providers/Microsoft.Network/virtualNetworks/vnet/subnets/master")]);
         ("workerProfiles", JArray [JObject [("name", o_text "worker");
           ("vmSize", o_text "Standard_D2s_v3");
           ("diskSizeGB", JLit (PInt 128));
           ("subnetId", o_text "/subscriptions/subscriptionId/resourceGroups/vnetResourceGroup/providers/Microsoft.Network/virtualNetworks/vnet/subnets/worker");
           ("count", JLit (PInt 3))]]);
         ("apiserverProfile", JObject [("visibility", o_text "Public");
          ("url", o_text "https://api.cluster.location.aroapp.io:6443/");
          ("ip", o_text "1.2.3.4")]);
         ("ingressProfiles", JArray [JObject [("name", o_text "default");
           ("visibility", o_text "Public");
           ("ip", o_text "1.2.3.4")]])])]])])])])]);
  ("OpenShiftClusters_ListByResourceGroup.json", JObject [("parameters", JObject [("api-version", o_text "2019-12-31-preview");
    ("subscriptionId", o_text "subscriptionId");
    ("resourceGroupName", o_text "resourceGroup")]);
   ("responses", JObject [("200", JObject [("body", JObject [("value", JArray [JObject [("id", o_text "/subscriptions/subscriptionId/resourceGroups/resourceGroup/providers/Microsoft.RedHatOpenShift/OpenShiftClusters/resourceName");
        ("name", o_text "resourceName");
        ("type", o_text "Microsoft.RedHatOpenShift/OpenShiftClusters");
        ("location", o_text "location");
        ("tags", JObject [("key", o_text "value")]);
        ("properties", JObject [("provisioningState", o_text "Succeeded");
         ("clusterProfile", JObject [("domain", o_text "cluster.location.aroapp.io");
          ("version", o_text "4.3.0");
          ("resourceGroupId", o_text "/subscriptions/subscriptionId/resourceGroups/clusterResourceGroup")]);
         ("consoleProfile", JObject [("url", o_text "https://console-openshift-console.apps.cluster.location.aroapp.io/")]);
         ("servicePrincipalProfile", JObject [("clientId", o_text "clientId")]);
         ("networkProfile", JObject [("podCidr", o_text "10.128.0.0/14");
          ("serviceCidr", o_text "172.30.0.0/16")]);
         ("masterProfile", JObject [("vmSize", o_text "Standard_D8s_v3");
          ("subnetId", o_text "/subscriptions/subscriptionId/resourceGroups/vnetResourceGroup/providers/Microsoft.Network/virtualNetworks/vnet/subnets/master")]);
         ("workerProfiles", JArray [JObject [("name", o_text "worker");
           ("vmSize", o_text "Standard_D2s_v3");
           ("diskSizeGB", JLit (PInt 128));
           ("subnetId", o_text "/subscriptions/subscriptionId/resourceGroups/vnetResourceGroup/providers/Microsoft.Network/virtualNetworks/vnet/subnets/worker");
           ("count", JLit (PInt 3))]]);
         ("apiserverProfile", JObject [("visibility", o_text "Public");
          ("url", o_text "https://api.cluster.location.aroapp.io:6443/");
          ("ip", o_text "1.2.3.4")]);
         ("ingressProfiles", JArray [JObject [("name", o_text "default");
           ("visibility", o_text "Public");
           ("ip", o_text "1.2.3.4")]])])]])])])])]);
  ("OpenShiftClusters_Get.json", JObject [("parameters", JObject [("api-version", o_text "2019-12-31-preview");
    ("subscriptionId", o_text "subscriptionId");
    ("resourceGroupName", o_text "resourceGroup");
    ("resourceName", o_text "resourceName")]);
   ("responses", JObject [("200", JObject [("body", JObject [("id", o_text "/subscriptions/subscriptionId/resourceGroups/resourceGroup/providers/Microsoft.RedHatOpenShift/OpenShiftClusters/resourceName");
      ("name", o_text "resourceName");
      ("type", o_text "Microsoft.RedHatOpenShift/OpenShiftClusters");
      ("location", o_text "location");
      ("tags", JObject [("key", o_text "value")]);
      ("properties", JObject [("provisioningState", o_text "Succeeded");
       ("clusterProfile", JObject [("domain", o_text "cluster.location.aroapp.io");
        ("version", o_text "4.3.0");
        ("resourceGroupId", o_text "/subscriptions/subscriptionId/resourceGroups/clusterResourceGroup")]);
       ("consoleProfile", JObject [("url", o_text "https://console-openshift-console.apps.cluster.location.aroapp.io/")]);
       ("servicePrincipalProfile", JObject [("clientId", o_text "clientId")]);
       ("networkProfile", JObject [("podCidr", o_text "10.128.0.0/14");
        ("serviceCidr", o_text "172.30.0.0/16")]);
       ("masterProfile", JObject [("vmSize", o_text "Standard_D8s_v3");
        ("subnetId", o_text "/subscriptions/subscriptionId/resourceGroups/vnetResourceGroup/providers/Microsoft.Network/virtualNetworks/vnet/subnets/master")]);
       ("workerProfiles", JArray [JObject [("name", o_text "worker");
         ("vmSize", o_text "Standard_D2s_v3");
         ("diskSizeGB", JLit (PInt 128));
         ("subnetId", o_text "/subscriptions/subscriptionId/resourceGroups/vnetResourceGroup/providers/Microsoft.Network/virtualNetworks/vnet/subnets/worker");
         ("count", JLit (PInt 3))]]);
       ("apiserverProfile", JObject [("visibility", o_text "Public");
        ("url", o_text "https://api.cluster.location.aroapp.io:6443/");
        ("ip", o_text "1.2.3.4")]);
       ("ingressProfiles", JArray [JObject [("name", o_text "default");
         ("visibility", o_text "Public");
         ("ip", o_text "1.2.3.4")]])])])])])]);
  ("OpenShiftClusters_CreateOrUpdate.json", JObject [("parameters", JObject [("api-version", o_text "2019-12-31-preview");
    ("subscriptionId", o_text "subscriptionId");
    ("resourceGroupName", o_text "resourceGroup");
    ("resourceName", o_text "resourceName");
    ("parameters", JObject [("location", o_text "location");
     ("tags", JObject [("key", o_text "value")]);
     ("properties", JObject [("clusterProfile", JObject [("domain", o_text "cluster.location.aroapp.io");
       ("resourceGroupId", o_text "/subscriptions/subscriptionId/resourceGroups/clusterResourceGroup")]);
      ("consoleProfile", JObject []);
      ("servicePrincipalProfile", JObject [("clientId", o_text "clientId");
       ("clientSecret", o_text "clientSecret")]);
      ("networkProfile", JObject [("podCidr", o_text "10.128.0.0/14");
       ("serviceCidr", o_text "172.30.0.0/16")]);
      ("masterProfile", JObject [("vmSize", o_text "Standard_D8s_v3");
       ("subnetId", o_text "/subscriptions/subscriptionId/resourceGroups/vnetResourceGroup/providers/Microsoft.Network/virtualNetworks/vnet/subnets/master")]);
      ("workerProfiles", JArray [JObject [("name", o_text "worker");
        ("vmSize", o_text "Standard_D2s_v3");
        ("diskSizeGB", JLit (PInt 128));
        ("subnetId", o_text "/subscriptions/subscriptionId/resourceGroups/vnetResourceGroup/providers/Microsoft.Network/virtualNetworks/vnet/subnets/worker");
        ("count", JLit (PInt 3))]]);
      ("apiserverProfile", JObject [("visibility", o_text "Public")]);
      ("ingressProfiles", JArray [JObject [("name", o_text "default");
        ("visibility", o_text "Public")]])])])]);
   ("responses", JObject [("200", JObject [("body", JObject [("id", o_text "/subscriptions/subscriptionId/resourceGroups/resourceGroup/providers/Microsoft.RedHatOpenShift/OpenShiftClusters/resourceName");
      ("name", o_text "resourceName");
      ("type", o_text "Microsoft.RedHatOpenShift/OpenShiftClusters");
      ("location", o_text "location");
      ("tags", JObject [("key", o_text "value")]);
      ("properties", JObject [("provisioningState", o_text "Succeeded");
       ("clusterProfile", JObject [("domain", o_text "cluster.location.aroapp.io");
        ("version", o_text "4.3.0");
        ("resourceGroupId", o_text "/subscriptions/subscriptionId/resourceGroups/clusterResourceGroup")]);
       ("consoleProfile", JObject [("url", o_text "https://console-openshift-console.apps.cluster.location.aroapp.io/")]);
       ("servicePrincipalProfile", JObject [("clientId", o_text "clientId")]);
       ("networkProfile", JObject [("podCidr", o_text "10.128.0.0/14");
        ("serviceCidr", o_text "172.30.0.0/16")]);
       ("masterProfile", JObject [("vmSize", o_text "Standard_D8s_v3");
        ("subnetId", o_text "/subscriptions/subscriptionId/resourceGroups/vnetResourceGroup/providers/Microsoft.Network/virtualNetworks/vnet/subnets/master")]);
       ("workerProfiles", JArray [JObject [("name", o_text "worker");
         ("vmSize", o_text "Standard_D2s_v3");
         ("diskSizeGB", JLit (PInt 128));
         ("subnetId", o_text "/subscriptions/subscriptionId/resourceGroups/vnetResourceGroup/providers/Microsoft.Network/virtualNetworks/vnet/subnets/worker");
         ("count", JLit (PInt 3))]]);
       ("apiserverProfile", JObject [("visibility", o_text "Public");
        ("url", o_text "https://api.cluster.location.aroapp.io:6443/");
        ("ip", o_text "1.2.3.4")]);
       ("ingressProfiles", JArray [JObject [("name", o_text "default");
         ("visibility", o_text "Public");
         ("ip", o_text "1.2.3.4")]])])])]);
    ("201", JObject [("body", JObject [("id", o_text "/subscriptions/subscriptionId/resourceGroups/resourceGroup/providers/Microsoft.RedHatOpenShift/OpenShiftClusters/resourceName");
      ("name", o_text "resourceName");
      ("type", o_text "Microsoft.RedHatOpenShift/OpenShiftClusters");
      ("location", o_text "location");
      ("tags", JObject [("key", o_text "value")]);
      ("properties", JObject [("provisioningState", o_text "Succeeded");
       ("clusterProfile", JObject [("domain", o_text "cluster.location.aroapp.io");
        ("version", o_text "4.3.0");
        ("resourceGroupId", o_text "/subscriptions/subscriptionId/resourceGroups/clusterResourceGroup")]);
       ("consoleProfile", JObject [("url", o_text "https://console-openshift-console.apps.cluster.location.aroapp.io/")]);
       ("servicePrincipalProfile", JObject [("clientId", o_text "clientId")]);
       ("networkProfile", JObject [("podCidr", o_text "10.128.0.0/14");
        ("serviceCidr", o_text "172.30.0.0/16")]);
       ("masterProfile", JObject [("vmSize", o_text "Standard_D8s_v3");
        ("subnetId", o_text "/subscriptions/subscriptionId/resourceGroups/vnetResourceGroup/providers/Microsoft.Network/virtualNetworks/vnet/subnets/master")]);
       ("workerProfiles", JArray [JObject [("name", o_text "worker");
         ("vmSize", o_text "Standard_D2s_v3");
         ("diskSizeGB", JLit (PInt 128));
         ("subnetId", o_text "/subscriptions/subscriptionId/resourceGroups/vnetResourceGroup/providers/Microsoft.Network/virtualNetworks/vnet/subnets/worker");
         ("count", JLit (PInt 3))]]);
       ("apiserverProfile", JObject [("visibility", o_text "Public");
        ("url", o_text "https://api.cluster.location.aroapp.io:6443/");
        ("ip", o_text "1.2.3.4")]);
       ("ingressProfiles", JArray [JObject [("name", o_text "default");
         ("visibility", o_text "Public");
         ("ip", o_text "1.2.3.4")]])])])])])]);
  ("OpenShiftClusters_Delete.json", JObject [("parameters", JObject [("api-version", o_text "2019-12-31-preview");
    ("subscriptionId", o_text "subscriptionId");
    ("resourceGroupName", o_text "resourceGroup");
    ("resourceName", o_text "resourceName")]);
   ("responses", JObject [("202", JObject []);
    ("204", JObject [])])]);
  ("OpenShiftClusters_Update.json", JObject [("parameters", JObject [("api-version", o_text "2019-12-31-preview");
    ("subscriptionId", o_text "subscriptionId");
    ("resourceGroupName", o_text "resourceGroup");
    ("resourceName", o_text "resourceName");
    ("parameters", JObject [("location", o_text "location");
     ("tags", JObject [("key", o_text "value")]);
     ("properties", JObject [("clusterProfile", JObject [("domain", o_text "cluster.location.aroapp.io");
       ("resourceGroupId", o_text "/subscriptions/subscriptionId/resourceGroups/clusterResourceGroup")]);
      ("consoleProfile", JObject []);
      ("servicePrincipalProfile", JObject [("clientId", o_text "clientId");
       ("clientSecret", o_text "clientSecret")]);
      ("networkProfile", JObject [("podCidr", o_text "10.128.0.0/14");
       ("serviceCidr", o_text "172.30.0.0/16")]);
      ("masterProfile", JObject [("vmSize", o_text "Standard_D8s_v3");
       ("subnetId", o_text "/subscriptions/subscriptionId/resourceGroups/vnetResourceGroup/providers/Microsoft.Network/virtualNetworks/vnet/subnets/master")]);
      ("workerProfiles", JArray [JObject [("name", o_text "worker");
        ("vmSize", o_text "Standard_D2s_v3");
        ("diskSizeGB", JLit (PInt 128));
        ("subnetId", o_text "/subscriptions/subscriptionId/resourceGroups/vnetResourceGroup/providers/Microsoft.Network/virtualNetworks/vnet/subnets/worker");
        ("count", JLit (PInt 3))]]);
      ("apiserverProfile", JObject [("visibility", o_text "Public")]);
      ("ingressProfiles", JArray [JObject [("name", o_text "default");
        ("visibility", o_text "Public")]])])])]);
   ("responses", JObject [("200", JObject [("body", JObject [("id", o_text "/subscriptions/subscriptionId/resourceGroups/resourceGroup/providers/Microsoft.RedHatOpenShift/OpenShiftClusters/resourceName");
      ("name", o_text "resourceName");
      ("type", o_text "Microsoft.RedHatOpenShift/OpenShiftClusters");
      ("location", o_text "location");
      ("tags", JObject [("key", o_text "value")]);
      ("properties", JObject [("provisioningState", o_text "Succeeded");
       ("clusterProfile", JObject [("domain", o_text "cluster.location.aroapp.io");
        ("version", o_text "4.3.0");
        ("resourceGroupId", o_text "/subscriptions/subscriptionId/resourceGroups/clusterResourceGroup")]);
       ("consoleProfile", JObject [("url", o_text "https://console-openshift-console.apps.cluster.location.aroapp.io/")]);
       ("servicePrincipalProfile", JObject [("clientId", o_text "clientId")]);
       ("networkProfile", JObject [("podCidr", o_text "10.128.0.0/14");
        ("serviceCidr", o_text "172.30.0.0/16")]);
       ("masterProfile", JObject [("vmSize", o_text "Standard_D8s_v3");
        ("subnetId", o_text "/subscriptions/subscriptionId/resourceGroups/vnetResourceGroup/providers/Microsoft.Network/virtualNetworks/vnet/subnets/master")]);
       ("workerProfiles", JArray [JObject [("name", o_text "worker");
         ("vmSize", o_text "Standard_D2s_v3");
         ("diskSizeGB", JLit (PInt 128));
         ("subnetId", o_text "/subscriptions/subscriptionId/resourceGroups/vnetResourceGroup/providers/Microsoft.Network/virtualNetworks/vnet/subnets/worker");
         ("count", JLit (PInt 3))]]);
       ("apiserverProfile", JObject [("visibility", o_text "Public");
        ("url", o_text "https://api.cluster.location.aroapp.io:6443/");
        ("ip", o_text "1.2.3.4")]);
       ("ingressProfiles", JArray [JObject [("name", o_text "default");
         ("visibility", o_text "Public");
         ("ip", o_text "1.2.3.4")]])])])]);
    ("201", JObject [("body", JObject [("id", o_text "/subscriptions/subscriptionId/resourceGroups/resourceGroup/providers/Microsoft.RedHatOpenShift/OpenShiftClusters/resourceName");
      ("name", o_text "resourceName");
      ("type", o_text "Microsoft.RedHatOpenShift/OpenShiftClusters");
      ("location", o_text "location");
      ("tags", JObject [("key", o_text "value")]);
      ("properties", JObject [("provisioningState", o_text "Succeeded");
       ("clusterProfile", JObject [("domain", o_text "cluster.location.aroapp.io");
        ("version", o_text "4.3.0");
        ("resourceGroupId", o_text "/subscriptions/subscriptionId/resourceGroups/clusterResourceGroup")]);
       ("consoleProfile", JObject [("url", o_text "https://console-openshift-console.apps.cluster.location.aroapp.io/")]);
       ("servicePrincipalProfile", JObject [("clientId", o_text "clientId")]);
       ("networkProfile", JObject [("podCidr", o_text "10.128.0.0/14");
        ("serviceCidr", o_text "172.30.0.0/16")]);
       ("masterProfile", JObject [("vmSize", o_text "Standard_D8s_v3");
        ("subnetId", o_text "/subscriptions/subscriptionId/resourceGroups/vnetResourceGroup/providers/Microsoft.Network/virtualNetworks/vnet/subnets/master")]);
       ("workerProfiles", JArray [JObject [("name", o_text "worker");
         ("vmSize", o_text "Standard_D2s_v3");
         ("diskSizeGB", JLit (PInt 128));
         ("subnetId", o_text "/subscriptions/subscriptionId/resourceGroups/vnetResourceGroup/providers/Microsoft.Network/virtualNetworks/vnet/subnets/worker");
         ("count", JLit (PInt 3))]]);
       ("apiserverProfile", JObject [("visibility", o_text "Public");
        ("url", o_text "https://api.cluster.location.aroapp.io:6443/");
        ("ip", o_text "1.2.3.4")]);
       ("ingressProfiles", JArray [JObject [("name", o_text "default");
         ("visibility", o_text "Public");
         ("ip", o_text "1.2.3.4")]])])])])])]);
  ("OpenShiftClusters_ListCredentials.json", JObject [("parameters", JObject [("api-version", o_text "2019-12-31-preview");
    ("subscriptionId", o_text "subscriptionId");
    ("resourceGroupName", o_text "resourceGroup");
    ("resourceName", o_text "resourceName")]);
   ("responses", JObject [("200", JObject [("body", JObject [("kubeadminUsername", o_text "kubeadmin");
      ("kubeadminPassword", o_text "password")])])])])].
