(* ===== verification/SwaggerSpec.v ===== *)
(** * What the walk over the types defines

    The names that the walk reaches and the schema of each; that the walk comes to an
    end, with those names and no others, and that the order in which it takes the
    dependencies of a type makes no difference. *)
From S2P Require Import Prelude GoStrings Api Arm Marshal SwaggerTypes Swagger.
From Stdlib Require Import OrdersEx Sorted.

(** ** Maps *)
Definition before (a b : string) : Prop := String.compare a b = Lt.

#[export] Instance before_order : StrictOrder before.
Proof. apply String_as_OT.lt_strorder. Qed.

Lemma before_irrefl a : ~ before a a.
Proof. apply irreflexivity, _. Qed.

Lemma compare_spec a b : CompSpec eq before a b (String.compare a b).
Proof. apply String_as_OT.compare_spec. Qed.

Section maps.
Context {A : Type}.
Implicit Types (m : list (string * A)).

Lemma get_set_key k v m n : get_key n (set_key k v m) = if decide (n = k) then Some v else get_key n m.
Proof.
  induction m as [|[k' v'] m IH]; [done|]. cbn.
  destruct (compare_spec k k') as [->|H|H]; cbn; [by destruct (decide (n = k'))|done|].
  rewrite IH. destruct (decide (n = k)), (decide (n = k')); subst; try done. by destruct (before_irrefl k').
Qed.

Definition ordered (m : list (string * A)) : Prop := StronglySorted before (fst <$> m).

Lemma set_key_elem k v m n : n ∈ fst <$> set_key k v m -> n = k \/ n ∈ fst <$> m.
Proof.
  induction m as [|[k' v'] m IH]; simpl; [set_solver|].
  destruct (String.compare k k'); cbn; set_solver.
Qed.

Lemma set_key_ordered k v m : ordered m -> ordered (set_key k v m).
Proof.
  unfold ordered. induction m as [|[k' v'] m IH]; intros Hm; [by repeat constructor|].
  apply StronglySorted_inv in Hm as [Hm Hk]. cbn. rewrite Forall_forall in Hk.
  destruct (compare_spec k k') as [->|H|H]; cbn.
  - constructor; [done|]. by apply Forall_forall.
  - constructor; [constructor; [done|by apply Forall_forall]|].
    apply Forall_forall. intros x [->|Hx]%elem_of_cons; [done|]. etransitivity; [done|by apply Hk].
  - constructor; [by apply IH|]. apply Forall_forall. intros x [->|Hx]%set_key_elem; [done|by apply Hk].
Qed.

Lemma get_key_elem k m : is_Some (get_key k m) <-> k ∈ fst <$> m.
Proof.
  induction m as [|[k' v'] m IH]; cbn; [split; [by intros []|by inversion 1]|].
  rewrite elem_of_cons, <- IH. destruct (decide (k = k')) as [->|]; [|naive_solver]. split; [by left|by eauto].
Qed.

(** A map is what it gives for each key. *)
Lemma ordered_ext m1 m2 : ordered m1 -> ordered m2 -> (forall k, get_key k m1 = get_key k m2) -> m1 = m2.
Proof.
  unfold ordered. revert m2. induction m1 as [|[k1 v1] m1 IH]; intros [|[k2 v2] m2] H1 H2 E; [done| | |].
  - specialize (E k2). cbn in E. by rewrite decide_True in E.
  - specialize (E k1). cbn in E. by rewrite decide_True in E.
  - cbn in H1, H2. apply StronglySorted_inv in H1 as [H1 L1], H2 as [H2 L2].
    rewrite Forall_forall in L1, L2.
    assert (k1 = k2) as <-.
    { destruct (decide (k1 = k2)) as [|Hne]; [done|]. exfalso.
      assert (before k2 k1) as B1. { apply L2, get_key_elem. specialize (E k1). cbn in E.
        rewrite decide_True, decide_False in E by done. rewrite <- E. eauto. }
      assert (before k1 k2) as B2. { apply L1, get_key_elem. specialize (E k2). cbn in E.
        rewrite decide_False, decide_True in E by done. rewrite E. eauto. }
      apply (before_irrefl k1). by etransitivity. }
    assert (v1 = v2) as <-. { specialize (E k1). cbn in E. rewrite !decide_True in E by done. by simplify_eq. }
    f_equal. apply IH; [done..|]. intros k. specialize (E k). cbn in E. destruct (decide (k = k1)) as [->|]; [|done].
    assert (forall m, (forall x, x ∈ fst <$> m -> before k1 x) -> get_key k1 m = None) as Hnone.
    { intros m Hm. apply eq_None_not_Some. intros Hk%get_key_elem%Hm. by destruct (before_irrefl k1). }
    by rewrite !Hnone.
Qed.
End maps.

(** ** The walk *)
Section walk.
Context (tw : typeWalker).

Definition schema (n : string) : Schema := match schema_of tw n with Ok (s, _) => s | _ => zero_Schema end.
Definition mentions (n : string) : list string := match schema_of tw n with Ok (_, deps) => deps | _ => [] end.

(** Every declared type has a schema, and mentions only declared types. *)
Definition has_schema (n : string) : bool := match schema_of tw n with Ok _ => true | _ => false end.
Definition declared : list string := d_Name <$> pk_Types (tw_pkg tw).
Definition closed : bool :=
  forallb (fun n => has_schema n && forallb (fun d => bool_decide (d ∈ declared)) (mentions n)) declared.

(** What is reached from [names], through types that [definitions] has not *)
Inductive reached (definitions : list (string * Schema)) (names : list string) : string -> Prop :=
| reached_root n : n ∈ names -> reached definitions names n
| reached_step n d : reached definitions names n -> d ∈ mentions n -> get_key d definitions = None ->
    reached definitions names d.

Lemma closed_schema n : closed -> n ∈ declared ->
  schema_of tw n = Ok (schema n, mentions n) /\ forall d, d ∈ mentions n -> d ∈ declared.
Proof.
  unfold closed. rewrite Is_true_true, forallb_forall. intros Hc Hn%list_elem_of_In.
  apply Hc, andb_prop in Hn as [Hs Hd]. split.
  - unfold has_schema in Hs. unfold schema, mentions. by destruct (schema_of tw n) as [[]| | |].
  - intros d Hin. rewrite forallb_forall in Hd. apply list_elem_of_In, Hd in Hin. by apply bool_decide_eq_true in Hin.
Qed.

Lemma reached_declared ds names n :
  closed -> (forall m, m ∈ names -> m ∈ declared) -> reached ds names n -> n ∈ declared.
Proof. intros Hc Hn. induction 1; [by apply Hn|]. by eapply closed_schema. Qed.

(** How many names are to be defined yet *)
Definition undefined (ds : list (string * Schema)) : nat :=
  length (filter (fun n => get_key n ds = None) declared).

Definition extends (ds ds' : list (string * Schema)) : Prop := forall n, is_Some (get_key n ds) -> is_Some (get_key n ds').

#[local] Instance extends_order : PreOrder extends.
Proof. split; [by intros ds n|]. intros a b c H1 H2 n Hn. by apply H2, H1. Qed.

Lemma undefined_filter ds ds' : extends ds ds' ->
  filter (fun n => get_key n ds' = None) declared =
  filter (fun n => get_key n ds' = None) (filter (fun n => get_key n ds = None) declared).
Proof.
  intros He. symmetry. apply list_filter_filter_l. intros n Hn. apply eq_None_not_Some.
  intros Hs%He. rewrite Hn in Hs. by destruct Hs.
Qed.

Lemma undefined_extends ds ds' : extends ds ds' -> undefined ds' <= undefined ds.
Proof. intros He. unfold undefined. rewrite (undefined_filter _ _ He). apply length_filter. Qed.

Lemma extends_set name s ds : extends ds (set_key name s ds).
Proof. intros n Hn. rewrite get_set_key. case_decide; eauto. Qed.

Lemma undefined_set name s ds :
  name ∈ declared -> get_key name ds = None -> undefined (set_key name s ds) < undefined ds.
Proof.
  intros Hin Hn. unfold undefined. rewrite (undefined_filter _ _ (extends_set name s ds)).
  apply length_filter_lt with name; [by apply list_elem_of_filter|]. rewrite get_set_key. by rewrite decide_True.
Qed.

(** *** A call of [_define]

    [base]: the definitions that the walk started with. [grown ds ds']: between the
    two, only names that are reached were added, with their schema, and what an added
    name mentions is there. *)
Section from.
Context (order : list string -> list string) (Horder : forall l x, x ∈ order l <-> x ∈ l).
Context (base : list (string * Schema)) (roots : list string).
Context (Hclosed : closed) (Hroots : forall m, m ∈ roots -> m ∈ declared).

Definition grown (ds ds' : list (string * Schema)) : Prop :=
  (forall n, get_key n ds' = get_key n ds \/
     get_key n ds = None /\ reached base roots n /\ get_key n ds' = Some (schema n)) /\
  (forall n d, get_key n ds = None -> is_Some (get_key n ds') -> d ∈ mentions n -> is_Some (get_key d ds')).

Lemma grown_extends ds ds' : grown ds ds' -> extends ds ds'.
Proof. intros [H _] n [s Hs]. destruct (H n) as [E|(E & _)]; [|congruence]. rewrite E. eauto. Qed.

#[local] Instance grown_order : PreOrder grown.
Proof.
  split; [split; [by left|]; intros n d E Hn; rewrite E in Hn; by destruct Hn|].
  intros a b c Hab Hbc. pose proof (grown_extends _ _ Hbc) as Eb. pose proof (grown_extends _ _ Hab) as Ea.
  destruct Hab as [Hab Mab], Hbc as [Hbc Mbc]. split.
  - intros n. destruct (Hab n) as [E|(E & R & S)], (Hbc n) as [E'|(E' & R' & S')]; rewrite ?E', ?S'; [left|right|right|]; try congruence.
    + rewrite <- E. auto.
    + auto.
  - intros n d E Hn Hd. destruct (get_key n b) as [s|] eqn:Eb'; [apply Eb, (Mab n); eauto|by apply (Mbc n)].
Qed.

Lemma define_deps_grown fuel deps ds :
  (forall ds name, extends base ds -> reached base roots name -> undefined (set_key name (schema name) ds) < fuel ->
     exists ds', _define order tw fuel ds name = Ok ds' /\ grown (set_key name (schema name) ds) ds' /\
                 forall d, d ∈ mentions name -> is_Some (get_key d ds')) ->
  extends base ds -> undefined ds <= fuel ->
  (forall d, d ∈ deps -> get_key d base = None -> reached base roots d) ->
  exists ds', define_deps (_define order tw fuel) ds deps = Ok ds' /\ grown ds ds' /\
              forall d, d ∈ deps -> is_Some (get_key d ds').
Proof.
  intros IH. revert ds. induction deps as [|d deps IHd]; intros ds Hb Hf Hr.
  { exists ds. split_and!; [done|done|]. by inversion 1. }
  simpl. destruct (get_key d ds) as [s|] eqn:Ed.
  - destruct (IHd ds) as (ds' & E & G & M); [done..|intros; apply Hr; [by right|done]|].
    exists ds'. split_and!; [done..|]. intros x [->|]%elem_of_cons; [|by apply M].
    apply (grown_extends _ _ G). eauto.
  - assert (reached base roots d) as Rd.
    { apply Hr; [by left|]. apply eq_None_not_Some. intros Hs%Hb. rewrite Ed in Hs. by destruct Hs. }
    pose proof (reached_declared _ _ _ Hclosed Hroots Rd) as Dd.
    pose proof (undefined_set d (schema d) ds Dd Ed) as Hlt.
    destruct (IH ds d) as (ds1 & -> & G1 & M1); [done..|lia|]. simpl.
    assert (grown ds ds1) as G.
    { split.
      - intros n. destruct G1 as [G1 _]. specialize (G1 n). rewrite get_set_key in G1.
        destruct (decide (n = d)) as [->|]; [|done]. right. split_and!; [done..|]. by destruct G1 as [|[]].
      - intros n x E Hn Hx. destruct (decide (n = d)) as [->|Hne]; [by apply M1|].
        destruct G1 as [_ G1]. apply (G1 n); [|done..]. by rewrite get_set_key, decide_False. }
    pose proof (grown_extends _ _ G) as X.
    destruct (IHd ds1) as (ds' & E & G' & M); [by etransitivity| |intros; apply Hr; [by right|done]|].
    { pose proof (undefined_extends _ _ X). lia. }
    exists ds'. split_and!; [done|by etransitivity|]. intros x [->|]%elem_of_cons; [|by apply M].
    apply (grown_extends _ _ G'), (grown_extends _ _ G1). rewrite get_set_key, decide_True by done. eauto.
Qed.

Lemma define_grown fuel ds name :
  extends base ds -> reached base roots name -> undefined (set_key name (schema name) ds) < fuel ->
  exists ds', _define order tw fuel ds name = Ok ds' /\ grown (set_key name (schema name) ds) ds' /\
              forall d, d ∈ mentions name -> is_Some (get_key d ds').
Proof.
  revert ds name. induction fuel as [|fuel IH]; intros ds name Hb Hr Hf; [lia|]. simpl.
  pose proof (reached_declared _ _ _ Hclosed Hroots Hr) as Hd.
  destruct (closed_schema name Hclosed Hd) as [-> _]. cbn.
  destruct (define_deps_grown fuel (order (mentions name)) (set_key name (schema name) ds)) as (ds' & E & G & M).
  - done.
  - etransitivity; [done|apply extends_set].
  - lia.
  - intros d Hd' Hn. rewrite Horder in Hd'. by apply (reached_step _ _ name).
  - exists ds'. split_and!; [done..|]. intros d Hm. apply M. by rewrite Horder.
Qed.

(** *** All the names that are asked for *)
Lemma define_all_grown names ds :
  extends base ds -> (forall n, n ∈ names -> n ∈ roots) ->
  exists ds', define_all order tw ds names = Ok ds' /\ extends ds ds' /\
    (forall n, n ∈ names -> get_key n ds' = Some (schema n)) /\
    (forall n, get_key n ds' = get_key n ds \/ reached base roots n /\ get_key n ds' = Some (schema n)) /\
    (forall n d, n ∈ names \/ get_key n ds = None -> is_Some (get_key n ds') -> d ∈ mentions n -> is_Some (get_key d ds')).
Proof.
  revert ds. induction names as [|r names IH]; intros ds Hb Hn.
  { exists ds. split_and!; [done|done|by inversion 1|by left|]. intros n d [Hin|E] [s Hs]; [by inversion Hin|congruence]. }
  assert (reached base roots r) as Rr by (apply reached_root, Hn; by left).
  destruct (define_grown (S (length (pk_Types (tw_pkg tw)))) ds r) as (ds1 & E1 & G1 & M1); [done..| |].
  { unfold undefined. pose proof (length_filter (fun n => get_key n (set_key r (schema r) ds) = None) declared) as L.
    unfold declared in L at 2. rewrite length_fmap in L. lia. }
  assert (extends ds ds1) as X1 by (etransitivity; [apply extends_set|by apply grown_extends]).
  destruct (IH ds1) as (ds' & E & X & N & K & M); [by etransitivity|intros; apply Hn; by right|].
  assert (get_key r ds1 = Some (schema r)) as Er.
  { destruct G1 as [G1 _]. specialize (G1 r). rewrite get_set_key, decide_True in G1 by done. by destruct G1 as [|[]]. }
  exists ds'. split_and!.
  - simpl. unfold tw_define. by rewrite E1.
  - by etransitivity.
  - intros n [->|Hin]%elem_of_cons; [|by apply N]. by destruct (K r) as [->|[_ ->]].
  - intros n. destruct (K n) as [->|]; [|by right]. destruct G1 as [G1 _]. specialize (G1 n).
    rewrite get_set_key in G1. destruct (decide (n = r)) as [->|]; [right; by split|]. naive_solver.
  - intros n d Hor Hs Hd. destruct (decide (n = r)) as [->|Hne]; [by apply X, M1|].
    destruct (decide (n ∈ names)) as [|Hni]; [by apply (M n); [left|..]|].
    destruct Hor as [Hor|Hor]; [apply elem_of_cons in Hor; naive_solver|].
    destruct (get_key n ds1) as [s|] eqn:En; [|by apply (M n); [right|..]].
    apply X. destruct G1 as [_ G1]. apply (G1 n); [by rewrite get_set_key, decide_False|by rewrite En|done].
Qed.
End from.

(** What [define_all] makes: each name that is reached with its schema, everything
    else as it was. *)
Lemma define_all_spec order ds names :
  (forall l x, x ∈ order l <-> x ∈ l) -> closed -> (forall m, m ∈ names -> m ∈ declared) ->
  exists ds', define_all order tw ds names = Ok ds' /\
    (forall n, reached ds names n -> get_key n ds' = Some (schema n)) /\
    (forall n, get_key n ds' = get_key n ds \/ reached ds names n) /\
    (forall n d, reached ds names n -> d ∈ mentions n -> is_Some (get_key d ds')).
Proof.
  intros Ho Hc Hr. destruct (define_all_grown order Ho ds names Hc Hr names ds) as (ds' & E & X & N & K & M); [done..|].
  assert (forall n, reached ds names n -> get_key n ds' = Some (schema n)) as R.
  { assert (forall n, reached ds names n -> n ∈ names \/ get_key n ds = None) as Hnew.
    { intros n. destruct 1; [by left|by right]. }
    induction 1 as [n Hn|n d Hn IH Hd E']; [by apply N|].
    assert (is_Some (get_key d ds')) as [s Hs].
    { apply (M n); [by apply Hnew|rewrite IH; eauto|done]. }
    destruct (K d) as [Kd|[_ Kd]]; [congruence|done]. }
  exists ds'. split_and!; [done|done| |].
  - intros n. destruct (K n) as [|[]]; auto.
  - intros n d Hn Hd. apply (M n); [destruct Hn; auto|rewrite R by done; eauto|done].
Qed.

Lemma define_deps_ordered order fuel deps ds ds' :
  (forall ds name ds', ordered ds -> _define order tw fuel ds name = Ok ds' -> ordered ds') ->
  ordered ds -> define_deps (_define order tw fuel) ds deps = Ok ds' -> ordered ds'.
Proof.
  intros IH. revert ds. induction deps as [|d deps IHd]; intros ds Ho E; simplify_eq/=; [done|].
  destruct (get_key d ds); [by eapply IHd|]. apply res_bind_ok in E as (ds1 & E1 & E). eauto.
Qed.

Lemma _define_ordered order fuel ds name ds' :
  ordered ds -> _define order tw fuel ds name = Ok ds' -> ordered ds'.
Proof.
  revert ds name ds'. induction fuel as [|fuel IH]; intros ds name ds' Ho E; [done|]. simpl in E.
  apply res_bind_ok in E as ([s deps] & _ & E). eapply define_deps_ordered; [apply IH| |exact E].
  by apply set_key_ordered.
Qed.

Lemma define_all_ordered order ds names ds' :
  ordered ds -> define_all order tw ds names = Ok ds' -> ordered ds'.
Proof.
  revert ds. induction names as [|r names IH]; intros ds Ho E; simplify_eq/=; [done|].
  apply res_bind_ok in E as (ds1 & E1 & E). eapply IH, E. by eapply _define_ordered.
Qed.

Lemma define_all_order order order' ds names :
  (forall l x, x ∈ order l <-> x ∈ l) -> (forall l x, x ∈ order' l <-> x ∈ l) ->
  closed -> (forall m, m ∈ names -> m ∈ declared) -> ordered ds ->
  define_all order tw ds names = define_all order' tw ds names.
Proof.
  intros Ho Ho' Hc Hr Hs.
  destruct (define_all_spec order ds names) as (a & Ea & Ra & Na & _); [done..|].
  destruct (define_all_spec order' ds names) as (b & Eb & Rb & Nb & _); [done..|].
  rewrite Ea, Eb. f_equal. apply ordered_ext; [by eapply define_all_ordered..|].
  intros k. destruct (Na k) as [Ha|Ha]; [|by rewrite Ra, Rb].
  destruct (Nb k) as [Hb|Hb]; [by rewrite Ha, Hb|by rewrite Ra, Rb].
Qed.
End walk.

(** ** The specification *)
Section specification.
Context (order : list string -> list string) (Horder : forall l x, x ∈ order l <-> x ∈ l).

Lemma define_order load ds pkgname names tw :
  newTypeWalker load pkgname = Ok tw -> closed tw -> forallb (fun n => bool_decide (n ∈ declared tw)) names = true ->
  ordered ds -> define order load ds pkgname names = define (fun l => l) load ds pkgname names.
Proof.
  intros Htw Hc Hn Hs. unfold define. rewrite Htw. simpl. apply define_all_order; [done|done|done| |done].
  rewrite forallb_forall in Hn. intros m Hm%list_elem_of_In. by apply Hn, bool_decide_eq_true in Hm.
Qed.
End specification.

(** A slice of a basic type other than a byte has a schema without a type. *)
Example slice_of_strings : schemaFromType (TSlice (TBasic String_)) = Ok (zero_Schema, []).
Proof. reflexivity. Qed.
Example slice_of_slices :
  schemaFromType (TSlice (TSlice (TBasic Uint8))) = Ok (zero_Schema <| sc_Type := "array" |> <| sc_Items := Some (type_schema "string") |>, []).
Proof. reflexivity. Qed.
