(* ===== verification/SwaggerServed.v ===== *)
(** * What the specification holds: its references, its operations, its files *)
From S2P Require Import Prelude GoStrings.
From S2P Require Import Api External Arm Marshal OrderedMap SwaggerTypes Swagger SwaggerData SwaggerSpec.

Definition walker_of (pkgname : string) : typeWalker :=
  match newTypeWalker load pkgname with Ok tw => tw | _ => mkTypeWalker (mkPackage [] []) [] end.

(** The order of the walk makes no difference to the specification. *)
Lemma specification_order order :
  (forall l x, x ∈ order l <-> x ∈ l) -> specification order load = specification (fun l => l) load.
Proof.
  intros Ho. unfold specification.
  rewrite (define_order order Ho load _ _ _ (walker_of external_package)) by (vm_compute; repeat constructor).
  destruct (define (fun l => l) load (sw_Definitions (with_paths new_specification)) external_package _) as [ds| | |] eqn:E; [|done..].
  simpl. rewrite (define_order order Ho load _ _ _ (walker_of internal_package)); [done|by vm_compute..|].
  apply res_bind_ok in E as (tw & _ & E). eapply define_all_ordered, E. constructor.
Qed.

Lemma bind_cong {W A B} (m : M W A) (f g : A -> M W B) w : (forall a w, f a w = g a w) -> bind m f w = bind m g w.
Proof. intros E. unfold bind. destruct (m w) as [[] ?]; [apply E|done..]. Qed.

(** ** References *)
Fixpoint references (j : json) : list string :=
  match j with
  | JObject m =>
      (fix go (m : list (string * json)) : list string :=
         match m with
         | [] => []
         | (k, v) :: m =>
             match v with JLit (PString s) => if decide (k = "$ref") then [s] else [] | _ => references v end ++ go m
         end) m
  | JArray l => concat (map references l)
  | _ => []
  end.
Definition member (k : string) (j : json) : option json := match j with JObject m => get_key k m | _ => None end.

(** A reference is into the common types, to a definition of the specification, or to
    the file of an example. *)
Definition resolves (specification : json) (examples : list (string * json)) (r : string) : Prop :=
  HasPrefix r common_types = true \/
  (exists n s, r = "#/definitions/" +:+ n /\ (definitions ← member "definitions" specification; member n definitions) = Some s) \/
  (exists f e, r = "./examples/" +:+ f /\ get_key f examples = Some e).

Definition resolves_bool (specification : json) (examples : list (string * json)) (r : string) : bool :=
  HasPrefix r common_types ||
  existsb (fun '(n, _) => bool_decide (r = "#/definitions/" +:+ n))
    (match member "definitions" specification with Some (JObject m) => m | _ => [] end) ||
  existsb (fun '(f, _) => bool_decide (r = "./examples/" +:+ f)) examples.

Lemma get_key_in {A} k (v : A) m : In (k, v) m -> exists v', get_key k m = Some v'.
Proof.
  intros Hin%list_elem_of_In. apply get_key_elem, list_elem_of_fmap. by exists (k, v).
Qed.

Lemma resolves_spec j examples r : resolves_bool j examples r = true -> resolves j examples r.
Proof.
  unfold resolves_bool, resolves. intros [[H|H]%orb_true_iff|H]%orb_true_iff; [by left|right; left|right; right].
  - apply existsb_exists in H as ([n s] & Hin & ->%bool_decide_eq_true).
    destruct (member "definitions" j) as [[| | |m]|]; [done..| |done].
    apply get_key_in in Hin as [s' Hs']. by exists n, s'.
  - apply existsb_exists in H as ([f e] & Hin & ->%bool_decide_eq_true). apply get_key_in in Hin as [e' He']. by exists f, e'.
Qed.

(** ** Operations: path, method and operation *)
Definition methods_of (pi : PathItem) : list (string * option Operation) :=
  [("GET", pi_Get pi); ("PUT", pi_Put pi); ("POST", pi_Post pi); ("DELETE", pi_Delete pi);
   ("OPTIONS", pi_Options pi); ("HEAD", pi_Head pi); ("PATCH", pi_Patch pi)].
Definition operations (s : Swagger) : list (string * string * Operation) :=
  concat (map (fun '(p, pi) => omap (fun '(m, o) => (fun op => (p, m, op)) <$> o) (methods_of pi)) (sw_Paths s)).

(** ** The files *)
Section files.
Context {W : Type} `{!Outputs W}.

Fixpoint write_files (outputDir : string) (files : list (string * json)) : M W unit :=
  match files with
  | [] => ret tt
  | (f, j) :: files =>
      do! _ <- write_json (outputDir +:+ "/examples/" +:+ f) j;
      write_files outputDir files
  end.

(** The files under src/swagger, put in place of what was there *)
Definition kept_files (outputDir : string) (examples : list (string * json)) : M W unit :=
  do! _ <- os_RemoveAll (outputDir +:+ "/examples");
  do! _ <- os_MkdirAll (outputDir +:+ "/examples");
  do! _ <- write_files outputDir examples;
  write_json (outputDir +:+ "/redhatopenshift.json") redhatopenshift_json.

Lemma write_examples_files dir ops files w :
  map (fun op => (op_OperationID op +:+ ".json", example op)) ops = map (fun f => (fst f, Ok (snd f))) files ->
  write_examples dir ops w = write_files dir files w.
Proof.
  revert files w. induction ops as [|op ops IH]; intros [|[f j] files] w E; simplify_eq/=; [done|].
  match goal with H : example op = Ok j |- _ => rewrite H end.
  match goal with H : map _ ops = map _ files |- _ => rename H into E' end.
  unfold lift. cbn [bind]. unfold bind at 1. unfold bind. 
  destruct (write_json _ j w) as [[[]| | |] w1]; [by apply IH|done..].
Qed.
End files.

Lemma specification_files :
  match specification (fun l => l) load with
  | Ok s =>
      encode_Swagger s = redhatopenshift_json /\
      map (fun op => (op_OperationID op +:+ ".json", example op)) (concat (map (fun pi => operations_of (snd pi)) (sw_Paths s))) =
      map (fun f => (fst f, Ok (snd f))) examples_json
  | _ => False
  end.
Proof. vm_compute. by split. Qed.

Lemma specification_ok : exists s, specification (fun l => l) load = Ok s /\ encode_Swagger s = redhatopenshift_json.
Proof.
  pose proof specification_files as Hf. revert Hf. generalize (specification (fun l => l) load) as r.
  intros [s| | |] Hf; [|destruct Hf..]. exists s. split; [reflexivity|apply Hf].
Qed.

Lemma references_resolve :
  forallb (resolves_bool redhatopenshift_json examples_json) (references redhatopenshift_json) = true.
Proof. by vm_compute. Qed.

(** In whatever order the paths are gone over, the examples are the same files. *)
Lemma visited_examples (visit : list (string * PathItem) -> list (string * PathItem)) s :
  (forall l, visit l ≡ₚ l) -> specification (fun l => l) load = Ok s ->
  exists files, files ≡ₚ examples_json /\
    map (fun op => (op_OperationID op +:+ ".json", example op)) (concat (map (fun pi => operations_of (snd pi)) (visit (sw_Paths s)))) =
    map (fun f => (fst f, Ok (snd f))) files.
Proof.
  intros Hv Hs. pose proof specification_files as Hf. rewrite Hs in Hf. destruct Hf as [_ Hf].
  destruct (Permutation_map_inv (fun f : string * json => (fst f, Ok (snd f))) examples_json
    (l1 := map (fun op => (op_OperationID op +:+ ".json", example op)) (concat (map (fun pi => operations_of (snd pi)) (visit (sw_Paths s)))))) as (files & E & P).
  { rewrite <- Hf. apply Permutation_map. rewrite <- !flat_map_concat_map. by apply Permutation_flat_map. }
  exists files. split; [by symmetry|done].
Qed.
