(* ===== verification/Mirror.v ===== *)
(** * The mirror of the images (src/pkg/mirror)

    [Mirror] copies the images of a release into another registry: ten goroutines
    take work from a channel without a buffer that the caller fills and closes. The
    library of containers/image is the class [Images]; one step of the pool is a
    rendezvous on the channel, a copy, an access to the error flag or to the wait
    group. *)
From S2P Require Import Prelude GoStrings Regex.
From Stdlib Require Import Ascii.

(** ** version.go

    [fmt.Sscanf] of a number into a byte: it skips spaces, not a new line, takes
    decimal digits, one at least, and fails above 255. *)
Fixpoint SkipSpace (s : string) : option string :=
  match s with
  | String c s' =>
      if decide (c = "010"%char) then None
      else if decide (c = "013"%char) then
        match s' with
        | String d _ => if decide (d = "010"%char) then None else SkipSpace s'
        | EmptyString => SkipSpace s'
        end
      else if decide (c ∈ [" "%char; "009"%char; "011"%char; "012"%char]) then SkipSpace s'
      else Some s
  | EmptyString => Some s
  end.

Fixpoint scan_digits (acc : option Z) (s : string) : option (Z * string) :=
  match s with
  | String c s' =>
      match digit_of c with
      | Some d => scan_digits (Some (default 0 acc * 10 + d)%Z) s'
      | None => n ← acc; Some (n, s)
      end
  | EmptyString => n ← acc; Some (n, s)
  end.

Definition scan_byte (s : string) : option (Z * string) :=
  s ← SkipSpace s;
  '(n, s) ← scan_digits None s;
  if decide (n <= 255)%Z then Some (n, s) else None.

Definition scan_dot (s : string) : option string :=
  match s with
  | String "." s => Some s
  | _ => None
  end.

Record Version := mkVersion { v_0 : Z; v_1 : Z; v_2 : Z }.

#[export] Instance Version_eq_dec : EqDecision Version.
Proof. solve_decision. Defined.

Definition newVersion (vsn : string) : res Version :=
  match
    '(a, s) ← scan_byte vsn; s ← scan_dot s;
    '(b, s) ← scan_byte s; s ← scan_dot s;
    '(c, _) ← scan_byte s; Some (mkVersion a b c)
  with
  | Some v => Ok v
  | None => Err (ErrOther "input does not match format")
  end.

Definition Lt (v w : Version) : bool :=
  (v_0 v <? v_0 w)%Z || (v_1 v <? v_1 w)%Z || (v_2 v <? v_2 w)%Z.

(** ** graph.go *)
Record Node := mkNode { n_Version : string; n_Payload : string }.

(** A request of [AddFromGraph]: its parameters before they are encoded *)
Record graph_request := mkRequest { gr_url : string; gr_channel : string; gr_Accept : string }.
Record graph_response := mkResponse { rs_StatusCode : Z; rs_ContentType : string; rs_body : string }.

(** The upgrade service, and the decoder of its JSON: null leaves a nil pointer. *)
Class Upgrades (W : Type) := {
  up_Do : graph_request -> M W graph_response;
  up_Decode : string -> res (option (list Node));
}.

Definition graph_url : string := "https://api.openshift.com/api/upgrades_info/v1/graph".
Definition unexpected_status (code : Z) : error :=
  ErrOther ("unexpected status code " +:+ Itoa code).
Definition unexpected_type (ct : string) : error :=
  ErrOther ("unexpected content type " +:+ Quote ct).

Fixpoint keep_nodes (min : Version) (nodes : list Node) : res (list string) :=
  match nodes with
  | [] => Ok []
  | node :: nodes =>
      do? version <- newVersion (n_Version node);
      do? releases <- keep_nodes min nodes;
      Ok (if Lt version min then releases else n_Payload node :: releases)
  end.

Section graph.
Context {W : Type} `{Upgrades W}.

Definition AddFromGraph (channel : string) (min : Version) : M W (list string) :=
  do! resp <- up_Do (mkRequest graph_url
    (channel +:+ "-" +:+ Itoa (v_0 min) +:+ "." +:+ Itoa (v_1 min)) "application/json");
  if decide (rs_StatusCode resp <> 200%Z) then throw (unexpected_status (rs_StatusCode resp))
  else if decide (rs_ContentType resp <> "application/json") then
    throw (unexpected_type (rs_ContentType resp))
  else
    lift (do? g <- up_Decode (rs_body resp);
          do? nodes <- deref g;
          keep_nodes min nodes).
End graph.

(** ** imagestream.go *)

(** A tag's [From] is a pointer. *)
Record TagReference := mkTag { tg_Name : string; tg_From : option string }.
Definition ImageStream : Type := list TagReference.

Class Images (W : Type) := {
  Auth : Type;
  Ref : Type;
  Layer : Type;
  Reader : Type;                       (* an [io.Reader], with what is left to read *)
  NewPolicyContext : M W unit;
  ParseReference : string -> res Ref;
  NewImage : Auth -> Ref -> M W (list Layer);      (* its [LayerInfos] *)
  NewImageSource : Auth -> Ref -> M W unit;
  GetBlob : Ref -> Layer -> M W Reader;
  Peek2 : Reader -> res string;
  gzip_NewReader : Reader -> res Reader;
  (** the entries of [tar.NewReader(r)], and the error that ends them, none for EOF *)
  tar_entries : Reader -> list (string * Reader) * option error;
  (** JSON null leaves a nil pointer *)
  Decode_ImageStream : Reader -> res (option ImageStream);
  copy_Image : Auth -> Auth -> Ref -> Ref -> M W unit;     (* to, from *)
}.

Definition gzip_magic : string := String "031" (String "139" EmptyString).
Definition image_references : string := "release-manifests/image-references".
Definition not_found : error := ErrOther "image references not found".

(** A unit of work *)
Record work {A : Type} := mkWork {
  wk_tag : string;
  wk_dstreference : string;
  wk_srcreference : string;
  wk_dstauth : A;
  wk_srcauth : A;
}.
Arguments work : clear implicits.
Arguments mkWork {A}.

Section mirror.
Context {W : Type} `{Images W}.

(** The first entry with the name, if the entries reach it *)
Fixpoint find_entry (entries : list (string * Reader)) (last : option error) : res (option Reader) :=
  match entries with
  | [] => match last with None => Ok None | Some e => Err e end
  | (name, content) :: entries =>
      if decide (name = image_references) then Ok (Some content) else find_entry entries last
  end.

Definition search_layer (ref : Ref) (l : Layer) : M W (option Reader) :=
  do! br <- GetBlob ref l;
  do! b <- lift (Peek2 br);
  do! r <- lift (if decide (b = gzip_magic) then gzip_NewReader br else Ok br);
  lift (let '(entries, last) := tar_entries r in find_entry entries last).

(** The layers from the last to the first *)
Fixpoint search_layers (ref : Ref) (ls : list Layer) : M W (option ImageStream) :=
  match ls with
  | [] => throw not_found
  | l :: ls =>
      do! found <- search_layer ref l;
      match found with
      | Some content => lift (Decode_ImageStream content)
      | None => search_layers ref ls
      end
  end.

Definition getReleaseImageStream (reference : string) (auth : Auth) : M W (option ImageStream) :=
  do! ref <- lift (ParseReference ("//" +:+ reference));
  do! layerInfos <- NewImage auth ref;
  do! _ <- NewImageSource auth ref;
  search_layers ref (rev layerInfos).

(** ** mirror.go *)
Definition copyImage (dstreference srcreference : string) (dstauth srcauth : Auth) : M W unit :=
  do! _ <- NewPolicyContext;
  do! src <- lift (ParseReference ("//" +:+ srcreference));
  do! dst <- lift (ParseReference ("//" +:+ dstreference));
  copy_Image dstauth srcauth dst src.

(** A reference without a slash is sliced from -1. *)
Definition dst (repo reference : string) : res string :=
  do? rest <- slice_from reference (IndexByte reference slash);
  Ok (repo +:+ rest).

Definition new_work (dstrepo : string) (dstauth srcauth : Auth) (tag reference : string) : res (work Auth) :=
  do? d <- dst dstrepo reference;
  Ok (mkWork tag d reference dstauth srcauth).

(** What the caller sends, in its order; the evaluation of each can panic. The
    image stream is first followed where its tags are counted. *)
Definition works (dstrepo srcrelease : string) (dstauth srcauth : Auth) (stream : option ImageStream)
    : list (res (work Auth)) :=
  match stream with
  | None => [Panic "invalid memory address or nil pointer dereference"]
  | Some tags =>
      new_work dstrepo dstauth srcauth "release" srcrelease ::
      ((fun tag => do? from <- deref (tg_From tag);
                   new_work dstrepo dstauth srcauth (tg_Name tag) from) <$> tags)
  end.

(** Where the caller and a goroutine are *)
Inductive main_pc :=
| Spawning (n : nat)                    (* [n] goroutines to start *)
| Sending                               (* in the sends, and then at [close(ch)] *)
| Waiting                               (* in [wg.Wait()], the channel closed *)
| Returned (r : res unit)
| Crashed (why : string).               (* a panic nobody recovers ends the process *)
Inductive worker_pc :=
| Receiving                             (* at [range ch] *)
| Copying (w : work Auth)
| Failing (w : work Auth)               (* about to store the flag *)
| Finished.                             (* after [wg.Done()] *)

Record pool := mkPool {
  p_main : main_pc;
  p_todo : list (res (work Auth));      (* the sends to come *)
  p_workers : list worker_pc;
  p_wg : nat;                           (* the counter of the wait group *)
  p_error : bool;                       (* errorOccurred *)
  p_world : W;
  p_copied : list (work Auth * res unit);     (* the copies made, the last one first *)
}.

Definition goroutines : nat := 10.
Definition start (todo : list (res (work Auth))) (w : W) : pool :=
  mkPool (Spawning goroutines) todo [] 0 false w [].

Definition an_error_occurred : error := ErrOther "an error occurred".
Definition result (errorOccurred : bool) : res unit :=
  if errorOccurred then Err an_error_occurred else Ok tt.

Definition copy_work (w : work Auth) : M W unit :=
  copyImage (wk_dstreference w) (wk_srcreference w) (wk_dstauth w) (wk_srcauth w).

Definition set_worker (i : nat) (pc : worker_pc) (s : pool) : pool :=
  s <| p_workers := <[i := pc]> (p_workers s) |>.

(** A copy that ended: a panic of it ends the process. *)
Definition copied (i : nat) (w : work Auth) (r : res unit) (w' : W) (s : pool) : pool :=
  let s := s <| p_world := w' |> <| p_copied := (w, r) :: p_copied s |> in
  match r with
  | Panic why => s <| p_main := Crashed why |>
  | Err _ => set_worker i (Failing w) s
  | _ => set_worker i Receiving s
  end.

Definition alive (s : pool) : bool :=
  match p_main s with Crashed _ => false | _ => true end.

Inductive step : pool -> pool -> Prop :=
| step_spawn s n :
    p_main s = Spawning (S n) ->
    step s (s <| p_main := Spawning n |> <| p_workers := p_workers s ++ [Receiving] |>
              <| p_wg := S (p_wg s) |>)
| step_spawned s : p_main s = Spawning 0 -> step s (s <| p_main := Sending |>)
| step_send s i w todo :
    p_main s = Sending -> p_todo s = Ok w :: todo -> p_workers s !! i = Some Receiving ->
    step s (set_worker i (Copying w) (s <| p_todo := todo |>))
| step_crash s why todo :
    p_main s = Sending -> p_todo s = Panic why :: todo -> step s (s <| p_main := Crashed why |>)
| step_close s : p_main s = Sending -> p_todo s = [] -> step s (s <| p_main := Waiting |>)
| step_copy s i w r w' :
    alive s -> p_workers s !! i = Some (Copying w) -> copy_work w (p_world s) = (r, w') ->
    step s (copied i w r w' s)
| step_store s i w :
    alive s -> p_workers s !! i = Some (Failing w) ->
    step s (set_worker i Receiving (s <| p_error := true |>))
| step_finish s i :
    p_main s = Waiting -> p_workers s !! i = Some Receiving ->
    step s (set_worker i Finished (s <| p_wg := p_wg s - 1 |>))
| step_return s :
    p_main s = Waiting -> p_wg s = 0 -> step s (s <| p_main := Returned (result (p_error s)) |>).

(** A call of [Mirror]: the image stream that cannot be read is its error; otherwise
    a run of the pool. *)
Inductive Mirror (dstrepo srcrelease : string) (dstauth srcauth : Auth) (w : W) : res unit -> W -> Prop :=
| Mirror_unread r w' :
    getReleaseImageStream srcrelease srcauth w = (r, w') -> is_ok r = false ->
    Mirror dstrepo srcrelease dstauth srcauth w (do? _ <- r; Ok tt) w'
| Mirror_run stream w' s r :
    getReleaseImageStream srcrelease srcauth w = (Ok stream, w') ->
    rtc step (start (works dstrepo srcrelease dstauth srcauth stream) w') s ->
    (p_main s = Returned r \/ exists why, p_main s = Crashed why /\ r = Panic why) ->
    Mirror dstrepo srcrelease dstauth srcauth w r (p_world s).
End mirror.

(** ** What a mirror keeps, and how it ends *)
(** One worker changes, the others stay. *)
Lemma worker_changes {A} (l : list A) i x y :
  l !! i = Some x -> exists rest, l ≡ₚ x :: rest /\ <[i := y]> l ≡ₚ y :: rest.
Proof.
  intros Hi. exists (take i l ++ drop (S i) l).
  split.
  - rewrite <- (take_drop_middle l i x Hi) at 1. by rewrite <- Permutation_middle.
  - rewrite insert_take_drop; [|by eapply lookup_lt_Some]. by rewrite <- Permutation_middle.
Qed.

Section pool.
Context {W : Type} `{Images W}.
Implicit Types (s : pool) (u : W) (k : work Auth).

(** The copies one after the other *)
Fixpoint copy_all (l : list (work Auth)) u : list (work Auth * res unit) * W :=
  match l with
  | [] => ([], u)
  | k :: l =>
      let '(r, u) := copy_work k u in
      let '(rs, u) := copy_all l u in ((k, r) :: rs, u)
  end.

Lemma copy_all_snoc l k u rs u1 r u2 :
  copy_all l u = (rs, u1) -> copy_work k u1 = (r, u2) ->
  copy_all (l ++ [k]) u = (rs ++ [(k, r)], u2).
Proof.
  revert u rs. induction l as [|k0 l IH]; intros u rs Hl Hk; simplify_eq/=; [by rewrite Hk|].
  destruct (copy_work k0 u) as [r0 u0]. destruct (copy_all l u0) as [rs0 u3] eqn:E.
  simplify_eq. by erewrite IH by eauto.
Qed.

(** What a goroutine adds to the counter, has in its hands, and has to report *)
Definition live (pc : worker_pc) : list unit :=
  match pc with Finished => [] | _ => [tt] end.
Definition held (pc : worker_pc) : list (work Auth) :=
  match pc with Copying k => [k] | _ => [] end.
Definition open_ended (pc : worker_pc) : Prop :=
  match pc with Finished => False | _ => True end.
Definition quiet (pc : worker_pc) : Prop :=
  match pc with Failing _ => False | _ => True end.
Definition fine (c : work Auth * res unit) : Prop :=
  match snd c with Err _ => False | _ => True end.

Definition sendable (todo : list (res (work Auth))) : list (work Auth) :=
  omap (fun r => match r with Ok k => Some k | _ => None end) todo.
Definition to_spawn (m : main_pc) : nat := match m with Spawning n => n | _ => 0 end.
Definition closed (m : main_pc) : bool :=
  match m with Waiting | Returned _ => true | _ => false end.

Record inv (todo : list (res (work Auth))) (u : W) (s : pool) : Prop := {
  inv_length : length (p_workers s) + to_spawn (p_main s) = goroutines;
  inv_wg : p_wg s = length (p_workers s ≫= live);
  inv_open : closed (p_main s) = false -> Forall open_ended (p_workers s);
  inv_closed : closed (p_main s) = true -> p_todo s = [];
  inv_suffix : exists sent, todo = sent ++ p_todo s;
  inv_work : sendable todo ≡ₚ (fst <$> p_copied s) ++ (p_workers s ≫= held) ++ sendable (p_todo s);
  inv_serial : copy_all (fst <$> rev (p_copied s)) u = (rev (p_copied s), p_world s);
  inv_error : p_error s = false /\ Forall quiet (p_workers s) <-> Forall fine (p_copied s);
  inv_alive : alive s;
  inv_returned : match p_main s with Returned r => p_wg s = 0 /\ r = result (p_error s) | _ => True end;
}.

(** The runs in which nothing panics *)
Definition calm (todo : list (res (work Auth))) : Prop :=
  (forall why, Panic why ∉ todo) /\ forall k u why u', copy_work k u <> (Panic why, u').

Lemma start_inv todo u : inv todo u (start todo u).
Proof. split; simpl; [done..|by exists []|done|done|by rewrite !Forall_nil|done|done]. Qed.

(** The fields of the invariant, after a step that leaves the workers [E] *)
Ltac fields E :=
  split; simpl; unfold constant; simpl;
  rewrite ?length_app, ?length_insert, ?bind_app; simpl; try rewrite ?E; simpl;
  rewrite ?Forall_app, ?Forall_cons, ?Forall_nil in *; simpl in *;
  try solve [done|lia|tauto|intuition done].

(** Worker [i] moves to [pc]: the workers up to their order, in the invariant and
    in the goals *)
Ltac moves Hi pc Hopen Hwork Herr Hret :=
  destruct (worker_changes _ _ _ pc Hi) as (rest & E1 & E2); clear Hi;
  rewrite E1 in Hopen, Hwork, Herr; try rewrite E1 in Hret; simpl in *;
  fields E2; try rewrite E1; simpl;
  try solve [done|lia|tauto|intuition done].

Lemma step_inv todo u s s' : calm todo -> inv todo u s -> step s s' -> inv todo u s'.
Proof.
  intros [Hc1 Hc2] Hinv Hs. destruct Hinv as [Hlen Hwg Hopen Hclosed Hsuf Hwork Hser Herr Hal Hret].
  destruct Hs as [s n Hm|s Hm|s i k l' Hm Hl Hi|s why l' Hm Hl|s Hm Hl|s i k r w' Ha Hi Hk|s i k Ha Hi|s i Hm Hi|s Hm Hz];
    destruct s as [pc l ws wg er w0 cp]; simpl in *; subst.
  all: [> fields E | fields E | moves Hi (Copying k) Hopen Hwork Herr Hret
  | exfalso; destruct Hsuf as [sent ->]; apply (Hc1 why); set_solver
  | fields E
  | destruct r as [[]|e|why|]; [moves Hi Receiving Hopen Hwork Herr Hret|moves Hi (Failing k) Hopen Hwork Herr Hret|by destruct (Hc2 k w0 why w')|moves Hi Receiving Hopen Hwork Herr Hret]
  | moves Hi Receiving Hopen Hwork Herr Hret |moves Hi Finished Hopen Hwork Herr Hret | fields E].
  all: try solve
    [ rewrite length_app; simpl; lia | by rewrite app_nil_r
    | rewrite Hwork; by rewrite <- Permutation_middle
    | rewrite fmap_app; by eapply copy_all_snoc ].
  - destruct Hsuf as [sent ->]. exists (sent ++ [Ok k]). by rewrite <- app_assoc.
  - destruct pc; [done..| |done]. destruct Hret as [Hret _]. by rewrite E1 in Hret.
Qed.

Lemma reached todo u s : calm todo -> rtc step (start todo u) s -> inv todo u s.
Proof.
  intros Hc Hr. assert (inv todo u (start todo u)) as Hi by apply start_inv.
  induction Hr; eauto using step_inv.
Qed.

(** ** A run comes to an end *)
Definition weight (pc : worker_pc) : nat :=
  match pc with Receiving => 1 | Copying _ => 3 | Failing _ => 2 | Finished => 0 end.
Definition main_weight (m : main_pc) : nat :=
  match m with
  | Spawning n => 4 + 2 * n | Sending => 3 | Waiting => 2 | Returned _ => 1 | Crashed _ => 0
  end.
Definition measure s : nat :=
  main_weight (p_main s) + 3 * length (p_todo s) + sum_list_with weight (p_workers s).

Lemma weight_changes l i x y :
  l !! i = Some x -> sum_list_with weight (<[i := y]> l) + weight x = sum_list_with weight l + weight y.
Proof.
  intros Hi. destruct (worker_changes _ _ _ y Hi) as (rest & E1 & E2).
  rewrite E2, E1. simpl. lia.
Qed.

Lemma step_measure s s' : step s s' -> measure s' < measure s.
Proof.
  intros Hs.
  destruct Hs as [s n Hm|s Hm|s i k l' Hm Hl Hi|s why l' Hm Hl|s Hm Hl|s i k r w' Ha Hi Hk|s i k Ha Hi|s i Hm Hi|s Hm Hz];
    destruct s as [pc l ws wg er w0 cp]; unfold measure; simpl in *; subst; simpl; unfold constant;
    rewrite ?sum_list_with_app; simpl;
    try (pose proof (weight_changes ws i _ Receiving Hi)); try (pose proof (weight_changes ws i _ Finished Hi));
    simpl in *; try lia.
  - pose proof (weight_changes ws i _ (Copying k) Hi). simpl in *. lia.
  - pose proof (weight_changes ws i _ (Failing k) Hi). simpl in *.
    destruct r; simpl; unfold constant; destruct pc; simpl in *; try done; lia.
Qed.

Lemma run_bounded n s s' : nsteps step n s s' -> n <= measure s.
Proof. induction 1 as [|n s1 s2 s3 Hs _ IH]; [lia|]. pose proof (step_measure _ _ Hs). lia. Qed.

(** ** It does not stop before its end *)
Lemma worker_steps s i pc :
  alive s -> closed (p_main s) = true \/ pc <> Receiving ->
  p_main s = Waiting \/ closed (p_main s) = false ->
  open_ended pc -> p_workers s !! i = Some pc -> exists s', step s s'.
Proof.
  intros Ha Hc Hm Ho Hi. destruct pc; try done.
  - eexists. eapply step_finish; [|done]. destruct Hc, Hm; congruence.
  - destruct (copy_work w (p_world s)) eqn:Hk. eexists. by eapply step_copy.
  - eexists. by eapply step_store.
Qed.

Lemma some_live (ws : list worker_pc) :
  length (ws ≫= live) <> 0 -> exists i pc, ws !! i = Some pc /\ open_ended pc.
Proof.
  induction ws as [|pc ws IH]; [done|]. intros Hl. destruct (decide (length (ws ≫= live) = 0)) as [Hz|Hz].
  - exists 0, pc. split; [done|]. destruct pc; try done.
  - destruct (IH Hz) as (i & pc' & Hi & Ho). by exists (S i), pc'.
Qed.

Lemma progress l u s :
  inv (Ok <$> l) u s -> (exists s', step s s') \/ exists r, p_main s = Returned r.
Proof.
  intros [Hlen Hwg Hopen _ [sent Hsuf] _ _ _ Hal Hret].
  destruct (p_main s) as [[|n]| | |r|why] eqn:Hm; [left..|by right; exists r|by unfold alive in Hal; rewrite Hm in Hal].
  - eexists. by eapply step_spawned.
  - eexists. by eapply step_spawn.
  - destruct (p_todo s) as [|r todo] eqn:Ht; [eexists; by eapply step_close|].
    assert (r ∈ Ok <$> l) as (k & -> & _)%list_elem_of_fmap by (rewrite Hsuf; set_solver).
    destruct (p_workers s) as [|pc ws] eqn:Hws; [by simpl in Hlen|].
    assert (p_workers s !! 0 = Some pc) as Hi by by rewrite Hws.
    specialize (Hopen eq_refl). apply Forall_cons in Hopen as [Ho _].
    destruct pc; [eexists; by eapply step_send|refine (worker_steps s 0 _ Hal _ _ _ Hi); rewrite ?Hm; [by right|by right|done]..].
  - destruct (decide (p_wg s = 0)) as [Hz|Hz]; [eexists; by eapply step_return|].
    rewrite Hwg in Hz. destruct (some_live _ Hz) as (i & pc & Hi & Ho).
    eapply (worker_steps s i pc Hal); rewrite ?Hm; auto.
Qed.

(** ** What it has done when it returns *)
Lemma idle (ws : list worker_pc) :
  length (ws ≫= live) = 0 -> ws ≫= held = [] /\ Forall quiet ws.
Proof.
  induction ws as [|pc ws IH]; [by split; [|constructor]|]. destruct pc; try done.
  intros Hl. destruct (IH Hl) as [Hh Hq]. split; [done|by constructor].
Qed.

Lemma sendable_all l : sendable (Ok <$> l) = l.
Proof. induction l as [|k l IH]; simpl; [done|]. by rewrite <- IH at 2. Qed.

Lemma returned l u s r :
  inv (Ok <$> l) u s -> p_main s = Returned r ->
  exists order outcomes,
    order ≡ₚ l /\ copy_all order u = (outcomes, p_world s) /\
    (r = Ok tt /\ Forall fine outcomes \/ r = Err an_error_occurred /\ ~ Forall fine outcomes).
Proof.
  intros [_ Hwg _ Hclosed _ Hwork Hser Herr _ Hret] Hm. rewrite Hm in *.
  destruct Hret as [Hz ->]. rewrite Hz in Hwg. destruct (idle (p_workers s)) as [Hh Hq]; [done|].
  rewrite Hh, Hclosed, sendable_all in Hwork by done. simpl in Hwork. rewrite app_nil_r in Hwork.
  exists (fst <$> rev (p_copied s)), (rev (p_copied s)). split_and!; [|done|].
  - by rewrite Hwork, <- (Permutation_rev (p_copied s)).
  - rewrite <- (Permutation_rev (p_copied s)), <- Herr. destruct (p_error s); simpl; [right|left]; naive_solver.
Qed.
End pool.

(** ** The work of a release

    A reference is a host, a slash and a path. *)
Definition reference (image : string * (string * string)) : string :=
  let '(_, (host, path)) := image in host +:+ "/" +:+ path.
Definition named (image : string * (string * string)) : Prop :=
  ContainsRune (fst (snd image)) slash = false.
Definition copy_of {A} (dstrepo : string) (dstauth srcauth : A) (image : string * (string * string)) : work A :=
  mkWork (fst image) (dstrepo +:+ "/" +:+ snd (snd image)) (reference image) dstauth srcauth.

Lemma IndexByte_app s t c :
  ContainsRune s c = false -> IndexByte (s +:+ String c t) c = Z.of_nat (String.length s).
Proof.
  induction s as [|d s IH]; simpl; [by rewrite decide_True|].
  intros [H1%bool_decide_eq_false H2]%orb_false_iff. rewrite decide_False by done.
  rewrite IH by done. destruct (Z.ltb_spec (Z.of_nat (String.length s)) 0); lia.
Qed.

Section release.
Context {W : Type} `{Images W}.
Implicit Types (image : string * (string * string)).

Lemma new_work_named dstrepo dstauth srcauth image :
  named image ->
  new_work dstrepo dstauth srcauth (fst image) (reference image) = Ok (copy_of dstrepo dstauth srcauth image).
Proof.
  destruct image as (tag & host & path). unfold named, new_work, dst, slice_from, reference. simpl. intros Hn.
  change ("/" +:+ path) with (String slash path). rewrite IndexByte_app by done.
  rewrite decide_True by (rewrite string_length_app; lia).
  rewrite Nat2Z.id, string_length_app. replace (_ + _ - _) with (String.length (String slash path)) by lia.
  by rewrite substring_app_r.
Qed.

Lemma works_named dstrepo dstauth srcauth release images :
  fst release = "release" -> Forall named (release :: images) ->
  works dstrepo (reference release) dstauth srcauth
    (Some ((fun image => mkTag (fst image) (Some (reference image))) <$> images)) =
  Ok <$> (copy_of dstrepo dstauth srcauth <$> release :: images).
Proof.
  intros Hr [Hn Hi]%Forall_cons. unfold works. rewrite <- Hr, new_work_named by done. cbn [fmap list_fmap]. f_equal.
  induction Hi as [|image images Hi _ IH]; [done|]. cbn [fmap list_fmap] in *.
  rewrite <- IH. f_equal. simpl. by apply new_work_named.
Qed.
End release.
