(* ===== verification/Errors.v ===== *)
(** * Which errors a call can return

    [yields Q P m]: a run of [m] that returns a value gives one in [Q], and one
    that returns an error gives one in [P]. Every error of the database layer is
    a Cosmos DB error or an error without a type of its own. *)
From S2P Require Import Prelude GoStrings.
From S2P Require Import Azure Api.
From S2P Require Import Cosmos CosmosLaws Database DatabaseSpec.

Definition yields {W A} (Q : A -> Prop) (P : error -> Prop) (m : M W A) : Prop := forall w,
  match fst (m w) with Ok a => Q a | Err e => P e | _ => True end.
Definition raises {W A} (P : error -> Prop) (m : M W A) : Prop := yields (fun _ => True) P m.

Create HintDb raises discriminated.

Section yields.
Context {W A B : Type} (P : error -> Prop).

Lemma yields_bind (Q : A -> Prop) (R : B -> Prop) (m : M W A) f :
  yields Q P m -> (forall a, Q a -> yields R P (f a)) -> yields R P (bind m f).
Proof.
  intros Hm Hf w. specialize (Hm w). unfold bind.
  destruct (m w) as [[a|e| |] w1]; simpl in *; [by apply Hf|done..].
Qed.

Lemma raises_bind (m : M W A) (f : A -> M W B) :
  raises P m -> (forall a, raises P (f a)) -> raises P (bind m f).
Proof. intros Hm Hf. eapply yields_bind; [done|]. intros a _. apply Hf. Qed.

Lemma yields_try (Q : A -> Prop) (P' : error -> Prop) (m : M W A) :
  yields Q P' m -> yields (fun r => match r with inl a => Q a | inr e => P' e end) P (try m).
Proof. intros Hm w. specialize (Hm w). unfold try. by destruct (m w) as [[] ?]. Qed.

Lemma raises_try (m : M W A) : raises P (try m).
Proof. intros w. unfold try. by destruct (m w) as [[] ?]. Qed.

Lemma yields_ret (Q : A -> Prop) (a : A) : Q a -> yields Q P (W := W) (ret a).
Proof. by intros H w. Qed.

Lemma raises_ret (a : A) : raises P (W := W) (ret a).
Proof. by intros w. Qed.

Lemma raises_throw e : P e -> raises P (throw (W := W) (A := A) e).
Proof. by intros H w. Qed.

Lemma raises_lift (r : res A) : (forall e, r = Err e -> P e) -> raises P (lift (W := W) r).
Proof. intros H w. unfold lift. simpl. destruct r; eauto. Qed.

Lemma raises_deref (p : option A) : raises P (lift (W := W) (deref p)).
Proof. by destruct p; intros w. Qed.

Lemma raises_ok (m : M W A) : (forall w, is_ok (fst (m w)) = true) -> raises P m.
Proof. intros H w. specialize (H w). by destruct (m w) as [[] ?]. Qed.

End yields.

Lemma raises_retry {W A} `{!Runtime W} (P : error -> Prop) left i (f : M W A) :
  (forall n, raises P (time_Sleep n)) -> raises P f -> raises P (retry_from left i f).
Proof.
  intros Hsl Hf. revert i. induction left as [|left IH]; intros i; [by intros w|]. simpl.
  eapply yields_bind; [by apply yields_try|]. intros [a|e]; [by intros _ w|]. intros He.
  destruct (IsErrorStatusCode _ _); [|by intros w].
  apply raises_bind; [done|]. intros _. destruct left; [by intros w|apply IH].
Qed.

Lemma raises_mono {W A} (P P' : error -> Prop) (m : M W A) :
  (forall e, P e -> P' e) -> raises P m -> raises P' m.
Proof. intros HP H w. specialize (H w). destruct (fst (m w)); auto. Qed.

#[export] Hint Resolve raises_ret raises_try raises_deref : raises.

Ltac raises_auto :=
  repeat first
    [ solve [eauto with raises]
    | apply raises_bind; [|intros ?]
    | apply raises_throw; solve [done|eauto with raises]
    | apply raises_lift; intros ?; done
    | case_match
    | progress case_decide ].

Definition db_error (e : error) : Prop :=
  match e with ErrCosmos _ _ _ | ErrOther _ => True | _ => False end.
Definition opt_error (P : error -> Prop) {O H} (r : O * H * option error) : Prop :=
  match r.2 with Some e => P e | None => True end.

Section client.
Context {W D : Type} `{!Runtime W, !Service W D, !Document D, !Stored D, !Collection W D}.
Context (c : documentClient) `{!ServiceLaws W D c} {RQ : RuntimeQuiet W D}.

Lemma now_raises P : raises P time_Now.
Proof. apply raises_ok, (now_ok W D). Qed.
Lemma sleep_raises P n : raises P (time_Sleep n).
Proof. apply raises_ok, (sleep_ok W D). Qed.
Lemma uuid_raises P : raises P uuid_NewV4.
Proof. apply raises_ok, (uuid_ok W D). Qed.
#[local] Hint Resolve now_raises sleep_raises uuid_raises : raises.

Lemma _do_yields {O} method path rt rl expected inb (nil : O) decode headers :
  yields (opt_error db_error) db_error
    (_do (c_databaseClient c) method path rt rl expected inb nil decode headers).
Proof.
  unfold _do, authorizeRequest. eapply yields_bind; [apply (raises_bind db_error); [eauto with raises|intros ?; apply raises_ret]|].
  intros h _. eapply (yields_bind _ (fun r => match r with inl _ => True | inr e => db_error e end)).
  - apply (yields_try _ (fun _ => True)). intros w.
    destruct (hc_Do _ w) as [[a|e| |] w1] eqn:E; simpl; try done.
    by apply (transport_error W D c) in E as [m ->].
  - intros [resp|e] He; [|by intros w].
    repeat case_match; by intros w.
Qed.

Lemma do_yields {O} method path rt rl expected inb (nil : O) decode headers :
  yields (opt_error db_error) db_error
    (do (c_databaseClient c) method path rt rl expected inb nil decode headers).
Proof.
  unfold do.
  apply (yields_bind _ (fun r => match r with inl r => opt_error db_error r | inr e => db_error e end)).
  - assert (opt_error db_error (@None (Response D), nil, @None error)) as H by done. revert H.
    generalize (@None (Response D), nil, @None error).
    induction (dc_maxRetries _) as [|n IH]; intros last H; [by intros w|]. simpl.
    eapply yields_bind; [apply _do_yields|]. intros [[resp out] err] He.
    repeat case_match; try (by intros w).
    eapply yields_bind; [apply sleep_raises|]. intros _ _. by apply IH.
  - intros [[[resp out] err]|e] He; by intros w.
Qed.

Lemma checked_raises {O A} method path rt rl expected inb (nil : O) decode headers (f : O * Header -> A) :
  raises db_error
    (do! r <- do (c_databaseClient c) method path rt rl expected inb nil decode headers;
     do! r <- lift (check r); ret (f r)).
Proof.
  eapply yields_bind; [apply do_yields|]. intros [[out h] err] He.
  apply raises_bind; [|intros; apply raises_ret]. apply raises_lift. intros e. unfold check.
  destruct err; [|done]. by intros [= <-].
Qed.

Lemma setOptions_raises o (d : option D) h : raises db_error (lift (W := W) (setOptions o d h)).
Proof.
  apply raises_lift. intros e. unfold setOptions. destruct o as [o|]; [|done].
  destruct d; [|done]. destruct (o_NoETag o); [done|]. simpl. by case_decide; intros [= <-].
Qed.

Lemma Create_raises pk d o : raises db_error (Create c pk d o).
Proof. unfold Create. apply raises_bind; [apply setOptions_raises|intros ?; apply checked_raises]. Qed.
Lemma Get_raises pk id o : raises db_error (Get c pk id o).
Proof. unfold Get. apply raises_bind; [apply setOptions_raises|intros ?; apply checked_raises]. Qed.
Lemma Replace_raises pk d o : raises db_error (Replace c pk d o).
Proof. unfold Replace. apply raises_bind; [apply setOptions_raises|intros ?; apply checked_raises]. Qed.
Lemma Delete_raises pk d o : raises db_error (Delete c pk d o).
Proof. unfold Delete. apply raises_bind; [apply setOptions_raises|intros ?; apply checked_raises]. Qed.
Lemma Next_raises i : raises db_error (Next c i).
Proof.
  unfold Next, query_NextRaw. case_match; [apply raises_ret|].
  apply raises_bind; [apply setOptions_raises|intros ?].
  eapply yields_bind; [apply do_yields|]. intros [[out h] err] He.
  apply raises_bind; [|intros []; apply raises_ret]. apply raises_lift. intros e. unfold check.
  destruct err; [|done]. by intros [= <-].
Qed.
Lemma QueryAll_raises fuel pk q o : raises db_error (QueryAll c fuel pk q o).
Proof.
  unfold QueryAll, all. generalize (@mkDocuments D 0 EmptyString []), (Query_ pk q o).
  induction fuel as [|fuel IH]; intros acc i; [by intros w|]. simpl.
  apply raises_bind; [apply Next_raises|]. intros [[docs|] i1]; [apply IH|apply raises_ret].
Qed.
End client.

Section collections.
Context {W : Type} `{!Runtime W, !Account W}.
Context `{!Collection W OpenShiftClusterDocument, !Collection W SubscriptionDocument,
          !Collection W AsyncOperationDocument}.
Context (db : Database) `{!AccountLaws W db} {PB : PageBound}.

Lemma now_raises_db P : raises (W := W) P time_Now.
Proof. apply (now_raises (D := OpenShiftClusterDocument)). Qed.
Lemma sleep_raises_db P n : raises (W := W) P (time_Sleep n).
Proof. apply (sleep_raises (D := OpenShiftClusterDocument)). Qed.
Lemma uuid_raises_db P : raises (W := W) P uuid_NewV4.
Proof. apply (uuid_raises (D := OpenShiftClusterDocument)). Qed.

Section patch.
Context {D : Type} (P : error -> Prop) (get : M W D) (f : D -> M W D) (put : D -> M W (option D)).
Lemma patch_loop_raises :
  raises P get -> (forall d, raises P (f d)) -> (forall d, raises P (put d)) -> raises P (patch_loop get f put).
Proof.
  intros. unfold patch_loop. apply raises_retry; [intros; apply sleep_raises_db|].
  apply raises_bind; [done|intros]. by apply raises_bind.
Qed.
End patch.

Lemma conflict_raises {A} (m : M W A) :
  raises db_error m -> raises db_error (do! r <- try m; unwrap (conflict_as_precondition r)).
Proof.
  intros H. eapply yields_bind; [by apply (yields_try db_error)|]. intros [a|e] He w; [done|].
  destruct e; simpl in *; try done. by case_decide.
Qed.

Lemma partitionKey_raises key : raises db_error (lift (W := W) (OpenShiftClusters.partitionKey key)).
Proof. apply raises_lift. intros e He. by apply partitionKey_err in He as [m ->]. Qed.

Lemma clusters_Get_raises key : raises db_error (OpenShiftClusters.Get (db_OpenShiftClusters db) key).
Proof.
  unfold OpenShiftClusters.Get. case_decide; [by intros w|].
  apply raises_bind; [apply partitionKey_raises|intros]. apply raises_bind; [apply QueryAll_raises; apply _|].
  intros ds. by destruct (ds_Documents ds) as [|? []]; intros w.
Qed.
Lemma clusters_Create_raises doc : raises db_error (OpenShiftClusters.Create (db_OpenShiftClusters db) doc).
Proof.
  unfold OpenShiftClusters.Create. case_decide; [by intros w|].
  apply raises_bind; [apply partitionKey_raises|intros]. apply conflict_raises, Create_raises; apply _.
Qed.
Lemma clusters_update_raises doc o : raises db_error (OpenShiftClusters.update (db_OpenShiftClusters db) doc o).
Proof. unfold OpenShiftClusters.update. case_decide; [by intros w|apply Replace_raises; apply _]. Qed.
Lemma clusters_Delete_raises doc : raises db_error (OpenShiftClusters.Delete (db_OpenShiftClusters db) doc).
Proof. unfold OpenShiftClusters.Delete. case_decide; [by intros w|apply Delete_raises; apply _]. Qed.
Lemma clusters_patch_raises (P : error -> Prop) key f o :
  (forall e, db_error e -> P e) -> (forall d, raises P (f d)) ->
  raises P (OpenShiftClusters.patch (db_OpenShiftClusters db) key f o).
Proof.
  intros HP Hf. apply patch_loop_raises; [|done|intros d].
  - eapply raises_mono; [done|apply clusters_Get_raises].
  - eapply raises_mono; [done|apply clusters_update_raises].
Qed.

Lemma subs_Get_raises id : raises db_error (Subscriptions.Get (db_Subscriptions db) id).
Proof. unfold Subscriptions.Get. case_decide; [by intros w|apply Get_raises; apply _]. Qed.
Lemma subs_Create_raises doc : raises db_error (Subscriptions.Create (db_Subscriptions db) doc).
Proof.
  unfold Subscriptions.Create. case_decide; [by intros w|]. apply conflict_raises, Create_raises; apply _.
Qed.
Lemma subs_update_raises doc o : raises db_error (Subscriptions.update (db_Subscriptions db) doc o).
Proof. unfold Subscriptions.update. case_decide; [by intros w|apply Replace_raises; apply _]. Qed.

Lemma async_Get_raises id : raises db_error (AsyncOperations.Get (db_AsyncOperations db) id).
Proof. unfold AsyncOperations.Get. case_decide; [by intros w|apply Get_raises; apply _]. Qed.
Lemma async_Create_raises doc : raises db_error (AsyncOperations.Create (db_AsyncOperations db) doc).
Proof.
  unfold AsyncOperations.Create. case_decide; [by intros w|]. apply conflict_raises, Create_raises; apply _.
Qed.
End collections.

#[export] Hint Resolve now_raises_db sleep_raises_db uuid_raises_db clusters_Get_raises
  clusters_Create_raises clusters_update_raises clusters_Delete_raises clusters_patch_raises subs_Get_raises
  subs_Create_raises subs_update_raises async_Get_raises async_Create_raises : raises.
