(* ===== verification/FrontendSpec.v ===== *)
(** * What the front end's handlers do to the three collections

    On an account that keeps the contract of CosmosLaws.v: which handlers only
    read, what an accepted PUT, PATCH or DELETE stores, what a refused one leaves
    alone, and what a client is shown. *)
From S2P Require Import Prelude GoStrings.
From S2P Require Import Azure Api External Services.
From S2P Require Import Cosmos CosmosLaws CosmosSpec.
From S2P Require Import Database Frame DatabaseSpec Errors Frontend.

(** A variable is not part of a collection. *)
Class CellQuiet (W A D : Type) `{!Cell W A, !Collection W D} :=
  cell_quiet (a : A) w : quiet D w (cell_set a w).

Section spec.
Context {W : Type} `{!Runtime W, !Account W}.
Context `{!Collection W OpenShiftClusterDocument, !Collection W SubscriptionDocument,
          !Collection W AsyncOperationDocument}.
Context (db : Database) `{!AccountLaws W db} {PB : PageBound}.
Context `{!Cell W Header} {QC : CellQuiet W Header OpenShiftClusterDocument}
  {QS : CellQuiet W Header SubscriptionDocument} {QA : CellQuiet W Header AsyncOperationDocument}.
Context {EV : Env} {U : Url} {CD : Codec}.
Context (apis : gmap string (Version W)) (feature_operations : bool).
Implicit Types w : W.

(** The dynamic validation of a version leaves the collections alone. *)
Definition version_quiet (v : Version W) : Prop := forall oc w,
  clusters (snd (v_Dynamic v oc w)) = clusters w /\ subs (snd (v_Dynamic v oc w)) = subs w /\
  asyncs (snd (v_Dynamic v oc w)) = asyncs w.

(** ** Reading *)
Definition unchanged w w' : Prop := clusters w' = clusters w /\ subs w' = subs w /\ asyncs w' = asyncs w.

#[export] Instance unchanged_preorder : PreOrder unchanged.
Proof. split; [by intros ?|]. intros ??? (?&?&?) (?&?&?). split_and!; congruence. Qed.

Lemma unchanged_steps {A} (m : M W A) :
  steps (same (D := OpenShiftClusterDocument)) m -> steps (same (D := SubscriptionDocument)) m ->
  steps (same (D := AsyncOperationDocument)) m -> steps unchanged m.
Proof. intros H1 H2 H3 w. split_and!; [apply H1|apply H2|apply H3]. Qed.

#[local] Instance same_pre {D} `{!Collection W D} : PreOrder (same (W := W) (D := D)).
Proof. split; [by intros ?|unfold same; intros ???; congruence]. Qed.

Ltac others := intros; first [apply now_same|apply sleep_same|apply uuid_same|apply apart_same]; apply _.

Lemma clusters_Get_unchanged key : steps unchanged (OpenShiftClusters.Get (db_OpenShiftClusters db) key).
Proof.
  apply unchanged_steps; [intros w; by apply clusters_Get_same|..];
    (apply clusters_Get_frame; [apply _|others..]).
Qed.

Lemma subs_Get_unchanged id : steps unchanged (Subscriptions.Get (db_Subscriptions db) id).
Proof.
  apply unchanged_steps; [|intros w; by apply subs_Get_same|];
    (apply subs_Get_frame; [apply _|others..]).
Qed.

Lemma async_Get_unchanged id : steps unchanged (AsyncOperations.Get (db_AsyncOperations db) id).
Proof.
  apply unchanged_steps; [..|intros w; by apply async_Get_same];
    (apply async_Get_frame; [apply _|others..]).
Qed.

Lemma Next_unchanged i : steps unchanged (Next (D := OpenShiftClusterDocument) (OpenShiftClusters.c (db_OpenShiftClusters db)) i).
Proof.
  apply unchanged_steps; [intros w; by apply (Next_store (D := OpenShiftClusterDocument) (OpenShiftClusters.c (db_OpenShiftClusters db)))|..];
    (apply Next_frame; [apply _|others..]).
Qed.

Lemma header_unchanged (h : Header) : steps unchanged (set_cell h).
Proof. intros w. split_and!; apply cell_quiet. Qed.

Lemma get_header_unchanged : steps unchanged get_cell.
Proof. by intros w. Qed.

Lemma uuid_unchanged : steps unchanged uuid_NewV4.
Proof. apply unchanged_steps; others. Qed.

Lemma now_unchanged : steps unchanged time_Now.
Proof. apply unchanged_steps; others. Qed.

Lemma sleep_unchanged n : steps unchanged (time_Sleep n).
Proof. apply unchanged_steps; others. Qed.

#[local] Hint Resolve clusters_Get_unchanged subs_Get_unchanged async_Get_unchanged Next_unchanged
  header_unchanged get_header_unchanged uuid_unchanged now_unchanged sleep_unchanged : steps.

Lemma validateSubscriptionState_unchanged key states :
  steps unchanged (validateSubscriptionState db key states).
Proof. unfold validateSubscriptionState. steps_auto. Qed.
#[local] Hint Resolve validateSubscriptionState_unchanged : steps.

Lemma get_cluster_unchanged r key : steps unchanged (get_cluster db r key).
Proof. unfold get_cluster. steps_auto. Qed.
#[local] Hint Resolve get_cluster_unchanged : steps.

Lemma list_pages_unchanged fuel i l : steps unchanged (list_pages db fuel i l).
Proof.
  revert i l. induction fuel as [|fuel IH]; intros i l; [apply steps_lift; apply _|]. simpl.
  apply steps_bind; [apply _|apply Next_unchanged|]. intros [[docs|] i']; steps_auto.
Qed.
#[local] Hint Resolve list_pages_unchanged : steps.

Lemma getOpenShiftCluster_unchanged r : steps unchanged (getOpenShiftCluster db apis r).
Proof. unfold getOpenShiftCluster, reply_bytes, _getOpenShiftCluster. steps_auto. Qed.

Lemma getOpenShiftClusters_unchanged r : steps unchanged (getOpenShiftClusters db apis r).
Proof. unfold getOpenShiftClusters, reply_bytes, _getOpenShiftClusters. steps_auto. Qed.

Lemma postOpenShiftClusterCredentials_unchanged r :
  steps unchanged (postOpenShiftClusterCredentials db apis r).
Proof.
  unfold postOpenShiftClusterCredentials, reply_bytes, _postOpenShiftClusterCredentials. steps_auto.
Qed.

Lemma operation_unchanged r :
  steps unchanged (do! asyncdoc <- get_operation db r; do! running <- in_progress db r asyncdoc;
                   ret (asyncdoc, running)).
Proof. unfold get_operation, in_progress. steps_auto. Qed.

Lemma getAsyncOperationResult_unchanged r : steps unchanged (getAsyncOperationResult db apis r).
Proof.
  unfold getAsyncOperationResult, _getAsyncOperationResult, get_operation, in_progress. steps_auto.
Qed.

Lemma getAsyncOperationsStatus_unchanged r : steps unchanged (getAsyncOperationsStatus db r).
Proof.
  unfold getAsyncOperationsStatus, reply_bytes, _getAsyncOperationsStatus, get_operation, in_progress.
  steps_auto.
Qed.

(** ** Writing *)

(** The world after a read is the world before, for the collections. *)
Lemma step_same {A} (m : M W A) w x w' : steps unchanged m -> m w = (x, w') -> unchanged w w'.
Proof. intros H E. specialize (H w). by rewrite E in H. Qed.

(** The subscription of a key was found, in one of the allowed states. *)
Lemma validateSubscriptionState_ok key states w sd w' :
  validateSubscriptionState db key states w = (Ok sd, w') ->
  exists res s, ParseResourceID key = Ok res /\ subs w !! r_SubscriptionID res = Some sd /\
    sd_Subscription sd = Some s /\ s_State s ∈ states.
Proof.
  intros (res & w1 & [Hp ->]%lift_inv & (x & w2 & Hx%try_inv & H)%bind_inv_ok)%bind_inv_ok.
  destruct x as [x|e]; [|by case_match].
  apply (subs_Get_ok db) in Hx as (d & -> & Hd & Hw).
  apply bind_inv_ok in H as (d' & w3 & [[= <-] ->]%lift_inv & (s & w4 & [Hs ->]%lift_inv & H)%bind_inv_ok).
  destruct (existsb _ _) eqn:He; [|done]. unfold ret in H. simplify_eq.
  apply existsb_exists in He as (st & Hin & <-%bool_decide_eq_true).
  exists res, s. split_and!; [done|done| |by apply list_elem_of_In].
  by apply deref_ok.
Qed.

(** The document [newAsyncOperation] creates for an operation on [doc] *)
Definition new_operation (r : Request) (doc : OpenShiftClusterDocument) (s : ProvisioningState) (id : string)
    (now : Z) (m : DocMeta) : AsyncOperationDocument :=
  mkAsyncOperationDocument no_missing id m
    (Some (mkAsyncOperation no_missing (operationsPath r id) id s s now None None)) (ocd_Key doc) None.

Lemma newAsyncOperation_same D `{!Collection W D} {RQ : RuntimeQuiet W D} {AP : Apart W D AsyncOperationDocument}
    r doc :
  steps (same (D := D)) (newAsyncOperation db r doc).
Proof.
  unfold newAsyncOperation.
  apply steps_bind; [apply _|others|]. intros id. apply steps_bind; [apply _|apply steps_lift; apply _|]. intros oc.
  apply steps_bind; [apply _|others|]. intros now. apply steps_bind; [apply _| |intros ?; apply steps_ret; apply _].
  apply async_Create_frame; [apply _|others..].
Qed.

Lemma newAsyncOperation_ok r doc w id w' :
  newAsyncOperation db r doc w = (Ok id, w') ->
  exists oc now m, ocd_OpenShiftCluster doc = Some oc /\ asyncs w !! id = None /\
    clusters w' = clusters w /\ subs w' = subs w /\
    asyncs w' = <[id := new_operation r doc (state_of oc) id now m]> (asyncs w).
Proof.
  intros H.
  pose proof (newAsyncOperation_same OpenShiftClusterDocument r doc w) as Hc.
  pose proof (newAsyncOperation_same SubscriptionDocument r doc w) as Hs.
  rewrite H in Hc, Hs. unfold newAsyncOperation in H.
  apply bind_inv_ok in H as (id' & w1 & H1 & (oc & w2 & [H2 ->]%lift_inv & (now & w3 & H3 & H)%bind_inv_ok)%bind_inv_ok).
  apply bind_inv_ok in H as (x & w4 & (m & Hn & -> & Hw)%(async_Create_ok db) & H). unfold ret in H. simplify_eq.
  apply (step_same _ _ _ _ uuid_unchanged) in H1 as (_ & _ & H1).
  apply (step_same _ _ _ _ now_unchanged) in H3 as (_ & _ & H3). simpl in *.
  exists oc, now, m. rewrite H3, H1 in *. split_and!; [|done|done|done|done].
  by apply deref_ok.
Qed.

(** A cluster that an update is allowed on, and the cluster it starts from: a
    failed update is forgotten. *)
Definition updatable (oc oc' : OpenShiftCluster) : Prop :=
  state_of oc = ProvisioningStateSucceeded /\ oc' = oc \/
  state_of oc = ProvisioningStateFailed /\ failed_state_of oc = ProvisioningStateUpdating /\
    oc' = set_failed_state EmptyString oc.

(** The validated body of the request over a cluster: a PUT starts from the bare
    identity and a PATCH from the cluster; the identity stays. *)
Definition body_over (v : Version W) (r : Request) (current : option OpenShiftCluster)
    (oc oc' : OpenShiftCluster) : Prop :=
  exists ext, (r_Method r = "PUT" /\ v_Unmarshal v (r_Body r) (v_ToExternal v (put_base oc)) = inl (Some ext) \/
               r_Method r = "PATCH" /\ v_Unmarshal v (r_Body r) (v_ToExternal v oc) = inl (Some ext)) /\
    v_Static v env_Location (r_Path r) ext current = Ok tt /\
    oc' = (v_ToInternal v ext oc) <| oc_ID := oc_ID oc |> <| oc_Name := oc_Name oc |> <| oc_Type := oc_Type oc |>.

(** The cluster a PUT stores when it is new: to be created, in the one version
    that is installed *)
Definition to_create (oc : OpenShiftCluster) : OpenShiftCluster :=
  (set_state ProvisioningStateCreating oc)
    <| oc_Properties -> p_ClusterProfile -> cp_Version := "4.3.0-0.nightly-2019-12-05-001549" |>.

(** What an accepted PUT or PATCH of a subscription [s] did: the cluster is in the
    collection, an operation on it is recorded, and the client is shown it
    without its secret. *)
Inductive put_accepted (v : Version W) (r : Request) (s : Subscription) w w' :
    option string -> option error -> Prop :=
| put_updated d0 oc0 oc1 oc2 id now m m' :
    clusters w !! r_Path r = Some d0 ->
    ocd_OpenShiftCluster d0 = Some oc0 -> updatable oc0 oc1 -> body_over v r (Some oc1) oc1 oc2 ->
    clusters w' = <[r_Path r := d0 <| ocd_OpenShiftCluster := Some (set_state ProvisioningStateUpdating oc2) |>
                                   <| ocd_Dequeues := 0%Z |> <| ocd_AsyncOperationID := id |> <| ocd_Meta := m |>]>
      (clusters w) ->
    asyncs w !! id = None ->
    asyncs w' = <[id := new_operation r d0 ProvisioningStateUpdating id now m']> (asyncs w) ->
    put_accepted v r s w w'
      (Some (v_Marshal v (v_ToExternal v (blank_secret (set_state ProvisioningStateUpdating oc2))))) None
| put_created originalR sp docid doc oc1 oc2 id now pk m m' :
    clusters w !! r_Path r = None -> ParseResourceID (r_OriginalPath r) = Ok originalR ->
    s_Properties s = Some sp -> doc = new_document docid r originalR (sp_TenantID sp) ->
    ocd_OpenShiftCluster doc = Some oc1 -> body_over v r None oc1 oc2 ->
    OpenShiftClusters.partitionKey (r_Path r) = Ok pk ->
    clusters w' = <[r_Path r := doc <| ocd_OpenShiftCluster := Some (to_create oc2) |>
                                    <| ocd_ClusterResourceGroupIDKey :=
                                         ToLower (cp_ResourceGroupID (p_ClusterProfile (oc_Properties oc2))) |>
                                    <| ocd_AsyncOperationID := id |> <| ocd_PartitionKey := pk |>
                                    <| ocd_Meta := m |>]> (clusters w) ->
    asyncs w !! id = None ->
    asyncs w' = <[id := new_operation r doc ProvisioningStateCreating id now m']> (asyncs w) ->
    put_accepted v r s w w' (Some (v_Marshal v (v_ToExternal v (blank_secret (to_create oc2)))))
      (Some (ErrStatusCode StatusCreated)).

Lemma gate_update_ok oc oc' : gate_update oc = Ok oc' -> updatable oc oc'.
Proof.
  unfold gate_update, validateTerminalProvisioningState, updatable.
  destruct (decide (state_of oc = ProvisioningStateSucceeded)) as [->|].
  - intros [= <-]. by left.
  - rewrite bool_decide_eq_false_2 by done. case_bool_decide; [simpl|done].
    rewrite decide_True by done. repeat case_decide; intros [= <-]. by right.
Qed.

Lemma apply_body_ok v r b oc oc' :
  apply_body v r b oc = Ok oc' -> body_over v r (if b then None else Some oc) oc oc'.
Proof.
  unfold apply_body, body_over. intros H.
  apply res_bind_ok in H as (ext0 & Hm & H). destruct (v_Unmarshal v _ ext0) as [[ext|]|] eqn:Hu; [|done..].
  apply res_bind_ok in H as ([] & Hs & [= <-]). exists ext. split_and!; [|done|done].
  case_decide; [injection Hm as ->; by left|]. case_decide; [injection Hm as ->; by right|done].
Qed.

(** What the gate and the body keep of the document being written *)
Lemma enqueue_cluster b doc oc :
  exists oc', ocd_OpenShiftCluster (enqueue b doc oc) = Some oc' /\
    state_of oc' = (if b then ProvisioningStateCreating else ProvisioningStateUpdating) /\
    ocd_Key (enqueue b doc oc) = ocd_Key doc /\ ocd_ID (enqueue b doc oc) = ocd_ID doc.
Proof. by destruct b; eexists. Qed.

Lemma set_async_header_unchanged r id : steps unchanged (set_async_header feature_operations r id).
Proof. unfold set_async_header. steps_auto. Qed.

Lemma clusters_same_put {A} (m : M W A) : steps unchanged m -> steps (same (D := OpenShiftClusterDocument)) m.
Proof. intros H w. apply H. Qed.

(** The document to write: the stored one, or a new one when there is none *)
Definition base_doc (r : Request) (s : Subscription) w (isCreate : bool) (doc : OpenShiftClusterDocument) : Prop :=
  ocd_Key doc = r_Path r /\
  if isCreate then exists id originalR sp, ParseResourceID (r_OriginalPath r) = Ok originalR /\
       s_Properties s = Some sp /\ doc = new_document id r originalR (sp_TenantID sp)
  else clusters w !! r_Path r = Some doc.

Lemma put_document_ok b doc key w r w' :
  ocd_Key doc = key ->
  (b = false -> exists old, clusters w !! key = Some old /\ ident doc = ident old) ->
  (b = true -> is_Some r) ->
  put_document db b doc w = (Ok r, w') ->
  exists m d1, r = Some d1 /\ clusters w' = <[key := d1]> (clusters w) /\
    subs w' = subs w /\ asyncs w' = asyncs w /\
    if b then clusters w !! key = None /\
      exists pk, OpenShiftClusters.partitionKey key = Ok pk /\
        d1 = doc <| ocd_PartitionKey := pk |> <| ocd_Meta := m |>
    else d1 = doc <| ocd_Meta := m |>.
Proof.
  intros <- Hold Hsome H.
  assert (subs w' = subs w /\ asyncs w' = asyncs w) as [Hs Ha].
  { assert (forall D `{!Collection W D} (RQ : RuntimeQuiet W D) (AP : Apart W D OpenShiftClusterDocument),
      steps (same (D := D)) (put_document db b doc)) as Hf.
    { intros D ? RQ AP. unfold put_document, OpenShiftClusters.Update. destruct b; [|apply clusters_update_frame; [apply _|others..]].
      apply steps_bind; [apply _|apply steps_try, clusters_Create_frame; [apply _|others..]|]. intros [x|e]; steps_auto. }
    pose proof (Hf _ _ _ _ w : same (D := SubscriptionDocument) _ _) as H1.
    pose proof (Hf _ _ _ _ w : same (D := AsyncOperationDocument) _ _) as H2.
    by rewrite H in H1, H2. }
  unfold put_document in H. destruct b.
  - apply bind_inv_ok in H as ([x|e] & w1 & Hx%try_inv & H).
    + unfold ret in H. simplify_eq/=.
      apply (clusters_Create_ok db) in Hx as (pk & m & Hpk & _ & Hn & -> & Hw).
      exists m. eexists. split_and!; [done|done|done|done|done|]. eauto.
    + destruct (IsErrorStatusCode _ _); [done|]. injection H as <- _. by destruct (Hsome eq_refl).
  - destruct (Hold eq_refl) as (old & Ho & Hid).
    apply (clusters_update_ok db doc None w r w' old) in H as (d1 & [m ->]%stored_none & -> & Hw & _);
      [|by constructor|done|done].
    exists m. eexists. split_and!; [done|done|done|done|done].
Qed.

Lemma new_document_gate id r originalR tenantID oc oc1 :
  ocd_OpenShiftCluster (new_document id r originalR tenantID) = Some oc -> gate_update oc = Ok oc1 -> oc1 = oc.
Proof. intros [= <-] H. unfold gate_update in H. simpl in H. by injection H. Qed.

(** The document a PUT or PATCH starts from *)
Lemma put_base_doc r found sd s w w1 w2 w3 isCreate doc :
  sd_Subscription sd = Some s -> unchanged w w1 ->
  try (OpenShiftClusters.Get (db_OpenShiftClusters db) (r_Path r)) w1 = (Ok found, w2) ->
  match found with
  | inl doc => ret (false, doc)
  | inr e =>
      if IsErrorStatusCode e StatusNotFound then
        do! originalR <- lift (ParseResourceID (r_OriginalPath r));
        do! id <- uuid_NewV4;
        do! s <- lift (deref (sd_Subscription sd));
        do! sp <- lift (deref (s_Properties s));
        ret (true, new_document id r originalR (sp_TenantID sp))
      else throw e
  end w2 = (Ok (isCreate, doc), w3) ->
  base_doc r s w isCreate doc /\ unchanged w w3.
Proof.
  intros Hs (Hc1 & Hs1 & Ha1) Hfound%try_inv Hdoc.
  assert (unchanged w1 w2) as (Hc2 & Hs2 & Ha2).
  { destruct found; exact (step_same _ _ _ _ (clusters_Get_unchanged _) Hfound). }
  destruct found as [d|e].
  - unfold ret in Hdoc. simplify_eq.
    apply (clusters_Get_ok db) in Hfound as (_ & Hd & Hk & _). rewrite Hc1 in Hd.
    split; [split; [done|by rewrite Hd]|split_and!; congruence].
  - destruct (IsErrorStatusCode e StatusNotFound); [|done].
    apply bind_inv_ok in Hdoc as (oR & w4 & [Hp ->]%lift_inv & (id & w5 & Hu & H')%bind_inv_ok).
    apply (step_same _ _ _ _ uuid_unchanged) in Hu as (Hc5 & Hs5 & Ha5).
    apply bind_inv_ok in H' as (s' & w6 & [Hs'%deref_ok ->]%lift_inv & (sp & w7 & [Hsp%deref_ok ->]%lift_inv & [= <- <- <-])%bind_inv_ok).
    assert (s' = s) as -> by congruence.
    split; [|split_and!; congruence]. split; [done|]. eauto 10.
Qed.

Lemma _put_ok v r w b err w' :
  version_quiet v ->
  _putOrPatchOpenShiftCluster db feature_operations v r w = (Ok (b, err), w') ->
  exists res sd s, ParseResourceID (r_Path r) = Ok res /\ subs w !! r_SubscriptionID res = Some sd /\
    sd_Subscription sd = Some s /\ s_State s = SubscriptionStateRegistered /\ put_accepted v r s w w' b err.
Proof.
  intros Hv H. unfold _putOrPatchOpenShiftCluster in H.
  apply bind_inv_ok in H as (sd & w1 & Hsub & (found & w2 & Hfound & H)%bind_inv_ok).
  pose proof Hsub as (res & s & Hres & Hsub0 & Hsd & Hst0%list_elem_of_singleton)%validateSubscriptionState_ok.
  exists res, sd, s. split_and!; [done..|].
  apply (step_same _ _ _ _ (validateSubscriptionState_unchanged _ _)) in Hsub.
  apply bind_inv_ok in H as ([isCreate doc] & w3 & Hdoc & H).
  apply (put_base_doc _ _ _ s w w1) in Hdoc as [Hbase (Hc3 & Hs3 & Ha3)]; [|done..].
  apply bind_inv_ok in H as (oc0 & w4 & [H0 ->]%lift_inv & (oc1 & w5 & [Hgate ->]%lift_inv & H)%bind_inv_ok).
  apply bind_inv_ok in H as (oc2 & w6 & [Hbody ->]%lift_inv & (oc3 & w7 & [H3 ->]%lift_inv & H)%bind_inv_ok).
  apply bind_inv_ok in H as (u & w8 & Hdyn & (id & w9 & Hop & H)%bind_inv_ok).
  specialize (Hv oc3 w3) as (Hc8 & Hs8 & Ha8). rewrite Hdyn in Hc8, Hs8, Ha8. simpl in *.
  apply newAsyncOperation_ok in Hop as (oc3' & now & m' & H3' & Hidn & Hc9 & Hs9 & Ha9).
  destruct (enqueue_cluster isCreate doc oc2) as (oc4 & H4 & Hst & Hkey & Hid4).
  apply deref_ok in H3. assert (oc4 = oc3) as -> by congruence. assert (oc3' = oc3) as -> by congruence.
  apply bind_inv_ok in H as (u' & w10 & Hh & (rdoc & w11 & Hput & H)%bind_inv_ok).
  apply (step_same _ _ _ _ (set_async_header_unchanged _ _)) in Hh as (Hc10 & Hs10 & Ha10).
  apply bind_inv_ok in H as (d1 & w12 & [Hr ->]%lift_inv & (oc5 & w13 & [H5 ->]%lift_inv & [= <- <- <-])%bind_inv_ok).
  destruct Hbase as [Hk Hbase].
  apply (put_document_ok _ _ (r_Path r)) in Hput as (m & d1' & -> & Hc11 & Hs11 & Ha11 & Hd1);
    [|by rewrite <-Hk, <-Hkey|intros ->; exists doc; by rewrite Hc10, Hc9, Hc8, Hc3
     |intros _; apply deref_ok in Hr; by eexists].
  injection Hr as ->.
  rewrite Ha8, Ha3 in Hidn. rewrite Hc10, Hc9, Hc8, Hc3 in *. rewrite Ha10, Ha9, Ha8, Ha3 in Ha11.
  assert (ocd_OpenShiftCluster doc = Some oc0) as Hdoc0 by by apply deref_ok.
  apply apply_body_ok in Hbody. unfold new_operation in *. rewrite Hst in *.
  destruct isCreate.
  - destruct Hd1 as (Hnone & pk & Hpk & ->). destruct Hbase as (id0 & oR & sp & Hp & Hsp & ->).
    pose proof (new_document_gate _ _ _ _ _ _ Hdoc0 Hgate) as ->.
    assert (oc5 = oc3) as -> by (apply deref_ok in H5; simpl in H5, H4; congruence).
    injection H4 as <-. by eapply (put_created v r s w _ oR sp id0).
  - subst d1. assert (oc5 = oc3) as -> by (apply deref_ok in H5; simpl in H5, H4; congruence).
    injection H4 as <-. apply gate_update_ok in Hgate. by eapply (put_updated v r s w _ doc).
Qed.

(** ** Refusals

    An error that a client sees with a status of 400 or more. *)
Definition refusal (e : error) : Prop :=
  match e with ErrCloud n _ => (400 <= n)%Z | ErrStatusCode _ => False | _ => True end.

Record VersionOk (v : Version W) : Prop := {
  vo_quiet : version_quiet v;
  vo_static location path ext cur e : v_Static v location path ext cur = Err e -> refusal e;
  vo_dynamic oc : raises refusal (v_Dynamic v oc);
}.

Lemma db_error_refusal e : db_error e -> refusal e.
Proof. by destruct e. Qed.

Lemma db_refuses {A} (m : M W A) : raises db_error m -> raises refusal m.
Proof. apply raises_mono, db_error_refusal. Qed.

(** A call whose error the caller looks at and may pass on *)
Lemma found_refuses {A B} (m : M W A) (f : A + error -> M W B) :
  raises db_error m -> (forall a, raises refusal (f (inl a))) ->
  (forall e, refusal e -> raises refusal (f (inr e))) -> raises refusal (bind (try m) f).
Proof.
  intros Hm Ha He. eapply yields_bind; [by apply yields_try|]. intros [a|e] H; [apply Ha|].
  by apply He, db_error_refusal.
Qed.

Lemma ParseResourceID_refuses key : raises refusal (lift (W := W) (ParseResourceID key)).
Proof. apply raises_lift. intros e He. apply ParseResourceID_err in He as [m ->]. done. Qed.

Lemma validateSubscriptionState_refuses key states : raises refusal (validateSubscriptionState db key states).
Proof.
  unfold validateSubscriptionState. apply raises_bind; [apply ParseResourceID_refuses|intros res].
  apply found_refuses; [by apply subs_Get_raises| |].
  - intros doc. apply raises_bind; [apply raises_deref|intros d]. apply raises_bind; [apply raises_deref|intros s].
    by case_match; intros w.
  - intros e He. by case_match; intros w.
Qed.

Lemma gate_update_refuses oc e : gate_update oc = Err e -> refusal e.
Proof.
  unfold gate_update, validateTerminalProvisioningState. case_match; simpl; [|by intros [= <-]].
  repeat case_decide; intros; by simplify_eq.
Qed.

Lemma apply_body_refuses v r b oc e : VersionOk v -> apply_body v r b oc = Err e -> refusal e.
Proof.
  intros Hv. unfold apply_body. destruct (if decide _ then _ else _) as [ext| | |] eqn:E; simpl; try done.
  - destruct (v_Unmarshal v _ ext) as [[ext'|]|m]; [|done|by intros [= <-]].
    destruct (v_Static v _ _ _ _) eqn:Es; simpl; try done. intros [= <-]. by eapply vo_static.
  - by repeat case_decide.
Qed.

Lemma newAsyncOperation_refuses r doc : raises refusal (newAsyncOperation db r doc).
Proof.
  unfold newAsyncOperation. apply raises_bind; [by apply (uuid_raises_db db)|intros id].
  apply raises_bind; [apply raises_deref|intros oc]. apply raises_bind; [by apply (now_raises_db db)|intros now].
  apply raises_bind; [by apply db_refuses, (async_Create_raises db)|intros ?; apply raises_ret].
Qed.

Lemma put_document_refuses b doc : raises refusal (put_document db b doc).
Proof.
  unfold put_document. destruct b; [|by apply db_refuses, (clusters_update_raises db)].
  apply found_refuses; [by apply clusters_Create_raises|by intros a w|].
  intros e He. by case_match; intros w.
Qed.

Lemma _put_refuses v r :
  VersionOk v -> raises refusal (_putOrPatchOpenShiftCluster db feature_operations v r).
Proof.
  intros Hv. unfold _putOrPatchOpenShiftCluster.
  apply raises_bind; [apply validateSubscriptionState_refuses|intros sd].
  apply found_refuses; [by apply clusters_Get_raises|intros doc|intros e He].
  all: apply raises_bind; [|intros [isCreate d]].
  1: apply raises_ret.
  2: { destruct (IsErrorStatusCode _ _); [|by intros w].
       apply raises_bind; [apply ParseResourceID_refuses|intros oR].
       apply raises_bind; [by apply (uuid_raises_db db)|intros id].
       apply raises_bind; [apply raises_deref|intros s]. apply raises_bind; [apply raises_deref|intros sp].
       apply raises_ret. }
  all: apply raises_bind; [apply raises_deref|intros oc];
    apply raises_bind; [apply raises_lift; apply gate_update_refuses|intros oc1];
    apply raises_bind; [apply raises_lift; intros e'; by apply apply_body_refuses|intros oc2];
    apply raises_bind; [apply raises_deref|intros oc3];
    apply raises_bind; [by apply vo_dynamic|intros u];
    apply raises_bind; [apply newAsyncOperation_refuses|intros id];
    apply raises_bind; [unfold set_async_header; repeat case_match; by intros w|intros ?];
    apply raises_bind; [apply put_document_refuses|intros d1];
    apply raises_bind; [apply raises_deref|intros d2];
    apply raises_bind; [apply raises_deref|intros oc4]; apply raises_ret.
Qed.

Lemma reply_refusal h b e : refusal e -> (400 <= resp_StatusCode (reply h b (Some e)))%Z.
Proof. destruct e; simpl; intros; unfold StatusInternalServerError in *; try done; lia. Qed.

(** ** Tries that a failed precondition ends

    Such a try has written nothing, so the next one starts from the same
    collections. *)
Definition harmless {A} (m : M W A) : Prop := forall w e w',
  m w = (Err e, w') -> IsErrorStatusCode e StatusPreconditionFailed = true -> unchanged w w'.
Definition no_412 (e : error) : Prop := IsErrorStatusCode e StatusPreconditionFailed = false.

Lemma harmless_bind {A B} (m : M W A) (f : A -> M W B) :
  steps unchanged m -> (forall a, harmless (f a)) -> harmless (bind m f).
Proof.
  intros Hm Hf w e w' [H|(a & w1 & H & H')]%bind_inv_err He; [by eapply step_same|].
  apply (step_same _ _ _ _ Hm) in H. etransitivity; [done|]. by eapply Hf.
Qed.

Lemma harmless_commit {A B} (m : M W A) (f : A -> M W B) :
  harmless m -> (forall a, raises no_412 (f a)) -> harmless (bind m f).
Proof.
  intros Hm Hf w e w' [H|(a & w1 & H & H')]%bind_inv_err He; [by eapply Hm|].
  specialize (Hf a w1). rewrite H' in Hf. unfold no_412 in Hf. simpl in Hf. congruence.
Qed.

Lemma harmless_unchanged {A} (m : M W A) : steps unchanged m -> harmless m.
Proof. intros H w e w' E _. by eapply step_same. Qed.

Lemma async_Create_harmless doc : harmless (AsyncOperations.Create (db_AsyncOperations db) doc).
Proof.
  intros w e w' H He.
  assert (forall D `{!Collection W D} (RQ : RuntimeQuiet W D) (AP : Apart W D AsyncOperationDocument),
    steps (same (D := D)) (AsyncOperations.Create (db_AsyncOperations db) doc)) as Hf.
  { intros D ? RQ AP. apply async_Create_frame; [apply _|others..]. }
  pose proof (Hf OpenShiftClusterDocument _ _ _ w) as H1. pose proof (Hf SubscriptionDocument _ _ _ w) as H2.
  rewrite H in H1, H2. split_and!; [done|done|].
  unfold AsyncOperations.Create in H. case_decide; [unfold throw in H; by simplify_eq|].
  unfold bind, try in H. destruct (Cosmos.Create _ _ _ _ w) as [[y|e'| |] w3] eqn:Hc; try done.
  destruct e' as [|n code msg| | |]; simpl in H.
  2: { assert (client_error n /\ w3 = w') as [Hn ->].
       { case_decide as Hn; unfold unwrap, throw in H; injection H as <- <-.
         - subst n. by repeat split.
         - apply bool_decide_eq_true in He. subst n. by repeat split. }
       by apply (Create_client_error (AsyncOperations.c (db_AsyncOperations db)) async_retries) in Hc as [Hc _]. }
  all: unfold throw in H; by injection H as <- <-.
Qed.

Lemma newAsyncOperation_harmless r doc : harmless (newAsyncOperation db r doc).
Proof.
  unfold newAsyncOperation. apply harmless_bind; [apply uuid_unchanged|intros id].
  apply harmless_bind; [apply steps_lift; apply _|intros oc]. apply harmless_bind; [apply now_unchanged|intros now].
  apply harmless_commit; [apply async_Create_harmless|intros ?; apply raises_ret].
Qed.

Lemma put_document_no_412 b doc : raises no_412 (put_document db b doc).
Proof.
  unfold put_document. destruct b.
  - eapply yields_bind; [apply (yields_try _ (fun _ => True)), (raises_mono db_error); [done|by apply clusters_Create_raises]|].
    intros [x|e] _ w; [done|]. by destruct (IsErrorStatusCode _ _).
  - intros w. destruct (OpenShiftClusters.Update _ _ w) as [[x|e| |] w'] eqn:E; try done. simpl.
    destruct (IsErrorStatusCode e StatusPreconditionFailed) eqn:He; [|done]. exfalso.
    by apply (clusters_update_412 db) in E as [(o & [=] & _) _].
Qed.

Lemma _put_harmless v r :
  VersionOk v -> harmless (_putOrPatchOpenShiftCluster db feature_operations v r).
Proof.
  intros Hv. unfold _putOrPatchOpenShiftCluster.
  apply harmless_bind; [apply validateSubscriptionState_unchanged|intros sd].
  apply harmless_bind; [apply steps_try, clusters_Get_unchanged|intros found].
  apply harmless_bind; [steps_auto|intros [isCreate d]].
  apply harmless_bind; [apply steps_lift; apply _|intros oc].
  apply harmless_bind; [apply steps_lift; apply _|intros oc1].
  apply harmless_bind; [apply steps_lift; apply _|intros oc2].
  apply harmless_bind; [apply steps_lift; apply _|intros oc3].
  apply harmless_bind; [intros w; apply (vo_quiet _ Hv)|intros u].
  apply harmless_commit; [apply newAsyncOperation_harmless|intros id].
  apply raises_bind; [unfold set_async_header; repeat case_match; by intros w|intros ?].
  apply raises_bind; [apply put_document_no_412|intros d1].
  apply raises_bind; [apply raises_deref|intros d2].
  apply raises_bind; [apply raises_deref|intros oc4; apply raises_ret].
Qed.

Lemma put_accepted_unchanged v r s w0 w w' b err :
  unchanged w0 w -> put_accepted v r s w w' b err -> put_accepted v r s w0 w' b err.
Proof.
  intros (Hc & _ & Ha) H. destruct H; rewrite ?Hc, ?Ha in *; [by eapply put_updated|by eapply put_created].
Qed.

Lemma put_accepted_reply v r s w w' b err h :
  put_accepted v r s w w' b err ->
  resp_StatusCode (reply h b err) = match err with None => StatusOK | Some _ => StatusCreated end.
Proof. by destruct 1. Qed.

(** A reply below 400 is that of an accepted request. *)
Lemma put_accepted_or_refused r w resp w' :
  (forall k v, apis !! k = Some v -> VersionOk v) ->
  putOrPatchOpenShiftCluster db apis feature_operations r w = (Ok resp, w') ->
  (resp_StatusCode resp < 400)%Z ->
  exists v b err h res sd s, apis !! var r "api-version" = Some v /\ resp = reply h b err /\
    ParseResourceID (r_Path r) = Ok res /\ subs w !! r_SubscriptionID res = Some sd /\
    sd_Subscription sd = Some s /\ s_State s = SubscriptionStateRegistered /\ put_accepted v r s w w' b err.
Proof.
  intros Hapis H Hst. unfold putOrPatchOpenShiftCluster in H.
  apply bind_inv_ok in H as (u & w1 & Hh & (v & w2 & [Hv%deref_ok ->]%lift_inv & H)%bind_inv_ok).
  apply (step_same _ _ _ _ (header_unchanged _)) in Hh.
  apply bind_inv_ok in H as (out & w3 & Hout%try_inv & (h & w4 & Hg & [= <- <-])%bind_inv_ok).
  unfold get_cell in Hg. simplify_eq. apply Hapis in Hv as Hok.
  destruct out as [[b err]|e].
  - apply (Retry_ok (Sleep_ok db) unchanged) in Hout as (wi & Hwi & Hput);
      [|apply sleep_unchanged|intros w0 e w5 He; by apply (_put_harmless v r Hok)].
    apply _put_ok in Hput as (res & sd & s & ? & Hsub & ? & ? & Hput); [|apply Hok].
    exists v, b, err, (cell_get w4), res, sd, s. split_and!; [done..| |done|done|].
    + destruct Hh as (_ & Hs & _), Hwi as (_ & Hs' & _). by rewrite <-Hs, <-Hs'.
    + eapply put_accepted_unchanged; [|done]. by transitivity w1.
  - pose proof (raises_retry refusal 5 0 _ (sleep_raises_db db refusal) (_put_refuses v r Hok) w1) as Hr.
    change (retry_from 5 0) with (RetryOnPreconditionFailed (A := option string * option error)) in Hr.
    rewrite Hout in Hr. simpl in Hr. pose proof (reply_refusal (cell_get w4) None e Hr). simpl in *. lia.
Qed.

(** ** Refused updates *)

(** A try that changes nothing and comes to nothing *)
Definition refused {A} (m : M W A) w : Prop := unchanged w (snd (m w)) /\ is_ok (fst (m w)) = false.

Lemma refused_bind {A B} (m : M W A) (f : A -> M W B) w :
  steps unchanged m -> (forall a w1, m w = (Ok a, w1) -> unchanged w w1 -> refused (f a) w1) ->
  refused (bind m f) w.
Proof.
  intros Hm Hf. specialize (Hm w). unfold refused, bind.
  destruct (m w) as [[a|e| |] w1] eqn:E; simpl in *; try done.
  destruct (Hf a w1 eq_refl Hm) as [H1 H2]. split; [by etransitivity|done].
Qed.

Lemma refused_throw {A} e w : refused (throw (A := A) e) w.
Proof. done. Qed.

(** A stored cluster that the gate stops *)
Lemma _put_refused v r w d0 oc0 :
  clusters w !! r_Path r = Some d0 -> ocd_OpenShiftCluster d0 = Some oc0 -> is_ok (gate_update oc0) = false ->
  OpenShiftClusters.partitionKey (r_Path r) = Ok (ocd_PartitionKey d0) ->
  refused (_putOrPatchOpenShiftCluster db feature_operations v r) w.
Proof.
  intros Hd0 Hoc0 Hgate Hpk. unfold _putOrPatchOpenShiftCluster.
  apply refused_bind; [apply validateSubscriptionState_unchanged|intros sd w1 _ (Hc1 & _)].
  apply refused_bind; [apply steps_try, clusters_Get_unchanged|intros found w2 Hf%try_inv (Hc2 & _)].
  rewrite Hc1 in Hc2. destruct found as [d|e].
  - apply (clusters_Get_ok db) in Hf as (_ & Hd & _). rewrite Hc1, Hd0 in Hd. injection Hd as <-.
    apply refused_bind; [apply steps_ret; apply _|intros [b d] w3 [= <- <- <-] _].
    apply refused_bind; [apply steps_lift; apply _|intros oc w4 [Ho%deref_ok ->]%lift_inv _].
    apply refused_bind; [apply steps_lift; apply _|intros oc1 w5 [Hg ->]%lift_inv _].
    exfalso. simplify_eq. by rewrite Hg in Hgate.
  - apply refused_bind; [steps_auto|intros [b d] w3 H3 _]. exfalso.
    destruct (IsErrorStatusCode e StatusNotFound) eqn:He; [|done].
    destruct e as [|n code msg| | |]; try done. apply bool_decide_eq_true in He. subst n.
    apply (clusters_Get_err db) in Hf as (_ & _ & Hnf). rewrite Hc1 in Hnf. by eapply Hnf.
Qed.

Lemma put_refused r w d0 oc0 resp w' :
  (forall k v, apis !! k = Some v -> VersionOk v) ->
  clusters w !! r_Path r = Some d0 -> ocd_OpenShiftCluster d0 = Some oc0 -> is_ok (gate_update oc0) = false ->
  OpenShiftClusters.partitionKey (r_Path r) = Ok (ocd_PartitionKey d0) ->
  putOrPatchOpenShiftCluster db apis feature_operations r w = (Ok resp, w') ->
  unchanged w w' /\ (400 <= resp_StatusCode resp)%Z.
Proof.
  intros Hapis Hd0 Hoc0 Hgate Hpk H. unfold putOrPatchOpenShiftCluster in H.
  apply bind_inv_ok in H as (u & w1 & Hh & (v & w2 & [Hv%deref_ok ->]%lift_inv & H)%bind_inv_ok).
  apply (step_same _ _ _ _ (header_unchanged _)) in Hh.
  apply bind_inv_ok in H as (out & w3 & Hout%try_inv & (h & w4 & Hg & [= <- <-])%bind_inv_ok).
  unfold get_cell in Hg. simplify_eq. apply Hapis in Hv as Hok.
  destruct (Retry_refused (Sleep_ok db) unchanged sleep_unchanged (_putOrPatchOpenShiftCluster db feature_operations v r) w1)
    as [Hun Hno].
  { intros w5 (Hc & _). eapply _put_refused; try done. destruct Hh as (Hc' & _). by rewrite Hc, Hc'. }
  destruct out as [x|e]; rewrite Hout in Hun, Hno; simpl in *; [done|].
  split; [by transitivity w1|].
  pose proof (raises_retry refusal 5 0 _ (sleep_raises_db db refusal) (_put_refuses v r Hok) w1) as Hr.
  change (retry_from 5 0) with (RetryOnPreconditionFailed (A := option string * option error)) in Hr.
  rewrite Hout in Hr. simpl in Hr. by apply reply_refusal.
Qed.

(** ** Deletion *)
Lemma delete_header_unchanged r id : steps unchanged (delete_header feature_operations r id).
Proof. unfold delete_header. steps_auto. Qed.

Definition deletable : list SubscriptionState :=
  [SubscriptionStateRegistered; SubscriptionStateWarned; SubscriptionStateSuspended].

(** The document of a cluster [oc] that is to be deleted by the operation [id] *)
Definition deletion (doc : OpenShiftClusterDocument) (oc : OpenShiftCluster) (id : string) (m : DocMeta)
    : OpenShiftClusterDocument :=
  doc <| ocd_OpenShiftCluster := Some (set_state ProvisioningStateDeleting oc) |> <| ocd_Dequeues := 0%Z |>
      <| ocd_AsyncOperationID := id |> <| ocd_Meta := m |>.

(** The closure on a cluster it accepts *)
Lemma _delete_ok r doc w d1 w' :
  _deleteOpenShiftCluster db feature_operations r doc w = (Ok d1, w') ->
  exists oc id now m, ocd_OpenShiftCluster doc = Some oc /\ terminal (state_of oc) = true /\
    d1 = (enqueue_delete doc) <| ocd_AsyncOperationID := id |> /\
    clusters w' = clusters w /\ subs w' = subs w /\ asyncs w !! id = None /\
    asyncs w' = <[id := new_operation r doc ProvisioningStateDeleting id now m]> (asyncs w) /\
    exists res sd s, ParseResourceID (ocd_Key doc) = Ok res /\ subs w !! r_SubscriptionID res = Some sd /\
      sd_Subscription sd = Some s /\ s_State s ∈ deletable.
Proof.
  unfold _deleteOpenShiftCluster. intros H.
  apply bind_inv_ok in H as (sd & w1 & Hsub & (oc & w2 & [Hoc%deref_ok ->]%lift_inv & H)%bind_inv_ok).
  apply validateSubscriptionState_ok in Hsub as Hst. destruct Hst as (res & s & ? & ? & ? & ?).
  apply (step_same _ _ _ _ (validateSubscriptionState_unchanged _ _)) in Hsub as (Hc1 & Hs1 & Ha1).
  apply bind_inv_ok in H as (u & w3 & [Ht ->]%lift_inv & (id & w4 & Hop & H)%bind_inv_ok).
  apply newAsyncOperation_ok in Hop as (oc' & now & m & Hoc' & Hn & Hc2 & Hs2 & Ha2).
  apply bind_inv_ok in H as (u' & w5 & Hh & [= <- <-]).
  apply (step_same _ _ _ _ (delete_header_unchanged _ _)) in Hh as (Hc3 & Hs3 & Ha3).
  assert (oc' = set_state ProvisioningStateDeleting oc) as ->.
  { assert (ocd_OpenShiftCluster (enqueue_delete doc) = set_state ProvisioningStateDeleting <$> ocd_OpenShiftCluster doc)
      as E by reflexivity. rewrite E, Hoc in Hoc'. by injection Hoc'. }
  exists oc, id, now, m. split_and!; [done| |done|congruence|congruence|congruence| |eauto 10].
  - unfold validateTerminalProvisioningState in Ht. unfold terminal. by case_match.
  - rewrite Ha3, Ha2, Ha1. done.
Qed.

Lemma _delete_harmless r doc : harmless (_deleteOpenShiftCluster db feature_operations r doc).
Proof.
  unfold _deleteOpenShiftCluster.
  apply harmless_bind; [apply validateSubscriptionState_unchanged|intros sd].
  apply harmless_bind; [apply steps_lift; apply _|intros oc].
  apply harmless_bind; [apply steps_lift; apply _|intros u].
  apply harmless_commit; [apply newAsyncOperation_harmless|intros id].
  apply raises_bind; [|intros ?; apply raises_ret].
  unfold delete_header. by repeat case_match; intros w.
Qed.

Lemma _delete_refuses r doc : raises refusal (_deleteOpenShiftCluster db feature_operations r doc).
Proof.
  unfold _deleteOpenShiftCluster.
  apply raises_bind; [apply validateSubscriptionState_refuses|intros sd].
  apply raises_bind; [apply raises_deref|intros oc].
  apply raises_bind; [apply raises_lift; unfold validateTerminalProvisioningState; intros e;
    case_match; [done|by intros [= <-]]|intros u].
  apply raises_bind; [apply newAsyncOperation_refuses|intros id].
  apply raises_bind; [|intros ?; apply raises_ret].
  unfold delete_header. by repeat case_match; intros w.
Qed.

Lemma update_no_412 doc : raises no_412 (OpenShiftClusters.update (db_OpenShiftClusters db) doc None).
Proof. apply (put_document_no_412 false). Qed.

Lemma delete_body_ok r d0 w x w' :
  OpenShiftClusters.Patch (db_OpenShiftClusters db) (r_Path r)
    (_deleteOpenShiftCluster db feature_operations r) w = (Ok x, w') ->
  clusters w !! r_Path r = Some d0 ->
  exists oc id now m m', ocd_OpenShiftCluster d0 = Some oc /\ terminal (state_of oc) = true /\
    clusters w' = <[r_Path r := deletion d0 oc id m]> (clusters w) /\
    asyncs w !! id = None /\
    asyncs w' = <[id := new_operation r d0 ProvisioningStateDeleting id now m']> (asyncs w) /\
    exists res sd s, ParseResourceID (r_Path r) = Ok res /\ subs w !! r_SubscriptionID res = Some sd /\
      sd_Subscription sd = Some s /\ s_State s ∈ deletable.
Proof.
  intros H Hd0. unfold OpenShiftClusters.Patch, OpenShiftClusters.patch, patch_loop in H.
  apply (Retry_ok (Sleep_ok db) unchanged) in H as (wi & (Hci & Hsi & Hai) & H); [|apply sleep_unchanged|].
  2: { intros w0 e w1 He. assert (harmless (do! doc <- OpenShiftClusters.Get (db_OpenShiftClusters db) (r_Path r);
        do! doc <- _deleteOpenShiftCluster db feature_operations r doc;
        OpenShiftClusters.update (db_OpenShiftClusters db) doc None)) as Hb; [|by apply Hb].
      apply harmless_bind; [apply clusters_Get_unchanged|intros d].
      apply harmless_commit; [apply _delete_harmless|intros d1; apply update_no_412]. }
  apply bind_inv_ok in H as (d & w1 & Hg & (d1 & w2 & Hf & Hu)%bind_inv_ok).
  pose proof (step_same _ _ _ _ (clusters_Get_unchanged _) Hg) as (Hc1 & Hs1 & Ha1).
  apply (clusters_Get_ok db) in Hg as (_ & Hd & Hk & _). rewrite Hci, Hd0 in Hd. injection Hd as <-.
  apply _delete_ok in Hf as (oc & id & now & m' & Hoc & Ht & -> & Hc2 & Hs2 & Hn & Ha2 & Hsub).
  apply (put_document_ok false _ (r_Path r)) in Hu as (m & d2 & -> & Hc3 & _ & Ha3 & ->);
    [|done|intros _; exists d0; split; [congruence|done]|done].
  exists oc, id, now, m, m'. rewrite Hk in Hsub. rewrite <-Hci, <-Hc1, <-Hc2, <-Hai, <-Ha1.
  assert (deletion d0 oc id m = (enqueue_delete d0) <| ocd_AsyncOperationID := id |> <| ocd_Meta := m |>) as ->.
  { destruct d0. simpl in Hoc. by rewrite Hoc. }
  split_and!; [done|done|done|done|congruence|].
  destruct Hsub as (res & sd & s & Hp & Hsd & Hs). rewrite Hs1, Hsi in Hsd. eauto 10.
Qed.

(** 202 is the answer to an accepted deletion, and only to that. *)
Lemma delete_accepted r w resp w' d0 :
  deleteOpenShiftCluster db feature_operations r w = (Ok resp, w') ->
  resp_StatusCode resp = StatusAccepted -> clusters w !! r_Path r = Some d0 ->
  exists oc id now m m', ocd_OpenShiftCluster d0 = Some oc /\ terminal (state_of oc) = true /\
    clusters w' = <[r_Path r := deletion d0 oc id m]> (clusters w) /\
    asyncs w !! id = None /\
    asyncs w' = <[id := new_operation r d0 ProvisioningStateDeleting id now m']> (asyncs w) /\
    exists res sd s, ParseResourceID (r_Path r) = Ok res /\ subs w !! r_SubscriptionID res = Some sd /\
      sd_Subscription sd = Some s /\ s_State s ∈ deletable.
Proof.
  unfold deleteOpenShiftCluster. intros H Hst Hd0.
  apply bind_inv_ok in H as (u & w1 & Hh & (out & w2 & Hout%try_inv & (h & w3 & Hg & [= <- <-])%bind_inv_ok)%bind_inv_ok).
  apply (step_same _ _ _ _ (header_unchanged _)) in Hh as (Hc & Hs & Ha).
  unfold get_cell in Hg. simplify_eq. destruct out as [x|e].
  - rewrite <-Hc in Hd0. destruct (delete_body_ok _ _ _ _ _ Hout Hd0) as
      (oc & id & now & m & m' & H1 & H2 & H3 & H4 & H5 & Hsub).
    exists oc, id, now, m, m'. rewrite <-Hc, <-Ha. rewrite Hs in Hsub. done.
  - assert (refusal e) as He.
    { pose proof (clusters_patch_raises db refusal (r_Path r) (_deleteOpenShiftCluster db feature_operations r) None
        db_error_refusal (_delete_refuses r) w1) as Hr.
      unfold OpenShiftClusters.Patch in Hout. by rewrite Hout in Hr. }
    unfold delete_outcome in Hst. destruct (IsErrorStatusCode e StatusNotFound); [done|].
    change (resp_StatusCode (reply (cell_get w3) None (Some e)) = StatusAccepted) in Hst.
    pose proof (reply_refusal (cell_get w3) None e He). unfold StatusAccepted in *. lia.
Qed.

Lemma _delete_clusters r doc :
  steps (same (D := OpenShiftClusterDocument)) (_deleteOpenShiftCluster db feature_operations r doc).
Proof.
  unfold _deleteOpenShiftCluster.
  apply steps_bind; [apply _|apply clusters_same_put, validateSubscriptionState_unchanged|intros sd].
  apply steps_bind; [apply _|apply steps_lift; apply _|intros oc].
  apply steps_bind; [apply _|apply steps_lift; apply _|intros u].
  apply steps_bind; [apply _|apply newAsyncOperation_same; apply _|intros id].
  apply steps_bind; [apply _|apply clusters_same_put, delete_header_unchanged|intros ?].
  apply steps_ret; apply _.
Qed.

(** A cluster that is being worked on is not deleted. *)
Lemma delete_refused r w d0 oc resp w' :
  deleteOpenShiftCluster db feature_operations r w = (Ok resp, w') ->
  clusters w !! r_Path r = Some d0 -> ocd_OpenShiftCluster d0 = Some oc -> terminal (state_of oc) = false ->
  clusters w' = clusters w /\ resp_StatusCode resp <> StatusAccepted.
Proof.
  intros H Hd0 Hoc Ht. split.
  - unfold deleteOpenShiftCluster in H.
    apply bind_inv_ok in H as (u & w1 & Hh & (out & w2 & Hout & (h & w3 & Hg & [= <- <-])%bind_inv_ok)%bind_inv_ok).
    apply (step_same _ _ _ _ (header_unchanged _)) in Hh as (Hc & _ & _).
    unfold get_cell in Hg. simplify_eq. rewrite <-Hc in Hd0 |- *.
    assert (clusters (snd (OpenShiftClusters.Patch (db_OpenShiftClusters db) (r_Path r)
      (_deleteOpenShiftCluster db feature_operations r) w1)) = clusters w1) as Hp.
    { apply (clusters_patch_refused db).
      - intros d w4. apply _delete_clusters.
      - intros d wf Hd. simplify_eq.
        destruct (_deleteOpenShiftCluster db feature_operations r d0 wf) as [[d1|e| |] w5] eqn:E; try done.
        apply _delete_ok in E as (oc' & ? & ? & ? & ? & ? & _). congruence. }
    unfold try in Hout. by destruct (OpenShiftClusters.Patch _ _ _ w1) as [[]]; simplify_eq.
  - intros Hst. destruct (delete_accepted r w resp w' d0 H Hst Hd0) as (oc' & ? & ? & ? & ? & ? & ? & _). congruence.
Qed.

(** ** Operations *)
Lemma get_operation_ok r w a w' :
  get_operation db r w = (Ok a, w') -> asyncs w !! var r "operationId" = Some a /\ unchanged w w'.
Proof.
  unfold get_operation. intros (found & w1 & Hf%try_inv & H)%bind_inv_ok. destruct found as [o|e].
  - apply lift_inv in H as [Ho%deref_ok ->]. pose proof (step_same _ _ _ _ (async_Get_unchanged _) Hf).
    apply (async_Get_ok db) in Hf as (d & -> & Hd & _). injection Ho as ->. done.
  - by destruct (IsErrorStatusCode _ _).
Qed.

Lemma get_operation_refuses r : raises refusal (get_operation db r).
Proof.
  unfold get_operation. apply found_refuses; [by apply async_Get_raises|intros a; apply raises_deref|].
  intros e He. by case_match; intros w.
Qed.

Lemma in_progress_refuses r a : raises refusal (in_progress db r a).
Proof.
  unfold in_progress. apply found_refuses; [by apply clusters_Get_raises|by intros d w|].
  intros e He. by case_match; intros w.
Qed.

Lemma get_cluster_refuses r key : raises refusal (get_cluster db r key).
Proof.
  unfold get_cluster. apply found_refuses; [by apply clusters_Get_raises|by intros d w|].
  intros e He. by case_match; intros w.
Qed.

Lemma get_cluster_ok r key w d w' :
  get_cluster db r key w = (Ok d, w') -> clusters w !! key = Some d /\ unchanged w w'.
Proof.
  intros H. split; [|eapply step_same; [apply get_cluster_unchanged|done]].
  unfold get_cluster in H. apply bind_inv_ok in H as ([d'|e] & w1 & Hf%try_inv & H); [|by case_match].
  injection H as <- <-. by apply (clusters_Get_ok db) in Hf as (_ & ? & _).
Qed.

(** A reply of 200 comes with what the inner handler returned. *)
Lemma reply_bytes_ok (m : M W string) w resp w' :
  raises refusal m -> reply_bytes m w = (Ok resp, w') -> resp_StatusCode resp = StatusOK ->
  exists b, m w = (Ok b, w') /\ resp_Body resp = Some b.
Proof.
  intros Hm. unfold reply_bytes. intros ([b|e] & w1 & Hout%try_inv & [= <- <-])%bind_inv_ok Hst; [by exists b|].
  specialize (Hm w). rewrite Hout in Hm. pose proof (reply_refusal ∅ None e Hm). unfold StatusOK in Hst.
  simpl in *. lia.
Qed.

(** An operation that its cluster's document still names is in progress. *)
Lemma in_progress_ok r a w b w' d :
  in_progress db r a w = (Ok b, w') ->
  clusters w !! ad_OpenShiftClusterKey a = Some d ->
  OpenShiftClusters.partitionKey (ad_OpenShiftClusterKey a) = Ok (ocd_PartitionKey d) ->
  b = bool_decide (ocd_AsyncOperationID d = var r "operationId") /\ unchanged w w'.
Proof.
  unfold in_progress. intros (found & w1 & Hf%try_inv & H)%bind_inv_ok Hd Hpk.
  pose proof (step_same (try (OpenShiftClusters.Get (db_OpenShiftClusters db) (ad_OpenShiftClusterKey a)))
    w (Ok found) w1 ltac:(apply steps_try, clusters_Get_unchanged)) as Hun.
  destruct found as [d'|e].
  - injection H as <- <-. split; [|by apply Hun; unfold try; rewrite Hf].
    apply (clusters_Get_ok db) in Hf as (_ & Hd' & _). rewrite Hd in Hd'. by injection Hd' as <-.
  - exfalso. destruct (IsErrorStatusCode e StatusNotFound) eqn:He; [|done].
    destruct e as [|n code msg| | |]; try done. apply bool_decide_eq_true in He. subst n.
    apply (clusters_Get_err db) in Hf as (_ & _ & Hnf). by eapply Hnf.
Qed.

Lemma status_refuses r : raises refusal (_getAsyncOperationsStatus db r).
Proof.
  unfold _getAsyncOperationsStatus. apply raises_bind; [apply get_operation_refuses|intros a].
  apply raises_bind; [apply in_progress_refuses|intros b].
  apply raises_bind; [apply raises_deref|intros o; apply raises_ret].
Qed.

(** What a client sees of an operation: that it has started, and how it ended *)
Definition started (o : AsyncOperation) : AsyncOperation :=
  mkAsyncOperation no_missing (ao_ID o) (ao_Name o) EmptyString (ao_InitialProvisioningState o) (ao_StartTime o)
    None None.
Definition finished (o : AsyncOperation) : AsyncOperation :=
  mkAsyncOperation no_missing (ao_ID o) (ao_Name o) EmptyString (ao_ProvisioningState o) (ao_StartTime o)
    (ao_EndTime o) (ao_Error o).

Lemma status_shows r w resp w' a d :
  getAsyncOperationsStatus db r w = (Ok resp, w') -> resp_StatusCode resp = StatusOK ->
  asyncs w !! var r "operationId" = Some a ->
  clusters w !! ad_OpenShiftClusterKey a = Some d ->
  OpenShiftClusters.partitionKey (ad_OpenShiftClusterKey a) = Ok (ocd_PartitionKey d) ->
  exists o, ad_AsyncOperation a = Some o /\
    resp_Body resp = Some (encode_async
      (if decide (ocd_AsyncOperationID d = var r "operationId") then started o else finished o)).
Proof.
  unfold getAsyncOperationsStatus. intros H Hst Ha Hd Hpk.
  apply reply_bytes_ok in H as (b & Hout & ->); [|apply status_refuses|done].
  unfold _getAsyncOperationsStatus in Hout.
  apply bind_inv_ok in Hout as (a' & w2 & [Ha' (Hc & _)]%get_operation_ok & H).
  rewrite Ha in Ha'. injection Ha' as <-.
  apply bind_inv_ok in H as (run & w3 & Hrun & (o & w4 & [Ho%deref_ok ->]%lift_inv & [= <- <-])%bind_inv_ok).
  rewrite <-Hc in Hd. apply (in_progress_ok _ _ _ _ _ _ Hrun Hd) in Hpk as [-> _].
  exists o. split; [done|]. by rewrite bool_decide_decide; destruct (decide _).
Qed.

Lemma result_refuses v r w e w' : _getAsyncOperationResult db v r w = (Err e, w') -> refusal e.
Proof.
  assert (raises refusal (_getAsyncOperationResult db v r)) as H.
  { unfold _getAsyncOperationResult. apply raises_bind; [apply get_operation_refuses|intros a].
    apply raises_bind; [apply in_progress_refuses|intros b].
    by repeat case_match; intros w0. }
  specialize (H w). intros E. by rewrite E in H.
Qed.

(** While an operation is in progress its result is not shown: the client is
    sent back to where it came from. *)
Lemma result_hidden r w resp w' a d :
  getAsyncOperationResult db apis r w = (Ok resp, w') -> (resp_StatusCode resp < 400)%Z ->
  asyncs w !! var r "operationId" = Some a ->
  clusters w !! ad_OpenShiftClusterKey a = Some d ->
  OpenShiftClusters.partitionKey (ad_OpenShiftClusterKey a) = Ok (ocd_PartitionKey d) ->
  ocd_AsyncOperationID d = var r "operationId" ->
  resp_StatusCode resp = StatusAccepted /\ resp_Body resp = None.
Proof.
  unfold getAsyncOperationResult. intros H Hst Ha Hd Hpk Hid.
  apply bind_inv_ok in H as (u & w1 & Hh & (v & w2 & [_ ->]%lift_inv & H)%bind_inv_ok).
  apply (step_same _ _ _ _ (header_unchanged _)) in Hh as (Hc & _ & Hac). rewrite <-Hac in Ha. rewrite <-Hc in Hd.
  apply bind_inv_ok in H as (out & w3 & Hout%try_inv & (h & w4 & _ & [= <- <-])%bind_inv_ok).
  destruct out as [[b err]|e].
  - unfold _getAsyncOperationResult in Hout.
    apply bind_inv_ok in Hout as (a' & w5 & [Ha' (Hc' & _)]%get_operation_ok & H).
    rewrite Ha in Ha'. injection Ha' as <-.
    apply bind_inv_ok in H as (run & w6 & Hrun & H).
    rewrite <-Hc' in Hd. apply (in_progress_ok _ _ _ _ _ _ Hrun Hd) in Hpk as [-> _].
    rewrite bool_decide_eq_true_2 in H by done.
    by apply bind_inv_ok in H as (h' & w7 & _ & (u' & w8 & _ & [= <- <- <-])%bind_inv_ok).
  - apply result_refuses in Hout. pose proof (reply_refusal h None e Hout). simpl in *. lia.
Qed.

(** ** What a client is shown of a cluster *)
Lemma get_shows r w resp w' :
  getOpenShiftCluster db apis r w = (Ok resp, w') -> resp_StatusCode resp = StatusOK ->
  exists v d oc, apis !! var r "api-version" = Some v /\ clusters w !! r_Path r = Some d /\
    ocd_OpenShiftCluster d = Some oc /\
    resp_Body resp = Some (v_Marshal v (v_ToExternal v (blank_secret oc))).
Proof.
  unfold getOpenShiftCluster. intros (v & w1 & [Hv%deref_ok ->]%lift_inv & H)%bind_inv_ok Hst.
  apply reply_bytes_ok in H as (b & Hout & ->); [| |done].
  - unfold _getOpenShiftCluster in Hout.
    apply bind_inv_ok in Hout as (d & w2 & [Hd _]%get_cluster_ok & (oc & w3 & [Hoc%deref_ok ->]%lift_inv & [= <- <-])%bind_inv_ok).
    by exists v, d, oc.
  - unfold _getOpenShiftCluster. apply raises_bind; [apply get_cluster_refuses|intros d].
    apply raises_bind; [apply raises_deref|intros oc; apply raises_ret].
Qed.

Lemma credentials_shows r w resp w' :
  postOpenShiftClusterCredentials db apis r w = (Ok resp, w') -> resp_StatusCode resp = StatusOK ->
  exists v d oc, apis !! var r "api-version" = Some v /\ clusters w !! filepath_Dir (r_Path r) = Some d /\
    ocd_OpenShiftCluster d = Some oc /\ state_of oc <> ProvisioningStateCreating /\
    resp_Body resp = Some (v_Credentials v (blank_secret oc)).
Proof.
  unfold postOpenShiftClusterCredentials. case_match; [by intros [= <- <-]|].
  intros (v & w1 & [Hv%deref_ok ->]%lift_inv & H')%bind_inv_ok Hst.
  apply reply_bytes_ok in H' as (b & Hout & ->); [| |done].
  - unfold _postOpenShiftClusterCredentials in Hout.
    apply bind_inv_ok in Hout as (sd & w2 & Hsub & (d & w3 & [Hd _]%get_cluster_ok & Hout)%bind_inv_ok).
    apply (step_same _ _ _ _ (validateSubscriptionState_unchanged _ _)) in Hsub as (Hc & _). rewrite Hc in Hd.
    apply bind_inv_ok in Hout as (oc & w4 & [Hoc%deref_ok ->]%lift_inv & Hout).
    case_decide; [done|]. injection Hout as <- <-. by exists v, d, oc.
  - unfold _postOpenShiftClusterCredentials. apply raises_bind; [apply validateSubscriptionState_refuses|intros sd].
    apply raises_bind; [apply get_cluster_refuses|intros d].
    apply raises_bind; [apply raises_deref|intros oc]. destruct (decide (state_of oc = ProvisioningStateCreating)); [apply raises_throw; by simpl|apply raises_ret].
Qed.

(** ** Subscriptions *)

(** What an accepted PUT of a subscription stores *)
Definition sub_accepted (r : Request) w w' (isCreate : bool) : Prop :=
  exists s d0 m, decode_subscription (r_Body r) = inl (Some s) /\
    (if isCreate then d0 = new_subscription r else subs w !! var r "subscriptionId" = Some d0) /\
    s_State s ∈ [SubscriptionStateRegistered; SubscriptionStateUnregistered; SubscriptionStateWarned;
                 SubscriptionStateSuspended; SubscriptionStateDeleted] /\
    (forall s0, sd_Subscription d0 = Some s0 -> s_State s0 = SubscriptionStateDeleted ->
       s_State s = SubscriptionStateDeleted) /\
    subs w' = <[var r "subscriptionId" :=
      d0 <| sd_Subscription := Some s |>
         <| sd_Deleting := sd_Deleting d0 || bool_decide (s_State s = SubscriptionStateDeleted) |>
         <| sd_Meta := m |>]> (subs w).

Lemma change_subscription_ok old s d0 d :
  change_subscription old s d0 = Ok d ->
  s_State s ∈ [SubscriptionStateRegistered; SubscriptionStateUnregistered; SubscriptionStateWarned;
               SubscriptionStateSuspended; SubscriptionStateDeleted] /\
  (old = SubscriptionStateDeleted -> s_State s = SubscriptionStateDeleted) /\
  d = d0 <| sd_Subscription := Some s |>
         <| sd_Deleting := sd_Deleting d0 || bool_decide (s_State s = SubscriptionStateDeleted) |>.
Proof.
  unfold change_subscription. destruct (existsb _ _) eqn:E.
  - apply existsb_exists in E as (st & Hin & Hst%bool_decide_eq_true). simpl. case_decide as Hd; [done|].
    intros [= <-]. split_and!.
    + rewrite Hst. apply list_elem_of_In. simpl in *. tauto.
    + intros ->. destruct (decide (s_State s = SubscriptionStateDeleted)); [done|]. exfalso. by apply Hd.
    + rewrite bool_decide_eq_false_2 by (rewrite Hst; by destruct Hin as [<- | [<- | [<- | [<- | []]]]]).
      rewrite orb_false_r. by destruct d0.
  - destruct (decide (s_State s = SubscriptionStateDeleted)) as [Hs|]; simpl; [|done].
    case_decide; [done|]. intros [= <-]. split_and!; [set_solver|done|].
    rewrite bool_decide_eq_true_2 by done. by rewrite orb_true_r.
Qed.

Lemma subs_Create_ok doc w r w' :
  Subscriptions.Create (db_Subscriptions db) doc w = (Ok r, w') ->
  exists m, r = Some (doc <| sd_Meta := m |>) /\ subs w' = <[sd_ID doc := doc <| sd_Meta := m |>]> (subs w).
Proof.
  unfold Subscriptions.Create. case_decide; [done|]. intros (x & w1 & Hx%try_inv & Hu)%bind_inv_ok.
  destruct x as [y|e]; [|exfalso; destruct e; simpl in Hu; try case_decide; done].
  injection Hu as <- <-.
  apply (Create_ok (Subscriptions.c (db_Subscriptions db)) subscriptions_retries) in Hx as (d' & Hst & -> & _ & Hw);
    [|by constructor].
  apply stored_none in Hst as [m ->]. by exists m.
Qed.

Lemma _putSubscription_ok r w b err w' :
  _putSubscription db r w = (Ok (b, err), w') ->
  exists isCreate, sub_accepted r w w' isCreate /\
    err = (if isCreate then Some (ErrStatusCode StatusCreated) else None).
Proof.
  intros H. unfold _putSubscription in H.
  apply bind_inv_ok in H as (found & w1 & Hf%try_inv & (stored & w2 & Hs & H)%bind_inv_ok).
  assert (subs w2 = subs w /\ (forall d, stored = Some d -> subs w !! var r "subscriptionId" = Some d)) as [Hw2 Hst].
  { destruct found as [o|e].
    - injection Hs as <- <-. apply (subs_Get_ok db) in Hf as (d & -> & Hd & Hw). split; [done|]. by intros ? [= <-].
    - apply (step_same _ _ _ _ (subs_Get_unchanged _)) in Hf as (_ & Hw & _).
      destruct (IsErrorStatusCode e StatusNotFound); [|done]. by injection Hs as <- <-. }
  apply bind_inv_ok in H as (old & w3 & [Ho%deref_ok ->]%lift_inv & H).
  destruct (decode_subscription (r_Body r)) as [o|?] eqn:Hdec; [|done].
  apply bind_inv_ok in H as (s & w4 & [Hsd%deref_ok ->]%lift_inv & (d1 & w5 & [Hd1 ->]%lift_inv & H)%bind_inv_ok).
  apply change_subscription_ok in Hd1 as (Hin & Hdel & Hd1). subst o.
  apply bind_inv_ok in H as (rd & w6 & Hput & H).
  exists (bool_decide (stored = None)).
  assert (err = (if bool_decide (stored = None) then Some (ErrStatusCode StatusCreated) else None) /\ w' = w6) as [-> ->].
  { apply bind_inv_ok in H as (d2 & w7 & [_ ->]%lift_inv & (s2 & w8 & [_ ->]%lift_inv & [= <- <- <-])%bind_inv_ok). done. }
  split; [|done]. clear H. destruct stored as [d0|]; simpl in *.
  - apply (subs_update_ok db) in Hput as (d' & old' & [m ->]%stored_none & _ & _ & Hw); [|by constructor].
    exists s, d0, m. specialize (Hst d0 eq_refl). rewrite Hw2 in Hw.
    pose proof (store_key W SubscriptionDocument (Subscriptions.c (db_Subscriptions db)) _ _ _ Hst) as Hid. simpl in Hid.
    assert (sd_ID d1 = var r "subscriptionId") as Hid1 by by subst d1.
    rewrite Hid1, Hd1 in Hw.
    split_and!; [done|done|done|intros s0 Hs0; rewrite Ho in Hs0; by injection Hs0 as <-|done].
  - apply subs_Create_ok in Hput as (m & _ & Hw). rewrite Hw2 in Hw.
    exists s, (new_subscription r), m. rewrite Hd1 in Hw.
    split_and!; [done|done|done|by intros s0 [= <-]|done].
Qed.

Lemma subs_Create_harmless doc : harmless (Subscriptions.Create (db_Subscriptions db) doc).
Proof.
  intros w e w' H He.
  assert (forall D `{!Collection W D} (RQ : RuntimeQuiet W D) (AP : Apart W D SubscriptionDocument),
    steps (same (D := D)) (Subscriptions.Create (db_Subscriptions db) doc)) as Hf.
  { intros D ? RQ AP. apply subs_Create_frame; [apply _|others..]. }
  pose proof (Hf OpenShiftClusterDocument _ _ _ w) as H1. pose proof (Hf AsyncOperationDocument _ _ _ w) as H2.
  rewrite H in H1, H2. split_and!; [done| |done].
  unfold Subscriptions.Create in H. case_decide; [unfold throw in H; by simplify_eq|].
  unfold bind, try in H. destruct (Cosmos.Create _ _ _ _ w) as [[y|e'| |] w3] eqn:Hc; try done.
  destruct e' as [|n code msg| | |]; simpl in H.
  2: { assert (client_error n /\ w3 = w') as [Hn ->].
       { case_decide as Hn; unfold unwrap, throw in H; injection H as <- <-.
         - subst n. by repeat split.
         - apply bool_decide_eq_true in He. subst n. by repeat split. }
       by apply (Create_client_error (Subscriptions.c (db_Subscriptions db)) subscriptions_retries) in Hc as [Hc _]. }
  all: unfold throw in H; by injection H as <- <-.
Qed.

Lemma subs_update_no_412 doc : raises no_412 (Subscriptions.Update (db_Subscriptions db) doc).
Proof.
  intros w. destruct (Subscriptions.Update _ _ w) as [[x|e| |] w'] eqn:E; try done. simpl.
  destruct (IsErrorStatusCode e StatusPreconditionFailed) eqn:He; [|unfold no_412; done]. exfalso.
  by apply (subs_update_412 db) in E as [(o & [=] & _) _].
Qed.

Lemma harmless_no_412 {A} (m : M W A) : raises no_412 m -> harmless m.
Proof. intros H w e w' E He. specialize (H w). rewrite E in H. unfold no_412 in H. simpl in H. congruence. Qed.

Lemma _putSubscription_harmless r : harmless (_putSubscription db r).
Proof.
  unfold _putSubscription.
  apply harmless_bind; [apply steps_try, subs_Get_unchanged|intros found].
  apply harmless_bind; [steps_auto|intros stored].
  apply harmless_bind; [apply steps_lift; apply _|intros old].
  destruct (decode_subscription _) as [o|m]; [|by apply harmless_unchanged, steps_throw; apply _].
  apply harmless_bind; [apply steps_lift; apply _|intros s].
  apply harmless_bind; [apply steps_lift; apply _|intros d].
  apply harmless_commit.
  - case_match; [apply subs_Create_harmless|apply harmless_no_412, subs_update_no_412].
  - intros rd. apply raises_bind; [apply raises_deref|intros d2].
    apply raises_bind; [apply raises_deref|intros s2; apply raises_ret].
Qed.

Lemma change_subscription_refuses old s d e : change_subscription old s d = Err e -> refusal e.
Proof.
  unfold change_subscription. destruct (existsb _ _); simpl; [case_decide; [by intros [= <-]|done]|].
  destruct (decide (s_State s = SubscriptionStateDeleted)); simpl; [case_decide; [by intros [= <-]|done]|].
  by intros [= <-].
Qed.

Lemma _putSubscription_refuses r : raises refusal (_putSubscription db r).
Proof.
  unfold _putSubscription. apply found_refuses; [by apply subs_Get_raises|intros d|intros e He].
  all: apply raises_bind; [by repeat case_match; intros w|intros stored].
  all: apply raises_bind; [apply raises_deref|intros old].
  all: destruct (decode_subscription _) as [o|m]; [|by intros w].
  all: apply raises_bind; [apply raises_deref|intros s].
  all: apply raises_bind; [apply raises_lift; apply change_subscription_refuses|intros d1].
  all: apply raises_bind;
    [case_match; apply db_refuses; [by apply subs_Create_raises|by apply subs_update_raises]|intros rd].
  all: apply raises_bind; [apply raises_deref|intros d2].
  all: apply raises_bind; [apply raises_deref|intros s2; apply raises_ret].
Qed.

Lemma putSubscription_same {D} `{!Collection W D} {RQ : RuntimeQuiet W D} {AP : Apart W D SubscriptionDocument} r :
  steps (same (D := D)) (putSubscription db r).
Proof.
  unfold putSubscription. apply steps_bind; [apply _| |intros out; apply steps_ret; apply _].
  apply steps_try, Retry_steps; [apply _|others|].
  assert (forall id, steps (same (D := D)) (Subscriptions.Get (db_Subscriptions db) id)) as H1
    by (intros; apply subs_Get_frame; [apply _|others..]).
  assert (forall d, steps (same (D := D)) (Subscriptions.Create (db_Subscriptions db) d)) as H2
    by (intros; apply subs_Create_frame; [apply _|others..]).
  assert (forall d, steps (same (D := D)) (Subscriptions.Update (db_Subscriptions db) d)) as H3
    by (intros; apply subs_update_frame; [apply _|others..]).
  unfold _putSubscription. steps_auto.
Qed.

Lemma putSubscription_accepted r w resp w' :
  putSubscription db r w = (Ok resp, w') -> (resp_StatusCode resp < 400)%Z ->
  exists isCreate, sub_accepted r w w' isCreate /\
    resp_StatusCode resp = (if isCreate then StatusCreated else StatusOK) /\
    clusters w' = clusters w /\ asyncs w' = asyncs w.
Proof.
  intros H Hst.
  pose proof (putSubscription_same (D := OpenShiftClusterDocument) r w) as Hc.
  pose proof (putSubscription_same (D := AsyncOperationDocument) r w) as Ha. rewrite H in Hc, Ha.
  unfold putSubscription in H. apply bind_inv_ok in H as (out & w1 & Hout%try_inv & [= <- <-]).
  destruct out as [[b err]|e].
  - apply (Retry_ok (Sleep_ok db) unchanged) in Hout as (wi & (_ & Hs & _) & Hput);
      [|apply sleep_unchanged|intros w0 e w5 He; by apply (_putSubscription_harmless r)].
    apply _putSubscription_ok in Hput as (isCreate & (s & d0 & m & H1 & H2 & H3 & H4 & H5) & ->).
    exists isCreate. split_and!; [|by destruct isCreate|done|done].
    exists s, d0, m. rewrite Hs in *. done.
  - pose proof (raises_retry refusal 5 0 _ (sleep_raises_db db refusal) (_putSubscription_refuses r) w) as Hr.
    change (retry_from 5 0) with (RetryOnPreconditionFailed (A := option string * option error)) in Hr.
    rewrite Hout in Hr. simpl in Hr. pose proof (reply_refusal ∅ None e Hr). simpl in *. lia.
Qed.
End spec.
