(* ===== verification/BackendSpec.v ===== *)
(** * What the back end's workers leave behind

    The state of a cluster's document, and of the operation it names, once a
    worker has ended its lease; when a document is worked on at all. *)
From S2P Require Import Prelude GoStrings.
From S2P Require Import Azure Api External.
From S2P Require Import Cosmos CosmosLaws CosmosSpec.
From S2P Require Import Database Frame DatabaseSpec Backend.

Section spec.
Context {W : Type} `{!Runtime W, !Account W}.
Context `{!Collection W OpenShiftClusterDocument, !Collection W SubscriptionDocument,
          !Collection W AsyncOperationDocument}.
Context (db : Database) `{!AccountLaws W db} {PB : PageBound} {CM : ClusterManager W}.
Implicit Types (w : W) (doc : OpenShiftClusterDocument).

#[local] Instance same_pre {D} `{!Collection W D} : PreOrder (same (W := W) (D := D)).
Proof. split; [by intros ?|unfold same; intros ???; congruence]. Qed.

Ltac others := intros; first [apply now_same|apply sleep_same|apply uuid_same|apply apart_same]; apply _.

Lemma with_ctx_ok {A} b (m : M W A) w x w' : with_ctx b m w = (Ok x, w') -> m w = (Ok x, w').
Proof. by destruct b. Qed.

(** A heart beat renews leases in one collection: the others do not move. *)
Lemma heartbeat_steps {Doc} (R : W -> W -> Prop) `{!PreOrder R} (lease : M W (option Doc)) n b :
  steps R lease -> steps R (heartbeat lease n b).
Proof.
  intros Hl. revert b. induction n as [|n IH]; intros b; [apply steps_ret; apply _|].
  destruct b; [|apply steps_ret; apply _..]. simpl.
  apply steps_bind; [done|by apply steps_recover|]. intros [[x|e]|]; [apply IH|apply steps_ret; apply _..].
Qed.

(** ** The operation *)

(** What an operation's document says once its worker is done *)
Definition op_finished (a0 a : AsyncOperationDocument) (oc : option OpenShiftCluster)
    (ps fps : ProvisioningState) : Prop :=
  exists o0 o now, ad_AsyncOperation a0 = Some o0 /\ ad_AsyncOperation a = Some o /\
    ao_ProvisioningState o = ps /\ ao_EndTime o = Some now /\
    (ps = ProvisioningStateFailed -> is_Some (ao_Error o)) /\
    (ps <> ProvisioningStateFailed -> ao_Error o = ao_Error o0) /\
    ao_InitialProvisioningState o = ao_InitialProvisioningState o0 /\
    ad_OpenShiftClusterKey a = ad_OpenShiftClusterKey a0 /\
    ad_OpenShiftCluster a =
      match oc with
      | Some oc => Some (set_failed_state fps (set_state ps oc))
      | None => ad_OpenShiftCluster a0
      end.

Lemma finish_operation_ok oc ps fps now a0 a1 m :
  finish_operation oc ps fps now a0 = Ok a1 ->
  op_finished a0 (a1 <| ad_Meta := m |>) oc ps fps /\ ad_ID a1 = ad_ID a0.
Proof.
  unfold finish_operation. intros H. destruct a0 as [mf id me [o0|] k c]; [|done]. simpl in H.
  injection H as <-. split; [|by destruct oc].
  destruct (decide (ps = ProvisioningStateFailed)); eexists o0, _, now; destruct oc; by split_and!.
Qed.

Lemma updateAsyncOperation_ok id oc ps fps w w' :
  updateAsyncOperation db id oc ps fps w = (Ok tt, w') -> id <> EmptyString ->
  exists a0 a, asyncs w !! id = Some a0 /\ asyncs w' = <[id := a]> (asyncs w) /\ op_finished a0 a oc ps fps.
Proof.
  unfold updateAsyncOperation. case_decide; [done|]. intros (r & w1 & Hp & [= <-])%bind_inv_ok _.
  apply (async_Patch_ok db) in Hp as (a0 & wf & a1 & wf' & m & Ha & Hf & -> & Hw).
  - apply bind_inv_ok in Hf as (now & w2 & _ & [Hf _]%lift_inv).
    apply (finish_operation_ok _ _ _ _ _ _ m) in Hf as [Hf _]. eauto 10.
  - intros d w2. unfold bind. pose proof (now_same (D := AsyncOperationDocument) _ w2) as H1.
    by destruct (time_Now w2) as [[]].
  - intros d wf d1 wf' (now & w2 & _ & [Hf _]%lift_inv)%bind_inv_ok.
    by apply (finish_operation_ok _ _ _ _ _ _ (ad_Meta d)) in Hf as [_ ?].
Qed.

Lemma updateAsyncOperation_same D `{!Collection W D} {RQ : RuntimeQuiet W D}
    {AP : Apart W D AsyncOperationDocument} id oc ps fps :
  steps (same (D := D)) (updateAsyncOperation db id oc ps fps).
Proof.
  unfold updateAsyncOperation. case_decide; [apply steps_ret; apply _|].
  apply steps_bind; [apply _| |intros ?; apply steps_ret; apply _].
  apply async_Patch_frame; [apply _|others..|]. intros d.
  apply steps_bind; [apply _|others|intros now; apply steps_lift; apply _].
Qed.

Lemma lease_same D `{!Collection W D} {RQ : RuntimeQuiet W D} {AP : Apart W D OpenShiftClusterDocument} doc :
  steps (same (D := D)) (lease db doc).
Proof.
  unfold lease, OpenShiftClusters.Lease, OpenShiftClusters.patchWithLease.
  apply clusters_patch_frame; [apply _|others..|]. intros d. unfold OpenShiftClusters.with_lease.
  case_decide; [apply steps_throw; apply _|apply steps_ret; apply _].
Qed.

Lemma EndLease_same D `{!Collection W D} {RQ : RuntimeQuiet W D} {AP : Apart W D OpenShiftClusterDocument} key ps fps :
  steps (same (D := D)) (OpenShiftClusters.EndLease (db_OpenShiftClusters db) key ps fps).
Proof.
  unfold OpenShiftClusters.EndLease, OpenShiftClusters.patchWithLease.
  apply clusters_patch_frame; [apply _|others..|]. intros d. unfold OpenShiftClusters.with_lease.
  case_decide; [apply steps_throw; apply _|apply steps_lift; apply _].
Qed.

(** ** The end of a lease *)

(** [d1] is [d0] once its worker has let it go with the outcome [ps]. *)
Definition released (ps fps : ProvisioningState) (d0 d1 : OpenShiftClusterDocument) : Prop :=
  ident d1 = ident d0 /\ ocd_LeaseOwner d1 = EmptyString /\ ocd_LeaseExpires d1 = 0%Z /\
  ocd_AsyncOperationID d1 = EmptyString /\
  ocd_Dequeues d1 = (if decide (ps = ProvisioningStateSucceeded) then 0%Z else ocd_Dequeues d0) /\
  exists oc, ocd_OpenShiftCluster d0 = Some oc /\
    ocd_OpenShiftCluster d1 = Some (set_failed_state fps (set_state ps oc)).

(** The lease of [key], which was still ours, has ended. *)
Definition ended (key : string) (ps fps : ProvisioningState) w' : Prop :=
  exists wi d0 d1, clusters wi !! key = Some d0 /\
    ocd_LeaseOwner d0 = OpenShiftClusters.uuid (db_OpenShiftClusters db) /\
    released ps fps d0 d1 /\ clusters w' = <[key := d1]> (clusters wi).

(** The outcome is in the operation's document, when there is one. *)
Definition reported (id : string) (oc : option OpenShiftCluster) (ps fps : ProvisioningState) w w' : Prop :=
  if decide (id = EmptyString) then asyncs w' = asyncs w
  else exists a0 a, asyncs w !! id = Some a0 /\ asyncs w' = <[id := a]> (asyncs w) /\ op_finished a0 a oc ps fps.

Lemma EndLease_ended key ps fps w r w' :
  OpenShiftClusters.EndLease (db_OpenShiftClusters db) key ps fps w = (Ok r, w') -> ended key ps fps w'.
Proof.
  intros (d0 & c & m & H0 & Ho & Hc & _ & Hw)%(clusters_EndLease_ok db).
  exists w, d0, (freed ps fps c m d0). split_and!; [done|done| |done]. split_and!; [done..|]. by exists c.
Qed.

(** The state a failure is recorded under: the one the document was taken in *)
Definition failed_under doc (ps : ProvisioningState) (fps : ProvisioningState) : Prop :=
  if decide (ps = ProvisioningStateFailed)
  then exists oc, ocd_OpenShiftCluster doc = Some oc /\ fps = state_of oc
  else fps = EmptyString.

Lemma endLease_ok stop doc ps w w' :
  endLease db stop doc ps w = (Ok tt, w') ->
  exists fps, failed_under doc ps fps /\ ended (ocd_Key doc) ps fps w' /\
    reported (ocd_AsyncOperationID doc) (ocd_OpenShiftCluster doc) ps fps w w'.
Proof.
  unfold endLease. intros (fps & w1 & Hf & (u & w2 & Hu%with_ctx_ok & H)%bind_inv_ok)%bind_inv_ok.
  apply bind_inv_ok in H as (b & w3 & Hb & (r & w4 & He%with_ctx_ok & [= <-])%bind_inv_ok).
  destruct u. exists fps.
  assert (w1 = w /\ failed_under doc ps fps) as [-> Hfps].
  { unfold failed_under. case_decide.
    - apply bind_inv_ok in Hf as (oc & w5 & [Hoc%deref_ok ->]%lift_inv & [= <- <-]). eauto.
    - by injection Hf as <- <-. }
  split; [done|]. split; [by eapply EndLease_ended|].
  assert (asyncs w4 = asyncs w2) as Hsame.
  { pose proof (EndLease_same AsyncOperationDocument (ocd_Key doc) ps fps w3) as H1. rewrite He in H1.
    assert (asyncs w3 = asyncs w2) as H2; [|unfold same in H1; simpl in *; unfold asyncs in *; congruence].
    destruct stop as [[b0 n]|]; [|by injection Hb as <- <-].
    pose proof (heartbeat_steps (same (D := AsyncOperationDocument)) (lease db doc) n b0
      (lease_same AsyncOperationDocument doc) w2) as H2. by rewrite Hb in H2. }
  unfold reported. destruct (decide (ocd_AsyncOperationID doc = EmptyString)) as [Hid|Hid].
  - unfold updateAsyncOperation in Hu. rewrite decide_True in Hu by done. injection Hu as <-. done.
  - rewrite Hsame. by apply updateAsyncOperation_ok in Hu.
Qed.

(** ** The worker *)
Lemma work_ok s b doc m w w' :
  work db s b doc m w = (Ok tt, w') ->
  exists ps fps wi, ended (ocd_Key doc) ps fps w' /\ failed_under doc ps fps /\
    reported (ocd_AsyncOperationID doc) (ocd_OpenShiftCluster doc) ps fps wi w' /\
    ((ps = ProvisioningStateSucceeded /\ exists w1 w2, m w1 = (Ok tt, w2)) \/ ps = ProvisioningStateFailed).
Proof.
  unfold work. intros (r & w1 & Hr%try_inv & (b1 & w2 & _ & H)%bind_inv_ok)%bind_inv_ok.
  apply endLease_ok in H as (fps & Hf & He & Ha).
  exists (match r with inl _ => ProvisioningStateSucceeded | inr _ => ProvisioningStateFailed end), fps, w2.
  split_and!; [done|done|done|]. destruct r as [[]|e]; [left|by right]. apply with_ctx_ok in Hr. eauto.
Qed.

(** Everything a worker that came back without an error can have done *)
Inductive handled doc w' : Prop :=
| handled_done m w1 w2 oc fps wi :
    (* the manager's work succeeded *)
    ocd_OpenShiftCluster doc = Some oc ->
    (state_of oc = ProvisioningStateCreating /\ Manager_Create m w1 = (Ok tt, w2) \/
     state_of oc = ProvisioningStateUpdating /\ Manager_Update m w1 = (Ok tt, w2)) ->
    ended (ocd_Key doc) ProvisioningStateSucceeded fps w' -> fps = EmptyString ->
    reported (ocd_AsyncOperationID doc) (Some oc) ProvisioningStateSucceeded fps wi w' ->
    handled doc w'
| handled_failed oc wi :
    (* something went wrong: the failure is recorded under the state the
       document was taken in *)
    ocd_OpenShiftCluster doc = Some oc ->
    ended (ocd_Key doc) ProvisioningStateFailed (state_of oc) w' ->
    reported (ocd_AsyncOperationID doc) (Some oc) ProvisioningStateFailed (state_of oc) wi w' ->
    handled doc w'
| handled_deleted m w1 w2 oc wi :
    (* the cluster and then its document are gone *)
    ocd_OpenShiftCluster doc = Some oc -> state_of oc = ProvisioningStateDeleting ->
    Manager_Delete m w1 = (Ok tt, w2) ->
    (forall old, clusters wi !! ocd_Key doc = Some old -> ident doc = ident old ->
       clusters w' = delete (ocd_Key doc) (clusters wi)) ->
    handled doc w'.

Lemma failed_cluster doc fps oc :
  failed_under doc ProvisioningStateFailed fps -> ocd_OpenShiftCluster doc = Some oc -> fps = state_of oc.
Proof. unfold failed_under. rewrite decide_True by done. intros (oc' & H & ->) H'. congruence. Qed.

Lemma endLease_failed stop doc w w' :
  endLease db stop doc ProvisioningStateFailed w = (Ok tt, w') -> handled doc w'.
Proof.
  intros (fps & Hf & He & Ha)%endLease_ok.
  assert (exists oc, ocd_OpenShiftCluster doc = Some oc) as [oc Hoc].
  { unfold failed_under in Hf. rewrite decide_True in Hf by done. destruct Hf as (oc & ? & _). eauto. }
  apply (failed_cluster _ _ oc) in Hf as ->; [|done]. rewrite Hoc in Ha. by eapply handled_failed.
Qed.

Lemma work_handled s b doc m f oc w w' :
  ocd_OpenShiftCluster doc = Some oc ->
  (forall w1 w2, f w1 = (Ok tt, w2) ->
     state_of oc = ProvisioningStateCreating /\ Manager_Create m w1 = (Ok tt, w2) \/
     state_of oc = ProvisioningStateUpdating /\ Manager_Update m w1 = (Ok tt, w2)) ->
  work db s b doc f w = (Ok tt, w') -> handled doc w'.
Proof.
  intros Hoc Hf (ps & fps & wi & He & Hfps & Ha & [(-> & w1 & w2 & Hm)| ->])%work_ok.
  - assert (fps = EmptyString) as -> by (unfold failed_under in Hfps; by rewrite decide_False in Hfps by done).
    rewrite Hoc in Ha. eapply handled_done; eauto.
  - apply (failed_cluster _ _ oc) in Hfps as ->; [|done]. rewrite Hoc in Ha. by eapply handled_failed.
Qed.

Lemma handle_ok s doc w w' : handle db s doc w = (Ok tt, w') -> handled doc w'.
Proof.
  unfold handle. intros (r & w1 & Hm%try_inv & (b & w2 & _ & H)%bind_inv_ok)%bind_inv_ok.
  destruct r as [m|e]; [|by eapply endLease_failed].
  apply bind_inv_ok in H as (oc & w3 & [Hoc%deref_ok ->]%lift_inv & H).
  destruct (decide (state_of oc = ProvisioningStateCreating)).
  { eapply (work_handled _ _ _ m); [done| |done]. auto. }
  destruct (decide (state_of oc = ProvisioningStateUpdating)).
  { eapply (work_handled _ _ _ m); [done| |done]. auto. }
  destruct (decide (state_of oc = ProvisioningStateDeleting)); [|done].
  unfold delete_cluster in H.
  apply bind_inv_ok in H as (r & w4 & Hr%try_inv & (b1 & w5 & _ & H)%bind_inv_ok).
  destruct r as [[]|e']; [|by eapply endLease_failed]. apply with_ctx_ok in Hr.
  apply bind_inv_ok in H as (r & w6 & _ & H). destruct r as [u|e']; [|by eapply endLease_failed].
  apply bind_inv_ok in H as (b2 & w7 & _ & H%with_ctx_ok).
  eapply (handled_deleted doc w' m _ _ oc w7); [done|done|done|].
  intros old Hold Hid. by eapply (clusters_Delete_ok db).
Qed.

(** ** Taking work *)

(** A goroutine is only started on a cluster that is being worked on, whose
    lease had run out and is now ours, and that has not been taken too often. *)
Lemma ocb_try_spawned t w w' d :
  ocb_try db w = (Ok t, w') -> spawned t = Some d ->
  exists d0 now, clusters w !! ocd_Key d0 = Some d0 /\ dequeuable now d0 = true /\
    ocd_Dequeues d = int64 (ocd_Dequeues d0 + 1) /\ (ocd_Dequeues d <= 5)%Z /\
    ocd_LeaseOwner d = OpenShiftClusters.uuid (db_OpenShiftClusters db) /\
    ocd_OpenShiftCluster d = ocd_OpenShiftCluster d0 /\ ident d = ident d0 /\
    clusters w' = <[ocd_Key d := d]> (clusters w).
Proof.
  unfold ocb_try. intros (r & w1 & Hr%try_inv & H)%bind_inv_ok Hs.
  destruct r as [[d1|]|e]; [|injection H as <- <-; done..].
  apply bind_inv_ok in H as (oc & w2 & [Hoc%deref_ok ->]%lift_inv & H).
  case_decide as Hd.
  { apply bind_inv_ok in H as (r & w3 & _ & [= <- <-]). done. }
  injection H as <- <-. simpl in Hs. injection Hs as ->.
  apply (clusters_Dequeue_ok db) in Hr as [[[=] _]|(d0 & t & d' & now & m & Hd0 & Hdq & -> & [= ->] & Hw)].
  unfold maxDequeueCount in Hd. exists d0, t. split_and!; [done|done|done|lia|done|done|done|done].
Qed.

(** A cluster taken once too often is failed at once. *)
Lemma ocb_try_exhausted t w w' :
  ocb_try db w = (Ok t, w') -> did_work t = true -> spawned t = None -> tried_err t = None ->
  exists d0 now oc, clusters w !! ocd_Key d0 = Some d0 /\ dequeuable now d0 = true /\
    (5 < int64 (ocd_Dequeues d0 + 1))%Z /\ ocd_OpenShiftCluster d0 = Some oc /\
    ended (ocd_Key d0) ProvisioningStateFailed (state_of oc) w'.
Proof.
  unfold ocb_try. intros (r & w1 & Hr%try_inv & H)%bind_inv_ok Hwk Hsp Her.
  destruct r as [[d1|]|e]; [|injection H as <- <-; done..].
  apply bind_inv_ok in H as (oc & w2 & [Hoc%deref_ok ->]%lift_inv & H).
  case_decide as Hd; [|by injection H as <- <-].
  apply bind_inv_ok in H as (r & w3 & Hr'%try_inv & [= <- <-]). destruct r as [[]|e]; [|done].
  apply endLease_ok in Hr' as (fps & Hf & He & _).
  apply (failed_cluster _ _ oc) in Hf as ->; [|done].
  apply (clusters_Dequeue_ok db) in Hr as [[[=] _]|(d0 & t & d' & now & m & Hd0 & Hdq & -> & [= ->] & Hw)].
  exists d0, t, oc. split_and!; [done|done|exact Hd|exact Hoc|exact He].
Qed.
End spec.
