(* ===== verification/Mux.v ===== *)
(** * The router (src/vendor/github.com/gorilla/mux)

    What the program uses of the vendored router: routes with matchers for the
    path, the query and the method, subrouters and middleware. A variable of a
    path template stands for a whole element of the path in every template of
    the program, so the expression [^/]+ it is compiled to is matched element by
    element. *)
From S2P Require Import Prelude GoStrings.
From S2P Require Import Regex.
From S2P Require Import Cosmos.

(** ** Requests as the server gets them *)
Record ConnectionState := mkConnectionState { cs_PeerCertificates : list string (* Raw *) }.

(** The matched route, as a handler can ask for it *)
Record CurrentRoute := mkCurrentRoute { cr_Name : string; cr_Queries : list string }.

(** The body is read from the connection: what arrives, and whether the reader
    fails then. The last five fields are the request's context. *)
Record ServerRequest := mkServerRequest {
  sr_Method : string;
  sr_Path : string;
  sr_Query : gmap string (list string);
  sr_Header : Header;
  sr_Body : string;
  sr_BodyFails : bool;
  sr_TLS : option ConnectionState;
  sr_OriginalPath : string;
  sr_ContextBody : option string;
  sr_RequestID : option string;
  sr_Vars : gmap string string;
  sr_Route : option CurrentRoute;
}.

(** ** Templates *)
Inductive segment := Lit (s : string) | Var (name : string).
Definition segment_of (s : string) : segment :=
  if HasPrefix s "{" && HasSuffix s "}" then Var (String.substring 1 (String.length s - 2) s) else Lit s.

Fixpoint match_segments (tpl : list segment) (l : list string) : option (list (string * string)) :=
  match tpl, l with
  | [], [] => Some []
  | Lit s :: tpl, x :: l => if decide (x = s) then match_segments tpl l else None
  | Var v :: tpl, x :: l =>
      if decide (x = EmptyString) then None else cons (v, x) <$> match_segments tpl l
  | _, _ => None
  end.
Definition match_path (tpl path : string) : option (list (string * string)) :=
  match_segments (segment_of <$> Split tpl) (Split path).

(** [key=value] against the first value of the key; the expression for a
    variable is .* and does not match a newline. *)
Definition match_query (key value : string) (q : gmap string (list string)) : option (list (string * string)) :=
  match q !! key with
  | Some (x :: _) =>
      match segment_of value with
      | Var v => if ContainsRune x newline then None else Some [(v, x)]
      | Lit s => if decide (x = s) then Some [] else None
      end
  | _ => None
  end.

Section mux.
Context {H : Type}.

Inductive matcher :=
| MPath (tpl : string)
| MQuery (key value : string)
| MMethods (methods : list string)
| MSub (r : router)
with route :=
| mkRoute (matchers : list matcher) (handler : option H) (name : string)
with router :=
| mkRouter (routes : list route) (middlewares : list (H -> H)) (NotFoundHandler : option H).

Inductive match_err := ErrMethodMismatch | ErrNotFound.
#[global] Instance match_err_eq : EqDecision match_err.
Proof. solve_decision. Defined.

Record RouteMatch := mkRouteMatch {
  m_Route : option CurrentRoute;
  m_Handler : option H;
  m_Vars : option (gmap string string);
  m_MatchErr : option match_err;
}.
Definition no_match : RouteMatch := mkRouteMatch None None None None.

(** [setMatch]: the variables of the path, then those of the queries *)
Definition vars_of (rq : ServerRequest) (x : matcher) : list (string * string) :=
  match x with
  | MPath tpl => default [] (match_path tpl (sr_Path rq))
  | MQuery key value => default [] (match_query key value (sr_Query rq))
  | _ => []
  end.
Definition setMatch (rq : ServerRequest) (ms : list matcher) (vars : gmap string string) : gmap string string :=
  foldl (fun vars '(k, v) => <[k := v]> vars) vars (concat (vars_of rq <$> ms)).

Definition query_template (x : matcher) : list string :=
  match x with MQuery key value => [key +:+ "=" +:+ value] | _ => [] end.
Definition current_route (ms : list matcher) (name : string) : CurrentRoute :=
  mkCurrentRoute name (concat (query_template <$> ms)).

(** The end of [Route.Match] once every matcher has been asked *)
Definition finish_route (rq : ServerRequest) (ms : list matcher) (handler : option H) (name : string)
    (err : option match_err) (m : RouteMatch) : bool * RouteMatch :=
  match err with
  | Some e => (false, mkRouteMatch (m_Route m) (m_Handler m) (m_Vars m) (Some e))
  | None =>
      let h := if decide (m_MatchErr m = Some ErrMethodMismatch) then handler else m_Handler m in
      let e := if decide (m_MatchErr m = Some ErrMethodMismatch) then None else m_MatchErr m in
      (true, mkRouteMatch (Some (default (current_route ms name) (m_Route m)))
               (match h with Some h => Some h | None => handler end)
               (Some (setMatch rq ms (default ∅ (m_Vars m)))) e)
  end.
Definition forget_not_found (m : RouteMatch) : RouteMatch :=
  mkRouteMatch (m_Route m) (m_Handler m) (m_Vars m)
    (if decide (m_MatchErr m = Some ErrNotFound) then None else m_MatchErr m).

(** The end of [Router.Match] once no route has matched *)
Definition no_route (NotFoundHandler : option H) (m : RouteMatch) : bool * RouteMatch :=
  if decide (m_MatchErr m = Some ErrMethodMismatch) then (false, m)
  else match NotFoundHandler with
       | Some h => (true, mkRouteMatch (m_Route m) (Some h) (m_Vars m) (Some ErrNotFound))
       | None => (false, mkRouteMatch (m_Route m) (m_Handler m) (m_Vars m) (Some ErrNotFound))
       end.
Definition wrap (middlewares : list (H -> H)) (m : RouteMatch) : RouteMatch :=
  match m_MatchErr m with
  | None => mkRouteMatch (m_Route m) ((fun h => foldr (fun mw h => mw h) h middlewares) <$> m_Handler m) (m_Vars m) None
  | Some _ => m
  end.

Fixpoint matcher_Match (rq : ServerRequest) (x : matcher) (m : RouteMatch) {struct x} : bool * RouteMatch :=
  match x with
  | MPath tpl => (bool_decide (is_Some (match_path tpl (sr_Path rq))), m)
  | MQuery key value => (bool_decide (is_Some (match_query key value (sr_Query rq))), m)
  | MMethods methods => (existsb (fun s => bool_decide (sr_Method rq = s)) methods, m)
  | MSub r => Router_Match rq r m
  end
with Route_Match (rq : ServerRequest) (r : route) (m : RouteMatch) {struct r} : bool * RouteMatch :=
  match r with
  | mkRoute matchers handler name =>
      (fix go (ms : list matcher) (err : option match_err) (m : RouteMatch) : bool * RouteMatch :=
         match ms with
         | [] => finish_route rq matchers handler name err m
         | x :: ms =>
             let '(matched, m) := matcher_Match rq x m in
             if matched : bool then go ms err m
             else match x with
                  | MMethods _ => go ms (Some ErrMethodMismatch) m
                  | _ => (false, forget_not_found m)
                  end
         end) matchers None m
  end
with Router_Match (rq : ServerRequest) (r : router) (m : RouteMatch) {struct r} : bool * RouteMatch :=
  match r with
  | mkRouter routes middlewares NotFoundHandler =>
      (fix go (rs : list route) (m : RouteMatch) : bool * RouteMatch :=
         match rs with
         | [] => no_route NotFoundHandler m
         | r :: rs =>
             let '(matched, m) := Route_Match rq r m in
             if matched : bool then (true, wrap middlewares m) else go rs m
         end) routes m
  end.
End mux.
Arguments matcher : clear implicits.
Arguments route : clear implicits.
Arguments router : clear implicits.
Arguments RouteMatch : clear implicits.

(** ** Tables

    A router whose routes have a template for the path, maybe one for the query,
    and a subrouter with a route per method. A subrouter's routes start from a copy
    of the matchers of the route it belongs to. *)
Section tables.
Context {H : Type}.
Implicit Types (rq : ServerRequest) (m : RouteMatch H).

Record endpoint := mkEndpoint {
  ep_Path : string;
  ep_Query : string * string;
  ep_Methods : list (string * H * string);
}.
Definition ep_matchers (e : endpoint) : list (matcher H) := [MPath (ep_Path e); MQuery (fst (ep_Query e)) (snd (ep_Query e))].
Definition method_route (e : endpoint) (x : string * H * string) : route H :=
  mkRoute (ep_matchers e ++ [MMethods [x.1.1]]) (Some x.1.2) x.2.
Definition endpoint_route (e : endpoint) : route H :=
  mkRoute (ep_matchers e ++ [MSub (mkRouter (method_route e <$> ep_Methods e) [] None)]) None EmptyString.

(** What a table does: the first endpoint for the path and the query that has
    the method *)
Definition applies rq (e : endpoint) : bool :=
  bool_decide (is_Some (match_path (ep_Path e) (sr_Path rq))) &&
  bool_decide (is_Some (match_query (fst (ep_Query e)) (snd (ep_Query e)) (sr_Query rq))).
Definition vars_at rq (e : endpoint) : gmap string string := setMatch rq (ep_matchers e) ∅.

Inductive target := Found (h : H) (name : string) (e : endpoint) | Mismatch | Missing.
Definition is_found (t : target) : bool := match t with Found _ _ _ => true | _ => false end.
Fixpoint pick (method : string) (l : list (string * H * string)) : option (H * string) :=
  match l with
  | [] => None
  | (s, h, name) :: l => if decide (method = s) then Some (h, name) else pick method l
  end.
Fixpoint dispatch rq (es : list endpoint) : target :=
  match es with
  | [] => Missing
  | e :: es =>
      if applies rq e then
        match pick (sr_Method rq) (ep_Methods e) with
        | Some (h, name) => Found h name e
        | None => match dispatch rq es with Missing => Mismatch | t => t end
        end
      else dispatch rq es
  end.

Definition matched rq (mws : list (H -> H)) (h : H) (name : string) (e : endpoint) : RouteMatch H :=
  mkRouteMatch (Some (current_route (ep_matchers e) name)) (Some (foldr (fun mw h => mw h) h mws))
    (Some (vars_at rq e)) None.
Definition unmatched (err : option match_err) : RouteMatch H := mkRouteMatch None None None err.

Lemma setMatch_union rq (ms : list (matcher H)) vars :
  setMatch rq ms vars = list_to_map (reverse (concat (vars_of rq <$> ms))) ∪ vars.
Proof.
  unfold setMatch. generalize (concat (vars_of rq <$> ms)) as l. intros l. revert vars.
  induction l as [|[k v] l IH]; intros vars; simpl; [by rewrite (left_id_L ∅ (∪))|].
  rewrite IH, reverse_cons, list_to_map_app. simpl.
  rewrite <-(assoc_L (∪)). f_equal. by rewrite insert_union_singleton_l, insert_empty.
Qed.

Lemma setMatch_again rq (ms ms' : list (matcher H)) :
  concat (vars_of rq <$> ms) = concat (vars_of rq <$> ms') ->
  setMatch rq ms (setMatch rq ms' ∅) = setMatch rq ms' ∅.
Proof. intros E. rewrite !setMatch_union, E, (assoc_L (∪)). by rewrite (idemp_L (∪)). Qed.

Lemma current_route_ep (e : endpoint) x name :
  query_template x = [] -> current_route (ep_matchers e ++ [x]) name = current_route (ep_matchers e) name.
Proof. intros Hx. unfold current_route. cbn. by rewrite Hx. Qed.

Lemma Router_Match_cons rq (r : route H) rs mws nf m :
  Router_Match rq (mkRouter (r :: rs) mws nf) m =
  let '(matched, m) := Route_Match rq r m in
  if matched : bool then (true, wrap mws m) else Router_Match rq (mkRouter rs mws nf) m.
Proof. reflexivity. Qed.

Lemma setMatch_extra rq (e : endpoint) (x : matcher H) vars :
  vars_of rq x = [] -> setMatch rq (ep_matchers e ++ [x]) vars = setMatch rq (ep_matchers e) vars.
Proof. intros Hx. unfold setMatch. cbn. by rewrite Hx. Qed.

(** One method of an endpoint that applies *)
Lemma method_route_match rq e x err :
  applies rq e = true -> err <> Some ErrNotFound ->
  Route_Match rq (method_route e x) (unmatched err) =
  if decide (sr_Method rq = x.1.1) then (true, matched rq [] x.1.2 x.2 e)
  else (false, unmatched (Some ErrMethodMismatch)).
Proof.
  intros [Hp Hq]%andb_true_iff He. unfold method_route, matched, unmatched. cbn. rewrite Hp, Hq. cbn.
  destruct (decide (sr_Method rq = x.1.1)) as [E|E]; [rewrite bool_decide_eq_true_2 by done|by rewrite bool_decide_eq_false_2 by done].
  cbn. unfold finish_route. cbn. destruct err as [[]|]; [by rewrite !decide_True|done|by rewrite !decide_False].
Qed.

Lemma methods_match rq e l err :
  applies rq e = true -> err <> Some ErrNotFound -> l <> [] ->
  Router_Match rq (mkRouter (method_route e <$> l) [] None) (unmatched err) =
  match pick (sr_Method rq) l with
  | Some (h, name) => (true, matched rq [] h name e)
  | None => (false, unmatched (Some ErrMethodMismatch))
  end.
Proof.
  intros Ha He Hl. revert err He. induction l as [|[[s h] name] l IH]; [done|]. intros err He.
  rewrite fmap_cons, Router_Match_cons, method_route_match by done. cbn [fst snd pick].
  case_decide as E; [done|]. destruct l as [|x l]; [done|]. by apply IH.
Qed.

(** An endpoint as a route, while nothing has matched yet *)
Lemma endpoint_match rq e err :
  err <> Some ErrNotFound -> ep_Methods e <> [] ->
  Route_Match rq (endpoint_route e) (unmatched err) =
  if applies rq e then
    match pick (sr_Method rq) (ep_Methods e) with
    | Some (h, name) => (true, matched rq [] h name e)
    | None => (false, unmatched (Some ErrMethodMismatch))
    end
  else (false, unmatched err).
Proof.
  intros He Hm.
  assert (forget_not_found (unmatched err) = unmatched err) as Hf.
  { unfold forget_not_found, unmatched. cbn. by rewrite decide_False. }
  destruct (applies rq e) eqn:Ha.
  - apply andb_true_iff in Ha as Hpq. destruct Hpq as [Hp Hq].
    unfold endpoint_route. cbn -[Router_Match]. rewrite Hp, Hq. cbn -[Router_Match].
    rewrite methods_match by done. destruct (pick _ _) as [[h name]|]; [|done].
    unfold finish_route, matched. cbn [m_MatchErr m_Route m_Handler m_Vars default].
    rewrite decide_False by done. do 2 f_equal. apply (f_equal Some).
    pose proof (setMatch_extra rq e (MSub (mkRouter (method_route e <$> ep_Methods e) [] None)) (vars_at rq e) eq_refl) as E.
    etransitivity; [exact E|]. by apply setMatch_again.
  - unfold endpoint_route. cbn. unfold applies in Ha.
    destruct (bool_decide (is_Some (match_path _ _))); [|by rewrite Hf]. cbn in Ha. rewrite Ha. by rewrite Hf.
Qed.

Definition missed (err : option match_err) : option match_err :=
  match err with Some e => Some e | None => Some ErrNotFound end.

(** The router of a table: its middleware around the handler the table names *)
Lemma table_match rq mws es err :
  err <> Some ErrNotFound -> Forall (fun e => ep_Methods e <> []) es ->
  Router_Match rq (mkRouter (endpoint_route <$> es) mws None) (unmatched err) =
  match dispatch rq es with
  | Found h name e => (true, matched rq mws h name e)
  | Mismatch => (false, unmatched (Some ErrMethodMismatch))
  | Missing => (false, unmatched (missed err))
  end.
Proof.
  intros He Hm. revert err He. induction Hm as [|e es Hx Hm IH]; intros err He.
  - cbn. unfold no_route. cbn. destruct err as [[]|]; [by rewrite decide_True|done|by rewrite decide_False].
  - rewrite fmap_cons, Router_Match_cons, endpoint_match by done. cbn [dispatch].
    destruct (applies rq e); [|by apply IH].
    destruct (pick _ _) as [[h name]|]; [done|]. rewrite IH by done. by destruct (dispatch rq es).
Qed.

Lemma pick_in method l h name : pick method l = Some (h, name) -> (method, h, name) ∈ l.
Proof.
  induction l as [|[[s h'] n'] l IH]; simpl; [done|].
  case_decide as E; [intros [= -> ->]; subst; left|right; by apply IH].
Qed.

Lemma dispatch_found rq es h name e :
  dispatch rq es = Found h name e -> e ∈ es /\ applies rq e = true /\ (sr_Method rq, h, name) ∈ ep_Methods e.
Proof.
  induction es as [|e' es IH]; simpl; [done|]. intros Hd.
  destruct (applies rq e') eqn:Ha; [destruct (pick _ _) as [[h' n']|] eqn:Hp|].
  - injection Hd as -> -> ->. split_and!; [left|done|by apply pick_in].
  - destruct (dispatch rq es) as [| |]; try done. destruct (IH Hd) as (? & ? & ?). split_and!; [by right|done..].
  - destruct (IH Hd) as (? & ? & ?). split_and!; [by right|done..].
Qed.
End tables.
Arguments endpoint : clear implicits.
Arguments target : clear implicits.
