(* ===== verification/Middleware.v ===== *)
(** * The middleware (src/pkg/frontend/middleware)

    A handler answers through a response writer, which is a cell of the world: its
    headers outlive a panic. The headers and the status are sent with the first
    write; a later status is not sent, and the logging wrappers record it. *)
From S2P Require Import Prelude GoStrings.
From S2P Require Import Regex Azure Api Services.
From S2P Require Import Cosmos Database Static Frontend Mux.
From Stdlib Require Import Ascii.

Record ResponseWriter := mkResponseWriter {
  rw_Header : Header;
  rw_sent : option (Z * Header);
  rw_Body : string;
  rw_statusCode : Z;                  (* what [logResponseWriter] has seen *)
}.
Definition new_writer : ResponseWriter := mkResponseWriter ∅ None EmptyString StatusOK.

Definition StatusForbidden : Z := 403.
Definition StatusMovedPermanently : Z := 301.
Definition StatusMethodNotAllowed : Z := 405.
Definition StatusUnsupportedMediaType : Z := 415.

(** Who may call (src/pkg/util/clientauthorizer) *)
Class ClientAuthorizer (W : Type) := {
  IsAuthorized : option ConnectionState -> M W bool;
  IsReady : M W bool;
}.

(** The access log - a line with the method and the path, and one with the method,
    the status, the bytes written and the time taken - and the metrics *)
Class Telemetry (W : Type) := {
  log_request : string -> string -> M W unit;
  log_response : string -> Z -> nat -> Z -> M W unit;
  EmitGauge : string -> Z -> gmap string string -> M W unit;
  EmitFloat : string -> Z -> gmap string string -> M W unit;
}.

(** [defer d] around [m]: [d] runs whatever [m] comes to. *)
Definition defer_ {W A} (m : M W A) (d : M W unit) : M W A := fun w =>
  match m w with
  | (OutOfFuel, w1) => (OutOfFuel, w1)
  | (r, w1) =>
      match d w1 with
      | (Ok _, w2) => (r, w2)
      | (Err e, w2) => (Err e, w2)
      | (Panic s, w2) => (Panic s, w2)
      | (OutOfFuel, w2) => (OutOfFuel, w2)
      end
  end.

Definition Handler (W : Type) : Type := ServerRequest -> M W unit.

Section middleware.
Context {W : Type} `{!Runtime W, !Cell W ResponseWriter, !Telemetry W, !ClientAuthorizer W}.
Context {EV : Env} {CD : Codec}.
(** [r.URL.String()], and the URL of the request with another path *)
Context (url_String : ServerRequest -> string).

(** ** The response writer *)
Definition modify_writer (f : ResponseWriter -> ResponseWriter) : M W unit :=
  do! w <- get_cell; set_cell (f w).
Definition Header_Set (k v : string) : M W unit :=
  modify_writer (fun w => mkResponseWriter (h_Set k v (rw_Header w)) (rw_sent w) (rw_Body w) (rw_statusCode w)).
Definition send (n : Z) (w : ResponseWriter) : option (Z * Header) :=
  Some (default (n, rw_Header w) (rw_sent w)).
Definition WriteHeader (n : Z) : M W unit :=
  modify_writer (fun w => mkResponseWriter (rw_Header w) (send n w) (rw_Body w) n).
Definition Write (s : string) : M W unit :=
  modify_writer (fun w => mkResponseWriter (rw_Header w) (send StatusOK w) (rw_Body w +:+ s) (rw_statusCode w)).

Definition newline_string : string := String newline EmptyString.
Definition WriteError (n : Z) (code message : string) : M W unit :=
  do! _ <- WriteHeader n;
  Write (encode_error (NewCloudErrorBody code EmptyString message) +:+ newline_string).

(** ** lowercase.go *)
Definition with_path_lower (r : ServerRequest) : ServerRequest :=
  r <| sr_OriginalPath := sr_Path r |> <| sr_Path := ToLower (sr_Path r) |>.
Definition Lowercase (h : Handler W) : Handler W := fun r => h (with_path_lower r).

(** ** log.go, metrics.go *)
Definition Log (h : Handler W) : Handler W := fun r =>
  do! t <- time_Now;
  do! requestID <- uuid_NewV4;
  do! _ <- Header_Set "X-Ms-Request-Id" requestID;
  let r := r <| sr_RequestID := Some requestID |> in
  defer_
    (do! _ <- log_request (sr_Method r) (sr_Path r); h r)
    (do! w <- get_cell;
     do! now <- time_Now;
     log_response (sr_Method r) (rw_statusCode w) (String.length (rw_Body w)) (now - t)).

Definition tags (r : ServerRequest) (routeName : string) (w : ResponseWriter) : gmap string string :=
  {["verb" := sr_Method r; "api-version" := default EmptyString (sr_Vars r !! "api-version");
    "code" := Itoa (rw_statusCode w); "route" := routeName]}.
Definition Metrics (h : Handler W) : Handler W := fun r =>
  do! t <- time_Now;
  let routeName := match sr_Route r with Some c => cr_Name c | None => "unknown" end in
  defer_ (h r)
    (do! w <- get_cell;
     do! _ <- EmitGauge "frontend.count" 1 (tags r routeName w);
     do! now <- time_Now;
     EmitFloat "frontend.duration" (now - t) (tags r routeName w)).

(** ** panic.go *)
Definition PanicHandler (h : Handler W) : Handler W := fun r =>
  do! out <- recover (h r);
  match out with
  | Some _ => ret tt
  | None => WriteError StatusInternalServerError CloudErrorCodeInternalServerError "Internal server error."
  end.

(** ** headers.go *)
Definition Headers (h : Handler W) : Handler W := fun r =>
  do! _ <- Header_Set "Content-Type" "application/json";
  do! _ <- (if EqualFold (h_Get (sr_Header r) "X-Ms-Return-Client-Request-Id") "true"
            then Header_Set "X-Ms-Client-Request-Id" (h_Get (sr_Header r) "X-Ms-Client-Request-Id")
            else ret tt);
  h (if env_isDev
     then r <| sr_Header := h_Set "Referer" ("https://localhost:8443" +:+ url_String r) (sr_Header r) |>
     else r).

(** ** authenticated.go *)
Definition Authenticated (h : Handler W) : Handler W := fun r =>
  do! ok <- IsAuthorized (sr_TLS r);
  if ok : bool then h r else WriteError StatusForbidden CloudErrorCodeForbidden "Forbidden.".

(** ** body.go *)
Definition max_body : Z := 1048576.
Definition media_type (r : ServerRequest) : string := BeforeFirst ";" (h_Get (sr_Header r) "Content-Type").
Definition read_body (r : ServerRequest) : option string :=
  if sr_BodyFails r || (max_body <? Z.of_nat (String.length (sr_Body r)))%Z then None else Some (sr_Body r).
Definition has_body (method : string) : bool :=
  existsb (fun s => bool_decide (method = s)) ["PATCH"; "POST"; "PUT"].
Definition Body (h : Handler W) : Handler W := fun r =>
  if has_body (sr_Method r) then
    match read_body r with
    | None => WriteError StatusBadRequest CloudErrorCodeInvalidResource "The resource definition is invalid."
    | Some body =>
        if bool_decide (media_type r <> "application/json") &&
           negb ((String.length body =? 0) && bool_decide (media_type r = EmptyString))
        then WriteError StatusUnsupportedMediaType CloudErrorCodeUnsupportedMediaType
               ("The content media type '" +:+ h_Get (sr_Header r) "Content-Type" +:+
                "' is not supported. Only 'application/json' is supported.")
        else h (r <| sr_ContextBody := Some body |>)
    end
  else h r.

(** ** validate.go *)

(** ^[-a-z0-9_().]{0,89}[-a-z0-9_()]$ *)
Definition rxResourceGroupName : regex :=
  Seq (upto 89 (Chr (fun c => is_lower c || is_digit c || one_of "-_()." c)))
      (Chr (fun c => is_lower c || is_digit c || one_of "-_()" c)).

Context (apis : gmap string (Version W)).

(** The first check that fails, as the arguments of the error it writes. A check
    on a variable applies when the route has the variable. *)
Definition refusal_of : Type := option (Z * string * string).
Definition when_var (vars : gmap string string) (k : string) (f : string -> refusal_of) : refusal_of :=
  match vars !! k with Some v => f v | None => None end.
Definition unless (b : bool) (code message : string) : refusal_of :=
  if b then None else Some (StatusNotFound, code, message).
Definition first_of (l : list refusal_of) : refusal_of := foldr (fun o rest => match o with Some e => Some e | None => rest end) None l.

Definition type_not_found (v : string -> string) : string :=
  "The resource type '" +:+ v "resourceType" +:+ "' could not be found in the namespace '" +:+
  v "resourceProviderNamespace" +:+ "' for api version '" +:+ v "api-version" +:+ "'.".

Definition hasVariableAPIVersion (queries : list string) : bool :=
  existsb (fun q => HasPrefix q "api-version=" && ContainsRune q "{") queries.

Definition check_request (r : ServerRequest) : refusal_of :=
  match sr_Route r with
  | None => Some (StatusNotFound, CloudErrorCodeInternalServerError, "Internal server error.")
  | Some route =>
      let vars := sr_Vars r in
      let v k := default EmptyString (vars !! k) in
      first_of [
        (if decide (sr_Path r = ToLower (sr_Path r)) then None
         else Some (StatusInternalServerError, CloudErrorCodeInternalServerError, "Internal server error."));
        when_var vars "subscriptionId" (fun s =>
          unless (is_ok (FromString s)) CloudErrorCodeInvalidSubscriptionID
            ("The provided subscription identifier '" +:+ s +:+ "' is malformed or invalid."));
        when_var vars "resourceGroupName" (fun s =>
          unless (MatchString rxResourceGroupName s) CloudErrorCodeResourceGroupNotFound
            ("Resource group '" +:+ s +:+ "' could not be found."));
        when_var vars "resourceProviderNamespace" (fun s =>
          unless (bool_decide (s = ToLower resourceProviderNamespace)) CloudErrorCodeInvalidResourceNamespace
            ("The resource namespace '" +:+ s +:+ "' is invalid."));
        when_var vars "resourceType" (fun s =>
          unless (bool_decide (s = ToLower resourceType)) CloudErrorCodeInvalidResourceType (type_not_found v));
        when_var vars "resourceName" (fun s =>
          unless (MatchString rxResourceGroupName s) CloudErrorCodeResourceNotFound
            ("The Resource '" +:+ v "resourceProviderNamespace" +:+ "/" +:+ v "resourceType" +:+ "/" +:+ s +:+
             "' under resource group '" +:+ v "resourceGroupName" +:+ "' was not found."));
        when_var vars "location" (fun s =>
          unless (EqualFold s env_Location) CloudErrorCodeInvalidLocation
            ("The provided location '" +:+ s +:+ "' is malformed or invalid."));
        when_var vars "operationId" (fun s =>
          unless (is_ok (FromString s)) CloudErrorCodeInvalidOperationID
            ("The provided operation identifier '" +:+ s +:+ "' is malformed or invalid."));
        (if hasVariableAPIVersion (cr_Queries route) then
           when_var vars "api-version" (fun s =>
             unless (bool_decide (is_Some (apis !! s))) CloudErrorCodeInvalidResourceType (type_not_found v))
         else None)]
  end.

Definition Validate (h : Handler W) : Handler W := fun r =>
  match check_request r with
  | Some (n, code, message) => WriteError n code message
  | None => h r
  end.
End middleware.
