(* ===== verification/Authorizer.v ===== *)
(** * Who may call (src/pkg/util/clientauthorizer)

    The three authorizers of client certificates. [arm] trusts the certificates
    that Azure Resource Manager publishes; a goroutine fetches them every hour. *)
From S2P Require Import Prelude GoStrings.
From S2P Require Import Azure Api Cosmos Mux Middleware.
From Stdlib Require Import Ascii.

(** ** all.go, one.go *)
Definition all_authorizer {W} : ClientAuthorizer W := {|
  IsAuthorized _ := ret true;
  IsReady := ret true;
|}.
Definition one_authorizer {W} (cert : string) : ClientAuthorizer W := {|
  IsAuthorized cs :=
    ret match cs with
        | Some (mkConnectionState (raw :: _)) => bool_decide (cert = raw)
        | _ => false
        end;
  IsReady := ret true;
|}.

(** ** arm.go; times in nanoseconds *)
Record clientCertificate := mkClientCertificate {
  cc_Thumbprint : string;
  cc_NotBefore : Z;
  cc_NotAfter : Z;
  cc_Certificate : string;
}.
Definition metadata := list clientCertificate.

(** The fields behind the mutex *)
Record arm := mkArm {
  arm_m : metadata;
  lastSuccessfulRefresh : Z;
}.
Definition day : Z := 86400000000000.

Definition current (now : Z) (c : clientCertificate) : bool :=
  (cc_NotBefore c <? now)%Z && (now <? cc_NotAfter c)%Z.

(** A response of the metadata service *)
Record metadata_response := mkMetadataResponse {
  mr_StatusCode : Z;
  mr_Header : Header;
  mr_Body : string;
}.
Definition metadata_url : string :=
  "https://management.azure.com:24582/metadata/authentication?api-version=2015-01-01".

Section arm.
Context {W : Type} `{!Cell W arm}.
(** The fields [now] and [do]; the decoder leaves a nil pointer for "null". *)
Context (a_now : M W Z) (a_do : string -> string -> M W metadata_response).
Context (decode_metadata : string -> option metadata + string).

Definition arm_IsAuthorized (cs : option ConnectionState) : M W bool :=
  match cs with
  | Some (mkConnectionState (raw :: _)) =>
      do! now <- a_now;
      do! a <- get_cell;
      ret (existsb (fun c => current now c && bool_decide (cc_Certificate c = raw)) (arm_m a))
  | _ => ret false
  end.

Definition refreshOnce : M W unit :=
  do! now <- a_now;
  do! resp <- a_do "GET" metadata_url;
  if decide (mr_StatusCode resp <> 200%Z) then
    throw (ErrOther ("unexpected status code " +:+ Itoa (mr_StatusCode resp)))
  else if decide (BeforeFirst ";" (h_Get (mr_Header resp) "Content-Type") <> "application/json") then
    throw (ErrOther ("unexpected content type " +:+ Quote (h_Get (mr_Header resp) "Content-Type")))
  else
    match decode_metadata (mr_Body resp) with
    | inr e => throw (ErrOther e)
    | inl m =>
        do! m <- lift (deref m);
        if existsb (current now) m then set_cell (mkArm m now)
        else throw (ErrOther "did not receive current certificate")
    end.

(** The goroutine's loop, for [n] ticks of the hour; a panic ends it. *)
Fixpoint refresh_loop (tick : M W unit) (n : nat) : M W unit :=
  match n with
  | 0 => ret tt
  | S n => do! _ <- try refreshOnce; do! _ <- tick; refresh_loop tick n
  end.
Definition refresh (tick : M W unit) (n : nat) : M W unit :=
  do! _ <- recover (refresh_loop tick n); ret tt.

Definition arm_IsReady : M W bool :=
  do! now <- a_now;
  do! a <- get_cell;
  do! later <- a_now;
  ret (negb (lastSuccessfulRefresh a + day <? later)%Z && existsb (current now) (arm_m a)).

(** The variables before the first refresh: the zero time is that of the year 1. *)
Definition zero_time : Z := -62135596800000000000.
Definition NewARM : M W unit := set_cell (mkArm [] zero_time).

Definition arm_authorizer : ClientAuthorizer W := {|
  IsAuthorized := arm_IsAuthorized;
  IsReady := arm_IsReady;
|}.
End arm.

Class CellLaws (W A : Type) `{!Cell W A} := {
  cell_get_set (a : A) w : cell_get (cell_set a w) = a;
}.

(** ** What the certificates promise

    [a_now] reads the clock and [a_do] makes a request: neither moves the fields
    behind the mutex. *)
Section laws.
Context {W : Type} `{!Cell W arm, !CellLaws W arm}.
Context (a_now : M W Z) (a_do : string -> string -> M W metadata_response).
Context (decode_metadata : string -> option metadata + string).
Definition keeps (w w' : W) : Prop := cell_get (A := arm) w' = cell_get w.
Context (Hnow : steps keeps a_now) (Hdo : forall method url, steps keeps (a_do method url)).
#[local] Instance keeps_preorder : PreOrder keeps.
Proof. split; [by intros ?|unfold keeps; intros ???; congruence]. Qed.

(** A caller is authorized by a current certificate, the same as its leaf. *)
Lemma arm_IsAuthorized_spec cs w w' :
  arm_IsAuthorized a_now cs w = (Ok true, w') ->
  exists raw rest now c, cs = Some (mkConnectionState (raw :: rest)) /\
    c ∈ arm_m (cell_get w) /\ (cc_NotBefore c < now < cc_NotAfter c)%Z /\ cc_Certificate c = raw.
Proof.
  unfold arm_IsAuthorized. destruct cs as [[[|raw rest]]|]; [done| |done].
  intros (now & w1 & H1 & (a & w2 & Ha & H)%bind_inv_ok)%bind_inv_ok.
  specialize (Hnow w). rewrite H1 in Hnow. unfold keeps in Hnow. simpl in Hnow.
  unfold get_cell in Ha. injection Ha as <- <-. unfold ret in H. injection H as H _.
  apply existsb_exists in H as (c & Hc%list_elem_of_In & [Hcur%andb_true_iff Hraw%bool_decide_eq_true]%andb_true_iff).
  destruct Hcur as [Hb%Z.ltb_lt Ha%Z.ltb_lt]. exists raw, rest, now, c. rewrite Hnow in Hc. split_and!; [done..|done].
Qed.

(** A refresh that fails, for whatever reason, keeps the old certificates; one
    that succeeds has brought a current one. *)
Lemma refreshOnce_spec w :
  let '(r, w') := refreshOnce a_now a_do decode_metadata w in
  match r with
  | Ok _ => exists m now c, cell_get w' = mkArm m now /\ c ∈ m /\ (cc_NotBefore c < now < cc_NotAfter c)%Z
  | _ => keeps w w'
  end.
Proof.
  unfold refreshOnce, bind. pose proof (Hnow w) as H1. destruct (a_now w) as [[now| | |] w1]; simpl in *; try done.
  pose proof (Hdo "GET" metadata_url w1) as H2. destruct (a_do _ _ w1) as [[resp| | |] w2]; simpl in *;
    try by (etransitivity; done).
  assert (keeps w w2) as H by by etransitivity.
  do 2 (case_decide; [done|]). destruct (decode_metadata _) as [[m|]|]; [|done..]. simpl.
  destruct (existsb (current now) m) eqn:E; [|done]. simpl.
  apply existsb_exists in E as (c & Hc%list_elem_of_In & [Hb%Z.ltb_lt Ha%Z.ltb_lt]%andb_true_iff).
  exists m, now, c. by rewrite cell_get_set.
Qed.

Lemma refreshOnce_keeps w : is_ok (fst (refreshOnce a_now a_do decode_metadata w)) = false ->
  keeps w (snd (refreshOnce a_now a_do decode_metadata w)).
Proof. pose proof (refreshOnce_spec w) as H. by destruct (refreshOnce _ _ _ w) as [[] ?]. Qed.

(** Ready means that a refresh succeeded within a day and that one of the
    certificates was current. *)
Lemma arm_IsReady_spec w w' :
  arm_IsReady a_now w = (Ok true, w') ->
  exists now later c, (later <= lastSuccessfulRefresh (cell_get w) + day)%Z /\
    c ∈ arm_m (cell_get w) /\ (cc_NotBefore c < now < cc_NotAfter c)%Z.
Proof.
  unfold arm_IsReady. intros (now & w1 & H1 & (a & w2 & Ha & H)%bind_inv_ok)%bind_inv_ok.
  specialize (Hnow w). rewrite H1 in Hnow. unfold keeps in Hnow. simpl in Hnow.
  unfold get_cell in Ha. injection Ha as <- <-. apply bind_inv_ok in H as (later & w3 & _ & [= H _]).
  apply andb_true_iff in H as [H2%negb_true_iff%Z.ltb_ge H].
  apply existsb_exists in H as (c & Hc%list_elem_of_In & [Hb%Z.ltb_lt Ha%Z.ltb_lt]%andb_true_iff).
  exists now, later, c. rewrite Hnow in *. done.
Qed.

(** What the fields behind the mutex hold at any time: nothing yet, or
    certificates of which one was current when they came *)
Definition trusted w : Prop :=
  cell_get w = mkArm [] zero_time \/
  exists c, c ∈ arm_m (cell_get w) /\ (cc_NotBefore c < lastSuccessfulRefresh (cell_get w) < cc_NotAfter c)%Z.

Lemma trusted_keeps w w' : keeps w w' -> trusted w -> trusted w'.
Proof. unfold keeps, trusted. intros E. by rewrite E. Qed.

Lemma refreshOnce_trusted w : trusted w -> trusted (snd (refreshOnce a_now a_do decode_metadata w)).
Proof.
  intros Ht. pose proof (refreshOnce_spec w) as H.
  destruct (refreshOnce a_now a_do decode_metadata w) as [[u|e|s|] w']; simpl in *; try by eapply trusted_keeps.
  destruct H as (m & now & c & E & Hc & Hcur). right. exists c. by rewrite E.
Qed.

Lemma refresh_trusted tick n w :
  steps keeps tick -> trusted w -> trusted (snd (refresh a_now a_do decode_metadata tick n w)).
Proof.
  intros Htick Ht. unfold refresh.
  assert (forall w, trusted w -> trusted (snd (refresh_loop a_now a_do decode_metadata tick n w))) as Hl.
  { clear w Ht. induction n as [|n IH]; intros w Ht; [done|]. cbn [refresh_loop]. unfold bind at 1, try.
    pose proof (refreshOnce_trusted w Ht) as H1.
    assert (forall w1, trusted w1 -> trusted (snd ((do! _ <- tick; refresh_loop a_now a_do decode_metadata tick n) w1))) as H2.
    { intros w1 H. unfold bind. pose proof (Htick w1) as Hk. destruct (tick w1) as [[[]|e|s|] w2]; simpl in *;
        [apply IH|..]; by eapply trusted_keeps. }
    destruct (refreshOnce _ _ _ w) as [[[]|e|s|] w1]; simpl in *; [by apply H2..|done|done]. }
  specialize (Hl w Ht). unfold bind, recover.
  by destruct (refresh_loop _ _ _ tick n w) as [[] ?].
Qed.

(** A caller is authorized, or the authorizer ready, only after a refresh. *)
Lemma trusted_refreshed w : trusted w -> arm_m (cell_get w) <> [] ->
  exists c, c ∈ arm_m (cell_get w) /\ (cc_NotBefore c < lastSuccessfulRefresh (cell_get w) < cc_NotAfter c)%Z.
Proof. intros [E|H] Hne; [by rewrite E in Hne|exact H]. Qed.
End laws.
