(* ===== verification/Environment.v ===== *)
(** * The environment (src/pkg/env, src/pkg/util/instancemetadata)

    Where the program runs: in Azure, with the identity of its machine, or on a
    developer's machine. What it asks of the machine, of Azure and of cryptography are
    the operations of a class; the environment variables do not change. *)
From S2P Require Import Prelude GoStrings.
From S2P Require Import Azure Api Cosmos Mux Middleware Authorizer Wait.
From S2P Require Dynamic.
From Stdlib Require Import Ascii.

(** ** Data *)
Record instanceMetadata := mkInstanceMetadata {
  im_tenantID : string;
  im_subscriptionID : string;
  im_location : string;
  im_resourceGroup : string;
}.
Definition zero_metadata : instanceMetadata := mkInstanceMetadata EmptyString EmptyString EmptyString EmptyString.

(** The three authorizers of clientauthorizer *)
Inductive authorizer := NewAll | NewOne (cert : string) | NewARM.

(** Of a SKU, the places and, for the first of them, the zones *)
Record sku := mkSku {
  sku_Name : option string;
  sku_ResourceType : option string;
  sku_Locations : option (list string);
  sku_LocationInfo : option (list (option (list string)));
}.
(** A vault with the URI of its properties *)
Record vault := mkVault { v_Properties : option (option string) }.
Record block := mkBlock { b_Type : string; b_Bytes : string }.

(** What PKCS#8 wraps: an RSA key or another one, with its Go type *)
Inductive private_key := RSA (k : string) | Unimplemented (T : string).

Record listener := mkListener { l_network : string; l_address : string }.

(** What it asks of the machine, of Azure and of cryptography. A client of Azure has an
    authorizer and the identifier of a subscription or of a tenant. *)
Class Platform (W Authorizer Conn : Type) := {
  MSI_claim : M W string;                                     (* the tid of the machine's token *)
  metadata_Do : string -> string -> M W metadata_response;
  decode_compute : string -> option (string * string * string) + string; (* location, group, subscription *)
  NewAuthorizerFromEnvironment : option string -> M W Authorizer;        (* for a resource *)
  NewClientCredentials : string -> string -> string -> M W Authorizer;
  ServicePrincipalTokenFromCertificate : string -> string -> option string -> option string -> string -> M W Authorizer;
  Refresh : Authorizer -> M W unit;
  ListDatabaseAccounts : Authorizer -> string -> string -> M W (option (list (option string)));
  ListKeys : Authorizer -> string -> string -> string -> M W (option string);
  ListZones : Authorizer -> string -> string -> M W (list (option string));
  ListVaults : Authorizer -> string -> string -> M W (list vault);
  ListSkus : Authorizer -> string -> M W (list sku);
  keyvault_GetSecret : Authorizer -> string -> string -> string -> M W (option string);
  ServicePrincipalIDByAppID : Authorizer -> string -> string -> M W (option string);
  RoleAssignments_Create : Authorizer -> string -> string -> string -> option string -> M W unit;
  Deployments_Get : Authorizer -> string -> string -> string -> M W unit;
  pem_Decode : string -> option block * string;
  ParsePKCS8PrivateKey : string -> res private_key;
  ParsePKCS1PrivateKey : string -> res string;
  ParseCertificate : string -> res string;
  ReadFile : string -> M W string;
  net_Listen : string -> string -> M W listener;
  net_Dial : string -> string -> M W Conn;
  tls_Handshake : Conn -> list string -> string -> string -> string -> M W unit;
  write_CONNECT : Conn -> string -> M W unit;
  read_response : Conn -> M W Z;
  Close : Conn -> M W unit;
  new_uuid : M W string;
  quote_rune : Z -> string;                                   (* the verb %q of an integer *)
  (* the code of the service's error in a detailed error, by pointer and by value *)
  RequestError_ptr : error -> option string;
  RequestError_val : error -> option string;
}.

Section environment.
Context {W Authorizer Conn : Type} `{!Platform W Authorizer Conn, !Ticks W}.
Context (environ : gmap string string).

Definition Getenv (key : string) : string := default EmptyString (environ !! key).
Fixpoint required (keys : list string) : res unit :=
  match keys with
  | [] => Ok tt
  | key :: keys =>
      match environ !! key with
      | Some _ => required keys
      | None => Err (ErrOther ("environment variable " +:+ Quote key +:+ " unset"))
      end
  end.

(** ** instancemetadata *)
Definition NewDev : instanceMetadata :=
  mkInstanceMetadata (Getenv "AZURE_TENANT_ID") (Getenv "AZURE_SUBSCRIPTION_ID") (Getenv "LOCATION") (Getenv "RESOURCEGROUP").

Definition populateTenantIDFromMSI (im : instanceMetadata) : M W instanceMetadata :=
  do! tid <- MSI_claim;
  ret (im <| im_tenantID := tid |>).

Definition compute_url : string := "http://169.254.169.254/metadata/instance/compute?api-version=2019-03-11".
Definition populateInstanceMetadata (im : instanceMetadata) : M W instanceMetadata :=
  do! resp <- metadata_Do "GET" compute_url;
  if decide (mr_StatusCode resp <> 200%Z) then
    throw (ErrOther ("unexpected status code " +:+ quote_rune (mr_StatusCode resp)))
  else if decide (BeforeFirst ";" (h_Get (mr_Header resp) "Content-Type") <> "application/json") then
    throw (ErrOther ("unexpected content type " +:+ Quote (h_Get (mr_Header resp) "Content-Type")))
  else
    match decode_compute (mr_Body resp) with
    | inr e => throw (ErrOther e)
    | inl m =>
        do! '(location, resourceGroupName, subscriptionID) <- lift (deref m);
        ret (im <| im_subscriptionID := subscriptionID |> <| im_location := location |>
                <| im_resourceGroup := resourceGroupName |>)
    end.
Definition NewProd : M W instanceMetadata :=
  do! im <- populateTenantIDFromMSI zero_metadata;
  populateInstanceMetadata im.

(** ** prod.go *)
Record prod := mkProd {
  p_InstanceMetadata : instanceMetadata;
  p_ClientAuthorizer : authorizer;
  p_keyvault : Authorizer;
  p_cosmosDBAccountName : string;
  p_cosmosDBPrimaryMasterKey : string;
  p_domain : string;
  p_vaultURI : string;
  p_zones : gmap string (list string);
  p_fpCertificate : option string;
  p_fpPrivateKey : option string;
}.
Implicit Types (p : prod).
Definition Location p : string := im_location (p_InstanceMetadata p).
Definition ResourceGroup p : string := im_resourceGroup (p_InstanceMetadata p).
Definition SubscriptionID p : string := im_subscriptionID (p_InstanceMetadata p).
Definition TenantID p : string := im_tenantID (p_InstanceMetadata p).

(** Exactly one, or an error that says how many *)
Definition the_one {A} (what : string) (l : list A) : res A :=
  match l with
  | [a] => Ok a
  | _ => Err (ErrOther ("found " +:+ Itoa (Z.of_nat (length l)) +:+ " " +:+ what +:+ ", expected 1"))
  end.

Definition populateCosmosDB (rp : Authorizer) p : M W prod :=
  do! accts <- ListDatabaseAccounts rp (SubscriptionID p) (ResourceGroup p);
  do! accts <- lift (deref accts);
  do! acct <- lift (the_one "database accounts" accts);
  do! name <- lift (deref acct);
  do! key <- ListKeys rp (SubscriptionID p) (ResourceGroup p) name;
  do! key <- lift (deref key);
  ret ((p <| p_cosmosDBAccountName := name |>) <| p_cosmosDBPrimaryMasterKey := key |>).

Definition populateDomain (rp : Authorizer) p : M W prod :=
  do! zs <- ListZones rp (SubscriptionID p) (ResourceGroup p);
  do! z <- lift (the_one "zones" zs);
  do! name <- lift (deref z);
  ret (p <| p_domain := name |>).

Definition populateVaultURI (rp : Authorizer) p : M W prod :=
  do! vs <- ListVaults rp (SubscriptionID p) (ResourceGroup p);
  do! v <- lift (the_one "vaults" vs);
  do! properties <- lift (deref (v_Properties v));
  do! uri <- lift (deref properties);
  ret (p <| p_vaultURI := uri |>).

(** A SKU of another place or of something else than machines is passed over. *)
Definition sku_zones (location : string) (s : sku) : res (option (string * list string)) :=
  do? locations <- deref (sku_Locations s);
  do? first <- index locations 0;
  if EqualFold first location then
    do? t <- deref (sku_ResourceType s);
    if decide (t = "virtualMachines") then
      do? name <- deref (sku_Name s);
      do? info <- deref (sku_LocationInfo s);
      do? zones <- index info 0;
      do? zones <- deref zones;
      Ok (Some (name, zones))
    else Ok None
  else Ok None.
Fixpoint zones_of (location : string) (skus : list sku) (zones : gmap string (list string)) : res (gmap string (list string)) :=
  match skus with
  | [] => Ok zones
  | s :: skus =>
      do? x <- sku_zones location s;
      zones_of location skus (match x with Some (name, z) => <[name := z]> zones | None => zones end)
  end.
Definition populateZones (rp : Authorizer) p : M W prod :=
  do! skus <- ListSkus rp (SubscriptionID p);
  do! zones <- lift (zones_of (Location p) skus ∅);
  ret (p <| p_zones := zones |>).

(** The loop over the blocks of a secret; a block leaves less of the text. *)
Fixpoint read_blocks (fuel : nat) (key : option string) (certs : list string) (b : string) : res (option string * list string) :=
  match fuel with
  | 0 => OutOfFuel
  | S fuel =>
      match pem_Decode b with
      | (None, _) => Ok (key, certs)
      | (Some block, b) =>
          if decide (b_Type block = "PRIVATE KEY") then
            do? k <- ParsePKCS8PrivateKey (b_Bytes block);
            match k with
            | RSA k => read_blocks fuel (Some k) certs b
            | Unimplemented T => Err (ErrOther ("found unimplemented private key type " +:+ T +:+ " in PKCS#8 wrapping"))
            end
          else if decide (b_Type block = "CERTIFICATE") then
            do? c <- ParseCertificate (b_Bytes block);
            read_blocks fuel key (certs ++ [c]) b
          else read_blocks fuel key certs b
      end
  end.
Definition secret_of (value : string) : res (string * list string) :=
  do? '(key, certs) <- read_blocks (S (String.length value)) None [] value;
  match key, certs with
  | None, _ => Err (ErrOther "no private key found")
  | _, [] => Err (ErrOther "no certificate found")
  | Some key, certs => Ok (key, certs)
  end.
Definition GetSecret p (secretName : string) : M W (string * list string) :=
  do! value <- keyvault_GetSecret (p_keyvault p) (p_vaultURI p) secretName EmptyString;
  do! value <- lift (deref value);
  lift (secret_of value).

Definition KeyVault : string := "https://vault.azure.net".
Definition new_prod_base (im : instanceMetadata) (a : authorizer) (kv : Authorizer) : prod :=
  mkProd im a kv EmptyString EmptyString EmptyString EmptyString ∅ None None.
Definition newProd (im : instanceMetadata) (a : authorizer) : M W prod :=
  do! _ <- lift (required ["PULL_SECRET"]);
  do! kvAuthorizer <- NewAuthorizerFromEnvironment (Some KeyVault);
  let p := new_prod_base im a kvAuthorizer in
  do! rpAuthorizer <- NewAuthorizerFromEnvironment None;
  do! p <- populateCosmosDB rpAuthorizer p;
  do! p <- populateDomain rpAuthorizer p;
  do! p <- populateVaultURI rpAuthorizer p;
  do! p <- populateZones rpAuthorizer p;
  do! '(fpPrivateKey, fpCertificates) <- GetSecret p "rp-firstparty";
  do! fpCertificate <- lift (index fpCertificates 0);
  ret (p <| p_fpPrivateKey := Some fpPrivateKey |> <| p_fpCertificate := Some fpCertificate |>).

Definition CosmosDB p : string * string := (p_cosmosDBAccountName p, p_cosmosDBPrimaryMasterKey p).
Definition first_party_id : string := "f1dd0a37-89c6-4e07-bcd1-ffd3d43d8875".
Definition prod_FPAuthorizer p (tenantID resource : string) : M W Authorizer :=
  ServicePrincipalTokenFromCertificate tenantID first_party_id (p_fpCertificate p) (p_fpPrivateKey p) resource.
Definition prod_DialContext (network address : string) : M W Conn := net_Dial network address.
Definition prod_Listen : M W listener := net_Listen "tcp" ":8443".

(** ** dev.go *)
Definition GraphEndpoint : string := "https://graph.windows.net/".
Definition ManagementEndpoint : string := "https://management.azure.com/".

(** A client: the subscription or the tenant it was made for, and its authorizer *)
Definition client : Type := string * Authorizer.
Record dev := mkDev {
  d_prod : prod;
  d_roleassignments : client;
  d_applications : client;
  d_permissions : client;
  d_deployments : client;
  d_proxyPool : list string;
  d_proxyClientCert : string;
  d_proxyClientKey : string;
}.
Implicit Types (d : dev).

Definition dev_keys : list string :=
  ["AZURE_ARM_CLIENT_ID"; "AZURE_ARM_CLIENT_SECRET"; "AZURE_FP_CLIENT_ID"; "AZURE_SUBSCRIPTION_ID"; "AZURE_TENANT_ID";
   "DATABASE_NAME"; "LOCATION"; "PROXY_HOSTNAME"; "PULL_SECRET"; "RESOURCEGROUP"].

Definition dev_FPAuthorizer p (tenantID resource : string) : M W Authorizer :=
  ServicePrincipalTokenFromCertificate tenantID (Getenv "AZURE_FP_CLIENT_ID") (p_fpCertificate p) (p_fpPrivateKey p) resource.

Definition newDev (im : instanceMetadata) (a : authorizer) : M W dev :=
  do! _ <- lift (required dev_keys);
  do! armAuthorizer <- NewClientCredentials (Getenv "AZURE_ARM_CLIENT_ID") (Getenv "AZURE_ARM_CLIENT_SECRET") (im_tenantID im);
  do! p <- newProd im a;
  do! fpGraphAuthorizer <- dev_FPAuthorizer p (im_tenantID im) GraphEndpoint;
  do! fpAuthorizer <- dev_FPAuthorizer p (im_tenantID im) ManagementEndpoint;
  do! b <- ReadFile "secrets/proxy.crt";
  do! cert <- lift (ParseCertificate b);
  do! proxyClientCert <- ReadFile "secrets/proxy-client.crt";
  do! b <- ReadFile "secrets/proxy-client.key";
  do! proxyClientKey <- lift (ParsePKCS1PrivateKey b);
  ret (mkDev p (im_subscriptionID im, armAuthorizer) (im_tenantID im, fpGraphAuthorizer)
         (im_subscriptionID im, fpAuthorizer) (im_tenantID im, fpAuthorizer) [cert] proxyClientCert proxyClientKey).

(** The connection is closed when a step after the dialling fails. *)
Definition or_close {A} (c : Conn) (m : M W A) : M W A :=
  do! r <- try m;
  match r with
  | inl a => ret a
  | inr e => do! _ <- try (Close c); throw e
  end.
Definition dev_DialContext d (network address : string) : M W Conn :=
  if decide (network <> "tcp") then throw (ErrOther ("unimplemented network " +:+ Quote network))
  else
    do! c <- net_Dial network (Getenv "PROXY_HOSTNAME" +:+ ":443");
    do! _ <- or_close c (tls_Handshake c (d_proxyPool d) (d_proxyClientCert d) (d_proxyClientKey d) "proxy");
    do! _ <- or_close c (write_CONNECT c address);
    do! StatusCode <- or_close c (read_response c);
    if decide (StatusCode <> 200%Z) then
      do! _ <- try (Close c);
      throw (ErrOther ("unexpected status code " +:+ Itoa StatusCode))
    else ret c.

Definition dev_Listen : M W listener := net_Listen "tcp" "localhost:8443".

(** The poll ends with the first answer that is not a refusal. *)
Definition not_propagated (e : error) : bool := bool_decide (RequestError_val e = Some "AuthorizationFailed").
Definition CreateARMResourceGroupRoleAssignment d (fpAuthorizer : Authorizer) (resourceGroup : string) : M W unit :=
  do! principal <- ServicePrincipalIDByAppID (snd (d_applications d)) (fst (d_applications d)) (Getenv "AZURE_FP_CLIENT_ID");
  do! name <- new_uuid;
  do! r <- try (RoleAssignments_Create (snd (d_roleassignments d))
    ("/subscriptions/" +:+ SubscriptionID (d_prod d) +:+ "/resourceGroups/" +:+ resourceGroup) name
    ("/subscriptions/" +:+ SubscriptionID (d_prod d) +:+
     "/providers/Microsoft.Authorization/roleDefinitions/c95361b8-cf7c-40a1-ad0a-df9f39a30225") principal);
  do! _ <- (match r with
            | inl _ => ret tt
            | inr e => if decide (RequestError_ptr e = Some "RoleAssignmentExists") then ret tt else throw e
            end);
  do! _ <- Refresh fpAuthorizer;
  Poll time_Second time_Minute
    (do! r <- try (Deployments_Get (snd (d_deployments d)) (fst (d_deployments d)) resourceGroup "dummy");
     ret match r with inr e => negb (not_propagated e) | inl _ => true end).

(** ** test.go *)
Record test := mkTest { t_cert : string; t_l : listener; t_TLSKey : string; t_TLSCerts : list string }.
Definition NewTest (l : listener) (cert : string) : test := mkTest cert l EmptyString [].
Definition test_GetSecret (t : test) (secretName : string) : M W (string * list string) :=
  if decide (secretName = "rp-server") then ret (t_TLSKey t, t_TLSCerts t)
  else throw (ErrOther ("secret " +:+ Quote secretName +:+ " not found")).
Definition test_Location : string := "eastus".

(** ** env.go: [Interface] *)
Inductive environment := Prod (p : prod) | Dev (d : dev) | Test (t : test).
Implicit Types (e : environment).

Definition prod_of e : option prod :=
  match e with Prod p => Some p | Dev d => Some (d_prod d) | Test _ => None end.
Definition authorizer_of e : authorizer :=
  match e with Prod p => p_ClientAuthorizer p | Dev d => p_ClientAuthorizer (d_prod d) | Test t => NewOne (t_cert t) end.
Definition Listen e : M W listener :=
  match e with Prod _ => prod_Listen | Dev _ => dev_Listen | Test t => ret (t_l t) end.
Definition DatabaseName e : string :=
  match e with Dev _ => Getenv "DATABASE_NAME" | _ => "ARO" end.
Definition env_GetSecret e (secretName : string) : M W (string * list string) :=
  match e with
  | Prod p => GetSecret p secretName
  | Dev d => GetSecret (d_prod d) secretName
  | Test t => test_GetSecret t secretName
  end.
Definition FPAuthorizer e (tenantID resource : string) : M W (option Authorizer) :=
  match e with
  | Prod p => do! a <- prod_FPAuthorizer p tenantID resource; ret (Some a)
  | Dev d => do! a <- dev_FPAuthorizer (d_prod d) tenantID resource; ret (Some a)
  | Test _ => ret None
  end.
Definition DialContext e (network address : string) : M W Conn :=
  match e with Dev d => dev_DialContext d network address | _ => prod_DialContext network address end.

Definition NewEnv : M W environment :=
  if decide (ToLower (Getenv "RP_MODE") = "development") then
    do! d <- newDev NewDev NewAll;
    ret (Dev d)
  else
    do! im <- NewProd;
    do! p <- newProd im NewARM;
    ret (Prod p).

(** ** NewFrontend (src/pkg/frontend/frontend.go): the listener and its TLS *)
Definition VersionTLS12 : Z := 771.
Record tls_config := mkTlsConfig {
  tc_Certificate : list string;          (* Raw, in the order of the secret *)
  tc_PrivateKey : string;
  tc_RequestClientCert : bool;
  tc_MinVersion : Z;
  tc_CipherSuites : list string;
  tc_NextProtos : list string;
  tc_PreferServerCipherSuites : bool;
  tc_SessionTicketsDisabled : bool;
  tc_CurvePreferences : list string;
}.
Record frontend := mkFrontend { f_l : listener; f_config : tls_config; f_ready : bool }.
Definition NewFrontend e : M W frontend :=
  do! l <- Listen e;
  do! '(key, certs) <- env_GetSecret e "rp-server";
  ret (mkFrontend l
    (mkTlsConfig certs key true VersionTLS12
       ["TLS_ECDHE_RSA_WITH_CHACHA20_POLY1305"; "TLS_ECDHE_ECDSA_WITH_CHACHA20_POLY1305";
        "TLS_ECDHE_RSA_WITH_AES_128_GCM_SHA256"; "TLS_ECDHE_ECDSA_WITH_AES_128_GCM_SHA256";
        "TLS_ECDHE_RSA_WITH_AES_256_GCM_SHA384"; "TLS_ECDHE_ECDSA_WITH_AES_256_GCM_SHA384"]
       ["h2"; "http/1.1"] true true ["CurveP256"; "X25519"]) true).

(** What the authorizer of an environment does *)
Definition authorizes `{!Cell W arm} (a_now : M W Z) (a : authorizer) : ClientAuthorizer W :=
  match a with
  | NewAll => all_authorizer
  | NewOne cert => one_authorizer cert
  | NewARM => arm_authorizer a_now
  end.
End environment.

(** ** What an environment has been made of *)
(** Runs that came back with a value, step by step *)
Tactic Notation "ask" hyp(H) ident(x) ident(w) ident(Hx) := apply bind_inv_ok in H as (x & w & Hx & H).
Tactic Notation "gives" hyp(H) ident(x) := let w := fresh "w" in let Hx := fresh "Hx" in
  apply bind_inv_ok in H as (x & w & Hx & H); apply lift_inv in Hx as [Hx ->]; revert Hx.

Notation seen := Dynamic.seen (only parsing).

(** ** Zones *)
Definition offers (location : string) (s : sku) (size : string) (z : list string) : Prop :=
  sku_zones location s = Ok (Some (size, z)).
(** The zones of a size are those of the last SKU that offers it there. *)
Definition last_offer (location : string) (skus : list sku) (size : string) (z : list string) : Prop :=
  exists before s after, skus = before ++ s :: after /\ offers location s size z /\
    forall s' z', s' ∈ after -> ~ offers location s' size z'.

Lemma zones_of_spec location skus zones zones' size z :
  zones_of location skus zones = Ok zones' ->
  zones' !! size = Some z <->
  last_offer location skus size z \/
  zones !! size = Some z /\ forall s z', s ∈ skus -> ~ offers location s size z'.
Proof.
  revert zones. induction skus as [|s skus IH]; intros zones H; simplify_eq/=.
  { split; [right; split; [done|by inversion 1]|]. intros [(b & s & a & Hl & _)|[H _]]; [by destruct b|done]. }
  apply res_bind_ok in H as (x & Hx & H). rewrite (IH _ H). clear IH H.
  assert (forall z', offers location s size z' <-> x = Some (size, z')) as Hoff.
  { intros z'. unfold offers. rewrite Hx. split; [by intros [= ->]|by intros ->]. }
  split.
  - intros [(b & s' & a & -> & Ho & Hn)|[Hz Hn]].
    + left. exists (s :: b), s', a. done.
    + destruct x as [[name z0]|].
      * destruct (decide (name = size)) as [->|Hne].
        -- rewrite lookup_insert_eq in Hz. simplify_eq. left. exists [], s, skus. split_and!; [done|by apply Hoff|done].
        -- rewrite lookup_insert_ne in Hz by done. right. split; [done|].
           intros s' z' [->|Hin]%elem_of_cons; [|by apply Hn]. intros Ho%Hoff. by simplify_eq.
      * right. split; [done|]. intros s' z' [->|Hin]%elem_of_cons; [|by apply Hn]. intros Ho%Hoff. by simplify_eq.
  - intros [(b & s' & a & Hl & Ho & Hn)|[Hz Hn]].
    + destruct b as [|s0 b]; simplify_eq/=; [|left; by exists b, s', a].
      right. apply Hoff in Ho as ->. split; [by rewrite lookup_insert_eq|done].
    + right. split; [|intros; apply Hn; by right]. destruct x as [[name z0]|]; [|done].
      rewrite lookup_insert_ne; [done|]. intros ->. apply (Hn s z0); [by left|by apply Hoff].
Qed.

Section spec.
Context {W Authorizer Conn : Type} `{!Platform W Authorizer Conn, !Ticks W}.
Context (environ : gmap string string).

(** ** Secrets

    [pem.Decode] gives the first block of a text and what follows it, or no block. *)
Class PemLaws := {
  pem_shorter b block rest : pem_Decode b = (Some block, rest) -> String.length rest < String.length b;
}.

(** The blocks of a text, one after the other *)
Inductive blocks : string -> list block -> Prop :=
| blocks_none b rest : pem_Decode b = (None, rest) -> blocks b []
| blocks_some b block rest bs : pem_Decode b = (Some block, rest) -> blocks rest bs -> blocks b (block :: bs).

Definition key_of (b : block) : option (res string) :=
  if decide (b_Type b = "PRIVATE KEY") then
    Some (do? k <- ParsePKCS8PrivateKey (b_Bytes b);
          match k with
          | RSA k => Ok k
          | Unimplemented T => Err (ErrOther ("found unimplemented private key type " +:+ T +:+ " in PKCS#8 wrapping"))
          end)
  else None.
Definition cert_of (b : block) : option (res string) :=
  if decide (b_Type b = "CERTIFICATE") then Some (ParseCertificate (b_Bytes b)) else None.

Lemma blocks_exist `{!PemLaws} b : exists bs, blocks b bs /\ length bs <= String.length b.
Proof.
  remember (String.length b) as n eqn:Hn. revert b Hn. induction (lt_wf n) as [n _ IH]. intros b ->.
  destruct (pem_Decode b) as [[bl|] rest] eqn:E.
  - pose proof (pem_shorter _ _ _ E) as Hs.
    destruct (IH (String.length rest) Hs rest eq_refl) as (bs & Hb & Hl).
    exists (bl :: bs). split; [by eapply blocks_some|]. simpl. lia.
  - exists []. split; [by eapply blocks_none|simpl; lia].
Qed.

(** The loop, given the blocks *)
Fixpoint fold_blocks (key : option string) (certs : list string) (bs : list block) : res (option string * list string) :=
  match bs with
  | [] => Ok (key, certs)
  | b :: bs =>
      match key_of b, cert_of b with
      | Some k, _ => do? k <- k; fold_blocks (Some k) certs bs
      | None, Some c => do? c <- c; fold_blocks key (certs ++ [c]) bs
      | None, None => fold_blocks key certs bs
      end
  end.

Lemma read_blocks_fold b bs fuel key certs :
  blocks b bs -> length bs < fuel -> read_blocks fuel key certs b = fold_blocks key certs bs.
Proof.
  intros H. revert fuel key certs. induction H as [b rest E|b bl rest bs E _ IH]; intros [|fuel] key certs Hf; simpl in Hf; try lia; simpl; rewrite E; [done|].
  unfold key_of, cert_of. destruct (decide (b_Type bl = "PRIVATE KEY")) as [|]; simpl.
  - destruct (ParsePKCS8PrivateKey (b_Bytes bl)) as [[k|T]| | |]; simpl; try done. apply IH. lia.
  - destruct (decide (b_Type bl = "CERTIFICATE")); [|apply IH; lia].
    destruct (ParseCertificate (b_Bytes bl)) as [c| | |]; simpl; try done. apply IH. lia.
Qed.

Lemma secret_of_fold `{!PemLaws} value :
  exists bs, blocks value bs /\
    secret_of value =
    (do? '(key, certs) <- fold_blocks None [] bs;
     match key, certs with
     | None, _ => Err (ErrOther "no private key found")
     | _, [] => Err (ErrOther "no certificate found")
     | Some key, certs => Ok (key, certs)
     end).
Proof.
  destruct (blocks_exist value) as (bs & Hb & Hl). exists bs. split; [done|]. unfold secret_of.
  by rewrite (read_blocks_fold value bs) by (done || lia).
Qed.

Lemma fold_blocks_ok key certs bs key' certs' :
  fold_blocks key certs bs = Ok (key', certs') <->
  exists ks cs, omap key_of bs = Ok <$> ks /\ omap cert_of bs = Ok <$> cs /\
    certs' = certs ++ cs /\ key' = match last ks with Some k => Some k | None => key end.
Proof.
  revert key certs. induction bs as [|b bs IH]; intros key certs; simpl.
  { split; [intros [= <- <-]; exists [], []; by rewrite app_nil_r|].
    intros (ks & cs & Hk & Hc & -> & ->). destruct ks, cs; try done. by rewrite app_nil_r. }
  destruct (key_of b) as [k|] eqn:Ek.
  - assert (cert_of b = None) as ->.
    { unfold key_of, cert_of in *. case_decide as Hd; [|done]. by rewrite Hd, decide_False. }
    split.
    + intros (k' & -> & (ks & cs & Hk & Hc & -> & ->)%IH)%res_bind_ok. exists (k' :: ks), cs.
      split_and!; [exact (f_equal (cons _) Hk)|done..|]. rewrite last_cons. by destruct (last ks).
    + intros ([|k' ks] & cs & Hk & Hc & -> & ->); [done|]. cbn in Hk. injection Hk as -> Hk. simpl.
      apply IH. exists ks, cs. split_and!; [done..|]. rewrite last_cons. by destruct (last ks).
  - destruct (cert_of b) as [c|] eqn:Ec.
    + split.
      * intros (c' & -> & (ks & cs & Hk & Hc & -> & ->)%IH)%res_bind_ok. exists ks, (c' :: cs).
        split_and!; [done|exact (f_equal (cons _) Hc)|by rewrite <- app_assoc|done].
      * intros (ks & [|c' cs] & Hk & Hc & -> & ->); [done|]. cbn in Hc. injection Hc as -> Hc. simpl.
        apply IH. exists ks, cs. split_and!; [done..| |done]. by rewrite <- app_assoc.
    + apply IH.
Qed.

Lemma fold_blocks_settles key certs bs :
  (forall s, settles (ParsePKCS8PrivateKey s)) -> (forall s, settles (ParseCertificate s)) ->
  settles (fold_blocks key certs bs).
Proof.
  intros Hk Hc. revert key certs. induction bs as [|b bs IH]; intros key certs; simpl; [done|].
  unfold key_of, cert_of. case_decide.
  - specialize (Hk (b_Bytes b)). destruct (ParsePKCS8PrivateKey _) as [[]| | |]; simpl in *; done.
  - case_decide; [|done]. specialize (Hc (b_Bytes b)). destruct (ParseCertificate _); simpl in *; done.
Qed.

(** ** The environment of the service *)
Lemma required_ok keys : required environ keys = Ok tt <-> forall k, k ∈ keys -> is_Some (environ !! k).
Proof.
  induction keys as [|k keys IH]; simpl; [split; [by inversion 2|done]|]. split.
  - destruct (environ !! k) eqn:E; [|done]. intros H k' [->|Hk]%elem_of_cons; [by rewrite E|by apply IH].
  - intros H. destruct (H k) as [v ->]; [left|]. apply IH. intros k' Hk. apply H. by right.
Qed.

Lemma the_one_ok {A} what (l : list A) a : the_one what l = Ok a -> l = [a].
Proof. by destruct l as [|x []]; intros; simplify_eq/=. Qed.

(** What the environment of the service holds: the only account, zone and vault of its
    resource group, the zones that are offered in its place, and the key and the first
    certificate of the identity of the first party in that vault *)
Record configured (im : instanceMetadata) (a : authorizer) (p : prod (Authorizer := Authorizer)) : Prop := {
  cf_metadata : p_InstanceMetadata p = im;
  cf_authorizer : p_ClientAuthorizer p = a;
  cf_pull_secret : is_Some (environ !! "PULL_SECRET");
  cf_vault : seen (NewAuthorizerFromEnvironment (Some KeyVault)) (p_keyvault p);
  cf_resources : exists rp skus,
    let subscription := im_subscriptionID im in let group := im_resourceGroup im in
    seen (NewAuthorizerFromEnvironment None) rp /\
    seen (ListDatabaseAccounts rp subscription group) (Some [Some (p_cosmosDBAccountName p)]) /\
    seen (ListKeys rp subscription group (p_cosmosDBAccountName p)) (Some (p_cosmosDBPrimaryMasterKey p)) /\
    seen (ListZones rp subscription group) [Some (p_domain p)] /\
    seen (ListVaults rp subscription group) [mkVault (Some (Some (p_vaultURI p)))] /\
    seen (ListSkus rp subscription) skus /\
    (forall size z, p_zones p !! size = Some z <-> last_offer (im_location im) skus size z);
  cf_first_party : exists value key c certs,
    seen (keyvault_GetSecret (p_keyvault p) (p_vaultURI p) "rp-firstparty" EmptyString) (Some value) /\
    secret_of value = Ok (key, c :: certs) /\ p_fpPrivateKey p = Some key /\ p_fpCertificate p = Some c;
}.

Lemma newProd_ok im a w p w' : newProd environ im a w = (Ok p, w') -> configured im a p.
Proof.
  unfold newProd. intros H.
  gives H u. intros Hr. destruct u. ask H kv w1 Hkv. ask H rp w2 Hrp.
  ask H p1 w3 H1. ask H p2 w4 H2. ask H p3 w5 H3. ask H p4 w6 H4. ask H kc w7 H5. destruct kc as [key certs].
  gives H c. intros Hc. injection H as <- <-.
  unfold populateCosmosDB in H1. ask H1 accts v1 Ha. gives H1 accts'. intros ->%deref_ok. gives H1 acct. intros ->%the_one_ok.
  gives H1 name. intros ->%deref_ok. ask H1 k v5 Hk. gives H1 k'. intros ->%deref_ok. injection H1 as <- <-.
  unfold populateDomain in H2. ask H2 zs v1' Hz. gives H2 z. intros ->%the_one_ok. gives H2 zname. intros ->%deref_ok. injection H2 as <- <-.
  unfold populateVaultURI in H3. ask H3 vs u1 Hv. gives H3 v. intros ->%the_one_ok. gives H3 ps. intros Hps%deref_ok.
  gives H3 uri. intros ->%deref_ok. injection H3 as <- <-. destruct v as [vp]. cbn in Hps. subst vp.
  unfold populateZones in H4. ask H4 skus t1 Hs. gives H4 zones. intros Hzs. injection H4 as <- <-.
  unfold GetSecret in H5. ask H5 value s1 Hg. gives H5 value'. intros ->%deref_ok. apply lift_inv in H5 as [H5 ->].
  destruct certs as [|c' certs]; [done|]. cbn in Hc. injection Hc as ->.
  split; try done.
  - apply (required_ok ["PULL_SECRET"]); [done|left].
  - by exists w, w1.
  - exists rp, skus. cbn. split_and!; try (by eexists _, _).
    intros size z. cbn in Hzs. rewrite (zones_of_spec _ _ _ _ _ _ Hzs). split; [intros [|[Hn _]]; [done|]|by left].
    by rewrite lookup_empty in Hn.
  - exists value', key, c, certs. split_and!; [by eexists _, _|done..].
Qed.

(** ** Connections *)
Lemma or_close_ok {A} c (m : M W A) w a w' : or_close (Conn := Conn) c m w = (Ok a, w') -> m w = (Ok a, w').
Proof.
  unfold or_close. intros (r & w1 & Hr%try_inv & H)%bind_inv_ok. destruct r as [x|e]; [by injection H as <- <-|].
  by apply bind_inv_ok in H as (? & ? & _ & ?).
Qed.

Lemma or_close_err {A} c (m : M W A) w e w' :
  or_close (Conn := Conn) c m w = (Err e, w') -> exists w2, w' = snd (Close c w2).
Proof.
  unfold or_close. intros [H|(r & w1 & Hr & H)]%bind_inv_err.
  { unfold try in H. by destruct (m w) as [[] ?]. }
  destruct r as [x|e']; [done|]. exists w1. apply bind_inv_err in H as [H|(u & w2 & H & [= <-])].
  - unfold try in H. by destruct (Close c w1) as [[] ?].
  - unfold try in H. destruct (Close c w1) as [[] ?]; by simplify_eq/=.
Qed.
End spec.
