(* ===== verification/Metrics.v ===== *)
(** * Metrics (src/pkg/metrics)

    What is sent to the statsd daemon: one line per metric, an object of JSON, a value
    and its kind. Numbers with a point and times are formatted by parameters; bytes of
    strings above 127 are taken to be whole characters of UTF-8 as they are. *)
From S2P Require Import Prelude GoStrings Regex.
From S2P Require Import Arm Marshal SwaggerTypes Swagger.
From S2P Require Import Api Services Cosmos Mux Middleware.
From Stdlib Require Import Ascii.

(** ** The JSON of a string, as an encoder writes it that escapes for HTML *)
Definition hex_digit (n : nat) : ascii := ascii_of_nat (if n <? 10 then 48 + n else 87 + n).
Definition backslash : ascii := ascii_of_nat 92.
Definition json_char (c : ascii) : string :=
  let n := nat_of_ascii c in
  if n =? 34 then String backslash DQ
  else if n =? 92 then String backslash (String backslash EmptyString)
  else if n =? 10 then String backslash "n"
  else if n =? 13 then String backslash "r"
  else if n =? 9 then String backslash "t"
  else if (n <? 32) || (n =? 60) || (n =? 62) || (n =? 38) then
    String backslash ("u00" +:+ String (hex_digit (n / 16)) (String (hex_digit (n mod 16)) EmptyString))
  else String c EmptyString.
Fixpoint json_chars (s : string) : string :=
  match s with EmptyString => EmptyString | String c s => json_char c +:+ json_chars s end.
Definition json_string (s : string) : string := DQ +:+ json_chars s +:+ DQ.
Definition json_members (l : list (string * string)) : string :=
  "{" +:+ JoinChar "," (map (fun '(k, v) => json_string k +:+ ":" +:+ v) l) +:+ "}".

Section metrics.
(** Floating-point numbers, [%f] of one, the seconds of a duration, and a time in UTC in
    the layout 2006-01-02T15:04:05.000 *)
Context {F : Type} (format_f : F -> string) (Seconds : Z -> F) (format_ts : Z -> string).

(** ** metrics.go *)
Record metric := mkMetric {
  m_metric : string;
  m_account : string;
  m_namespace : string;
  m_dims : list (string * string);      (* in the order of the keys *)
  m_ts : Z;
  m_valueGauge : option Z;
  m_valueFloat : option F;
}.

Definition omitempty (k s : string) : list (string * string) :=
  if decide (s = EmptyString) then [] else [(k, json_string s)].
Definition MarshalJSON (m : metric) : string :=
  json_members
    ([("Metric", json_string (m_metric m))] ++ omitempty "Account" (m_account m) ++ omitempty "Namespace" (m_namespace m) ++
     [("Dims", json_members (map (fun '(k, v) => (k, json_string v)) (m_dims m))); ("TS", json_string (format_ts (m_ts m)))]).

Definition line_end : string := String newline EmptyString.
Definition marshalStatsd (m : metric) : res string :=
  match m_valueFloat m with
  | Some v => Ok (MarshalJSON m +:+ ":" +:+ format_f v +:+ "|f" +:+ line_end)
  | None =>
      do? v <- deref (m_valueGauge m);
      Ok (MarshalJSON m +:+ ":" +:+ Itoa v +:+ "|g" +:+ line_end)
  end.

(** ** statsd.go *)
Inductive Interface := Noop | Statsd (hostname : string).

(** The socket of the daemon and the tracers of the Azure and Kubernetes clients; a
    write is whole, under the mutex. *)
Class Daemon (W : Type) := {
  os_Hostname : M W string;
  dial_unix : string -> M W unit;
  conn_Write : string -> M W unit;
  conn_Close : M W unit;
  Register : Interface -> M W unit;
  error_text : error -> string;
}.

Section statsd.
Context {W : Type} `{!Runtime W, !Daemon W} {EV : Env}.
Implicit Types (s : Interface).

Definition defaultSocket : string := "mdm_statsd.socket".
(** A development environment without the daemon has no metrics. *)
Definition New (FEATURE_METRICS : string) : M W Interface :=
  if decide (FEATURE_METRICS = EmptyString) then ret Noop
  else
    do! hostname <- os_Hostname;
    do! r <- try (dial_unix defaultSocket);
    match r with
    | inr e =>
        if env_isDev && HasSuffix (error_text e) "connect: no such file or directory" then ret Noop else throw e
    | inl _ =>
        do! _ <- Register (Statsd hostname);
        ret (Statsd hostname)
    end.

Definition emitMetric (hostname : string) (m : metric) : M W unit :=
  do! ts <- time_Now;
  do! b <- lift (marshalStatsd
    (mkMetric (m_metric m) "*" "*" (set_key "hostname" hostname (set_key "location" env_Location (m_dims m))) ts
       (m_valueGauge m) (m_valueFloat m)));
  conn_Write b.

Definition EmitFloat s (m : string) (value : F) (dims : list (string * string)) : M W unit :=
  match s with
  | Noop => ret tt
  | Statsd hostname => emitMetric hostname (mkMetric m EmptyString EmptyString dims 0 None (Some value))
  end.
Definition EmitGauge s (m : string) (value : Z) (dims : list (string * string)) : M W unit :=
  match s with
  | Noop => ret tt
  | Statsd hostname => emitMetric hostname (mkMetric m EmptyString EmptyString dims 0 (Some value) None)
  end.
Definition Close s : M W unit := match s with Noop => ret tt | Statsd _ => conn_Close end.

(** ** The tracers: an Azure client's span is in its context, the value of the key of
    another is not there. *)
Record span := mkSpan { sp_t : Z; sp_name : string }.
Definition StartSpan (name : string) : M W span :=
  do! start <- time_Now;
  ret (mkSpan start name).
Definition unheeded (m : M W unit) : M W unit := do! _ <- try m; ret tt.
Definition EndSpan s (ctx : option span) (httpStatusCode : Z) : M W unit :=
  do! span <- lift (deref ctx);
  do! now <- time_Now;
  let dims := [("client", sp_name span); ("code", Itoa httpStatusCode)] in
  do! _ <- unheeded (EmitFloat s "client.azure.duration" (Seconds (now - sp_t span)) dims);
  unheeded (EmitGauge s "client.azure.count" 1 dims).
Definition Observe s (verb path : string) (latency : Z) : M W unit :=
  unheeded (EmitFloat s "client.k8s.duration" (Seconds latency) [("path", path); ("verb", verb)]).
Definition Increment s (code verb : string) : M W unit :=
  unheeded (EmitGauge s "client.k8s.count" 1 [("code", code); ("verb", verb)]).

(** ** The middleware's metrics, its errors dropped *)
Definition dims_of (tags : gmap string string) : list (string * string) := map_fold set_key [] tags.
Definition telemetry s (request : string -> string -> M W unit) (answer : string -> Z -> nat -> Z -> M W unit) : Telemetry W := {|
  log_request := request;
  log_response := answer;
  Middleware.EmitGauge k n tags := unheeded (EmitGauge s k n (dims_of tags));
  Middleware.EmitFloat k n tags := unheeded (EmitFloat s k (Seconds n) (dims_of tags));
|}.
End statsd.

(** ** What the daemon reads: one line per metric, however they are written *)
Definition value_of (m : metric) : option string :=
  match m_valueFloat m with
  | Some v => Some (format_f v +:+ "|f")
  | None => (fun v => Itoa v +:+ "|g") <$> m_valueGauge m
  end.

Lemma json_char_no_newline c : ContainsRune (json_char c) newline = false.
Proof. by destruct c as [[] [] [] [] [] [] [] []]. Qed.
Lemma json_chars_no_newline s : ContainsRune (json_chars s) newline = false.
Proof.
  induction s as [|c s IH]; [done|]. cbn [json_chars]. by rewrite ContainsRune_app, json_char_no_newline, IH.
Qed.
Lemma json_string_no_newline s : ContainsRune (json_string s) newline = false.
Proof. unfold json_string. by rewrite !ContainsRune_app, json_chars_no_newline. Qed.

Lemma JoinChar_no_newline l :
  Forall (fun s => ContainsRune s newline = false) l -> ContainsRune (JoinChar "," l) newline = false.
Proof.
  induction 1 as [|s l Hs Hl IH]; [done|]. destruct l as [|t l]; [done|].
  change (JoinChar "," (s :: t :: l)) with (s +:+ String "," (JoinChar "," (t :: l))). by rewrite ContainsRune_app, Hs.
Qed.
Lemma json_members_no_newline l :
  Forall (fun '(_, v) => ContainsRune v newline = false) l -> ContainsRune (json_members l) newline = false.
Proof.
  intros Hl. unfold json_members. rewrite !ContainsRune_app, JoinChar_no_newline; [done|].
  apply Forall_fmap. eapply Forall_impl; [exact Hl|]. intros [k v] Hv. cbn.
  by rewrite !ContainsRune_app, json_string_no_newline, Hv.
Qed.

Lemma MarshalJSON_no_newline m : ContainsRune (MarshalJSON m) newline = false.
Proof.
  assert (forall k s, Forall (fun '(_, v) => ContainsRune v newline = false) (omitempty k s)) as Ho.
  { intros k s. unfold omitempty. case_decide; [constructor|]. constructor; [apply json_string_no_newline|constructor]. }
  apply json_members_no_newline. repeat (apply Forall_app; split); [..| |]; try apply Ho.
  - constructor; [apply json_string_no_newline|constructor].
  - constructor; [|constructor; [apply json_string_no_newline|constructor]].
    apply json_members_no_newline, Forall_fmap, Forall_true. intros [k v]. apply json_string_no_newline.
Qed.

(** A number is written with digits and a sign. *)
Lemma pretty_N_go_without c x s :
  (forall d, pretty_N_char d <> c) -> ContainsRune s c = false -> ContainsRune (pretty_N_go x s) c = false.
Proof.
  intros Hc. revert s. induction (N.lt_wf_0 x) as [x _ IH]; intros s Hs.
  destruct (decide (0 < x)%N) as [Hx|Hx].
  - rewrite pretty_N_go_step by done. apply IH; [by apply N.div_lt|]. cbn [ContainsRune].
    rewrite Hs, orb_false_r. apply bool_decide_eq_false. intros E. by apply (Hc (x `mod` 10)%N).
  - replace x with 0%N by lia. by rewrite pretty_N_go_0.
Qed.
Lemma Itoa_without c z : (forall d, pretty_N_char d <> c) -> c <> "-"%char -> ContainsRune (Itoa z) c = false.
Proof.
  intros Hc Hd. assert (forall p, ContainsRune (pretty (N.pos p)) c = false) as Hp.
  { intros p. unfold pretty, pretty_N. rewrite decide_False by done. by apply pretty_N_go_without. }
  unfold Itoa, pretty, pretty_Z. destruct z as [|p|p]; [|apply Hp|].
  - cbn. rewrite orb_false_r. apply bool_decide_eq_false. intros E. by apply (Hc 0%N).
  - change (bool_decide (c = "-"%char) || ContainsRune (pretty (N.pos p)) c = false). rewrite Hp, orb_false_r.
    by apply bool_decide_eq_false.
Qed.

Lemma marshalStatsd_ok m b :
  marshalStatsd m = Ok b -> exists v, value_of m = Some v /\ b = (MarshalJSON m +:+ ":" +:+ v) +:+ line_end.
Proof.
  unfold marshalStatsd, value_of. intros H. destruct (m_valueFloat m) as [v|].
  - injection H as <-. eexists. split; [done|]. by rewrite !string_app_assoc.
  - apply res_bind_ok in H as (v & Hv & [= <-]). apply deref_ok in Hv as ->. eexists. split; [done|]. by rewrite !string_app_assoc.
Qed.

Lemma value_without c m v :
  (forall x, ContainsRune (format_f x) c = false) -> (forall d, pretty_N_char d <> c) -> c ∉ ["-"; "|"; "f"; "g"]%char ->
  value_of m = Some v -> ContainsRune v c = false.
Proof.
  intros Hf Hd Hc. unfold value_of. destruct (m_valueFloat m) as [x|]; [intros [= <-]|destruct (m_valueGauge m) as [z|]; [intros [= <-]|done]].
  - rewrite ContainsRune_app, Hf. cbn. rewrite !bool_decide_eq_false_2 by set_solver. done.
  - rewrite ContainsRune_app, Itoa_without by (done || set_solver). cbn. rewrite !bool_decide_eq_false_2 by set_solver. done.
Qed.

(** Whatever was emitted, in whatever order, the daemon finds each object and its value
    on a line of their own, the value after the last colon. *)
Lemma statsd_lines ms bs :
  (forall x, ContainsRune (format_f x) newline = false) -> Forall2 (fun m b => marshalStatsd m = Ok b) ms bs ->
  exists vs, Forall2 (fun m v => value_of m = Some v) ms vs /\
    SplitChar newline (foldr String.append EmptyString bs) = zip_with (fun m v => MarshalJSON m +:+ ":" +:+ v) ms vs ++ [EmptyString].
Proof.
  intros Hf. induction 1 as [|m b ms bs Hb _ (vs & Hvs & IH)]; [by exists []|].
  apply marshalStatsd_ok in Hb as (v & Hv & ->). exists (v :: vs). split; [by constructor|]. cbn [foldr zip_with app].
  change (foldr String.append EmptyString bs) with (foldr (fun a b => a +:+ b) EmptyString bs) in IH |- *.
  rewrite string_app_assoc.
  match goal with |- context [line_end +:+ ?r] => change (line_end +:+ r) with (String newline r) end.
  rewrite SplitChar_app_sep; [f_equal; exact IH|].
  rewrite !ContainsRune_app, MarshalJSON_no_newline. cbn. rewrite (value_without newline m v); [done|done| | |done].
  - intros d. unfold pretty_N_char. by repeat case_match.
  - apply (bool_decide_unpack _). by vm_compute.
Qed.
Lemma statsd_value m v :
  (forall x, ContainsRune (format_f x) ":" = false) -> value_of m = Some v ->
  LastIndexByte (MarshalJSON m +:+ ":" +:+ v) ":" = Z.of_nat (String.length (MarshalJSON m)).
Proof.
  intros Hf Hv. apply LastIndexByte_app. rewrite (value_without ":" m v); [done|done| | |done].
  - intros d. unfold pretty_N_char. by repeat case_match.
  - apply (bool_decide_unpack _). by vm_compute.
Qed.
End metrics.

(** The program's tests (metrics_test.go) *)
Definition test_metric (gauge : option Z) (float : option string) : metric :=
  mkMetric "metric" EmptyString "namespace" [("key", "value")] 0 gauge float.
Definition test_object : string :=
  "{" +:+ q "Metric" +:+ ":" +:+ q "metric" +:+ "," +:+ q "Namespace" +:+ ":" +:+ q "namespace" +:+ "," +:+ q "Dims" +:+ ":{" +:+
  q "key" +:+ ":" +:+ q "value" +:+ "}," +:+ q "TS" +:+ ":" +:+ q "1970-01-01T00:00:00.000" +:+ "}".
Example marshal_gauge :
  marshalStatsd (fun s => s) (fun _ => "1970-01-01T00:00:00.000") (test_metric (Some 42%Z) None) =
  Ok (test_object +:+ ":42|g" +:+ line_end).
Proof. by vm_compute. Qed.
Example marshal_float :
  marshalStatsd (fun s => s) (fun _ => "1970-01-01T00:00:00.000") (test_metric None (Some "1.000000")) =
  Ok (test_object +:+ ":1.000000|f" +:+ line_end).
Proof. by vm_compute. Qed.
