(* ===== verification/Shutdown.v ===== *)
(** * The process, from listening to its end (src/cmd/aro/rp.go, src/pkg/frontend/frontend.go)

    The goroutine of [rp], the two of the front end's [Run] - the one that serves and
    the one that waits for the stop - and the back end of Workers.v, from the moment
    both have been started. One step is one operation on a channel, one store or one
    call; when [rp] returns the process ends, and nothing more is done. *)
From S2P Require Import Prelude Api Workers.

Inductive main_pc :=
| Awaiting        (* [<-sigterm] *)
| Closing         (* [close(stop)] *)
| Finishing       (* [<-done] *)
| Exited.
Inductive stopper_pc :=
| Waiting         (* [<-stop] *)
| Marked          (* [f.ready.Store(false)] was done: [time.Sleep(20 * time.Second)] *)
| Shutting        (* in [f.s.Shutdown(ctx)] *)
| ClosingDone     (* [close(done)] *)
| StopperDone
| Panicked.       (* recovered: the goroutine is gone *)
Inductive server_pc :=
| Starting        (* [f.s] is nil *)
| Serving         (* in [f.s.Serve(f.l)] *)
| Closed.         (* the listener is closed: Serve returns ErrServerClosed *)

Record process := mkProcess {
  pr_main : main_pc;
  pr_stopper : stopper_pc;
  pr_server : server_pc;
  pr_ready : bool;
  pr_inflight : nat;       (* the requests that are being answered *)
  pr_stop : bool;          (* the channel [stop] is closed *)
  pr_done : bool;          (* the channel [done] is closed *)
  pr_back : state;
}.

Definition started : process := mkProcess Awaiting Waiting Starting true 0 false false initial.

(** What [rp] and the goroutine that waits for the stop do *)
Inductive stopping_step : process -> process -> Prop :=
| st_sigterm p : pr_main p = Awaiting -> stopping_step p (p <| pr_main := Closing |>)
| st_close_stop p : pr_main p = Closing -> stopping_step p (p <| pr_main := Finishing |> <| pr_stop := true |>)
| st_finish p : pr_main p = Finishing -> pr_done p = true -> stopping_step p (p <| pr_main := Exited |>)
| st_mark p :
    pr_stopper p = Waiting -> pr_stop p = true -> stopping_step p (p <| pr_stopper := Marked |> <| pr_ready := false |>)
| st_shutdown p :
    pr_stopper p = Marked -> pr_server p <> Starting -> stopping_step p (p <| pr_stopper := Shutting |> <| pr_server := Closed |>)
| st_drained p :
    pr_stopper p = Shutting -> pr_inflight p = 0 -> stopping_step p (p <| pr_stopper := ClosingDone |>)
| st_deadline p : pr_stopper p = Shutting -> stopping_step p (p <| pr_stopper := ClosingDone |>)
| st_close_done p :
    pr_stopper p = ClosingDone -> stopping_step p (p <| pr_stopper := StopperDone |> <| pr_done := true |>).

(** What serves requests, and the back end, which stops only once [stop] is closed *)
Inductive working_step : process -> process -> Prop :=
| wk_serve p : pr_server p = Starting -> working_step p (p <| pr_server := Serving |>)
| wk_accept p : pr_server p = Serving -> working_step p (p <| pr_inflight := S (pr_inflight p) |>)
| wk_answer p n : pr_inflight p = S n -> working_step p (p <| pr_inflight := n |>)
| wk_shutdown_nil p : pr_stopper p = Marked -> pr_server p = Starting -> working_step p (p <| pr_stopper := Panicked |>)
| wk_back p b :
    Workers.step (pr_back p) b -> (st_stopping b = true -> st_stopping (pr_back p) = true \/ pr_stop p = true) ->
    working_step p (p <| pr_back := b |>).

Definition step (p p' : process) : Prop := pr_main p <> Exited /\ (stopping_step p p' \/ working_step p p').
Definition reachable (p : process) : Prop := rtc step started p.

(** ** What holds on the way *)
Definition before_shutdown (p : process) : Prop := pr_stopper p = Waiting \/ pr_stopper p = Marked \/ pr_stopper p = Panicked.
Record orderly (p : process) : Prop := {
  or_exit : pr_main p = Exited -> pr_done p = true;
  or_stop : pr_stop p = true <-> pr_main p = Finishing \/ pr_main p = Exited;
  or_done : pr_done p = true <-> pr_stopper p = StopperDone;
  or_closed : pr_server p = Closed <-> ~ before_shutdown p;
  or_ready : pr_ready p = true <-> pr_stopper p = Waiting;
  or_marked : pr_stopper p <> Waiting -> pr_stop p = true;
  or_back : st_stopping (pr_back p) = true -> pr_stop p = true;
  or_workers : Workers.reachable (pr_back p);
}.

Lemma step_orderly p p' : orderly p -> step p p' -> orderly p'.
Proof.
  intros [He Hs Hd Hc Hr Hm Hb Hw] [Hne [H|H]]; unfold before_shutdown in *.
  - destruct H; destruct p as [m st sv r n s d b]; simpl in *; subst; split; unfold before_shutdown; simpl; unfold constant; try done; intuition congruence.
  - destruct H as [p|p|p n|p|p b Hstep Hstop]; destruct p as [m st sv r n' s d b']; simpl in *; subst;
      split; unfold before_shutdown; simpl; unfold constant; try done; try solve [intuition congruence].
    by eapply rtc_r.
Qed.

Lemma started_orderly : orderly started.
Proof.
  split; unfold before_shutdown; simpl; try done; try solve [intuition congruence]. apply rtc_refl.
Qed.

Lemma reachable_orderly p : reachable p -> orderly p.
Proof.
  unfold reachable. intros H. remember started as q eqn:Hq.
  assert (orderly q) as Ho by (subst; apply started_orderly). clear Hq. induction H; [done|]. eauto using step_orderly.
Qed.

(** ** The way to the end

    The steps that are left of [rp] and of the goroutine that waits for the stop *)
Definition left_of (p : process) : nat :=
  match pr_main p with Awaiting => 3 | Closing => 2 | Finishing => 1 | Exited => 0 end +
  match pr_stopper p with Waiting => 4 | Marked => 3 | Shutting => 2 | ClosingDone => 1 | _ => 0 end.

Lemma stopping_left p p' : stopping_step p p' -> left_of p' < left_of p.
Proof. destruct 1; destruct p as [m st sv r n s d b]; simpl in *; subst; unfold left_of; simpl; unfold constant; lia. Qed.

Lemma working_left p p' : working_step p p' -> pr_stopper p' <> Panicked -> left_of p' = left_of p.
Proof. destruct 1; destruct p as [m st sv r n' s d b']; simpl in *; subst; unfold left_of; simpl; unfold constant; done. Qed.

(** Unless the goroutine panicked, something of the two is always left to be done. *)
Lemma never_stuck p :
  orderly p -> pr_main p <> Exited -> pr_stopper p <> Panicked -> pr_server p <> Starting ->
  exists p', stopping_step p p'.
Proof.
  intros [He Hs Hd Hc Hr Hm Hb Hw] Hne Hp Hsv. destruct (pr_main p) eqn:Em; [eexists; by apply st_sigterm|eexists; by apply st_close_stop| |done].
  destruct (pr_stopper p) eqn:Es; [|eexists; by apply st_shutdown|eexists; by apply st_deadline|eexists; by apply st_close_done| |done].
  - eexists. apply st_mark; [done|]. apply Hs. by left.
  - eexists. apply st_finish; [done|]. by apply Hd.
Qed.

(** ** An end with work left *)
Lemma running_stays s s' : Workers.step s s' -> st_stopping s' = false -> st_stopping s = false.
Proof.
  destruct 1; destruct s as [p w b sg st]; simpl in *; subst; simpl; unfold constant; try done;
    repeat match goal with x : bool |- _ => destruct x end; simpl; done.
Qed.

Lemma reach_work p p' q : reachable p -> pr_main p <> Exited -> working_step p p' -> p' = q -> reachable q.
Proof. intros H Hne Hs <-. eapply rtc_r; [done|]. split; [done|by right]. Qed.

(** Whatever the back end gets to while it is not told to stop, it gets to in the
    process. *)
Definition serving (b : state) : process := mkProcess Awaiting Waiting Serving true 0 false false b.
Lemma embed b : Workers.reachable b -> st_stopping b = false -> reachable (serving b).
Proof.
  unfold Workers.reachable. revert b. refine (rtc_ind_r _ _ _ _).
  - intros _. eapply (reach_work started); [apply rtc_refl|done|by apply wk_serve|done].
  - intros b b' Hr Hstep IH Hb. pose proof (running_stays _ _ Hstep Hb) as Hb0.
    eapply (reach_work (serving b)); [by apply IH|done| |reflexivity].
    apply (wk_back (serving b) b'); [done|]. intros E. by rewrite Hb in E.
Qed.

Lemma reach_stop p p' q : reachable p -> pr_main p <> Exited -> stopping_step p p' -> p' = q -> reachable q.
Proof. intros H Hne Hs <-. eapply rtc_r; [done|]. split; [done|by left]. Qed.

Lemma exit_with b : Workers.reachable b -> st_stopping b = false ->
  reachable (mkProcess Exited StopperDone Closed false 1 true true b).
Proof.
  intros Hb Hs. pose proof (embed b Hb Hs) as H.
  assert (reachable (mkProcess Awaiting Waiting Serving true 1 false false b)) as H0.
  { eapply (reach_work (serving b)); [exact H|done|by apply wk_accept|done]. }
  eapply (reach_stop _ _ (mkProcess Closing Waiting Serving true 1 false false b)) in H0; [|done|by apply st_sigterm|done].
  eapply (reach_stop _ _ (mkProcess Finishing Waiting Serving true 1 true false b)) in H0; [|done|by apply st_close_stop|done].
  eapply (reach_stop _ _ (mkProcess Finishing Marked Serving false 1 true false b)) in H0; [|done|by apply st_mark|done].
  eapply (reach_stop _ _ (mkProcess Finishing Shutting Closed false 1 true false b)) in H0; [|done|by apply st_shutdown|done].
  eapply (reach_stop _ _ (mkProcess Finishing ClosingDone Closed false 1 true false b)) in H0; [|done|by apply st_deadline|done].
  eapply (reach_stop _ _ (mkProcess Finishing StopperDone Closed false 1 true true b)) in H0; [|done|by apply st_close_done|done].
  eapply (reach_stop _ _ (mkProcess Exited StopperDone Closed false 1 true true b)) in H0; [done|done|by apply st_finish|done].
Qed.
