(* ===== verification/Routes.v ===== *)
(** * The server (src/pkg/frontend/frontend.go)

    The routes, the chain of middleware around the handlers, and what the router
    does with a request. *)
From S2P Require Import Prelude GoStrings.
From S2P Require Import Regex Azure Api Services.
From S2P Require Import Cosmos Database Static Frontend Mux Middleware.

Section routes.
Context {W : Type} `{!Runtime W, !Account W} {PB : PageBound} `{!Cell W Header}.
Context `{!Cell W ResponseWriter, !Telemetry W, !ClientAuthorizer W}.
Context {EV : Env} {U : Url} {CD : Codec}.
Context (db : Database) (apis : gmap string (Version W)) (feature_operations : bool).
(** [r.URL.String()] of a request, the flag [f.ready], and JSON of what the two
    handlers without a body write *)
Context (url_String : ServerRequest -> string) (ready : W -> bool).
Context (empty_error : string) (encode_operations : list Operation -> string).

(** ** Handlers behind the router *)
Definition request_of (r : ServerRequest) : Request :=
  mkRequest (sr_Method r) (sr_Path r) (sr_OriginalPath r) (sr_Vars r) (sr_Header r)
    (default EmptyString (sr_ContextBody r)).

(** What [reply] does with the writer *)
Definition write_response (resp : HttpResponse) : M W unit :=
  do! _ <- modify_writer (fun w =>
    mkResponseWriter (resp_Header resp ∪ rw_Header w) (rw_sent w) (rw_Body w) (rw_statusCode w));
  do! _ <- (if decide (resp_StatusCode resp = StatusOK) then ret tt else WriteHeader (resp_StatusCode resp));
  match resp_Body resp with
  | Some b => Write (b +:+ newline_string)
  | None => ret tt
  end.

(** The assertions on the context's values: the log's entry is there in every
    request, and the body in one with a body. *)
Definition handler (h : Request -> M W HttpResponse) : Handler W := fun r =>
  do! _ <- lift (deref (sr_RequestID r));
  do! resp <- h (request_of r);
  write_response resp.
Definition body_handler (h : Request -> M W HttpResponse) : Handler W := fun r =>
  do! _ <- lift (deref (sr_RequestID r));
  do! _ <- lift (deref (sr_ContextBody r));
  handler h r.

Definition getReady_ : Handler W := fun _ =>
  do! r <- (fun w => (Ok (ready w), w));
  do! is_ready <- (if r : bool then IsReady else ret false);
  write_response (getReady r is_ready empty_error).
Definition getOperations_ (_ : Request) : M W HttpResponse :=
  ret (mkHttpResponse StatusOK ∅ (Some (encode_operations getOperations))).

(** ** The routes *)
Definition unauthenticatedRoutes : router (Handler W) :=
  mkRouter [mkRoute [MPath "/healthz/ready"; MMethods ["GET"]] (Some getReady_) EmptyString] [] None.

Definition cluster_path : string :=
  "/subscriptions/{subscriptionId}/resourcegroups/{resourceGroupName}/providers/{resourceProviderNamespace}/{resourceType}/{resourceName}".
Definition any_version : string * string := ("api-version", "{api-version}").

Definition endpoints : list (endpoint (Handler W)) := [
  mkEndpoint cluster_path any_version [
    ("DELETE", handler (deleteOpenShiftCluster db feature_operations), "deleteOpenShiftCluster");
    ("GET", handler (getOpenShiftCluster db apis), "getOpenShiftCluster");
    ("PATCH", body_handler (putOrPatchOpenShiftCluster db apis feature_operations), "putOrPatchOpenShiftCluster");
    ("PUT", body_handler (putOrPatchOpenShiftCluster db apis feature_operations), "putOrPatchOpenShiftCluster")];
  mkEndpoint "/subscriptions/{subscriptionId}/resourcegroups/{resourceGroupName}/providers/{resourceProviderNamespace}/{resourceType}"
    any_version [("GET", handler (getOpenShiftClusters db apis), "getOpenShiftClusters")];
  mkEndpoint "/subscriptions/{subscriptionId}/providers/{resourceProviderNamespace}/{resourceType}"
    any_version [("GET", handler (getOpenShiftClusters db apis), "getOpenShiftClusters")];
  mkEndpoint "/subscriptions/{subscriptionId}/providers/{resourceProviderNamespace}/locations/{location}/operationsstatus/{operationId}"
    any_version [("GET", handler (getAsyncOperationsStatus db), "getAsyncOperationsStatus")];
  mkEndpoint "/subscriptions/{subscriptionId}/providers/{resourceProviderNamespace}/locations/{location}/operationresults/{operationId}"
    any_version [("GET", handler (getAsyncOperationResult db apis), "getAsyncOperationResult")];
  mkEndpoint (cluster_path +:+ "/listcredentials")
    any_version [("POST", body_handler (postOpenShiftClusterCredentials db apis), "postOpenShiftClusterCredentials")];
  mkEndpoint "/providers/{resourceProviderNamespace}/operations"
    any_version [("GET", handler getOperations_, "getOperations")];
  mkEndpoint "/subscriptions/{subscriptionId}"
    ("api-version", "2.0") [("PUT", body_handler (putSubscription db), "putSubscription")]].
Definition authenticatedRoutes : router (Handler W) :=
  mkRouter (endpoint_route <$> endpoints) [Authenticated] None.

Definition NotFoundHandler : Handler W := fun _ =>
  do! _ <- Header_Set "Content-Type" "application/json";
  WriteError StatusNotFound CloudErrorCodeNotFound "The requested path could not be found.".

Definition chain : list (Handler W -> Handler W) :=
  [Log; Metrics; PanicHandler; Headers url_String; Validate apis; Body].
Definition setupRouter : router (Handler W) :=
  mkRouter [mkRoute [MSub unauthenticatedRoutes] None EmptyString;
            mkRoute [MSub authenticatedRoutes] None EmptyString]
    chain (Some (Authenticated NotFoundHandler)).

(** ** [Router.ServeHTTP] *)
Definition cleanPath (p : string) : string :=
  if decide (p = EmptyString) then "/"
  else
    let p := if HasPrefix p "/" then p else "/" +:+ p in
    let np := filepath_Clean p in
    if HasSuffix p "/" && bool_decide (np <> "/") then np +:+ "/" else np.

Definition redirect (r : ServerRequest) : M W unit :=
  do! _ <- Header_Set "Location" (url_String (r <| sr_Path := cleanPath (sr_Path r) |>));
  WriteHeader StatusMovedPermanently.
Definition methodNotAllowed : Handler W := fun _ => WriteHeader StatusMethodNotAllowed.
Definition http_NotFound : Handler W := fun _ =>
  do! _ <- Header_Set "Content-Type" "text/plain; charset=utf-8";
  do! _ <- Header_Set "X-Content-Type-Options" "nosniff";
  do! _ <- WriteHeader StatusNotFound;
  Write ("404 page not found" +:+ newline_string).

Definition ServeHTTP (rt : router (Handler W)) : Handler W := fun r =>
  if decide (cleanPath (sr_Path r) <> sr_Path r) then redirect r
  else
    let '(found, m) := Router_Match r rt no_match in
    if found : bool then
      default http_NotFound (m_Handler m) (r <| sr_Vars := default ∅ (m_Vars m) |> <| sr_Route := m_Route m |>)
    else if decide (m_MatchErr m = Some ErrMethodMismatch) then methodNotAllowed r
    else http_NotFound r.

(** The handler that [Run] gives to the HTTP server, on a new response *)
Definition server : Handler W := fun r =>
  do! _ <- set_cell new_writer;
  Lowercase (ServeHTTP setupRouter) r.
End routes.
