(* ===== verification/RoutesSpec.v ===== *)
(** * What the server does with a request

    Which handler a request reaches, and through which checks. *)
From S2P Require Import Prelude GoStrings.
From S2P Require Import Regex Azure Api Services Domains.
From Stdlib Require Import Ascii.
From S2P Require Import Cosmos CosmosLaws Database DatabaseSpec Static Frontend FrontendSpec Mux Middleware Routes.

(** ** The router *)
Section dispatch.
Context {W : Type} `{!Runtime W, !Account W} {PB : PageBound} `{!Cell W Header}.
Context `{!Cell W ResponseWriter, !Telemetry W, !ClientAuthorizer W}.
Context {EV : Env} {U : Url} {CD : Codec}.
Context (db : Database) (apis : gmap string (Version W)) (feature_operations : bool).
Context (url_String : ServerRequest -> string) (ready : W -> bool).
Context (empty_error : string) (encode_operations : list Operation -> string).
Abbreviation endpoints := (endpoints db apis feature_operations encode_operations).
Abbreviation setupRouter := (setupRouter db apis feature_operations url_String ready empty_error encode_operations).
Abbreviation chain := (chain apis url_String).
Implicit Types r : ServerRequest.

Lemma sub_route_match {H} r (rt : router H) m :
  Route_Match r (mkRoute [MSub rt] None EmptyString) m =
  let '(b, m) := Router_Match r rt m in
  if b : bool then finish_route r [MSub rt] None EmptyString None m else (false, forget_not_found m).
Proof. reflexivity. Qed.

Lemma Router_Match_nil {H} r mws nf m :
  Router_Match r (mkRouter (H := H) [] mws nf) m = no_route nf m.
Proof. reflexivity. Qed.

Definition is_health r : bool := bool_decide (Split (sr_Path r) = ["" ; "healthz"; "ready"]).

Lemma match_health r :
  match_path "/healthz/ready" (sr_Path r) = if is_health r then Some [] else None.
Proof.
  unfold match_path, is_health.
  change (segment_of <$> Split "/healthz/ready") with [Lit ""; Lit "healthz"; Lit "ready"].
  destruct (Split (sr_Path r)) as [|a [|b [|c [|d l]]]]; simpl; repeat case_decide; subst; try done;
    by rewrite bool_decide_eq_false_2 by congruence.
Qed.

Lemma health_dispatch r : is_health r = true -> dispatch r endpoints = Missing.
Proof.
  unfold is_health. intros E%bool_decide_eq_true.
  assert (forall tpl, match_segments (segment_of <$> Split tpl) ["" ; "healthz"; "ready"] = None ->
    forall q ms, applies r (mkEndpoint (H := Handler W) tpl q ms) = false) as Hno.
  { intros tpl Ht q ms. unfold applies, match_path. simpl. by rewrite E, Ht. }
  unfold Routes.endpoints. cbn [dispatch]. by rewrite !Hno by reflexivity.
Qed.

(** The endpoints, whatever the health check has made of the request *)
Lemma authenticated_match r err :
  err <> Some ErrNotFound ->
  Router_Match r (authenticatedRoutes db apis feature_operations encode_operations) (unmatched err) =
  match dispatch r endpoints with
  | Found h name e => (true, matched r [Authenticated] h name e)
  | Mismatch => (false, unmatched (Some ErrMethodMismatch))
  | Missing => (false, unmatched (missed err))
  end.
Proof. intros He. apply table_match; [done|]. by repeat constructor. Qed.

Definition health_match r : RouteMatch (Handler W) :=
  mkRouteMatch (Some (mkCurrentRoute EmptyString []))
    (Some (foldr (fun mw h => mw h) (getReady_ ready empty_error) chain)) (Some ∅) None.

Lemma unauthenticated_match r :
  Router_Match r (unauthenticatedRoutes ready empty_error) (unmatched None) =
  if is_health r then
    if decide (sr_Method r = "GET") then
      (true, mkRouteMatch (Some (mkCurrentRoute EmptyString [])) (Some (getReady_ ready empty_error)) (Some ∅) None)
    else (false, unmatched (Some ErrMethodMismatch))
  else (false, unmatched (Some ErrNotFound)).
Proof.
  unfold unauthenticatedRoutes. rewrite Router_Match_cons. cbn -[match_path]. unfold finish_route, setMatch.
  cbn -[match_path]. rewrite match_health.
  destruct (is_health r); cbn; [|done].
  destruct (decide (sr_Method r = "GET")) as [E|E];
    [by rewrite bool_decide_eq_true_2|by rewrite bool_decide_eq_false_2].
Qed.

Lemma setup_match r :
  Router_Match r setupRouter no_match =
  if is_health r then
    if decide (sr_Method r = "GET") then (true, health_match r) else (false, unmatched (Some ErrMethodMismatch))
  else match dispatch r endpoints with
       | Found h name e => (true, matched r (chain ++ [Authenticated]) h name e)
       | Mismatch => (false, unmatched (Some ErrMethodMismatch))
       | Missing => (true, mkRouteMatch None (Some (Authenticated NotFoundHandler)) None (Some ErrNotFound))
       end.
Proof.
  unfold Routes.setupRouter. change no_match with (unmatched (H := Handler W) None).
  rewrite Router_Match_cons, sub_route_match, unauthenticated_match.
  destruct (is_health r) eqn:Eh; [case_decide|].
  - reflexivity.
  - change (forget_not_found (unmatched (Some ErrMethodMismatch))) with (unmatched (H := Handler W) (Some ErrMethodMismatch)).
    cbn beta iota. rewrite Router_Match_cons, sub_route_match, authenticated_match, (health_dispatch r Eh) by done. reflexivity.
  - change (forget_not_found (unmatched (Some ErrNotFound))) with (unmatched (H := Handler W) None).
    cbn beta iota. rewrite Router_Match_cons, sub_route_match, authenticated_match by done.
    destruct (dispatch r endpoints) as [h name e| |]; [|reflexivity..].
    reflexivity.
Qed.
End dispatch.

(** ** Programs around a handler

    [calls h P m]: up to steps in [R], [m] does nothing, or what [h] does on a
    request and in a world with [P]. *)
Section calls.
Context {W : Type} (R : W -> W -> Prop) `{!PreOrder R}.
Context (h : Handler W) (P : ServerRequest -> W -> Prop).

Definition calls {A} (m : M W A) : Prop := forall w,
  R w (snd (m w)) \/ exists r w1, P r w1 /\ R w w1 /\ R (snd (h r w1)) (snd (m w)).

Lemma calls_steps {A} (m : M W A) : steps R m -> calls m.
Proof. intros H w. left. apply H. Qed.

Lemma calls_here r w : P r w -> R w (snd (h r w)) \/ exists r' w1, P r' w1 /\ R w w1 /\ R (snd (h r' w1)) (snd (h r w)).
Proof. intros HP. right. by exists r, w. Qed.

Lemma calls_after {A B} (m : M W A) (f : A -> M W B) :
  steps R m -> (forall a, calls (f a)) -> calls (bind m f).
Proof.
  intros Hm Hf w. specialize (Hm w). unfold bind. destruct (m w) as [[a| | |] w0]; simpl in *; [|by left..].
  destruct (Hf a w0) as [H|(r & w1 & HP & H & H')]; [left; by transitivity w0|right].
  exists r, w1. split_and!; [done|by transitivity w0|done].
Qed.

Lemma calls_then {A B} (m : M W A) (f : A -> M W B) :
  calls m -> (forall a, steps R (f a)) -> calls (bind m f).
Proof.
  intros Hm Hf w.
  assert (R (snd (m w)) (snd (bind m f w))) as He.
  { unfold bind. destruct (m w) as [[a| | |] w0]; simpl; [apply Hf|done..]. }
  destruct (Hm w) as [H|(r & w1 & HP & H & H')]; [left; by etransitivity|right].
  exists r, w1. split_and!; [done|done|by etransitivity].
Qed.

Lemma calls_recover {A} (m : M W A) : calls m -> calls (recover m).
Proof. intros Hm w. specialize (Hm w). unfold recover. by destruct (m w) as [[] ?]. Qed.

Lemma calls_defer {A} (m : M W A) d : calls m -> steps R d -> calls (defer_ m d).
Proof.
  intros Hm Hd w.
  assert (R (snd (m w)) (snd (defer_ m d w))) as He.
  { unfold defer_. destruct (m w) as [[a|e|s|] w0]; simpl; [| | |done];
      specialize (Hd w0); by destruct (d w0) as [[] ?]. }
  destruct (Hm w) as [H|(r & w1 & HP & H & H')]; [left; by etransitivity|right].
  exists r, w1. split_and!; [done|done|by etransitivity].
Qed.
End calls.

Lemma steps_defer {W A} (R : W -> W -> Prop) `{!PreOrder R} (m : M W A) d :
  steps R m -> steps R d -> steps R (defer_ m d).
Proof.
  intros Hm Hd w. specialize (Hm w). unfold defer_.
  destruct (m w) as [[a|e|s|] w0]; simpl in *; [| | |done];
    specialize (Hd w0); destruct (d w0) as [[] ?]; simpl in *; by etransitivity.
Qed.

(** ** The checks *)

(** A name the provider accepts for a resource group or a resource *)
Record resource_name (s : string) : Prop := {
  rn_length : 1 <= String.length s <= 90;
  rn_chars : Forall (fun c => is_lower c || is_digit c || one_of "-_()." c = true) (chars s);
  rn_last : last (chars s) <> Some "."%char;
}.

Lemma last_char c : (is_lower c || is_digit c || one_of "-_()." c) = true -> c <> "."%char ->
  (is_lower c || is_digit c || one_of "-_()" c) = true.
Proof.
  unfold one_of. simpl. intros H Hc. repeat rewrite orb_true_iff in *. rewrite !bool_decide_eq_true in *. naive_solver.
Qed.

Lemma rxResourceGroupName_spec s : MatchString rxResourceGroupName s = true <-> resource_name s.
Proof.
  rewrite MatchString_spec. unfold rxResourceGroupName. rewrite seq_inv.
  setoid_rewrite upto_inv. setoid_rewrite chr_inv. split.
  - intros (u & v & -> & (Hl & Hu) & c & -> & Hc). split.
    + rewrite string_length_app. simpl. lia.
    + rewrite chars_app. apply Forall_app. split; [done|]. constructor; [|done].
      unfold one_of in *. simpl in *. repeat rewrite orb_true_iff in *. naive_solver.
    + rewrite chars_app. change (chars (String c EmptyString)) with [c]. rewrite last_snoc.
      intros [= ->]. by vm_compute in Hc.
  - intros [Hl Hc Hn]. assert (s <> EmptyString) as Hs by (intros ->; simpl in Hl; lia).
    destruct (string_snoc s Hs) as (u & d & ->). rewrite string_length_app in Hl. simpl in Hl.
    rewrite chars_app, Forall_app in Hc. destruct Hc as [Hu Hd]. rewrite chars_app in Hn.
    change (chars (String d EmptyString)) with [d] in *. rewrite last_snoc in Hn. inversion Hd; subst.
    exists u, (String d EmptyString). split_and!; [done|lia|done|]. exists d. split; [done|].
    apply last_char; [done|congruence].
Qed.

(** What reaches the middleware's world without touching a collection *)
Class ServerQuiet (W : Type) `{!Cell W ResponseWriter, !Telemetry W, !ClientAuthorizer W} (R : W -> W -> Prop) := {
  sq_writer (x : ResponseWriter) : steps R (set_cell x);
  sq_request method path : steps R (log_request method path);
  sq_response method n bytes t : steps R (log_response method n bytes t);
  sq_gauge k n tags : steps R (EmitGauge k n tags);
  sq_float k n tags : steps R (EmitFloat k n tags);
  sq_authorized c : steps R (IsAuthorized c);
  sq_ready : steps R IsReady;
}.

(** A request that has passed every check: what [Validate] asks of the variables
    of its route, and what [Body] asks of a request with a body *)
Record admissible {EV : Env} {W} (apis : gmap string (Version W)) (r : ServerRequest) : Prop := {
  ad_path : sr_Path r = ToLower (sr_Path r);
  ad_subscription s : sr_Vars r !! "subscriptionId" = Some s -> is_ok (FromString s) = true;
  ad_group s : sr_Vars r !! "resourceGroupName" = Some s -> resource_name s;
  ad_namespace s : sr_Vars r !! "resourceProviderNamespace" = Some s -> s = "microsoft.redhatopenshift";
  ad_type s : sr_Vars r !! "resourceType" = Some s -> s = "openshiftclusters";
  ad_name s : sr_Vars r !! "resourceName" = Some s -> resource_name s;
  ad_location s : sr_Vars r !! "location" = Some s -> fold_eq s env_Location;
  ad_operation s : sr_Vars r !! "operationId" = Some s -> is_ok (FromString s) = true;
  ad_version c s : sr_Route r = Some c -> "api-version={api-version}" ∈ cr_Queries c ->
    sr_Vars r !! "api-version" = Some s -> is_Some (apis !! s);
  ad_body : sr_Method r ∈ ["PATCH"; "POST"; "PUT"] ->
    exists b, sr_ContextBody r = Some b /\ b = sr_Body r /\ sr_BodyFails r = false /\
      (Z.of_nat (String.length b) <= 1048576)%Z /\
      (media_type r = "application/json" \/ b = EmptyString);
}.

Section gates.
Context {W : Type} `{!Runtime W}.
Context `{!Cell W ResponseWriter, !Telemetry W, !ClientAuthorizer W}.
Context {EV : Env} {CD : Codec}.
Context (R : W -> W -> Prop) `{!PreOrder R} {SQ : ServerQuiet W R}.
Context (R_now : steps R time_Now) (R_uuid : steps R uuid_NewV4).
Context (apis : gmap string (Version W)) (url_String : ServerRequest -> string).
Implicit Types (r : ServerRequest) (w : W).

Lemma get_writer_steps : steps R (get_cell (A := ResponseWriter)).
Proof. by intros w. Qed.
Lemma modify_writer_steps f : steps R (modify_writer f).
Proof. apply steps_bind; [apply _|apply get_writer_steps|intros x; apply sq_writer]. Qed.
#[local] Hint Resolve get_writer_steps modify_writer_steps sq_writer sq_request sq_response sq_gauge sq_float
  sq_authorized sq_ready R_now R_uuid : steps.
#[local] Hint Extern 1 (steps _ (Header_Set _ _)) => apply modify_writer_steps : steps.
#[local] Hint Extern 1 (steps _ (WriteHeader _)) => apply modify_writer_steps : steps.
#[local] Hint Extern 1 (steps _ (Write _)) => apply modify_writer_steps : steps.

Lemma WriteError_steps n code message : steps R (WriteError n code message).
Proof. unfold WriteError. steps_auto. Qed.
#[local] Hint Resolve WriteError_steps : steps.

Lemma write_response_steps resp : steps R (write_response resp).
Proof. unfold write_response. steps_auto. Qed.

(** Middleware around a handler that takes steps in [R] takes steps in [R]. *)
Lemma chain_steps (h : Handler W) r :
  (forall r, steps R (h r)) -> steps R (foldr (fun mw h => mw h) h (chain apis url_String) r).
Proof.
  intros Hh. cbn. unfold Log, Metrics, PanicHandler, Headers, Validate, Body.
  do 2 (apply steps_bind; [apply _|eauto with steps|intros ?]).
  apply steps_bind; [apply _|eauto with steps|intros _].
  apply steps_defer; [apply _| |steps_auto]. apply steps_bind; [apply _|eauto with steps|intros _].
  apply steps_bind; [apply _|eauto with steps|intros ?].
  apply steps_defer; [apply _| |steps_auto]. steps_auto.
Qed.

(** [Authenticated]: the handler runs right after the caller was found to be
    authorized. *)
Definition authorized r w : Prop := exists w0, IsAuthorized (sr_TLS r) w0 = (Ok true, w).

Lemma Authenticated_calls (h : Handler W) r (P : ServerRequest -> W -> Prop) :
  (forall w, authorized r w -> P r w) -> calls R h P (Authenticated h r).
Proof.
  intros HP w. unfold Authenticated, bind. pose proof (sq_authorized (sr_TLS r) w) as Hq.
  destruct (IsAuthorized (sr_TLS r) w) as [[[]| | |] w1] eqn:E; simpl in Hq; [|left|by left..].
  - right. exists r, w1. split_and!; [apply HP; by exists w|done|done].
  - etransitivity; [done|]. apply WriteError_steps.
Qed.

(** *** The checks *)
Lemma first_of_none l : first_of l = None -> Forall (fun o => o = None) l.
Proof. induction l as [|[?|] l IH]; simpl; intros; [constructor|done|]. constructor; auto. Qed.

Lemma when_var_ok vars k (b : string -> bool) code (message : string -> string) s :
  when_var vars k (fun s => unless (b s) code (message s)) = None -> vars !! k = Some s -> b s = true.
Proof. unfold when_var. intros H Hs. rewrite Hs in H. unfold unless in H. by destruct (b s). Qed.

Lemma hasVariableAPIVersion_any l : "api-version={api-version}" ∈ l -> hasVariableAPIVersion l = true.
Proof. intros H. unfold hasVariableAPIVersion. apply existsb_exists. eexists. split; [by apply list_elem_of_In|]. by vm_compute. Qed.

Definition body_checked r : Prop := sr_Method r ∈ ["PATCH"; "POST"; "PUT"] ->
  exists b, sr_ContextBody r = Some b /\ b = sr_Body r /\ sr_BodyFails r = false /\
    (Z.of_nat (String.length b) <= 1048576)%Z /\ (media_type r = "application/json" \/ b = EmptyString).

(** The check on the variable [k], by the test [b] on its value *)
Ltac check_var k b :=
  match goal with H : when_var _ k _ = None |- _ => eapply (when_var_ok _ k b); [exact H|eassumption] end.

Lemma check_admissible r : check_request apis r = None -> body_checked r -> admissible apis r.
Proof.
  unfold check_request. destruct (sr_Route r) as [c|] eqn:Hc; [|done]. intros H%first_of_none Hb.
  repeat (apply Forall_cons in H as [? H]). split; [..|done].
  - by case_decide.
  - intros s Hs. check_var "subscriptionId" (fun s : string => is_ok (FromString s)).
  - intros s Hs. apply rxResourceGroupName_spec.
    check_var "resourceGroupName" (MatchString rxResourceGroupName).
  - intros s Hs. apply (bool_decide_eq_true (s = ToLower resourceProviderNamespace)).
    check_var "resourceProviderNamespace" (fun s => bool_decide (s = ToLower resourceProviderNamespace)).
  - intros s Hs. apply (bool_decide_eq_true (s = ToLower resourceType)).
    check_var "resourceType" (fun s => bool_decide (s = ToLower resourceType)).
  - intros s Hs. apply rxResourceGroupName_spec.
    check_var "resourceName" (MatchString rxResourceGroupName).
  - intros s Hs. apply Is_true_true. check_var "location" (fun s => EqualFold s env_Location).
  - intros s Hs. check_var "operationId" (fun s : string => is_ok (FromString s)).
  - intros c' s Hc' Hin Hs. assert (c' = c) as -> by congruence. rewrite hasVariableAPIVersion_any in * by done.
    apply (bool_decide_eq_true (is_Some (apis !! s))).
    check_var "api-version" (fun s : string => bool_decide (is_Some (apis !! s))).
Qed.

(** The request a handler gets is the one the router matched, but for the headers
    and what the middleware adds to its context. *)
Record same_request r r' : Prop := {
  sm_Method : sr_Method r' = sr_Method r;
  sm_Path : sr_Path r' = sr_Path r;
  sm_OriginalPath : sr_OriginalPath r' = sr_OriginalPath r;
  sm_Body : sr_Body r' = sr_Body r;
  sm_TLS : sr_TLS r' = sr_TLS r;
  sm_Vars : sr_Vars r' = sr_Vars r;
  sm_Route : sr_Route r' = sr_Route r;
  sm_log : is_Some (sr_RequestID r');
}.

(** The whole chain: the handler runs on an admissible request of an authorized
    caller, or not at all. *)
Lemma chain_calls (h : Handler W) r (P : ServerRequest -> W -> Prop) :
  (forall r' w, same_request r r' -> admissible apis r' -> authorized r' w -> P r' w) ->
  calls R h P (foldr (fun mw h => mw h) h (chain apis url_String ++ [Authenticated]) r).
Proof.
  intros HP. cbn.
  apply calls_after; [apply _|eauto with steps|intros t]. apply calls_after; [apply _|eauto with steps|intros id].
  apply calls_after; [apply _|eauto with steps|intros _].
  apply calls_defer; [apply _| |steps_auto]. apply calls_after; [apply _|eauto with steps|intros _].
  apply calls_after; [apply _|eauto with steps|intros t'].
  apply calls_defer; [apply _| |steps_auto].
  unfold PanicHandler. apply calls_then; [apply _| |intros ?; steps_auto]. apply calls_recover.
  unfold Headers. apply calls_after; [apply _|eauto with steps|intros _].
  apply calls_after; [apply _|steps_auto|intros _].
  set (r0 := if env_isDev then _ else _).
  assert (same_request r r0) as Hr0 by (subst r0; destruct env_isDev; by split).
  clearbody r0. unfold Validate. destruct (check_request apis r0) as [[[n code] message]|] eqn:Hc;
    [apply calls_steps, WriteError_steps|].
  unfold Body. destruct (has_body (sr_Method r0)) eqn:Hb.
  - unfold read_body. destruct (sr_BodyFails r0 || _) eqn:Hl; [apply calls_steps, WriteError_steps|].
    apply orb_false_iff in Hl as [Hf Hl%Z.ltb_ge].
    destruct (bool_decide _ && _) eqn:Hm; [apply calls_steps, WriteError_steps|].
    apply Authenticated_calls. intros w Ha. apply HP; [by destruct Hr0|apply check_admissible; [done|]|done].
    intros _. exists (sr_Body r0). split_and!; [done|done|done|done|].
    apply andb_false_iff in Hm as [Hm|Hm].
    + left. apply bool_decide_eq_false in Hm. by apply dec_stable in Hm.
    + right. apply negb_false_iff, andb_true_iff in Hm as [Hm _]. apply Nat.eqb_eq in Hm. by destruct (sr_Body r0).
  - apply Authenticated_calls. intros w Ha. apply HP; [done|apply check_admissible; [done|]|done].
    intros Hin. exfalso. revert Hb. unfold has_body.
    assert (existsb (fun s => bool_decide (sr_Method r0 = s)) ["PATCH"; "POST"; "PUT"] = true) as ->; [|done].
    apply existsb_exists. exists (sr_Method r0). split; [by apply list_elem_of_In|by apply bool_decide_eq_true].
Qed.
End gates.

(** ** What the server does to the world at most *)
Section dispatched.
Context {W : Type} `{!Runtime W, !Account W} {PB : PageBound} `{!Cell W Header}.
Context `{!Cell W ResponseWriter, !Telemetry W, !ClientAuthorizer W}.
Context {EV : Env} {U : Url} {CD : Codec}.
Context (R : W -> W -> Prop) `{!PreOrder R} {SQ : ServerQuiet W R}.
Context (R_now : steps R time_Now) (R_uuid : steps R uuid_NewV4).
Context (db : Database) (apis : gmap string (Version W)) (feature_operations : bool).
Context (url_String : ServerRequest -> string) (ready : W -> bool).
Context (empty_error : string) (encode_operations : list Operation -> string).
Abbreviation endpoints := (endpoints db apis feature_operations encode_operations).
Abbreviation server := (server db apis feature_operations url_String ready empty_error encode_operations).
Implicit Types (r : ServerRequest) (w : W).

Lemma handler_steps (h : Request -> M W HttpResponse) r :
  (forall q, steps R (h q)) -> steps R (handler h r).
Proof.
  intros Hh. unfold handler. apply steps_bind; [apply _|apply steps_lift; apply _|intros _].
  apply steps_bind; [apply _|apply Hh|intros resp; apply (write_response_steps R)].
Qed.

Lemma body_handler_steps (h : Request -> M W HttpResponse) r :
  (forall q, steps R (h q)) -> steps R (body_handler h r).
Proof.
  intros Hh. unfold body_handler.
  do 2 (apply steps_bind; [apply _|apply steps_lift; apply _|intros _]). by apply handler_steps.
Qed.

Lemma getReady_steps r : steps R (getReady_ ready empty_error r).
Proof.
  unfold getReady_. apply steps_bind; [apply _|by intros w|intros b].
  apply steps_bind; [apply _|destruct b; [apply sq_ready|apply steps_ret; apply _]|intros b'].
  apply (write_response_steps R).
Qed.

(** The request [r] as the handler of the endpoint [e] gets it *)
Record delivered r (e : endpoint (Handler W)) r' : Prop := {
  dl_Method : sr_Method r' = sr_Method r;
  dl_Path : sr_Path r' = ToLower (sr_Path r);
  dl_OriginalPath : sr_OriginalPath r' = sr_Path r;
  dl_Body : sr_Body r' = sr_Body r;
  dl_TLS : sr_TLS r' = sr_TLS r;
  dl_Vars : sr_Vars r' = vars_at (with_path_lower r) e;
}.

Definition handled_by (h : Handler W) (e : endpoint (Handler W)) r r' w : Prop :=
  delivered r e r' /\ admissible apis r' /\ authorized r' w.

Lemma server_calls r :
  (exists h name e, dispatch (with_path_lower r) endpoints = Found h name e /\
     calls R h (handled_by h e r) (server r)) \/
  steps R (server r).
Proof.
  assert (forall m : M W unit, steps R m -> steps R (do! _ <- set_cell new_writer; m)) as Hw.
  { intros m Hm. apply steps_bind; [apply _|apply sq_writer|by intros _]. }
  assert (forall s, steps R (WriteHeader s)) as Hwh.
  { intros s. apply (modify_writer_steps R). }
  unfold Routes.server, Lowercase, ServeHTTP. case_decide as Hc.
  { right. apply Hw. unfold redirect. apply steps_bind; [apply _|apply (modify_writer_steps R)|by intros _]. }
  rewrite setup_match. destruct (is_health _) eqn:Eh; [case_decide|].
  - right. apply Hw. cbn [m_Handler health_match default].
    apply (chain_steps R); [done|done|].
    intros r'. apply getReady_steps.
  - right. apply Hw. apply Hwh.
  - destruct (dispatch (with_path_lower r) endpoints) as [h name e| |] eqn:Hd.
    + left. exists h, name, e. split; [done|]. apply calls_after; [apply _|apply sq_writer|intros _].
      cbn [m_Handler m_Vars m_Route matched default].
      apply (chain_calls R); [done|done|].
      intros r' w [] Ha Hau. split_and!; [by split|done|done].
    + right. apply Hw, Hwh.
    + right. apply Hw. cbn [m_Handler default]. unfold Authenticated, NotFoundHandler.
      apply steps_bind; [apply _|apply sq_authorized|intros [|]]; [|apply (WriteError_steps R)].
      apply steps_bind; [apply _|apply (modify_writer_steps R)|intros _; apply (WriteError_steps R)].
Qed.

(** What every handler keeps, the server keeps. *)
Lemma server_steps r :
  (forall e method h name r, e ∈ endpoints -> (method, h, name) ∈ ep_Methods e -> steps R (h r)) ->
  steps R (server r).
Proof.
  intros Hh. destruct (server_calls r) as [(h & name & e & Hd & Hc)|Hs]; [|done].
  intros w. destruct (Hc w) as [H|(r' & w1 & _ & H1 & H2)]; [done|].
  destruct (dispatch_found _ _ _ _ _ Hd) as (He & _ & Hm).
  etransitivity; [exact H1|]. etransitivity; [by eapply Hh|done].
Qed.
End dispatched.

(** ** The server *)
Section server.
Context {W : Type} `{!Runtime W, !Account W}.
Context `{!Collection W OpenShiftClusterDocument, !Collection W SubscriptionDocument,
          !Collection W AsyncOperationDocument}.
Context (db : Database) `{!AccountLaws W db} {PB : PageBound}.
Context `{!Cell W Header} {QC : CellQuiet W Header OpenShiftClusterDocument}
  {QS : CellQuiet W Header SubscriptionDocument} {QA : CellQuiet W Header AsyncOperationDocument}.
Context `{!Cell W ResponseWriter, !Telemetry W, !ClientAuthorizer W} {SQ : ServerQuiet W unchanged}.
Context {EV : Env} {U : Url} {CD : Codec}.
Context (apis : gmap string (Version W)) (feature_operations : bool).
Context (url_String : ServerRequest -> string) (ready : W -> bool).
Context (empty_error : string) (encode_operations : list Operation -> string).
Abbreviation endpoints := (endpoints db apis feature_operations encode_operations).
Abbreviation server := (server db apis feature_operations url_String ready empty_error encode_operations).
Implicit Types (r : ServerRequest) (w : W).

#[local] Instance unchanged_pre : PreOrder (unchanged (W := W)).
Proof. split; [by intros ?|]. intros ??? (?&?&?) (?&?&?). split_and!; congruence. Qed.

Definition writers : list string := ["deleteOpenShiftCluster"; "putOrPatchOpenShiftCluster"; "putSubscription"].

(** A route whose name is not one of the three reads only. *)
Lemma endpoint_reads e method h name r :
  e ∈ endpoints -> (method, h, name) ∈ ep_Methods e -> name ∈ writers \/ steps unchanged (h r).
Proof.
  intros He Hm. unfold Routes.endpoints in He. unfold writers.
  repeat (apply elem_of_cons in He as [->|He]); [..|by apply not_elem_of_nil in He]; cbn in Hm;
    repeat (apply elem_of_cons in Hm as [[= -> -> ->]|Hm]); try (by apply not_elem_of_nil in Hm);
    first [left; set_solver|right].
  all: first [apply (handler_steps unchanged)|apply (body_handler_steps unchanged)]; intros r'.
  - by apply (getOpenShiftCluster_unchanged db).
  - by apply (getOpenShiftClusters_unchanged db).
  - by apply (getOpenShiftClusters_unchanged db).
  - by apply (getAsyncOperationsStatus_unchanged db).
  - by apply (getAsyncOperationResult_unchanged db).
  - by apply (postOpenShiftClusterCredentials_unchanged db).
  - apply steps_ret. apply _.
Qed.

(** A request that changes a collection is that of an authorized caller, has
    passed every check, and reaches one of the three handlers that write; the
    change is what the handler does. *)
Lemma server_gate r w :
  unchanged w (snd (server r w)) \/
  exists h name e r' w1, dispatch (with_path_lower r) endpoints = Found h name e /\ name ∈ writers /\
    delivered r e r' /\ admissible apis r' /\ authorized r' w1 /\
    unchanged w w1 /\ unchanged (snd (h r' w1)) (snd (server r w)).
Proof.
  destruct (server_calls unchanged (now_unchanged db) (uuid_unchanged db) db apis feature_operations url_String ready empty_error encode_operations r) as [(h & name & e & Hd & Hc)|Hs]; [|by left].
  destruct (Hc w) as [H|(r' & w1 & (Hdl & Ha & Hau) & H1 & H2)]; [by left|].
  destruct (dispatch_found _ _ _ _ _ Hd) as (He & _ & Hm).
  destruct (endpoint_reads e _ h name r' He Hm) as [Hn|Hs].
  - right. by exists h, name, e, r', w1.
  - left. transitivity w1; [done|]. etransitivity; [apply Hs|done].
Qed.
End server.

(** ** The server survives

    Nothing below the recovering middleware ends the server's goroutine. *)
Section survives.
Context {W : Type} `{!Runtime W, !Account W} {PB : PageBound} `{!Cell W Header}.
Context `{!Cell W ResponseWriter, !Telemetry W, !ClientAuthorizer W}.
Context {EV : Env} {U : Url} {CD : Codec}.
Context (db : Database) (apis : gmap string (Version W)) (feature_operations : bool).
Context (url_String : ServerRequest -> string) (ready : W -> bool).
Context (empty_error : string) (encode_operations : list Operation -> string).

(** No error and no panic: a value, or the pages of a query did not end. *)
Definition calm {A} (r : res A) : Prop := match r with Ok _ | OutOfFuel => True | _ => False end.
Definition survives {A} (m : M W A) : Prop := forall w, calm (fst (m w)).

Class Surroundings := {
  su_now : survives time_Now;
  su_uuid : survives uuid_NewV4;
  su_request method path : survives (log_request method path);
  su_response method n bytes t : survives (log_response method n bytes t);
  su_gauge k n tags : survives (EmitGauge k n tags);
  su_float k n tags : survives (EmitFloat k n tags);
  su_authorized c : survives (IsAuthorized c);
}.
Context {SU : Surroundings}.

Lemma survives_bind {A B} (m : M W A) (f : A -> M W B) :
  survives m -> (forall a, survives (f a)) -> survives (bind m f).
Proof.
  intros Hm Hf w. unfold bind. specialize (Hm w). destruct (m w) as [[a|e|s|] w1]; simpl in *; try done. apply Hf.
Qed.
Lemma survives_ret {A} (a : A) : survives (ret a).
Proof. by intros w. Qed.
Lemma survives_recover {A} (m : M W A) : survives (recover m).
Proof. intros w. unfold recover. by destruct (m w) as [[] ?]. Qed.
Lemma survives_defer {A} (m : M W A) d : survives m -> survives d -> survives (defer_ m d).
Proof.
  intros Hm Hd w. unfold defer_. specialize (Hm w). destruct (m w) as [[a|e|s|] w1]; simpl in *; try done.
  specialize (Hd w1). by destruct (d w1) as [[] ?].
Qed.
Lemma survives_writer f : survives (modify_writer f).
Proof. apply survives_bind; [by intros w|intros x; by intros w]. Qed.
Lemma survives_get : survives (get_cell (A := ResponseWriter)).
Proof. by intros w. Qed.
Lemma survives_WriteError n code message : survives (WriteError n code message).
Proof. apply survives_bind; [apply survives_writer|intros _; apply survives_writer]. Qed.

(** The chain around any handler at all *)
Lemma chain_survives (h : Handler W) r : survives (foldr (fun mw h => mw h) h (chain apis url_String) r).
Proof.
  cbn. unfold Log at 1.
  apply survives_bind; [apply su_now|intros t]. apply survives_bind; [apply su_uuid|intros id].
  apply survives_bind; [apply survives_writer|intros _]. apply survives_defer.
  2: { apply survives_bind; [apply survives_get|intros x]. apply survives_bind; [apply su_now|intros now]. apply su_response. }
  apply survives_bind; [apply su_request|intros _]. unfold Metrics at 1.
  apply survives_bind; [apply su_now|intros t']. apply survives_defer.
  2: { apply survives_bind; [apply survives_get|intros x]. apply survives_bind; [apply su_gauge|intros _].
       apply survives_bind; [apply su_now|intros now]. apply su_float. }
  unfold PanicHandler at 1. apply survives_bind; [apply survives_recover|intros [o|]];
    [apply survives_ret|apply survives_WriteError].
Qed.

Lemma server_calm r :
  survives (server db apis feature_operations url_String ready empty_error encode_operations r).
Proof.
  unfold server, Lowercase, ServeHTTP. apply survives_bind; [by intros w|intros _].
  case_decide; [apply survives_bind; [apply survives_writer|intros _; apply survives_writer]|].
  rewrite setup_match. destruct (is_health _); [case_decide|destruct (dispatch _ _) as [h name e| |]].
  - apply chain_survives.
  - apply survives_writer.
  - cbn [m_Handler matched default]. rewrite foldr_app. apply chain_survives.
  - apply survives_writer.
  - cbn [m_Handler default]. unfold Authenticated, NotFoundHandler.
    apply survives_bind; [apply su_authorized|intros [|]]; [|apply survives_WriteError].
    apply survives_bind; [apply survives_writer|intros _; apply survives_WriteError].
Qed.
End survives.
