(* ===== verification/SwaggerRequests.v ===== *)
(** * The requests of the specification

    Paths of the specification with values for their variables, and where the router
    takes them. *)
From S2P Require Import Prelude GoStrings Regex.
From S2P Require Import SwaggerTypes Swagger SwaggerData SwaggerSpec SwaggerServed.
From S2P Require Import Services Cosmos Database Static Frontend Mux Middleware Routes.

Definition plain (v : string) : Prop := v <> EmptyString /\ ContainsRune v slash = false.
Definition fill (values : string -> string) (x : segment) : string :=
  match x with Lit s => s | Var n => values n end.
Definition instantiate (values : string -> string) (path : string) : string :=
  Join (fill values <$> (segment_of <$> Split path)).

Lemma ToLower_Join l : ToLower (Join l) = Join (ToLower <$> l).
Proof.
  unfold Join. induction l as [|s [|t l] IH]; [done..|]. cbn in *.
  rewrite ToLower_app. cbn. by rewrite IH.
Qed.

Lemma lower_slash c : bool_decide (slash = lower_ascii c) = bool_decide (slash = c).
Proof. by destruct c as [[] [] [] [] [] [] [] []]. Qed.

Lemma ContainsRune_ToLower s : ContainsRune (ToLower s) slash = ContainsRune s slash.
Proof. induction s as [|c s IH]; [done|]. cbn. by rewrite IH, lower_slash. Qed.

Lemma instantiate_split values path :
  (forall n, plain (values n)) ->
  Split (ToLower (instantiate values path)) = (fun x => ToLower (fill values x)) <$> (segment_of <$> Split path).
Proof.
  intros Hv. unfold instantiate. rewrite ToLower_Join. unfold Split at 1, Join. rewrite SplitChar_JoinChar.
  - by rewrite <- list_fmap_compose.
  - unfold Split. pose proof (SplitChar_not_nil slash path). by destruct (SplitChar slash path).
  - rewrite !Forall_fmap. unfold Split. eapply Forall_impl; [apply SplitChar_parts|]. intros s Hs. cbn.
    rewrite ContainsRune_ToLower. unfold segment_of. destruct (_ && _); [apply Hv|done].
Qed.

(** The handler that serves an operation *)
Definition handler_of (OperationID : string) : string :=
  if bool_decide (OperationID ∈ ["OpenShiftClusters_List"; "OpenShiftClusters_ListByResourceGroup"]) then "getOpenShiftClusters"
  else if bool_decide (OperationID = "OpenShiftClusters_Get") then "getOpenShiftCluster"
  else if bool_decide (OperationID ∈ ["OpenShiftClusters_CreateOrUpdate"; "OpenShiftClusters_Update"]) then "putOrPatchOpenShiftCluster"
  else if bool_decide (OperationID = "OpenShiftClusters_Delete") then "deleteOpenShiftCluster"
  else if bool_decide (OperationID = "OpenShiftClusters_ListCredentials") then "postOpenShiftClusterCredentials"
  else "getOperations".

(** What the specification is, as far as the router is concerned *)
Definition operation_table : list (string * string * string) :=
  [("/providers/Microsoft.RedHatOpenShift/operations", "GET", "Operations_List");
   ("/subscriptions/{subscriptionId}/providers/Microsoft.RedHatOpenShift/openShiftClusters", "GET", "OpenShiftClusters_List");
   ("/subscriptions/{subscriptionId}/resourceGroups/{resourceGroupName}/providers/Microsoft.RedHatOpenShift/openShiftClusters", "GET", "OpenShiftClusters_ListByResourceGroup");
   ("/subscriptions/{subscriptionId}/resourceGroups/{resourceGroupName}/providers/Microsoft.RedHatOpenShift/openShiftClusters/{resourceName}", "GET", "OpenShiftClusters_Get");
   ("/subscriptions/{subscriptionId}/resourceGroups/{resourceGroupName}/providers/Microsoft.RedHatOpenShift/openShiftClusters/{resourceName}", "PUT", "OpenShiftClusters_CreateOrUpdate");
   ("/subscriptions/{subscriptionId}/resourceGroups/{resourceGroupName}/providers/Microsoft.RedHatOpenShift/openShiftClusters/{resourceName}", "DELETE", "OpenShiftClusters_Delete");
   ("/subscriptions/{subscriptionId}/resourceGroups/{resourceGroupName}/providers/Microsoft.RedHatOpenShift/openShiftClusters/{resourceName}", "PATCH", "OpenShiftClusters_Update");
   ("/subscriptions/{subscriptionId}/resourceGroups/{resourceGroupName}/providers/Microsoft.RedHatOpenShift/openShiftClusters/{resourceName}/listCredentials", "POST", "OpenShiftClusters_ListCredentials")].

Lemma specification_operations order s :
  (forall l x, x ∈ order l <-> x ∈ l) -> specification order load = Ok s ->
  map (fun '(p, m, op) => (p, m, op_OperationID op)) (operations s) = operation_table.
Proof.
  intros Ho. rewrite specification_order by done. intros Hs.
  assert (match specification (fun l => l) load with
          | Ok s => map (fun '(p, m, op) => (p, m, op_OperationID op)) (operations s) = operation_table
          | _ => False end) as H by (by vm_compute).
  by rewrite Hs in H.
Qed.

Lemma operation_rows order :
  (forall l x, x ∈ order l <-> x ∈ l) ->
  exists s, specification order load = Ok s /\
    (forall p m op, (p, m, op) ∈ operations s -> (p, m, op_OperationID op) ∈ operation_table) /\
    (forall p m id, (p, m, id) ∈ operation_table -> exists op, (p, m, op) ∈ operations s /\ op_OperationID op = id).
Proof.
  intros Ho. pose proof specification_files as Hf. rewrite <- (specification_order order Ho) in Hf.
  destruct (specification order load) as [s| | |] eqn:Hs; [|done..]. exists s.
  pose proof (specification_operations _ _ Ho Hs) as Ht. split_and!; [done|intros p m op Hop|intros p m id Hr].
  - rewrite <- Ht. apply list_elem_of_In, in_map_iff. exists (p, m, op). split; [done|by apply list_elem_of_In].
  - rewrite <- Ht in Hr. apply list_elem_of_In, in_map_iff in Hr as ([[p' m'] op] & [= -> -> <-] & Hin).
    exists op. split; [by apply list_elem_of_In|done].
Qed.

Section served.
Context {W : Type} `{!Runtime W, !Account W} {PB : PageBound} `{!Cell W Header}.
Context `{!Cell W ResponseWriter, !Telemetry W, !ClientAuthorizer W}.
Context {EV : Env} {U : Url} {CD : Codec}.
Context (db : Database) (apis : gmap string (Version W)) (feature_operations : bool).
Context (encode_operations : list Operation -> string).
Let endpoints := endpoints db apis feature_operations encode_operations.

(** The endpoint that a request goes to, under the name of its handler, with the
    variables of the path of the specification and of its own *)
Record served (rq : ServerRequest) (path : string) (values : string -> string) (v : string)
    (e : endpoint (Handler W)) : Prop := {
  sv_variables n : Var n ∈ segment_of <$> Split path -> vars_at rq e !! n = Some (ToLower (values n));
  sv_version : vars_at rq e !! "api-version" = Some v;
  sv_namespace : vars_at rq e !! "resourceProviderNamespace" = Some (ToLower resourceProviderNamespace);
  sv_type t : vars_at rq e !! "resourceType" = Some t -> t = ToLower resourceType;
  sv_values n s : n ∈ ["subscriptionId"; "resourceGroupName"; "resourceName"] -> vars_at rq e !! n = Some s ->
    s = ToLower (values n);
  sv_absent n : n ∈ ["location"; "operationId"] -> vars_at rq e !! n = None;
  sv_query : ep_Query e = any_version;
}.

(** [dispatch] on the elements of a path, for a version *)
Definition takes (v : string) (l : list string) (e : endpoint (Handler W)) : bool :=
  bool_decide (is_Some (match_segments (segment_of <$> Split (ep_Path e)) l)) &&
  match segment_of (snd (ep_Query e)) with Var _ => true | Lit s => bool_decide (v = s) end.
Fixpoint seek (v : string) (l : list string) (method : string) (es : list (endpoint (Handler W))) : target (Handler W) :=
  match es with
  | [] => Missing
  | e :: es =>
      if takes v l e then
        match pick method (ep_Methods e) with
        | Some (h, name) => Found h name e
        | None => match seek v l method es with Missing => Mismatch | t => t end
        end
      else seek v l method es
  end.
Definition variables (v : string) (l : list string) (e : endpoint (Handler W)) : gmap string string :=
  foldl (fun vars '(k, v) => <[k := v]> vars) ∅
    (default [] (match_segments (segment_of <$> Split (ep_Path e)) l) ++
     match segment_of (snd (ep_Query e)) with Var n => [(n, v)] | Lit _ => [] end).

Lemma applies_split rq v vs l e :
  Split (sr_Path rq) = l -> sr_Query rq !! "api-version" = Some (v :: vs) -> ContainsRune v newline = false ->
  fst (ep_Query e) = "api-version" ->
  applies rq e = takes v l e /\ (applies rq e = true -> vars_at rq e = variables v l e).
Proof.
  intros <- Hq Hn He. unfold applies, takes, variables, vars_at, setMatch, ep_matchers, match_path. rewrite He.
  cbn [fmap list_fmap vars_of match_path concat]. unfold match_path, match_query. rewrite Hq, Hn.
  destruct (segment_of (snd (ep_Query e))) as [s|n]; [|split; [done|intros _; by rewrite app_nil_r]].
  destruct (decide (v = s)) as [->|Hd].
  - rewrite !bool_decide_eq_true_2 with (P := s = s) by done. split; [done|]. done.
  - rewrite (bool_decide_eq_false_2 (v = s)) by done. split; [done|]. by destruct (bool_decide (is_Some (match_segments _ _))).
Qed.

Lemma dispatch_seek rq v vs l es :
  Split (sr_Path rq) = l -> sr_Query rq !! "api-version" = Some (v :: vs) -> ContainsRune v newline = false ->
  Forall (fun e => fst (ep_Query e) = "api-version") es ->
  dispatch rq es = seek v l (sr_Method rq) es.
Proof.
  intros Hl Hq Hn. induction 1 as [|e es He _ IH]; [done|]. cbn [dispatch seek].
  destruct (applies_split rq v vs l e Hl Hq Hn He) as [-> _]. by rewrite IH.
Qed.

(** Variables have a first character. *)
Ltac name_values values Hne :=
  repeat match goal with
  | |- context [ToLower (values ?n)] =>
      let x := fresh "x" in
      pose proof (Hne n); remember (ToLower (values n)) as x eqn:?; destruct x; [done|]
  end.

(** One row of the table: the endpoint by evaluation, then the variables one by one *)
Ltac serve values rq Hne Ha :=
  revert Ha; set (sg := segment_of <$> Split _); vm_compute in sg; subst sg; cbn [fmap list_fmap fill];
  name_values values Hne; intros Ha;
  match goal with |- context [seek ?v ?l ?m ?es] =>
    let r := eval vm_compute in (seek v l m es) in change (seek v l m es) with r end;
  eexists _, _; split; [reflexivity|];
  match goal with |- served _ _ _ _ ?e =>
    let Ht := fresh in let Hvars := fresh in
    destruct (Ha e eq_refl) as [Ht Hvars]; rewrite Ht in Hvars; specialize (Hvars eq_refl);
    split; [| | | | | |reflexivity]; rewrite Hvars;
    [ let n := fresh in let Hn := fresh in intros n Hn;
      match type of Hn with ?x ∈ ?l => let l' := eval vm_compute in l in change (x ∈ l') in Hn end;
      repeat (apply elem_of_cons in Hn as [Hn|Hn]; [first [discriminate Hn|injection Hn as ->]|]); [..|by inversion Hn];
      repeat match goal with E : _ = ToLower (values _) |- _ => rewrite <- E; clear E end; by vm_compute
    | by vm_compute | by vm_compute | let t := fresh in intros t; vm_compute; intros [=]; done
    | let n := fresh in let s := fresh in let Hn := fresh in intros n s Hn;
      repeat (apply elem_of_cons in Hn as [->|Hn]); [..|by inversion Hn];
      repeat match goal with E : _ = ToLower (values _) |- _ => rewrite <- E; clear E end; vm_compute; by intros [=]
    | let n := fresh in let Hn := fresh in intros n Hn;
      repeat (apply elem_of_cons in Hn as [->|Hn]); [..|by inversion Hn]; by vm_compute ]
  end.

Lemma table_served values rq v vs p m id :
  (forall n, plain (values n)) -> (p, m, id) ∈ operation_table ->
  sr_Method rq = m -> sr_Path rq = ToLower (instantiate values p) ->
  sr_Query rq !! "api-version" = Some (v :: vs) -> ContainsRune v newline = false ->
  exists h e, dispatch rq endpoints = Found h (handler_of id) e /\ served rq p values v e.
Proof.
  intros Hv Hin Hm Hp Hq Hn.
  assert (Split (sr_Path rq) = (fun x => ToLower (fill values x)) <$> (segment_of <$> Split p)) as Hs.
  { rewrite Hp. by apply instantiate_split. }
  assert (forall n, ToLower (values n) <> EmptyString) as Hne.
  { intros n E. destruct (Hv n) as [Hne _]. by destruct (values n). }
  rewrite (dispatch_seek rq v vs _ _ Hs Hq Hn), Hm by (repeat constructor).
  pose proof (fun e => applies_split rq v vs _ e Hs Hq Hn) as Ha.
  clear Hp Hv. unfold operation_table in Hin. unfold endpoints, Routes.endpoints.
  repeat match goal with |- context [handler ?h] => generalize (handler h); intros ?
                       | |- context [body_handler ?h] => generalize (body_handler h); intros ? end.
  repeat (apply elem_of_cons in Hin as [[= -> -> ->]|Hin]); [..|by inversion Hin]; serve values rq Hne Ha.
Qed.

(** What a client is not told of *)
Definition unpublished : list string := ["getAsyncOperationsStatus"; "getAsyncOperationResult"; "putSubscription"].

Lemma endpoints_published e m h name :
  e ∈ endpoints -> (m, h, name) ∈ ep_Methods e -> name ∉ unpublished ->
  exists p id, (p, m, id) ∈ operation_table /\ handler_of id = name /\ is_Some (match_path (ep_Path e) (ToLower p)).
Proof.
  unfold endpoints, Routes.endpoints. intros He Hm Hu.
  assert (existsb (fun '(p, m', id) => bool_decide (m = m') && bool_decide (handler_of id = name) &&
            bool_decide (is_Some (match_path (ep_Path e) (ToLower p)))) operation_table = true) as H.
  { repeat (apply elem_of_cons in He as [->|He]); [..|by inversion He]; cbn [ep_Methods] in Hm;
      repeat (apply elem_of_cons in Hm as [[= -> _ ->]|Hm]); try (by inversion Hm); try (by vm_compute);
      destruct Hu; unfold unpublished; set_solver. }
  apply existsb_exists in H as ([[p m'] id] & Hin%list_elem_of_In & [[Hm' Hn]%andb_prop Hp]%andb_prop).
  apply bool_decide_eq_true in Hm' as <-, Hn, Hp. by exists p, id.
Qed.
End served.
