(* ===== verification/Rely.v ===== *)
(** * Programs among other programs

    Several front ends and back ends share the account. A program's run is judged
    against an invariant [I] of the account and a relation [G] that every program
    promises of its own steps and may rely on for those of the others: between any
    two requests of the run, the others may have done anything in [G]. Each request
    takes effect at one moment between its sending and its answer, or not at all,
    which is what the account documents for the write of one document. *)
From S2P Require Import Prelude GoStrings.
From S2P Require Import Api Cosmos CosmosLaws.

(** ** Triples *)
Section logic.
Context {W : Type} (I : W -> Prop) (G : W -> W -> Prop) `{!PreOrder G}.
Context (G_I : forall w w', G w w' -> I w -> I w').
Implicit Types (w : W).

(** An assertion that no step in [G] takes back *)
Class Stable (P : W -> Prop) : Prop := stable w w' : I w -> G w w' -> P w -> P w'.

(** From a world in [I] and [P], the run stays in [G], whatever its outcome, and a
    value it returns has [Q]. *)
Definition triple {A} (P : W -> Prop) (m : M W A) (Q : A -> W -> Prop) : Prop :=
  forall w, I w -> P w -> G w (snd (m w)) /\ forall a, fst (m w) = Ok a -> Q a (snd (m w)).

(** The run stays in [G] from any world in [I]. *)
Definition guards w w' : Prop := I w -> G w w'.
#[export] Instance guards_preorder : PreOrder guards.
Proof.
  split; [by intros w _|]. intros w1 w2 w3 H1 H2 H. etransitivity; [by apply H1|]. apply H2, (G_I _ _ (H1 H) H).
Qed.

Lemma triple_steps {A} (m : M W A) : steps guards m <-> triple (fun _ => True) m (fun _ _ => True).
Proof. split; intros H w; [intros Hw _; split; [by apply H|done]|intros Hw; by apply H]. Qed.

Context {A B : Type}.
Implicit Types (P : W -> Prop) (Q : A -> W -> Prop).

Lemma triple_mono P P' Q Q' (m : M W A) :
  triple P m Q -> (forall w, P' w -> P w) -> (forall a w, I w -> Q a w -> Q' a w) -> triple P' m Q'.
Proof.
  intros H HP HQ w Hw Hp. destruct (H w Hw (HP w Hp)) as [HG Hq]. split; [done|].
  intros a Ha. apply HQ; [by eapply G_I|by apply Hq].
Qed.

Lemma triple_ret P Q a : (forall w, I w -> P w -> Q a w) -> triple P (ret a) Q.
Proof. intros H w Hw Hp. split; [done|]. intros ? [= <-]. by apply H. Qed.

Lemma triple_throw P Q e : triple P (throw e) Q.
Proof. intros w Hw Hp. split; [done|by intros ?]. Qed.

Lemma triple_panic P Q s : triple P (panic s) Q.
Proof. intros w Hw Hp. split; [done|by intros ?]. Qed.

Lemma triple_lift P Q r : (forall a w, r = Ok a -> I w -> P w -> Q a w) -> triple P (lift r) Q.
Proof. intros H w Hw Hp. split; [done|]. intros a Ha. by apply H. Qed.

(** What is stable is still known afterwards. *)
Lemma triple_bind P Q (R : B -> W -> Prop) (m : M W A) (f : A -> M W B) :
  Stable P -> triple P m Q -> (forall a, triple (fun w => P w /\ Q a w) (f a) R) -> triple P (bind m f) R.
Proof.
  intros HS Hm Hf w Hw Hp. destruct (Hm w Hw Hp) as [HG HQ]. unfold bind. pose proof (G_I _ _ HG Hw) as Hw1.
  pose proof (HS _ _ Hw HG Hp) as Hp1.
  destruct (m w) as [[a|e|s|] w1]; cbn [fst snd] in *; try (split; [done|by intros ?]).
  destruct (Hf a w1 Hw1) as [HG2 HR]; [split; [done|by apply HQ]|]. split; [by etransitivity|done].
Qed.

Lemma triple_try P Q (m : M W A) :
  triple P m Q -> triple P (try m) (fun r w => match r with inl a => Q a w | inr _ => True end).
Proof.
  intros H w Hw Hp. destruct (H w Hw Hp) as [HG HQ]. unfold try.
  destruct (m w) as [[a|e|s|] w1]; cbn [fst snd] in *; (split; [done|]); intros ? [= <-]; [by apply HQ|done].
Qed.

Lemma triple_recover P Q (m : M W A) :
  triple P m Q ->
  triple P (recover m) (fun r w => match r with Some (inl a) => Q a w | _ => True end).
Proof.
  intros H w Hw Hp. destruct (H w Hw Hp) as [HG HQ]. unfold recover.
  destruct (m w) as [[a|e|s|] w1]; cbn [fst snd] in *; (split; [done|]); intros ? [= <-]; [by apply HQ|done..].
Qed.

Lemma triple_pure P (φ : Prop) Q (m : M W A) :
  (forall w, I w -> P w -> φ) -> (φ -> triple P m Q) -> triple P m Q.
Proof. intros Hφ H w Hw Hp. apply H; [by eapply Hφ|done..]. Qed.

Lemma triple_of_steps P (m : M W A) : steps guards m -> triple P m (fun _ _ => True).
Proof. intros H w Hw _. split; [by apply H|done]. Qed.

Lemma steps_of_triple P Q (m : M W A) : triple P m Q -> (forall w, I w -> P w) -> steps guards m.
Proof. intros H HP w Hw. by apply H; [|apply HP]. Qed.

End logic.

#[export] Instance stable_True {W} (I : W -> Prop) G : Stable I G (fun _ => True).
Proof. by intros w w' _ _ _. Qed.
#[export] Instance stable_and {W} (I : W -> Prop) G P Q :
  Stable I G P -> Stable I G Q -> Stable I G (fun w => P w /\ Q w).
Proof. intros HP HQ w w' Hw HG [? ?]. split; [by eapply HP|by eapply HQ]. Qed.
#[export] Instance stable_pure {W} (I : W -> Prop) G (φ : Prop) : Stable I G (fun _ => φ).
Proof. by intros w w' _ _ H. Qed.

#[export] Instance stable_forall {W X} (I : W -> Prop) G (P : X -> W -> Prop) :
  (forall x, Stable I G (P x)) -> Stable I G (fun w => forall x, P x w).
Proof. intros HP w w' Hw HG H x. by eapply HP. Qed.
#[export] Instance stable_impl {W} (I : W -> Prop) G (φ : Prop) P :
  Stable I G P -> Stable I G (fun w => φ -> P w).
Proof. intros HP w w' Hw HG H Hφ. eapply HP; [done..|]. by apply H. Qed.

(** A statement that does not touch the world *)
Lemma triple_bind_lift {W A B} (I : W -> Prop) (G : W -> W -> Prop) `{!PreOrder G} P (R : B -> W -> Prop)
    (r : res A) (f : A -> M W B) :
  (forall a, r = Ok a -> triple I G P (f a) R) -> triple I G P (bind (lift r) f) R.
Proof.
  intros H w Hw Hp. unfold bind, lift. destruct r as [a|e|s|]; [by apply H|..]; (split; [done|by intros ?]).
Qed.

Lemma steps_bind_lift {W A B} (R : W -> W -> Prop) `{!PreOrder R} (r : res A) (f : A -> M W B) :
  (forall a, r = Ok a -> steps R (f a)) -> steps R (bind (lift r) f).
Proof. intros H w. unfold bind, lift. destruct r as [a|e|s|]; [by apply H|reflexivity..]. Qed.

(** The next statement of a program: its triple is the first goal left, the rest
    of the program the second. *)
Ltac triple_step := eapply triple_bind; [first [done|apply _]|first [done|eassumption]|apply _| |].

Section retry.
Context {W A : Type} (I : W -> Prop) (G : W -> W -> Prop) `{!PreOrder G} `{!Runtime W}.
Context (G_I : forall w w', G w w' -> I w -> I w').

Lemma triple_retry P Q (f : M W A) left i :
  Stable I G P -> (forall n, steps (guards I G) (time_Sleep n)) -> triple I G P f Q ->
  triple I G P (retry_from left i f) Q.
Proof.
  intros HS Hsl Hf. revert i. induction left as [|left IH]; intros i; [by apply triple_panic|]. simpl.
  triple_step; [by apply triple_try|]. intros [a|e].
  { apply triple_ret; [done|]. by intros w _ [_ ?]. }
  destruct (IsErrorStatusCode e _); [|by apply triple_throw].
  triple_step; [by apply triple_of_steps|]. intros [].
  destruct left; [by apply triple_throw|]. eapply triple_mono; [done|apply IH|tauto|done].
Qed.
End retry.

(** ** Requests that take effect at once *)
Section effect.
Context (W : Type) {D : Type} `{!Document D, !Stored D, !Collection W D}.
Implicit Types (d : D) (m : gmap string D).

(** What the service stores for [d]: the document under new metadata, with another
    lease time for each trigger that has run. *)
Definition stored_from d d' : Prop := exists me ts, d' = d_with_meta me (foldr d_with_leaseExpires d ts).

Lemma stored_field {X} (f : D -> X) d d' :
  (forall me d, f (d_with_meta me d) = f d) -> (forall t d, f (d_with_leaseExpires t d) = f d) ->
  stored_from d d' -> f d' = f d.
Proof.
  intros Hm Ht (me & ts & ->). rewrite Hm. induction ts as [|t ts IH]; [done|]. simpl. by rewrite Ht.
Qed.

Definition wrote (req : Request D) m m' : Prop :=
  (rq_Method req = "DELETE" /\ exists k, m' = delete k m) \/
  exists d d', rq_Body req = BodyDoc d /\ stored_from d d' /\
    ((rq_Method req = "POST" /\ m !! d_key d = None /\ m' = <[d_key d := d']> m) \/
     (rq_Method req = "PUT" /\ exists k old, m !! k = Some old /\ d_ID old = d_ID d /\
        m' = <[d_key d := d']> (delete k m))).

(** One document is written, or nothing; a success has happened, and shows what is
    stored. *)
Record effect (req : Request D) (r : res (Response D)) m m' : Prop := {
  ef_write : m' = m \/ wrote req m m';
  ef_created resp d : r = Ok resp -> rs_StatusCode resp = StatusCreated ->
    rq_Method req = "POST" -> rq_Body req = BodyDoc d -> wrote req m m';
  ef_doc resp d' : r = Ok resp -> rs_StatusCode resp = StatusOK \/ rs_StatusCode resp = StatusCreated ->
    rs_doc resp = inl (Some d') ->
    m' !! d_key d' = Some d' /\
    forall d, rq_Method req <> "GET" -> rq_Body req = BodyDoc d -> stored_from d d';
  ef_docs resp q ds : r = Ok resp -> rs_StatusCode resp = StatusOK -> rq_Body req = BodyQuery q ->
    rs_docs resp = inl (Some ds) -> forall d, d ∈ ds_Documents ds ->
    m !! d_key d = Some d /\ exists pk t, matches (W := W) q pk t d = true;
}.
End effect.

Section client.
Context {W D : Type} `{!Runtime W, !Service W D, !Document D, !Stored D, !Collection W D}.
Context (I : W -> Prop) (G : W -> W -> Prop) `{!PreOrder G} (G_I : forall w w', G w w' -> I w -> I w').
Implicit Types (d : D) (w : W).

(** A request takes effect between what the others do before and after; [rest]: the
    parts of the account it does not touch. *)
Class Linear (rest : W -> W -> Prop) : Prop := linear (req : Request D) w : I w ->
  exists w1 w2, G w w1 /\ effect W req (fst (hc_Do req w)) (store w1) (store w2) /\ rest w1 w2 /\
    G w2 (snd (hc_Do req w)).

(** What is known of a stored document ([good]), when one may be created, replaced
    or deleted, and what a creation leaves behind ([made]) *)
Class Keeper (rest : W -> W -> Prop) (good can_post can_put made : D -> W -> Prop) (deletable : Prop) := {
  ke_linear :: Linear rest;
  ke_now : steps (guards I G) time_Now;
  ke_sleep n : steps (guards I G) (time_Sleep n);
  ke_good d :: Stable I G (good d);
  ke_made d :: Stable I G (made d);
  ke_store w d : I w -> store w !! d_key d = Some d -> good d w;
  ke_same w w' : store (D := D) w' = store w -> rest w w' -> G w w';
  ke_post w w' d d' : I w -> can_post d w -> stored_from d d' -> store w !! d_key d = None ->
    store w' = <[d_key d := d']> (store w) -> rest w w' -> G w w' /\ made d w';
  ke_put w w' d d' k old : I w -> can_put d w -> stored_from d d' -> store w !! k = Some old ->
    d_ID old = d_ID d -> store w' = <[d_key d := d']> (delete k (store w)) -> rest w w' -> G w w';
  ke_delete w w' k : I w -> deletable -> store (D := D) w' = delete k (store w) -> rest w w' -> G w w';
}.

Context {rest : W -> W -> Prop} {good can_post can_put made : D -> W -> Prop} {deletable : Prop}.
Context {KE : Keeper rest good can_post can_put made deletable}.
#[local] Hint Resolve ke_now ke_sleep : steps.

Definition allowed (req : Request D) w : Prop :=
  (rq_Method req = "DELETE" -> deletable) /\
  forall d, rq_Body req = BodyDoc d -> (rq_Method req = "POST" -> can_post d w) /\ (rq_Method req = "PUT" -> can_put d w).

Record answered (req : Request D) (resp : Response D) w : Prop := {
  an_made d : rs_StatusCode resp = StatusCreated -> rq_Method req = "POST" -> rq_Body req = BodyDoc d -> made d w;
  an_doc d' : rs_StatusCode resp = StatusOK \/ rs_StatusCode resp = StatusCreated -> rs_doc resp = inl (Some d') ->
    good d' w /\ forall d, rq_Method req <> "GET" -> rq_Body req = BodyDoc d -> stored_from d d';
  an_docs q ds d : rs_StatusCode resp = StatusOK -> rq_Body req = BodyQuery q -> rs_docs resp = inl (Some ds) ->
    d ∈ ds_Documents ds -> good d w /\ exists pk t, matches (W := W) q pk t d = true;
}.

Lemma wrote_G req w w' :
  I w -> allowed req w -> wrote req (store w) (store w') -> rest w w' ->
  G w w' /\ forall d, rq_Method req = "POST" -> rq_Body req = BodyDoc d -> made d w'.
Proof.
  intros Hw [Hdel Ha] [(Hm & k & Hk)|(d & d' & Hb & Hs & H)] Hr.
  - split; [apply (ke_delete w w' k); auto|]. intros d Hm'. by rewrite Hm in Hm'.
  - destruct (Ha d Hb) as [Hpost Hput]. destruct H as [(Hm & Hn & Hw')|(Hm & k & old & Hk & Hi & Hw')].
    + destruct (ke_post w w' d d') as [HG Hmade]; auto. split; [done|]. intros ? _ Hb'. congruence.
    + split; [apply (ke_put w w' d d' k old); auto|]. intros ? Hm'. by rewrite Hm in Hm'.
Qed.

Lemma Do_triple P req :
  Stable I G P -> (forall w, I w -> P w -> allowed req w) -> triple I G P (hc_Do req) (answered req).
Proof.
  intros HS Hal w Hw Hp. destruct (linear req w Hw) as (w1 & w2 & HG1 & He & Hr & HG2).
  pose proof (G_I _ _ HG1 Hw) as Hw1. pose proof (Hal _ Hw1 (HS _ _ Hw HG1 Hp)) as Ha.
  assert (G w1 w2 /\ (wrote req (store w1) (store w2) ->
    forall d, rq_Method req = "POST" -> rq_Body req = BodyDoc d -> made d w2)) as [HG12 Hmade].
  { destruct (ef_write _ _ _ _ _ He) as [Hs|Hwr].
    - split; [by apply ke_same|]. intros Hwr. by apply (wrote_G req w1 w2).
    - destruct (wrote_G req w1 w2) as [? ?]; [done..|]. by split. }
  pose proof (G_I _ _ HG12 Hw1) as Hw2. split; [by do 2 (etransitivity; [done|])|].
  intros resp Hresp. split.
  - intros d Hst Hm Hb. eapply ke_made; [done|done|]. eapply Hmade; [|done..].
    by eapply (ef_created _ _ _ _ _ He).
  - intros d' Hst Hd'. destruct (ef_doc _ _ _ _ _ He resp d') as [Hin Hs]; [done..|].
    split; [|done]. eapply ke_good; [done|done|]. by apply ke_store.
  - intros q ds d Hst Hb Hds Hd. destruct (ef_docs _ _ _ _ _ He resp q ds) with d as [Hin Hm]; [done..|].
    split; [|done]. eapply ke_good; [exact Hw1|by etransitivity|]. by apply ke_store.
Qed.

(** *** The client's calls *)
Definition success {O} (method : string) (expected : Z) (inb : Payload D) (nil : O)
    (decode : option (Response D -> O + string)) (out : O) w : Prop :=
  exists resp req, rs_StatusCode resp = expected /\ rq_Method req = method /\ rq_Body req = inb /\
    answered req resp w /\ (out = nil \/ exists dec, decode = Some dec /\ dec resp = inl out).

Lemma authorizeRequest_guards dbc method rt rl h : steps (guards I G) (authorizeRequest dbc method rt rl h).
Proof. pose proof (guards_preorder I G G_I). unfold authorizeRequest. steps_auto. Qed.

Section do.
Context {O : Type} (P : W -> Prop) {PS : Stable I G P} (dbc : databaseClient) (method path rt rl : string).
Context (expected : Z) (inb : Payload D) (nil : O) (decode : option (Response D -> O + string)) (headers : Header).
Context (Hal : forall req w, rq_Method req = method -> rq_Body req = inb -> I w -> P w -> allowed req w).
Abbreviation attempt := (_do dbc method path rt rl expected inb nil decode headers).
Abbreviation Succ := (success method expected inb nil decode).

Lemma Succ_intro out resp url h w : rs_StatusCode resp = expected ->
  answered (mkRequest method url h inb) resp w -> out = nil \/ (exists dec, decode = Some dec /\ dec resp = inl out) ->
  Succ out w.
Proof. intros. exists resp, (mkRequest method url h inb). done. Qed.

Lemma _do_triple : triple I G P attempt (fun r w => snd r = None -> Succ (snd (fst r)) w).
Proof.
  unfold _do. triple_step; [apply triple_of_steps, authorizeRequest_guards|]. intros h2.
  eapply triple_bind; [done|done|apply _|apply triple_try, Do_triple; [apply _|]|].
  { intros w Hw [Hp _]. by apply Hal. }
  intros [resp|e]; [|by apply triple_ret]. case_decide as Hst.
  2: { destruct (if decide _ then _ else _). by apply triple_ret. }
  pose proof Succ_intro as Hin. destruct decode as [dec|].
  - case_decide; [destruct (dec resp) as [a|m] eqn:Hdec|]; apply triple_ret; try done;
      intros w _ [_ Han] _; eapply Hin; eauto.
  - apply triple_ret; [done|]. intros w _ [_ Han] _. eapply Hin; eauto.
Qed.

Lemma do_loop_triple n last : n <> 0 ->
  triple I G P (do_loop n attempt last)
    (fun r w => match r with inl r => snd r = None -> Succ (snd (fst r)) w | inr _ => True end).
Proof.
  revert last. induction n as [|n IH]; intros last Hn; [done|]. simpl.
  eapply triple_bind; [done|done|apply _|apply _do_triple|]. intros [[resp out] [e|]].
  2: { apply triple_ret; [done|]. by intros w _ [_ ?]. }
  destruct (IsErrorStatusCode e _); [|by apply triple_ret].
  destruct resp as [rs|]; [|by apply triple_panic]. destruct (ParseInt _) as [ms|]; [|by apply triple_ret].
  eapply triple_mono with (P := P); [done| |by intros w [? _]|intros a w _ Hq; exact Hq].
  triple_step; [apply triple_of_steps, ke_sleep|]. intros [].
  destruct n as [|n]; [by apply (triple_ret I G)|]. eapply triple_mono; [done|by apply IH|tauto|done].
Qed.

Lemma do_triple : dc_maxRetries dbc <> 0 ->
  triple I G P (do dbc method path rt rl expected inb nil decode headers)
    (fun r w => snd r = None -> Succ (fst (fst r)) w).
Proof.
  intros Hn. unfold do. eapply triple_bind; [done|done|apply _|by apply do_loop_triple|].
  intros [[[resp out] err]|e]; [|by apply triple_ret]. apply triple_ret; [done|]. by intros w _ [_ ?].
Qed.
End do.

Context (c : documentClient) (Hret : dc_maxRetries (c_databaseClient c) <> 0).

(** A call without a decoder aside: [do], then what its output means *)
Lemma call_triple {O B} (P : W -> Prop) {PS : Stable I G P} method path rt rl expected inb (nil : O) decode headers
    (f : O * Header -> M W B) (Q : B -> W -> Prop) :
  (forall req w, rq_Method req = method -> rq_Body req = inb -> I w -> P w -> allowed req w) ->
  (forall out hs, triple I G (fun w => success method expected inb nil decode out w) (f (out, hs)) Q) ->
  triple I G P (do! r <- do (c_databaseClient c) method path rt rl expected inb nil decode headers;
                do! r <- lift (check r); f r) Q.
Proof.
  intros Hal Hf. triple_step; [by apply do_triple|]. intros [[out hs] err].
  apply triple_bind_lift; [done|]. intros r Hr. destruct err as [e|]; [done|]. injection Hr as <-.
  eapply triple_mono; [done|apply Hf| |done]. intros w [_ Hs]. by apply Hs.
Qed.

Lemma Get_triple P pk id o : Stable I G P ->
  triple I G P (Get c pk id o) (fun out w => forall d, out = Some d -> good d w).
Proof.
  intros HS. unfold Get. apply triple_bind_lift; [done|]. intros h _.
  apply call_triple; [apply _| |].
  - intros req w Hm Hb _ _. split; [by rewrite Hm|]. intros ? Hb'. congruence.
  - intros out hs. apply triple_ret; [done|]. cbn [fst]. intros w _ (resp & req & Hst & _ & _ & Han & Hout) d ->.
    destruct Hout as [?|(dec & [= <-] & Hdec)]; [done|]. apply (an_doc _ _ _ Han d); [by left|done].
Qed.

Lemma Create_triple P pk d o : Stable I G P -> (forall w, I w -> P w -> can_post d w) ->
  triple I G P (Create c pk d o)
    (fun out w => made d w /\ forall d', out = Some d' -> good d' w /\ stored_from d d').
Proof.
  intros HS Hd. unfold Create. apply triple_bind_lift; [done|]. intros h _.
  apply call_triple; [apply _| |].
  - intros req w Hm Hb Hw Hp. split; [by rewrite Hm|]. intros ? Hb'. rewrite Hm. rewrite Hb in Hb'. injection Hb' as <-. split; [intros _; by apply Hd|done].
  - intros out hs. apply triple_ret; [done|]. cbn [fst]. intros w _ (resp & req & Hst & Hm & Hb & Han & Hout).
    split; [by eapply an_made|]. intros d' ->.
    destruct Hout as [?|(dec & [= <-] & Hdec)]; [done|].
    destruct (an_doc _ _ _ Han d') as [? Hs]; [by right|done|]. split; [done|]. apply Hs; [by rewrite Hm|done].
Qed.

Lemma Replace_triple P pk d o : Stable I G P -> (forall w, I w -> P w -> can_put d w) ->
  triple I G P (Replace c pk d o) (fun out w => forall d', out = Some d' -> good d' w /\ stored_from d d').
Proof.
  intros HS Hd. unfold Replace. apply triple_bind_lift; [done|]. intros h _.
  apply call_triple; [apply _| |].
  - intros req w Hm Hb Hw Hp. split; [by rewrite Hm|]. intros ? Hb'. rewrite Hm. rewrite Hb in Hb'. injection Hb' as <-. split; [done|intros _; by apply Hd].
  - intros out hs. apply triple_ret; [done|]. cbn [fst]. intros w _ (resp & req & Hst & Hm & Hb & Han & Hout) d' ->.
    destruct Hout as [?|(dec & [= <-] & Hdec)]; [done|].
    destruct (an_doc _ _ _ Han d') as [? Hs]; [by left|done|]. split; [done|]. apply Hs; [by rewrite Hm|done].
Qed.

Lemma Delete_triple P pk d o : Stable I G P -> deletable -> triple I G P (Delete c pk d o) (fun _ _ => True).
Proof.
  intros HS Hd. unfold Delete. apply triple_bind_lift; [done|]. intros h _.
  apply call_triple; [apply _| |].
  - intros req w Hm Hb _ _. split; [done|]. intros ? Hb'. congruence.
  - intros out hs. by apply triple_ret.
Qed.

(** The documents of a page, and the query they match *)
Definition selected (q : Query) (l : list D) w : Prop :=
  forall d, d ∈ l -> good d w /\ exists pk t, matches (W := W) q pk t d = true.
#[export] Instance selected_stable q l : Stable I G (selected q l).
Proof. intros w w' Hw HG H d Hd. destruct (H d Hd) as [Hg Hm]. split; [by eapply ke_good|done]. Qed.

Definition paged (q : Query) (r : option (Documents D) * queryIterator) w : Prop :=
  qi_query (snd r) = q /\ forall docs, fst r = Some docs -> selected q (ds_Documents docs) w.

Lemma Next_triple P i : Stable I G P -> triple I G P (Next c i) (paged (qi_query i)).
Proof.
  intros HS. unfold Next, query_NextRaw. destruct (qi_done i).
  - apply triple_ret; [done|]. by intros w _ _.
  - apply triple_bind_lift; [done|]. intros h _. apply call_triple; [apply _| |].
    + intros req w Hm Hb _ _. split; [by rewrite Hm|]. intros ? Hb'. congruence.
    + intros out hs. apply triple_ret; [done|]. intros w _ (resp & req & Hst & Hm & Hb & Han & Hout).
      split; [done|]. cbn [fst]. intros docs -> d Hd.
      destruct Hout as [?|(dec & [= <-] & Hdec)]; [done|]. by eapply an_docs.
Qed.

Lemma QueryAll_triple P fuel pk q o : Stable I G P ->
  triple I G P (QueryAll c fuel pk q o) (fun docs w => selected q (ds_Documents docs) w).
Proof.
  intros HS. unfold QueryAll, all.
  assert (forall acc i, qi_query i = q ->
    triple I G (fun w => P w /\ selected q (ds_Documents acc) w) (all_from (Next c) fuel i acc)
      (fun docs w => selected q (ds_Documents docs) w)) as H.
  { induction fuel as [|fuel IH]; intros acc i Hi; simpl; [by apply triple_lift|].
    triple_step; [apply Next_triple; apply _|]. intros [[docs|] i1].
    - eapply (triple_pure _ _ _ (qi_query i1 = q)); [intros w _ [_ [Hq _]]; simpl in Hq; congruence|]. intros Hi1.
      eapply triple_mono; [done|by apply IH| |done]. intros w [[Hp Hacc] [_ Hd]]. split; [done|].
      cbn [ds_Documents]. intros d [Hd'|Hd']%elem_of_app; [by apply Hacc|].
      rewrite Hi in Hd. by apply (Hd docs).
    - apply triple_ret; [done|]. by intros w _ [[_ ?] _]. }
  eapply triple_mono; [done|by apply H| |done]. intros w Hp. split; [done|].
  intros d Hd. by apply elem_of_nil in Hd.
Qed.
End client.
