(* ===== verification/Lifecycle.v ===== *)
(** * The life of a cluster's document

    What holds of the clusters and the operations of the account whatever the front
    ends and the back ends do to it at once. A stored cluster is either being worked
    on or finished, and a finished one is free: nobody has a lease on it and it names
    no operation. An operation that a cluster names is stored, and is that cluster's.
    Each operation of the program keeps this against the others (Rely.v), and so does
    every run of the system they make together. *)
From S2P Require Import Prelude GoStrings.
From S2P Require Import Azure Api External Services.
From S2P Require Import Cosmos CosmosLaws Database Frame DatabaseSpec.
From S2P Require Import Frontend FrontendSpec Backend BackendSpec.
From S2P Require Import Mux Middleware Authorizer Routes RoutesSpec.
From S2P Require Import Rely.

(** ** Documents *)
Definition working (s : ProvisioningState) : Prop :=
  s = ProvisioningStateCreating \/ s = ProvisioningStateUpdating \/ s = ProvisioningStateDeleting.

Definition finished (d : OpenShiftClusterDocument) (oc : OpenShiftCluster) : Prop :=
  terminal (state_of oc) = true /\ ocd_AsyncOperationID d = EmptyString /\ ocd_LeaseOwner d = EmptyString /\
  (state_of oc = ProvisioningStateFailed -> working (failed_state_of oc)).

Definition cluster_ok (d : OpenShiftClusterDocument) : Prop :=
  exists oc, ocd_OpenShiftCluster d = Some oc /\ (working (state_of oc) \/ finished d oc).

(** A document with work in it *)
Definition has_work (d : OpenShiftClusterDocument) : Prop :=
  exists oc, ocd_OpenShiftCluster d = Some oc /\ working (state_of oc).

Lemma working_state s t : working s -> terminal t = true -> s <> t.
Proof. by intros [->|[->| ->]] Ht <-. Qed.

Lemma cluster_ok_work d : has_work d -> cluster_ok d.
Proof. intros (oc & Hoc & Hs). exists oc. by split; [|left]. Qed.

Lemma cluster_ok_terminal d oc :
  cluster_ok d -> ocd_OpenShiftCluster d = Some oc -> terminal (state_of oc) = true -> finished d oc.
Proof. intros (oc' & Hoc & [Hs|Hf]) H Ht; simplify_eq; [|done]. by destruct (working_state _ _ Hs Ht). Qed.

(** What a query for work selects *)
Lemma dequeuable_work t d : cluster_ok d -> dequeuable t d = true -> has_work d.
Proof.
  intros (oc & Hoc & Hs) Hd. unfold dequeuable in Hd. rewrite Hoc in Hd. exists oc. split; [done|].
  destruct Hs as [Hs|[Ht _]]; [done|]. rewrite Ht in Hd. by rewrite andb_false_r in Hd.
Qed.

Section account.
Context {W : Type} `{!Collection W OpenShiftClusterDocument, !Collection W AsyncOperationDocument}.
Implicit Types (w : W) (d : OpenShiftClusterDocument) (a : AsyncOperationDocument).
Abbreviation clusters w := (store (D := OpenShiftClusterDocument) w).
Abbreviation asyncs w := (store (D := AsyncOperationDocument) w).

(** The operation [id] is stored, for the cluster [key]. *)
Definition registered (key id : string) w : Prop :=
  exists a, asyncs w !! id = Some a /\ ad_OpenShiftClusterKey a = key.

Definition good_cluster d w : Prop :=
  cluster_ok d /\ (ocd_AsyncOperationID d <> EmptyString -> registered (ocd_Key d) (ocd_AsyncOperationID d) w).
Definition good_async a w : Prop :=
  is_Some (ad_AsyncOperation a) /\ registered (ad_OpenShiftClusterKey a) (ad_ID a) w.

(** The invariant *)
Record well_kept w : Prop := {
  wk_cluster k d : clusters w !! k = Some d -> ocd_Key d = k /\ good_cluster d w;
  wk_async k a : asyncs w !! k = Some a -> ad_ID a = k /\ is_Some (ad_AsyncOperation a);
}.

(** What every program of the system promises the others *)
Definition promise w w' : Prop :=
  (forall key id, registered key id w -> registered key id w') /\ (well_kept w -> well_kept w').

#[export] Instance promise_preorder : PreOrder promise.
Proof. split; [by intros w|]. intros w1 w2 w3 [??] [??]. split; auto. Qed.

Lemma promise_keeps w w' : promise w w' -> well_kept w -> well_kept w'.
Proof. intros [_ H]. done. Qed.

Lemma unchanged_promise w w' : clusters w' = clusters w -> asyncs w' = asyncs w -> promise w w'.
Proof.
  intros Hc Ha. assert (forall key id, registered key id w -> registered key id w') as Hr.
  { intros key id (a & ? & ?). exists a. by rewrite Ha. }
  split; [done|]. intros [H1 H2]. split.
  - intros k d. rewrite Hc. intros Hk. destruct (H1 k d Hk) as [? [? ?]].
    split; [done|split; auto].
  - intros k a. rewrite Ha. apply H2.
Qed.

#[export] Instance registered_stable key id : Stable well_kept promise (registered key id).
Proof. intros w w' _ [H _]. apply H. Qed.
#[export] Instance good_cluster_stable d : Stable well_kept promise (good_cluster d).
Proof. intros w w' _ [H _] [? ?]. split; auto. Qed.
#[export] Instance good_async_stable a : Stable well_kept promise (good_async a).
Proof. intros w w' _ [H _] [? ?]. split; auto. Qed.

(** What the service does not touch of a document it stores *)
Lemma cluster_fields d d' :
  stored_from d d' -> ocd_Key d' = ocd_Key d /\ ocd_AsyncOperationID d' = ocd_AsyncOperationID d /\
    ocd_LeaseOwner d' = ocd_LeaseOwner d /\ ocd_OpenShiftCluster d' = ocd_OpenShiftCluster d.
Proof.
  intros Hs. split_and!; [by apply (stored_field ocd_Key d)|by apply (stored_field ocd_AsyncOperationID d)|
    by apply (stored_field ocd_LeaseOwner d)|by apply (stored_field ocd_OpenShiftCluster d)].
Qed.
Lemma async_fields a a' :
  stored_from a a' -> ad_OpenShiftClusterKey a' = ad_OpenShiftClusterKey a /\ ad_ID a' = ad_ID a /\
    ad_AsyncOperation a' = ad_AsyncOperation a.
Proof.
  intros Hs. split_and!; [by apply (stored_field ad_OpenShiftClusterKey a)|by apply (stored_field ad_ID a)|
    by apply (stored_field ad_AsyncOperation a)].
Qed.

Lemma stored_cluster d d' w : stored_from d d' -> good_cluster d w -> good_cluster d' w.
Proof.
  intros (Hk & Ho & Hl & Hc)%cluster_fields. unfold good_cluster, cluster_ok, finished. by rewrite Hk, Ho, Hl, Hc.
Qed.

(** *** One write *)
Definition same_asyncs w w' : Prop := asyncs w' = asyncs w.
Definition same_clusters w w' : Prop := clusters w' = clusters w.

Lemma promise_clusters w w' :
  well_kept w -> same_asyncs w w' ->
  (forall k d, clusters w' !! k = Some d -> clusters w !! k = Some d \/ ocd_Key d = k /\ good_cluster d w) ->
  promise w w'.
Proof.
  unfold same_asyncs. intros [H1 H2] Ha Hc.
  assert (forall key id, registered key id w -> registered key id w') as Hr.
  { intros key id (a & ? & ?). exists a. by rewrite Ha. }
  split; [done|]. intros _. split.
  - intros k d Hd. assert (ocd_Key d = k /\ good_cluster d w) as [? [? ?]] by (destruct (Hc k d Hd); auto).
    split; [done|split; auto].
  - intros k a. rewrite Ha. apply H2.
Qed.

Lemma promise_asyncs w w' :
  well_kept w -> same_clusters w w' -> (forall key id, registered key id w -> registered key id w') ->
  (forall k a, asyncs w' !! k = Some a -> asyncs w !! k = Some a \/ ad_ID a = k /\ is_Some (ad_AsyncOperation a)) ->
  promise w w'.
Proof.
  unfold same_clusters. intros [H1 H2] Hc Hr Ha. split; [done|]. intros _. split.
  - intros k d. rewrite Hc. intros Hk. destruct (H1 k d Hk) as [? [? ?]]. split; [done|split; auto].
  - intros k a Hk. destruct (Ha k a Hk); auto.
Qed.

Lemma cluster_write w w' d d' m :
  well_kept w -> good_cluster d w -> stored_from d d' ->
  (forall k x, m !! k = Some x -> clusters w !! k = Some x) -> clusters w' = <[ocd_Key d := d']> m ->
  same_asyncs w w' -> promise w w'.
Proof.
  intros Hw Hd Hs Hm Hc Ha. apply promise_clusters; [done..|]. intros k x.
  rewrite Hc. intros [[<- <-]|[_ Hx]]%lookup_insert_Some; [right|left; auto].
  split; [by apply cluster_fields in Hs as [? _]|by eapply stored_cluster].
Qed.

(** The document an update replaces is the one under its identifier. *)
Lemma async_put w w' a a' k old :
  well_kept w -> good_async a w -> stored_from a a' -> asyncs w !! k = Some old -> ad_ID old = ad_ID a ->
  asyncs w' = <[ad_ID a := a']> (delete k (asyncs w)) -> same_clusters w w' -> promise w w'.
Proof.
  intros Hw [Ha (x & Hx & Hxk)] Hs Hk Hi Hw' Hc.
  destruct (wk_async _ Hw _ _ Hk) as [Hid _]. assert (k = ad_ID a) as -> by congruence.
  rewrite insert_delete_eq in Hw'.
  destruct (async_fields _ _ Hs) as (Ek & Ei & Eo).
  apply promise_asyncs; [done..| |].
  - intros key id (y & Hy & <-). destruct (decide (id = ad_ID a)) as [->|Hne].
    + exists a'. rewrite Hw', lookup_insert_eq. split; congruence.
    + exists y. by rewrite Hw', lookup_insert_ne.
  - intros j y. rewrite Hw'. intros [[<- <-]|[_ Hy]]%lookup_insert_Some; [right|by left]. by rewrite Ei, Eo.
Qed.

Lemma async_post w w' a a' :
  well_kept w -> is_Some (ad_AsyncOperation a) -> stored_from a a' -> asyncs w !! ad_ID a = None ->
  asyncs w' = <[ad_ID a := a']> (asyncs w) -> same_clusters w w' ->
  promise w w' /\ registered (ad_OpenShiftClusterKey a) (ad_ID a) w'.
Proof.
  intros Hw Ha Hs Hn Hw' Hc.
  destruct (async_fields _ _ Hs) as (Ek & Ei & Eo).
  split; [|exists a'; by rewrite Hw', lookup_insert_eq]. apply promise_asyncs; [done..| |].
  - intros key id (y & Hy & <-). exists y. rewrite Hw', lookup_insert_ne; [done|]. intros E. congruence.
  - intros j y. rewrite Hw'. intros [[<- <-]|[_ Hy]]%lookup_insert_Some; [right|by left]. by rewrite Ei, Eo.
Qed.
End account.

(** ** The account, shared

    A request for a cluster or an operation takes effect at one moment; what the
    others do meanwhile is what they promise. The rest of the program's
    surroundings keeps the promise too. *)
Class SharedAccount (W : Type) `{!Runtime W, !Account W}
    `{!Collection W OpenShiftClusterDocument, !Collection W AsyncOperationDocument} (db : Database) := {
  sh_clusters :: Linear (D := OpenShiftClusterDocument) well_kept promise same_asyncs;
  sh_async :: Linear (D := AsyncOperationDocument) well_kept promise same_clusters;
  sh_subscriptions (req : Cosmos.Request SubscriptionDocument) : steps (guards well_kept promise) (hc_Do req);
  sh_now : steps (guards well_kept promise) time_Now;
  sh_sleep n : steps (guards well_kept promise) (time_Sleep n);
  sh_uuid : steps (guards well_kept promise) uuid_NewV4;
  sh_dequeue pk t (d : OpenShiftClusterDocument) :
    matches (W := W) OpenShiftClusters.query_dequeue pk t d = true -> dequeuable t d = true;
  sh_clusters_retries : dc_maxRetries (c_databaseClient (OpenShiftClusters.c (db_OpenShiftClusters db))) <> 0;
  sh_async_retries : dc_maxRetries (c_databaseClient (AsyncOperations.c (db_AsyncOperations db))) <> 0;
}.

Section shared.
Context {W : Type} `{!Runtime W, !Account W}.
Context `{!Collection W OpenShiftClusterDocument, !Collection W AsyncOperationDocument}.
Context (db : Database) {SA : SharedAccount W db} {PB : PageBound}.
Implicit Types (w : W) (doc : OpenShiftClusterDocument) (a : AsyncOperationDocument).
Abbreviation Kept := (guards (W := W) well_kept promise).
Abbreviation keeps P m Q := (triple (W := W) well_kept promise P m Q).
Abbreviation stable P := (Stable (W := W) well_kept promise P).

(** One statement at a time *)
Ltac kept_step := eapply triple_bind; [apply _|exact promise_keeps|apply _| |].
Ltac kept_lift := eapply triple_bind_lift; [apply _|].
Ltac kept_ret := eapply triple_ret; [apply _|].
Ltac kept_ends := solve [eapply triple_throw; apply _|eapply triple_panic; apply _|by kept_ret].
Ltac kept_weaken := eapply triple_mono; [exact promise_keeps|..].
#[export] Instance Kept_preorder : PreOrder Kept.
Proof. apply guards_preorder; [apply _|]. exact promise_keeps. Qed.

#[export] Instance clusters_keeper :
  Keeper (W := W) (D := OpenShiftClusterDocument) well_kept promise same_asyncs good_cluster good_cluster
    good_cluster (fun _ _ => True) True.
Proof.
  split; try apply _; [apply (sh_now (db := db))|apply (sh_sleep (db := db))|..].
  - intros w d Hw Hd. by apply (wk_cluster _ Hw _ _ Hd).
  - intros w w' Hs Ha. by apply unchanged_promise.
  - intros w w' d d' Hw Hd Hs _ Hw' Ha. split; [|done]. by apply (cluster_write w w' d d' (store w)).
  - intros w w' d d' k old Hw Hd Hs _ _ Hw' Ha. apply (cluster_write w w' d d' (delete k (store w))); [done..| |done|done].
    by intros j x [_ ?]%lookup_delete_Some.
  - intros w w' k Hw _ Hw' Ha. apply promise_clusters; [done..|]. intros j x. rewrite Hw'.
    intros [_ ?]%lookup_delete_Some. by left.
Qed.

#[export] Instance async_keeper :
  Keeper (W := W) (D := AsyncOperationDocument) well_kept promise same_clusters good_async
    (fun a _ => is_Some (ad_AsyncOperation a)) good_async
    (fun a w => registered (ad_OpenShiftClusterKey a) (ad_ID a) w) False.
Proof.
  split; try apply _; [apply (sh_now (db := db))|apply (sh_sleep (db := db))|..].
  - intros w d Hw Hd. destruct (wk_async _ Hw _ _ Hd) as [_ Ha]. split; [done|]. by exists d.
  - intros w w' Hs Ha. by apply unchanged_promise.
  - intros w w' a a' Hw Ha Hs Hn Hw' Hc. by eapply async_post.
  - intros w w' a a' k old Hw Ha Hs Hk Hi Hw' Hc. by eapply async_put.
  - done.
Qed.

(** *** Clusters *)
Abbreviation cdb := (db_OpenShiftClusters db).

Lemma clusters_Get_kept P key : stable P -> keeps P (OpenShiftClusters.Get cdb key) good_cluster.
Proof.
  intros HP. unfold OpenShiftClusters.Get. case_decide; [kept_ends|]. kept_lift. intros pk _.
  kept_step; [apply (QueryAll_triple (KE := clusters_keeper) _ _ promise_keeps); [apply (sh_clusters_retries (db := db))|done]|].
  intros docs. destruct (ds_Documents docs) as [|d [|]] eqn:Hl; [kept_ends| |kept_ends].
  kept_ret. intros w _ [_ Hs]. apply Hs. rewrite Hl. by left.
Qed.

Lemma clusters_Create_kept P doc :
  stable P -> (forall w, well_kept w -> P w -> good_cluster doc w) ->
  keeps P (OpenShiftClusters.Create cdb doc) (fun out w => forall d, out = Some d -> good_cluster d w).
Proof.
  intros HP Hd. unfold OpenShiftClusters.Create. case_decide; [kept_ends|]. kept_lift. intros pk _.
  kept_step; [apply triple_try, (Create_triple (KE := clusters_keeper) _ _ promise_keeps); [apply (sh_clusters_retries (db := db))|done|exact Hd]|].
  intros [out|e]; simpl; unfold unwrap.
  - kept_ret. intros w _ [_ [_ Hout]] d Hd'. by apply Hout.
  - repeat case_match; try kept_ends; simplify_eq.
Qed.

Lemma clusters_update_kept P doc o :
  stable P -> (forall w, well_kept w -> P w -> good_cluster doc w) ->
  keeps P (OpenShiftClusters.update cdb doc o)
    (fun out w => forall d, out = Some d -> good_cluster d w /\ stored_from doc d).
Proof.
  intros HP Hd. unfold OpenShiftClusters.update. case_decide; [kept_ends|].
  apply (Replace_triple (KE := clusters_keeper) _ _ promise_keeps); [apply (sh_clusters_retries (db := db))|done|exact Hd].
Qed.

Lemma clusters_Delete_kept P doc : stable P -> keeps P (OpenShiftClusters.Delete cdb doc) (fun _ _ => True).
Proof.
  intros HP. unfold OpenShiftClusters.Delete. case_decide; [kept_ends|].
  by apply (Delete_triple (KE := clusters_keeper) _ _ promise_keeps); [apply (sh_clusters_retries (db := db))|..].
Qed.

(** A patch that makes good documents of good documents *)
Lemma clusters_patch_kept P key f o :
  stable P -> (forall doc, keeps (fun w => P w /\ good_cluster doc w) (f doc) good_cluster) ->
  keeps P (OpenShiftClusters.patch cdb key f o) (fun out w => forall d, out = Some d -> good_cluster d w).
Proof.
  intros HP Hf. unfold OpenShiftClusters.patch, patch_loop, RetryOnPreconditionFailed.
  eapply triple_retry; [apply _|exact promise_keeps|done|apply (sh_sleep (db := db))|].
  kept_step; [by apply clusters_Get_kept|]. intros doc. kept_step; [apply Hf|]. intros doc'.
  kept_weaken; [apply (clusters_update_kept (good_cluster doc')); [apply _|done]|by intros w [_ ?]|].
  intros out w _ Hq d Hd. by apply Hq.
Qed.

(** *** The queue *)
Definition at_work doc w : Prop := good_cluster doc w /\ has_work doc.
#[export] Instance at_work_stable doc : stable (at_work doc).
Proof. unfold at_work. apply _. Qed.

Lemma taken_at_work doc doc' w :
  at_work doc w -> stored_from (OpenShiftClusters.take cdb doc) doc' -> has_work doc'.
Proof. intros [_ Hs] (_ & _ & _ & Hc)%cluster_fields. unfold has_work. by rewrite Hc. Qed.

Lemma take_good doc w : at_work doc w -> good_cluster (OpenShiftClusters.take cdb doc) w.
Proof. intros [[_ Hop] Hs]. split; [by apply cluster_ok_work|done]. Qed.

Definition all_at_work (docs : list OpenShiftClusterDocument) w : Prop := forall d, d ∈ docs -> at_work d w.
#[export] Instance all_at_work_stable docs : stable (all_at_work docs).
Proof. intros w w' Hw HG H d Hd. eapply at_work_stable; [done..|]. by apply H. Qed.

Lemma first_update_kept docs :
  keeps (all_at_work docs)
    (first_update (fun doc => OpenShiftClusters.update cdb (OpenShiftClusters.take cdb doc) (Some renewLease)) docs)
    (fun r w => forall d, r = Some (Some d) -> at_work d w).
Proof.
  induction docs as [|doc docs IH]; simpl; [by kept_ret|].
  kept_step.
  { apply triple_try, (clusters_update_kept (all_at_work (doc :: docs))); [apply _|].
    intros w _ Hd. apply take_good, Hd. by left. }
  intros r. case_match.
  - kept_weaken; [apply IH| |done]. intros w [Hd _] d Hin. apply Hd. by right.
  - destruct r as [out|e]; simpl; [|kept_ends]. apply (triple_bind_lift _ _ _ _ (Ok out)). intros ? [= <-].
    kept_ret. intros w _ [Hall Hout] d [= ->]. destruct (Hout d eq_refl) as [Hg Hs].
    split; [done|]. eapply taken_at_work; [|done]. apply Hall. by left.
Qed.

Lemma Dequeue_kept :
  keeps (fun _ => True) (OpenShiftClusters.Dequeue cdb) (fun r w => forall d, r = Some d -> at_work d w).
Proof.
  unfold OpenShiftClusters.Dequeue.
  assert (forall i, qi_query i = OpenShiftClusters.query_dequeue ->
    keeps (fun _ => True) (dequeue_loop (Next (OpenShiftClusters.c cdb))
      (fun doc => OpenShiftClusters.update cdb (OpenShiftClusters.take cdb doc) (Some renewLease)) page_bound i)
      (fun r w => forall d, r = Some d -> at_work d w)) as H; [|by apply H].
  induction page_bound as [|fuel IH]; intros i Hi; simpl; [by apply triple_lift; [apply _|]|].
  kept_step; [apply (Next_triple (KE := clusters_keeper) _ _ promise_keeps); [apply (sh_clusters_retries (db := db))|apply _]|].
  intros [[docs|] i']; [|by kept_ret].
  eapply (triple_pure _ _ _ (qi_query i' = OpenShiftClusters.query_dequeue));
    [intros w _ [_ [Hq _]]; simpl in Hq; congruence|]. intros Hi'.
  eapply triple_mono with (P := all_at_work (ds_Documents docs)); [exact promise_keeps| | |intros a w _ Hq; exact Hq].
  - kept_step; [apply first_update_kept|]. intros [out|].
    + kept_ret. intros w _ [_ Hout] d ->. by apply Hout.
    + kept_weaken; [by apply IH|done|done].
  - intros w [_ [_ Hs]] d Hd. destruct (Hs docs eq_refl d Hd) as [Hg (pk & t & Hm)]. rewrite Hi in Hm.
    split; [done|]. apply (sh_dequeue (db := db)) in Hm. destruct Hg as [Hc _]. by eapply dequeuable_work.
Qed.

Lemma Lease_kept key : steps Kept (OpenShiftClusters.Lease cdb key).
Proof.
  eapply steps_of_triple; [apply (clusters_patch_kept (fun _ => True)); [apply _|]|done].
  intros doc. unfold OpenShiftClusters.with_lease. case_decide; [kept_ends|]. kept_ret. by intros w _ [_ ?].
Qed.

(** What the end of a lease leaves is finished. *)
Lemma end_lease_good ps fps doc doc' w :
  terminal ps = true -> (ps = ProvisioningStateFailed -> working fps) ->
  OpenShiftClusters.end_lease ps fps doc = Ok doc' -> good_cluster doc' w.
Proof.
  intros Ht Hf. unfold OpenShiftClusters.end_lease. destruct (ocd_OpenShiftCluster doc) as [oc|]; [|done].
  intros [= <-]. split; [|by case_decide].
  exists (set_failed_state fps (set_state ps oc)). split; [by case_decide|right]. by split_and!; try case_decide.
Qed.

Lemma EndLease_kept P key ps fps :
  stable P -> terminal ps = true -> (ps = ProvisioningStateFailed -> working fps) ->
  keeps P (OpenShiftClusters.EndLease cdb key ps fps) (fun _ _ => True).
Proof.
  intros HP Ht Hf. kept_weaken; [apply (clusters_patch_kept P); [done|]|done|done].
  intros doc. unfold OpenShiftClusters.with_lease. case_decide; [kept_ends|].
  apply triple_lift; [apply _|]. intros d w Hd _ _. by eapply end_lease_good.
Qed.

(** *** Operations *)
Abbreviation adb := (db_AsyncOperations db).

Lemma async_Create_kept P a :
  stable P -> is_Some (ad_AsyncOperation a) ->
  keeps P (AsyncOperations.Create adb a) (fun _ => registered (ad_OpenShiftClusterKey a) (ad_ID a)).
Proof.
  intros HP Ha. unfold AsyncOperations.Create. case_decide; [kept_ends|].
  kept_step; [apply triple_try, (Create_triple (KE := async_keeper) _ _ promise_keeps);
    [apply (sh_async_retries (db := db))|done|done]|].
  intros [out|e]; simpl; unfold unwrap.
  - kept_ret. by intros w _ [_ [? _]].
  - repeat case_match; try kept_ends; simplify_eq.
Qed.

Lemma async_Get_kept P id :
  stable P -> keeps P (AsyncOperations.Get adb id) (fun out w => forall a, out = Some a -> good_async a w).
Proof.
  intros HP. unfold AsyncOperations.Get. case_decide; [kept_ends|].
  by apply (Get_triple (KE := async_keeper) _ _ promise_keeps); [apply (sh_async_retries (db := db))|].
Qed.

(** A patch may not take an operation from its cluster. *)
Lemma async_Patch_kept P id f :
  stable P -> (forall a, keeps (fun w => P w /\ good_async a w) (f a) good_async) ->
  keeps P (AsyncOperations.Patch adb id f) (fun _ _ => True).
Proof.
  intros HP Hf. unfold AsyncOperations.Patch, patch_loop, RetryOnPreconditionFailed.
  eapply triple_retry; [apply _|exact promise_keeps|done|apply (sh_sleep (db := db))|].
  kept_step.
  { kept_step; [by apply async_Get_kept|]. intros out. apply triple_lift; [apply _|].
    intros a w Ha%deref_ok _ [_ Hg]. by apply Hg. }
  intros a. kept_step; [apply Hf|]. intros a'.
  kept_weaken; [apply (Replace_triple (KE := async_keeper) _ _ promise_keeps); [apply (sh_async_retries (db := db))|apply (good_async_stable a')|done]|by intros w [_ ?]|done].
Qed.

(** *** Subscriptions: whatever is asked of them *)
Lemma now_kept : steps Kept time_Now.
Proof. apply (sh_now (db := db)). Qed.
Lemma sleep_kept n : steps Kept (time_Sleep n).
Proof. apply (sh_sleep (db := db)). Qed.
Lemma uuid_kept : steps Kept uuid_NewV4.
Proof. apply (sh_uuid (db := db)). Qed.
Lemma sub_request_kept (req : Cosmos.Request SubscriptionDocument) : steps Kept (hc_Do req).
Proof. apply (sh_subscriptions (db := db)). Qed.
#[local] Hint Resolve now_kept sleep_kept uuid_kept sub_request_kept : steps.

Lemma subs_Get_kept id : steps Kept (Subscriptions.Get (db_Subscriptions db) id).
Proof. by apply subs_Get_frame; [apply _|eauto with steps..]. Qed.
Lemma subs_Create_kept (d : SubscriptionDocument) : steps Kept (Subscriptions.Create (db_Subscriptions db) d).
Proof. by apply subs_Create_frame; [apply _|eauto with steps..]. Qed.
Lemma subs_update_kept (d : SubscriptionDocument) o : steps Kept (Subscriptions.update (db_Subscriptions db) d o).
Proof. by apply subs_update_frame; [apply _|eauto with steps..]. Qed.
Lemma subs_patch_kept id f o :
  (forall d : SubscriptionDocument, steps Kept (f d)) -> steps Kept (Subscriptions.patch (db_Subscriptions db) id f o).
Proof. intros. by apply subs_patch_frame; [apply _|eauto with steps..]. Qed.
#[local] Hint Resolve subs_Get_kept subs_Create_kept subs_update_kept subs_patch_kept : steps.

(** ** The front end's handlers *)
Section front.
Context `{!Cell W Header} {EV : Env} {U : Url} {CD : Codec}.
Context (header_kept : forall h : Header, steps Kept (set_cell h)).
Context (apis : gmap string (Version W)) (feature_operations : bool).
Context (versions_kept : forall k v oc, apis !! k = Some v -> steps Kept (v_Dynamic v oc)).
Implicit Types (r : Frontend.Request).

Lemma get_header_kept : steps Kept (get_cell (A := Header)).
Proof. intros w. reflexivity. Qed.
#[local] Hint Resolve header_kept get_header_kept : steps.

Lemma get_kept key : steps Kept (OpenShiftClusters.Get cdb key).
Proof. by eapply steps_of_triple; [apply (clusters_Get_kept (fun _ => True)); apply _|]. Qed.
Lemma async_get_kept id : steps Kept (AsyncOperations.Get adb id).
Proof. by eapply steps_of_triple; [apply (async_Get_kept (fun _ => True)); apply _|]. Qed.
Lemma next_kept i : steps Kept (Next (D := OpenShiftClusterDocument) (OpenShiftClusters.c cdb) i).
Proof.
  eapply (steps_of_triple _ _ (fun _ => True)); [|done].
  apply (Next_triple (KE := clusters_keeper) _ _ promise_keeps _ (sh_clusters_retries (db := db)) (fun _ => True)). apply _.
Qed.
#[local] Hint Resolve get_kept async_get_kept next_kept : steps.

Lemma validateSubscriptionState_kept key states : steps Kept (validateSubscriptionState db key states).
Proof. unfold validateSubscriptionState. steps_auto. Qed.
#[local] Hint Resolve validateSubscriptionState_kept : steps.

(** A statement that keeps the promise by itself *)
Ltac kept_quiet := kept_step; [eapply triple_of_steps; solve [steps_auto]|intros ?].

Lemma newAsyncOperation_kept P r doc :
  stable P -> keeps P (newAsyncOperation db r doc) (fun id => registered (ocd_Key doc) id).
Proof.
  intros HP. unfold newAsyncOperation. kept_quiet. kept_lift. intros oc _. kept_quiet.
  kept_step; [apply async_Create_kept; [apply _|done]|]. intros out. kept_ret. by intros w _ [_ ?].
Qed.

Lemma put_document_kept P b doc :
  stable P -> (forall w, well_kept w -> P w -> good_cluster doc w) ->
  keeps P (put_document db b doc) (fun _ _ => True).
Proof.
  intros HP Hd. unfold put_document. destruct b.
  - kept_step; [apply triple_try, clusters_Create_kept; [done|exact Hd]|]. intros [out|e]; [by kept_ret|].
    destruct (IsErrorStatusCode _ _); kept_ends.
  - kept_weaken; [by apply (clusters_update_kept P)|done|done].
Qed.

Lemma enqueue_work b doc oc : has_work (enqueue b doc oc).
Proof. unfold enqueue. destruct b; eexists; (split; [reflexivity|]); unfold working; [by left|by right; left]. Qed.
Lemma enqueue_key b doc oc : ocd_Key (enqueue b doc oc) = ocd_Key doc.
Proof. by destruct b. Qed.

(** A document with work in it and a registered operation may be stored. *)
Lemma enqueued_good doc id w :
  has_work doc -> registered (ocd_Key doc) id w -> good_cluster (doc <| ocd_AsyncOperationID := id |>) w.
Proof. intros Hd Hr. split; [by apply cluster_ok_work|done]. Qed.

Lemma _put_kept v r :
  (forall oc, steps Kept (v_Dynamic v oc)) -> steps Kept (_putOrPatchOpenShiftCluster db feature_operations v r).
Proof.
  intros Hv. unfold _putOrPatchOpenShiftCluster.
  apply steps_bind; [apply _|steps_auto|intros sd]. apply steps_bind; [apply _|steps_auto|intros found].
  apply steps_bind; [apply _|steps_auto|intros [b doc]].
  do 3 (apply steps_bind; [apply _|steps_auto|intros ?]).
  pose proof (enqueue_work b doc a1) as Hwork. set (d1 := enqueue b doc a1) in *. clearbody d1.
  do 2 (apply steps_bind; [apply _|solve [steps_auto]|intros ?]).
  eapply (steps_of_triple _ _ (fun _ => True) (fun _ _ => True)); [|done].
  kept_step; [apply newAsyncOperation_kept; apply _|]. intros id. unfold set_async_header. kept_quiet.
  kept_step; [apply (put_document_kept _ _ _ _)|].
  { intros w _ [[_ Hr] _]. by apply enqueued_good. }
  intros out. kept_lift. intros d2 _. kept_lift. intros oc2 _. by kept_ret.
Qed.

Lemma put_kept r : steps Kept (putOrPatchOpenShiftCluster db apis feature_operations r).
Proof.
  unfold putOrPatchOpenShiftCluster. apply steps_bind; [apply _|steps_auto|intros _].
  apply steps_bind_lift; [apply _|]. intros v Hv%deref_ok.
  apply steps_bind; [apply _| |intros ?; steps_auto].
  apply steps_try, Retry_steps; [apply _|apply sleep_kept|]. apply _put_kept. intros oc. by eapply versions_kept.
Qed.

(** A DELETE *)
Lemma enqueue_delete_work doc oc : ocd_OpenShiftCluster doc = Some oc -> has_work (enqueue_delete doc).
Proof.
  intros Hoc. destruct doc; cbn in Hoc; subst. exists (set_state ProvisioningStateDeleting oc). split; [done|by right; right].
Qed.

Lemma _delete_kept P r doc :
  stable P -> keeps P (_deleteOpenShiftCluster db feature_operations r doc) good_cluster.
Proof.
  intros HP. unfold _deleteOpenShiftCluster. kept_quiet. kept_lift. intros oc Hoc%deref_ok. kept_lift. intros _ _.
  apply enqueue_delete_work in Hoc. 
  kept_step; [apply newAsyncOperation_kept; apply _|]. intros id. unfold delete_header. kept_quiet.
  kept_ret. intros w _ [[_ Hr] _]. by apply enqueued_good.
Qed.

Lemma delete_kept r : steps Kept (deleteOpenShiftCluster db feature_operations r).
Proof.
  unfold deleteOpenShiftCluster. apply steps_bind; [apply _|steps_auto|intros _].
  apply steps_bind; [apply _| |intros ?; steps_auto]. apply steps_try.
  eapply (steps_of_triple _ _ (fun _ => True)); [|done].
  apply (clusters_patch_kept (fun _ => True)); [apply _|]. intros doc. apply _delete_kept. apply _.
Qed.

Lemma list_pages_kept fuel i l : steps Kept (list_pages db fuel i l).
Proof. revert i l. induction fuel; intros; simpl; steps_auto. Qed.
#[local] Hint Resolve list_pages_kept : steps.

(** The handlers that read, and the one that writes a subscription *)
Lemma readers_kept r :
  steps Kept (getOpenShiftCluster db apis r) /\ steps Kept (getOpenShiftClusters db apis r) /\
  steps Kept (postOpenShiftClusterCredentials db apis r) /\ steps Kept (getAsyncOperationResult db apis r) /\
  steps Kept (getAsyncOperationsStatus db r).
Proof.
  unfold getOpenShiftCluster, getOpenShiftClusters, postOpenShiftClusterCredentials, getAsyncOperationResult,
    getAsyncOperationsStatus, reply_bytes.
  split_and!.
  - unfold _getOpenShiftCluster, get_cluster. steps_auto.
  - unfold _getOpenShiftClusters. steps_auto.
  - unfold _postOpenShiftClusterCredentials, get_cluster. steps_auto.
  - unfold _getAsyncOperationResult, get_operation, in_progress. steps_auto.
  - unfold _getAsyncOperationsStatus, get_operation, in_progress. steps_auto.
Qed.

Lemma putSubscription_kept r : steps Kept (putSubscription db r).
Proof.
  unfold putSubscription. apply steps_bind; [apply _| |steps_auto]. apply steps_try.
  apply Retry_steps; [apply _|apply sleep_kept|]. unfold _putSubscription, Subscriptions.Update. steps_auto.
Qed.
End front.

(** ** The back end's workers *)
Section back.
Context `{!ClusterManager W}.
Context (manager_kept : forall doc, steps Kept (NewManager doc)).
Context (create_kept : forall m, steps Kept (Manager_Create m)) (update_kept : forall m, steps Kept (Manager_Update m)).
Context (remove_kept : forall m, steps Kept (Manager_Delete m)).
#[local] Hint Resolve manager_kept create_kept update_kept remove_kept : steps.

Lemma finish_operation_good oc ps fps now a a' w :
  finish_operation oc ps fps now a = Ok a' -> good_async a w -> good_async a' w.
Proof.
  unfold finish_operation. destruct (ad_AsyncOperation a) as [ao|]; [|done]. simpl.
  intros [= <-] [_ Hr]. by destruct oc.
Qed.

Lemma updateAsyncOperation_kept id oc ps fps : steps Kept (updateAsyncOperation db id oc ps fps).
Proof.
  unfold updateAsyncOperation. case_decide; [steps_auto|]. apply steps_bind; [apply _| |steps_auto].
  eapply (steps_of_triple _ _ (fun _ => True)); [|done]. apply (async_Patch_kept (fun _ => True)); [apply _|].
  intros a. kept_step; [eapply triple_of_steps, now_kept|]. intros now.
  apply triple_lift; [apply _|]. intros a' w Ha _ [[_ Hg] _]. by eapply finish_operation_good.
Qed.

Lemma with_ctx_kept {A} b (m : M W A) : steps Kept m -> steps Kept (with_ctx b m).
Proof. destruct b; [done| |done]. steps_auto. Qed.
Lemma lease_kept doc : steps Kept (lease db doc).
Proof. apply Lease_kept. Qed.
Lemma beat_kept doc n b : steps Kept (heartbeat (lease db doc) n b).
Proof. apply heartbeat_steps; [apply _|apply lease_kept]. Qed.
#[local] Hint Resolve updateAsyncOperation_kept with_ctx_kept beat_kept : steps.

(** A worker that gives up reports the work it was to do. *)
Lemma endLease_kept stop doc ps :
  terminal ps = true -> (ps = ProvisioningStateFailed -> has_work doc) -> steps Kept (endLease db stop doc ps).
Proof.
  intros Ht Hw. unfold endLease.
  assert (forall fps, (ps = ProvisioningStateFailed -> working fps) ->
    steps Kept (OpenShiftClusters.EndLease cdb (ocd_Key doc) ps fps)) as HE.
  { intros fps Hf. eapply (steps_of_triple _ _ (fun _ => True)); [|done].
    by apply (EndLease_kept (fun _ => True)); [apply _|..]. }
  eapply (steps_of_triple _ _ (fun _ => True) (fun _ _ => True)); [|done].
  eapply triple_bind with (Q := fun fps _ => ps = ProvisioningStateFailed -> working fps);
    [apply _|exact promise_keeps|apply _| |].
  - case_decide as Hps; [|by kept_ret]. kept_lift. intros oc Hoc%deref_ok. kept_ret. intros w _ _ _.
    destruct (Hw Hps) as (oc' & Hoc' & ?). by simplify_eq.
  - intros fps. apply (triple_pure _ _ _ (ps = ProvisioningStateFailed -> working fps)); [tauto|]. intros Hf.
    apply triple_of_steps. specialize (HE fps Hf). steps_auto.
Qed.

Lemma endLease_any stop doc ps : has_work doc -> terminal ps = true -> steps Kept (endLease db stop doc ps).
Proof. intros. by apply endLease_kept. Qed.

Lemma work_kept s b doc m : has_work doc -> steps Kept m -> steps Kept (work db s b doc m).
Proof.
  intros Hw Hm. unfold work. apply steps_bind; [apply _|steps_auto|intros r].
  apply steps_bind; [apply _|steps_auto|intros b']. apply endLease_any; [done|by destruct r].
Qed.

Lemma delete_cluster_kept s b doc m : has_work doc -> steps Kept (delete_cluster db s b doc m).
Proof.
  intros Hw. unfold delete_cluster. apply steps_bind; [apply _|steps_auto|intros r].
  apply steps_bind; [apply _|steps_auto|intros b']. destruct r; [|by apply endLease_any].
  apply steps_bind; [apply _|steps_auto|intros r]. destruct r; [|by apply endLease_any].
  apply steps_bind; [apply _|steps_auto|intros b'']. apply with_ctx_kept.
  eapply (steps_of_triple _ _ (fun _ => True)); [|done]. apply (clusters_Delete_kept (fun _ => True)). apply _.
Qed.

Lemma handle_kept s doc : has_work doc -> steps Kept (handle db s doc).
Proof.
  intros Hw. unfold handle. apply steps_bind; [apply _|steps_auto|intros m].
  apply steps_bind; [apply _|steps_auto|intros b]. destruct m as [m|e]; [|by apply endLease_any].
  apply steps_bind; [apply _|steps_auto|intros oc].
  repeat case_decide; [by apply work_kept..|by apply delete_cluster_kept|steps_auto].
Qed.

Lemma try_kept :
  keeps (fun _ => True) (ocb_try db) (fun t w => forall d, spawned t = Some d -> at_work d w).
Proof.
  unfold ocb_try. kept_step; [apply triple_try, Dequeue_kept|]. intros [[doc|]|e]; [|by kept_ret..].
  kept_lift. intros _ _. case_decide.
  - eapply (triple_pure _ _ _ (has_work doc)); [intros w _ [_ Hd]; by apply (Hd doc)|]. intros Hw.
    kept_step; [eapply triple_of_steps, steps_try, endLease_kept; done|]. intros r. by kept_ret.
  - kept_ret. intros w _ [_ Hd] d [= <-]. by apply Hd.
Qed.
End back.

(** ** The deletion of a subscription's clusters *)
Section subscriptions.
Context `{!Cell W bool} (cell_kept : forall b : bool, steps Kept (set_cell b)).

Lemma delete_one_kept P doc : stable P -> (forall w, P w -> good_cluster doc w) -> keeps P (delete_one doc) good_cluster.
Proof.
  intros HP Hd. unfold delete_one. kept_lift. intros oc Hoc%deref_ok.
  case_decide; [|case_decide; [|case_decide; [|kept_ends]]].
  - kept_step; [eapply triple_of_steps, cell_kept|]. intros []. kept_ret. intros w _ [Hp _]. by apply Hd.
  - kept_ret. intros w _ Hp. by apply Hd.
  - kept_ret. intros w _ Hp. destruct (Hd w Hp) as [_ Hop]. split; [|done].
    apply cluster_ok_work. destruct doc; cbn in Hoc; subst.
    exists (set_state ProvisioningStateDeleting oc). by split; [|right; right].
Qed.

Lemma delete_docs_kept docs : steps Kept (delete_docs db docs).
Proof.
  induction docs as [|doc docs IH]; simpl; [steps_auto|]. apply steps_bind; [apply _| |by intros _].
  eapply (steps_of_triple _ _ (fun _ => True)); [|done].
  apply (clusters_patch_kept (fun _ => True)); [apply _|]. intros d. apply delete_one_kept; [apply _|tauto].
Qed.

Lemma delete_pages_kept fuel i : steps Kept (delete_pages db fuel i).
Proof.
  revert i. induction fuel as [|fuel IH]; intros i; simpl; [steps_auto|].
  apply steps_bind; [apply _|apply next_kept|]. intros [[docs|] i']; [|steps_auto].
  apply steps_bind; [apply _|apply delete_docs_kept|by intros _].
Qed.

Lemma handleDelete_kept d : steps Kept (handleDelete db d).
Proof.
  unfold handleDelete. apply steps_bind; [apply _|steps_auto|intros i].
  apply steps_bind; [apply _|apply cell_kept|intros _].
  apply steps_bind; [apply _|apply delete_pages_kept|intros _]. intros w. reflexivity.
Qed.

Lemma sub_lease_kept d : steps Kept (sub_lease db d).
Proof.
  unfold sub_lease, Subscriptions.Lease, Subscriptions.patchWithLease, Subscriptions.with_lease.
  apply subs_patch_kept. intros d'. steps_auto.
Qed.
Lemma sub_beat_kept d n b : steps Kept (heartbeat (sub_lease db d) n b).
Proof. apply heartbeat_steps; [apply _|apply sub_lease_kept]. Qed.

Lemma sub_endLease_kept stop d done later : steps Kept (sub_endLease db stop d done later).
Proof.
  pose proof sub_beat_kept. pose proof @with_ctx_kept. unfold sub_endLease, Subscriptions.EndLease, Subscriptions.patchWithLease.
  apply steps_bind; [apply _|steps_auto|intros b]. apply steps_bind; [apply _| |steps_auto].
  apply with_ctx_kept, subs_patch_kept. unfold Subscriptions.with_lease. intros d'. steps_auto.
Qed.

Lemma sub_handle_kept s d : steps Kept (sub_handle db s d).
Proof.
  unfold sub_handle. apply steps_bind; [apply _|apply sub_beat_kept|intros b].
  apply steps_bind; [apply _|apply steps_try, with_ctx_kept, handleDelete_kept|intros r].
  apply steps_bind; [apply _|apply sub_beat_kept|intros b']. destruct r; apply sub_endLease_kept.
Qed.

Lemma sub_try_kept : steps Kept (sb_try db).
Proof.
  unfold sb_try. apply steps_bind; [apply _|apply steps_try|intros r].
  - unfold Subscriptions.Dequeue. generalize (Query_ (EmptyString) Subscriptions.query_dequeue None).
    induction page_bound as [|fuel IH]; intros i; simpl; [steps_auto|].
    apply steps_bind; [apply _|by apply Next_frame; [apply _|eauto with steps..]|].
    intros [[docs|] i']; [|steps_auto]. apply steps_bind; [apply _| |intros [out|]; [steps_auto|apply IH]].
    induction (ds_Documents docs) as [|x l IHl]; simpl; [steps_auto|].
    apply steps_bind; [apply _|steps_auto|intros r]. destruct (is_status _ _); [done|unfold unwrap; steps_auto].
  - destruct r as [[d|]|e]; [|steps_auto..]. case_decide; [|steps_auto].
    apply steps_bind; [apply _|apply steps_try, sub_endLease_kept|intros r; steps_auto].
Qed.
End subscriptions.
End shared.
