(* ===== verification/InstallSpec.v ===== *)
(** * What the manager does to the account

    An installation writes to the account only through the patches of its own
    cluster. Whatever its surroundings promise about the world, and its patches keep,
    every run of the manager keeps, errors and panics included. *)
From S2P Require Import Prelude GoStrings.
From S2P Require Import Azure Api Net Cidr Services Subnets Wait Kube.
From S2P Require Import Cosmos Database Backend Manager.
From S2P Require Import Graph Arm InstallTemplates Install Create.
From S2P Require Import CosmosLaws CosmosSpec Frame DatabaseSpec Backend Rely Lifecycle.

(** ** What an installation writes

    [blank] is the cluster without what an installation puts into it. *)
Definition blank (oc : OpenShiftCluster) : OpenShiftCluster :=
  oc <| oc_Properties -> p_Install := None |>
     <| oc_Properties -> p_SSHKey := None |>
     <| oc_Properties -> p_StorageSuffix := EmptyString |>
     <| oc_Properties -> p_AdminKubeconfig := None |>
     <| oc_Properties -> p_KubeadminPassword := EmptyString |>
     <| oc_Properties -> p_NetworkProfile -> np_PrivateEndpointIP := EmptyString |>
     <| oc_Properties -> p_APIServerProfile -> asp_IP := EmptyString |>
     <| oc_Properties -> p_APIServerProfile -> asp_URL := EmptyString |>
     <| oc_Properties -> p_ConsoleProfile -> cons_URL := EmptyString |>
     <| oc_Properties -> p_IngressProfiles ::= option_map (map (fun ip => ip <| ip_IP := EmptyString |>)) |>.
Definition phase_in (oc : OpenShiftCluster) : option InstallPhase := i_Phase <$> p_Install (oc_Properties oc).

(** A cluster with what one phase more has written, the phase itself aside *)
Record outputs (oc oc' : OpenShiftCluster) : Prop := {
  out_blank : blank oc' = blank oc;
  out_phase : phase_in oc' = phase_in oc;
}.
(** The addresses a finished installation is found under *)
Definition addressed (oc : OpenShiftCluster) : Prop := exists name,
  asp_URL (p_APIServerProfile (oc_Properties oc)) = "https://api." +:+ name +:+ ":6443/" /\
  cons_URL (p_ConsoleProfile (oc_Properties oc)) = "https://console-openshift-console.apps." +:+ name +:+ "/".

Lemma storage_done_outputs now k oc oc' : storage_done now k oc = Ok oc' -> outputs oc oc'.
Proof.
  unfold storage_done. destruct (p_Install (oc_Properties oc)) as [i|] eqn:Hi; [|done].
  intros [= <-]. split; [by destruct oc|]. unfold phase_in. cbn. by rewrite Hi.
Qed.
Lemma resources_done_outputs a b oc : outputs oc (resources_done a b oc).
Proof. by split. Qed.
Lemma bootstrap_done_outputs c r p oc oc' : bootstrap_done c r p oc = Ok oc' -> outputs oc oc' /\ addressed oc'.
Proof.
  unfold bootstrap_done. destruct oc as [mf id n ty loc tags []]. simpl.
  destruct p_IngressProfiles as [[|ip l]|]; simpl; [intros [=]| |intros [=]]. intros [= <-]. split; [split; [|done]|by eexists].
  done.
Qed.
Lemma next_phase_ok oc oc' p :
  phase_in oc = Some p -> next_phase oc = Ok oc' -> blank oc' = blank oc /\ phase_in oc' = Some (int64 (p + 1)).
Proof.
  unfold phase_in, next_phase. destruct (p_Install (oc_Properties oc)) as [i|]; [|done]. by intros [= <-] [= <-].
Qed.
Lemma blank_states oc oc' : blank oc' = blank oc -> state_of oc' = state_of oc /\ failed_state_of oc' = failed_state_of oc.
Proof. intros H. split; [exact (f_equal state_of H)|exact (f_equal failed_state_of H)]. Qed.

(** What the manager calls besides the account: each call stays in [R]. *)
Class Around (W : Type) (R : W -> W -> Prop) `{!Auth W, !SubnetsClient W, !RecordSetsClient W}
    `{!PrivateEndpointsClient W, !GroupsClient W, !Ticks W, !InstallClients W, !Assets W}
    {CF : Config W} {KB : Kube W} {CR : Creation W} := {
  ar_authorizer t r : steps R (env_FPAuthorizer t r);
  ar_subnet_get s a g v n : steps R (subnets_Get s a g v n);
  ar_subnet_put s a g v n x : steps R (subnets_CreateOrUpdateAndWait s a g v n x);
  ar_record_get g d n : steps R (recordsets_Get g d n);
  ar_record_put g d n x m o : steps R (recordsets_CreateOrUpdate g d n x m o);
  ar_record_delete g d n m : steps R (recordsets_Delete g d n m);
  ar_endpoint_put g n x : steps R (privateendpoints_CreateOrUpdateAndWait g n x);
  ar_endpoint_delete g n : steps R (privateendpoints_DeleteAndWait g n);
  ar_endpoint_get g n x : steps R (privateendpoints_Get g n x);
  ar_group_delete s a g : steps R (groups_DeleteAndWait s a g);
  ar_tick : steps R (poller_tick (W := W));
  ar_until : steps R (until_tick (W := W));
  ar_sleep : steps R (backoff_Sleep (W := W));
  ar_group_put s a g x : steps R (groups_CreateOrUpdate s a g x);
  ar_role a g : steps R (CreateARMResourceGroupRoleAssignment a g);
  ar_deploy s a g n d : steps R (deployments_CreateOrUpdate s a g n d);
  ar_future f : steps R (WaitForCompletionRef f);
  ar_deployment s a g n : steps R (deployments_Get s a g n);
  ar_sas s a g n p : steps R (accounts_ListAccountSAS s a g n p);
  ar_blob_get a v c n : steps R (blob_Get a v c n);
  ar_blob_put a v c n b : steps R (blob_CreateBlockBlobFromReader a v c n b);
  ar_credentials c s t r : steps R (ClientCredentialsConfig_Authorizer c s t r);
  ar_application t a c : steps R (applications_GetServicePrincipalsIDByAppID t a c);
  ar_pip s a g n : steps R (publicipaddresses_Get s a g n);
  ar_vm s a g n : steps R (virtualmachines_DeleteAndWait s a g n);
  ar_disk s a g n : steps R (disks_DeleteAndWait s a g n);
  ar_nic s a g n : steps R (interfaces_DeleteAndWait s a g n);
  ar_generate a g : steps R (Generate a g);
  ar_configmap c ns n : steps R (configmaps_Get c ns n);
  ar_service c ns n : steps R (services_Get c ns n);
  ar_version_get c n : steps R (clusterversions_Get c n);
  ar_version_put c v : steps R (clusterversions_Update c v);
  ar_machinesets c ns : steps R (machinesets_List c ns);
  ar_machineset_get c ns n : steps R (machinesets_Get c ns n);
  ar_machineset_put c ns x : steps R (machinesets_Update c ns x);
  ar_key n : steps R (rsa_GenerateKey n);
  ar_rand n : steps R (rand_Int n);
  ar_vhd : steps R rhcos_VHD;
}.

Lemma around_weaken {W} (R R' : W -> W -> Prop) `{!Auth W, !SubnetsClient W, !RecordSetsClient W}
    `{!PrivateEndpointsClient W, !GroupsClient W, !Ticks W, !InstallClients W, !Assets W}
    {CF : Config W} {KB : Kube W} {CR : Creation W} :
  (forall w w', R w w' -> R' w w') -> Around W R -> Around W R'.
Proof.
  intros HR AR. assert (forall A (m : M W A), steps R m -> steps R' m) as Hs by (intros A m H w; apply HR, H).
  split; intros; apply Hs; apply AR.
Qed.

(** One statement after the other; [around] holds the calls that are known to stay. *)
Create HintDb around discriminated.
Ltac statement :=
  match goal with
  | |- steps _ (bind _ _) => apply steps_bind; [apply _| |intros ?]
  | |- steps _ (ret _) => apply steps_ret; apply _
  | |- steps _ (throw _) => apply steps_throw; apply _
  | |- steps _ (lift _) => apply steps_lift; apply _
  | |- steps _ (try _) => apply steps_try
  | |- steps _ (match ?x with _ => _ end) => destruct x
  | |- steps _ _ => solve [eauto 2 with around nocore]
  end.
Ltac statements := repeat statement.

Section around.
Context {W : Type} `{!Runtime W, !Account W} {PB : PageBound}.
Context {EV : Env} `{!Auth W, !SubnetsClient W, !RecordSetsClient W, !PrivateEndpointsClient W, !GroupsClient W}.
Context `{!Ticks W, !InstallClients W, !Assets W} {DP : Depth} {CF : Config W} {KB : Kube W} {CR : Creation W}.
Context (db : Database) (R : W -> W -> Prop) `{!PreOrder R} {AR : Around W R}.
Context (now_R : steps R time_Now) (uuid_R : steps R uuid_NewV4).
#[local] Hint Resolve now_R uuid_R ar_authorizer ar_subnet_get ar_subnet_put ar_record_get ar_record_put
  ar_record_delete ar_endpoint_put ar_endpoint_delete ar_endpoint_get ar_group_delete ar_tick ar_until ar_sleep
  ar_group_put ar_role ar_deploy ar_future ar_deployment ar_sas ar_blob_get ar_blob_put ar_credentials
  ar_application ar_pip ar_vm ar_disk ar_nic ar_generate ar_configmap ar_service ar_version_get ar_version_put
  ar_machinesets ar_machineset_get ar_machineset_put ar_key ar_rand ar_vhd : around.

(** *** Subnets, names and private endpoints *)
Lemma subnet_Get_steps m id : steps R (Subnets.Get m id).
Proof. unfold Subnets.Get. statements. Qed.
Lemma subnet_put_steps m id s : steps R (Subnets.CreateOrUpdate m id s).
Proof. unfold Subnets.CreateOrUpdate. statements. Qed.
Lemma dns_steps oc ip :
  steps R (Dns.Create oc) /\ steps R (Dns.Update oc ip) /\ steps R (Dns.CreateOrUpdateRouter oc ip) /\
  steps R (Dns.Delete oc).
Proof.
  unfold Dns.Create, Dns.Update, Dns.CreateOrUpdateRouter, Dns.Delete, Dns.createOrUpdate.
  split_and!; statements.
Qed.
Lemma endpoint_steps doc :
  steps R (PrivateEndpoints.Create doc) /\ steps R (PrivateEndpoints.GetIP doc) /\ steps R (PrivateEndpoints.Delete doc).
Proof.
  unfold PrivateEndpoints.Create, PrivateEndpoints.GetIP, PrivateEndpoints.Delete. split_and!; statements.
Qed.
Lemma dns_Create_steps oc : steps R (Dns.Create oc).
Proof. apply (dns_steps oc EmptyString). Qed.
Lemma dns_Update_steps oc ip : steps R (Dns.Update oc ip).
Proof. apply (dns_steps oc ip). Qed.
Lemma dns_router_steps oc ip : steps R (Dns.CreateOrUpdateRouter oc ip).
Proof. apply (dns_steps oc ip). Qed.
Lemma dns_Delete_steps oc : steps R (Dns.Delete oc).
Proof. apply (dns_steps oc EmptyString). Qed.
#[local] Hint Resolve subnet_Get_steps subnet_put_steps dns_Create_steps dns_Update_steps dns_router_steps
  dns_Delete_steps : around.
#[local] Hint Extern 1 (steps _ (PrivateEndpoints.Create _)) => apply endpoint_steps : around.
#[local] Hint Extern 1 (steps _ (PrivateEndpoints.GetIP _)) => apply endpoint_steps : around.
#[local] Hint Extern 1 (steps _ (PrivateEndpoints.Delete _)) => apply endpoint_steps : around.

(** *** The manager, but for [Create] *)
Lemma NewManager_steps doc : steps R (Manager.NewManager doc).
Proof. unfold Manager.NewManager. statements. Qed.

Lemma Delete_steps m : steps R (Manager.Delete m).
Proof.
  assert (forall oc l, steps R (detach_subnets m oc l)) as Hd.
  { intros oc l. induction l as [|id l IH]; simpl; [statements|]. unfold detach_subnet. statements. }
  unfold Manager.Delete. statements.
Qed.

Lemma Update_steps m : steps R (Manager.Update m).
Proof.
  assert (forall f l, (forall ms z, steps R (f ms z)) -> steps R (for_each f l)) as Hf.
  { intros f l H. induction l as [|[ms r] l IH]; simpl; statements. }
  assert (forall c ms z, steps R (set_replicas c ms z)) as Hset.
  { intros. apply RetryOnConflict_steps; [apply _|statements..]. }
  assert (forall c ms z, steps R (wait_replicas c ms z)) as Hwait.
  { intros. apply PollImmediate_steps; [apply _|statements..]. }
  unfold Manager.Update. statements; by apply Hf.
Qed.

(** *** The phases of an installation *)
Lemma resolve_steps fuel g a : steps R (resolve fuel g a).
Proof.
  revert g a. induction fuel as [|fuel IH]; intros g a; simpl; [statements|].
  assert (forall l g, steps R (resolve_each (resolve fuel) l g)) as Hl.
  { intros l. induction l as [|d l IHl]; intros g'; simpl; statements. }
  statements.
Qed.
Lemma resolve_all_steps l g : steps R (resolve_all l g).
Proof. revert g. induction l as [|a l IH]; intros g; simpl; [statements|]. apply steps_bind; [apply _|apply resolve_steps|done]. Qed.
Lemma blob_service_steps i : steps R (getBlobService i).
Proof. unfold getBlobService. statements. Qed.
#[local] Hint Resolve resolve_all_steps blob_service_steps : around.
Lemma getGraph_steps i : steps R (getGraph i).
Proof. unfold getGraph. statements. Qed.
Lemma deploy_steps i g d : steps R (deploy i g d).
Proof.
  unfold deploy, CreateOrUpdateAndWait, Wait. statements. apply Poll_steps; [apply _|statements..].
Qed.
Lemma attach_subnets_steps i oc l : steps R (attach_subnets i oc l).
Proof. induction l as [|id l IH]; simpl; [statements|]. unfold attach_subnet. statements. Qed.
Lemma service_principal_steps oc : steps R (service_principal_id oc).
Proof. unfold service_principal_id. statements. Qed.
Lemma wait_bootstrap_steps oc : steps R (wait_bootstrap oc).
Proof. unfold wait_bootstrap. statements. apply PollImmediateUntil_steps; [apply _|statements..]. Qed.
Lemma cluster_version_steps c : steps R (cluster_version c).
Proof.
  unfold cluster_version. statements.
  - apply PollImmediateUntil_steps; [apply _|statements..].
  - apply RetryOnConflict_steps; [apply _|statements..].
Qed.
#[local] Hint Resolve getGraph_steps deploy_steps attach_subnets_steps service_principal_steps wait_bootstrap_steps
  cluster_version_steps : around.

(** *** A phase

    Up to its patch a phase stays in [R], and so it does after it; [Φ] is between the
    cluster the patch is given and what it makes of it. *)
Definition patches (Φ : OpenShiftCluster -> OpenShiftCluster -> Prop) (f : OpenShiftCluster -> M W OpenShiftCluster) : Prop :=
  (forall oc, steps R (f oc)) /\ (forall oc w oc' w', f oc w = (Ok oc', w') -> Φ oc oc').
Definition passes (g : option OpenShiftClusterDocument -> M W (option OpenShiftClusterDocument)) : Prop :=
  forall doc, steps R (g doc) /\ forall w d w', g doc w = (Ok d, w') -> d = doc.
Definition stage Φ i (m : M W (option OpenShiftClusterDocument)) : Prop := forall w,
  (exists w1 f g, R w w1 /\ patches Φ f /\ passes g /\ m w = bind (patch_cluster db i f) g w1) \/
  (R w (snd (m w)) /\ is_ok (fst (m w)) = false).

Lemma stage_bind {A} Φ i (m : M W A) f : steps R m -> (forall a, stage Φ i (f a)) -> stage Φ i (bind m f).
Proof.
  intros Hm Hf w. specialize (Hm w).
  assert (bind m f w = match m w with (Ok a, w1) => f a w1 | (Err e, w1) => (Err e, w1)
    | (Panic p, w1) => (Panic p, w1) | (OutOfFuel, w1) => (OutOfFuel, w1) end) as Hb by done.
  destruct (m w) as [[a|e|p|] w1]; cbn [fst snd] in *; rewrite Hb; [|by right..].
  destruct (Hf a w1) as [(w2 & f' & g & HR & Hp & Hg & ->)|[HR H]]; [left|right; split; [by etransitivity|done]].
  exists w2, f', g. split_and!; [by etransitivity|done..].
Qed.
Lemma stage_then Φ i f g : patches Φ f -> passes g -> stage Φ i (bind (patch_cluster db i f) g).
Proof. intros Hf Hg w. left. exists w, f, g. by split_and!. Qed.
Lemma stage_patch Φ i f : patches Φ f -> stage Φ i (patch_cluster db i f).
Proof.
  intros Hf w. left. exists w, f, ret. split_and!; [done|done| |].
  - intros doc. split; [apply steps_ret; apply _|]. by intros ? ? ? [= ->].
  - unfold bind. by destruct (patch_cluster db i f w) as [[]].
Qed.
Lemma stage_throw Φ i e : stage Φ i (throw e).
Proof. intros w. by right. Qed.
Ltac stages :=
  repeat match goal with
  | |- stage _ _ (bind (patch_cluster _ _ _) _) => apply stage_then
  | |- stage _ _ (bind _ _) => apply stage_bind; [solve [statements]|intros ?]
  | |- stage _ _ (throw _) => apply stage_throw
  | |- stage _ _ (match ?x with _ => _ end) => destruct x
  | |- stage _ _ (patch_cluster _ _ _) => apply stage_patch
  end.

Lemma installStorage_stage i c p s : stage outputs i (installStorage db i c p s).
Proof.
  unfold installStorage. stages. split.
  - intros. statements.
  - intros oc' w oc'' w' (now & w1 & _ & [H _]%lift_inv)%bind_inv_ok. by eapply storage_done_outputs.
Qed.
Lemma installResources_stage i : stage outputs i (installResources db i).
Proof.
  unfold installResources. stages.
  - split; [intros; statements|]. intros oc' w oc'' w' [= <- <-]. by apply resources_done_outputs.
  - intros doc. split; [statements|].
    intros w d w' (? & ? & _ & (? & ? & _ & (? & ? & _ & [= <- _])%bind_inv_ok)%bind_inv_ok)%bind_inv_ok. done.
Qed.
Lemma removeBootstrap_stage i : stage (fun oc oc' => outputs oc oc' /\ addressed oc') i (removeBootstrap db i).
Proof.
  unfold removeBootstrap. stages. split; [intros; statements|].
  intros oc' w oc'' w' [H _]%lift_inv. by eapply bootstrap_done_outputs.
Qed.

Lemma NewInstaller_steps doc : steps R (NewInstaller doc).
Proof. unfold NewInstaller. statements. Qed.
Lemma getRHCOSImage_steps : steps R getRHCOSImage.
Proof. unfold getRHCOSImage. statements. Qed.
Lemma randomString_steps l n : steps R (randomString l n).
Proof. induction n as [|n IH]; simpl; statements. Qed.
Lemma draw_keys_steps oc : steps R (draw_keys oc).
Proof.
  unfold draw_keys, randomLowerCaseAlphanumericString. pose proof randomString_steps. statements.
Qed.
End around.

(** The keys a cluster has are kept; nothing else is touched. *)
Lemma draw_keys_blank {W} {CR : Creation W} oc (w : W) oc' w' :
  draw_keys oc w = (Ok oc', w') -> blank oc' = blank oc /\ phase_in oc' = phase_in oc.
Proof.
  unfold draw_keys. intros (oc1 & w1 & H1 & H2)%bind_inv_ok.
  assert (blank oc1 = blank oc /\ phase_in oc1 = phase_in oc) as [Hb Hp].
  { destruct (p_SSHKey (oc_Properties oc)); [by injection H1 as -> ->|].
    by apply bind_inv_ok in H1 as (k & w2 & _ & [= <- _]). }
  case_decide; [|by injection H2 as -> ->].
  by apply bind_inv_ok in H2 as (k & w2 & _ & [= <- _]).
Qed.

(** ** The manager keeps the promise *)
Section kept.
Context {W : Type} `{!Runtime W, !Account W}.
Context `{!Collection W OpenShiftClusterDocument, !Collection W AsyncOperationDocument}.
Context (db : Database) {SA : SharedAccount W db} {PB : PageBound}.
Context {EV : Env} `{!Auth W, !SubnetsClient W, !RecordSetsClient W, !PrivateEndpointsClient W, !GroupsClient W}.
Context `{!Ticks W, !InstallClients W, !Assets W} {DP : Depth} {CF : Config W} {KB : Kube W} {CR : Creation W}.
Abbreviation Kept := (guards (W := W) well_kept promise).
Context {AR : Around W Kept}.
#[local] Hint Resolve now_kept uuid_kept : around.

Lemma blanked_good doc oc oc' w :
  ocd_OpenShiftCluster doc = Some oc -> blank oc' = blank oc -> good_cluster doc w ->
  good_cluster (doc <| ocd_OpenShiftCluster := Some oc' |>) w.
Proof.
  intros Hoc [Hs Hf]%blank_states [(oc0 & H0 & Hok) Hop]. split; [|done]. rewrite Hoc in H0. injection H0 as <-.
  exists oc'. split; [done|]. unfold finished in *. rewrite Hs, Hf. by destruct doc.
Qed.

Lemma patch_kept key (f : OpenShiftCluster -> M W OpenShiftCluster) :
  patches Kept (fun oc oc' => blank oc' = blank oc) f ->
  steps Kept (OpenShiftClusters.PatchWithLease (db_OpenShiftClusters db) key (fun doc =>
    do! oc <- lift (deref (ocd_OpenShiftCluster doc));
    do! oc <- f oc;
    ret (doc <| ocd_OpenShiftCluster := Some oc |>))).
Proof.
  intros [Hs Hf]. eapply (steps_of_triple _ _ (fun _ => True)); [|done].
  unfold OpenShiftClusters.PatchWithLease, OpenShiftClusters.patchWithLease.
  apply (clusters_patch_kept db (fun _ => True)); [apply _|]. intros doc.
  unfold OpenShiftClusters.with_lease. case_decide; [apply triple_throw; apply _|].
  apply triple_bind_lift; [apply _|]. intros oc Hoc%deref_ok.
  intros w Hw [_ Hg]. pose proof (Hs oc w Hw) as HG. unfold bind. pose proof (Hf oc w) as Hb.
  destruct (f oc w) as [[oc'|e|p|] w1]; cbn [fst snd] in *; (split; [done|]); intros ? [=]; subst.
  eapply blanked_good; [done|by eapply Hb|]. by eapply good_cluster_stable.
Qed.

Lemma stage_kept (Φ : OpenShiftCluster -> OpenShiftCluster -> Prop) i m :
  (forall oc oc', Φ oc oc' -> blank oc' = blank oc) -> stage db Kept Φ i m -> steps Kept m.
Proof.
  intros HΦ Hm w. destruct (Hm w) as [(w1 & f & g & HR & [Hf1 Hf2] & Hg & ->)|[HR _]]; [|done].
  etransitivity; [exact HR|]. revert w1 HR. change (forall w1, Kept w w1 -> Kept w1 (snd (bind (patch_cluster db i f) g w1))).
  intros w1 _. apply steps_bind; [apply _| |intros d; apply Hg].
  apply patch_kept. split; [done|]. intros; by eapply HΦ, Hf2.
Qed.

Section phases.
Context (c : InstallConfig) (p : PlatformCreds) (s : string).

Lemma phases_kept n i : steps Kept (phases db c p s n i).
Proof.
  assert (forall i f, (forall oc oc', f oc = Ok oc' -> blank oc' = blank oc) ->
    steps Kept (patch_cluster db i (fun oc => lift (f oc)))) as Hpure.
  { intros i' f Hf. apply patch_kept. split; [intros; apply steps_lift; apply _|].
    intros oc w oc' w' [H _]%lift_inv. by apply Hf. }
  assert (forall i, steps Kept (patch_cluster db i (fun oc => lift (next_phase oc)))) as Hnext.
  { intros i'. apply Hpure. unfold next_phase. intros oc oc'. destruct (p_Install _); [by intros [= <-]|done]. }
  assert (forall i, steps Kept (patch_cluster db i (fun oc => ret (end_install oc)))) as Hend.
  { intros i'. apply (Hpure i' (fun oc => Ok (end_install oc))). by intros oc oc' [= <-]. }
  pose proof (now_kept db) as Hnow. pose proof (uuid_kept db) as Huuid.
  revert i. induction n as [|n IH]; intros i; [apply steps_lift; apply _|]. simpl.
  apply steps_bind; [apply _|apply steps_lift; apply _|intros ph].
  assert (forall (doc : option OpenShiftClusterDocument), steps Kept
    (do! doc <- lift (deref doc);
     do! doc <- patch_cluster db (i <| i_doc := doc |>) (fun oc => lift (next_phase oc));
     do! doc <- lift (deref doc);
     phases db c p s n (i <| i_doc := doc |>))) as Hrest by (intros doc; statements).
  case_decide; [|case_decide; [|case_decide; [|apply steps_throw; apply _]]];
    (apply steps_bind; [apply _| |intros doc]); try (exact (Hrest doc)).
  - eapply stage_kept; [|apply (installStorage_stage db Kept Hnow Huuid)]; by intros ? ? [? ?].
  - eapply stage_kept; [|apply (installResources_stage db Kept Hnow)]; by intros ? ? [? ?].
  - eapply stage_kept; [|apply (removeBootstrap_stage db Kept Hnow)]; by intros ? ? [[? ?] ?].
  - statements.
Qed.

Lemma Install_kept i : steps Kept (Install_ db c p s i).
Proof.
  unfold Install_. apply steps_bind; [apply _| |intros doc].
  - apply patch_kept. split; [intros; apply steps_ret; apply _|].
    intros oc w oc' w' [= <- _]. unfold start_install. by destruct (p_Install (oc_Properties oc)).
  - apply steps_bind; [apply _|apply steps_lift; apply _|intros d; apply phases_kept].
Qed.
End phases.

Lemma Create_kept m : steps Kept (Create db m).
Proof.
  pose proof (NewInstaller_steps Kept). pose proof (getRHCOSImage_steps Kept). pose proof Install_kept.
  assert (steps Kept (draw db m)).
  { apply patch_kept. split; [apply (draw_keys_steps Kept)|]. intros oc w oc' w' H'. by eapply draw_keys_blank. }
  unfold Create. statements.
Qed.
End kept.

(** ** An installation that has the cluster to itself

    Its services leave the clusters alone, and so does everybody else while the lease
    is held. *)
Section alone.
Context {W : Type} `{!Runtime W, !Account W}.
Context `{!Collection W OpenShiftClusterDocument, !Collection W SubscriptionDocument,
          !Collection W AsyncOperationDocument}.
Context (db : Database) `{!AccountLaws W db} {PB : PageBound}.
Context {EV : Env} `{!Auth W, !SubnetsClient W, !RecordSetsClient W, !PrivateEndpointsClient W, !GroupsClient W}.
Context `{!Ticks W, !InstallClients W, !Assets W} {DP : Depth} {CF : Config W} {KB : Kube W} {CR : Creation W}.
Abbreviation Same := (same (W := W) (D := OpenShiftClusterDocument)).
#[local] Instance Same_pre : PreOrder Same.
Proof. split; [by intros ?|unfold same; intros ???; congruence]. Qed.
Context {AR : Around W Same}.
Implicit Types (w : W).

(** The document [doc] of [key] has given way to one with the cluster [oc']. *)
Definition rewritten key (doc : OpenShiftClusterDocument) (oc' : OpenShiftCluster) doc' w w' : Prop :=
  ident doc' = ident doc /\ ocd_LeaseOwner doc' = ocd_LeaseOwner doc /\
  ocd_OpenShiftCluster doc' = Some oc' /\ clusters w' = <[key := doc']> (clusters w).

Lemma patch_ok (Φ : OpenShiftCluster -> OpenShiftCluster -> Prop) i f w r w' :
  patches Same Φ f -> patch_cluster db i f w = (Ok r, w') ->
  exists d0 oc d' oc', clusters w !! ocd_Key (i_doc i) = Some d0 /\ ocd_OpenShiftCluster d0 = Some oc /\
    ocd_LeaseOwner d0 = OpenShiftClusters.uuid (db_OpenShiftClusters db) /\ Φ oc oc' /\ r = Some d' /\
    rewritten (ocd_Key (i_doc i)) d0 oc' d' w w'.
Proof.
  intros [Hs Hf] Hp. unfold patch_cluster, OpenShiftClusters.PatchWithLease in Hp.
  apply (clusters_patchWithLease_ok db) in Hp as (d0 & wf & d1 & wf' & d' & H0 & Ho & _ & Hr & Hst & -> & Hw);
    [|by apply List.Forall_nil|..].
  - apply bind_inv_ok in Hr as (oc & w1 & [Hoc%deref_ok ->]%lift_inv & (oc' & w2 & Hoc' & [= <- <-])%bind_inv_ok).
    apply stored_none in Hst as [me ->].
    exists d0, oc, (d_with_meta me (d0 <| ocd_OpenShiftCluster := Some oc' |>)), oc'.
    split_and!; [done|done|done|by eapply Hf|done|]. split_and!; done.
  - intros d w1. apply (steps_bind Same); [apply steps_lift; apply _|]. intros oc.
    apply steps_bind; [apply _|apply Hs|intros ?; apply steps_ret; apply _].
  - intros d w1 d1 w1' (oc & w2 & _ & (oc' & w3 & _ & [= <- _])%bind_inv_ok)%bind_inv_ok. done.
Qed.

Lemma stage_ok (Φ : OpenShiftCluster -> OpenShiftCluster -> Prop) i m w r w' :
  stage db Same Φ i m -> m w = (Ok r, w') ->
  exists d0 oc d' oc', clusters w !! ocd_Key (i_doc i) = Some d0 /\ ocd_OpenShiftCluster d0 = Some oc /\
    Φ oc oc' /\ r = Some d' /\ rewritten (ocd_Key (i_doc i)) d0 oc' d' w w'.
Proof.
  intros Hm Hr. destruct (Hm w) as [(w1 & f & g & HR & Hf & Hg & Hk)|[_ Hk]]; [|by rewrite Hr in Hk].
  rewrite Hk in Hr. apply bind_inv_ok in Hr as (doc & w2 & Hp & Hgd). destruct (Hg doc) as [HgR Hgv].
  pose proof (HgR w2) as Hs2. apply Hgv in Hgd as Hrd. rewrite Hgd in Hs2. subst r.
  unfold same in HR, Hs2. cbn [snd] in *.
  destruct (patch_ok _ _ _ _ _ _ Hf Hp) as (d0 & oc & d' & oc' & H0 & Hoc & _ & HΦ & -> & Hi & Hl & Hc & Hw).
  unfold clusters in *. rewrite HR in H0, Hw.
  exists d0, oc, d', oc'. split_and!; [done..|]. split_and!; [done..|]. unfold clusters. congruence.
Qed.

(** The installer works on the document as it is stored. *)
Definition current i w : Prop := clusters w !! ocd_Key (i_doc i) = Some (i_doc i).
Lemma rewritten_current i d0 oc d w w' :
  clusters w !! ocd_Key (i_doc i) = Some d0 -> rewritten (ocd_Key (i_doc i)) d0 oc d w w' ->
  ocd_Key d = ocd_Key (i_doc i) /\ current (i <| i_doc := d |>) w'.
Proof.
  intros H0 (Hi & _ & _ & Hw).
  assert (ocd_Key d = ocd_Key (i_doc i)) as Hk.
  { pose proof (store_key W OpenShiftClusterDocument (OpenShiftClusters.c (db_OpenShiftClusters db)) _ _ _ H0) as H.
    injection Hi. simpl in H. congruence. }
  split; [done|]. change (clusters w' !! ocd_Key d = Some d). by rewrite Hk, Hw, lookup_insert_eq.
Qed.
Lemma rewritten_trans key d0 d1 d2 oc1 oc2 w0 w1 w2 :
  rewritten key d0 oc1 d1 w0 w1 -> rewritten key d1 oc2 d2 w1 w2 -> rewritten key d0 oc2 d2 w0 w2.
Proof.
  intros (? & ? & ? & Hw1) (? & ? & ? & Hw2). split_and!; [congruence..|]. by rewrite Hw2, Hw1, insert_insert_eq.
Qed.

(** The patch that ends a phase: the phase is now the next one. *)
Lemma next_ok i oc p w r w' :
  current i w -> ocd_OpenShiftCluster (i_doc i) = Some oc -> phase_in oc = Some p ->
  patch_cluster db i (fun oc => lift (next_phase oc)) w = (Ok r, w') ->
  exists d' oc', r = Some d' /\ blank oc' = blank oc /\ phase_in oc' = Some (int64 (p + 1)) /\
    rewritten (ocd_Key (i_doc i)) (i_doc i) oc' d' w w'.
Proof.
  intros Hc Hoc Hp H. unfold current in Hc.
  eapply (patch_ok (fun oc oc' => next_phase oc = Ok oc')) in H
    as (d0 & oc0 & d' & oc' & H0 & Hoc0 & _ & Hn & -> & Hw).
  - rewrite Hc in H0. injection H0 as <-. rewrite Hoc in Hoc0. injection Hoc0 as <-.
    destruct (next_phase_ok _ _ _ Hp Hn). by exists d', oc'.
  - split; [intros; apply steps_lift; apply _|]. by intros ? ? ? ? [? _]%lift_inv.
Qed.

Section rounds.
Context (c : InstallConfig) (p : PlatformCreds) (s : string).
Definition next_round n i (doc : option OpenShiftClusterDocument) : M W unit :=
  do! doc <- lift (deref doc);
  let i := i <| i_doc := doc |> in
  do! doc <- patch_cluster db i (fun oc => lift (next_phase oc));
  do! doc <- lift (deref doc);
  phases db c p s n (i <| i_doc := doc |>).
Lemma phases_S n i : phases db c p s (S n) i =
  (do! phase <- lift (phase_of (i_doc i));
   if decide (phase = InstallPhaseDeployStorage) then
     do! doc <- installStorage db i c p s; next_round n i doc
   else if decide (phase = InstallPhaseDeployResources) then
     do! doc <- installResources db i; next_round n i doc
   else if decide (phase = InstallPhaseRemoveBootstrap) then
     do! doc <- removeBootstrap db i;
     do! doc <- lift (deref doc);
     do! _ <- patch_cluster db (i <| i_doc := doc |>) (fun oc => ret (end_install oc));
     ret tt
   else throw (ErrOther ("unrecognised phase " +:+ InstallPhases.String phase))).
Proof. done. Qed.

(** A phase has been gone through and the next one begins. *)
Definition moved_on ph i w i' w' : Prop := exists oc oc', ocd_OpenShiftCluster (i_doc i) = Some oc /\
  phase_in oc = Some ph /\ phase_in oc' = Some (int64 (ph + 1)) /\ blank oc' = blank oc /\
  rewritten (ocd_Key (i_doc i)) (i_doc i) oc' (i_doc i') w w' /\ current i' w' /\ ocd_Key (i_doc i') = ocd_Key (i_doc i).

Lemma round_moves (Φ : OpenShiftCluster -> OpenShiftCluster -> Prop) m i ph oc r w w1 d1 r2 w2 :
  (forall oc oc', Φ oc oc' -> outputs oc oc') -> stage db Same Φ i m -> current i w ->
  ocd_OpenShiftCluster (i_doc i) = Some oc -> phase_in oc = Some ph ->
  m w = (Ok r, w1) -> deref r = Ok d1 ->
  patch_cluster db (i <| i_doc := d1 |>) (fun oc => lift (next_phase oc)) w1 = (Ok r2, w2) ->
  exists d2, r2 = Some d2 /\ moved_on ph i w (i <| i_doc := d2 |>) w2.
Proof.
  intros HΦ Hm Hcur Hoc Hph Hr ->%deref_ok Hp. pose proof Hcur as Hcur'. unfold current in Hcur'.
  destruct (stage_ok _ _ _ _ _ _ Hm Hr) as (d0 & oc0 & d & oc1 & H0 & Hoc0 & Ho%HΦ & [= <-] & Hw).
  rewrite Hcur' in H0. injection H0 as <-. rewrite Hoc in Hoc0. injection Hoc0 as <-. destruct Ho as [Hb1 Hp1].
  destruct (rewritten_current _ _ _ _ _ _ Hcur' Hw) as [Hk1 Hc1].
  destruct (next_ok (i <| i_doc := d1 |>) oc1 ph w1 r2 w2) as (d2 & oc2 & -> & Hb2 & Hp2 & Hw2);
    [done|by destruct Hw as (_ & _ & ? & _)|congruence|done|].
  exists d2. split; [done|]. destruct (rewritten_current _ _ _ _ _ _ Hc1 Hw2) as [Hk2 Hc2].
  cbn [i_doc] in Hw2, Hk2. change (i_doc (i <| i_doc := d1 |>)) with d1 in *. rewrite Hk1 in Hw2, Hk2.
  exists oc, oc2. split_and!; [done|done|done|congruence|by eapply rewritten_trans|exact Hc2|done].
Qed.

(** The rest of the round: what follows the next patch decides. *)
Lemma round_ok Φ m n i ph oc w w' :
  (forall oc oc', Φ oc oc' -> outputs oc oc') -> stage db Same Φ i m -> current i w ->
  ocd_OpenShiftCluster (i_doc i) = Some oc -> phase_in oc = Some ph ->
  bind m (next_round n i) w = (Ok tt, w') ->
  exists i' w2, moved_on ph i w i' w2 /\ phases db c p s n i' w2 = (Ok tt, w').
Proof.
  intros HΦ Hm Hcur Hoc Hph (r & w1 & Hr & H)%bind_inv_ok. unfold next_round in H.
  apply bind_inv_ok in H as (d1 & w1' & [Hd ->]%lift_inv & (r2 & w2 & Hp & H)%bind_inv_ok).
  destruct (round_moves Φ m i ph oc r w w1 d1 r2 w2) as (d2 & -> & Hmv); [done..|].
  apply bind_inv_ok in H as (? & ? & [[= <-] ->]%lift_inv & H). by exists (i <| i_doc := d2 |>), w2.
Qed.
Lemma bind_same {A B} (m : M W A) (f g : A -> M W B) w :
  (forall a w', m w = (Ok a, w') -> f a w' = g a w') -> bind m f w = bind m g w.
Proof. intros H. unfold bind. destruct (m w) as [[a|e|q|] w1]; [by apply H|done..]. Qed.
Lemma round_same Φ m n1 n2 i ph oc w :
  (forall oc oc', Φ oc oc' -> outputs oc oc') -> stage db Same Φ i m -> current i w ->
  ocd_OpenShiftCluster (i_doc i) = Some oc -> phase_in oc = Some ph ->
  (forall i' w', moved_on ph i w i' w' -> phases db c p s n1 i' w' = phases db c p s n2 i' w') ->
  bind m (next_round n1 i) w = bind m (next_round n2 i) w.
Proof.
  intros HΦ Hm Hcur Hoc Hph Hn. apply bind_same. intros r w1 Hr. unfold next_round.
  apply bind_same. intros d1 w1' [Hd ->]%lift_inv. apply bind_same. intros r2 w2 Hp.
  destruct (round_moves Φ m i ph oc r w w1 d1 r2 w2) as (d2 & -> & Hmv); [done..|].
  apply bind_same. intros ? ? [[= <-] ->]%lift_inv. by apply Hn.
Qed.

Lemma phase_of_ok i ph : phase_of (i_doc i) = Ok ph ->
  exists oc, ocd_OpenShiftCluster (i_doc i) = Some oc /\ phase_in oc = Some ph.
Proof.
  unfold phase_of, phase_in. destruct (ocd_OpenShiftCluster (i_doc i)) as [oc|]; [|done]. simpl.
  destruct (p_Install (oc_Properties oc)) as [inst|] eqn:Hi; [|done]. intros [= <-]. exists oc. by rewrite Hi.
Qed.

Lemma removed_ok i w w' ph oc r w1 d1 :
  current i w -> ocd_OpenShiftCluster (i_doc i) = Some oc -> phase_in oc = Some ph ->
  removeBootstrap db i w = (Ok r, w1) -> deref r = Ok d1 ->
  (do! _ <- patch_cluster db (i <| i_doc := d1 |>) (fun oc => ret (end_install oc)); ret tt) w1 = (Ok tt, w') ->
  exists oc' d', p_Install (oc_Properties oc') = None /\ addressed oc' /\ blank oc' = blank oc /\
    rewritten (ocd_Key (i_doc i)) (i_doc i) oc' d' w w'.
Proof.
  intros Hcur Hoc Hph Hr ->%deref_ok H. unfold current in Hcur.
  destruct (stage_ok _ _ _ _ _ _ (removeBootstrap_stage db Same (now_same _) i) Hr)
    as (d0 & oc0 & d & oc1 & H0 & Hoc0 & [[Hb1 Hp1] Ha] & [= <-] & Hw).
  rewrite Hcur in H0. injection H0 as <-. rewrite Hoc in Hoc0. injection Hoc0 as <-.
  destruct (rewritten_current _ _ _ _ _ _ Hcur Hw) as [Hk1 Hc1].
  apply bind_inv_ok in H as (r2 & w2 & H & [= ->]).
  eapply (patch_ok (fun oc oc' => oc' = end_install oc)) in H
    as (d0 & oc2 & d' & oc' & H0 & Hoc2 & _ & -> & -> & Hw2).
  - unfold current in Hc1. rewrite Hc1 in H0. injection H0 as <-. destruct Hw as (Hi & Hl & Hd1 & Hw).
    change (i_doc (i <| i_doc := d1 |>)) with d1 in *. cbv [constant] in *. rewrite Hd1 in Hoc2. injection Hoc2 as <-. rewrite Hk1 in Hw2.
    exists (end_install oc1), d'. split_and!; [done|done|by rewrite <- Hb1|]. eapply rewritten_trans; [|done]. done.
  - split; [intros; apply steps_ret; apply _|]. by intros ? ? ? ? [= <- _].
Qed.

(** What a finished installation leaves *)
Definition installed i w w' : Prop := exists oc ph oc' d',
  ocd_OpenShiftCluster (i_doc i) = Some oc /\ phase_in oc = Some ph /\
  (InstallPhaseDeployStorage <= ph <= InstallPhaseRemoveBootstrap)%Z /\
  p_Install (oc_Properties oc') = None /\ addressed oc' /\ blank oc' = blank oc /\
  rewritten (ocd_Key (i_doc i)) (i_doc i) oc' d' w w'.

Lemma moved_on_installed i ph w i' w1 w' :
  (InstallPhaseDeployStorage <= ph < InstallPhaseRemoveBootstrap)%Z ->
  moved_on ph i w i' w1 -> installed i' w1 w' -> installed i w w'.
Proof.
  intros Hph (oc & oc1 & Hoc & Hp & _ & Hb & Hw & _ & Hk) (oc1' & p' & oc' & d' & H1 & _ & _ & Hi & Ha & Hb' & Hw').
  assert (oc1' = oc1) as -> by (destruct Hw as (_ & _ & Hd & _); congruence). rewrite Hk in Hw'.
  exists oc, ph, oc', d'. split_and!; [done|done|lia|lia|done|done|congruence|by eapply rewritten_trans].
Qed.

Lemma outputs_of oc oc' : outputs oc oc' /\ addressed oc' -> outputs oc oc'.
Proof. by intros [? _]. Qed.

Lemma phases_ok n i w w' : current i w -> phases db c p s n i w = (Ok tt, w') -> installed i w w'.
Proof.
  pose proof (now_same (D := OpenShiftClusterDocument) _) as Hnow. pose proof (uuid_same (D := OpenShiftClusterDocument) _) as Huuid.
  revert i w. induction n as [|n IH]; intros i w Hcur; [done|]. rewrite phases_S.
  intros (ph & ? & [(oc & Hoc & Hph)%phase_of_ok ->]%lift_inv & H)%bind_inv_ok.
  case_decide as H0; [|case_decide as H1; [|case_decide as H2; [|done]]]; subst ph.
  - destruct (round_ok outputs _ _ _ _ _ _ _ ltac:(done) (installStorage_stage db Same Hnow Huuid i c p s) Hcur Hoc Hph H)
      as (i' & w2 & Hmv & Hr). eapply moved_on_installed; [|exact Hmv|]; [done|].
    apply IH; [|done]. by destruct Hmv as (? & ? & _ & _ & _ & _ & _ & ? & _).
  - destruct (round_ok outputs _ _ _ _ _ _ _ ltac:(done) (installResources_stage db Same Hnow i) Hcur Hoc Hph H)
      as (i' & w2 & Hmv & Hr). eapply moved_on_installed; [|exact Hmv|]; [done|].
    apply IH; [|done]. by destruct Hmv as (? & ? & _ & _ & _ & _ & _ & ? & _).
  - apply bind_inv_ok in H as (r & w1 & Hr & (d1 & w1' & [Hd ->]%lift_inv & H)%bind_inv_ok).
    destruct (removed_ok i w w' _ oc r w1 d1 Hcur Hoc Hph Hr Hd H) as (oc' & d' & ? & ? & ? & ?).
    by exists oc, InstallPhaseRemoveBootstrap, oc', d'.
Qed.

(** Three rounds are enough: no run needs a fourth. *)
Definition rounds_left (ph : InstallPhase) : nat :=
  if decide (ph = InstallPhaseDeployStorage) then 3 else if decide (ph = InstallPhaseDeployResources) then 2 else 1.

Lemma phases_same n i w k : current i w ->
  (forall ph, phase_of (i_doc i) = Ok ph -> rounds_left ph <= n) -> 1 <= n ->
  phases db c p s (n + k) i w = phases db c p s n i w.
Proof.
  pose proof (now_same (D := OpenShiftClusterDocument) _) as Hnow. pose proof (uuid_same (D := OpenShiftClusterDocument) _) as Huuid.
  revert i w. induction n as [|n IH]; intros i w Hcur Hn H1n; [lia|]. change (S n + k) with (S (n + k)). rewrite !phases_S.
  apply bind_same. intros ph ? [Hp ->]%lift_inv. specialize (Hn ph Hp). destruct (phase_of_ok i ph Hp) as (oc & Hoc & Hph).
  assert (forall i' w', moved_on ph i w i' w' -> rounds_left (int64 (ph + 1)) <= n -> 1 <= n ->
    phases db c p s (n + k) i' w' = phases db c p s n i' w') as Hgo.
  { intros i' w' (oc1 & oc2 & _ & _ & Hp2 & _ & (_ & _ & Hd & _) & Hc & _) Hl H1. apply IH; [done| |done].
    intros ph' (oc3 & Hoc3 & Hp3)%phase_of_ok. rewrite Hd in Hoc3. injection Hoc3 as <-. congruence. }
  unfold rounds_left in Hn. case_decide as E0; [|case_decide as E1; [|done]]; subst ph.
  - eapply (round_same outputs); [done|apply (installStorage_stage db Same Hnow Huuid)|done..|].
    intros i' w' Hmv. apply Hgo; [done| |lia]. change (2 <= n). lia.
  - eapply (round_same outputs); [done|apply (installResources_stage db Same Hnow)|done..|].
    intros i' w' Hmv. apply Hgo; [done| |lia]. change (1 <= n). lia.
Qed.
End rounds.
End alone.
