(* ===== verification/System.v ===== *)
(** * The system

    The front ends and the back ends together: requests are answered, work is taken
    and done, in any order and by any number of machines, while others do whatever
    they promise. Between the requests of one of these steps to the account the
    others are at work too: that is what [SharedAccount] allows it to do. *)
From S2P Require Import Prelude GoStrings.
From S2P Require Import Azure Api External Services Subnets Wait Kube.
From S2P Require Import Manager Graph Arm InstallTemplates Install Create.
From S2P Require Import Cosmos CosmosLaws Database DatabaseSpec.
From S2P Require Import Frontend FrontendSpec Backend.
From S2P Require Import Mux Middleware Authorizer Routes RoutesSpec.
From S2P Require Import Rely Lifecycle InstallSpec.

(** The account, and the documents that goroutines have been started for *)
Record System (W : Type) := mkSystem {
  sy_world : W;
  sy_clusters : list OpenShiftClusterDocument;
  sy_subscriptions : list SubscriptionDocument;
}.
Arguments mkSystem {W}.
Arguments sy_world {W}.
Arguments sy_clusters {W}.
Arguments sy_subscriptions {W}.

(** The document a [try] has started a goroutine for *)
Definition started {Doc} (r : res (Tried Doc)) : list Doc :=
  match r with Ok t => option_list (spawned t) | _ => [] end.

(** What the handlers write and call besides the account: it does not write clusters
    or operations but as it promised. *)
Class Handlers (W : Type) (R : W -> W -> Prop) `{!Cell W Header, !Cell W bool} (apis : gmap string (Version W)) := {
  su_header (h : Header) : steps R (set_cell h);
  su_done (b : bool) : steps R (set_cell b);
  su_version k v oc : apis !! k = Some v -> steps R (v_Dynamic v oc);
}.
(** The same of the cluster manager *)
Class Surrounded (W : Type) (R : W -> W -> Prop) `{!Cell W Header, !Cell W bool, !ClusterManager W}
    (apis : gmap string (Version W)) := {
  su_handlers :: Handlers W R apis;
  su_new doc : steps R (NewManager doc);
  su_create m : steps R (Manager_Create m);
  su_update m : steps R (Manager_Update m);
  su_delete m : steps R (Manager_Delete m);
}.

Section system.
Context {W : Type} `{!Runtime W, !Account W}.
Context `{!Collection W OpenShiftClusterDocument, !Collection W AsyncOperationDocument}.
Context (db : Database) {SA : SharedAccount W db} {PB : PageBound}.
Context `{!Cell W Header, !Cell W bool, !ClusterManager W}.
Context `{!Cell W ResponseWriter, !Telemetry W, !ClientAuthorizer W}.
Context {EV : Env} {U : Url} {CD : Codec}.
Context (apis : gmap string (Version W)) (feature_operations : bool).
Context {SR : Surrounded W (guards well_kept promise) apis} {SQ : ServerQuiet W (guards well_kept promise)}.
Context (url_String : ServerRequest -> string) (ready : W -> bool).
Context (empty_error : string) (encode_operations : list Operation -> string).
Abbreviation server := (server db apis feature_operations url_String ready empty_error encode_operations).
Abbreviation Kept := (guards (W := W) well_kept promise).
Implicit Types (s : System W) (w : W).

Inductive step : System W -> System W -> Prop :=
| step_serve r w l k : step (mkSystem w l k) (mkSystem (snd (server r w)) l k)
| step_try w l k : step (mkSystem w l k) (mkSystem (snd (ocb_try db w)) (started (fst (ocb_try db w)) ++ l) k)
| step_handle b doc w l1 l2 k :
    step (mkSystem w (l1 ++ doc :: l2) k) (mkSystem (snd (handle db b doc w)) (l1 ++ l2) k)
| step_sub_try w l k : step (mkSystem w l k) (mkSystem (snd (sb_try db w)) l (started (fst (sb_try db w)) ++ k))
| step_sub_handle b doc w l k1 k2 :
    step (mkSystem w l (k1 ++ doc :: k2)) (mkSystem (snd (sub_handle db b doc w)) l (k1 ++ k2))
| step_others w w' l k : promise w w' -> step (mkSystem w l k) (mkSystem w' l k).

Lemma endpoint_kept e method h name r :
  e ∈ endpoints db apis feature_operations encode_operations -> (method, h, name) ∈ ep_Methods e -> steps Kept (h r).
Proof.
  intros He Hm. unfold Routes.endpoints in He.
  pose proof su_header as Hh. pose proof su_version as Hv.
  repeat (apply elem_of_cons in He as [->|He]); [..|by apply not_elem_of_nil in He]; cbn in Hm;
    repeat (apply elem_of_cons in Hm as [[= -> -> ->]|Hm]); try (by apply not_elem_of_nil in Hm).
  all: match goal with
    | |- steps _ (handler _ _) => apply (handler_steps Kept)
    | |- steps _ (body_handler _ _) => apply (body_handler_steps Kept)
    end; intros r'.
  all: match goal with
    | |- steps _ (putOrPatchOpenShiftCluster _ _ _ _) => exact (put_kept db Hh apis feature_operations Hv r')
    | |- steps _ (deleteOpenShiftCluster _ _ _) => exact (delete_kept db Hh feature_operations r')
    | |- steps _ (putSubscription _ _) => exact (putSubscription_kept db r')
    | |- steps _ (getOperations_ _ _) => apply steps_ret; apply _
    | |- _ => destruct (readers_kept db Hh apis r') as (? & ? & ? & ? & ?);
        match goal with H : steps _ ?m |- steps _ ?m => exact H end
    end.
Qed.

Lemma server_kept r : steps Kept (server r).
Proof.
  apply (server_steps Kept); [apply (now_kept db)|apply (uuid_kept db)|]. intros. by eapply endpoint_kept.
Qed.

(** The state of the system the promises are about *)
Definition system_ok s : Prop :=
  well_kept (sy_world s) /\ forall doc, doc ∈ sy_clusters s -> at_work doc (sy_world s).

Lemma step_ok s s' : system_ok s -> step s s' -> system_ok s'.
Proof.
  assert (forall w w' l l' k k', system_ok (mkSystem w l k) -> promise w w' ->
    (forall doc, doc ∈ l' -> doc ∈ l \/ at_work doc w') -> system_ok (mkSystem w' l' k')) as Hgo.
  { intros w w' l l' k k' [Hw Hl] HG Hl'. split; [by eapply promise_keeps|]. cbn. intros doc Hd.
    destruct (Hl' doc Hd) as [Hin|]; [|done]. eapply at_work_stable; [exact Hw|exact HG|by apply Hl]. }
  intros Hs Hst. destruct Hst as [r w l k|w l k|b doc w l1 l2 k|w l k|b doc w l k1 k2|w w' l k HG];
    pose proof (proj1 Hs) as Hw; cbn in Hw; (eapply Hgo; [exact Hs|..]).
  - by apply server_kept.
  - by left.
  - by apply (try_kept db w).
  - intros doc [Hd|]%elem_of_app; [right|by left].
    destruct (try_kept db w Hw I) as [_ Hsp]. unfold started in Hd.
    destruct (fst (ocb_try db w)) as [t|e|m|]; try by apply not_elem_of_nil in Hd.
    apply (Hsp t eq_refl). by destruct (spawned t); [apply list_elem_of_singleton in Hd as ->|apply not_elem_of_nil in Hd].
  - apply (handle_kept db su_new su_create su_update su_delete); [|done].
    apply (proj2 Hs). cbn. set_solver.
  - intros d. cbn. set_solver.
  - by apply (sub_try_kept db).
  - by left.
  - by apply (sub_handle_kept db su_done).
  - by left.
  - done.
  - by left.
Qed.

Lemma run_ok s s' : system_ok s -> rtc step s s' -> system_ok s'.
Proof. intros Hs Hr. induction Hr; [done|]. eauto using step_ok. Qed.
End system.

(** ** With the program's own cluster manager *)
Section manager.
Context {W : Type} `{!Runtime W, !Account W}.
Context `{!Collection W OpenShiftClusterDocument, !Collection W AsyncOperationDocument}.
Context (db : Database) {SA : SharedAccount W db} {PB : PageBound}.
Context `{!Cell W Header, !Cell W bool} (apis : gmap string (Version W)).
Context {EV : Env} `{!Auth W, !SubnetsClient W, !RecordSetsClient W, !PrivateEndpointsClient W, !GroupsClient W}.
Context `{!Ticks W, !InstallClients W, !Assets W} {DP : Depth} {CF : Config W} {KB : Kube W} {CR : Creation W}.
Abbreviation Kept := (guards (W := W) well_kept promise).

Lemma manager_surrounded :
  Around W Kept -> Handlers W Kept apis -> Surrounded (ClusterManager0 := manager db) W Kept apis.
Proof.
  intros AR HA. split; [done|..]; cbn [NewManager Manager_Create Manager_Update Manager_Delete manager].
  - apply (NewManager_steps Kept).
  - apply (Create_kept db).
  - apply (Update_steps Kept).
  - apply (Delete_steps Kept).
Qed.
End manager.
