(* ===== verification/RefCollection.v ===== *)
(** * A reference collection

    An executable Cosmos DB collection in memory, and the proof that it keeps the
    contract of CosmosLaws.v: a finite map under the constraints of the service,
    which answers a query in one page and, on a write, runs the triggers and
    stamps a fresh entity tag. *)
From S2P Require Import Prelude GoStrings.
From S2P Require Import Api Cosmos CosmosLaws.

(** ** A collection *)
Section collection.
Context {D : Type} `{!Document D, !Stored D}.

(** Keys are unique, and so are ids within a partition. *)
Definition valid (m : gmap string D) : Prop :=
  map_Forall (fun k d => d_key d = k /\
    map_Forall (fun k' d' => d_ID d = d_ID d' -> d_part d = d_part d' -> k = k') m) m.
#[export] Instance valid_dec m : Decision (valid m).
Proof. unfold valid. apply _. Defined.

Record Coll := mkColl {
  co_map : gmap string D;
  co_writes : nat;
  co_valid : bool_decide (valid co_map) = true;
}.

Definition make (m : gmap string D) (n : nat) : option Coll :=
  match decide (bool_decide (valid m) = true) with
  | left H => Some (mkColl m n H)
  | right _ => None
  end.

Lemma make_ok m n co : make m n = Some co -> co_map co = m.
Proof. unfold make. case_decide; [|done]. by intros [= <-]. Qed.

Lemma valid_empty : bool_decide (valid ∅) = true.
Proof. apply bool_decide_eq_true_2. by apply map_Forall_empty. Qed.
Definition empty : Coll := mkColl ∅ 0 valid_empty.
Definition load (l : list D) : Coll :=
  default empty (make (list_to_map ((fun d => (d_key d, d)) <$> l)) (length l)).

Context (c : documentClient) (matches_ : Query -> string -> Z -> D -> bool).

Definition json_header : Header := {["Content-Type" := ["application/json"]]}.
Definition refuse (status : Z) : Response D :=
  mkResponse status ∅ (inr EmptyString) (inr EmptyString) (EmptyString, EmptyString).
Definition respond (status : Z) (d : D) : Response D :=
  mkResponse status json_header (inl (Some d)) (inr EmptyString) (EmptyString, EmptyString).

(** The document a URL and a partition key header name *)
Definition named (req : Request D) (kd : string * D) : bool :=
  bool_decide (rq_URL req = doc_url c (d_ID kd.2)) &&
  bool_decide (rq_Header req !! "X-Ms-Documentdb-Partitionkey" = Some [pk_header (d_part kd.2)]).
Definition locate (req : Request D) (co : Coll) : option (string * D) :=
  List.find (named req) (map_to_list (co_map co)).

(** The partition key inside its header; none for a query over all of them *)
Definition partition_of (req : Request D) : string :=
  match rq_Header req !! "X-Ms-Documentdb-Partitionkey" with
  | Some [h] => String.substring 2 (String.length h - 4) h
  | _ => EmptyString
  end.

Definition page (now : Z) (req : Request D) (q : Query) (co : Coll) : list D :=
  List.filter (matches_ q (partition_of req) now) (snd <$> map_to_list (co_map co)).

(** What a write stores *)
Definition stamped (now : Z) (req : Request D) (co : Coll) (d : D) : option D :=
  d_with_meta (mkDocMeta EmptyString now EmptyString ("etag" +:+ pretty (co_writes co)) EmptyString)
    <$> run_triggers now (pre_triggers (rq_Header req)) d.

Definition allowed (req : Request D) (old : D) : bool :=
  match rq_Header req !! "If-Match" with
  | None => true
  | Some l => bool_decide (l = [d_ETag old])
  end.

Definition write (status : Z) (m : gmap string D) (d : D) (co : Coll) : Response D * Coll :=
  match make m (S (co_writes co)) with
  | Some co' => (respond status d, co')
  | None => (refuse StatusConflict, co)
  end.

Definition serve (now : Z) (req : Request D) (co : Coll) : Response D * Coll :=
  if decide (rq_Method req = "GET") then
    match locate req co, rq_Body req with
    | Some (_, d), _ => (respond StatusOK d, co)
    | None, BodyQuery _ => (refuse StatusBadRequest, co)
    | None, _ => (refuse StatusNotFound, co)
    end
  else
  match rq_Body req with
  | BodyQuery q =>
      let ds := page now req q co in
      (mkResponse StatusOK json_header (inr EmptyString)
         (inl (Some (mkDocuments (Z.of_nat (length ds)) EmptyString ds))) (EmptyString, EmptyString), co)
  | body =>
      if decide (rq_Method req = "POST") then
        match body with
        | BodyDoc d =>
            match co_map co !! d_key d, stamped now req co d with
            | None, Some d' => write StatusCreated (<[d_key d := d']> (co_map co)) d' co
            | Some _, _ => (refuse StatusConflict, co)
            | _, None => (refuse StatusBadRequest, co)
            end
        | _ => (refuse StatusBadRequest, co)
        end
      else
        match locate req co with
        | None => (refuse StatusNotFound, co)
        | Some (k, old) =>
            if negb (allowed req old) then (refuse StatusPreconditionFailed, co)
            else if decide (rq_Method req = "PUT") then
              match body with
              | BodyDoc d =>
                  if decide (d_ID d <> d_ID old) then (refuse StatusBadRequest, co)
                  else match stamped now req co d with
                  | Some d' => write StatusOK (<[d_key d := d']> (delete k (co_map co))) d' co
                  | None => (refuse StatusBadRequest, co)
                  end
              | _ => (refuse StatusBadRequest, co)
              end
            else if decide (rq_Method req = "DELETE") then
              match make (delete k (co_map co)) (S (co_writes co)) with
              | Some co' => (refuse StatusNoContent, co')
              | None => (refuse StatusConflict, co)
              end
            else (refuse StatusBadRequest, co)
        end
  end.
End collection.


Section facts.
Context {D : Type} `{!Document D, !Stored D}.
Context (c : documentClient) (matches_ : Query -> string -> Z -> D -> bool).
Implicit Types (co : Coll (D := D)) (req : Request D).

Lemma co_ok co : valid (co_map co).
Proof. exact (bool_decide_eq_true_1 _ (co_valid co)). Qed.

Lemma co_key co k d : co_map co !! k = Some d -> d_key d = k.
Proof. intros H. by apply (co_ok co) in H as [? _]. Qed.

Lemma co_id co k1 k2 d1 d2 :
  co_map co !! k1 = Some d1 -> co_map co !! k2 = Some d2 -> d_ID d1 = d_ID d2 -> d_part d1 = d_part d2 -> k1 = k2.
Proof. intros H1 H2 Hi Hp. apply (co_ok co) in H1 as [_ H1]. by apply (H1 k2 d2). Qed.

Lemma doc_url_inj id id' : doc_url c id = doc_url c id' -> id = id'.
Proof. unfold doc_url. intros H. repeat apply string_app_inj_l in H. done. Qed.

Lemma pk_header_inj pk pk' : pk_header pk = pk_header pk' -> pk = pk'.
Proof. unfold pk_header. intros H. do 2 apply string_app_inj_l in H. by apply string_app_inj_r in H. Qed.

Lemma locate_ok req co k d id pk :
  locate c req co = Some (k, d) -> rq_URL req = doc_url c id ->
  rq_Header req !! "X-Ms-Documentdb-Partitionkey" = Some [pk_header pk] ->
  co_map co !! k = Some d /\ d_ID d = id /\ d_part d = pk.
Proof.
  intros [Hin Hn]%find_some Hu Hh. apply list_elem_of_In, elem_of_map_to_list in Hin. split; [done|].
  unfold named in Hn. apply andb_true_iff in Hn as [H1%bool_decide_eq_true H2%bool_decide_eq_true]. simpl in *.
  rewrite Hu in H1. rewrite Hh in H2. apply doc_url_inj in H1 as ->. split; [done|].
  assert (pk_header pk = pk_header (d_part d)) as H3 by congruence. by apply pk_header_inj in H3.
Qed.

Lemma locate_none req co id pk k d :
  locate c req co = None -> rq_URL req = doc_url c id ->
  rq_Header req !! "X-Ms-Documentdb-Partitionkey" = Some [pk_header pk] ->
  co_map co !! k = Some d -> d_ID d = id -> d_part d <> pk.
Proof.
  intros Hn Hu Hh Hd Hi Hp. unfold locate in Hn. apply elem_of_map_to_list, list_elem_of_In in Hd.
  eapply (find_none _ _) in Hn; [|exact Hd]. unfold named in Hn. simpl in Hn.
  rewrite Hi, Hp, Hu, Hh in Hn. by rewrite !bool_decide_eq_true_2 in Hn.
Qed.

Lemma partition_of_header req pk :
  rq_Header req !! "X-Ms-Documentdb-Partitionkey" =
    (if decide (pk = EmptyString) then None else Some [pk_header pk]) ->
  partition_of req = pk.
Proof.
  unfold partition_of. intros ->. case_decide as Hp; [done|].
  unfold pk_header. 
  replace (String.length _ - 4) with (String.length pk) by (rewrite !string_length_app; simpl; lia).
  change (String.substring 0 (String.length pk) (pk +:+ dquote +:+ "]") = pk). apply substring_prefix.
Qed.

Lemma stamped_written {W} `{!Collection W D} (w : W) req co d d' :
  stamped (svc_time (D := D) w) req co d = Some d' -> written W D w (rq_Header req) d d'.
Proof. intros (d1 & Hd & ->)%fmap_Some_inv. by eexists _, d1. Qed.

Lemma write_ok status m d co resp co' n :
  write status m d co = (resp, co') -> rs_StatusCode resp = n -> n <> StatusConflict ->
  resp = respond status d /\ co_map co' = m.
Proof.
  unfold write. destruct (make m _) as [co1|] eqn:E; intros [= <- <-] <- Hn; [|done].
  apply make_ok in E. done.
Qed.

Lemma respond_created status (d : D) : created D (respond status d) d.
Proof. done. Qed.
End facts.

(** ** The contract is kept

    For a world with a collection in it, behind [get] and [set], and a clock that
    requests do not move. *)
Section laws.
Context {W D : Type} `{!Document D, !Stored D}.
Context (c : documentClient) (matches_ : Query -> string -> Z -> D -> bool).
Context (now : W -> Z) (get : W -> Coll (D := D)) (set : Coll (D := D) -> W -> W).
Context (get_set : forall co w, get (set co w) = co) (now_set : forall co w, now (set co w) = now w).

Definition ref_service : Service W D := fun req w =>
  let (resp, co) := serve c matches_ (now w) req (get w) in (Ok resp, set co w).

(** All the documents that match are in the first page. *)
Definition ref_pending (w : W) (q : Query) (pk t : string) : gset string :=
  if decide (t = EmptyString)
  then dom (filter (fun kd => matches_ q pk (now w) kd.2 = true) (co_map (get w)))
  else ∅.

Definition ref_collection : Collection W D := {|
  store w := co_map (get w);
  svc_time := now;
  matches := matches_;
  pending := ref_pending;
  rank _ := 0;
|}.
#[local] Existing Instance ref_service.
#[local] Existing Instance ref_collection.

Lemma serve_inv req w resp w' :
  hc_Do req w = (Ok resp, w') -> serve c matches_ (now w) req (get w) = (resp, get w') /\ now w' = now w.
Proof.
  unfold hc_Do, ref_service. destruct (serve _ _ _ _ _) as [r co]. intros [= <- <-].
  by rewrite get_set, now_set.
Qed.

Lemma quiet_get w w' : get w' = get w -> now w' = now w -> quiet D w w'.
Proof. intros Hg Hn. split; [unfold store; simpl; by rewrite Hg|]. intros. unfold pending. simpl. unfold ref_pending. by rewrite Hg, Hn. Qed.

(** A response that is not a success leaves the collection as it is. *)
Lemma serve_refused t req co resp co' :
  serve c matches_ t req co = (resp, co') -> (300 <= rs_StatusCode resp)%Z -> co' = co.
Proof.
  unfold serve, write. repeat case_match; intros; simplify_eq/=; try done.
Qed.

Lemma serve_read t req co : is_read req -> snd (serve c matches_ t req co) = co.
Proof.
  unfold serve. intros [Hm|[q Hb]]; [rewrite decide_True by done|rewrite Hb; case_decide];
    by repeat case_match.
Qed.

Lemma serve_412 t req co resp co' :
  serve c matches_ t req co = (resp, co') -> rs_StatusCode resp = StatusPreconditionFailed ->
  is_Some (rq_Header req !! "If-Match").
Proof.
  unfold serve, write, allowed. repeat case_match; intros; simplify_eq/=; try done; eauto.
Qed.

Lemma serve_GET t req co resp co' :
  serve c matches_ t req co = (resp, co') -> rq_Method req = "GET" ->
  match locate c req co with
  | Some (_, d) => resp = respond StatusOK d
  | None => rs_StatusCode resp <> StatusOK
  end.
Proof.
  unfold serve. intros H Hm. rewrite Hm, decide_True in H by done.
  destruct (locate c req co) as [[]|], (rq_Body req); by injection H as <- <-.
Qed.

Lemma serve_POST t req co resp co' d :
  serve c matches_ t req co = (resp, co') -> rq_Method req = "POST" -> rq_Body req = BodyDoc d ->
  rs_StatusCode resp = StatusCreated ->
  exists d', stamped t req co d = Some d' /\ resp = respond StatusCreated d' /\
    co_map co !! d_key d = None /\ co_map co' = <[d_key d := d']> (co_map co).
Proof.
  unfold serve. intros H Hm Hb Hs. rewrite Hm, Hb in H. rewrite decide_False, decide_True in H by done.
  destruct (co_map co !! d_key d) eqn:Hk; [by injection H as <- <-|].
  destruct (stamped t req co d) as [d'|]; [|by injection H as <- <-].
  eapply write_ok in H as [-> Hw]; [|done|done]. by exists d'.
Qed.

Lemma serve_PUT t req co resp co' d :
  serve c matches_ t req co = (resp, co') -> rq_Method req = "PUT" -> rq_Body req = BodyDoc d ->
  rs_StatusCode resp = StatusOK ->
  exists k old d', locate c req co = Some (k, old) /\ allowed req old = true /\
    d_ID d = d_ID old /\ stamped t req co d = Some d' /\ resp = respond StatusOK d' /\
    co_map co' = <[d_key d := d']> (delete k (co_map co)).
Proof.
  unfold serve. intros H Hm Hb Hs. rewrite Hm, Hb in H. rewrite !decide_False in H by done.
  destruct (locate c req co) as [[k old]|]; [|by injection H as <- <-].
  destruct (allowed req old) eqn:Ha; simpl in H; [|by injection H as <- <-].
  destruct (decide (d_ID d <> d_ID old)) as [|Hid%dec_stable]; [by injection H as <- <-|].
  destruct (stamped t req co d) as [d'|]; [|by injection H as <- <-].
  eapply write_ok in H as [-> Hw]; [|done|done]. by exists k, old, d'.
Qed.

Lemma serve_DELETE t req co resp co' :
  serve c matches_ t req co = (resp, co') -> rq_Method req = "DELETE" -> rs_StatusCode resp = StatusNoContent ->
  exists k old, locate c req co = Some (k, old) /\ co_map co' = delete k (co_map co).
Proof.
  unfold serve. intros H Hm Hs. rewrite Hm in H. rewrite !decide_False in H by done.
  destruct (rq_Body req) as [|d|q]; [| |by injection H as <- <-];
    (destruct (locate c req co) as [[k old]|]; [|by injection H as <- <-]);
    (destruct (allowed req old); simpl in H; [|by injection H as <- <-]);
    (destruct (make _ _) as [co1|] eqn:E; injection H as <- <-; [|done]);
    apply make_ok in E; eauto.
Qed.

Lemma serve_query t req co resp co' q :
  serve c matches_ t req co = (resp, co') -> rq_Method req = "POST" -> rq_Body req = BodyQuery q ->
  resp = mkResponse StatusOK json_header (inr EmptyString)
    (inl (Some (mkDocuments (Z.of_nat (length (page matches_ t req q co))) EmptyString (page matches_ t req q co))))
    (EmptyString, EmptyString).
Proof. unfold serve. intros H Hm Hb. rewrite Hm, Hb in H. rewrite decide_False in H by done. by injection H. Qed.

Lemma page_spec t req q co d :
  d ∈ page matches_ t req q co <-> co_map co !! d_key d = Some d /\ matches_ q (partition_of req) t d = true.
Proof.
  unfold page. rewrite list_elem_of_In, filter_In, <-list_elem_of_In, list_elem_of_fmap. split.
  - intros [([k d'] & -> & Hin) Hm]. apply elem_of_map_to_list in Hin as Hin'. simpl in *.
    by rewrite (co_key _ _ _ Hin').
  - intros [Hd Hm]. split; [|done]. exists (d_key d, d). by rewrite elem_of_map_to_list.
Qed.

#[export] Instance ref_laws : ServiceLaws W D c.
Proof.
  split.
  - intros w k d. apply co_key.
  - intros w k1 k2 d1 d2. apply co_id.
  - intros req w. unfold hc_Do, ref_service. by destruct (serve _ _ _ _ _).
  - intros req w e w'. unfold hc_Do, ref_service. by destruct (serve _ _ _ _ _).
  - intros req w Hr. unfold hc_Do, ref_service. pose proof (serve_read (now w) req (get w) Hr) as H.
    destruct (serve _ _ _ _ _) as [resp co]. simpl in *. subst. unfold store. simpl. by rewrite get_set.
  - intros req w Hm. unfold hc_Do, ref_service. pose proof (serve_read (now w) req (get w) (or_introl Hm)) as H.
    destruct (serve _ _ _ _ _) as [resp co]. simpl in *. subst. apply quiet_get; [by rewrite get_set|apply now_set].
  - intros req w resp w' [H Hn]%serve_inv He. apply quiet_get; [|done].
    eapply serve_refused; [done|]. unfold client_error in He. lia.
  - intros req w resp w' id pk [H Hn]%serve_inv Hm Hu Hh Hs. apply serve_GET in H; [|done].
    destruct (locate c req (get w)) as [[k d]|] eqn:Hl; [|done]. subst resp.
    eapply locate_ok in Hl as (Hd & Hi & Hp); [|done|done]. exists d. 
    split_and!; [done|by rewrite (co_key _ _ _ Hd)|done|done].
  - intros req w resp w' id pk [H Hn]%serve_inv Hm Hu Hh Hs k d Hd Hi. apply serve_GET in H; [|done].
    destruct (locate c req (get w)) as [[k' d']|] eqn:Hl; [by subst resp|]. by eapply locate_none.
  - intros req w resp w' d [H Hn]%serve_inv Hm Hu Hb Hs.
    apply (serve_POST _ _ _ _ _ d) in H as (d' & Hst & -> & Hk & Hw); [|done..].
    exists d'. split_and!; [by eapply stamped_written|done|done|done].
  - intros req w resp w' d [H Hn]%serve_inv Hm Hu Hh Hb Hs.
    apply (serve_PUT _ _ _ _ _ d) in H as (k & old & d' & Hl & Ha & _ & Hst & -> & Hw); [|done..].
    eapply locate_ok in Hl as (Hd & Hi & Hp); [|done|done].
    exists k, old, d'. split_and!; [by eapply stamped_written|done|done|done|done| |done].
    intros e He. unfold allowed in Ha. rewrite He in Ha. apply bool_decide_eq_true in Ha. congruence.
  - intros req w resp w' [H Hn]%serve_inv Hs. by eapply serve_412.
  - intros req w resp w' id pk [H Hn]%serve_inv Hm Hu Hh Hs.
    apply serve_DELETE in H as (k & old & Hl & Hw); [|done..].
    eapply locate_ok in Hl as (Hd & Hi & Hp); [|done|done]. by exists k, old.
  - intros req w resp w' q pk t [H Hn]%serve_inv Hm Hu Hb Hh Hc Hs.
    apply partition_of_header in Hh. apply (serve_query _ _ _ _ _ q) in H as ->; [|done..].
    eexists _, EmptyString. split_and!; [done|done|done| | |by left].
    + intros d Hd. simpl in Hd. apply page_spec in Hd as [Hd Hq]. by rewrite Hh in Hq.
    + intros k Hk. left. unfold pending in Hk. simpl in Hk. unfold ref_pending in Hk.
      case_decide; [|set_solver]. apply elem_of_dom in Hk as [d Hd]. apply map_lookup_filter_Some in Hd as [Hd Hq].
      exists d. split; [|by apply co_key in Hd]. simpl. apply page_spec.
      by rewrite (co_key _ _ _ Hd), Hh.
  - intros req w resp w' q [H Hn]%serve_inv Hb Hs. unfold serve in H. rewrite Hb in H.
    case_decide; [destruct (locate _ _ _) as [[]|]|]; by injection H as <- _.
  - intros w q pk k d Hd Hm. unfold pending. simpl. unfold ref_pending. rewrite decide_True by done.
    apply elem_of_dom. exists d. by apply map_lookup_filter_Some.
  - intros req w q pk t k d Hk Hd Hm. unfold pending in *. simpl in *. unfold ref_pending in *.
    case_decide; [|done]. apply elem_of_dom. exists d. by apply map_lookup_filter_Some.
Qed.
End laws.
