(* ===== verification/Preview.v ===== *)
(** * The registered version 2019-12-31-preview (register.go)

    Its converters, its validators and the JSON of its types put together as the
    version of the API that the handlers of Frontend.v look up, and what they
    need of it: no error of its static validation is a success. *)
From S2P Require Import Prelude GoStrings.
From S2P Require Import Regex Azure Api External Immutable Net Services Subnets Static Permissions Cidr Wait Dynamic.
From S2P Require Import Cosmos CosmosLaws Database DatabaseSpec Errors Frontend FrontendSpec.

(** The JSON of the version's external types (encoding/json) *)
Class PreviewCodec := {
  unmarshal_cluster : string -> Ext.OpenShiftCluster -> option Ext.OpenShiftCluster + string;
  marshal_cluster : Ext.OpenShiftCluster -> string;
  marshal_clusters : Ext.OpenShiftClusterList -> string;
  marshal_credentials : Ext.OpenShiftClusterCredentials -> string;
}.

Section preview.
Context {W : Type} {U : Url} {PC : PreviewCodec}.

(** [dynamic]: the dynamic validator of the environment *)
Definition preview (dynamic : OpenShiftCluster -> M W unit) : Version W :=
  mkVersion W Ext.OpenShiftCluster ToExternal ToInternal unmarshal_cluster marshal_cluster
    (fun ocs => marshal_clusters (ToExternalList ocs))
    (fun oc => marshal_credentials (CredentialsToExternal oc))
    Static dynamic.

Definition APIs (dynamic : OpenShiftCluster -> M W unit) : gmap string (Version W) :=
  {[ "2019-12-31-preview" := preview dynamic ]}.

End preview.

(** ** The static validation refuses with an error the client sees as one *)
Definition refuses {A} (r : res A) : Prop := forall e, r = Err e -> refusal e.

Lemma refuses_Ok {A} (a : A) : refuses (Ok a).
Proof. by intros e. Qed.
Lemma refuses_invalid code target message : refuses (invalid code target message).
Proof. intros e [= <-]. by simpl. Qed.
Lemma refuses_guard b e k : refuses e -> refuses k -> refuses (guard b e k).
Proof. by destruct b. Qed.
Lemma refuses_bind {A B} (r : res A) (f : A -> res B) :
  refuses r -> (forall a, refuses (f a)) -> refuses (res_bind r f).
Proof. intros Hr Hf. destruct r; simpl; [apply Hf|intros e' [= ->]; by apply Hr|by intros e..]. Qed.
Lemma refuses_if {A} (b : bool) (r s : res A) : refuses r -> refuses s -> refuses (if b then r else s).
Proof. by destruct b. Qed.
Lemma refuses_index {A} (l : list A) i : refuses (index l i).
Proof. unfold index. by destruct (l !! i); intros e. Qed.
Lemma refuses_ParseResourceID s : refuses (ParseResourceID s).
Proof.
  unfold ParseResourceID. repeat case_match; try (by intros e [= <-]).
  apply refuses_bind; [apply refuses_index|intros ?; apply refuses_Ok].
Qed.
Lemma refuses_Split s : refuses (Subnets.Split s).
Proof.
  unfold Subnets.Split. case_decide; [by intros e [= <-]|].
  apply refuses_bind; [apply refuses_index|intros ?; apply refuses_Ok].
Qed.

Create HintDb refuses discriminated.
#[export] Hint Resolve refuses_Ok refuses_invalid refuses_index refuses_ParseResourceID refuses_Split : refuses.

Ltac refuses_auto :=
  repeat first
    [ solve [auto with nocore refuses]
    | progress intros
    | apply refuses_Ok | apply refuses_invalid | apply refuses_index | apply refuses_ParseResourceID
    | apply refuses_Split | apply refuses_guard | apply refuses_bind | apply refuses_if
    | case_match | by intros ? [=] ].

Section static.
Context {U : Url}.

Lemma validateCIDR_refuses path what cidr max : refuses (validateCIDR path what cidr max).
Proof. unfold validateCIDR, invalid_parameter. destruct (ParseCIDR cidr) as [[]| | |]; refuses_auto. Qed.
Lemma validateIP_refuses path ip : refuses (validateIP path ip).
Proof. unfold validateIP, invalid_parameter. refuses_auto. Qed.

Lemma validateProperties_refuses sv path p : refuses (validateProperties sv path p).
Proof.
  unfold validateProperties, validateClusterProfile, validateConsoleProfile, validateServicePrincipalProfile,
    validateNetworkProfile, validateMasterProfile, validateWorkerProfile, validateAPIServerProfile,
    validateIngressProfile, validateVisibility, invalid_parameter.
  refuses_auto; first [apply validateCIDR_refuses|apply validateIP_refuses].
Qed.

Lemma validate_refuses sv oc : refuses (Static.validate sv oc).
Proof.
  unfold Static.validate, mismatch, invalid_parameter.
  do 4 (apply refuses_guard; [apply refuses_invalid|]). apply validateProperties_refuses.
Qed.
End static.

(** The walk of the immutable fields *)
Section walk.
Lemma refuses_reject path : refuses (reject path).
Proof. intros e [= <-]. by simpl. Qed.

Lemma walk_refuses path v w ic : refuses (Immutable.validate path v w ic).
Proof.
  revert path v w ic. fix IH 2. intros path v w ic.
  destruct v as [ty z|ty s|ty [l|]|ty l|ty [v|]|ty [l|]|ty fs|ty k], w as [ty' z'|ty' s'|ty' [m|]|ty' m|ty' [w|]|ty' [m|]|ty' gs|ty' k'];
    simpl; (case_decide; [apply refuses_reject|]); try apply refuses_reject; try (by intros e [= <-]);
    try apply refuses_Ok.
  - case_decide; [apply refuses_Ok|apply refuses_reject].
  - case_match; [apply refuses_Ok|apply refuses_reject].
  - case_decide; [apply refuses_reject|]. generalize 0. clear -IH. revert m. induction l as [|x l IHl]; intros [|y m] i; try apply refuses_Ok.
    apply refuses_bind; [apply IH|intros _; apply IHl].
  - case_decide; [apply refuses_reject|]. generalize 0. clear -IH. revert m. induction l as [|x l IHl]; intros [|y m] i; try apply refuses_Ok.
    apply refuses_bind; [apply IH|intros _; apply IHl].
  - apply IH.
  - case_decide; [apply refuses_reject|]. clear -IH. induction l as [|[k x] l IHl]; [apply refuses_Ok|].
    apply refuses_bind; [|intros _; apply IHl].
    destruct (list_find _ m) as [[? [? y]]|]; [apply IH|by intros e].
  - clear -IH. revert gs. induction fs as [|[f x] fs IHf]; intros [|[g y] gs]; try apply refuses_Ok.
    apply refuses_bind; [destruct (is_mutable f); [apply refuses_Ok|apply IH]|intros _; apply IHf].
Qed.
End walk.

Section version.
Context {W : Type} {U : Url} {PC : PreviewCodec}.

Lemma Static_refuses location path ext cur : refuses (Static location path ext cur).
Proof.
  unfold Static. apply refuses_bind; [apply refuses_ParseResourceID|intros r].
  apply refuses_bind; [apply validate_refuses|intros _].
  destruct (ToExternal <$> cur); [apply walk_refuses|apply refuses_Ok].
Qed.

Context `{!Runtime W, !Account W}.
Context `{!Collection W OpenShiftClusterDocument, !Collection W SubscriptionDocument,
          !Collection W AsyncOperationDocument}.

(** The version is one the handlers' theorems apply to, when its dynamic
    validation is. *)
Lemma preview_ok dynamic :
  (forall oc w, unchanged w (snd (dynamic oc w))) -> (forall oc, raises refusal (dynamic oc)) ->
  VersionOk (preview (W := W) dynamic).
Proof. intros Hq Hd. split; [exact Hq|intros *; apply Static_refuses|exact Hd]. Qed.

(** *** The dynamic validation as the version's *)
Context `{!Tokens W, !Ticks W, !Auth W, !PermissionsClient W, !SubnetsClient W}.

(** The services it asks leave the collections alone, and none of their errors is
    an answer of ours. *)
Class AzureQuiet : Prop := {
  az_token c k t r : steps unchanged (ServicePrincipalToken c k t r) /\ raises refusal (ServicePrincipalToken c k t r);
  az_fresh t : steps unchanged (EnsureFresh t);
  az_raw t : steps unchanged (OAuthToken t) /\ raises refusal (OAuthToken t);
  az_tick : steps unchanged (poller_tick (W := W));
  az_parse s : refuses (ParseUnverified s);
  az_fp t r : steps unchanged (env_FPAuthorizer t r) /\ raises refusal (env_FPAuthorizer t r);
  az_permissions s a g p t n : steps unchanged (permissions_ListForResource s a g p t n) /\
    raises refusal (permissions_ListForResource s a g p t n);
  az_subnet s a g v n : steps unchanged (subnets_Get s a g v n) /\ raises refusal (subnets_Get s a g v n);
}.

Lemma lift_refuses {A} (r : res A) : refuses r -> raises (W := W) refusal (lift r).
Proof. intros Hr. apply raises_lift. exact Hr. Qed.

(** A call whose error is looked at: what it raises is a refusal as well. *)
Lemma asked {A B} (m : M W A) (f : A + error -> M W B) :
  raises refusal m -> (forall a, raises refusal (f (inl a))) ->
  (forall e, refusal e -> raises refusal (f (inr e))) -> raises refusal (bind (try m) f).
Proof.
  intros Hm Ha He. eapply yields_bind; [by apply (yields_try _ (fun _ => True))|]. intros [a|e] H; [apply Ha|by apply He].
Qed.

Lemma refuses_deref {A} (p : option A) : refuses (deref p).
Proof. by destruct p; intros e. Qed.
Lemma refuses_bad {A} target message : refuses (Err (A := A) (invalid_vnet target message)).
Proof. intros e [= <-]. by simpl. Qed.
Lemma refuses_ParseCIDR s : refuses (ParseCIDR s).
Proof. unfold ParseCIDR. repeat case_match; by intros ? [= <-]. Qed.
Lemma refuses_NSG oc id : refuses (Subnets.NetworkSecurityGroupID oc id).
Proof. unfold Subnets.NetworkSecurityGroupID. refuses_auto. by intros ? [= <-]. Qed.

#[local] Hint Resolve refuses_deref refuses_bad refuses_ParseCIDR refuses_NSG : refuses.

Lemma check_roles_refuses roles : refuses (check_roles roles).
Proof. unfold check_roles. case_match; [|apply refuses_Ok]. intros e [= <-]. by simpl. Qed.

Lemma CanDoAction_refuses ps a : refuses (CanDoAction ps a).
Proof. induction ps; simpl; refuses_auto; done. Qed.

Lemma check_actions_refuses ps code typ vnetID actions : refuses (check_actions ps code typ vnetID actions).
Proof.
  induction actions; simpl; [apply refuses_Ok|]. apply refuses_bind; [apply CanDoAction_refuses|].
  intros []; [done|]. intros e [= <-]. by simpl.
Qed.

Lemma find_endpoint_refuses l : refuses (find_endpoint l).
Proof. induction l; simpl; refuses_auto; done. Qed.
#[local] Hint Resolve find_endpoint_refuses : refuses.

Lemma check_subnet_refuses oc s path typ subnetID : refuses (check_subnet oc s path typ subnetID).
Proof.
  unfold check_subnet, check_policies, check_nsg.
  refuses_auto.
Qed.

Lemma check_overlap_refuses nets : refuses (check_overlap nets).
Proof. unfold check_overlap. destruct (VerifyNoOverlap _ _ _); intros ? [= <-]; by simpl. Qed.

Context {Haz : AzureQuiet}.

Lemma Dynamic_quiet oc w : unchanged w (snd (Dynamic oc w)).
Proof.
  revert w. change (steps unchanged (Dynamic oc)). apply (Dynamic_steps unchanged);
    [apply az_token|apply az_fresh|apply az_raw|apply az_tick|apply az_fp|apply az_permissions|apply az_subnet].
Qed.

Lemma poll_token_raises token : raises refusal (poll_token token).
Proof. unfold poll_token. apply raises_bind; [apply raises_try|intros; apply raises_ret]. Qed.

Lemma validateVnetPermissions_raises oc sub client code typ :
  raises refusal (validateVnetPermissions oc sub client code typ).
Proof.
  unfold validateVnetPermissions. apply raises_bind; [apply lift_refuses, refuses_Split|intros [vnetID name]].
  apply raises_bind; [apply lift_refuses, refuses_ParseResourceID|intros r].
  apply asked; [apply az_permissions|intros; apply lift_refuses, check_actions_refuses|intros e He].
  destruct (is_detailed e _); [|by apply raises_throw]. apply raises_throw. by simpl.
Qed.

Lemma validateSubnet_raises oc subnets path typ subnetID :
  raises refusal (validateSubnet oc subnets path typ subnetID).
Proof.
  unfold validateSubnet. apply asked; [|intros; apply lift_refuses, check_subnet_refuses|].
  - unfold Subnets.Get. apply raises_bind; [apply lift_refuses, refuses_Split|intros [vnetID name]].
    apply raises_bind; [apply lift_refuses, refuses_ParseResourceID|intros r]. apply az_subnet.
  - intros e He. destruct (is_detailed e _); [|by apply raises_throw]. apply raises_throw. by simpl.
Qed.

Lemma Dynamic_raises oc : raises refusal (Dynamic oc).
Proof.
  unfold Dynamic, validateServicePrincipalProfile, validateServicePrincipalRole, validateSubnets.
  repeat first
    [ apply poll_token_raises | apply validateVnetPermissions_raises | apply validateSubnet_raises
    | apply az_token | apply az_raw | apply az_fp | apply lift_refuses, az_parse
    | apply lift_refuses, refuses_ParseResourceID | apply lift_refuses, refuses_index
    | apply lift_refuses, refuses_ParseCIDR | apply lift_refuses, check_roles_refuses
    | apply lift_refuses, check_overlap_refuses | apply raises_ret
    | apply raises_bind | progress intros | case_match ].
Qed.

Lemma preview_dynamic_ok : VersionOk (preview (W := W) Dynamic).
Proof. apply preview_ok; [apply Dynamic_quiet|apply Dynamic_raises]. Qed.
End version.
