(* ===== verification/Reference.v ===== *)
(** * A reference world

    The three collections of RefCollection.v, a frozen clock, a source of UUIDs,
    the handlers' variables, a cluster manager that succeeds or fails as the world
    says, and the preview version of the API over a toy encoding. It shows that
    the contracts the theorems assume can be met together, and runs the program's
    operations on concrete inputs. *)
From S2P Require Import Prelude GoStrings.
From S2P Require Import Azure Api External Services Subnets Wait Dynamic.
From S2P Require Import Cosmos CosmosLaws RefCollection.
From S2P Require Import Database DatabaseSpec Errors.
From S2P Require Import Static Frontend FrontendSpec Preview Backend.
From S2P Require Import Mux Middleware Authorizer Routes RoutesSpec.

(** ** The world *)
Record World := mkWorld {
  wo_clusters : Coll (D := OpenShiftClusterDocument);
  wo_subscriptions : Coll (D := SubscriptionDocument);
  wo_async : Coll (D := AsyncOperationDocument);
  wo_now : Z;                 (* milliseconds *)
  wo_uuids : nat;
  wo_header : Header;
  wo_done : bool;
  wo_manager : bool;          (* whether the cluster manager succeeds *)
  wo_writer : ResponseWriter;
  wo_log : list Z;            (* the statuses the access log has seen *)
}.

#[export] Instance World_Runtime : Runtime World := {|
  time_Now w := (Ok (wo_now w), w);
  time_Sleep _ w := (Ok tt, w);
  uuid_NewV4 w := (Ok ("uuid-" +:+ pretty (wo_uuids w)), w <| wo_uuids := S (wo_uuids w) |>);
  format_date _ := "Mon, 06 Jan 2020 00:00:00 GMT";
  base64_DecodeString s := Some s;
  sign_request _ _ := "signature";
|}.

(** ** The collections *)
Definition dbc : databaseClient := mkDatabaseClient "account" "key" 10.
Definition clusters_client : documentClient := NewDocumentClient dbc "db" "OpenShiftClusters".
Definition subscriptions_client : documentClient := NewDocumentClient dbc "db" "Subscriptions".
Definition async_client : documentClient := NewDocumentClient dbc "db" "AsyncOperations".

Definition clusters_matches (q : Query) (pk : string) (t : Z) (d : OpenShiftClusterDocument) : bool :=
  in_partition pk (ocd_PartitionKey d) &&
  match q_Parameters q with
  | [p] =>
      if decide (qp_Name p = "@key") then bool_decide (ocd_Key d = qp_Value p)
      else HasPrefix (ocd_Key d) (qp_Value p)
  | _ => dequeuable t d
  end.
Definition subscriptions_matches (q : Query) (pk : string) (t : Z) (d : SubscriptionDocument) : bool :=
  in_partition pk (sd_ID d) && dequeuable_subscription t d.

Definition set_clusters co w : World := w <| wo_clusters := co |>.
Definition set_subscriptions co w : World := w <| wo_subscriptions := co |>.
Definition set_async co w : World := w <| wo_async := co |>.

#[export] Instance World_Account : Account World := {|
  account_clusters := ref_service clusters_client clusters_matches wo_now wo_clusters set_clusters;
  account_subscriptions :=
    ref_service subscriptions_client subscriptions_matches wo_now wo_subscriptions set_subscriptions;
  account_async := ref_service async_client (fun _ _ _ _ => false) wo_now wo_async set_async;
|}.
#[export] Instance World_clusters : Collection World OpenShiftClusterDocument :=
  ref_collection clusters_matches wo_now wo_clusters.
#[export] Instance World_subscriptions : Collection World SubscriptionDocument :=
  ref_collection subscriptions_matches wo_now wo_subscriptions.
#[export] Instance World_asyncs : Collection World AsyncOperationDocument :=
  ref_collection (fun _ _ _ _ => false) wo_now wo_async.

Definition owner : string := "backend-1".
Definition ref_db : Database := {|
  db_AsyncOperations := AsyncOperations.mkAsyncOperations async_client owner;
  db_OpenShiftClusters := OpenShiftClusters.mkOpenShiftClusters clusters_client owner;
  db_Subscriptions := Subscriptions.mkSubscriptions subscriptions_client owner;
|}.
#[export] Instance ref_pages : PageBound := 3.

(** A change that touches none of a collection's parts is quiet. *)
Lemma quiet_clusters w w' :
  wo_clusters w' = wo_clusters w -> wo_now w' = wo_now w -> quiet OpenShiftClusterDocument w w'.
Proof. apply quiet_get. Qed.
Lemma quiet_subscriptions w w' :
  wo_subscriptions w' = wo_subscriptions w -> wo_now w' = wo_now w -> quiet SubscriptionDocument w w'.
Proof. apply quiet_get. Qed.
Lemma quiet_asyncs w w' :
  wo_async w' = wo_async w -> wo_now w' = wo_now w -> quiet AsyncOperationDocument w w'.
Proof. apply quiet_get. Qed.

Ltac quiet_tac := intros; first [apply quiet_clusters|apply quiet_subscriptions|apply quiet_asyncs]; done.

#[export] Instance World_clusters_runtime : RuntimeQuiet World OpenShiftClusterDocument.
Proof. split; first [quiet_tac|done]. Qed.
#[export] Instance World_subscriptions_runtime : RuntimeQuiet World SubscriptionDocument.
Proof. split; first [quiet_tac|done]. Qed.
#[export] Instance World_async_runtime : RuntimeQuiet World AsyncOperationDocument.
Proof. split; first [quiet_tac|done]. Qed.

Ltac apart_tac :=
  intros req w; unfold hc_Do, account_clusters, account_subscriptions, account_async; simpl; unfold ref_service;
  destruct (serve _ _ _ _ _); quiet_tac.

#[export] Instance World_laws : AccountLaws World ref_db.
Proof.
  split; try done; try apply _.
  - by apply ref_laws.
  - by apply ref_laws.
  - by apply ref_laws.
  - apart_tac.
  - apart_tac.
  - apart_tac.
  - apart_tac.
  - apart_tac.
  - apart_tac.
Qed.

(** ** The handlers' variables *)
#[export] Instance World_header : Cell World Header := {|
  cell_get := wo_header; cell_set h w := w <| wo_header := h |> |}.
#[export] Instance World_done : Cell World bool := {|
  cell_get := wo_done; cell_set b w := w <| wo_done := b |> |}.
#[export] Instance World_header_clusters : CellQuiet World Header OpenShiftClusterDocument.
Proof. unfold CellQuiet. quiet_tac. Qed.
#[export] Instance World_header_subscriptions : CellQuiet World Header SubscriptionDocument.
Proof. unfold CellQuiet. quiet_tac. Qed.
#[export] Instance World_header_asyncs : CellQuiet World Header AsyncOperationDocument.
Proof. unfold CellQuiet. quiet_tac. Qed.

(** ** The server's surroundings *)
#[export] Instance World_writer : Cell World ResponseWriter := {|
  cell_get := wo_writer; cell_set x w := w <| wo_writer := x |> |}.
#[export] Instance World_telemetry : Telemetry World := {|
  log_request _ _ := ret tt;
  log_response _ n _ _ := fun w => (Ok tt, w <| wo_log := wo_log w ++ [n] |>);
  EmitGauge _ _ _ := ret tt;
  EmitFloat _ _ _ := ret tt;
|}.
#[export] Instance World_authorizer : ClientAuthorizer World := one_authorizer "arm".
#[export] Instance World_server_quiet : ServerQuiet World unchanged.
Proof. split; intros; by intros w. Qed.

(** ** The environment *)
#[export] Instance ref_env : Env := {|
  env_Location := "eastus";
  env_ResourceGroup := "rp";
  env_SubscriptionID := "rp-subscription";
  env_TenantID := "rp-tenant";
  env_Domain := "aro.example.com";
  env_isDev := false;
|}.
#[export] Instance ref_url : Url := {|
  url_Parse_ok s := negb (bool_decide (s = "%"));
  url_with_path u p := "https://localhost" +:+ p;
|}.

(** ** JSON, by example: a body is the name of what it decodes to *)
#[export] Instance ref_codec : Codec := {|
  encode_error b := ceb_Code b;
  encode_async ao := ao_ProvisioningState ao;
  encode_subscription s := s_State s;
  decode_subscription b :=
    if decide (b = "null") then inl None
    else if decide (b = "invalid") then inr "invalid character"
    else inl (Some (mkSubscription no_missing b (Some (mkSubscriptionProperties no_missing "tenant"))));
  json_Valid b := negb (bool_decide (b = "invalid"));
|}.

Definition ref_sub : string := "00000000-0000-0000-0000-000000000000".
Definition vnet : string :=
  "/subscriptions/" +:+ ref_sub +:+ "/resourceGroups/rg/providers/Microsoft.Network/virtualNetworks/vnet".
Definition ref_properties (state : ProvisioningState) (count : Z) : Ext.Properties :=
  Ext.mkProperties state
    (Ext.mkClusterProfile "cluster" EmptyString ("/subscriptions/" +:+ ref_sub +:+ "/resourceGroups/aro"))
    (Ext.mkConsoleProfile EmptyString)
    (Ext.mkServicePrincipalProfile "11111111-1111-1111-1111-111111111111" "secret")
    (Ext.mkNetworkProfile "10.128.0.0/14" "172.30.0.0/16")
    (Ext.mkMasterProfile VMSizeStandardD8sV3 (vnet +:+ "/subnets/master"))
    (Some [Ext.mkWorkerProfile "worker" VMSizeStandardD2sV3 128 (vnet +:+ "/subnets/worker") count])
    (Ext.mkAPIServerProfile VisibilityPublic EmptyString EmptyString)
    (Some [Ext.mkIngressProfile "default" VisibilityPublic EmptyString]).

(** Over the cluster that is decoded into *)
Definition ref_cluster (count : Z) (ext : Ext.OpenShiftCluster) : Ext.OpenShiftCluster :=
  Ext.mkOpenShiftCluster (Ext.oc_ID ext) (Ext.oc_Name ext) (Ext.oc_Type ext) "eastus" (Ext.oc_Tags ext)
    (ref_properties (Ext.p_ProvisioningState (Ext.oc_Properties ext)) count).

#[export] Instance ref_preview_codec : PreviewCodec := {|
  unmarshal_cluster b ext :=
    if decide (b = "null") then inl None
    else if decide (b = "three workers") then inl (Some (ref_cluster 3 ext))
    else if decide (b = "five workers") then inl (Some (ref_cluster 5 ext))
    else inr "invalid character";
  marshal_cluster ext :=
    Ext.oc_ID ext +:+ " " +:+ Ext.p_ProvisioningState (Ext.oc_Properties ext) +:+ " " +:+
    Ext.spp_ClientSecret (Ext.p_ServicePrincipalProfile (Ext.oc_Properties ext));
  marshal_clusters l := pretty (length (Ext.l_OpenShiftClusters l));
  marshal_credentials c := Ext.KubeadminUsername c +:+ " " +:+ Ext.KubeadminPassword c;
|}.

(** ** Azure, as the dynamic validation sees it: a service principal without the
    forbidden role, contributors, and a virtual network with two subnets, which
    have the cluster's security groups once there is a cluster *)
#[export] Instance World_tokens : Tokens World := {|
  Token := string;
  ServicePrincipalToken clientID _ _ _ := ret clientID;
  EnsureFresh _ := ret tt;
  OAuthToken t := ret t;
  ParseUnverified _ := Ok ["Directory.Read.All"];
|}.
#[export] Instance World_ticks : Ticks World := {|
  poller_tick := ret false;
  until_tick := ret true;
  backoff_Sleep := ret tt;
  IsConflict _ := false;
|}.
#[export] Instance World_auth : Auth World := {| env_FPAuthorizer t _ := ret (FirstParty t) |}.
#[export] Instance World_permissions : PermissionsClient World := {|
  permissions_ListForResource _ _ _ _ _ _ :=
    ret [mkPermission (Some ["*"]) (Some ["Microsoft.Authorization/*/Write"])];
|}.

Definition ref_nsg (name : string) : NSGRef :=
  mkNSGRef (Some ("/subscriptions/" +:+ ref_sub +:+
    "/resourceGroups/aro/providers/Microsoft.Network/networkSecurityGroups/" +:+ name)).
Definition ref_subnet (name prefix : string) (nsg : option NSGRef) : Subnet :=
  mkSubnet (Some (vnet +:+ "/subnets/" +:+ name))
    (Some (mkSubnetPropertiesFormat (Some prefix) nsg
       (Some [mkServiceEndpoint (Some "Microsoft.ContainerRegistry") "Succeeded"]) (Some "Disabled"))).
#[export] Instance World_subnets : SubnetsClient World := {|
  subnets_Get _ _ _ _ name w :=
    let attached nsg := if decide (co_map (wo_clusters w) = ∅) then None else Some (ref_nsg nsg) in
    (if decide (name = "master") then Ok (ref_subnet name "10.0.0.0/24" (attached "aro-controlplane-nsg"))
     else if decide (name = "worker") then Ok (ref_subnet name "10.0.1.0/24" (attached "aro-node-nsg"))
     else Err (ErrDetailed StatusNotFound "NotFound"), w);
  subnets_CreateOrUpdateAndWait _ _ _ _ _ _ := ret tt;
|}.
#[export] Instance World_azure : AzureQuiet (W := World).
Proof.
  split; try (intros; split); try done; intros; intros w; simpl; try done.
  repeat case_decide; by simpl.
Qed.

(** The version with its own dynamic validation *)
Definition ref_apis : gmap string (Version World) := APIs Dynamic.

Lemma ref_apis_ok k v : ref_apis !! k = Some v -> VersionOk v.
Proof.
  unfold ref_apis, APIs. intros [_ <-]%lookup_singleton_Some. apply preview_dynamic_ok.
Qed.

(** ** A cluster manager that succeeds when the world says so *)
Definition ref_work : M World unit := fun w =>
  (if wo_manager w then Ok tt else Err (ErrOther "deployment failed"), w).
#[export] Instance ref_manager : ClusterManager World := {|
  Manager := unit;
  Backend.NewManager _ := ret tt;
  Manager_Create _ := ref_work;
  Manager_Update _ := ref_work;
  Manager_Delete _ := ref_work;
|}.

(** ** Example documents, requests and worlds *)
Definition ref_meta : DocMeta := mkDocMeta EmptyString 0 EmptyString "etag" EmptyString.
Definition ref_path : string :=
  "/subscriptions/" +:+ ref_sub +:+
  "/resourcegroups/rg/providers/microsoft.redhatopenshift/openshiftclusters/cluster".
Definition ref_original_path : string :=
  "/subscriptions/" +:+ ref_sub +:+
  "/resourceGroups/rg/providers/Microsoft.RedHatOpenShift/openShiftClusters/cluster".

Definition ref_internal (state failed : ProvisioningState) : OpenShiftCluster :=
  let oc := ToInternal
    (Ext.mkOpenShiftCluster ref_original_path "cluster" "Microsoft.RedHatOpenShift/openShiftClusters" "eastus" None
       (ref_properties state 3))
    (put_base (mkOpenShiftCluster no_missing EmptyString EmptyString EmptyString EmptyString None
       (mkProperties no_missing state EmptyString
          (mkClusterProfile no_missing EmptyString EmptyString EmptyString)
          (mkConsoleProfile no_missing EmptyString)
          (mkServicePrincipalProfile no_missing EmptyString EmptyString EmptyString)
          (mkNetworkProfile no_missing EmptyString EmptyString EmptyString)
          (mkMasterProfile no_missing EmptyString EmptyString) None
          (mkAPIServerProfile no_missing EmptyString EmptyString EmptyString) None None EmptyString None None
          EmptyString))) in
  oc <| oc_Properties -> p_FailedProvisioningState := failed |>
     <| oc_Properties -> p_KubeadminPassword := "password" |>.

Definition ref_document (state failed : ProvisioningState) (lease_owner : string) (expires dequeues : Z)
    (operation : string) : OpenShiftClusterDocument :=
  mkOpenShiftClusterDocument no_missing "doc" ref_meta ref_path ref_sub EmptyString lease_owner expires dequeues
    operation (Some (ref_internal state failed)).
Definition ref_subscription (state : SubscriptionState) : SubscriptionDocument :=
  mkSubscriptionDocument no_missing ref_sub ref_meta EmptyString 0 0 false
    (Some (mkSubscription no_missing state (Some (mkSubscriptionProperties no_missing "tenant")))).
Definition ref_operation (id : string) (initial state : ProvisioningState) : AsyncOperationDocument :=
  mkAsyncOperationDocument no_missing id ref_meta
    (Some (mkAsyncOperation no_missing ("/operationsstatus/" +:+ id) id initial state 0 None None)) ref_path None.

Definition world (docs : list OpenShiftClusterDocument) (subs : list SubscriptionDocument)
    (ops : list AsyncOperationDocument) : World :=
  mkWorld (load docs) (load subs) (load ops) 1000000 0 ∅ false true new_writer [].

Definition ref_request (method body operationId : string) : Frontend.Request :=
  Frontend.mkRequest method ref_path ref_original_path
    (<["operationId" := operationId]>
       {[ "api-version" := "2019-12-31-preview"; "subscriptionId" := ref_sub;
          "resourceProviderNamespace" := "microsoft.redhatopenshift";
          "resourceType" := "openshiftclusters"; "resourceName" := "cluster"; "resourceGroupName" := "rg" ]})
    {[ "Referer" := ["https://localhost/"] ]} body.

(** A request on the wire, and the server *)
Definition wire_request (method path version contentType body : string) (cert : string) : ServerRequest :=
  mkServerRequest method path {["api-version" := [version]]}
    {["Content-Type" := [contentType]; "Referer" := ["https://localhost/"]]} body false
    (Some (mkConnectionState [cert])) EmptyString None None ∅ None.
Definition ref_server (A : Account World) : ServerRequest -> M World unit :=
  server (Account0 := A) ref_db ref_apis true (fun r => sr_Path r) (fun _ => true) "{}" (fun _ => "operations").
(** What the client got: the status and the body *)
Definition answer (r : res unit * World) : option Z * string :=
  (fst <$> rw_sent (wo_writer (snd r)), rw_Body (wo_writer (snd r))).

(** A registered subscription and a cluster in its last successful state *)
Definition settled : World :=
  world [ref_document ProvisioningStateSucceeded EmptyString EmptyString 0 2 EmptyString]
    [ref_subscription SubscriptionStateRegistered] [].
(** The same without the cluster *)
Definition vacant : World := world [] [ref_subscription SubscriptionStateRegistered] [].
(** A cluster that is being updated, under our lease *)
Definition updating : World :=
  world [ref_document ProvisioningStateUpdating EmptyString owner 2000 1 "op"]
    [ref_subscription SubscriptionStateRegistered]
    [ref_operation "op" ProvisioningStateUpdating ProvisioningStateUpdating].
(** A cluster that waits for the back end, after [n] tries *)
Definition waiting (n : Z) : World :=
  world [ref_document ProvisioningStateUpdating EmptyString EmptyString 0 n "op"]
    [ref_subscription SubscriptionStateRegistered]
    [ref_operation "op" ProvisioningStateUpdating ProvisioningStateUpdating].

Definition status {A} (r : res A * World) : res A := fst r.
Definition ref_put (r : Frontend.Request) : M World HttpResponse :=
  putOrPatchOpenShiftCluster ref_db ref_apis true r.

Example put_settled :
  resp_StatusCode <$> match fst (ref_put (ref_request "PUT" "five workers" "op") settled) with
                      | Ok r => Some r | _ => None end = Some StatusOK.
Proof. vm_compute. reflexivity. Qed.

(** The same request through the server, from a caller with the right certificate
    and from one with another *)
Example server_put :
  answer (ref_server _ (wire_request "PUT" ref_original_path "2019-12-31-preview" "application/json" "five workers" "arm") settled)
  = (Some 200%Z, ref_original_path +:+ " Updating " +:+ newline_string).
Proof. vm_compute. reflexivity. Qed.
Example server_forbids :
  fst (answer (ref_server _ (wire_request "PUT" ref_original_path "2019-12-31-preview" "application/json" "five workers" "me") settled))
  = Some 403%Z.
Proof. vm_compute. reflexivity. Qed.
Example server_health :
  answer (ref_server _ (wire_request "GET" "/healthz/ready" "" "" "" "me") settled) = (Some 200%Z, "{}" +:+ newline_string).
Proof. vm_compute. reflexivity. Qed.
