(* ===== verification/RefShared.v ===== *)
(** * The reference world, shared

    Each request to a reference collection takes effect at once, so the reference
    account may be shared, and the surroundings of the reference world keep what the
    system promises. *)
From S2P Require Import Prelude GoStrings.
From S2P Require Import Azure Api External Services Subnets Wait Dynamic.
From S2P Require Import Cosmos CosmosLaws RefCollection.
From S2P Require Import Database DatabaseSpec.
From S2P Require Import Static Frontend FrontendSpec Preview Backend.
From S2P Require Import Mux Middleware Authorizer Routes RoutesSpec.
From S2P Require Import Reference.
From S2P Require Import Rely Lifecycle System.

Section linear.
Context {W D : Type} `{!Document D, !Stored D}.
Context (c : documentClient) (matches_ : Query -> string -> Z -> D -> bool).
Context (now : W -> Z) (get : W -> Coll (D := D)) (set : Coll (D := D) -> W -> W).
Context (get_set : forall co w, get (set co w) = co).
#[local] Existing Instance ref_collection.

Lemma run_triggers_stored t names (d d' : D) :
  run_triggers t names d = Some d' -> exists ts, d' = foldr d_with_leaseExpires d ts.
Proof.
  unfold run_triggers. assert (forall ts, foldl (fun o name => o ≫= run_trigger t name)
    (Some (foldr d_with_leaseExpires d ts)) names = Some d' -> exists ts, d' = foldr d_with_leaseExpires d ts) as H.
  { induction names as [|name names IH]; intros ts; simpl; [intros [= <-]; by exists ts|].
    unfold run_trigger at 2. repeat case_decide.
    - apply (IH (_ :: ts)).
    - apply (IH (_ :: ts)).
    - clear. intros H. exfalso. by induction names. }
  apply (H []).
Qed.

Lemma stamped_stored t req co (d d' : D) : stamped t req co d = Some d' -> stored_from d d'.
Proof. intros (d1 & [ts ->]%run_triggers_stored & ->)%fmap_Some_inv. by eexists _, ts. Qed.

(** Neither the service's metadata nor its lease times are part of the key. *)
Context (key_meta : forall me (d : D), d_key (d_with_meta me d) = d_key d).
Context (key_lease : forall n (d : D), d_key (d_with_leaseExpires n d) = d_key d).
Lemma stored_key (d d' : D) : stored_from d d' -> d_key d' = d_key d.
Proof. by apply stored_field. Qed.

Lemma write_cases status m (d : D) co resp co' :
  write status m d co = (resp, co') ->
  (resp = respond status d /\ co_map co' = m) \/ (resp = refuse StatusConflict /\ co' = co).
Proof.
  unfold write. destruct (make m _) as [co1|] eqn:E; intros [= <- <-]; [left|by right]. by apply make_ok in E.
Qed.

Abbreviation effect_of req r m m' :=
  (effect W (Collection0 := ref_collection matches_ now get) req r m m').

Lemma refuse_effect req n m : n <> StatusCreated -> effect_of req (Ok (refuse n)) m m.
Proof. intros Hn. split; [by left|..]; intros; simplify_eq/=. Qed.

Lemma write_effect req status d d' m m' :
  wrote req m m' -> rq_Body req = BodyDoc d -> stored_from d d' -> m' !! d_key d' = Some d' ->
  effect_of req (Ok (respond status d')) m m'.
Proof.
  intros Hw Hb Hs Hm. split; [by right|..]; intros; simplify_eq/=; [done|].
  split; [done|]. intros d2 _ Hd2. congruence.
Qed.

Lemma delete_effect req k m m' :
  rq_Method req = "DELETE" -> m' = delete k m -> effect_of req (Ok (refuse StatusNoContent)) m m'.
Proof. intros Hm Hd. split; intros; simplify_eq/=. right. left. split; [done|by exists k]. Qed.

Lemma serve_effect t req co resp co' :
  serve c matches_ t req co = (resp, co') ->
  effect_of req (Ok resp) (co_map co) (co_map co').
Proof.
  unfold serve. intros H. case_decide as Hg.
  { destruct (locate c req co) as [[k d]|] eqn:Hl.
    - injection H as <- <-. apply find_some in Hl as [Hin _]. apply list_elem_of_In, elem_of_map_to_list in Hin.
      split; [by left|..]; intros; simplify_eq/=. by rewrite (co_key _ _ _ Hin).
    - destruct (rq_Body req); injection H as <- <-; by apply refuse_effect. }
  destruct (rq_Body req) as [|d|q] eqn:Hb.
  - case_decide as Hp; [injection H as <- <-; by apply refuse_effect|].
    destruct (locate c req co) as [[k old]|] eqn:Hl; [|injection H as <- <-; by apply refuse_effect].
    destruct (RefCollection.allowed req old); simpl in H; [|injection H as <- <-; by apply refuse_effect].
    case_decide as Hput; [injection H as <- <-; by apply refuse_effect|].
    case_decide as Hdel; [|injection H as <- <-; by apply refuse_effect].
    destruct (make _ _) as [co1|] eqn:E; injection H as <- <-; [|by apply refuse_effect].
    apply make_ok in E. by apply (delete_effect req k).
  - case_decide as Hp.
    + destruct (co_map co !! d_key d) as [x|] eqn:Hk; [injection H as <- <-; by apply refuse_effect|].
      destruct (stamped t req co d) as [d'|] eqn:Hst; [|injection H as <- <-; by apply refuse_effect].
      apply write_cases in H as [[-> Hm]|[-> ->]]; [|by apply refuse_effect].
      apply stamped_stored in Hst as Hs. apply (write_effect req _ d); [|done|done|].
      * right. exists d, d'. split_and!; [done|done|by left].
      * rewrite Hm, (stored_key _ _ Hs). apply lookup_insert_eq.
    + destruct (locate c req co) as [[k old]|] eqn:Hl; [|injection H as <- <-; by apply refuse_effect].
      destruct (RefCollection.allowed req old); simpl in H; [|injection H as <- <-; by apply refuse_effect].
      case_decide as Hput.
      * destruct (decide (d_ID d <> d_ID old)) as [|Hid%dec_stable]; [injection H as <- <-; by apply refuse_effect|].
        destruct (stamped t req co d) as [d'|] eqn:Hst; [|injection H as <- <-; by apply refuse_effect].
        apply write_cases in H as [[-> Hm]|[-> ->]]; [|by apply refuse_effect].
        apply stamped_stored in Hst as Hs. apply (write_effect req _ d); [|done|done|].
        -- right. exists d, d'. split_and!; [done|done|]. right. split; [done|]. exists k, old.
           apply find_some in Hl as [Hin _]. apply list_elem_of_In, elem_of_map_to_list in Hin. done.
        -- rewrite Hm, (stored_key _ _ Hs). apply lookup_insert_eq.
      * case_decide; [|injection H as <- <-; by apply refuse_effect].
        destruct (make _ _) as [co1|] eqn:E; injection H as <- <-; [|by apply refuse_effect].
        apply make_ok in E. by apply (delete_effect req k).
  - injection H as <- <-. split; [by left|..]; intros; simplify_eq/=.
    match goal with H : _ ∈ _ |- _ => apply page_spec in H as [? ?] end. split; [done|exists (partition_of req), t; congruence].
Qed.

(** A request leaves the rest of the world alone. *)
Context (I : W -> Prop) (G rest : W -> W -> Prop) `{!PreOrder G}.
Context (rest_set : forall co w, rest w (set co w)).
Lemma ref_linear :
  Linear (Service0 := ref_service c matches_ now get set) (Collection0 := ref_collection matches_ now get) I G rest.
Proof.
  intros req w _. exists w, (snd (ref_service c matches_ now get set req w)). unfold hc_Do, ref_service, store. simpl.
  destruct (serve c matches_ (now w) req (get w)) as [resp co'] eqn:E. simpl. rewrite get_set.
  split_and!; [reflexivity|by apply (serve_effect (now w))|done|reflexivity].
Qed.
End linear.

Lemma load_lookup {D} `{!Document D, !Stored D} (l : list D) k d :
  co_map (load l) !! k = Some d -> d ∈ l /\ d_key d = k.
Proof.
  unfold load. destruct (make _ _) as [co|] eqn:E; [|simpl; by rewrite lookup_empty].
  apply make_ok in E. simpl. rewrite E. intros (x & [= -> ->] & Hx)%elem_of_list_to_map_2%list_elem_of_fmap. done.
Qed.

(** ** The account *)
Lemma quiet_kept {A} (m : M World A) : (forall w, clusters (snd (m w)) = clusters w /\ asyncs (snd (m w)) = asyncs w) ->
  steps (guards well_kept promise) m.
Proof. intros H w _. destruct (H w). by apply unchanged_promise. Qed.

#[export] Instance World_shared : SharedAccount World ref_db.
Proof.
  split; try (intros; by apply quiet_kept).
  - by apply ref_linear; [..|apply _|].
  - by apply ref_linear; [..|apply _|].
  - intros req. apply quiet_kept. intros w. unfold hc_Do, account_subscriptions. simpl. unfold ref_service.
    by destruct (serve _ _ _ _ _).
  - intros pk t d Hm. by apply andb_true_iff in Hm as [_ Hm].
  - done.
  - done.
Qed.

#[export] Instance World_handlers : Handlers World (guards well_kept promise) ref_apis.
Proof.
  split; try (intros; by apply quiet_kept).
  intros k v oc Hv. apply ref_apis_ok in Hv. apply quiet_kept. intros w.
  by destruct (vo_quiet _ Hv oc w) as (? & ? & ?).
Qed.
#[export] Instance World_kept_server : ServerQuiet World (guards well_kept promise).
Proof. split; intros; by apply quiet_kept. Qed.
