(* ===== verification/RefInstall.v ===== *)
(** * The reference world, with the modelled cluster manager

    Azure, the installer's assets and a cluster's own API, each as simple as it can
    be: what is read is always the same, and nothing but the account is written. The
    manager of Create.v installs, updates and deletes a cluster in it. *)
From S2P Require Import Prelude GoStrings.
From S2P Require Import Azure Api Net Services Subnets Wait Kube.
From S2P Require Import Cosmos CosmosLaws RefCollection Database DatabaseSpec Backend Manager.
From S2P Require Import Graph Arm InstallTemplates Install Create.
From S2P Require Import Frontend Preview Reference Rely Lifecycle System RefShared InstallSpec.

#[export] Instance World_recordsets : RecordSetsClient World := {|
  recordsets_Get _ _ _ := ret (mkRecordSet (Some "etag") {[ Dns.resourceID := Some ref_original_path ]} None None);
  recordsets_CreateOrUpdate _ _ _ _ _ _ := ret tt;
  recordsets_Delete _ _ _ _ := ret tt;
|}.
#[export] Instance World_endpoints : PrivateEndpointsClient World := {|
  privateendpoints_CreateOrUpdateAndWait _ _ _ := ret tt;
  privateendpoints_DeleteAndWait _ _ := ret tt;
  privateendpoints_Get _ _ _ := ret (Some [Some [Some "10.1.0.4"]]);
|}.
#[export] Instance World_groups : GroupsClient World := {| groups_DeleteAndWait _ _ _ := ret tt |}.

#[export] Instance World_install : InstallClients World := {|
  groups_CreateOrUpdate _ _ _ _ := ret tt;
  CreateARMResourceGroupRoleAssignment _ _ := ret tt;
  DeploymentFuture := unit;
  deployments_CreateOrUpdate _ _ _ _ _ := ret tt;
  WaitForCompletionRef _ := ret tt;
  deployments_Get _ _ _ _ := ret (Some "Succeeded");
  accounts_ListAccountSAS _ _ _ _ _ := ret (Some "token");
  Values := string;
  url_ParseQuery s := Ok s;
  blob_Get _ _ _ _ := ret "graph";
  blob_CreateBlockBlobFromReader _ _ _ _ _ := ret tt;
  ClientCredentialsConfig_Authorizer c _ t _ := ret (ServicePrincipal t c);
  applications_GetServicePrincipalsIDByAppID _ _ _ := ret (Some "object");
  publicipaddresses_Get _ _ _ _ := ret (Some "20.0.0.1");
  virtualmachines_DeleteAndWait _ _ _ _ := ret tt;
  disks_DeleteAndWait _ _ _ _ := ret tt;
  interfaces_DeleteAndWait _ _ _ _ := ret tt;
|}.

(** A configuration with what the second and the third phase read *)
Definition ref_net (s : string) : IPNet := outcome (mkIPNet [] 0 0) (MustParseCIDR s).
Definition ref_pool (name : string) (count : Z) : MachinePool :=
  mkMachinePool name (Some count) ["1"; "2"; "3"] "Standard_D8s_v3" 0 "Enabled".
Definition ref_config : InstallConfig :=
  mkInstallConfig "cluster" "ssh-rsa a2V5" "aro.example.com" (ref_net "127.0.0.0/8") "OpenShiftSDN"
    [(ref_net "10.128.0.0/14", 23%Z)] [ref_net "172.30.0.0/16"] (ref_pool "master" 3) [ref_pool "worker" 3]
    (mkAzurePlatform "eastus" "aro" "rg" "vnet" "master" "worker" true (Some (mkOSImage "azureopenshift" "aro4" "aro_43" "43.81.20191122")))
    "pull secret" [] "External".

(** The assets: an administrator's kubeconfig made from a certificate, and three more *)
#[export] Instance World_assets : Assets World := {|
  Dependencies a :=
    match a with
    | AAdminClient _ => [AOther "*tls.AdminKubeConfigClientCertKey" EmptyString; AInstallConfig ref_config]
    | ABootstrap _ => [AInstallConfig ref_config; AAdminClient EmptyString]
    | _ => []
    end;
  Generate a g :=
    ret (match a with
         | AAdminClient _ => AAdminClient "kubeconfig"
         | ABootstrap _ => ABootstrap "bootstrap.ign"
         | AMachineMaster _ => AMachineMaster "master.ign"
         | AKubeadminPassword _ => AKubeadminPassword "password"
         | a => a
         end, g);
  json_Marshal a := Ok (TypeOf a);
  json_Unmarshal t _ :=
    Ok (if decide (t = "*installconfig.InstallConfig") then AInstallConfig ref_config
        else if decide (t = "*machine.Master") then AMachineMaster "master.ign"
        else if decide (t = "*password.KubeadminPassword") then AKubeadminPassword "password"
        else AOther t EmptyString);
  json_MarshalIndent_object _ := "graph";
  json_Decode_object s :=
    if decide (s = "graph") then
      Ok {[ "*installconfig.InstallConfig" := "{}"; "*machine.Master" := "{}"; "*password.KubeadminPassword" := "{}" ]}
    else Err (ErrOther "invalid character");
  targets_Cluster := [AKubeadminPassword EmptyString; AMachineMaster EmptyString; ABootstrap EmptyString];
|}.
#[export] Instance ref_depth : Depth := 3.

#[export] Instance World_config : Config World := {|
  Kubeconfig := string;
  ClientConfig := string;
  clientcmd_Load k := match k with Some k => Ok k | None => Err (ErrOther "no kubeconfig") end;
  NewDefaultClientConfig k := Ok k;
  Conn := string;
  env_DialContext _ address := ret address;
|}.
Definition ref_machineset : MachineSet := mkMachineSet "openshift-machine-api" "aro-worker-eastus1" (Some 3%Z) 1 1 3.
#[export] Instance World_kube : Kube World := {|
  KubeClient := unit;
  ConfigClient := unit;
  MachineClient := unit;
  kubernetes_NewForConfig _ := Ok tt;
  config_NewForConfig _ := Ok tt;
  machine_NewForConfig _ := Ok tt;
  configmaps_Get _ _ _ := ret {["status" := "complete"]};
  services_Get _ _ _ := ret ["20.0.0.2"];
  clusterversions_Get _ _ := ret (mkClusterVersion "1" "upstream" "channel" [("Available", "True")]);
  clusterversions_Update _ v := ret v;
  machinesets_List _ _ := ret [ref_machineset];
  machinesets_Get _ _ _ := ret ref_machineset;
  machinesets_Update _ _ ms := ret ms;
|}.
#[export] Instance World_creation : Creation World := {|
  rsa_GenerateKey _ := ret "key";
  rand_Int n := ret (7 mod n)%Z;
  ssh_NewPublicKey k := Ok ("ssh-rsa", k);
  ValidateInstallConfig _ := Ok tt;
  rhcos_VHD := ret "https://rhcos.blob.core.windows.net/imagebucket/rhcos-43.81.201911221453.0-azure.x86_64.vhd";
  PULL_SECRET := "pull secret";
  env_zones := {[ VMSizeStandardD8sV3 := ["1"; "2"; "3"]; VMSizeStandardD2sV3 := ["1"; "2"; "3"] ]};
|}.

(** None of it touches the world, but for the source of UUIDs. *)
Definition apart (w w' : World) : Prop := w' = w.
#[export] Instance apart_preorder : PreOrder apart.
Proof. split; [by intros w|]. unfold apart. intros ? ? ?; congruence. Qed.
#[export] Instance World_around : Around World apart.
Proof.
  split; intros; intros w; try done.
Qed.

#[export] Instance World_around_kept : Around World (guards well_kept promise).
Proof. apply (around_weaken apart); [|apply _]. intros w w' ->. reflexivity. Qed.
#[export] Instance World_around_same : Around World (same (D := OpenShiftClusterDocument)).
Proof. apply (around_weaken apart); [|apply _]. by intros w w' ->. Qed.

(** A cluster that is to be created, under our lease *)
Definition version : string := "4.3.0-0.nightly-2019-12-05-001549".
Definition creating_document : OpenShiftClusterDocument :=
  let doc := ref_document ProvisioningStateCreating EmptyString owner 2000 1 "op" in
  doc <| ocd_OpenShiftCluster := option_map (fun oc =>
    oc <| oc_Properties -> p_ClusterProfile -> cp_Version := version |>) (ocd_OpenShiftCluster doc) |>.
Definition creating : World :=
  world [creating_document] [ref_subscription SubscriptionStateRegistered]
    [ref_operation "op" ProvisioningStateCreating ProvisioningStateCreating].
Definition create : M World unit := do! m <- Manager.NewManager creating_document; Create ref_db m.
Example create_runs : fst (create creating) = Ok tt.
Proof. vm_compute. reflexivity. Qed.

