(* ===== verification/DatabaseTheorems.v ===== *)
(** * The database layer's promises

    The theorems on the Cosmos DB client and on the three collections, each with
    a witness on the reference world. *)
From S2P Require Import Prelude GoStrings.
From S2P Require Import Azure Api.
From S2P Require Import Cosmos CosmosLaws CosmosSpec Database DatabaseSpec.
From S2P Require Import RefCollection Reference.

Section clusters.
Context {W : Type} `{!Runtime W, !Account W}.
Context `{!Collection W OpenShiftClusterDocument, !Collection W SubscriptionDocument,
          !Collection W AsyncOperationDocument}.
Context (db : Database) `{!AccountLaws W db} {PB : PageBound}.
Implicit Types (w : W) (key : string).
Abbreviation oc := (db_OpenShiftClusters db).
Abbreviation sub := (db_Subscriptions db).

(** C12: who has lost the lease writes nothing: neither a renewal nor the end of
    the lease of a document with another owner changes any cluster, and both
    fail. *)
Theorem lost_lease_is_silent key ps fps w d0 :
  clusters w !! key = Some d0 -> ocd_LeaseOwner d0 <> OpenShiftClusters.uuid oc ->
  (clusters (snd (OpenShiftClusters.Lease oc key w)) = clusters w /\
   is_ok (fst (OpenShiftClusters.Lease oc key w)) = false) /\
  (clusters (snd (OpenShiftClusters.EndLease oc key ps fps w)) = clusters w /\
   is_ok (fst (OpenShiftClusters.EndLease oc key ps fps w)) = false).
Proof. intros Hd Ho. by split; apply (clusters_lost_lease db) with d0. Qed.


(** [EndLease] is for the owner, gives up the lease and the operation, sets
    the two states, and leaves the rest of the document. *)
Theorem end_lease_releases key ps fps w r w' :
  OpenShiftClusters.EndLease oc key ps fps w = (Ok r, w') ->
  exists d0 c m, clusters w !! key = Some d0 /\ ocd_LeaseOwner d0 = OpenShiftClusters.uuid oc /\
    ocd_OpenShiftCluster d0 = Some c /\ r = Some (freed ps fps c m d0) /\
    clusters w' = <[key := freed ps fps c m d0]> (clusters w).
Proof. apply (clusters_EndLease_ok db). Qed.

(** C30: a subscription's lease is not renewed, because the options of
    [patchWithLease] are dropped on the way: a renewal that succeeds leaves the
    time at which the lease runs out as it was. For the same reason the end of a
    lease that asks for a retry later stores a lease that has already run out. *)
Theorem subscription_lease_not_renewed id w r w' :
  (Subscriptions.Lease sub id w = (Ok r, w') ->
   exists d0 m, subs w !! id = Some d0 /\ subs w' = <[id := d0 <| sd_Meta := m |>]> (subs w)) /\
  (Subscriptions.EndLease sub id false true w = (Ok r, w') ->
   exists d1, subs w' !! id = Some d1 /\ sd_LeaseExpires d1 = 0%Z).
Proof.
  split; intros H.
  - apply (subs_patchWithLease_ok db id _ None) in H as (d0 & wf & d1 & wf' & m & H0 & _ & Hf & _ & Hw);
      [|done|by intros d wf d1 wf' [= <- <-]].
    injection Hf as <- <-. by exists d0, m.
  - apply (subs_patchWithLease_ok db id _ None) in H as (d0 & wf & d1 & wf' & m & H0 & _ & Hf & _ & Hw);
      [|done|by intros d wf d1 wf' [= <- <-]].
    injection Hf as <- <-. eexists. rewrite Hw, lookup_insert_eq. split; reflexivity.
Qed.
End clusters.

Section cosmos.
Context {W D : Type} `{!Runtime W, !Service W D, !Document D, !Stored D, !Collection W D}.
Context (c : documentClient) `{!ServiceLaws W D c, !RuntimeQuiet W D}.
Context (Hret : dc_maxRetries (c_databaseClient c) <> 0).
Implicit Types w : W.

(** C27: a query over all its pages changes nothing, returns only stored
    documents that match at some time, and misses no document that always
    matches. *)
Theorem query_all_complete fuel pk q w r w' :
  QueryAll c fuel pk q None w = (Ok r, w') ->
  store w' = store w /\
  (forall d, d ∈ ds_Documents r -> store w !! d_key d = Some d /\ exists t, matches q pk t d = true) /\
  (forall k d, store w !! k = Some d -> (forall t, matches q pk t d = true) -> d ∈ ds_Documents r).
Proof. by apply (QueryAll_ok c Hret). Qed.

(** C26: two calls more than the service's pages are enough for the loop over the
    pages: it comes to a value or an error. *)
Theorem query_all_ends fuel pk q w :
  rank (W := W) (D := D) EmptyString + 2 <= fuel -> settles (fst (QueryAll c fuel pk q None w)).
Proof. intros H. by apply (QueryAll_total c Hret fuel pk q). Qed.

(** C28: a replacement that succeeds replaced the document with its id in its
    partition; under options that keep the entity tag the replaced document had
    the tag of the new one. *)
Theorem replace_is_conditional d o w r w' :
  no_commas (opt_triggers o) -> Replace c (d_part d) d o w = (Ok r, w') ->
  exists k old d', stored_as (opt_triggers o) d d' /\ r = Some d' /\
    store w !! k = Some old /\ d_ID old = d_ID d /\ d_part old = d_part d /\
    (match o with Some o => o_NoETag o = false -> d_ETag old = d_ETag d | None => True end) /\
    store w' = <[d_key d := d']> (delete k (store w)).
Proof. by apply (Replace_ok c Hret). Qed.
End cosmos.

Section retry.
Context {W A : Type} `{!Runtime W}.
Context (sleep_returns : forall n w, exists w', time_Sleep n w = (Ok tt, w')).

(** [RetryOnPreconditionFailed] makes at most five tries, each but the last
    ended by a failed precondition and followed by its sleep; it returns what
    the last try returned, and only then can that be a failed precondition. *)
Theorem retry_tries (f : M W A) w r w' :
  RetryOnPreconditionFailed f w = (r, w') -> settles r ->
  exists n wi w1, n < 5 /\ failed f 0 n w wi /\ f wi = (r, w1) /\
    if is_412 r then n = 4 /\ time_Sleep 400 w1 = (Ok tt, w') else w' = w1.
Proof.
  intros H Hs. apply (retry_from_spec sleep_returns) in H as (n & wi & w1 & Hn & Hf & Hw & Hl); [|done|done].
  exists n, wi, w1. split_and!; [done..|]. destruct (is_412 r); [|done]. destruct Hl as [Hl1 Hl2].
  assert (n = 4) as -> by lia. split; [done|]. exact Hl2.
Qed.
End retry.

(** ** A lost update *)
Definition set_owner (s : string) (d : OpenShiftClusterDocument) : OpenShiftClusterDocument :=
  d <| ocd_LeaseOwner := s |>.
Definition set_dequeues (n : Z) (d : OpenShiftClusterDocument) : OpenShiftClusterDocument :=
  d <| ocd_Dequeues := n |>.

(** One client reads a document, a second one patches it, the first one stores
    what it made of its copy *)
Definition interleaved : M World (option OpenShiftClusterDocument) :=
  do! d <- OpenShiftClusters.Get (db_OpenShiftClusters ref_db) ref_path;
  do! _ <- OpenShiftClusters.Patch (db_OpenShiftClusters ref_db) ref_path (fun d => ret (set_owner "other" d));
  OpenShiftClusters.Update (db_OpenShiftClusters ref_db) (set_dequeues 7 d).

(** C29: an update carries no precondition: without options the client sends no
    [If-Match] header, so that on an account that keeps the contract the write
    of a second client is overwritten by a copy that was read before it, and no
    precondition fails. *)
Theorem update_can_be_lost :
  exists w d, fst (interleaved w) = Ok (Some d) /\ AccountLaws World ref_db /\
    clusters (snd (interleaved w)) !! ref_path = Some d /\
    ocd_LeaseOwner d = EmptyString /\ ocd_Dequeues d = 7%Z.
Proof.
  exists settled. eexists. split; [by vm_compute|]. split; [apply _|]. by vm_compute.
Qed.

Lemma lost_lease_is_silent_witness :
  let w := world [ref_document ProvisioningStateUpdating EmptyString "backend-2" 2000 1 "op"] [] [] in
  (clusters (snd (OpenShiftClusters.Lease (db_OpenShiftClusters ref_db) ref_path w)) = clusters w /\
   is_ok (fst (OpenShiftClusters.Lease (db_OpenShiftClusters ref_db) ref_path w)) = false) /\
  (clusters (snd (OpenShiftClusters.EndLease (db_OpenShiftClusters ref_db) ref_path ProvisioningStateSucceeded
     EmptyString w)) = clusters w /\
   is_ok (fst (OpenShiftClusters.EndLease (db_OpenShiftClusters ref_db) ref_path ProvisioningStateSucceeded
     EmptyString w)) = false).
Proof.
  intros w. apply (lost_lease_is_silent ref_db ref_path _ _ w
    (ref_document ProvisioningStateUpdating EmptyString "backend-2" 2000 1 "op")).
  - by vm_compute.
  - by vm_compute.
Defined.


Definition ref_end : M World (option OpenShiftClusterDocument) :=
  OpenShiftClusters.EndLease (db_OpenShiftClusters ref_db) ref_path ProvisioningStateSucceeded EmptyString.
Lemma end_lease_releases_witness :
  let r := outcome None (fst (ref_end updating)) in
  exists d0 c m, clusters updating !! ref_path = Some d0 /\ ocd_LeaseOwner d0 = owner /\
    ocd_OpenShiftCluster d0 = Some c /\ r = Some (freed ProvisioningStateSucceeded EmptyString c m d0) /\
    clusters (snd (ref_end updating)) = <[ref_path := freed ProvisioningStateSucceeded EmptyString c m d0]> (clusters updating).
Proof.
  intros r. apply (end_lease_releases ref_db ref_path ProvisioningStateSucceeded EmptyString updating r).
  apply ran. by vm_compute.
Defined.

Definition ref_lease : M World (option OpenShiftClusterDocument) :=
  OpenShiftClusters.Lease (db_OpenShiftClusters ref_db) ref_path.
(** A subscription that is being deleted, under our lease until 2000 *)
Definition deleting : World :=
  world [] [(ref_subscription SubscriptionStateDeleted) <| sd_Deleting := true |> <| sd_LeaseOwner := owner |>
              <| sd_LeaseExpires := 2000%Z |>] [].
Definition ref_sub_lease : M World (option SubscriptionDocument) :=
  Subscriptions.Lease (db_Subscriptions ref_db) ref_sub.
Lemma subscription_lease_not_renewed_witness :
  is_ok (fst (ref_sub_lease deleting)) = true /\
  exists d0 m, subs deleting !! ref_sub = Some d0 /\
    subs (snd (ref_sub_lease deleting)) = <[ref_sub := d0 <| sd_Meta := m |>]> (subs deleting).
Proof.
  split; [by vm_compute|].
  apply (subscription_lease_not_renewed ref_db ref_sub deleting (outcome None (fst (ref_sub_lease deleting)))).
  apply ran. by vm_compute.
Defined.

#[export] Instance ref_clusters_laws : ServiceLaws World OpenShiftClusterDocument clusters_client.
Proof. exact (clusters_laws (db := ref_db)). Qed.

Lemma clusters_retry : dc_maxRetries (c_databaseClient clusters_client) <> 0.
Proof. done. Qed.

Definition ref_query : M World (Documents OpenShiftClusterDocument) :=
  QueryAll clusters_client 3 ref_sub (OpenShiftClusters.query_key ref_path) None.
Lemma query_all_complete_witness :
  exists r, fst (ref_query settled) = Ok r /\
  store (snd (ref_query settled)) = store (D := OpenShiftClusterDocument) settled /\
  (forall d, d ∈ ds_Documents r -> store settled !! d_key d = Some d /\
     exists t, matches (W := World) (OpenShiftClusters.query_key ref_path) ref_sub t d = true) /\
  (forall k d, store settled !! k = Some d ->
     (forall t, matches (W := World) (OpenShiftClusters.query_key ref_path) ref_sub t d = true) ->
     d ∈ ds_Documents r).
Proof.
  assert (exists r, fst (ref_query settled) = Ok r) as [r Hr] by (eexists; vm_compute; reflexivity).
  exists r. split; [done|].
  apply (query_all_complete (W := World) (D := OpenShiftClusterDocument) clusters_client clusters_retry
    3 ref_sub (OpenShiftClusters.query_key ref_path) settled r).
  by apply ran_as.
Defined.

Lemma query_all_ends_witness : settles (fst (ref_query settled)).
Proof.
  apply (query_all_ends (W := World) (D := OpenShiftClusterDocument) clusters_client).
  - exact clusters_retry.
  - vm_compute. lia.
Defined.

Definition ref_replace : M World (option OpenShiftClusterDocument) :=
  Replace clusters_client ref_sub (ref_document ProvisioningStateUpdating EmptyString owner 2000 1 "op")
    (Some (mkOptions false ["renewLease"] [] EmptyString)).
Lemma replace_is_conditional_witness :
  let r := outcome None (fst (ref_replace updating)) in
  let d := ref_document ProvisioningStateUpdating EmptyString owner 2000 1 "op" in
  exists k (old : OpenShiftClusterDocument) d', stored_as ["renewLease"] d d' /\ r = Some d' /\
    store updating !! k = Some old /\ d_ID old = d_ID d /\ d_part old = d_part d /\
    (false = false -> d_ETag old = d_ETag d) /\
    store (snd (ref_replace updating)) = <[d_key d := d']> (delete k (store updating)).
Proof.
  intros r d. apply (replace_is_conditional (W := World) (D := OpenShiftClusterDocument) clusters_client
    clusters_retry d (Some (mkOptions false ["renewLease"] [] EmptyString)) updating r).
  - by repeat constructor.
  - apply ran. by vm_compute.
Defined.

Lemma retry_tries_witness :
  exists n wi w1, n < 5 /\ failed (throw (A := unit) (ErrCosmos 412 EmptyString EmptyString)) 0 n settled wi /\
    throw (ErrCosmos 412 EmptyString EmptyString) wi =
      (fst (RetryOnPreconditionFailed (throw (A := unit) (ErrCosmos 412 EmptyString EmptyString)) settled), w1) /\
    if is_412 (fst (RetryOnPreconditionFailed (throw (A := unit) (ErrCosmos 412 EmptyString EmptyString)) settled))
    then n = 4 /\ time_Sleep 400 w1 =
      (Ok tt, snd (RetryOnPreconditionFailed (throw (A := unit) (ErrCosmos 412 EmptyString EmptyString)) settled))
    else snd (RetryOnPreconditionFailed (throw (A := unit) (ErrCosmos 412 EmptyString EmptyString)) settled) = w1.
Proof.
  apply (retry_tries (W := World)).
  - intros n w. by exists w.
  - apply surjective_pairing.
  - by vm_compute.
Defined.
