(* ===== verification/FrontendTheorems.v ===== *)
(** * The front end's promises

    The theorems on the handlers, each with a witness on the reference world. *)
From S2P Require Import Prelude GoStrings.
From S2P Require Import Azure Api External Services.
From S2P Require Import Cosmos CosmosLaws Database DatabaseSpec Errors.
From S2P Require Import Static Frontend FrontendSpec Preview Backend RefCollection Reference.

Definition no_response : HttpResponse := mkHttpResponse 0 ∅ None.
(** The world after a run and its response *)
Abbreviation after m w := (snd (m w)).
Abbreviation response m w := (outcome no_response (fst (m w))).

Section theorems.
Context {W : Type} `{!Runtime W, !Account W}.
Context `{!Collection W OpenShiftClusterDocument, !Collection W SubscriptionDocument,
          !Collection W AsyncOperationDocument}.
Context (db : Database) `{!AccountLaws W db} {PB : PageBound}.
Context `{!Cell W Header} {QC : CellQuiet W Header OpenShiftClusterDocument}
  {QS : CellQuiet W Header SubscriptionDocument} {QA : CellQuiet W Header AsyncOperationDocument}.
Context {EV : Env} {U : Url} {CD : Codec}.
Context (apis : gmap string (Version W)) (feature_operations : bool).
Context (apis_ok : forall k v, apis !! k = Some v -> VersionOk v).
Implicit Types w : W.


(** C2: a DELETE that is answered with 202 found the cluster in a terminal state
    and its subscription registered, warned or suspended; the cluster is stored
    in state Deleting with a fresh count of tries and names a new operation,
    which is recorded. *)
Theorem delete_enqueues (r : Request) w resp w' d0 :
  deleteOpenShiftCluster db feature_operations r w = (Ok resp, w') ->
  resp_StatusCode resp = StatusAccepted -> clusters w !! r_Path r = Some d0 ->
  exists oc id now m m', ocd_OpenShiftCluster d0 = Some oc /\ terminal (state_of oc) = true /\
    clusters w' = <[r_Path r := deletion d0 oc id m]> (clusters w) /\
    asyncs w !! id = None /\
    asyncs w' = <[id := new_operation r d0 ProvisioningStateDeleting id now m']> (asyncs w) /\
    exists res sd s, ParseResourceID (r_Path r) = Ok res /\ subs w !! r_SubscriptionID res = Some sd /\
      sd_Subscription sd = Some s /\ s_State s ∈ deletable.
Proof. intros. by eapply (delete_accepted db feature_operations). Qed.

(** C4: a PUT or PATCH on a stored cluster that the gate stops - one with an
    operation in progress, or one whose creation or deletion failed - changes
    none of the collections and is answered with an error. *)
Theorem put_stopped (r : Request) w d0 oc0 resp w' :
  clusters w !! r_Path r = Some d0 -> ocd_OpenShiftCluster d0 = Some oc0 ->
  terminal (state_of oc0) = false \/
  (state_of oc0 = ProvisioningStateFailed /\ failed_state_of oc0 <> ProvisioningStateUpdating) ->
  OpenShiftClusters.partitionKey (r_Path r) = Ok (ocd_PartitionKey d0) ->
  putOrPatchOpenShiftCluster db apis feature_operations r w = (Ok resp, w') ->
  unchanged w w' /\ (400 <= resp_StatusCode resp)%Z.
Proof.
  intros Hd Ho Hstop Hpk H. eapply (put_refused db apis feature_operations); try done.
  unfold gate_update, validateTerminalProvisioningState. unfold terminal in Hstop.
  destruct Hstop as [-> | [-> Hf]]; [done|]. simpl. by repeat case_decide.
Qed.

(** C5: a DELETE of a cluster with an operation in progress leaves every cluster
    as it is and is not accepted. *)
Theorem delete_stopped (r : Request) w d0 oc resp w' :
  deleteOpenShiftCluster db feature_operations r w = (Ok resp, w') ->
  clusters w !! r_Path r = Some d0 -> ocd_OpenShiftCluster d0 = Some oc -> terminal (state_of oc) = false ->
  clusters w' = clusters w /\ resp_StatusCode resp <> StatusAccepted.
Proof. intros. by eapply (delete_refused db feature_operations). Qed.


(** The result of an operation the cluster still names is not shown: the
    answer is 202 without a body. *)
Theorem result_gated (r : Request) w resp w' a d :
  getAsyncOperationResult db apis r w = (Ok resp, w') -> (resp_StatusCode resp < 400)%Z ->
  asyncs w !! var r "operationId" = Some a ->
  clusters w !! ad_OpenShiftClusterKey a = Some d ->
  OpenShiftClusters.partitionKey (ad_OpenShiftClusterKey a) = Ok (ocd_PartitionKey d) ->
  ocd_AsyncOperationID d = var r "operationId" ->
  resp_StatusCode resp = StatusAccepted /\ resp_Body resp = None.
Proof. intros. by eapply (result_hidden db apis). Qed.

(** Credentials are shown only for a stored cluster that is past its
    creation, the one the path without its last element names. *)
Theorem credentials_gated (r : Request) w resp w' :
  postOpenShiftClusterCredentials db apis r w = (Ok resp, w') -> resp_StatusCode resp = StatusOK ->
  exists v d oc, apis !! var r "api-version" = Some v /\ clusters w !! filepath_Dir (r_Path r) = Some d /\
    ocd_OpenShiftCluster d = Some oc /\ state_of oc <> ProvisioningStateCreating /\
    resp_Body resp = Some (v_Credentials v (blank_secret oc)).
Proof. by apply (credentials_shows db apis). Qed.

(** The handlers that answer a GET or list credentials change no
    collection, whatever comes of them. *)
Theorem readers_read (r : Request) w :
  unchanged w (snd (getOpenShiftCluster db apis r w)) /\
  unchanged w (snd (getOpenShiftClusters db apis r w)) /\
  unchanged w (snd (postOpenShiftClusterCredentials db apis r w)) /\
  unchanged w (snd (getAsyncOperationResult db apis r w)) /\
  unchanged w (snd (getAsyncOperationsStatus db r w)).
Proof.
  split_and!; [apply getOpenShiftCluster_unchanged|apply getOpenShiftClusters_unchanged
    |apply postOpenShiftClusterCredentials_unchanged|apply getAsyncOperationResult_unchanged
    |apply getAsyncOperationsStatus_unchanged]; apply _.
Qed.

(** C14: a PUT of a subscription that is answered below 400 stores the decoded
    subscription, whose state is one of the five known ones, keeps a deleted
    subscription deleted, marks the document for deletion when the state is
    Deleted and never unmarks it, answers 201 exactly when the document is new,
    and changes no other collection. *)
Theorem subscription_put (r : Request) w resp w' :
  putSubscription db r w = (Ok resp, w') -> (resp_StatusCode resp < 400)%Z ->
  exists isCreate, sub_accepted r w w' isCreate /\
    resp_StatusCode resp = (if isCreate then StatusCreated else StatusOK) /\
    clusters w' = clusters w /\ asyncs w' = asyncs w.
Proof. by apply (putSubscription_accepted db). Qed.
End theorems.

Section preview.
Context {W : Type} `{!Runtime W, !Account W}.
Context `{!Collection W OpenShiftClusterDocument, !Collection W SubscriptionDocument,
          !Collection W AsyncOperationDocument}.
Context (db : Database) `{!AccountLaws W db} {PB : PageBound} {U : Url} {CD : Codec} {PC : PreviewCodec}.
Context `{!Cell W Header} {QC : CellQuiet W Header OpenShiftClusterDocument}
  {QS : CellQuiet W Header SubscriptionDocument} {QA : CellQuiet W Header AsyncOperationDocument}.

(** C13: a GET answered with 200 shows the stored cluster of its path in the
    version's external form, and its client secret is blank. *)
Theorem get_hides_secret (dynamic : OpenShiftCluster -> M W unit) (r : Request) w resp w' :
  getOpenShiftCluster db (APIs dynamic) r w = (Ok resp, w') -> resp_StatusCode resp = StatusOK ->
  exists d oc ext, clusters w !! r_Path r = Some d /\ ocd_OpenShiftCluster d = Some oc /\
    resp_Body resp = Some (marshal_cluster ext) /\ ext = ToExternal (blank_secret oc) /\
    Ext.spp_ClientSecret (Ext.p_ServicePrincipalProfile (Ext.oc_Properties ext)) = EmptyString.
Proof.
  intros H Hst.
  destruct (get_shows db (APIs dynamic) r w resp w' H Hst) as (v & d & oc & Hv & Hd & Ho & Hb).
  unfold APIs in Hv. apply lookup_singleton_Some in Hv as [_ <-]. simpl in Hb.
  exists d, oc, (ToExternal (blank_secret oc)). split_and!; [done..|]. apply blank_secret_ToExternal.
Qed.
End preview.


Definition ref_delete : M World HttpResponse := deleteOpenShiftCluster ref_db true (ref_request "DELETE" EmptyString "op").
Lemma delete_enqueues_witness :
  exists oc id now m m', ocd_OpenShiftCluster
      (ref_document ProvisioningStateSucceeded EmptyString EmptyString 0 2 EmptyString) = Some oc /\
    terminal (state_of oc) = true /\
    clusters (after ref_delete settled) =
      <[ref_path := deletion (ref_document ProvisioningStateSucceeded EmptyString EmptyString 0 2 EmptyString) oc id m]>
        (clusters settled) /\
    asyncs settled !! id = None /\
    asyncs (after ref_delete settled) =
      <[id := new_operation (ref_request "DELETE" EmptyString "op")
         (ref_document ProvisioningStateSucceeded EmptyString EmptyString 0 2 EmptyString)
         ProvisioningStateDeleting id now m']> (asyncs settled) /\
    exists res sd s, ParseResourceID ref_path = Ok res /\ subs settled !! r_SubscriptionID res = Some sd /\
      sd_Subscription sd = Some s /\ s_State s ∈ deletable.
Proof.
  apply (delete_enqueues ref_db true (ref_request "DELETE" EmptyString "op") settled (response ref_delete settled)).
  - apply ran. by vm_compute.
  - by vm_compute.
  - by vm_compute.
Defined.

Lemma put_stopped_witness :
  let m := ref_put (ref_request "PUT" "five workers" "op") in
  unchanged updating (after m updating) /\ (400 <= resp_StatusCode (response m updating))%Z.
Proof.
  intros m. eapply (put_stopped ref_db ref_apis true ref_apis_ok (ref_request "PUT" "five workers" "op") updating
    (ref_document ProvisioningStateUpdating EmptyString owner 2000 1 "op")).
  - by vm_compute.
  - reflexivity.
  - left. by vm_compute.
  - by vm_compute.
  - apply ran. by vm_compute.
Defined.

Lemma delete_stopped_witness :
  clusters (after ref_delete updating) = clusters updating /\
  resp_StatusCode (response ref_delete updating) <> StatusAccepted.
Proof.
  eapply (delete_stopped ref_db true (ref_request "DELETE" EmptyString "op") updating
    (ref_document ProvisioningStateUpdating EmptyString owner 2000 1 "op")).
  - apply ran. by vm_compute.
  - by vm_compute.
  - reflexivity.
  - by vm_compute.
Defined.

Definition op_get (id : string) : Frontend.Request := ref_request "GET" EmptyString id.


Lemma result_gated_witness :
  let m := getAsyncOperationResult ref_db ref_apis (op_get "op") in
  resp_StatusCode (response m updating) = StatusAccepted /\ resp_Body (response m updating) = None.
Proof.
  intros m. apply (result_gated ref_db ref_apis (op_get "op") updating _ (after m updating)
    (ref_operation "op" ProvisioningStateUpdating ProvisioningStateUpdating)
    (ref_document ProvisioningStateUpdating EmptyString owner 2000 1 "op")).
  - apply ran. by vm_compute.
  - by vm_compute.
  - by vm_compute.
  - by vm_compute.
  - by vm_compute.
  - by vm_compute.
Defined.

Definition ref_credentials : Frontend.Request :=
  with_path (ref_path +:+ "/listcredentials") (ref_request "POST" EmptyString "op").
Lemma credentials_gated_witness :
  let m := postOpenShiftClusterCredentials ref_db ref_apis ref_credentials in
  resp_Body (response m settled) = Some "kubeadmin password" /\
  exists v d oc, ref_apis !! "2019-12-31-preview" = Some v /\
    clusters settled !! filepath_Dir (ref_path +:+ "/listcredentials") = Some d /\
    ocd_OpenShiftCluster d = Some oc /\ state_of oc <> ProvisioningStateCreating /\
    resp_Body (response m settled) = Some (v_Credentials v (blank_secret oc)).
Proof.
  intros m. split; [by vm_compute|].
  apply (credentials_gated ref_db ref_apis ref_credentials settled _ (after m settled)).
  - apply ran. by vm_compute.
  - by vm_compute.
Defined.

Lemma readers_read_witness :
  unchanged updating (snd (getOpenShiftCluster ref_db ref_apis (op_get "op") updating)) /\
  unchanged updating (snd (getOpenShiftClusters ref_db ref_apis (op_get "op") updating)) /\
  unchanged updating (snd (postOpenShiftClusterCredentials ref_db ref_apis (op_get "op") updating)) /\
  unchanged updating (snd (getAsyncOperationResult ref_db ref_apis (op_get "op") updating)) /\
  unchanged updating (snd (getAsyncOperationsStatus ref_db (op_get "op") updating)).
Proof. apply (readers_read ref_db ref_apis). Defined.

Definition sub_put (state : string) : Frontend.Request := ref_request "PUT" state "op".
Lemma subscription_put_witness :
  let m := putSubscription ref_db (sub_put SubscriptionStateDeleted) in
  exists isCreate, sub_accepted (sub_put SubscriptionStateDeleted) settled (after m settled) isCreate /\
    resp_StatusCode (response m settled) = (if isCreate then StatusCreated else StatusOK) /\
    clusters (after m settled) = clusters settled /\ asyncs (after m settled) = asyncs settled.
Proof.
  intros m. apply (subscription_put ref_db (sub_put SubscriptionStateDeleted)).
  - apply ran. by vm_compute.
  - by vm_compute.
Defined.

Lemma get_hides_secret_witness :
  let m := getOpenShiftCluster ref_db (APIs (fun _ => ret tt)) (op_get "op") in
  exists d oc ext, clusters settled !! ref_path = Some d /\ ocd_OpenShiftCluster d = Some oc /\
    resp_Body (response m settled) = Some (marshal_cluster ext) /\ ext = ToExternal (blank_secret oc) /\
    Ext.spp_ClientSecret (Ext.p_ServicePrincipalProfile (Ext.oc_Properties ext)) = EmptyString.
Proof.
  intros m. apply (get_hides_secret ref_db (fun _ => ret tt) (op_get "op") settled _ (after m settled)).
  - apply ran. by vm_compute.
  - by vm_compute.
Defined.

(** ** A creation that the account fails *)


