(* ===== verification/BackendTheorems.v ===== *)
(** * The back end's promises

    The theorems on the workers and on the main loop, each with a witness on the
    reference world. *)
From S2P Require Import Prelude GoStrings.
From S2P Require Import Azure Api Services.
From S2P Require Import Cosmos CosmosLaws Database DatabaseSpec Errors.
From S2P Require Import Backend BackendSpec Workers Reference.

Section theorems.
Context {W : Type} `{!Runtime W, !Account W}.
Context `{!Collection W OpenShiftClusterDocument, !Collection W SubscriptionDocument,
          !Collection W AsyncOperationDocument}.
Context (db : Database) `{!AccountLaws W db} {PB : PageBound} {CM : ClusterManager W}.
Implicit Types (w : W) (doc : OpenShiftClusterDocument).



(** C10: a try that did work without an error and started no worker has given a
    document up: it had been taken more than five times, and it is let go with
    Failed, recorded under the state it was in. *)
Theorem try_gives_up t w w' :
  ocb_try db w = (Ok t, w') -> did_work t = true -> spawned t = None -> tried_err t = None ->
  exists d0 now oc, clusters w !! ocd_Key d0 = Some d0 /\ dequeuable now d0 = true /\
    (5 < int64 (ocd_Dequeues d0 + 1))%Z /\ ocd_OpenShiftCluster d0 = Some oc /\
    ended db (ocd_Key d0) ProvisioningStateFailed (state_of oc) w'.
Proof. by apply (ocb_try_exhausted db). Qed.

(** The end of a lease tells the operation before it frees the cluster: when
    it succeeds, the operation's document has the outcome, its end time and,
    for a failure, an error, and a copy of the cluster as it was left; then the
    cluster has the same outcome, no owner and no operation. *)
Theorem lease_end_reports stop doc ps w w' :
  endLease db stop doc ps w = (Ok tt, w') ->
  exists fps, failed_under doc ps fps /\ ended db (ocd_Key doc) ps fps w' /\
    reported (ocd_AsyncOperationID doc) (ocd_OpenShiftCluster doc) ps fps w w'.
Proof. by apply (endLease_ok db). Qed.
End theorems.

Section loop.
(** C39: the counter of the workers is the number of goroutines that have not
    finished, and it never passes 101: one more than the limit, because a round
    of the loop may start a worker of either kind after one look at it. The
    bound is met. *)
Theorem workers_bounded :
  (forall s, Workers.reachable s -> st_workers s = Z.of_nat (st_busy s) /\ st_busy s <= 101) /\
  exists s, Workers.reachable s /\ st_busy s = 101.
Proof.
  split; [intros s (H1 & H2 & _)%reachable_counted; done|].
  assert (Workers.reachable (at_top (99 + 1 + 1))) as H; [|by eexists].
  apply (round 99 true true); [lia|done|].
  pose proof (rounds 49 0 ltac:(lia) at_top_0) as H.
  by apply (round _ true false) in H; [|simpl; lia|done].
Qed.

(** C40: the main loop can sleep for ever: the counter and the stop flag change
    without the condition's mutex, so the signals of all the workers and of the
    stop can come between the loop's last look at them and its wait. In the
    state that is reached the server is stopping, no worker is left, and nothing
    can happen any more. *)
Theorem stop_can_be_lost :
  exists s, Workers.reachable s /\ st_pc s = Asleep /\ st_stopping s = true /\ st_busy s = 0 /\
    forall s', ~ Workers.step s s'.
Proof. exists lost. split_and!; [apply lost_reachable|done..|apply lost_stuck]. Qed.
End loop.

Definition taken : OpenShiftClusterDocument :=
  ref_document ProvisioningStateUpdating EmptyString owner 2000 1 "op".


Definition ref_try : M World (Tried OpenShiftClusterDocument) := ocb_try ref_db.
Definition tried (w : World) : Tried OpenShiftClusterDocument :=
  outcome (mkTried false None None) (fst (ref_try w)).


Lemma try_gives_up_witness :
  exists d0 now oc, clusters (waiting 5) !! ocd_Key d0 = Some d0 /\ dequeuable now d0 = true /\
    (5 < int64 (ocd_Dequeues d0 + 1))%Z /\ ocd_OpenShiftCluster d0 = Some oc /\
    ended ref_db (ocd_Key d0) ProvisioningStateFailed (state_of oc) (snd (ref_try (waiting 5))).
Proof.
  apply (try_gives_up ref_db (tried (waiting 5)) (waiting 5)).
  - apply ran. by vm_compute.
  - by vm_compute.
  - by vm_compute.
  - by vm_compute.
Defined.

Lemma lease_end_reports_witness :
  let w' := snd (endLease ref_db None taken ProvisioningStateFailed updating) in
  exists fps, failed_under taken ProvisioningStateFailed fps /\
    ended ref_db ref_path ProvisioningStateFailed fps w' /\
    reported "op" (ocd_OpenShiftCluster taken) ProvisioningStateFailed fps updating w'.
Proof.
  intros w'. apply (lease_end_reports ref_db None taken ProvisioningStateFailed updating w').
  apply ran_as. by vm_compute.
Defined.
