(* ===== verification/PureTheorems.v ===== *)
(** * The promises of the data and the pure functions

    Conversions, validation, parsing and scaling. *)
From Stdlib Require Import Ascii.
From S2P Require Import Prelude GoStrings.
From S2P Require Import Regex Azure Api External Immutable Net Services Subnets Static Domains Manager.
From S2P Require Import Permissions Cidr Wait Dynamic.
From S2P Require Import Frontend Preview Reference.

(** C24: a cluster that the static validation accepts is well formed - its
    identity is the request's, its location the provider's, its domain, group
    and subnets match their patterns, its networks are IPv4 and large enough, it
    has one worker profile of 3 to 20 machines in another subnet of the masters'
    network, and one ingress profile - and differs from the current cluster only
    where a change is allowed. *)
Theorem static_accepts `{Url} location resourceID oc cur :
  Static location resourceID oc cur = Ok tt ->
  exists r, ParseResourceID resourceID = Ok r /\ valid_cluster location resourceID r oc /\
    forall current, cur = Some current -> allowed_delta oc (ToExternal current).
Proof.
  unfold Static. destruct (ParseResourceID resourceID) as [r| | |]; try done. simpl.
  intros [Hv Hd]%bind_unit_ok. exists r. split_and!; [done|by apply validate_ok|].
  intros current ->. by apply validateDelta_spec.
Qed.

(** C26: the walk by reflection over the two clusters accepts exactly the allowed
    changes: the identifiers up to their case, the tags, and the number of
    workers. *)
Theorem delta_exact oc current : validateDelta oc current = Ok tt <-> allowed_delta oc current.
Proof. apply validateDelta_spec. Qed.

(** C32: the external form of what was converted from an external cluster is that
    cluster, over whatever it was written, and the conversion keeps every field
    the version does not have. *)
Theorem external_roundtrip oc out :
  ToExternal (ToInternal oc out) = oc /\ unmapped (ToInternal oc out) = unmapped out.
Proof. split; [apply ToExternal_ToInternal|apply ToInternal_unmapped]. Qed.

(** C33: writing a cluster's own external form over it changes nothing, unless
    its worker or ingress profiles hold fields of a newer version: those are
    lost, because the conversion makes the profiles anew. *)
Theorem internal_roundtrip oc :
  (default [] (p_WorkerProfiles (oc_Properties oc)) = [] \/
   Forall (fun p => wp_MissingFields p = no_missing) (default [] (p_WorkerProfiles (oc_Properties oc)))) ->
  (default [] (p_IngressProfiles (oc_Properties oc)) = [] \/
   Forall (fun p => ip_MissingFields p = no_missing) (default [] (p_IngressProfiles (oc_Properties oc)))) ->
  ToInternal (ToExternal oc) oc = oc.
Proof. apply ToInternal_ToExternal. Qed.

(** C33: scaling the workers reaches the wanted number exactly, moves no machine
    set the wrong way, and levels: a machine set that was moved ends within one
    machine of all the others. *)
Theorem scale_levels zs want :
  zs <> [] -> int32_counts zs -> (Manager.total zs < 2 ^ 31)%Z -> (0 <= want < 2 ^ 31)%Z ->
  exists zs', scale (have (Some <$> zs)) want (Some <$> zs) = Ok (Some <$> zs') /\ int32_counts zs' /\
    Manager.total zs' = want /\ levelled (if decide (want <= Manager.total zs)%Z then 1 else -1)%Z zs zs'.
Proof. apply scale_ok. Qed.

(** A machine set without a replica count, which the program takes for one
    machine, makes the scaling panic as soon as a machine has to be moved: the
    count is put into a copy only. *)
Theorem scale_without_count rs want :
  None ∈ rs -> have rs <> want -> exists why, scale (have rs) want rs = Panic why.
Proof. apply scale_missing. Qed.

(** C40: the pattern of the validator accepts exactly the domain names whose
    labels - what stands between the dots - are DNS labels: 1 to 63 lower-case
    letters, digits and dashes with no dash at either end. *)
Theorem domain_names s :
  MatchString rxDomainName s = true <-> Forall dns_label (SplitChar "."%char s).
Proof. rewrite MatchString_spec. apply rxDomainName_spec. Qed.

(** On a canonical resource path the parser gives back the five parts the
    path was built from. *)
Theorem resource_id_roundtrip sub rg ns ty name :
  segment sub = true -> segment rg = true -> segment ns = true ->
  segment ty = true -> segment name = true ->
  ParseResourceID (resource_path sub rg ns (ty +:+ "/" +:+ name)) = Ok (mkResource sub rg ns ty name).
Proof. apply ParseResourceID_path. Qed.

(** C25: a cluster that the dynamic validation accepts has been seen to have a
    service principal without the forbidden role, permissions to write its virtual
    network for the service principal and for the provider's own identity, and two
    subnets with the endpoint, the policies, the security group and the size the
    program needs; and when its own two networks are written in IPv4, as the
    static validation demands, no address lies in two of its four networks. *)
Theorem dynamic_accepts `{!Tokens W, !Ticks W, !Auth W, !PermissionsClient W, !SubnetsClient W} oc pod service (w w' : W) :
  let p := oc_Properties oc in
  let spp := p_ServicePrincipalProfile p in
  cluster_net (np_PodCIDR (p_NetworkProfile p)) pod ->
  cluster_net (np_ServiceCIDR (p_NetworkProfile p)) service ->
  Dynamic oc w = (Ok tt, w') ->
  exists r wp s t master worker,
    let sp := ServicePrincipal (spp_TenantID spp) (spp_ClientID spp) in
    let subnets := Subnets.NewManager (r_SubscriptionID r) sp in
    ParseResourceID (oc_ID oc) = Ok r /\ without_role oc /\
    may_write_vnet oc (r_SubscriptionID r) sp /\
    (exists fp, seen (env_FPAuthorizer (spp_TenantID spp) ResourceManagerEndpoint) fp /\
       may_write_vnet oc (r_SubscriptionID r) fp) /\
    elems (p_WorkerProfiles p) !! 0 = Some wp /\
    seen (Subnets.Get subnets (mp_SubnetID (p_MasterProfile p))) s /\
    good_subnet oc s (mp_SubnetID (p_MasterProfile p)) master /\
    seen (Subnets.Get subnets (wp_SubnetID wp)) t /\ good_subnet oc t (wp_SubnetID wp) worker /\
    pairwise_disjoint [master; worker; pod; service].
Proof.
  cbv zeta. intros Hpod Hsvc H. unfold Dynamic in H.
  apply bind_inv_ok in H as (r & w1 & [Hr ->]%lift_inv & H).
  apply bind_inv_ok in H as (sp & w2 & Hsp & H).
  apply bind_inv_ok in H as ([] & w3 & Hrole%validateServicePrincipalRole_ok & H).
  apply bind_inv_ok in H as ([] & w4 & Hvsp%validateVnetPermissions_ok & H).
  apply bind_inv_ok in H as (fp & w5 & Hfp & H).
  apply bind_inv_ok in H as ([] & w6 & Hvfp%validateVnetPermissions_ok & H).
  apply validateServicePrincipalProfile_ok in Hsp as ->.
  apply (validateSubnets_ok _ _ pod service) in H as (wp & s & t & master & worker & H); [|done..].
  exists r, wp, s, t, master, worker.
  split; [done|]. split; [done|]. split; [done|]. split; [|done]. exists fp. split; [by exists w4, w5|done].
Qed.

Definition ref_external : Ext.OpenShiftCluster :=
  Ext.mkOpenShiftCluster ref_original_path "cluster" "Microsoft.RedHatOpenShift/openShiftClusters" "eastus" None
    (ref_properties ProvisioningStateSucceeded 5).
Definition ref_current : OpenShiftCluster := ref_internal ProvisioningStateSucceeded EmptyString.

Lemma static_accepts_witness :
  exists r, ParseResourceID ref_path = Ok r /\ valid_cluster "eastus" ref_path r ref_external /\
    forall current, Some ref_current = Some current -> allowed_delta ref_external (ToExternal current).
Proof. apply static_accepts. by vm_compute. Defined.

Lemma internal_roundtrip_witness : ToInternal (ToExternal ref_current) ref_current = ref_current.
Proof. apply internal_roundtrip; right; by repeat constructor. Defined.

Lemma scale_levels_witness :
  exists zs', scale 6 10 (Some <$> [3; 2; 1]%Z) = Ok (Some <$> zs') /\ int32_counts zs' /\
    Manager.total zs' = 10%Z /\ levelled (-1) [3; 2; 1]%Z zs'.
Proof.
  apply (scale_levels [3; 2; 1]%Z 10).
  - done.
  - by repeat constructor.
  - done.
  - done.
Defined.

Lemma scale_without_count_witness : exists why, scale 4 5 [Some 3; None]%Z = Panic why.
Proof. apply (scale_without_count [Some 3; None]%Z 5); [set_solver|done]. Defined.

Lemma resource_id_roundtrip_witness :
  ParseResourceID (resource_path ref_sub "rg" "microsoft.redhatopenshift" ("openshiftclusters" +:+ "/" +:+ "cluster"))
  = Ok (mkResource ref_sub "rg" "microsoft.redhatopenshift" "openshiftclusters" "cluster").
Proof. by apply resource_id_roundtrip. Defined.

(** The example cluster, when it is created *)
Definition ref_created : OpenShiftCluster := ref_internal ProvisioningStateCreating EmptyString.
Definition ref_pod : IPNet := mkIPNet [10; 128; 0; 0]%Z 14 32.
Definition ref_svc : IPNet := mkIPNet [172; 30; 0; 0]%Z 16 32.

Lemma dynamic_accepts_witness :
  exists r wp s t master worker,
    let sp := ServicePrincipal EmptyString "11111111-1111-1111-1111-111111111111" in
    ParseResourceID ref_original_path = Ok r /\ without_role ref_created /\
    may_write_vnet ref_created (r_SubscriptionID r) sp /\
    (exists fp, seen (W := World) (env_FPAuthorizer EmptyString ResourceManagerEndpoint) fp /\
       may_write_vnet ref_created (r_SubscriptionID r) fp) /\
    elems (p_WorkerProfiles (oc_Properties ref_created)) !! 0 = Some wp /\
    seen (Subnets.Get (Subnets.NewManager (r_SubscriptionID r) sp) (vnet +:+ "/subnets/master")) s /\
    good_subnet ref_created s (vnet +:+ "/subnets/master") master /\
    seen (Subnets.Get (Subnets.NewManager (r_SubscriptionID r) sp) (wp_SubnetID wp)) t /\
    good_subnet ref_created t (wp_SubnetID wp) worker /\
    pairwise_disjoint [master; worker; ref_pod; ref_svc].
Proof.
  apply (dynamic_accepts ref_created ref_pod ref_svc vacant vacant).
  - exists (IPv4 10 128 0 0). split; by vm_compute.
  - exists (IPv4 172 30 0 0). split; by vm_compute.
  - by vm_compute.
Defined.
