(* ===== verification/ServerTheorems.v ===== *)
(** * The server's promises

    What a request has to go through before it changes anything, and who may
    send it. *)
From S2P Require Import Prelude GoStrings.
From S2P Require Import Azure Api Services.
From S2P Require Import Cosmos CosmosLaws Database DatabaseSpec.
From S2P Require Import Frontend FrontendSpec Mux Middleware Authorizer Routes RoutesSpec Reference.

Section server.
Context {W : Type} `{!Runtime W, !Account W}.
Context `{!Collection W OpenShiftClusterDocument, !Collection W SubscriptionDocument,
          !Collection W AsyncOperationDocument}.
Context (db : Database) `{!AccountLaws W db} {PB : PageBound}.
Context `{!Cell W Header} {QC : CellQuiet W Header OpenShiftClusterDocument}
  {QS : CellQuiet W Header SubscriptionDocument} {QA : CellQuiet W Header AsyncOperationDocument}.
Context `{!Cell W ResponseWriter, !Telemetry W, !ClientAuthorizer W} {SQ : ServerQuiet W unchanged}.
Context {EV : Env} {U : Url} {CD : Codec}.
Context (apis : gmap string (Version W)) (feature_operations : bool).
Context (url_String : ServerRequest -> string) (ready : W -> bool).
Context (empty_error : string) (encode_operations : list Operation -> string).
Implicit Types (r : ServerRequest) (w : W).

(** C3: a request that changes a collection is that of a caller found to be
    authorized, its lower-cased path and its query name one of the three routes
    that write, the variables of the route and the body have passed every check of
    the middleware, and the change is exactly what the handler of the route does
    from the same collections. *)
Theorem changes_are_gated r w :
  let s := server db apis feature_operations url_String ready empty_error encode_operations in
  unchanged w (snd (s r w)) \/
  exists h name e r' w1,
    dispatch (with_path_lower r) (endpoints db apis feature_operations encode_operations) = Found h name e /\
    name ∈ ["deleteOpenShiftCluster"; "putOrPatchOpenShiftCluster"; "putSubscription"] /\
    delivered r e r' /\ admissible apis r' /\ authorized r' w1 /\
    unchanged w w1 /\ unchanged (snd (h r' w1)) (snd (s r w)).
Proof. apply (server_gate db). Qed.
End server.

Section survives.
Context {W : Type} `{!Runtime W, !Account W} {PB : PageBound} `{!Cell W Header}.
Context `{!Cell W ResponseWriter, !Telemetry W, !ClientAuthorizer W} {SU : Surroundings (W := W)}.
Context {EV : Env} {U : Url} {CD : Codec}.
Context (db : Database) (apis : gmap string (Version W)) (feature_operations : bool).
Context (url_String : ServerRequest -> string) (ready : W -> bool).
Context (empty_error : string) (encode_operations : list Operation -> string).

(** C15: no handler can end the server: whatever a request makes a handler do, a
    panic included, the server comes back with neither an error nor a panic. *)
Theorem server_survives r w :
  calm (fst (server db apis feature_operations url_String ready empty_error encode_operations r w)).
Proof. by apply server_calm. Qed.

(** C16: the router does what the table of the routes says: the health check is
    for GET only and outside of the authentication; any other path goes to the
    first endpoint whose path and query it matches and that has its method, through
    the six middlewares and the authentication, with the variables of its path and
    query; to 405 when only the method is wrong; and else to the 404 behind the
    authentication. *)
Theorem routes_table r :
  Router_Match r (setupRouter db apis feature_operations url_String ready empty_error encode_operations) no_match =
  if is_health r then
    if decide (sr_Method r = "GET") then (true, health_match apis url_String ready empty_error r)
    else (false, unmatched (Some ErrMethodMismatch))
  else match dispatch r (endpoints db apis feature_operations encode_operations) with
       | Found h name e => (true, matched r (chain apis url_String ++ [Authenticated]) h name e)
       | Mismatch => (false, unmatched (Some ErrMethodMismatch))
       | Missing => (true, mkRouteMatch None (Some (Authenticated NotFoundHandler)) None (Some ErrNotFound))
       end.
Proof. apply setup_match. Qed.
End survives.

Section arm.
Context {W : Type} `{!Cell W arm, !CellLaws W arm}.
Context (a_now : M W Z) (a_do : string -> string -> M W metadata_response).
Context (decode_metadata : string -> option metadata + string) (tick : M W unit).
Context (Hnow : steps keeps a_now) (Hdo : forall method url, steps keeps (a_do method url)).
Context (Htick : steps keeps tick).

End arm.

(** ** On the reference world *)
Definition wire_put : ServerRequest :=
  wire_request "PUT" ref_original_path "2019-12-31-preview" "application/json" "five workers" "arm".

Lemma changes_are_gated_witness :
  clusters (snd (ref_server _ wire_put settled)) <> clusters settled /\
  (unchanged settled (snd (ref_server _ wire_put settled)) \/
   exists h name e r' w1,
     dispatch (with_path_lower wire_put) (endpoints ref_db ref_apis true (fun _ => "operations")) = Found h name e /\
     name ∈ ["deleteOpenShiftCluster"; "putOrPatchOpenShiftCluster"; "putSubscription"] /\
     delivered wire_put e r' /\ admissible ref_apis r' /\ authorized r' w1 /\
     unchanged settled w1 /\ unchanged (snd (h r' w1)) (snd (ref_server _ wire_put settled))).
Proof.
  split.
  - intros E. apply (f_equal (fun m => ocd_Dequeues <$> m !! ref_path)) in E. by vm_compute in E.
  - apply (changes_are_gated ref_db ref_apis true (fun r => sr_Path r) (fun _ => true) "{}" (fun _ => "operations")).
Defined.

#[export] Instance ref_surroundings : Surroundings (W := World).
Proof. split; intros; by intros w. Qed.
Lemma server_survives_witness : calm (fst (ref_server _ wire_put settled)).
Proof.
  apply (server_survives ref_db ref_apis true (fun r => sr_Path r) (fun _ => true) "{}" (fun _ => "operations") wire_put settled).
Defined.

(** An authorizer whose clock stands still at 5 and whose service publishes one
    certificate, valid from 1 to 9 *)
#[export] Instance arm_cell : Cell arm arm := {| cell_get a := a; cell_set a _ := a |}.
#[export] Instance arm_cell_laws : CellLaws arm arm.
Proof. by split. Qed.

