(* ===== verification/InstallTheorems.v ===== *)
(** * Properties of the installer and of the templates *)
From S2P Require Import Prelude GoStrings.
From S2P Require Import Azure Api Net Cidr Services Subnets Wait Kube.
From S2P Require Import Cosmos CosmosLaws RefCollection Database DatabaseSpec Backend Manager.
From S2P Require Import Graph Arm InstallTemplates Install Create Deploy TemplatesSpec.
From S2P Require Import Frontend Preview Reference Rely Lifecycle System RefShared InstallSpec RefInstall.

(** ** Installation *)
Section install.
Context {W : Type} `{!Runtime W, !Account W}.
Context `{!Collection W OpenShiftClusterDocument, !Collection W SubscriptionDocument,
          !Collection W AsyncOperationDocument}.
Context (db : Database) `{!AccountLaws W db} {PB : PageBound}.
Context {EV : Env} `{!Auth W, !SubnetsClient W, !RecordSetsClient W, !PrivateEndpointsClient W, !GroupsClient W}.
Context `{!Ticks W, !InstallClients W, !Assets W} {DP : Depth} {CF : Config W} {KB : Kube W} {CR : Creation W}.
Context {AR : Around W (same (W := W) (D := OpenShiftClusterDocument))}.
Implicit Types w : W.

(** C7: an installation that succeeds, from whichever phase an earlier try has left it
    in, was run under our lease. It leaves the cluster without phases, with the
    addresses of its API and its console, and otherwise as it was but for what an
    installation writes; no other cluster has changed. *)
Theorem install_done c creds pullspec i w w' :
  Install_ db c creds pullspec i w = (Ok tt, w') ->
  exists d oc d' oc', clusters w !! ocd_Key (i_doc i) = Some d /\
    ocd_LeaseOwner d = OpenShiftClusters.uuid (db_OpenShiftClusters db) /\ ocd_OpenShiftCluster d = Some oc /\
    (InstallPhaseDeployStorage <= default InstallPhaseDeployStorage (phase_in oc) <= InstallPhaseRemoveBootstrap)%Z /\
    p_Install (oc_Properties oc') = None /\ addressed oc' /\ blank oc' = blank oc /\
    rewritten (ocd_Key (i_doc i)) d oc' d' w w'.
Proof.
  unfold Install_. intros (r & w1 & Hp & (d1 & ? & [->%deref_ok ->]%lift_inv & H)%bind_inv_ok)%bind_inv_ok.
  eapply (patch_ok db (fun oc oc' => oc' = start_install oc)) in Hp
    as (d & oc & d2 & oc1 & Hd & Hoc & Ho & -> & [= <-] & Hw).
  2: { split; [intros; apply steps_ret; apply Same_pre|]. by intros ? ? ? ? [= <- _]. }
  destruct (rewritten_current db _ _ _ _ _ _ Hd Hw) as [Hk Hcur].
  destruct (phases_ok db c creds pullspec 3 _ _ _ Hcur H) as (oc2 & ph & oc' & d' & Hoc2 & Hph & Hr & Hi & Ha & Hb & Hw').
  assert (oc2 = start_install oc) as -> by 
    (destruct Hw as (_ & _ & He & _); change (i_doc (i <| i_doc := d1 |>)) with d1 in Hoc2; congruence).
  exists d, oc, d', oc'. refine (conj Hd (conj Ho (conj Hoc (conj _ (conj Hi (conj Ha (conj _ _))))))).
  - unfold start_install, phase_in in *. by destruct (p_Install (oc_Properties oc)) as [n|] eqn:E; [rewrite E in *|]; injection Hph as <-.
  - rewrite Hb. unfold start_install. by destruct (p_Install (oc_Properties oc)).
  - eapply rewritten_trans; [exact Hw|]. change (i_doc (i <| i_doc := d1 |>)) with d1 in Hw'. by rewrite <- Hk.
Qed.

(** C8: three rounds are enough for the loop over the phases, which the program does
    not bound: whatever more it were given, the run, its outcome and its effects would
    be the same. *)
Theorem install_rounds c creds pullspec i w k :
  clusters w !! ocd_Key (i_doc i) = Some (i_doc i) ->
  phases db c creds pullspec (3 + k) i w = phases db c creds pullspec 3 i w.
Proof.
  intros Hc. apply (phases_same db (AR := AR)); [done| |lia]. intros ph _. unfold rounds_left. repeat case_decide; lia.
Qed.
End install.

(** An installer for the cluster of the reference world, and the document it starts from *)
Definition ref_installer : Installer := match fst (NewInstaller creating_document creating) with
  | Ok i => i
  | _ => mkInstaller creating_document EmptyString (FirstParty EmptyString) (FirstParty EmptyString)
           (Subnets.NewManager EmptyString (FirstParty EmptyString))
  end.
Definition ref_creds : PlatformCreds := mkPlatformCreds "tenant" "client" "secret" ref_sub.
Definition run_install (w : World) : res unit * World := Install_ ref_db ref_config ref_creds "image" ref_installer w.
(** The document with its second phase still to come *)
Definition resumed_document : OpenShiftClusterDocument :=
  creating_document <| ocd_OpenShiftCluster := option_map (fun oc => oc <| oc_Properties -> p_Install :=
    Some (mkInstall (mkMissingFields None) 0 InstallPhaseDeployResources) |>
    <| oc_Properties -> p_AdminKubeconfig := Some "kubeconfig" |>) (ocd_OpenShiftCluster creating_document) |>.
Definition resumed : World :=
  world [resumed_document] [ref_subscription SubscriptionStateRegistered]
    [ref_operation "op" ProvisioningStateCreating ProvisioningStateCreating].

Lemma install_done_witness :
  fst (run_install resumed) = Ok tt /\
  exists d oc d' oc', clusters resumed !! ocd_Key (i_doc ref_installer) = Some d /\
    ocd_LeaseOwner d = OpenShiftClusters.uuid (db_OpenShiftClusters ref_db) /\ ocd_OpenShiftCluster d = Some oc /\
    (InstallPhaseDeployStorage <= default InstallPhaseDeployStorage (phase_in oc) <= InstallPhaseRemoveBootstrap)%Z /\
    p_Install (oc_Properties oc') = None /\ addressed oc' /\ blank oc' = blank oc /\
    rewritten (ocd_Key (i_doc ref_installer)) d oc' d' resumed (snd (run_install resumed)).
Proof.
  assert (fst (run_install resumed) = Ok tt) as H by (vm_compute; reflexivity). split; [exact H|].
  apply (install_done ref_db ref_config ref_creds "image" ref_installer resumed). apply (ran_as _ _ _ H).
Defined.

Definition resumed_installer : Installer := ref_installer <| i_doc := resumed_document |>.
Lemma install_rounds_witness :
  clusters resumed !! ocd_Key (i_doc resumed_installer) = Some (i_doc resumed_installer) /\
  phases ref_db ref_config ref_creds "image" 7 resumed_installer resumed =
  phases ref_db ref_config ref_creds "image" 3 resumed_installer resumed.
Proof.
  assert (clusters resumed !! ocd_Key (i_doc resumed_installer) = Some (i_doc resumed_installer)) as H
    by (vm_compute; reflexivity).
  split; [exact H|]. exact (install_rounds ref_db ref_config ref_creds "image" resumed_installer resumed 4 H).
Defined.

(** ** The graph of assets *)
Section graph.
Context {W : Type} `{!Assets W}.
Context (generates : forall a (g : graph) (w : W) a' g' w', Generate a g w = (Ok (a', g'), w') -> dom g' = dom g).
Context (rank : string -> nat) (acyclic : forall a d, d ∈ Dependencies a -> rank (TypeOf d) < rank (TypeOf a)).

(** C23: when the installer's dependencies have no cycle, and the depth of the calls is
    above the height of an asset, resolving the asset is to generate, one after the
    other, a list of assets that is known beforehand: none that is there already, none
    twice, each after all it depends on, and with the asset itself. Which they are does
    not depend on what the generations return or do. *)
Theorem resolve_in_order fuel (g : graph) a :
  rank (TypeOf a) < fuel ->
  exists l, sorted (dom g) l /\ TypeOf a ∈ dom g ∪ types l /\
    forall w, resolve fuel g a w = generate_all l g w.
Proof.
  intros Hr. destruct (order_total rank acyclic fuel (dom g) a Hr) as [l Hl]. exists l.
  destruct (order_sorted generates rank acyclic fuel (dom g) a l Hl) as (Hs & Ha & _). split_and!; [done..|].
  intros w. by apply (resolve_order generates).
Qed.

(** A graph whose assets can each be encoded and decoded, all of types the program
    has registered, comes back from the form in which it is stored between two phases. *)
Theorem graph_stored (g : graph) :
  map_Forall storable g -> exists m, MarshalJSON g = Ok m /\ UnmarshalJSON ∅ m = Ok g.
Proof. apply graph_roundtrip. Qed.
End graph.

(** The reference assets: the bootstrap machine needs the kubeconfig, which needs a key *)
Definition ref_rank (t : string) : nat :=
  if decide (t = "*bootstrap.Bootstrap") then 2 else if decide (t = "*kubeconfig.AdminClient") then 1 else 0.
Lemma resolve_in_order_witness :
  exists l, sorted ∅ l /\ TypeOf (ABootstrap EmptyString) ∈ (∅ : gset string) ∪ types l /\
    forall w : World, resolve 3 ∅ (ABootstrap EmptyString) w = generate_all l ∅ w.
Proof.
  rewrite <- (dom_empty_L (M := gmap string) (A := asset)). apply (resolve_in_order (W := World)) with (rank := ref_rank).
  - intros a g w a' g' w' E. by injection E as _ <- _.
  - intros a d Hd. destruct a; try (by apply elem_of_nil in Hd);
      repeat (apply elem_of_cons in Hd as [->|Hd]); try (by apply elem_of_nil in Hd); vm_compute; lia.
  - vm_compute. lia.
Defined.

Definition stored_graph : graph :=
  {[ "*installconfig.InstallConfig" := AInstallConfig ref_config; "*password.KubeadminPassword" := AKubeadminPassword "password" ]}.
Lemma graph_stored_witness :
  exists m, MarshalJSON (W := World) stored_graph = Ok m /\ UnmarshalJSON (W := World) ∅ m = Ok stored_graph.
Proof.
  apply (graph_stored (W := World)). apply map_Forall_insert_2; [|apply map_Forall_singleton];
    (split; [apply list_elem_of_In; vm_compute; tauto|eexists; split; reflexivity]).
Defined.
