(* ===== verification/TemplateTheorems.v ===== *)
(** * Properties of the templates *)
From S2P Require Import Prelude GoStrings.
From S2P Require Import Azure Api Net Cidr Services Graph Arm InstallTemplates Subnets Wait Kube.
From S2P Require Import Cosmos Database Install Deploy TemplatesSpec.

(** C22: both templates of an installation, whatever the cluster, can be deployed: no two
    of their resources have a type and a name in common, and there is an order in which
    each comes after all that it depends on, which the template has. Each resource has
    a type, a name and a version of its API, and each part of a load balancer that the
    network interfaces, the private link and the rules of the load balancers name is
    one that a load balancer of the template has. *)
Theorem installation_templates `{!Env} c oc image objectID vnetID machineMaster lbIP replicas zones :
  let storage := storage_template c oc in
  let resources := resources_template c oc image objectID vnetID machineMaster lbIP replicas zones in
  deployable storage /\ deployable resources /\
  Forall typed (t_Resources storage ++ t_Resources resources) /\ wired resources.
Proof.
  split_and!.
  - apply deployable_listed; [apply storage_template_distinct|apply storage_template_ordered].
  - eapply deployable_intro; [apply resources_template_distinct|apply in_order_permutation|apply in_order_ordered].
  - apply Forall_app. split; [apply storage_template_typed|apply resources_template_typed].
  - apply resources_template_wired.
Qed.

(** C35: each of the templates of the service itself, of its databases, its security
    groups and its development environment, for production and for development, can
    be deployed, and the parts of the load balancer its scale set names are there. *)
Theorem service_templates_deployable (production : bool) :
  deployable (Rp.template production) /\ deployable (Rp.nsg_template production) /\
  deployable Rp.databases_template /\ deployable Rp.development_template /\ wired (Rp.template production).
Proof.
  destruct (service_deployable production) as (? & ? & ? & ?).
  split_and!; [done..|apply service_wired].
Qed.

(** C37: the templates of the service are well typed: their resources have a type, a name
    and a version of the API; every parameter that an expression mentions is declared,
    no parameter is declared twice, and every one that is declared is used, but for the
    extra access policies of production, which the written text is given. *)
Theorem service_templates_typed (production : bool) :
  Forall (fun t => Forall typed (t_Resources t))
    [Rp.template production; Rp.nsg_template production; Rp.databases_template; Rp.development_template] /\
  closed (if production then ["extraKeyvaultAccessPolicies"] else []) (Rp.template production) /\
  closed [] (Rp.nsg_template production) /\ closed [] Rp.databases_template /\ closed [] Rp.development_template.
Proof.
  destruct (service_typed production) as (? & ? & ? & ?). destruct (service_closed production) as (? & ? & ? & ?).
  split_and!; [do 4 (apply Forall_cons_2; [done|]); apply Forall_nil_2|done..].
Qed.

(** ** The address of the internal load balancer *)
Lemma Dec_v4 l : length l = 4 -> Forall (fun b => 0 <= b < 256)%Z l -> (0 < bytes_to_int l)%Z ->
  length (Dec l) = 4 /\ Forall (fun b => 0 <= b < 256)%Z (Dec l) /\ bytes_to_int (Dec l) = (bytes_to_int l - 1)%Z.
Proof.
  intros Hl Hb Hp. destruct (four_bytes l Hl) as (a & b & c & d & ->).
  repeat apply Forall_cons in Hb as [? Hb]. unfold bytes_to_int in *. simpl in Hp.
  unfold Dec, checkIPv4, To4. cbn [length Nat.eqb]. cbn [reverse rev_append app].
  change (reverse [a; b; c; d]) with [d; c; b; a]. cbn [dec_bytes].
  repeat case_decide; subst;
    match goal with |- context [reverse ?l] => let l' := eval cbv [reverse rev_append] in (reverse l) in change (reverse l) with l' end;
    (split_and!; [done|repeat constructor; lia|simpl; lia]).
Qed.

(** In a subnet of eight addresses or more, the address the masters' load balancer is
    given, two below the last, is in the subnet, and is neither among the first four
    addresses nor the last, which Azure keeps for itself. *)
Theorem load_balancer_address net :
  v4net net -> (n_ones net <= 29)%Z ->
  exists last, AddressRange net = Ok (n_IP net, last) /\
    let lbIP := Dec (Dec last) in
    length lbIP = 4 /\ Contains net lbIP = true /\
    bytes_to_int lbIP = (first_address net + size net - 3)%Z /\
    (first_address net + 4 <= bytes_to_int lbIP)%Z.
Proof.
  intros Hv Hn. destruct (AddressRange_spec net Hv) as (last & Hr & Hl & Hb & Hlast).
  exists last. split; [done|].
  assert (8 <= size net)%Z as Hs.
  { unfold size. change 8%Z with (2 ^ 3)%Z. apply Z.pow_le_mono_r; lia. }
  assert (0 <= first_address net)%Z as H0.
  { apply (bytes_bound (n_IP net)). apply Hv. }
  destruct (Dec_v4 last Hl Hb) as (Hl1 & Hb1 & Hd1); [lia|].
  destruct (Dec_v4 (Dec last) Hl1 Hb1) as (Hl2 & Hb2 & Hd2); [lia|].
  split_and!; [done| |lia|lia]. apply (Contains_spec net _ Hv Hl2 Hb2). unfold in_net. lia.
Qed.

Definition masters : IPNet := mkIPNet [10; 0; 0; 0]%Z 24 32.
Lemma load_balancer_address_witness :
  IP_String (Dec (Dec [10; 0; 0; 255]%Z)) = "10.0.0.253" /\
  exists last, AddressRange masters = Ok (n_IP masters, last) /\
    let lbIP := Dec (Dec last) in
    length lbIP = 4 /\ Contains masters lbIP = true /\
    bytes_to_int lbIP = (first_address masters + size masters - 3)%Z /\
    (first_address masters + 4 <= bytes_to_int lbIP)%Z.
Proof.
  split; [vm_compute; reflexivity|]. apply (load_balancer_address masters); [|vm_compute; discriminate].
  split; [done|vm_compute; split; discriminate|done|repeat constructor; lia|done].
Defined.
