(* ===== verification/MarshalTheorems.v ===== *)
(** * Properties of the JSON of resources *)
From S2P Require Import Prelude GoStrings Arm Marshal MarshalSpec.

(** C34: the JSON of a resource of a template is what encoding/json makes of one struct:
    the exported fields of the struct that it wraps, in their order, each with the tag
    and the value of the resource's own field of that name when that is not zero, then
    the resource's other fields. The methods of the wrapped types have no part in it.
    This needs that the fields which the wrapped struct passes on are left out when
    empty exactly when nothing is set in them, and that the resource has no list of
    dependencies and no map of tags that is empty but not nil. *)
Theorem marshal_resource r v fs :
  r_Resource r = Some v -> struct_of v = Some fs -> NoDup (name <$> fs) ->
  Forall (fun fv => exported (fst fv) = true -> inherited (outer_fields r) fv) fs ->
  r_DependsOn r <> Some [] -> r_Tags r <> Some [] ->
  MarshalJSON r = Ok (encode (reference r fs)).
Proof.
  intros Hr Hv Hd Hi Hdep Htags. unfold MarshalJSON. rewrite Hr. cbn [shadowCopy res_bind].
  assert (value_of (_shadowCopy v) = Some (GStruct (omap copied_field fs))) as ->.
  { rewrite <- shadow_struct. destruct v as [| | |[[]|]| | | | |]; simpl in Hv; by simplify_eq. }
  cbv iota beta. apply exported_NoDup in Hd. rewrite copied_fields, combine_overlay; [|by rewrite shadow_names|apply outer_NoDup].
  rewrite StructOf_ok by (apply overlay_NoDup; [by rewrite shadow_names|apply outer_NoDup]).
  cbn [res_bind]. f_equal. apply encode_alike, overlay_alike; [|by intros g w; apply outer_nonempty].
  apply Forall_forall. intros fv [Hx Hin]%list_elem_of_filter. rewrite Forall_forall in Hi.
  apply Is_true_eq_true in Hx. split; [done|by apply Hi].
Qed.

(** A virtual network, as the SDK's struct *)
Definition ref_string (s : string) : gv := GPtr (Some (GBasic (PString s))).
Definition ref_network : list (gfield * gv) :=
  [(mkField "Response" EmptyString "-", GStruct [(mkField "Response" EmptyString "-", GPtr None)]);
   (field_ "VirtualNetworkPropertiesFormat" "properties",
    GPtr (Some (GStruct
      [(field_ "AddressSpace" "addressSpace",
        GPtr (Some (GStruct
          [(field_ "AddressPrefixes" "addressPrefixes", GPtr (Some (GSlice (Some [GBasic (PString "10.0.0.0/9")]))))])));
       (field_ "EnableDdosProtection" "enableDdosProtection", GPtr None)])));
   (field_ "Etag" "etag", GPtr None);
   (field_ "Name" "name", ref_string "aro-vnet");
   (field_ "Type" "type", ref_string "Microsoft.Network/virtualNetworks");
   (field_ "Location" "location", GPtr None);
   (field_ "Tags" "tags", GMap None);
   (mkField "unexported" "github.com/Azure" EmptyString, GBasic (PInt 1))].
Definition ref_resource : Resource := {|
  r_Resource := Some (GPtr (Some (GStruct ref_network)));
  r_Name := EmptyString;
  r_Type := EmptyString;
  r_Condition := true;
  r_APIVersion := "2019-07-01";
  r_DependsOn := None;
  r_Location := "eastus";
  r_Tags := Some [("owner", GBasic (PString "aro"))];
  r_Copy := None;
  r_Comments := EmptyString;
|}.

Lemma marshal_resource_witness :
  MarshalJSON ref_resource = Ok (encode (reference ref_resource ref_network)) /\
  encode (reference ref_resource ref_network) =
  JObject
    [("properties", JObject [("addressSpace", JObject [("addressPrefixes", JArray [JLit (PString "10.0.0.0/9")])])]);
     ("name", JLit (PString "aro-vnet"));
     ("type", JLit (PString "Microsoft.Network/virtualNetworks"));
     ("location", JLit (PString "eastus"));
     ("tags", JObject [("owner", JLit (PString "aro"))]);
     ("condition", JLit (PBool true));
     ("apiVersion", JLit (PString "2019-07-01"))].
Proof.
  split; [|by vm_compute].
  apply (marshal_resource ref_resource (GPtr (Some (GStruct ref_network))) ref_network).
  - reflexivity.
  - reflexivity.
  - apply (bool_decide_unpack _). by vm_compute.
  - repeat (apply Forall_cons_2; [intros Hx; cbv in Hx; try done; unfold inherited; cbv [by_name]; simpl; try (intros _)|]).
    all: try apply Forall_nil_2.
    all: try (split; [repeat constructor|by vm_compute]).
  - discriminate.
  - discriminate.
Defined.

(** ** The test of the source (src/pkg/util/arm/marshal_test.go), but for its float *)
Definition testResource (fields : list (string * gv)) : gv :=
  let get n zero := default zero (snd <$> (snd <$> list_find (fun f => fst f = n) fields)) in
  GStruct
    [(field_ "Bool" "bool", get "Bool" (GBasic (PBool false)));
     (field_ "Int" "int", get "Int" (GBasic (PInt 0)));
     (field_ "Uint" "uint", get "Uint" (GBasic (PInt 0)));
     (field_ "Array" "array", get "Array" (GArray [GPtr None]));
     (field_ "Interface" "interface", get "Interface" (GInterface None));
     (field_ "Map" "map", get "Map" (GMap None));
     (field_ "Ptr" "ptr", get "Ptr" (GPtr None));
     (field_ "Slice" "slice", get "Slice" (GSlice None));
     (field_ "ByteSlice" "byte_slice", get "ByteSlice" (GBytes None));
     (field_ "String" "string", get "String" (GBasic (PString EmptyString)));
     (field_ "Struct" "struct", get "Struct" (GPtr None));
     (field_ "Name" "name", get "Name" (GBasic (PString EmptyString)));
     (mkField "Unmarshaled" EmptyString "-", get "Unmarshaled" (GBasic (PInt 0)));
     (mkField "unexported" "github.com/Azure/ARO-RP/pkg/util/arm" EmptyString, get "unexported" (GBasic (PInt 0)));
     (mkField "Tags" EmptyString "tags", get "Tags" (GMap None))].
Definition ptr_to (v : gv) : gv := GPtr (Some v).
Definition test (v : gv) : Resource :=
  mkResource (Some v) "test" EmptyString false EmptyString None EmptyString None None EmptyString.
Definition one : gv := GBasic (PInt 1).
Definition text (s : string) : gv := GBasic (PString s).

Example marshal_test_non_zero :
  MarshalJSON (test (ptr_to (testResource
    [("Bool", GBasic (PBool true)); ("Int", one); ("Uint", one);
     ("Array", GArray [ptr_to (testResource [("Bool", GBasic (PBool true)); ("Unmarshaled", one)])]);
     ("Interface", GInterface (Some (ptr_to (testResource [("Int", one); ("Unmarshaled", one)]))));
     ("Map", GMap (Some [("one", ptr_to (testResource [("Uint", one); ("Unmarshaled", one)]));
                         ("zero", ptr_to (testResource [("Uint", GBasic (PInt 0)); ("Unmarshaled", one)]))]));
     ("Ptr", ptr_to (text "test"));
     ("Slice", GSlice (Some [ptr_to (testResource [("Bool", GBasic (PBool true)); ("Unmarshaled", one)])]));
     ("ByteSlice", GBytes (Some "test")); ("String", text "test");
     ("Struct", ptr_to (testResource [("String", text "test"); ("Unmarshaled", one)]));
     ("Name", text "should be overwritten by parent name"); ("Unmarshaled", one); ("unexported", one)]))) =
  Ok (JObject
    [("bool", JLit (PBool true)); ("int", JLit (PInt 1)); ("uint", JLit (PInt 1));
     ("array", JArray [JObject [("bool", JLit (PBool true)); ("tags", JNull)]]);
     ("interface", JObject [("int", JLit (PInt 1)); ("tags", JNull)]);
     ("map", JObject [("one", JObject [("uint", JLit (PInt 1)); ("tags", JNull)]); ("zero", JObject [("tags", JNull)])]);
     ("ptr", JLit (PString "test"));
     ("slice", JArray [JObject [("bool", JLit (PBool true)); ("tags", JNull)]]);
     ("byte_slice", JLit (PString "dGVzdA==")); ("string", JLit (PString "test"));
     ("struct", JObject [("string", JLit (PString "test")); ("tags", JNull)]);
     ("name", JLit (PString "test"))]).
Proof. by vm_compute. Qed.

Example marshal_test_zero :
  MarshalJSON (test (ptr_to (testResource []))) = Ok (JObject [("name", JLit (PString "test"))]).
Proof. by vm_compute. Qed.
