(* ===== verification/MirrorTheorems.v ===== *)
(** * Properties of the mirror *)
From S2P Require Import Prelude GoStrings.
From S2P Require Import Mirror.

(** The copies of a release, each answered with success or an error *)
Definition answered {W} `{Images W} : Prop :=
  forall (k : work Auth) (u : W), exists r u', copy_work k u = (r, u') /\ (r = Ok tt \/ exists e, r = Err e).

Lemma outcomes_answered {W} `{Images W} l u outcomes u' :
  answered -> copy_all l u = (outcomes, u') -> Forall fine outcomes <-> Forall (fun c => snd c = Ok tt) outcomes.
Proof.
  intros Ha. revert u outcomes. induction l as [|k l IH]; intros u outcomes Hl; simplify_eq/=.
  { by rewrite !Forall_nil. }
  destruct (Ha k u) as (r & u1 & Hk & Hr). rewrite Hk in Hl. destruct (copy_all l u1) as [rs u2] eqn:E. simplify_eq.
  rewrite !Forall_cons, (IH _ _ E). unfold fine. destruct Hr as [->|[e ->]]; simpl; naive_solver.
Qed.

(** What a mirror of the work [l] has done from [u] to [u'] when it returns [r] *)
Definition mirrored {W} `{Images W} (l : list (work Auth)) (u : W) (r : res unit) (u' : W) : Prop :=
  exists order outcomes,
    order ≡ₚ l /\ copy_all order u = (outcomes, u') /\
    (Forall (fun c => snd c = Ok tt) outcomes /\ r = Ok tt \/
     ~ Forall (fun c => snd c = Ok tt) outcomes /\ r = Err an_error_occurred).

Lemma returned_mirrored {W} `{Images W} l u s r :
  answered -> inv (Ok <$> l) u s -> p_main s = Returned r -> mirrored l u r (p_world s).
Proof.
  intros Ha Hi Hret. destruct (returned _ _ _ _ Hi Hret) as (order & outcomes & Ho & Hc & Hf).
  exists order, outcomes. rewrite <- (outcomes_answered _ _ _ _ Ha Hc). split_and!; [done..|]. naive_solver.
Qed.

Lemma reached_answered {W} `{Images W} l u s :
  answered -> rtc step (start (Ok <$> l) u) s -> inv (Ok <$> l) u s.
Proof.
  intros Ha. apply reached. split; [intros why (? & ? & _)%list_elem_of_fmap; done|].
  intros k v why v' Hk. destruct (Ha k v) as (r & v1 & Hk' & Hr'). rewrite Hk in Hk'. naive_solver.
Qed.

(** C38: a mirror of a release whose images are each named by a host and a path. However
    its ten goroutines are interleaved, it comes to an end, after at most 27 steps and
    three for each image, and never stops before; at no time are more than ten copies
    being made; and when it returns, every image has been copied once, to its path in
    the other registry, with the outcomes and the effects of one caller that makes the
    copies one after the other in some order. It returns an error exactly when some
    copy failed. *)
Theorem mirror_copies {W} `{Images W} dstrepo dstauth srcauth release images (u0 u : W) :
  let stream := Some ((fun image => mkTag (fst image) (Some (reference image))) <$> images) in
  let begin := start (works dstrepo (reference release) dstauth srcauth stream) u in
  let l := copy_of dstrepo dstauth srcauth <$> release :: images in
  fst release = "release" -> Forall named (release :: images) -> answered ->
  getReleaseImageStream (reference release) srcauth u0 = (Ok stream, u) ->
  (forall n s, nsteps step n begin s -> n <= 27 + 3 * length images) /\
  (forall s, rtc step begin s -> length (p_workers s) <= 10 /\
     ((exists s', step s s') \/ exists r, p_main s = Returned r)) /\
  (forall r u', Mirror dstrepo (reference release) dstauth srcauth u0 r u' -> mirrored l u r u').
Proof.
  cbv zeta. intros Hr Hn Ha Hu. rewrite works_named by done. split_and!.
  - intros n s Hs%run_bounded. unfold measure in Hs. simpl in Hs. rewrite !length_fmap in Hs. lia.
  - intros s Hi%reached_answered; [|done].
    split; [pose proof (inv_length _ _ _ Hi); unfold goroutines in *; lia|by eapply progress].
  - intros r u' HM. destruct HM as [r u' Hu' Hok|stream u1 s r Hu' Hs Hend]; rewrite Hu in Hu'; simplify_eq.
    rewrite works_named in Hs by done. apply reached_answered in Hs; [|done].
    destruct Hend as [Hret|(why & Hcr & _)]; [by apply returned_mirrored|].
    pose proof (inv_alive _ _ _ Hs) as Hal. unfold alive in Hal. by rewrite Hcr in Hal.
Qed.

(** A registry that has the images copied into it, and refuses one of them. *)
#[local] Instance ref_images : Images (list string) := {|
  Auth := unit;
  Ref := string;
  Layer := string;
  Reader := string;
  NewPolicyContext := ret tt;
  ParseReference := fun s => Ok s;
  NewImage := fun _ _ => ret ["manifests"];
  NewImageSource := fun _ _ => ret tt;
  GetBlob := fun _ l => ret l;
  Peek2 := fun r => Ok (String.substring 0 2 r);
  gzip_NewReader := fun r => Ok r;
  tar_entries := fun r => ([(image_references, r)], None);
  Decode_ImageStream := fun r => Ok (Some [mkTag "cli" (Some "quay.io/cli"); mkTag "etcd" (Some "quay.io/etcd")]);
  copy_Image := fun _ _ dst src => if decide (src = "//quay.io/etcd") then throw (ErrOther "no space") else
    fun u => (Ok tt, dst :: u);
|}.

Definition anyone : Auth (W := list string) := tt.

Lemma ref_answered : answered (W := list string).
Proof.
  intros k u. unfold copy_work, copyImage, bind, ret, lift. simpl. case_decide; eexists _, _; (split; [reflexivity|eauto]).
Qed.

Lemma mirror_copies_witness :
  let release := ("release", ("quay.io", "release")) in
  let images := [("cli", ("quay.io", "cli")); ("etcd", ("quay.io", "etcd"))] in
  let stream := Some ((fun image => mkTag (fst image) (Some (reference image))) <$> images) in
  let begin := start (works "arosvc.azurecr.io" (reference release) anyone anyone stream) [] in
  (forall n s, nsteps step n begin s -> n <= 27 + 3 * 2) /\
  (forall s, rtc step begin s -> length (p_workers s) <= 10 /\
     ((exists s', step s s') \/ exists r, p_main s = Returned r)) /\
  (forall r u', Mirror "arosvc.azurecr.io" (reference release) anyone anyone [] r u' ->
     mirrored (copy_of "arosvc.azurecr.io" anyone anyone <$> release :: images) [] r u').
Proof.
  cbv zeta.
  apply (mirror_copies "arosvc.azurecr.io" anyone anyone ("release", ("quay.io", "release"))
    [("cli", ("quay.io", "cli")); ("etcd", ("quay.io", "etcd"))] [] []).
  - reflexivity.
  - repeat (apply Forall_cons_2; [reflexivity|]). apply Forall_nil_2.
  - apply ref_answered.
  - reflexivity.
Defined.

(** ** The order of versions *)

(** [Lt] compares part by part: a later version can be less than an earlier one, and
    the graph's releases after the next major version are dropped. *)
Lemma Lt_not_an_order :
  let v := mkVersion 4 3 9 in let w := mkVersion 4 4 0 in let x := mkVersion 5 0 0 in
  Lt v w = true /\ Lt w v = true /\ Lt x (mkVersion 4 3 0) = true.
Proof. by vm_compute. Qed.

Lemma Lt_false v min : Lt v min = false <-> (v_0 min <= v_0 v /\ v_1 min <= v_1 v /\ v_2 min <= v_2 v)%Z.
Proof. unfold Lt. rewrite !orb_false_iff, !Z.ltb_ge. tauto. Qed.

Lemma keep_nodes_spec min nodes releases :
  keep_nodes min nodes = Ok releases ->
  exists versions, Forall2 (fun node v => newVersion (n_Version node) = Ok v) nodes versions /\
    releases = (fun nv => n_Payload (fst nv)) <$> filter (fun nv => Lt (snd nv) min = false) (zip nodes versions).
Proof.
  revert releases. induction nodes as [|node nodes IH]; intros releases Hk; simplify_eq/=; [by exists []; split; [constructor|]|].
  apply res_bind_ok in Hk as (v & Hv & (rest & Hrest & Hk)%res_bind_ok).
  destruct (IH _ Hrest) as (versions & Hvs & ->). exists (v :: versions). split; [by constructor|].
  cbn [zip zip_with]. rewrite filter_cons. cbn [snd].
  destruct (Lt v min) eqn:E; simplify_eq; [by rewrite decide_False|by rewrite decide_True].
Qed.
