(* ===== verification/SwaggerTheorems.v ===== *)
(** * The specification and the program

    What the walk over the types defines, that the files under src/swagger are those
    the program writes, and that the server serves what they say. *)
From S2P Require Import Prelude GoStrings Regex.
From S2P Require Import Arm Marshal OrderedMap SwaggerTypes Swagger SwaggerData SwaggerSpec SwaggerServed.
From S2P Require Import Azure Api Services Cosmos Database Frontend Mux Middleware Routes SwaggerRequests Reference.

(** ** The definitions *)

(** C35: the walk over the types of a package comes to an end, for every order of the
    loops over the dependencies: each name that is asked for, or that is mentioned by
    one that is reached and was not defined before, gets the schema of its type, every
    other name keeps what it had, and whatever a defined type mentions is defined. *)
Theorem definitions_complete tw order ds names :
  (forall l x, x ∈ order l <-> x ∈ l) -> closed tw -> (forall n, n ∈ names -> n ∈ declared tw) ->
  exists ds', define_all order tw ds names = Ok ds' /\
    (forall n, reached tw ds names n -> get_key n ds' = Some (schema tw n)) /\
    (forall n, ~ reached tw ds names n -> get_key n ds' = get_key n ds) /\
    (forall n d, reached tw ds names n -> d ∈ mentions tw n -> is_Some (get_key d ds')).
Proof.
  intros Ho Hc Hn. destruct (define_all_spec tw order ds names Ho Hc Hn) as (ds' & E & R & K & M).
  exists ds'. split_and!; [done|done| |done]. intros n Hr. by destruct (K n).
Qed.

(** ** The files under src/swagger *)

(** C36: the files that are kept in the repository are those the program writes today,
    in whatever order it goes over its maps: it empties the directory of the examples,
    writes the eight of them in some order and then the specification, and every
    reference of that one is to a definition it holds, to an example that is written,
    or to the common types. *)
Theorem specification_current {W} `{!Outputs W} order visit outputDir :
  (forall l x, x ∈ order l <-> x ∈ l) -> (forall l, visit l ≡ₚ l) ->
  (exists examples, examples ≡ₚ examples_json /\
     forall w, Run order visit load outputDir w = kept_files outputDir examples w) /\
  (forall r, r ∈ references redhatopenshift_json -> resolves redhatopenshift_json examples_json r).
Proof.
  intros Ho Hv. split.
  - destruct specification_ok as (s & Hs & Es).
    destruct (visited_examples visit s Hv Hs) as (examples & P & Ef). exists examples. split; [done|]. intros w.
    unfold Run. rewrite specification_order, Hs by done.
    unfold kept_files, generateExamples. unfold lift. unfold bind at 1. rewrite !bind_assoc.
    apply bind_cong. intros [] w1. rewrite !bind_assoc. apply bind_cong. intros [] w2.
    unfold bind at 1. rewrite (write_examples_files _ _ examples) by done. by rewrite Es.
  - intros r Hr%list_elem_of_In. apply resolves_spec. pose proof references_resolve as H. rewrite forallb_forall in H. by apply H.
Qed.

(** ** The server *)
Section served.
Context {W : Type} `{!Runtime W, !Account W} {PB : PageBound} `{!Cell W Header}.
Context `{!Cell W ResponseWriter, !Telemetry W, !ClientAuthorizer W}.
Context {EV : Env} {U : Url} {CD : Codec}.
Context (db : Database) (apis : gmap string (Version W)) (feature_operations : bool).
Context (encode_operations : list Operation -> string).

End served.

(** ** Objects with the order of their keys *)

(** An object that [MarshalJSON] wrote is read back as the slice it was written
    from, after what the slice it is read into held: in the same order, and where the
    slice had a key several times, once, in its first place with its last value; a
    slice with its keys each once comes back as it was. *)
Theorem ordered_roundtrip {V : Type} (decode : json -> res V) (encode : V -> res json) xs ys b :
  reads_back decode encode -> MarshalJSON encode (Some xs) = Ok b ->
  UnmarshalJSON decode ys (items b) = Ok (ys ++ last_values xs) /\
  NoDup (fst <$> last_values xs) /\ (NoDup (fst <$> xs) -> last_values xs = xs).
Proof.
  intros Hb Hm. split_and!; [|apply last_values_keys|apply last_values_NoDup].
  apply res_bind_ok in Hm as (m & Hm & [= <-]). unfold UnmarshalJSON. cbn [Token items res_bind].
  rewrite <- (app_nil_r ys) at 1. apply (members_keep decode encode ys m); [done..|].
  apply marshal_members_length in Hm. rewrite length_app. cbn [length]. rewrite length_concat_pairs. lia.
Qed.

(** ** At concrete inputs *)
Lemma in_reverse (l : list string) x : x ∈ reverse l <-> x ∈ l.
Proof. apply elem_of_reverse. Qed.

Lemma definitions_complete_witness :
  mentions (walker_of external_package) "IngressProfile" = ["Visibility"] /\
  exists ds', define_all reverse (walker_of external_package) [] ["OpenShiftClusterList"] = Ok ds' /\
    (forall n, reached (walker_of external_package) [] ["OpenShiftClusterList"] n ->
       get_key n ds' = Some (schema (walker_of external_package) n)) /\
    (forall n, ~ reached (walker_of external_package) [] ["OpenShiftClusterList"] n -> get_key n ds' = get_key n []) /\
    (forall n d, reached (walker_of external_package) [] ["OpenShiftClusterList"] n ->
       d ∈ mentions (walker_of external_package) n -> is_Some (get_key d ds')).
Proof.
  split; [by vm_compute|].
  apply (definitions_complete (walker_of external_package) reverse [] ["OpenShiftClusterList"]).
  - intros l x. apply in_reverse.
  - by vm_compute.
  - intros n ->%list_elem_of_singleton. apply (bool_decide_unpack _). by vm_compute.
Defined.

(** Files as they are written, after what was removed and made *)
Inductive effect := Removed (path : string) | Made (path : string) | Written (path : string) (j : json).
#[export] Instance effects : Outputs (list effect) := {|
  os_RemoveAll path w := (Ok tt, w ++ [Removed path]);
  os_MkdirAll path w := (Ok tt, w ++ [Made path]);
  write_json path j w := (Ok tt, w ++ [Written path j]);
|}.

Lemma specification_current_witness :
  length (snd (Run reverse reverse load "preview" [])) = 11 /\
  (exists examples, examples ≡ₚ examples_json /\
     forall w, Run reverse reverse load "preview" w = kept_files "preview" examples w) /\
  (forall r, r ∈ references redhatopenshift_json -> resolves redhatopenshift_json examples_json r).
Proof.
  split; [by vm_compute|]. apply specification_current; [intros l x; apply in_reverse|intros l; apply reverse_Permutation].
Defined.

Lemma ordered_roundtrip_witness :
  reads_back decode_int encode_int /\
  UnmarshalJSON decode_int [("z", 0%Z)] (items (JObject [("b", JLit (PInt 1)); ("a", JLit (PInt 2)); ("b", JLit (PInt 3))])) =
    Ok ([("z", 0%Z)] ++ last_values [("b", 1%Z); ("a", 2%Z); ("b", 3%Z)]) /\
  NoDup (fst <$> last_values [("b", 1%Z); ("a", 2%Z); ("b", 3%Z)]) /\
  (NoDup (fst <$> [("b", 1%Z); ("a", 2%Z); ("b", 3%Z)]) ->
   last_values [("b", 1%Z); ("a", 2%Z); ("b", 3%Z)] = [("b", 1%Z); ("a", 2%Z); ("b", 3%Z)]).
Proof.
  assert (reads_back decode_int encode_int) as Hb by (by intros v j [= <-]). split; [done|].
  apply (ordered_roundtrip decode_int encode_int [("b", 1%Z); ("a", 2%Z); ("b", 3%Z)] [("z", 0%Z)]); done.
Defined.


(** The values of the examples, and the path of the cluster with them *)
Example instantiate_example :
  instantiate (fun n => if decide (n = "resourceGroupName") then "resourceGroup" else n)
    "/subscriptions/{subscriptionId}/resourceGroups/{resourceGroupName}/providers/Microsoft.RedHatOpenShift/openShiftClusters/{resourceName}" =
  "/subscriptions/subscriptionId/resourceGroups/resourceGroup/providers/Microsoft.RedHatOpenShift/openShiftClusters/resourceName".
Proof. by vm_compute. Qed.
