(* ===== verification/ClientTheorems.v ===== *)
(** * The generated client and the server

    What the client sends is what the specification says and what the server serves;
    what the specification lets the server answer, the client accepts; and the cluster
    that a client describes is written as the service reads it. *)
From S2P Require Import Prelude GoStrings Regex.
From Stdlib Require Import Ascii.
From S2P Require Import Arm Marshal SwaggerTypes Swagger SwaggerData SwaggerSpec SwaggerServed.
From S2P Require Import Client.
From S2P Require Import Azure Api Services Domains Cosmos Database Static Frontend Mux Middleware Routes RoutesSpec SwaggerRequests Reference.















(** ** The server *)
Section served.
Context {W : Type} `{!Runtime W, !Account W} {PB : PageBound} `{!Cell W Header}.
Context `{!Cell W ResponseWriter, !Telemetry W, !ClientAuthorizer W}.
Context {EV : Env} {U : Url} {CD : Codec}.
Context (db : Database) (apis : gmap string (Version W)) (feature_operations : bool).
Context (encode_operations : list Operation -> string).







End served.

