(* ===== verification/SystemTheorems.v ===== *)
(** * Properties of the system *)
From S2P Require Import Prelude GoStrings.
From S2P Require Import Azure Api External Services Subnets Wait Kube.
From S2P Require Import Manager Graph Arm InstallTemplates Install Create.
From S2P Require Import Cosmos CosmosLaws Database DatabaseSpec.
From S2P Require Import Frontend FrontendSpec Backend.
From S2P Require Import Mux Middleware Authorizer Routes RoutesSpec.
From S2P Require Import RefCollection Reference.
From S2P Require Import Rely Lifecycle InstallSpec System RefShared RefInstall.

Section system.
Context {W : Type} `{!Runtime W, !Account W}.
Context `{!Collection W OpenShiftClusterDocument, !Collection W AsyncOperationDocument}.
Context (db : Database) {SA : SharedAccount W db} {PB : PageBound}.
Context `{!Cell W Header, !Cell W bool}.
Context `{!Cell W ResponseWriter, !Telemetry W, !ClientAuthorizer W}.
Context {EV : Env} {U : Url} {CD : Codec}.
Context `{!Auth W, !SubnetsClient W, !RecordSetsClient W, !PrivateEndpointsClient W, !GroupsClient W}.
Context `{!Ticks W, !InstallClients W, !Assets W} {DP : Depth} {CF : Config W} {KB : Kube W} {CR : Creation W}.
Context (apis : gmap string (Version W)) (feature_operations : bool).
Context {AR : Around W (guards well_kept promise)} {HA : Handlers W (guards well_kept promise) apis}.
Context {SQ : ServerQuiet W (guards well_kept promise)}.
Context (url_String : ServerRequest -> string) (ready : W -> bool).
Context (empty_error : string) (encode_operations : list Operation -> string).
#[local] Instance own_manager : ClusterManager W := manager db.
Implicit Types (s : System W).

(** C6: in every run of the system, in which requests are served, work is taken,
    done by the program's own cluster manager, with every phase of an installation,
    and given up and subscriptions are emptied in any order, and in which others write to the account between any two requests of any of these as long as
    they promise the same, the account stays well kept: each stored cluster is being
    worked on, or it is finished, then it has no lease and names no operation, and
    when it has failed the record says at which work; each operation a cluster names
    is stored and is that cluster's; and each document a goroutine was started for
    has work in it. *)
Theorem account_well_kept s s' :
  well_kept (sy_world s) -> (forall doc, doc ∈ sy_clusters s -> at_work doc (sy_world s)) ->
  rtc (step db apis feature_operations url_String ready empty_error encode_operations) s s' ->
  well_kept (sy_world s') /\ forall doc, doc ∈ sy_clusters s' -> at_work doc (sy_world s').
Proof.
  intros Hw Hp Hr. pose proof (manager_surrounded db apis AR HA) as SR.
  apply (run_ok db apis feature_operations url_String ready empty_error encode_operations s s' (conj Hw Hp) Hr).
Qed.
End system.

(** ** On the reference world *)

(** The work on a cluster that is to be created: the program's own manager installs it. *)
Definition made : System World :=
  mkSystem (snd (handle (ClusterManager0 := manager ref_db) ref_db (mkBeats 1 1 1) creating_document creating)) ([] ++ []) [].

Lemma creating_registered : registered ref_path "op" creating.
Proof. eexists. split; [vm_compute; reflexivity|reflexivity]. Qed.
Lemma creating_at_work : at_work creating_document creating.
Proof.
  split; [split|]; [|intros _; apply creating_registered|]; [|eexists; split; [reflexivity|by left]].
  eexists. split; [reflexivity|by left; left].
Qed.
Lemma creating_well_kept : well_kept creating.
Proof.
  split; intros k x [Hin Hk]%load_lookup.
  - apply list_elem_of_singleton in Hin as ->. split; [done|]. apply creating_at_work.
  - apply list_elem_of_singleton in Hin as ->. split; [done|]. by eexists.
Qed.

Lemma account_well_kept_witness :
  (exists d oc, store (D := OpenShiftClusterDocument) (sy_world made) !! ref_path = Some d /\
    ocd_OpenShiftCluster d = Some oc /\ state_of oc = ProvisioningStateSucceeded /\
    asp_URL (p_APIServerProfile (oc_Properties oc)) = "https://api.cluster.aro.example.com:6443/") /\
  well_kept (sy_world made) /\ forall doc, doc ∈ sy_clusters made -> at_work doc (sy_world made).
Proof.
  split; [eexists _, _; split; [vm_compute; reflexivity|split_and!; reflexivity]|].
  apply (account_well_kept ref_db ref_apis true (fun r => sr_Path r) (fun _ => true) "{}" (fun _ => "operations")
           (mkSystem creating ([] ++ creating_document :: []) []) made).
  - apply creating_well_kept.
  - intros doc ->%list_elem_of_singleton. apply creating_at_work.
  - apply rtc_once.
    exact (step_handle (ClusterManager0 := manager ref_db) ref_db ref_apis true (fun r => sr_Path r) (fun _ => true)
             "{}" (fun _ => "operations") (mkBeats 1 1 1) creating_document creating [] [] []).
Defined.
